(* ===== verification/_CoqProject ===== *)
-Q . S2P
Prelude.v
GoStrings.v
GoNum.v
Sha256.v
GoRand.v
GoUrl.v
Json.v
JsonParse.v
JsonIndent.v
GoTime.v
Http.v
AuditEvent.v
MemoryLog.v
AsyncLog.v
ServeMux.v
Registry.v
Pagination.v
DataEndpoints.v
FailureEndpoints.v
InspectEndpoints.v
SecurityEndpoints.v
StreamEndpoints.v
ExportEndpoints.v
Inbound.v
Middleware.v
Config.v
Oidc.v
Session.v
Server.v
Routing.v
Handlers.v
OpenApi.v
OpenApiJson.v
Conformance.v
EndToEnd.v
BrowserAuth.v
Sql.v
PgStore.v
PgRows.v
PgAudit.v
ApiKeys.v
GoUrlParse.v
PortalApi.v
Aggregations.v
AuditStream.v
Replay.v
PortalServer.v
Dispatch.v
TryIt.v
Reissue.v
AuthContext.v
Boot.v
Lifecycle.v
Published.v
Pipeline.v
Journey.v
