(* ===== verification/Prelude.v ===== *)
(** * Verification of api-test

    api-test is an HTTP server with synthetic endpoints against which an API gateway is tested.
    Everything it serves under [/v1/] is authenticated, audited and reproducible; a portal shows
    what was recorded.  This library models the server in Rocq, package by package, and proves what
    makes each part correct and what holds of a request that goes through all of them.

    ** The program and its model

    A request meets, from the outside in, [RequestID], [AccessLog], CORS and the browser redirect,
    the mux, and, on an endpoint route, the identity middleware, the audit middleware and the
    endpoint's handler ([internal/server/server.go], [Build]).  The model has the same layers, and
    [Server.Application_mux] is their composition.  On a portal route the mux hands the request to the
    portal's own authentication and to a handler that reads the audit log or the key table, or runs a
    further request through the same mux; [PortalServer.portalApplication] is the server with the portal
    on it.  Below the audit middleware an asynchronous logger writes to Postgres.

    The Go language and its standard library, as far as the program uses them:
    - [GoStrings] strings as bytes, UTF-8, case folding; [GoNum] the 64-bit [int], [strconv],
      hexadecimal and base64; [GoTime] times, durations and RFC 3339; [GoUrl] query strings and
      header maps, [GoUrlParse] URLs; [Json], [JsonIndent] and [JsonParse] the JSON encoder, its indented
      form and the decoder; [Sha256] SHA-256, HMAC and FNV-1a; [GoRand] the PCG generator; [Http] requests, response writers and handlers;
      [ServeMux] pattern matching and dispatch.

    The program:
    - [Registry]: [pkg/endpoints/registry.go], groups, route metadata, [RouteForRequest];
    - [Pagination], [DataEndpoints], [FailureEndpoints], [InspectEndpoints] (modules [Echo],
      [IdentityGroup] and [Methods]), [SecurityEndpoints], [StreamEndpoints], [ExportEndpoints]:
      the packages under [pkg/endpoints], one definition per handler and helper;
    - [AuditEvent], [MemoryLog], [AsyncLog]: [pkg/audit], the event record and its redaction, the
      logger interface with the in-memory logger, the asynchronous logger;
    - [Inbound]: [pkg/auth/inbound], the credential chain; [Oidc]: [pkg/auth/oidc.go], the key
      cache and the token validator;
    - [Middleware]: [pkg/httpmw]; [Config]: [pkg/config];
    - [Session], [BrowserAuth]: [pkg/httpsrv/session.go], [portalauth.go], [authgate.go] and
      [browserauth.go], session cookies and the OIDC login flow of the portal;
    - [Server]: the mux of [internal/server/server.go] and the parts of [pkg/httpsrv] that serve
      requests outside the portal API; [Routing], [Handlers] and [EndToEnd]: theorems about the
      composed server;
    - [OpenApi]: [pkg/oapi], types, schemas, operations and the self check; [OpenApiJson]: the struct
      tags of [doc.go] and [RenderJSON]; [Conformance]: what the endpoints send has the published types;
    - [Sql]: the SQL the program sends and a relational store that executes it over the schema of
      [pkg/database/migrate/migrations]; [PgStore], [PgRows], [PgAudit]: [pkg/audit/postgres];
      [ApiKeys]: [pkg/apikeys];
    - [PortalApi]: [pkg/httpsrv/portal_api.go]; [Aggregations]: [portal_audit_aggregations.go];
      [AuditStream]: [portal_audit_stream.go]; [Replay]: [portal_audit_replay.go] and
      [portal_tryit.go]; [PortalServer]: [PortalAPI.Mount] and the mux that dispatches into itself;
      [Dispatch], [TryIt] and [Reissue]: theorems about these; [AuthContext]: [pkg/auth/context.go];
    - [Boot]: [Build] and [buildPortal] of [internal/server/server.go], [pkg/database],
      [internal/ui] and [cmd/api-test]; [Lifecycle]: [Run] and [Close];
    - [Published]: the document as the built server serves it; [Pipeline]: the queue, its worker and
      the tables put together; [Journey]: the server of [EndToEnd] logging into that pipeline, read
      through the portal.

    ** How code is rendered

    A struct is a record, an interface a class with one instance per implementation, a function that
    returns an error a function into [res].  [int] is [Z] with [wrap64] where an operation can leave
    the 64-bit range.  A handler is a function of the environment (clock, fresh identifiers,
    cancellation, arriving chunks), the request and the state of the server; what it does to its
    response writer is a list of calls executed on any [ResponseWriter], because the middleware
    wraps the writer and records the calls.  Endpoint handlers ([EHandler]) have no state of their
    own; the server's state is [ServerState]: the audit logger, the identity holder of the request,
    the access log, what was read of the request body, the readiness flag and the nonce ledger.
    Concurrency is modelled as a step relation over arbitrary interleavings where the program has it:
    producers, worker and shutdown of the asynchronous logger ([AsyncLog]), lookups that share a
    refresh ([Oidc]), listener, signal and clock of [Run] ([Lifecycle]); the long readers of the log
    (live tail, export) see a log that may change at every query ([AuditStream]).  Elsewhere a request
    is one sequence of steps, and a portal handler reads one state of the log.

    Code outside the repository enters as a class with the laws the program relies on:
    [UnicodeTables] (tables only, no laws), [Float64] (order of IEEE numbers), [SortSlice] (a sorted
    permutation), [MapRange] (a permutation of a map's entries), [JsonAny] (decoding into [any]),
    [Outside] (random bytes, identity provider), [Jwt] (the JWT library), [Postgres] and [Locale] (the
    database server), [Bcrypt], [UUID], [UrlHost] (the syntax of hosts), [FloatEnv] and [ErrorTexts]
    (texts of numbers and of errors), [Surroundings] (what [Build] opens); and the YAML decoder as an
    argument of [Config.Load].  Each has an instance, with which the witnesses evaluate the theorems
    on concrete inputs.  The process runs in UTC, products and sums of floating-point numbers are not
    fused, and request bodies come with their length.

    ** What is proved

    - One request ([EndToEnd]): for every route of every configuration the client, the access log and
      the audit log agree on what happened, because every handler is recorded faithfully
      ([Handlers]); a refused request reaches no handler and leaves no audit event; CSRF protection
      and the limits of CORS.
    - Routing ([Routing]): for any set of enabled groups every route instance is dispatched to the
      handler its group mounted, and the registry's own matcher names the same route; HEAD requests
      are served but not attributed.
    - Audit: the asynchronous logger loses, duplicates and reorders nothing it accepted and [Close]
      drains and terminates ([AsyncLog]); the audit middleware is transparent and its events are
      truthful, whatever writer it wraps; redaction covers headers and query ([Middleware],
      [AuditEvent], [InspectEndpoints]); paging over the log is complete ([MemoryLog]).
    - The whole audit path: with a connection that can fail at every round trip, the portal lists
      exactly the events whose writes took effect ([Pipeline]); a request accepted while the queue is
      open is written before [Close] returns, and its page shows what the client was served
      ([Journey]).
    - Authentication: the order of the chain and its refusals ([Inbound]); which tokens the
      validator accepts and when it falls back on stale keys ([Oidc]); session cookies round-trip,
      expire and are signed ([Session]); the login flow is sound and can be completed, nonces are
      single-use while they are remembered, the portal is never anonymous ([BrowserAuth]).
    - Endpoints: the three pagination styles serve exactly the dataset, cursors round-trip, no page
      number overflows ([Pagination]); the streamed bodies equal their reference
      ([DataEndpoints], [StreamEndpoints], [ExportEndpoints]); controlled failures
      ([FailureEndpoints]); inert probes ([SecurityEndpoints]).
    - Configuration ([Config]): what a configuration that loads satisfies; expansion is one pass.
    - The OpenAPI document: every route is in it with its parameters and schema, the self check is
      exact, responses have the published types ([OpenApi], [Conformance]); indented JSON decodes to
      what was encoded ([JsonIndent]), so the text served at [/openapi.json] describes exactly the
      routes of the server ([Published]).
    - Postgres: logging is atomic, and for storable events the store answers as the in-memory log
      does ([PgAudit]); the key table's invariant and the life of a key ([ApiKeys]).
    - The portal: its configuration page shows no secret ([PortalApi]); its aggregations equal their
      definition by counting ([Aggregations]); the export writes every event once if none arrives late
      and the live tail repeats none ([AuditStream]); nothing under [/api/] is shown or changed
      without an identity, and the self-dispatching mux is well defined ([Dispatch]); Try-It and replay
      run the route they name, with what was typed in or captured ([TryIt], [Reissue]).
    - The process: a configuration that loads starts ([Boot]); shutdown is bounded, and the
      pre-shutdown delay is not waited for ([Lifecycle]).

    ** Fuel

    Recursion that is not structural carries a counter.  [udec_loop] (digits of a number),
    [expand_loop], [lexString] and [parseValue] (length of the text), [sized_loop] (bytes to send)
    and the walks of [Pagination] (items left) get at least as many rounds as they can use, and the
    lemmas next to them prove that the result is reached; a longer input to [parseValue] than its
    fuel cannot occur, since the fuel is the length of the text.  [substitute_loop] gets the length of
    the template; [exportLoop] the limit of 100,000 events, of which every round writes at least one;
    the live tail reads at most 10 pages per tick, as the code does; the percentile index is checked
    for every length up to 1,000, the most a query returns.  [serverMux] unfolds its own dispatch
    twice, which [Dispatch] proves to be all there is.  [reject_loop] of [GoRand] is
    bounded because Go's loop has no bound that holds with certainty.

    ** What is not modelled

    The text of the YAML rendering and the migrations' runner (the YAML encoder, pgx and golang-migrate
    are parameters); TLS, connection handling and timeouts of [net/http]; the parsing of flags; the
    lines of the log other than the access log; the user interface under [ui/].  [CONNECT] requests, whose paths the mux does not clean, and
    chunked request bodies without a length are left out. *)
From Stdlib Require Export ZArith Lia Ascii String.
From stdpp Require Export base gmap strings list sorting.

#[global] Open Scope string_scope.
#[global] Open Scope Z_scope.
#[global] Arguments String.append !_ _ : simpl nomatch.

(** ** Fallible results

    Go functions that return [(T, error)] are modelled by [res E T]. *)
Inductive res (E A : Type) : Type :=
| Ok (a : A)
| Err (e : E).
Arguments Ok {E A} a.
Arguments Err {E A} e.

#[global] Instance res_ret {E} : MRet (res E) := fun A x => Ok x.
#[global] Instance res_bind {E} : MBind (res E) := fun A B f m =>
  match m with Ok a => f a | Err e => Err e end.
#[global] Instance res_fmap {E} : FMap (res E) := fun A B f m =>
  match m with Ok a => Ok (f a) | Err e => Err e end.

Definition res_opt {E A} (r : res E A) : option A :=
  match r with Ok a => Some a | Err _ => None end.

(** ** Byte strings

    A Go [string] and a Go [[]byte] are both sequences of bytes: Rocq's [string], whose
    characters are exactly the 256 bytes. *)
Definition len (s : string) : Z := Z.of_nat (String.length s).
Definition byte (c : ascii) : Z := Z.of_N (N_of_ascii c).
Definition chr (z : Z) : ascii := ascii_of_N (Z.to_N z).

(** The one-byte string. *)
Definition str1 (c : ascii) : string := String c EmptyString.

(** Bytes that a string literal cannot hold. *)
Definition dquote : string := str1 (chr 34).
Definition newline : string := str1 (chr 10).

(** Go's [s[:n]] and [s[n:]] for an in-range [n]. *)
Fixpoint stake (n : nat) (s : string) : string :=
  match n, s with
  | O, _ => EmptyString
  | S _, EmptyString => EmptyString
  | S m, String c s' => String c (stake m s')
  end.
Fixpoint sdrop (n : nat) (s : string) : string :=
  match n, s with
  | O, _ => s
  | S _, EmptyString => EmptyString
  | S m, String _ s' => sdrop m s'
  end.

Fixpoint string_forallb (p : ascii -> bool) (s : string) : bool :=
  match s with
  | EmptyString => true
  | String c s' => p c && string_forallb p s'
  end.
Fixpoint string_map (f : ascii -> ascii) (s : string) : string :=
  match s with
  | EmptyString => EmptyString
  | String c s' => String (f c) (string_map f s')
  end.
Fixpoint string_filter (p : ascii -> bool) (s : string) : string :=
  match s with
  | EmptyString => EmptyString
  | String c s' => if p c then String c (string_filter p s') else string_filter p s'
  end.

Definition sconcat (l : list string) : string := foldr String.append EmptyString l.

(** ** Development tactics *)

(** Split every boolean test of the goal and the hypotheses into its arithmetic meaning. *)
Ltac bools :=
  repeat match goal with
  | H : andb _ _ = true |- _ => apply andb_true_iff in H; destruct H
  | H : andb _ _ = false |- _ => apply andb_false_iff in H
  | H : orb _ _ = true |- _ => apply orb_true_iff in H
  | H : orb _ _ = false |- _ => apply orb_false_iff in H; destruct H
  | H : negb _ = true |- _ => apply negb_true_iff in H
  | H : negb _ = false |- _ => apply negb_false_iff in H
  | H : (_ =? _)%Z = true |- _ => apply Z.eqb_eq in H
  | H : (_ =? _)%Z = false |- _ => apply Z.eqb_neq in H
  | H : (_ <? _)%Z = true |- _ => apply Z.ltb_lt in H
  | H : (_ <? _)%Z = false |- _ => apply Z.ltb_ge in H
  | H : (_ <=? _)%Z = true |- _ => apply Z.leb_le in H
  | H : (_ <=? _)%Z = false |- _ => apply Z.leb_gt in H
  | H : String.eqb _ _ = true |- _ => apply String.eqb_eq in H
  | H : String.eqb _ _ = false |- _ => apply String.eqb_neq in H
  | H : Ascii.eqb _ _ = true |- _ => apply Ascii.eqb_eq in H
  | H : Ascii.eqb _ _ = false |- _ => apply Ascii.eqb_neq in H
  | H : bool_decide _ = true |- _ => apply bool_decide_eq_true in H
  | H : bool_decide _ = false |- _ => apply bool_decide_eq_false in H
  end.

(** Case on the condition of the first [if] in sight, with its meaning in the context. *)
Ltac case_if :=
  match goal with
  | |- context [if ?b then _ else _] => destruct b eqn:?; bools
  | H : context [if ?b then _ else _] |- _ => destruct b eqn:?; bools
  end.
Ltac case_ifs := repeat (case_if; simplify_eq/=).

(** [lia] that also understands division and modulus. *)
Ltac zlia := Z.div_mod_to_equations; lia.

Create Rewrite HintDb gostr.
Create HintDb gonum.

(** ** Shared lemmas: bytes *)

Lemma byte_range c : 0 <= byte c < 256.
Proof. unfold byte. pose proof (N_ascii_bounded c). lia. Qed.

Lemma chr_byte c : chr (byte c) = c.
Proof. unfold chr, byte. rewrite N2Z.id. apply ascii_N_embedding. Qed.

Lemma byte_chr z : 0 <= z < 256 -> byte (chr z) = z.
Proof. intros. unfold chr, byte. rewrite N_ascii_embedding; lia. Qed.

Lemma byte_inj c d : byte c = byte d -> c = d.
Proof. intros H. rewrite <- (chr_byte c), <- (chr_byte d). by rewrite H. Qed.

(** ** Shared lemmas: strings *)

Lemma sapp_nil_r s : s ++ "" = s.
Proof. induction s as [|c s IH]; simpl; congruence. Qed.

Lemma sapp_assoc s t u : s ++ t ++ u = (s ++ t) ++ u.
Proof. induction s as [|c s IH]; simpl; congruence. Qed.

(** Right-nest every concatenation, literals expanded. *)
Ltac sapp_norm := repeat (progress (simpl; rewrite <- ?sapp_assoc)).

Lemma sapp_length s t : String.length (s ++ t) = (String.length s + String.length t)%nat.
Proof. induction s as [|c s IH]; simpl; lia. Qed.

Lemma sapp_inj_l s t u : s ++ t = s ++ u -> t = u.
Proof. induction s as [|c s IH]; simpl; [done|]. intros [= H]. by apply IH. Qed.

Lemma len_app s t : len (s ++ t) = len s + len t.
Proof. unfold len. rewrite sapp_length. lia. Qed.

Lemma len_nonneg s : 0 <= len s.
Proof. unfold len. lia. Qed.

Lemma len_zero s : len s = 0 -> s = "".
Proof. destruct s; unfold len; simpl; [done|lia]. Qed.

Lemma stake_sdrop n s : stake n s ++ sdrop n s = s.
Proof. revert s. induction n as [|n IH]; intros [|c s]; simpl; try done. by rewrite IH. Qed.

Lemma stake_length n s : String.length (stake n s) = Nat.min n (String.length s).
Proof. revert s. induction n as [|n IH]; intros [|c s]; simpl; try done. by rewrite IH. Qed.

Lemma sdrop_length n s : String.length (sdrop n s) = (String.length s - n)%nat.
Proof. revert s. induction n as [|n IH]; intros [|c s]; simpl; try done. Qed.

Lemma stake_ge n s : (String.length s <= n)%nat -> stake n s = s.
Proof.
  revert s. induction n as [|n IH]; intros [|c s]; simpl; try done; [lia|].
  intros. rewrite IH; [done|lia].
Qed.

Lemma stake_app_le n s t : (n <= String.length s)%nat -> stake n (s ++ t) = stake n s.
Proof.
  revert s. induction n as [|n IH]; intros [|c s]; simpl; try done; [lia|].
  intros. rewrite IH; [done|lia].
Qed.

Lemma stake_app_ge n s t :
  (String.length s <= n)%nat -> stake n (s ++ t) = s ++ stake (n - String.length s) t.
Proof.
  revert n. induction s as [|c s IH]; intros n; simpl; [by rewrite Nat.sub_0_r|].
  destruct n as [|n]; simpl; [lia|]. intros. rewrite IH; [done|lia].
Qed.

Lemma stake_app_len s t : stake (String.length s) (s ++ t) = s.
Proof. rewrite stake_app_le by lia. by apply stake_ge. Qed.

Lemma sdrop_app_len s t : sdrop (String.length s) (s ++ t) = t.
Proof. induction s as [|c s IH]; simpl; done. Qed.

Lemma sconcat_app l k : sconcat (l ++ k)%list = sconcat l ++ sconcat k.
Proof. induction l as [|s l IH]; simpl; [done|]. by rewrite IH, sapp_assoc. Qed.

Lemma string_forallb_app p s t :
  string_forallb p (s ++ t) = string_forallb p s && string_forallb p t.
Proof. induction s as [|c s IH]; simpl; [done|]. by rewrite IH, andb_assoc. Qed.

Lemma string_forallb_impl (p q : ascii -> bool) s :
  (forall c, p c = true -> q c = true) ->
  string_forallb p s = true -> string_forallb q s = true.
Proof.
  intros Hpq. induction s as [|c s IH]; simpl; [done|].
  intros [Hc Hs]%andb_true_iff. rewrite (Hpq _ Hc). by apply IH.
Qed.

Lemma string_filter_id p s : string_forallb p s = true -> string_filter p s = s.
Proof.
  induction s as [|c s IH]; simpl; [done|]. intros [Hc Hs]%andb_true_iff.
  rewrite Hc. by rewrite IH.
Qed.

#[export] Hint Rewrite sapp_nil_r sapp_length len_app : gostr.
#[export] Hint Resolve byte_range len_nonneg : gonum.

Lemma string_of_list_ascii_app l k :
  string_of_list_ascii (l ++ k)%list = string_of_list_ascii l ++ string_of_list_ascii k.
Proof. induction l as [|c l IH]; simpl; [done|]. by rewrite IH. Qed.

Lemma string_of_list_ascii_length l : String.length (string_of_list_ascii l) = length l.
Proof. induction l as [|c l IH]; simpl; [done|]. by rewrite IH. Qed.

(** ** Lists *)

Lemma NoDup_map_inj {A B} (f : A -> B) (l : list A) x y : NoDup (map f l) -> x ∈ l -> y ∈ l -> f x = f y -> x = y.
Proof.
  intros Hnd Hx Hy E. apply list_elem_of_lookup in Hx as [i Hi], Hy as [j Hj].
  assert (i = j) as ->; [|congruence].
  apply (NoDup_lookup (map f l) i j (f x) Hnd); rewrite list_lookup_fmap; [by rewrite Hi|by rewrite Hj, E].
Qed.

Lemma filter_none {A} (P : A -> Prop) `{!forall x, Decision (P x)} (l : list A) : (forall x, x ∈ l -> ~ P x) -> filter P l = [].
Proof.
  induction l as [|x l IH]; intros Hl; [done|]. rewrite filter_cons_False by (apply Hl; left). apply IH. intros y Hy. apply Hl. by right.
Qed.
Lemma filter_ext_elem {A} (p q : A -> bool) (l : list A) : (forall x, x ∈ l -> p x = q x) ->
  filter (fun x => p x = true) l = filter (fun x => q x = true) l.
Proof.
  induction l as [|x l IH]; intros He; [done|]. rewrite !filter_cons, (He x) by (by left).
  rewrite IH; [done|]. intros y Hy. apply He. by right.
Qed.

Lemma forallb_Forall {A} (p : A -> bool) l : forallb p l = true -> Forall (fun x => p x = true) l.
Proof. induction l as [|x l IH]; intros Hl; [constructor|]. cbn in Hl. apply andb_true_iff in Hl as [Hx Hl]. constructor; auto. Qed.

Lemma sublist_map {A B} (f : A -> B) l k : l `sublist_of` k -> map f l `sublist_of` map f k.
Proof. induction 1; simpl; by constructor. Qed.
