(* ===== verification/GoStrings.v ===== *)
(** * Go's [strings], [unicode/utf8] and [unicode] as api-test uses them

    Strings are byte sequences; the functions that Go defines on runes ([ToLower], [TrimSpace],
    [EqualFold], [strconv.Quote]) go through the UTF-8 decoder.  The Unicode tables themselves
    (lower-case mapping, case folding, printability of runes outside ASCII) are the parameter
    [UnicodeTables]: nothing below depends on their contents. *)
From S2P Require Import Prelude.

(** ** Byte-level functions *)

Fixpoint HasPrefix (s p : string) {struct p} : bool :=
  match p, s with
  | EmptyString, _ => true
  | String a p', String b s' => Ascii.eqb a b && HasPrefix s' p'
  | String _ _, EmptyString => false
  end.

Fixpoint Contains (s sub : string) : bool :=
  HasPrefix s sub ||
  match s with
  | EmptyString => false
  | String _ s' => Contains s' sub
  end.

(** [strings.Cut(s, sep)] for a one-byte separator. *)
Fixpoint Cut (s : string) (sep : ascii) : string * string * bool :=
  match s with
  | EmptyString => ("", "", false)
  | String c s' =>
    if Ascii.eqb c sep then ("", s', true)
    else let '(a, b, f) := Cut s' sep in (String c a, b, f)
  end.

(** [strings.Split(s, sep)] for a one-byte separator: always at least one piece. *)
Fixpoint Split (s : string) (sep : ascii) : list string :=
  match s with
  | EmptyString => [""]
  | String c s' =>
    if Ascii.eqb c sep then "" :: Split s' sep
    else match Split s' sep with
         | p :: ps => String c p :: ps
         | [] => [str1 c]
         end
  end.

Fixpoint Join (l : list string) (sep : string) : string :=
  match l with
  | [] => ""
  | [x] => x
  | x :: l' => x ++ sep ++ Join l' sep
  end.

Fixpoint ContainsByte (s : string) (c : ascii) : bool :=
  match s with
  | EmptyString => false
  | String d s' => Ascii.eqb d c || ContainsByte s' c
  end.

(** [strings.TrimRight(s, "c")]. *)
Fixpoint TrimRightByte (s : string) (c : ascii) : string :=
  match s with
  | EmptyString => ""
  | String d s' =>
    let t := TrimRightByte s' c in
    if Ascii.eqb d c && String.eqb t "" then "" else String d t
  end.

Definition TrimPrefix (s p : string) : string :=
  if HasPrefix s p then sdrop (String.length p) s else s.

(** [s[i:]] for [i = strings.LastIndex(s, "c")], [None] when that is -1. *)
Fixpoint LastFrom (s : string) (c : ascii) : option string :=
  match s with
  | EmptyString => None
  | String d s' =>
    match LastFrom s' c with
    | Some t => Some t
    | None => if Ascii.eqb d c then Some s else None
    end
  end.

Fixpoint Repeat (s : string) (n : nat) : string :=
  match n with O => "" | S m => s ++ Repeat s m end.

(** Go's [<] on strings: lexicographic on bytes. *)
Fixpoint str_ltb (s t : string) : bool :=
  match s, t with
  | EmptyString, EmptyString => false
  | EmptyString, String _ _ => true
  | String _ _, EmptyString => false
  | String a s', String b t' =>
    if byte a =? byte b then str_ltb s' t' else byte a <? byte b
  end.

(** ** UTF-8 *)

Definition RuneError : Z := 65533.

(** One element of Go's [for _, r := range s]: a well-formed rune with its encoding, or one
    byte that starts no well-formed encoding (seen by the loop as [RuneError]). *)
Inductive chunk :=
| Rune (r : Z) (enc : string)
| Bad (c : ascii).

Definition chunk_rune (k : chunk) : Z := match k with Rune r _ => r | Bad _ => RuneError end.
Definition chunk_bytes (k : chunk) : string := match k with Rune _ e => e | Bad c => str1 c end.

Definition between (lo z hi : Z) : bool := (lo <=? z) && (z <=? hi).
Definition cont (c : ascii) : bool := between 128 (byte c) 191.

(** Which second bytes a three-byte or four-byte lead accepts. *)
Definition second3 (b0 : Z) (c : ascii) : bool :=
  if b0 =? 224 then between 160 (byte c) 191
  else if b0 =? 237 then between 128 (byte c) 159 else cont c.
Definition second4 (b0 : Z) (c : ascii) : bool :=
  if b0 =? 240 then between 144 (byte c) 191
  else if b0 =? 244 then between 128 (byte c) 143 else cont c.

Fixpoint utf8_decode (s : string) : list chunk :=
  match s with
  | EmptyString => []
  | String c0 s1 =>
    let b0 := byte c0 in
    if b0 <? 128 then Rune b0 (str1 c0) :: utf8_decode s1
    else if between 194 b0 223 then
      match s1 with
      | String c1 s2 =>
        if cont c1
        then Rune ((b0 - 192) * 64 + (byte c1 - 128)) (String c0 (str1 c1)) :: utf8_decode s2
        else Bad c0 :: utf8_decode s1
      | EmptyString => [Bad c0]
      end
    else if between 224 b0 239 then
      match s1 with
      | String c1 (String c2 s3) =>
        if second3 b0 c1 && cont c2
        then Rune ((b0 - 224) * 4096 + (byte c1 - 128) * 64 + (byte c2 - 128))
                  (String c0 (String c1 (str1 c2))) :: utf8_decode s3
        else Bad c0 :: utf8_decode s1
      | _ => Bad c0 :: utf8_decode s1
      end
    else if between 240 b0 244 then
      match s1 with
      | String c1 (String c2 (String c3 s4)) =>
        if second4 b0 c1 && cont c2 && cont c3
        then Rune ((b0 - 240) * 262144 + (byte c1 - 128) * 4096
                   + (byte c2 - 128) * 64 + (byte c3 - 128))
                  (String c0 (String c1 (String c2 (str1 c3)))) :: utf8_decode s4
        else Bad c0 :: utf8_decode s1
      | _ => Bad c0 :: utf8_decode s1
      end
    else Bad c0 :: utf8_decode s1
  end.

Definition utf8_Valid (s : string) : bool :=
  forallb (fun k => match k with Rune _ _ => true | Bad _ => false end) (utf8_decode s).

(** [utf8.AppendRune]: surrogates and out-of-range values encode as [RuneError]. *)
Definition utf8_encode (r0 : Z) : string :=
  let r := if (r0 <? 0) || (1114111 <? r0) || between 55296 r0 57343 then RuneError else r0 in
  if r <? 128 then str1 (chr r)
  else if r <? 2048 then String (chr (192 + r / 64)) (str1 (chr (128 + r mod 64)))
  else if r <? 65536 then
    String (chr (224 + r / 4096)) (String (chr (128 + r / 64 mod 64)) (str1 (chr (128 + r mod 64))))
  else
    String (chr (240 + r / 262144)) (String (chr (128 + r / 4096 mod 64))
      (String (chr (128 + r / 64 mod 64)) (str1 (chr (128 + r mod 64))))).

(** ** Unicode *)

(** The tables of package [unicode] for runes outside ASCII. *)
Class UnicodeTables := {
  rune_lower : Z -> Z;   (** [unicode.ToLower] *)
  rune_upper : Z -> Z;   (** [unicode.ToUpper] *)
  rune_fold : Z -> Z;    (** the least rune of the [unicode.SimpleFold] orbit *)
  rune_print : Z -> bool (** [strconv.IsPrint] *)
}.

(** The tables cut down to ASCII, for evaluation on concrete inputs. *)
Definition ascii_tables : UnicodeTables :=
  {| rune_lower := id; rune_upper := id; rune_fold := id; rune_print := fun r => r <? 127 |}.

Definition isUpper (c : ascii) : bool := between 65 (byte c) 90.
Definition isLower (c : ascii) : bool := between 97 (byte c) 122.
Definition lower_ascii (c : ascii) : ascii := if isUpper c then chr (byte c + 32) else c.
Definition upper_ascii (c : ascii) : ascii := if isLower c then chr (byte c - 32) else c.
Definition isASCII (s : string) : bool := string_forallb (fun c => byte c <? 128) s.

(** [unicode.IsSpace]. *)
Definition isSpace (r : Z) : bool :=
  between 9 r 13 || (r =? 32) || (r =? 133) || (r =? 160) || (r =? 5760) || between 8192 r 8202
  || (r =? 8232) || (r =? 8233) || (r =? 8239) || (r =? 8287) || (r =? 12288).

Fixpoint drop_space (l : list chunk) : list chunk :=
  match l with
  | k :: l' => if isSpace (chunk_rune k) then drop_space l' else l
  | [] => []
  end.

Definition chunks_bytes (l : list chunk) : string := sconcat (map chunk_bytes l).

Definition TrimSpace (s : string) : string :=
  chunks_bytes (rev (drop_space (rev (drop_space (utf8_decode s))))).

Section Unicode.
Context `{UnicodeTables}.

Definition lower_rune (r : Z) : Z :=
  if r <? 128 then byte (lower_ascii (chr r)) else rune_lower r.
Definition upper_rune (r : Z) : Z :=
  if r <? 128 then byte (upper_ascii (chr r)) else rune_upper r.
(** In each orbit with an ASCII letter the least rune is the upper-case ASCII letter. *)
Definition fold_rune (r : Z) : Z :=
  if r <? 128 then byte (upper_ascii (chr r)) else rune_fold r.

(** [strings.Map]: each rune is replaced, an ill-formed byte counts as [RuneError]. *)
Definition Map (f : Z -> Z) (s : string) : string :=
  sconcat (map (fun k => utf8_encode (f (chunk_rune k))) (utf8_decode s)).

Definition ToLower (s : string) : string :=
  if isASCII s then string_map lower_ascii s else Map lower_rune s.
Definition ToUpper (s : string) : string :=
  if isASCII s then string_map upper_ascii s else Map upper_rune s.

Fixpoint runes_fold_eqb (l k : list chunk) : bool :=
  match l, k with
  | [], [] => true
  | a :: l', b :: k' =>
    (fold_rune (chunk_rune a) =? fold_rune (chunk_rune b)) && runes_fold_eqb l' k'
  | _, _ => false
  end.
Definition EqualFold (s t : string) : bool := runes_fold_eqb (utf8_decode s) (utf8_decode t).

End Unicode.

(** ** Specifications of the byte-level functions *)

Lemma HasPrefix_spec s p : HasPrefix s p = true <-> exists t, s = p ++ t.
Proof.
  revert s. induction p as [|a p IH]; intros s; simpl.
  - split; [by exists s | done].
  - destruct s as [|b s]; [split; [done | by intros [? ?]]|].
    rewrite andb_true_iff, Ascii.eqb_eq, IH. split.
    + intros [-> [t ->]]. by exists t.
    + intros [t [= -> ->]]. eauto.
Qed.

Lemma HasPrefix_app p t : HasPrefix (p ++ t) p = true.
Proof. apply HasPrefix_spec. by exists t. Qed.

Lemma HasPrefix_sdrop s p : HasPrefix s p = true -> s = p ++ sdrop (String.length p) s.
Proof. intros [t ->]%HasPrefix_spec. by rewrite sdrop_app_len. Qed.

Lemma Contains_spec s sub : Contains s sub = true <-> exists a b, s = a ++ sub ++ b.
Proof.
  induction s as [|c s IH].
  - change (Contains "" sub) with (HasPrefix "" sub || false).
    rewrite orb_false_r, HasPrefix_spec. split.
    + intros [t ?]. by exists "", t.
    + intros ([|? a] & b & ?); [by exists b | done].
  - change (Contains (String c s) sub) with (HasPrefix (String c s) sub || Contains s sub).
    rewrite orb_true_iff, HasPrefix_spec, IH. split.
    + intros [[t ?] | (a & b & ->)]; [by exists "", t | by exists (String c a), b].
    + intros ([|? a] & b & Heq); simpl in Heq; [left; by exists b |].
      injection Heq as -> ->. right. by exists a, b.
Qed.

(** Every element of a joined list occurs in the joined string. *)
Lemma Contains_Join l sep x : x ∈ l -> Contains (Join l sep) x = true.
Proof.
  intros Hx. apply Contains_spec. induction Hx as [x l|x y l Hx (a & b & E)].
  - destruct l as [|z l]; [by exists "", ""; simpl; rewrite sapp_nil_r|].
    by exists "", (sep ++ Join (z :: l) sep).
  - destruct l as [|z l]; [by apply not_elem_of_nil in Hx|].
    exists (y ++ sep ++ a), b. change (Join (y :: z :: l) sep) with (y ++ sep ++ Join (z :: l) sep).
    rewrite E. by rewrite !sapp_assoc.
Qed.

Lemma Contains_empty s : Contains s "" = true.
Proof. apply Contains_spec. by exists "", s. Qed.

Lemma ContainsByte_app s t c : ContainsByte (s ++ t) c = ContainsByte s c || ContainsByte t c.
Proof. induction s as [|d s IH]; simpl; [done|]. by rewrite IH, orb_assoc. Qed.

Lemma Contains_str1 s c : Contains s (str1 c) = ContainsByte s c.
Proof.
  induction s as [|d s IH]; simpl; [done|]. rewrite IH, andb_true_r. f_equal.
  destruct (Ascii.eqb_spec c d), (Ascii.eqb_spec d c); congruence.
Qed.

Lemma Cut_found a b sep : ContainsByte a sep = false -> Cut (a ++ String sep b) sep = (a, b, true).
Proof.
  induction a as [|c a IH]; simpl; [by rewrite Ascii.eqb_refl|].
  intros [-> Ha]%orb_false_iff. by rewrite IH.
Qed.

Lemma Cut_absent s sep : ContainsByte s sep = false -> Cut s sep = (s, "", false).
Proof.
  induction s as [|c s IH]; simpl; [done|].
  intros [-> Hs]%orb_false_iff. by rewrite IH.
Qed.

Lemma Cut_spec s sep a b f :
  Cut s sep = (a, b, f) ->
  ContainsByte a sep = false /\ if f then s = a ++ String sep b else s = a /\ b = "".
Proof.
  revert a b f. induction s as [|c s IH]; simpl; intros a b f.
  - by intros [= <- <- <-].
  - destruct (Ascii.eqb_spec c sep) as [->|Hne].
    + by intros [= <- <- <-].
    + destruct (Cut s sep) as [[a' b'] f'] eqn:E. intros [= <- <- <-].
      destruct (IH _ _ _ eq_refl) as [Ha Hf]. simpl. split.
      * by apply orb_false_iff; split; [apply Ascii.eqb_neq|].
      * destruct f'; [by rewrite Hf | by destruct Hf as [-> ->]].
Qed.

Lemma Cut_length s sep a b f :
  Cut s sep = (a, b, f) -> (String.length b <= String.length s)%nat.
Proof.
  intros [_ Hf]%Cut_spec. destruct f; [subst; rewrite sapp_length; simpl; lia|].
  destruct Hf as [-> ->]. simpl. lia.
Qed.

Lemma Split_nonempty s sep : Split s sep <> [].
Proof. destruct s as [|c s]; simpl; [done|]. case_if; [done|]. by destruct (Split s sep). Qed.

Lemma Join_Split s sep : Join (Split s sep) (str1 sep) = s.
Proof.
  induction s as [|c s IH]; simpl; [done|]. pose proof (Split_nonempty s sep) as Hne.
  destruct (Ascii.eqb_spec c sep) as [->|_].
  - destruct (Split s sep) eqn:E; [done|]. change (String sep (Join (s0 :: l) (str1 sep)) = String sep s).
    by rewrite IH.
  - destruct (Split s sep) as [|p ps] eqn:E; [done|].
    destruct ps; simpl in *; by rewrite IH.
Qed.

Lemma Split_absent s sep : ContainsByte s sep = false -> Split s sep = [s].
Proof.
  induction s as [|c s IH]; simpl; [done|].
  intros [-> Hs]%orb_false_iff. by rewrite IH.
Qed.

Lemma Split_app a b sep :
  ContainsByte a sep = false -> Split (a ++ String sep b) sep = a :: Split b sep.
Proof.
  induction a as [|c a IH]; simpl; [by rewrite Ascii.eqb_refl|].
  intros [-> Ha]%orb_false_iff. by rewrite IH.
Qed.

Lemma Split_pieces s sep : Forall (fun p => ContainsByte p sep = false) (Split s sep).
Proof.
  induction s as [|c s IH]; simpl; [by constructor|].
  destruct (Ascii.eqb_spec c sep) as [->|Hne]; [by constructor|].
  pose proof (Split_nonempty s sep). destruct (Split s sep) as [|p ps]; [done|].
  inversion IH; subst. constructor; [|done]. simpl.
  apply orb_false_iff. by split; [apply Ascii.eqb_neq|].
Qed.

Lemma TrimRightByte_decomp s c :
  exists n, s = TrimRightByte s c ++ Repeat (str1 c) n.
Proof.
  induction s as [|d s [n IH]]; simpl; [by exists 0%nat|].
  destruct (Ascii.eqb_spec d c) as [->|_]; simpl; [|exists n; simpl; by rewrite <- IH].
  destruct (String.eqb_spec (TrimRightByte s c) "") as [E|_]; [|exists n; simpl; by rewrite <- IH].
  exists (S n). rewrite E in IH. simpl in *. by rewrite <- IH.
Qed.

Lemma TrimRightByte_pad s c n :
  ContainsByte s c = false -> TrimRightByte (s ++ Repeat (str1 c) n) c = s.
Proof.
  induction s as [|d s IH]; simpl; intros Hs.
  - induction n as [|n IH]; simpl; [done|]. by rewrite Ascii.eqb_refl, IH.
  - apply orb_false_iff in Hs as [Hd Hs]. rewrite IH by done. by rewrite Hd.
Qed.

Lemma LastFrom_absent s c : ContainsByte s c = false -> LastFrom s c = None.
Proof.
  induction s as [|d s IH]; simpl; [done|]. intros [Hd Hs]%orb_false_iff. by rewrite IH, Hd.
Qed.

Lemma string_forallb_no_byte (p : ascii -> bool) s c :
  p c = false -> string_forallb p s = true -> ContainsByte s c = false.
Proof.
  intros Hc. induction s as [|d s IH]; simpl; [done|]. intros [Hd Hs]%andb_true_iff.
  rewrite IH by done. rewrite orb_false_r. apply Ascii.eqb_neq. congruence.
Qed.

Lemma TrimRightByte_idem s c : TrimRightByte (TrimRightByte s c) c = TrimRightByte s c.
Proof.
  induction s as [|d s IH]; simpl; [done|].
  destruct (Ascii.eqb d c && String.eqb (TrimRightByte s c) "") eqn:E; simpl; [done|].
  by rewrite IH, E.
Qed.

(** ** The order of Go strings *)

Lemma str_ltb_irrefl s : str_ltb s s = false.
Proof. induction s as [|c s IH]; simpl; [done|]. by rewrite Z.eqb_refl. Qed.

Lemma str_ltb_trans s t u : str_ltb s t = true -> str_ltb t u = true -> str_ltb s u = true.
Proof.
  revert t u. induction s as [|a s IH]; intros [|b t] [|c u]; simpl; try done.
  destruct (byte a =? byte b) eqn:E1, (byte b =? byte c) eqn:E2, (byte a =? byte c) eqn:E3;
    bools; intros; bools; try lia; eauto; apply Z.ltb_lt; lia.
Qed.

Lemma str_ltb_total s t : str_ltb s t = true \/ s = t \/ str_ltb t s = true.
Proof.
  revert t. induction s as [|a s IH]; intros [|b t]; simpl; eauto.
  rewrite (Z.eqb_sym (byte b)). destruct (byte a =? byte b) eqn:E; bools.
  - apply byte_inj in E as ->. destruct (IH t) as [?|[->|?]]; eauto.
  - rewrite !Z.ltb_lt. lia.
Qed.

Lemma str_ltb_asym s t : str_ltb s t = true -> str_ltb t s = false.
Proof.
  intros H. destruct (str_ltb t s) eqn:E; [|done].
  by rewrite <- (str_ltb_irrefl s), (str_ltb_trans _ _ _ H E).
Qed.

(** ** Specifications of the UTF-8 layer *)

Ltac utf8_cases :=
  repeat match goal with
  | |- context [if ?b then _ else _] => destruct b eqn:?
  | |- context [match ?s with EmptyString => _ | String _ _ => _ end] => is_var s; destruct s
  end.

(** Induction along the decoder: strong induction on the length. *)
Lemma string_len_ind (P : string -> Prop) :
  (forall s, (forall t, (String.length t < String.length s)%nat -> P t) -> P s) -> forall s, P s.
Proof.
  intros HP s. remember (String.length s) as n eqn:E. revert s E.
  induction n as [n IH] using lt_wf_ind. intros s ->. apply HP. intros t Ht. by eapply IH.
Qed.

Lemma utf8_decode_cons c0 s1 : utf8_decode (String c0 s1) =
    let b0 := byte c0 in
    if b0 <? 128 then Rune b0 (str1 c0) :: utf8_decode s1
    else if between 194 b0 223 then
      match s1 with
      | String c1 s2 =>
        if cont c1
        then Rune ((b0 - 192) * 64 + (byte c1 - 128)) (String c0 (str1 c1)) :: utf8_decode s2
        else Bad c0 :: utf8_decode s1
      | EmptyString => [Bad c0]
      end
    else if between 224 b0 239 then
      match s1 with
      | String c1 (String c2 s3) =>
        if second3 b0 c1 && cont c2
        then Rune ((b0 - 224) * 4096 + (byte c1 - 128) * 64 + (byte c2 - 128))
                  (String c0 (String c1 (str1 c2))) :: utf8_decode s3
        else Bad c0 :: utf8_decode s1
      | _ => Bad c0 :: utf8_decode s1
      end
    else if between 240 b0 244 then
      match s1 with
      | String c1 (String c2 (String c3 s4)) =>
        if second4 b0 c1 && cont c2 && cont c3
        then Rune ((b0 - 240) * 262144 + (byte c1 - 128) * 4096
                   + (byte c2 - 128) * 64 + (byte c3 - 128))
                  (String c0 (String c1 (String c2 (str1 c3)))) :: utf8_decode s4
        else Bad c0 :: utf8_decode s1
      | _ => Bad c0 :: utf8_decode s1
      end
    else Bad c0 :: utf8_decode s1.
Proof. done. Qed.
#[local] Arguments utf8_decode : simpl never.

(** The pieces of the decoder are the bytes of the string, in order. *)
Lemma utf8_decode_bytes s : chunks_bytes (utf8_decode s) = s.
Proof.
  induction s as [s IH] using string_len_ind. destruct s as [|c0 s]; [done|].
  rewrite utf8_decode_cons. unfold chunks_bytes in *.
  utf8_cases; simpl; repeat f_equal; try (apply IH; simpl; lia); done.
Qed.

Lemma utf8_decode_ascii s :
  isASCII s = true ->
  utf8_decode s = map (fun c => Rune (byte c) (str1 c)) (list_ascii_of_string s).
Proof.
  unfold isASCII. induction s as [|c s IH]; simpl; [done|].
  intros [Hc Hs]%andb_true_iff. rewrite utf8_decode_cons. cbv zeta. rewrite Hc. by rewrite IH.
Qed.

Lemma ToLower_ascii `{UnicodeTables} s : isASCII s = true -> ToLower s = string_map lower_ascii s.
Proof. unfold ToLower. by intros ->. Qed.

Lemma lower_ascii_range c : byte c < 128 -> byte (lower_ascii c) < 128.
Proof.
  intros. unfold lower_ascii, isUpper, between. case_if; [|done].
  rewrite byte_chr; lia.
Qed.

Lemma lower_ascii_idem c : lower_ascii (lower_ascii c) = lower_ascii c.
Proof.
  unfold lower_ascii at 2 3. destruct (isUpper c) eqn:E.
  - unfold isUpper, between in E. bools. unfold lower_ascii, isUpper, between.
    rewrite byte_chr by lia. case_if; [lia|done].
  - unfold lower_ascii. by rewrite E.
Qed.

Lemma ToLower_idem_ascii `{UnicodeTables} s :
  isASCII s = true -> ToLower (ToLower s) = ToLower s.
Proof.
  intros Hs. rewrite (ToLower_ascii s) by done. rewrite ToLower_ascii.
  - clear Hs. induction s as [|c s IH]; simpl; [done|]. by rewrite IH, lower_ascii_idem.
  - unfold isASCII in *. induction s as [|c s IH]; simpl in *; [done|].
    bools. rewrite andb_true_iff, Z.ltb_lt. split; [by apply lower_ascii_range | by apply IH].
Qed.

Lemma TrimSpace_empty : TrimSpace "" = "".
Proof. done. Qed.
