(* ===== verification/GoNum.v ===== *)
(** * Go's [int], [strconv], [encoding/hex] and [encoding/base64] as api-test uses them *)
From S2P Require Import Prelude GoStrings.

(** ** 64-bit [int] *)

Definition minInt : Z := - 2 ^ 63.
Definition maxInt : Z := 2 ^ 63 - 1.
Definition maxUint64 : Z := 2 ^ 64 - 1.

(** The value Go's [int] arithmetic leaves in the variable. *)
Definition wrap64 (z : Z) : Z := (z + 2 ^ 63) mod 2 ^ 64 - 2 ^ 63.
Definition in64 (z : Z) : Prop := minInt <= z <= maxInt.

(** ** [strconv.Atoi] *)

Inductive num_error := ErrSyntax | ErrRange.

Definition isDigit (c : ascii) : bool := between 48 (byte c) 57.

(** The digit loop of [strconv.ParseUint] in base 10: it reports a range error as soon as the
    accumulated value leaves 64 bits, before it looks at what follows. *)
Fixpoint ParseUint_loop (n : Z) (s : string) : res num_error Z :=
  match s with
  | EmptyString => Ok n
  | String c s' =>
    if isDigit c then
      let n1 := n * 10 + (byte c - 48) in
      if maxUint64 <? n1 then Err ErrRange else ParseUint_loop n1 s'
    else Err ErrSyntax
  end.

Definition Atoi_sign (s : string) : bool * string :=
  match s with
  | String c s' =>
    if Ascii.eqb c "-" then (true, s') else if Ascii.eqb c "+" then (false, s') else (false, s)
  | EmptyString => (false, s)
  end.

(** [strconv.Atoi] returns a value beside its error: 0 on a syntax error, the nearest bound on a
    range error.  Callers that drop the error see that value. *)
Definition Atoi (s : string) : Z * option num_error :=
  let '(neg, ds) := Atoi_sign s in
  if String.eqb ds "" then (0, Some ErrSyntax) else
  match ParseUint_loop 0 ds with
  | Err ErrSyntax => (0, Some ErrSyntax)
  | Err ErrRange => (if neg then minInt else maxInt, Some ErrRange)
  | Ok un =>
    if negb neg && (2 ^ 63 <=? un) then (maxInt, Some ErrRange)
    else if neg && (2 ^ 63 <? un) then (minInt, Some ErrRange)
    else (if neg then - un else un, None)
  end.

(** ** [strconv.Itoa] *)

Definition digit (n : Z) : ascii := chr (48 + n).

Fixpoint udec_loop (fuel : nat) (n : Z) (acc : string) : string :=
  match fuel with
  | O => acc
  | S f => if n <? 10 then String (digit n) acc
           else udec_loop f (n / 10) (String (digit (n mod 10)) acc)
  end.
Definition udec (n : Z) : string := udec_loop (S (Z.to_nat (Z.log2 n))) n "".
Definition Itoa (n : Z) : string := if n <? 0 then "-" ++ udec (- n) else udec n.

(** ** [encoding/hex] *)

Definition hex_digit (n : Z) : ascii := if n <? 10 then chr (48 + n) else chr (87 + n).
Fixpoint hex_EncodeToString (s : string) : string :=
  match s with
  | EmptyString => ""
  | String c s' =>
    String (hex_digit (byte c / 16)) (String (hex_digit (byte c mod 16)) (hex_EncodeToString s'))
  end.

(** ** [strconv.Quote], the [%q] verb *)

Definition hexn (n : nat) (z : Z) : string :=
  foldr (fun i acc => String (hex_digit (z / 16 ^ Z.of_nat i mod 16)) acc) "" (rev (seq 0 n)).

Section Quote.
Context `{UnicodeTables}.

Definition isPrint (r : Z) : bool := if r <? 128 then between 32 r 126 else rune_print r.

Definition quote_chunk (k : chunk) : string :=
  match k with
  | Bad c => "\x" ++ hexn 2 (byte c)
  | Rune r e =>
    if (r =? 34) || (r =? 92) then "\" ++ e
    else if isPrint r then e
    else if r =? 7 then "\a"
    else if r =? 8 then "\b"
    else if r =? 12 then "\f"
    else if r =? 10 then "\n"
    else if r =? 13 then "\r"
    else if r =? 9 then "\t"
    else if r =? 11 then "\v"
    else if (r <? 32) || (r =? 127) then "\x" ++ hexn 2 r
    else if r <? 65536 then "\u" ++ hexn 4 r
    else "\U" ++ hexn 8 r
  end.
Definition Quote (s : string) : string :=
  dquote ++ sconcat (map quote_chunk (utf8_decode s)) ++ dquote.
End Quote.

(** ** [encoding/base64] *)

Definition urlAlphabet : string :=
  "ABCDEFGHIJKLMNOPQRSTUVWXYZabcdefghijklmnopqrstuvwxyz0123456789-_".
Definition stdAlphabet : string :=
  "ABCDEFGHIJKLMNOPQRSTUVWXYZabcdefghijklmnopqrstuvwxyz0123456789+/".

Definition alpha_char (alpha : string) (i : Z) : ascii :=
  default "000"%char (String.get (Z.to_nat i) alpha).
Fixpoint alpha_index (alpha : string) (c : ascii) : option Z :=
  match alpha with
  | EmptyString => None
  | String d a => if Ascii.eqb c d then Some 0 else Z.succ <$> alpha_index a c
  end.

(** Three bytes become four characters; the short tail is padded with [pad] ("=" for
    [StdEncoding] and [URLEncoding], "" for [RawURLEncoding]). *)
Fixpoint base64_encode (alpha pad : string) (s : string) : string :=
  match s with
  | EmptyString => ""
  | String a EmptyString =>
    let v := byte a * 65536 in
    String (alpha_char alpha (v / 262144)) (str1 (alpha_char alpha (v / 4096 mod 64))) ++ pad ++ pad
  | String a (String b EmptyString) =>
    let v := byte a * 65536 + byte b * 256 in
    String (alpha_char alpha (v / 262144)) (String (alpha_char alpha (v / 4096 mod 64))
      (str1 (alpha_char alpha (v / 64 mod 64)))) ++ pad
  | String a (String b (String c s')) =>
    let v := byte a * 65536 + byte b * 256 + byte c in
    String (alpha_char alpha (v / 262144)) (String (alpha_char alpha (v / 4096 mod 64))
      (String (alpha_char alpha (v / 64 mod 64)) (String (alpha_char alpha (v mod 64))
        (base64_encode alpha pad s'))))
  end.

Definition RawURLEncoding_EncodeToString : string -> string := base64_encode urlAlphabet "".
Definition StdEncoding_EncodeToString : string -> string := base64_encode stdAlphabet "=".
Definition URLEncoding_EncodeToString : string -> string := base64_encode urlAlphabet "=".

(** The unpadded decoder: carriage returns and newlines are skipped, any other character outside
    the alphabet is an error, and a lone character in the last quantum is an error.  Trailing bits
    are not checked ([Encoding.Strict] is not used). *)
Fixpoint sextets (alpha : string) (s : string) : option (list Z) :=
  match s with
  | EmptyString => Some []
  | String c s' =>
    match alpha_index alpha c with
    | Some v => cons v <$> sextets alpha s'
    | None => if Ascii.eqb c (chr 10) || Ascii.eqb c (chr 13) then sextets alpha s' else None
    end
  end.

Fixpoint quanta (l : list Z) : option string :=
  match l with
  | [] => Some ""
  | [_] => None
  | [a; b] => Some (str1 (chr ((a * 262144 + b * 4096) / 65536)))
  | [a; b; c] =>
    let v := a * 262144 + b * 4096 + c * 64 in
    Some (String (chr (v / 65536)) (str1 (chr (v / 256 mod 256))))
  | a :: b :: c :: d :: l' =>
    let v := a * 262144 + b * 4096 + c * 64 + d in
    (fun t => String (chr (v / 65536)) (String (chr (v / 256 mod 256)) (String (chr (v mod 256)) t)))
      <$> quanta l'
  end.

Definition RawURLEncoding_DecodeString (s : string) : option string :=
  sextets urlAlphabet s ≫= quanta.

(** ** Lemmas: decimal numbers *)

Lemma wrap64_id z : in64 z -> wrap64 z = z.
Proof. unfold in64, wrap64, minInt, maxInt. intros. rewrite Z.mod_small; lia. Qed.

Lemma wrap64_add_l a b : wrap64 (wrap64 a + b) = wrap64 (a + b).
Proof.
  unfold wrap64. replace ((a + 2 ^ 63) mod 2 ^ 64 - 2 ^ 63 + b + 2 ^ 63) with ((a + 2 ^ 63) mod 2 ^ 64 + b) by lia.
  rewrite Z.add_mod_idemp_l by lia. do 2 f_equal. lia.
Qed.

Lemma digit_isDigit n : 0 <= n < 10 -> isDigit (digit n) = true.
Proof.
  intros. unfold isDigit, digit, between. rewrite byte_chr by lia.
  rewrite andb_true_iff, !Z.leb_le. lia.
Qed.

Lemma byte_digit n : 0 <= n < 10 -> byte (digit n) = 48 + n.
Proof. intros. unfold digit. apply byte_chr. lia. Qed.

Lemma fuel_step n f : 10 <= n < 2 ^ Z.of_nat (S f) -> 0 <= n / 10 < 2 ^ Z.of_nat f.
Proof. rewrite Nat2Z.inj_succ, Z.pow_succ_r by lia. intros. zlia. Qed.

Lemma udec_fuel n : 0 <= n -> n < 2 ^ Z.of_nat (S (Z.to_nat (Z.log2 n))).
Proof.
  intros. destruct (Z.eq_dec n 0) as [->|]; [done|].
  rewrite Nat2Z.inj_succ, Z2Nat.id by apply Z.log2_nonneg. apply Z.log2_spec. lia.
Qed.

Lemma udec_loop_digits f n acc :
  0 <= n -> string_forallb isDigit acc = true -> string_forallb isDigit (udec_loop f n acc) = true.
Proof.
  revert n acc. induction f as [|f IH]; intros n acc Hn Hacc; simpl; [done|]. case_if.
  - simpl. by rewrite digit_isDigit, Hacc by lia.
  - apply IH; [zlia|]. simpl. by rewrite digit_isDigit, Hacc by zlia.
Qed.

Lemma udec_digits n : 0 <= n -> string_forallb isDigit (udec n) = true.
Proof. intros. by apply udec_loop_digits. Qed.

Lemma udec_loop_nonempty f n acc : f <> O -> udec_loop f n acc <> "".
Proof.
  revert n acc. induction f as [|f IH]; intros n acc Hf; [done|]. simpl. case_if; [done|].
  destruct f; [done|]. by apply IH.
Qed.

Lemma udec_nonempty n : udec n <> "".
Proof. by apply udec_loop_nonempty. Qed.

Lemma ParseUint_loop_step m n s :
  0 <= n < 10 -> m * 10 + n <= maxUint64 ->
  ParseUint_loop m (String (digit n) s) = ParseUint_loop (m * 10 + n) s.
Proof.
  intros Hn Hm. simpl. rewrite digit_isDigit, byte_digit by lia.
  replace (m * 10 + (48 + n - 48)) with (m * 10 + n) by lia. case_if; [lia|done].
Qed.

Lemma ParseUint_udec_loop f n acc :
  0 <= n < 2 ^ Z.of_nat f -> n <= maxUint64 ->
  ParseUint_loop 0 (udec_loop f n acc) = ParseUint_loop n acc.
Proof.
  revert n acc. induction f as [|f IH]; intros n acc Hf Hn.
  - simpl in *. by replace n with 0 by lia.
  - change (udec_loop (S f) n acc) with
      (if n <? 10 then String (digit n) acc
       else udec_loop f (n / 10) (String (digit (n mod 10)) acc)).
    case_if.
    + apply (ParseUint_loop_step 0); lia.
    + rewrite IH by (try apply fuel_step; zlia).
      rewrite ParseUint_loop_step by zlia. f_equal. zlia.
Qed.

Lemma ParseUint_udec n : 0 <= n <= maxUint64 -> ParseUint_loop 0 (udec n) = Ok n.
Proof.
  intros. unfold udec. rewrite ParseUint_udec_loop; [done| |lia].
  split; [lia|]. apply udec_fuel. lia.
Qed.

Lemma Atoi_sign_digits s : string_forallb isDigit s = true -> Atoi_sign s = (false, s).
Proof.
  destruct s as [|c s]; [done|]. simpl. intros [Hc _]%andb_true_iff.
  destruct (Ascii.eqb_spec c "-") as [->|_]; [done|].
  by destruct (Ascii.eqb_spec c "+") as [->|_].
Qed.

(** Printing an [int] in decimal and reading it back with [Atoi] is the identity. *)
Lemma Atoi_Itoa n : in64 n -> Atoi (Itoa n) = (n, None).
Proof.
  unfold in64, minInt, maxInt. intros Hn. unfold Atoi, Itoa.
  assert (Hneq : forall m, String.eqb (udec m) "" = false) by (intros; apply String.eqb_neq, udec_nonempty).
  case_if.
  - change (Atoi_sign ("-" ++ udec (- n))) with (true, udec (- n)). cbv beta iota.
    rewrite Hneq, ParseUint_udec by (unfold maxUint64; lia). simpl.
    case_if; [lia|]. f_equal. lia.
  - rewrite Atoi_sign_digits, Hneq by (apply udec_digits; lia).
    rewrite ParseUint_udec by (unfold maxUint64; lia). simpl.
    case_if; [lia|done].
Qed.

Lemma ParseUint_loop_range n s v : 0 <= n -> ParseUint_loop n s = Ok v -> 0 <= v.
Proof.
  revert n. induction s as [|c s IH]; simpl; intros n Hn; [by intros [= <-]|].
  case_if; [|done]. unfold isDigit, between in *. bools. case_if; [done|].
  intros. eapply IH; [|done]. lia.
Qed.

(** Whatever its input, [Atoi] returns a value of Go's [int]. *)
Lemma Atoi_range s : in64 (Atoi s).1.
Proof.
  unfold in64, Atoi, minInt, maxInt. destruct (Atoi_sign s) as [neg ds].
  case_if; simpl; [lia|]. destruct (ParseUint_loop 0 ds) as [v|[]] eqn:E; simpl;
    [|lia|destruct neg; lia].
  apply ParseUint_loop_range in E; [|lia].
  repeat case_if; destruct neg; simpl in *; bools; try lia; intuition (try discriminate; lia).
Qed.

Lemma digits_no_byte c s :
  isDigit c = false -> string_forallb isDigit s = true -> ContainsByte s c = false.
Proof.
  intros Hc. induction s as [|d s IH]; simpl; [done|]. intros [Hd Hs]%andb_true_iff.
  rewrite IH by done. rewrite orb_false_r. apply Ascii.eqb_neq. congruence.
Qed.

Lemma Itoa_nonneg n : 0 <= n -> Itoa n = udec n.
Proof. intros. unfold Itoa. case_if; [lia|done]. Qed.

Lemma Itoa_digits n : 0 <= n -> string_forallb isDigit (Itoa n) = true.
Proof. intros. rewrite Itoa_nonneg by done. by apply udec_digits. Qed.

Lemma Itoa_nonempty n : Itoa n <> "".
Proof. unfold Itoa. case_if; [done|]. apply udec_nonempty. Qed.

Lemma Itoa_inj n m : in64 n -> in64 m -> Itoa n = Itoa m -> n = m.
Proof. intros Hn Hm E. apply Atoi_Itoa in Hn, Hm. rewrite E in Hn. congruence. Qed.

(** ** Lemmas: hexadecimal and base64 *)

Lemma hex_length s : String.length (hex_EncodeToString s) = (2 * String.length s)%nat.
Proof. induction s as [|c s IH]; simpl; lia. Qed.

(** An alphabet of 64 distinct characters, none of them a line break. *)
Class Alphabet (alpha : string) := {
  alpha_index_char i : 0 <= i < 64 -> alpha_index alpha (alpha_char alpha i) = Some i;
}.

Definition alpha_ok (alpha : string) : bool :=
  forallb (fun i => bool_decide (alpha_index alpha (alpha_char alpha (Z.of_nat i)) = Some (Z.of_nat i)))
          (seq 0 64).

Lemma alpha_ok_sound alpha : alpha_ok alpha = true -> Alphabet alpha.
Proof.
  unfold alpha_ok. rewrite forallb_forall. intros H. constructor. intros i Hi.
  specialize (H (Z.to_nat i)). rewrite Z2Nat.id in H by lia. eapply bool_decide_eq_true_1, H.
  apply in_seq. lia.
Qed.

#[export] Instance urlAlphabet_ok : Alphabet urlAlphabet.
Proof. apply alpha_ok_sound. by vm_compute. Qed.
#[export] Instance stdAlphabet_ok : Alphabet stdAlphabet.
Proof. apply alpha_ok_sound. by vm_compute. Qed.

Section Base64.
Context (alpha : string) `{!Alphabet alpha}.

Lemma sextets_char i s : 0 <= i < 64 ->
  sextets alpha (String (alpha_char alpha i) s) = cons i <$> sextets alpha s.
Proof. intros. simpl. by rewrite alpha_index_char. Qed.

Lemma String_chr_eq z c s t : z = byte c -> s = t -> String (chr z) s = String c t.
Proof. intros -> ->. by rewrite chr_byte. Qed.

(** Decoding what was encoded without padding gives the bytes back. *)
Lemma base64_roundtrip s : sextets alpha (base64_encode alpha "" s) ≫= quanta = Some s.
Proof.
  induction s as [s IH] using string_len_ind.
  destruct s as [|a [|b [|c s]]]; [done|..].
  - pose proof (byte_range a). cbn [base64_encode]. unfold str1.
    cbn [String.append]. rewrite !sextets_char by zlia. simpl. unfold str1.
    f_equal. apply String_chr_eq; [zlia|done].
  - pose proof (byte_range a). pose proof (byte_range b). cbn [base64_encode]. unfold str1.
    cbn [String.append]. rewrite !sextets_char by zlia. simpl. unfold str1.
    f_equal. repeat (apply String_chr_eq; [zlia|]). done.
  - pose proof (byte_range a). pose proof (byte_range b). pose proof (byte_range c).
    cbn [base64_encode]. rewrite !sextets_char by zlia.
    specialize (IH s ltac:(simpl; lia)).
    destruct (sextets alpha (base64_encode alpha "" s)) as [l|]; [|done].
    simpl in *. rewrite IH. simpl. f_equal. repeat (apply String_chr_eq; [zlia|]). done.
Qed.
End Base64.

Lemma RawURL_roundtrip s : RawURLEncoding_DecodeString (RawURLEncoding_EncodeToString s) = Some s.
Proof. unfold RawURLEncoding_DecodeString. apply base64_roundtrip, _. Qed.

Lemma alpha_char_forall (p : ascii -> bool) alpha :
  forallb (fun i => p (alpha_char alpha (Z.of_nat i))) (seq 0 64) = true ->
  forall i, 0 <= i < 64 -> p (alpha_char alpha i) = true.
Proof.
  rewrite forallb_forall. intros H i Hi. specialize (H (Z.to_nat i)).
  rewrite Z2Nat.id in H by lia. apply H, in_seq. lia.
Qed.

(** The unpadded encoding consists of characters of the alphabet. *)
Lemma base64_encode_chars (p : ascii -> bool) alpha s :
  forallb (fun i => p (alpha_char alpha (Z.of_nat i))) (seq 0 64) = true ->
  string_forallb p (base64_encode alpha "" s) = true.
Proof.
  intros Hp. pose proof (alpha_char_forall p alpha Hp) as Hc.
  induction s as [s IH] using string_len_ind. destruct s as [|a [|b [|c s]]]; [done|..];
    cbn [base64_encode]; unfold str1; cbn [String.append string_forallb];
    pose proof (byte_range a); try pose proof (byte_range b); try pose proof (byte_range c);
    rewrite !Hc by zlia; [done..|].
  simpl. apply IH. simpl. lia.
Qed.

Lemma base64_encode_nonempty alpha pad s : s <> "" -> base64_encode alpha pad s <> "".
Proof. by destruct s as [|a [|b [|c s]]]. Qed.

(** Padding only appends. *)
Lemma base64_encode_pad alpha s :
  exists n, base64_encode alpha "=" s = base64_encode alpha "" s ++ Repeat (str1 "=") n.
Proof.
  induction s as [s IH] using string_len_ind. destruct s as [|a [|b [|c s]]].
  - by exists 0%nat.
  - by exists 2%nat.
  - by exists 1%nat.
  - destruct (IH s) as [n Hn]; [simpl; lia|]. exists n. cbn [base64_encode]. by rewrite Hn.
Qed.

(** [base64.StdEncoding.DecodeString] on padded text: the padding carries no data. *)
Definition StdEncoding_Decode (s : string) : option string :=
  sextets stdAlphabet (TrimRightByte s "=") ≫= quanta.

Lemma Std_roundtrip s : StdEncoding_Decode (StdEncoding_EncodeToString s) = Some s.
Proof.
  unfold StdEncoding_Decode, StdEncoding_EncodeToString.
  destruct (base64_encode_pad stdAlphabet s) as [n ->]. rewrite TrimRightByte_pad.
  - apply base64_roundtrip, _.
  - apply (string_forallb_no_byte (fun c => negb (Ascii.eqb c "="))); [done|].
    apply base64_encode_chars. by vm_compute.
Qed.

(** ** Lemmas: the number of digits *)

Lemma udec_loop_length_le k : forall f n acc,
  0 <= n < 10 ^ Z.of_nat k -> (1 <= k)%nat ->
  (String.length (udec_loop f n acc) <= String.length acc + k)%nat.
Proof.
  induction k as [|k IH]; intros f n acc Hn Hk; [lia|].
  destruct f as [|f]; simpl; [lia|]. case_if; [simpl; lia|].
  rewrite Nat2Z.inj_succ, Z.pow_succ_r in Hn by lia.
  destruct k as [|k]; [simpl in Hn; lia|].
  etransitivity; [apply IH; [split; [zlia|]|lia]|simpl; lia].
  apply Z.div_lt_upper_bound; lia.
Qed.

Lemma udec_loop_length_ge f n acc : (String.length acc <= String.length (udec_loop f n acc))%nat.
Proof.
  revert n acc. induction f as [|f IH]; intros n acc; simpl; [lia|]. case_if; [simpl; lia|].
  etransitivity; [|apply IH]. simpl. lia.
Qed.

Lemma Itoa_length_le k n : 0 <= n < 10 ^ Z.of_nat k -> (1 <= k)%nat -> len (Itoa n) <= Z.of_nat k.
Proof.
  intros Hn Hk. rewrite Itoa_nonneg by lia. unfold len, udec.
  pose proof (udec_loop_length_le k (S (Z.to_nat (Z.log2 n))) n "" Hn Hk) as H.
  change (String.length "") with 0%nat in H. lia.
Qed.

Lemma Itoa_length_pos n : 1 <= len (Itoa n).
Proof.
  pose proof (Itoa_nonempty n). pose proof (len_nonneg (Itoa n)).
  assert (len (Itoa n) <> 0) by (intros E; by apply len_zero in E). lia.
Qed.

Lemma Itoa_length_two n : 10 <= n -> 2 <= len (Itoa n).
Proof.
  intros Hn. rewrite Itoa_nonneg by lia. unfold udec.
  assert (Hl : 3 <= Z.log2 n) by (change 3 with (Z.log2 10); by apply Z.log2_le_mono).
  replace (S (Z.to_nat (Z.log2 n))) with (S (S (Z.to_nat (Z.log2 n - 1)))) by lia.
  cbn [udec_loop]. destruct (n <? 10) eqn:E; bools; [lia|].
  unfold len. case_if; [simpl; lia|].
  pose proof (udec_loop_length_ge (Z.to_nat (Z.log2 n - 1)) (n / 10 / 10)
    (String (digit (n / 10 mod 10)) (String (digit (n mod 10)) ""))) as H. simpl in H. lia.
Qed.
