(* ===== verification/Sha256.v ===== *)
(** * SHA-256, HMAC-SHA256 and FNV-1a

    The hash functions of Go's standard library that api-test calls ([crypto/sha256],
    [crypto/hmac], [hash/fnv]), as executable definitions on byte strings (FIPS 180-4, RFC 2104). *)
From S2P Require Import Prelude GoStrings GoNum.

(** ** 32-bit words *)

Definition w32 (z : Z) : Z := Z.land z (2 ^ 32 - 1).
Definition add32 (a b : Z) : Z := w32 (a + b).
Definition rotr (n x : Z) : Z := Z.lor (Z.shiftr x n) (w32 (Z.shiftl x (32 - n))).
Definition xor3 (a b c : Z) : Z := Z.lxor a (Z.lxor b c).
Definition not32 (x : Z) : Z := Z.lxor x (2 ^ 32 - 1).

Definition bsig0 (x : Z) : Z := xor3 (rotr 2 x) (rotr 13 x) (rotr 22 x).
Definition bsig1 (x : Z) : Z := xor3 (rotr 6 x) (rotr 11 x) (rotr 25 x).
Definition ssig0 (x : Z) : Z := xor3 (rotr 7 x) (rotr 18 x) (Z.shiftr x 3).
Definition ssig1 (x : Z) : Z := xor3 (rotr 17 x) (rotr 19 x) (Z.shiftr x 10).
Definition Ch (x y z : Z) : Z := Z.lxor (Z.land x y) (Z.land (not32 x) z).
Definition Maj (x y z : Z) : Z := xor3 (Z.land x y) (Z.land x z) (Z.land y z).

Definition K256 : list Z :=
 [1116352408; 1899447441; 3049323471; 3921009573; 961987163; 1508970993; 2453635748;
   2870763221; 3624381080; 310598401; 607225278; 1426881987; 1925078388; 2162078206;
   2614888103; 3248222580; 3835390401; 4022224774; 264347078; 604807628; 770255983;
   1249150122; 1555081692; 1996064986; 2554220882; 2821834349; 2952996808; 3210313671;
   3336571891; 3584528711; 113926993; 338241895; 666307205; 773529912; 1294757372; 1396182291;
   1695183700; 1986661051; 2177026350; 2456956037; 2730485921; 2820302411; 3259730800;
   3345764771; 3516065817; 3600352804; 4094571909; 275423344; 430227734; 506948616; 659060556;
   883997877; 958139571; 1322822218; 1537002063; 1747873779; 1955562222; 2024104815;
   2227730452; 2361852424; 2428436474; 2756734187; 3204031479; 3329325298].
Definition H256 : list Z :=
 [1779033703; 3144134277; 1013904242; 2773480762; 1359893119; 2600822924; 528734635; 1541459225].

(** ** Padding and message schedule *)

Fixpoint be_bytes (n : nat) (z : Z) : list Z :=
  match n with O => [] | S m => (z / 256 ^ Z.of_nat m) mod 256 :: be_bytes m z end.

Definition pad256 (m : list Z) : list Z :=
  let n := Z.of_nat (length m) in
  (m ++ 128 :: replicate (Z.to_nat ((55 - n) mod 64)) 0 ++ be_bytes 8 (8 * n))%list.

Fixpoint words (l : list Z) : list Z :=
  match l with
  | a :: b :: c :: d :: l' => a * 16777216 + b * 65536 + c * 256 + d :: words l'
  | _ => []
  end.

(** [ws] holds the schedule so far, latest word first. *)
Fixpoint schedule (n : nat) (ws : list Z) : list Z :=
  match n with
  | O => rev ws
  | S m =>
    let at_ i := nth i ws 0 in
    schedule m (w32 (ssig1 (at_ 1%nat) + at_ 6%nat + ssig0 (at_ 14%nat) + at_ 15%nat) :: ws)
  end.

Definition round256 (h : list Z) (kw : Z * Z) : list Z :=
  match h with
  | [a; b; c; d; e; f; g; hh] =>
    let t1 := hh + bsig1 e + Ch e f g + kw.1 + kw.2 in
    let t2 := bsig0 a + Maj a b c in
    [add32 t1 t2; a; b; c; add32 d t1; e; f; g]
  | _ => h
  end.

Definition compress (h : list Z) (block : list Z) : list Z :=
  zip_with add32 h (foldl round256 h (zip K256 (schedule 48 (rev (words block))))).

Fixpoint blocks (n : nat) (h : list Z) (m : list Z) : list Z :=
  match n with
  | O => h
  | S n' => blocks n' (compress h (take 64 m)) (drop 64 m)
  end.

(** ** The digests *)

Definition bytes_of (s : string) : list Z := map byte (list_ascii_of_string s).
Definition string_of (l : list Z) : string := string_of_list_ascii (map chr l).

Definition sha256_bytes (m : list Z) : list Z :=
  let p := pad256 m in
  mjoin (map (be_bytes 4) (blocks (Nat.div (length p) 64) H256 p)).
Definition sha256 (s : string) : string := string_of (sha256_bytes (bytes_of s)).

Definition hmac_sha256 (key msg : string) : string :=
  let k0 := bytes_of key in
  let k1 := if (64 <? Z.of_nat (length k0)) then sha256_bytes k0 else k0 in
  let k := (k1 ++ replicate (64 - length k1) 0)%list in
  let inner := sha256_bytes (map (Z.lxor 54) k ++ bytes_of msg)%list in
  string_of (sha256_bytes (map (Z.lxor 92) k ++ inner)%list).

(** 64-bit FNV-1a, [fnv.New64a]. *)
Definition fnv1a (s : string) : Z :=
  foldl (fun h b => (Z.lxor h b * 1099511628211) mod 2 ^ 64) 14695981039346656037 (bytes_of s).

(** ** Shape of the digests *)

Lemma be_bytes_length n z : length (be_bytes n z) = n.
Proof. induction n as [|n IH]; simpl; lia. Qed.

Lemma compress_length h b :
  length h = 8%nat -> length (compress h b) = 8%nat.
Proof.
  intros Hh. unfold compress. rewrite length_zip_with, Hh.
  assert (Hl : forall l h', length h' = 8%nat -> length (foldl round256 h' l) = 8%nat).
  { intros l. induction l as [|kw l IH]; intros h' Hh'; simpl; [done|]. apply IH.
    do 9 (destruct h' as [|? h']; try done). }
  by rewrite Hl.
Qed.

Lemma blocks_length n h m : length h = 8%nat -> length (blocks n h m) = 8%nat.
Proof. revert h m. induction n as [|n IH]; simpl; [done|]. intros. by apply IH, compress_length. Qed.

Lemma string_of_length l : String.length (string_of l) = length l.
Proof. unfold string_of. induction l as [|z l IH]; simpl; lia. Qed.

Lemma sha256_bytes_length m : length (sha256_bytes m) = 32%nat.
Proof.
  unfold sha256_bytes. set (h := blocks _ _ _).
  assert (Hh : length h = 8%nat) by (by apply blocks_length). clearbody h.
  do 9 (destruct h as [|? h]; try done).
Qed.

(** A SHA-256 digest is 32 bytes. *)
Lemma sha256_length s : String.length (sha256 s) = 32%nat.
Proof. unfold sha256. by rewrite string_of_length, sha256_bytes_length. Qed.

Lemma hmac_sha256_length k m : String.length (hmac_sha256 k m) = 32%nat.
Proof. unfold hmac_sha256. by rewrite string_of_length, sha256_bytes_length. Qed.

(** ** Published test vectors *)

Example sha256_empty : hex_EncodeToString (sha256 "") =
  "e3b0c44298fc1c149afbf4c8996fb92427ae41e4649b934ca495991b7852b855".
Proof. by vm_compute. Qed.

Example sha256_abc : hex_EncodeToString (sha256 "abc") =
  "ba7816bf8f01cfea414140de5dae2223b00361a396177a9cb410ff61f20015ad".
Proof. by vm_compute. Qed.

Example sha256_two_blocks :
  hex_EncodeToString (sha256 "abcdbcdecdefdefgefghfghighijhijkijkljklmklmnlmnomnopnopq") =
  "248d6a61d20638b8e5c026930c3e6039a33ce45964ff2167f6ecedd419db06c1".
Proof. by vm_compute. Qed.

Example hmac_jefe :
  hex_EncodeToString (hmac_sha256 "Jefe" "what do ya want for nothing?") =
  "5bdcc146bf60754e6a042426089575c75a003f089d2739839dec58b964ec3843".
Proof. by vm_compute. Qed.

Example fnv1a_a : fnv1a "a" = 12638187200555641996.
Proof. by vm_compute. Qed.
