(* ===== verification/GoRand.v ===== *)
(** * Go's [math/rand/v2] PCG source as api-test uses it

    [rand.New(rand.NewPCG(a, b))], [Uint64], [IntN] and the 53 bits behind [Float64].  The
    rejection loop of [IntN] is bounded by [rejections]: each round is repeated with probability
    below [n / 2^32], and the value returned is in range whatever the bound. *)
From S2P Require Import Prelude GoStrings GoNum.

Definition w64 (z : Z) : Z := z mod 2 ^ 64.

(** The 128-bit state, [hi * 2^64 + lo]. *)
Record PCG := mkPCG { pcg_hi : Z; pcg_lo : Z }.

Definition NewPCG (seed1 seed2 : Z) : PCG := mkPCG seed1 seed2.

Definition mulHi : Z := 2549297995355413924.
Definition mulLo : Z := 4865540595714422341.
Definition incHi : Z := 6364136223846793005.
Definition incLo : Z := 1442695040888963407.

Definition pcg_next (p : PCG) : PCG :=
  let s := (pcg_hi p * 2 ^ 64 + pcg_lo p) * (mulHi * 2 ^ 64 + mulLo) + (incHi * 2 ^ 64 + incLo) in
  mkPCG (w64 (s / 2 ^ 64)) (w64 s).

Definition cheapMul : Z := 15750249268501108917.

(** The DXSM output function. *)
Definition Uint64 (p : PCG) : Z * PCG :=
  let p' := pcg_next p in
  let hi := pcg_hi p' in
  let hi := Z.lxor hi (Z.shiftr hi 32) in
  let hi := w64 (hi * cheapMul) in
  let hi := Z.lxor hi (Z.shiftr hi 48) in
  (w64 (hi * Z.lor (pcg_lo p') 1), p').

Definition Uint32 (p : PCG) : Z * PCG :=
  let '(x, p') := Uint64 p in (Z.shiftr x 32, p').

Fixpoint reject_loop (fuel : nat) (n thresh prod : Z) (p : PCG) : Z * PCG :=
  match fuel with
  | O => (prod, p)
  | S f =>
    if prod mod 2 ^ 32 <? thresh then
      let '(x, p') := Uint32 p in reject_loop f n thresh (x * n) p'
    else (prod, p)
  end.

Definition rejections : nat := 64.

(** [r.IntN(n)] for [0 < n < 2^32]. *)
Definition IntN (n : Z) (p : PCG) : Z * PCG :=
  if Z.land n (n - 1) =? 0 then
    let '(x, p') := Uint64 p in (Z.land x (n - 1), p')
  else
    let '(x, p') := Uint32 p in
    let '(prod, p'') :=
      if (x * n) mod 2 ^ 32 <? n
      then reject_loop rejections n ((2 ^ 32 - n) mod n) (x * n) p'
      else (x * n, p') in
    (prod / 2 ^ 32, p'').

(** The numerator of [r.Float64()] over [2^53]. *)
Definition Float53 (p : PCG) : Z * PCG :=
  let '(x, p') := Uint64 p in (x mod 2 ^ 53, p').

(** ** Lemmas *)

Lemma Uint64_range p : 0 <= (Uint64 p).1 < 2 ^ 64.
Proof. unfold Uint64, w64. simpl. apply Z.mod_pos_bound. lia. Qed.

Lemma Uint32_range p : 0 <= (Uint32 p).1 < 2 ^ 32.
Proof.
  unfold Uint32. pose proof (Uint64_range p) as H. destruct (Uint64 p) as [x p']. simpl in *.
  rewrite Z.shiftr_div_pow2 by lia. zlia.
Qed.

Lemma scale_range x n : 1 <= n -> 0 <= x < 2 ^ 32 -> 0 <= x * n < n * 2 ^ 32.
Proof. intros. rewrite (Z.mul_comm n). split; [lia|]. apply Z.mul_lt_mono_pos_r; lia. Qed.

Lemma reject_loop_range fuel n thresh prod p :
  1 <= n -> 0 <= prod < n * 2 ^ 32 -> 0 <= (reject_loop fuel n thresh prod p).1 < n * 2 ^ 32.
Proof.
  intros Hn. revert prod p. induction fuel as [|f IH]; intros prod p Hp; cbn [reject_loop]; [done|].
  case_if; [|done]. pose proof (Uint32_range p) as Hx. destruct (Uint32 p) as [x p']. simpl in Hx.
  apply IH. by apply scale_range.
Qed.

(** [IntN] stays in range, so the word lists are never indexed out of bounds. *)
Lemma IntN_range n p : 1 <= n -> 0 <= (IntN n p).1 < n.
Proof.
  intros Hn. unfold IntN. case_if.
  - pose proof (Uint64_range p) as H. destruct (Uint64 p) as [x p']. cbn [fst snd] in *.
    split; [by apply Z.land_nonneg; lia|].
    destruct (Z.eq_dec n 1) as [->|]; [simpl; rewrite Z.land_0_r; lia|].
    assert (Z.land x (n - 1) <= n - 1); [|lia].
    clear -Hn H. assert (Hl : Z.land (n - 1) x <= n - 1); [|by rewrite Z.land_comm].
    apply Z.ldiff_le; [lia|]. apply Z.bits_inj'. intros k Hk.
    rewrite Z.ldiff_spec, Z.land_spec, Z.bits_0. by destruct (Z.testbit (n - 1) k), (Z.testbit x k).
  - pose proof (Uint32_range p) as H. destruct (Uint32 p) as [x p']. cbn [fst snd] in *.
    assert (Hp : 0 <= x * n < n * 2 ^ 32) by (by apply scale_range).
    destruct ((x * n) mod 2 ^ 32 <? n).
    + pose proof (reject_loop_range rejections n ((2 ^ 32 - n) mod n) (x * n) p' ltac:(lia) Hp) as Hr.
      destruct (reject_loop _ _ _ _ _) as [prod p'']. cbn [fst snd] in *. zlia.
    + cbn [fst]. zlia.
Qed.

Lemma Float53_range p : 0 <= (Float53 p).1 < 2 ^ 53.
Proof. unfold Float53. destruct (Uint64 p) as [x p']. simpl. apply Z.mod_pos_bound. lia. Qed.

(** The reference sequence of the Go test suite: [NewPCG(1, 2)]. *)
Example pcg_reference : (Uint64 (NewPCG 1 2)).1 = 14192431797130687760.
Proof. by vm_compute. Qed.
