(* ===== verification/GoUrl.v ===== *)
(** * Go's [net/url] query strings and [net/http] headers as api-test uses them *)
From S2P Require Import Prelude GoStrings GoNum.

(** ** Query strings *)

Definition unhex (c : ascii) : option Z :=
  if isDigit c then Some (byte c - 48)
  else if between 97 (byte c) 102 then Some (byte c - 87)
  else if between 65 (byte c) 70 then Some (byte c - 55)
  else None.

(** [url.QueryUnescape]: [%XY] is a byte, [+] a space; a [%] that starts no such triple is an
    error. *)
Fixpoint QueryUnescape (s : string) : option string :=
  match s with
  | EmptyString => Some ""
  | String c s1 =>
    if Ascii.eqb c "%" then
      match s1 with
      | String a (String b s3) =>
        match unhex a, unhex b with
        | Some x, Some y => String (chr (x * 16 + y)) <$> QueryUnescape s3
        | _, _ => None
        end
      | _ => None
      end
    else String (if Ascii.eqb c "+" then " "%char else c) <$> QueryUnescape s1
  end.

Abbreviation Values := (gmap string (list string)).

Definition Values_add (m : Values) (k v : string) : Values :=
  <[k := (default [] (m !! k) ++ [v])%list]> m.

(** One [&]-separated piece of a query: dropped when empty, when it holds a [;], or when its key
    or value does not unescape. *)
Definition parse_piece (p : string) : option (string * string) :=
  if ContainsByte p ";" || String.eqb p "" then None
  else let '(k, v, _) := Cut p "=" in
       match QueryUnescape k, QueryUnescape v with
       | Some k', Some v' => Some (k', v')
       | _, _ => None
       end.

Definition Values_step (m : Values) (p : string) : Values :=
  match parse_piece p with Some (k, v) => Values_add m k v | None => m end.

(** [u.Query()]: [url.ParseQuery] with its error dropped. *)
Definition ParseQuery (q : string) : Values := foldl Values_step ∅ (Split q "&").

(** [url.Values.Get]: the first value, or "". *)
Definition Values_Get (m : Values) (k : string) : string :=
  match m !! k with Some (v :: _) => v | _ => "" end.

(** ** Headers *)

Abbreviation Header := (gmap string (list string)).

(** The bytes of an HTTP token, [validHeaderFieldByte]. *)
Definition tokenByte (c : ascii) : bool :=
  isDigit c || isUpper c || isLower c ||
  ContainsByte "!#$%&'*+-.^_`|~" c.

Fixpoint canonical_loop (upper : bool) (s : string) : string :=
  match s with
  | EmptyString => ""
  | String c s' =>
    let c' := if upper then upper_ascii c else lower_ascii c in
    String c' (canonical_loop (Ascii.eqb c' "-") s')
  end.

(** [http.CanonicalHeaderKey]: unchanged when the name is not a token. *)
Definition CanonicalHeaderKey (s : string) : string :=
  if string_forallb tokenByte s then canonical_loop true s else s.

Definition Header_Get (h : Header) (k : string) : string := Values_Get h (CanonicalHeaderKey k).
Definition Header_Set (h : Header) (k v : string) : Header := <[CanonicalHeaderKey k := [v]]> h.
Definition Header_Add (h : Header) (k v : string) : Header := Values_add h (CanonicalHeaderKey k) v.

(** ** Lemmas: queries printed by the program *)

(** A string that the query parser reads back unchanged. *)
Definition plainByte (c : ascii) : bool :=
  negb (ContainsByte "&=;%+" c).
Definition plain (s : string) : bool := string_forallb plainByte s.

Lemma plain_no_byte s c : plainByte c = false -> plain s = true -> ContainsByte s c = false.
Proof.
  intros Hc. unfold plain. induction s as [|d s IH]; [done|].
  cbn [string_forallb ContainsByte]. intros [Hd Hs]%andb_true_iff.
  rewrite IH by done. rewrite orb_false_r. apply Ascii.eqb_neq. congruence.
Qed.

Lemma QueryUnescape_plain s : plain s = true -> QueryUnescape s = Some s.
Proof.
  unfold plain. induction s as [|c s IH]; [done|]. cbn [string_forallb QueryUnescape].
  intros [Hc Hs]%andb_true_iff.
  destruct (Ascii.eqb_spec c "%") as [->|_]; [done|].
  destruct (Ascii.eqb_spec c "+") as [->|_]; [done|]. by rewrite IH.
Qed.

Lemma plain_app s t : plain (s ++ t) = plain s && plain t.
Proof. apply string_forallb_app. Qed.

Lemma digits_plain s : string_forallb isDigit s = true -> plain s = true.
Proof.
  apply string_forallb_impl. intros c Hc. unfold isDigit, between in Hc. bools.
  unfold plainByte. apply negb_true_iff. cbn [ContainsByte].
  repeat match goal with |- context [Ascii.eqb ?a c] =>
    destruct (Ascii.eqb_spec a c) as [<-|_]; [done|] end. done.
Qed.

Lemma alpha_plain_Itoa n : 0 <= n -> plain (Itoa n) = true.
Proof. intros. by apply digits_plain, Itoa_digits. Qed.

Definition kv (p : string * string) : string := p.1 ++ "=" ++ p.2.

Lemma parse_piece_kv k v : plain k = true -> plain v = true -> parse_piece (kv (k, v)) = Some (k, v).
Proof.
  intros Hk Hv. unfold parse_piece, kv. cbn [fst snd].
  change ("=" ++ v) with (String "=" v).
  assert (ContainsByte (k ++ String "=" v) ";" = false) as ->.
  { rewrite ContainsByte_app. cbn [ContainsByte].
    by rewrite (plain_no_byte k), (plain_no_byte v) by done. }
  assert (String.eqb (k ++ String "=" v) "" = false) as -> by (by destruct k).
  cbn [orb]. rewrite Cut_found by (by apply plain_no_byte).
  by rewrite !QueryUnescape_plain.
Qed.

(** A query written as [k1=v1&k2=v2&...] from plain strings. *)
Definition query_of (ps : list (string * string)) : string := Join (map kv ps) "&".

Lemma kv_no_amp p : plain p.1 = true -> plain p.2 = true -> ContainsByte (kv p) "&" = false.
Proof.
  intros H1 H2. unfold kv. rewrite !ContainsByte_app. cbn [ContainsByte].
  by rewrite (plain_no_byte p.1), (plain_no_byte p.2) by done.
Qed.

Lemma Split_query_of ps :
  ps <> [] -> Forall (fun p => plain p.1 = true /\ plain p.2 = true) ps ->
  Split (query_of ps) "&" = map kv ps.
Proof.
  intros Hne Hps. induction Hps as [|p ps [H1 H2] Hps IH]; [done|].
  destruct ps as [|p' ps].
  - unfold query_of. simpl. by apply Split_absent, kv_no_amp.
  - change (query_of (p :: p' :: ps)) with (kv p ++ String "&" (query_of (p' :: ps))).
    rewrite Split_app by (by apply kv_no_amp). by rewrite IH.
Qed.

Fixpoint assoc (k : string) (ps : list (string * string)) : option string :=
  match ps with
  | [] => None
  | p :: ps' => if String.eqb p.1 k then Some p.2 else assoc k ps'
  end.

Lemma Values_Get_fold ps m k :
  Forall (fun p => plain p.1 = true /\ plain p.2 = true) ps ->
  Values_Get (foldl Values_step m (map kv ps)) k =
  match m !! k with Some (v :: _) => v | _ => default "" (assoc k ps) end.
Proof.
  intros Hps. revert m. induction Hps as [|[a b] ps [H1 H2] Hps IH]; intros m; simpl.
  - unfold Values_Get. by destruct (m !! k) as [[|]|].
  - rewrite IH. unfold Values_step at 1. rewrite parse_piece_kv by done. unfold Values_add.
    destruct (String.eqb_spec a k) as [->|Hne].
    + rewrite lookup_insert_eq. by destruct (m !! k) as [[|]|].
    + by rewrite lookup_insert_ne.
Qed.

(** Reading a parameter from a query the program printed gives the printed value. *)
Lemma Get_query_of ps k :
  ps <> [] -> Forall (fun p => plain p.1 = true /\ plain p.2 = true) ps ->
  Values_Get (ParseQuery (query_of ps)) k = default "" (assoc k ps).
Proof.
  intros Hne Hps. unfold ParseQuery. rewrite Split_query_of by done.
  by rewrite Values_Get_fold.
Qed.

Lemma Values_Get_empty k : Values_Get (ParseQuery "") k = "".
Proof. done. Qed.

(** ** Lemmas: header names *)

Lemma Header_Get_Set h k v : Header_Get (Header_Set h k v) k = v.
Proof. unfold Header_Get, Header_Set, Values_Get. by rewrite lookup_insert_eq. Qed.

Lemma Header_Get_Set_ne h k k' v :
  CanonicalHeaderKey k <> CanonicalHeaderKey k' -> Header_Get (Header_Set h k v) k' = Header_Get h k'.
Proof. intros. unfold Header_Get, Header_Set, Values_Get. by rewrite lookup_insert_ne. Qed.
