(* ===== verification/Json.v ===== *)
(** * Go's [encoding/json] encoder as api-test uses it

    A value to be encoded is a [json] tree: struct fields in declaration order, map entries in key
    order, numbers by their text.  [json_text] is the compact encoding with HTML escaping, which
    both [json.Marshal] and [json.NewEncoder] produce; [Encode] adds the encoder's newline. *)
From S2P Require Import Prelude GoStrings GoNum.

Inductive json :=
| JNull
| JBool (b : bool)
| JNum (text : string)
| JStr (s : string)
| JArr (l : list json)
| JObj (fields : list (string * json)).

Definition JInt (z : Z) : json := JNum (Itoa z).

(** ** Strings *)

Definition hex4 (r : Z) : string :=
  String (hex_digit (r / 4096 mod 16)) (String (hex_digit (r / 256 mod 16))
    (String (hex_digit (r / 16 mod 16)) (str1 (hex_digit (r mod 16))))).
Definition u_escape (r : Z) : string := "\u" ++ hex4 r.

(** The escape of one rune of a JSON string. *)
Definition json_escape (k : chunk) : string :=
  match k with
  | Bad _ => "\ufffd"
  | Rune r e =>
    if r =? 34 then "\" ++ dquote
    else if r =? 92 then "\\"
    else if r =? 8 then "\b"
    else if r =? 9 then "\t"
    else if r =? 10 then "\n"
    else if r =? 12 then "\f"
    else if r =? 13 then "\r"
    else if (r <? 32) || (r =? 60) || (r =? 62) || (r =? 38) || (r =? 8232) || (r =? 8233)
      then u_escape r
    else e
  end.

Definition json_string_body (s : string) : string := sconcat (map json_escape (utf8_decode s)).
Definition json_string (s : string) : string := dquote ++ json_string_body s ++ dquote.

(** ** Values *)

Fixpoint json_text (j : json) : string :=
  match j with
  | JNull => "null"
  | JBool true => "true"
  | JBool false => "false"
  | JNum t => t
  | JStr s => json_string s
  | JArr l =>
    "[" ++ Join ((fix go (l : list json) : list string :=
                    match l with [] => [] | x :: l' => json_text x :: go l' end) l) "," ++ "]"
  | JObj fs =>
    "{" ++ Join ((fix go (l : list (string * json)) : list string :=
                    match l with
                    | [] => []
                    | (k, x) :: l' => (json_string k ++ ":" ++ json_text x) :: go l'
                    end) fs) "," ++ "}"
  end.

(** [json.NewEncoder(w).Encode(v)] writes the text and a newline. *)
Definition Encode (j : json) : string := json_text j ++ newline.

(** A struct field tagged [omitempty]. *)
Definition omit_str (k s : string) : list (string * json) :=
  if String.eqb s "" then [] else [(k, JStr s)].
Definition omit_bool (k : string) (b : bool) : list (string * json) :=
  if b then [(k, JBool true)] else [].
Definition omit_int (k : string) (z : Z) : list (string * json) :=
  if z =? 0 then [] else [(k, JInt z)].

(** ** Maps: entries in increasing key order *)

Definition key_le {A} (p q : string * A) : Prop := str_ltb q.1 p.1 = false.
#[global] Instance key_le_dec {A} : RelDecision (@key_le A).
Proof. intros p q. unfold key_le. apply _. Defined.

Definition sorted_entries {A} (m : gmap string A) : list (string * A) :=
  merge_sort key_le (map_to_list m).

Definition json_of_map {A} (f : A -> json) (m : gmap string A) : json :=
  JObj (map (fun p => (p.1, f p.2)) (sorted_entries m)).

Definition json_strings (l : list string) : json := JArr (map JStr l).

(** ** Lemmas *)

Lemma sorted_entries_perm {A} (m : gmap string A) : sorted_entries m ≡ₚ map_to_list m.
Proof. apply merge_sort_Permutation. Qed.

Lemma json_string_body_ascii_clean s :
  string_forallb (fun c => isDigit c || isLower c || isUpper c) s = true -> json_string_body s = s.
Proof.
  intros Hs. unfold json_string_body. rewrite utf8_decode_ascii.
  - induction s as [|c s IH]; [done|]. cbn [string_forallb] in Hs. bools. simpl.
    rewrite IH by done. f_equal.
    assert (Hc : 48 <= byte c <= 57 \/ 97 <= byte c <= 122 \/ 65 <= byte c <= 90).
    { unfold isDigit, isLower, isUpper, between in *. destruct H as [H|H]; bools; [|lia].
      destruct H as [H|H]; bools; lia. }
    repeat (case_if; try lia); try done.
    all: repeat match goal with H : _ \/ _ |- _ => destruct H end; bools; lia.
  - revert Hs. apply string_forallb_impl. intros c Hc.
    unfold isDigit, isLower, isUpper, between in Hc. apply Z.ltb_lt.
    apply orb_true_iff in Hc as [Hc|Hc]; bools; [|lia]. destruct Hc; bools; lia.
Qed.

Lemma json_text_JArr l : json_text (JArr l) = "[" ++ Join (map json_text l) "," ++ "]".
Proof. reflexivity. Qed.
