(* ===== verification/JsonParse.v ===== *)
(** * Go's [encoding/json] decoder as api-test uses it

    [Unmarshal] reads one JSON text into the tree of [Json.v]; numbers keep their text.  Strings
    are unquoted as the decoder does: escapes are resolved, surrogate pairs joined, and bytes that
    are not UTF-8 become U+FFFD.  The round trip with the encoder holds for every tree whose
    strings are UTF-8 and whose numbers are JSON numbers.  The decoder's limit of ten thousand
    nesting levels is left out. *)
From S2P Require Import Prelude GoStrings GoNum GoUrl Json.

(** ** Lexing *)

Definition isWS (c : ascii) : bool :=
  let b := byte c in (b =? 32) || (b =? 9) || (b =? 10) || (b =? 13).
Fixpoint skipWS (s : string) : string :=
  match s with String c s' => if isWS c then skipWS s' else s | EmptyString => s end.

(** The longest run of digits. *)
Fixpoint spanDigits (s : string) : string * string :=
  match s with
  | String c s' => if isDigit c then let '(a, b) := spanDigits s' in (String c a, b) else ("", s)
  | EmptyString => ("", "")
  end.

(** A JSON number at the front of the text: sign, integer part, fraction, exponent. *)
Definition lexInt (s : string) : option (string * string) :=
  match s with
  | String c s' =>
    if Ascii.eqb c "0" then Some ("0", s')
    else let '(d, r) := spanDigits s in if String.eqb d "" then None else Some (d, r)
  | EmptyString => None
  end.
Definition lexFrac (s : string) : option (string * string) :=
  if HasPrefix s "." then
    let '(d, r) := spanDigits (sdrop 1 s) in if String.eqb d "" then None else Some ("." ++ d, r)
  else Some ("", s).
Definition lexExp (s : string) : option (string * string) :=
  match s with
  | String e s1 =>
    if Ascii.eqb e "e" || Ascii.eqb e "E" then
      let '(sg, s2) := match s1 with
                       | String g s' => if Ascii.eqb g "+" || Ascii.eqb g "-" then (str1 g, s') else ("", s1)
                       | EmptyString => ("", s1)
                       end in
      let '(d, r) := spanDigits s2 in if String.eqb d "" then None else Some (String e (sg ++ d), r)
    else Some ("", s)
  | EmptyString => Some ("", s)
  end.
Definition lexNumber (s : string) : option (string * string) :=
  let '(sg, s1) := if HasPrefix s "-" then ("-", sdrop 1 s) else ("", s) in
  match lexInt s1 with
  | None => None
  | Some (i, s2) =>
    match lexFrac s2 with
    | None => None
    | Some (f, s3) =>
      match lexExp s3 with None => None | Some (e, s4) => Some (sg ++ i ++ f ++ e, s4) end
    end
  end.

(** ** Strings *)

Definition unhex4 (s : string) : option (Z * string) :=
  match s with
  | String a (String b (String c (String d s'))) =>
    match unhex a, unhex b, unhex c, unhex d with
    | Some w, Some x, Some y, Some z => Some (w * 4096 + x * 256 + y * 16 + z, s')
    | _, _, _, _ => None
    end
  | _ => None
  end.

(** A [\u] escape, joined with a second one when the two are a surrogate pair. *)
Definition unescapeU (s : string) : option (string * string) :=
  match unhex4 s with
  | None => None
  | Some (r, s1) =>
    if between 55296 r 56319 && HasPrefix s1 "\u" then
      match unhex4 (sdrop 2 s1) with
      | Some (r2, s2) =>
        if between 56320 r2 57343
        then Some (utf8_encode ((r - 55296) * 1024 + (r2 - 56320) + 65536), s2)
        else Some (utf8_encode r, s1)
      | None => None
      end
    else Some (utf8_encode r, s1)
  end.

Definition unescape1 (c : ascii) : option string :=
  if Ascii.eqb c (chr 34) then Some dquote else if Ascii.eqb c "\" then Some "\"
  else if Ascii.eqb c "/" then Some "/" else if Ascii.eqb c "b" then Some (str1 (chr 8))
  else if Ascii.eqb c "f" then Some (str1 (chr 12)) else if Ascii.eqb c "n" then Some (str1 (chr 10))
  else if Ascii.eqb c "r" then Some (str1 (chr 13)) else if Ascii.eqb c "t" then Some (str1 (chr 9)) else None.

(** The body of a string up to its closing quote; [fuel] bounds the length of the text. *)
Fixpoint lexString (fuel : nat) (s : string) : option (string * string) :=
  match fuel, s with
  | S n, String c s1 =>
    if Ascii.eqb c (chr 34) then Some ("", s1)
    else if byte c <? 32 then None
    else if Ascii.eqb c "\" then
      match s1 with
      | String e s2 =>
        if Ascii.eqb e "u" then
          match unescapeU s2 with
          | Some (out, s3) => match lexString n s3 with Some (t, r) => Some (out ++ t, r) | None => None end
          | None => None
          end
        else
          match unescape1 e with
          | Some out => match lexString n s2 with Some (t, r) => Some (out ++ t, r) | None => None end
          | None => None
          end
      | EmptyString => None
      end
    else match lexString n s1 with Some (t, r) => Some (String c t, r) | None => None end
  | _, _ => None
  end.

(** Bytes that are not UTF-8 become the replacement character. *)
Definition coerceUTF8 (s : string) : string :=
  sconcat (map (fun k => match k with Rune _ e => e | Bad _ => utf8_encode RuneError end) (utf8_decode s)).
Definition parseString (s : string) : option (string * string) :=
  match lexString (String.length s) s with Some (t, r) => Some (coerceUTF8 t, r) | None => None end.

(** ** Values *)

Definition expect (c : ascii) (s : string) : option string :=
  match skipWS s with String d s' => if Ascii.eqb c d then Some s' else None | EmptyString => None end.

(** The elements of an array up to [ ] ], and the members of an object up to [ } ]; [pv] reads a value. *)
Fixpoint parseElems (pv : string -> option (json * string)) (k : nat) (s : string) : option (list json * string) :=
  match k with
  | O => None
  | S k' =>
    match pv s with
    | None => None
    | Some (v, s1) =>
      match skipWS s1 with
      | String c s2 =>
        if Ascii.eqb c "," then match parseElems pv k' s2 with Some (l, r) => Some (v :: l, r) | None => None end
        else if Ascii.eqb c "]" then Some ([v], s2) else None
      | EmptyString => None
      end
    end
  end.

Definition parseMember (pv : string -> option (json * string)) (s : string) : option (string * json * string) :=
  match expect (chr 34) s with
  | None => None
  | Some s1 =>
    match parseString s1 with
    | None => None
    | Some (key, s2) =>
      match expect ":" s2 with
      | None => None
      | Some s3 => match pv s3 with Some (v, s4) => Some (key, v, s4) | None => None end
      end
    end
  end.
Fixpoint parseMembers (pv : string -> option (json * string)) (k : nat) (s : string)
    : option (list (string * json) * string) :=
  match k with
  | O => None
  | S k' =>
    match parseMember pv s with
    | None => None
    | Some (key, v, s1) =>
      match skipWS s1 with
      | String c s2 =>
        if Ascii.eqb c "," then
          match parseMembers pv k' s2 with Some (l, r) => Some ((key, v) :: l, r) | None => None end
        else if Ascii.eqb c "}" then Some ([(key, v)], s2) else None
      | EmptyString => None
      end
    end
  end.

Definition parseScalar (s : string) : option (json * string) :=
  if HasPrefix s "null" then Some (JNull, sdrop 4 s)
  else if HasPrefix s "true" then Some (JBool true, sdrop 4 s)
  else if HasPrefix s "false" then Some (JBool false, sdrop 5 s)
  else match lexNumber s with Some (t, r) => Some (JNum t, r) | None => None end.

Fixpoint parseValue (fuel : nat) (s : string) : option (json * string) :=
  match fuel with
  | O => None
  | S n =>
    match skipWS s with
    | EmptyString => None
    | String c s1 =>
      if Ascii.eqb c (chr 34) then
        match parseString s1 with Some (t, r) => Some (JStr t, r) | None => None end
      else if Ascii.eqb c "{" then
        match expect "}" s1 with
        | Some r => Some (JObj [], r)
        | None => match parseMembers (parseValue n) n s1 with Some (l, r) => Some (JObj l, r) | None => None end
        end
      else if Ascii.eqb c "[" then
        match expect "]" s1 with
        | Some r => Some (JArr [], r)
        | None => match parseElems (parseValue n) n s1 with Some (l, r) => Some (JArr l, r) | None => None end
        end
      else parseScalar (String c s1)
    end
  end.

(** [json.Unmarshal]: one value and nothing but white space after it.  [fuel] bounds the nesting
    and the number of elements; every value takes at least one byte. *)
Definition Unmarshal (s : string) : option json :=
  match parseValue (S (String.length s)) s with
  | Some (j, r) => if String.eqb (skipWS r) "" then Some j else None
  | None => None
  end.

(** [json.NewDecoder(r).Decode]: the first value of the stream; what follows it is not read. *)
Definition DecodeFirst (s : string) : option json :=
  match parseValue (S (String.length s)) s with Some (j, _) => Some j | None => None end.

(** ** Strings: the round trip *)

(** What the UTF-8 decoder promises about a rune and its encoding. *)
Definition okChunk (k : chunk) : Prop :=
  match k with
  | Bad _ => True
  | Rune r e =>
    (r < 128 /\ exists c, e = str1 c /\ byte c = r) \/
    (128 <= r /\ string_forallb (fun c => 128 <=? byte c) e = true /\
     (r = 8232 -> e = utf8_encode 8232) /\ (r = 8233 -> e = utf8_encode 8233))
  end.

#[local] Arguments utf8_decode : simpl never.

Lemma cont_range c : cont c = true -> 128 <= byte c <= 191.
Proof. unfold cont, between. intros. bools. lia. Qed.

Lemma okChunk3 c0 c1 c2 : between 224 (byte c0) 239 = true -> second3 (byte c0) c1 = true -> cont c2 = true ->
  okChunk (Rune ((byte c0 - 224) * 4096 + (byte c1 - 128) * 64 + (byte c2 - 128)) (String c0 (String c1 (str1 c2)))).
Proof.
  intros H0 H1 H2%cont_range.
  assert (H0' : 224 <= byte c0 <= 239) by (unfold between in H0; bools; lia).
  assert (H1' : 128 <= byte c1 <= 191 /\ (byte c0 = 224 -> 160 <= byte c1)).
  { unfold second3, between in H1. repeat case_if; bools; try (apply cont_range in H1); lia. }
  right. split; [lia|]. split; [simpl; rewrite !andb_true_iff, !Z.leb_le; lia|].
  rewrite <- (chr_byte c0), <- (chr_byte c1), <- (chr_byte c2). rewrite !byte_chr by lia.
  split; intros E.
  - assert (byte c0 = 226 /\ byte c1 = 128 /\ byte c2 = 168) as (-> & -> & ->) by lia. done.
  - assert (byte c0 = 226 /\ byte c1 = 128 /\ byte c2 = 169) as (-> & -> & ->) by lia. done.
Qed.

Lemma utf8_decode_ok s : Forall okChunk (utf8_decode s).
Proof.
  induction s as [s IH] using string_len_ind. destruct s as [|c0 s1]; [constructor|].
  rewrite utf8_decode_cons. cbv zeta.
  assert (Hbad : forall c t, (String.length t <= String.length s1)%nat -> Forall okChunk (Bad c :: utf8_decode t)).
  { intros c t Ht. constructor; [done|]. apply IH. simpl. lia. }
  utf8_cases; try (by apply Hbad; simpl; lia); try (by repeat constructor);
    (constructor; [|apply IH; simpl; lia]); bools.
  - left. split; [lia|]. by exists c0.
  - right. assert (194 <= byte c0 <= 223) by (unfold between in *; bools; lia).
    match goal with H : cont _ = true |- _ => apply cont_range in H end.
    split; [lia|]. split; [simpl; rewrite !andb_true_iff, !Z.leb_le; lia|]. lia.
  - by apply okChunk3.
  - right. assert (240 <= byte c0 <= 244) by (unfold between in *; bools; lia).
    repeat match goal with H : cont _ = true |- _ => apply cont_range in H end.
    assert (128 <= byte a <= 191 /\ (byte c0 = 240 -> 144 <= byte a)).
    { unfold second4, between in *. repeat case_if; bools; try (apply cont_range in H); lia. }
    split; [lia|]. split; [simpl; rewrite !andb_true_iff, !Z.leb_le; lia|]. lia.
Qed.

(** More fuel does not change a result. *)
Lemma lexString_fuel n : forall m s x, lexString n s = Some x -> (n <= m)%nat -> lexString m s = Some x.
Proof.
  induction n as [|n IH]; intros m s x Hx Hm; [done|]. destruct m as [|m]; [lia|].
  destruct s as [|c s1]; [done|]. cbn [lexString] in *.
  destruct (Ascii.eqb c (chr 34)); [done|]. destruct (byte c <? 32); [done|].
  assert (Hr : forall s2 y, lexString n s2 = Some y -> lexString m s2 = Some y) by (intros; apply IH; [done|lia]).
  destruct (Ascii.eqb c "\").
  - destruct s1 as [|e s2]; [done|]. destruct (Ascii.eqb e "u").
    + destruct (unescapeU s2) as [[out s3]|]; [|done]. destruct (lexString n s3) as [y|] eqn:E; [|done].
      by rewrite (Hr _ _ E).
    + destruct (unescape1 e); [|done]. destruct (lexString n s2) as [y|] eqn:E; [|done]. by rewrite (Hr _ _ E).
  - destruct (lexString n s1) as [y|] eqn:E; [|done]. by rewrite (Hr _ _ E).
Qed.

Lemma lexString_raw1 n c s t r : 32 <= byte c -> byte c <> 34 -> byte c <> 92 ->
  lexString n s = Some (t, r) -> lexString (S n) (String c s) = Some (String c t, r).
Proof.
  intros H1 H2 H3 Hs. cbn [lexString].
  destruct (Ascii.eqb_spec c (chr 34)) as [->|_]; [by rewrite byte_chr in H2|].
  destruct (byte c <? 32) eqn:E; bools; [lia|].
  destruct (Ascii.eqb_spec c "\") as [->|_]; [done|]. by rewrite Hs.
Qed.

Lemma lexString_raw e : forall n s t r, string_forallb (fun c => 128 <=? byte c) e = true ->
  lexString n s = Some (t, r) -> lexString (String.length e + n) (e ++ s) = Some (e ++ t, r).
Proof.
  induction e as [|c e IH]; intros n s t r He Hs; [done|]. simpl in He.
  apply andb_true_iff in He as [Hc He]. apply Z.leb_le in Hc. simpl String.length.
  apply lexString_raw1; [lia..|]. by apply IH.
Qed.

Lemma unhex_hex_digit z : 0 <= z < 16 -> unhex (hex_digit z) = Some z.
Proof.
  intros Hz. assert (Hin : z ∈ [0;1;2;3;4;5;6;7;8;9;10;11;12;13;14;15]) by (rewrite !elem_of_cons; lia).
  clear Hz. set_unfold in Hin. by repeat (destruct Hin as [->|Hin]; [done|]).
Qed.

Lemma unhex4_hex4 r s : 0 <= r < 65536 -> unhex4 (hex4 r ++ s) = Some (r, s).
Proof.
  intros Hr. unfold hex4. cbn [String.append]. unfold unhex4, str1. cbn [String.append].
  rewrite !unhex_hex_digit by (apply Z.mod_pos_bound; lia). f_equal. f_equal.
  pose proof (Z.div_mod r 16). pose proof (Z.div_mod (r / 16) 16). pose proof (Z.div_mod (r / 16 / 16) 16).
  rewrite !Z.div_div in * by lia. change (16 * 16) with 256 in *. change (256 * 16) with 4096 in *.
  assert (r / 4096 < 16) by (apply Z.div_lt_upper_bound; lia).
  pose proof (Z.div_pos r 4096). rewrite (Z.mod_small (r / 4096)) by lia. lia.
Qed.

Lemma lexString_u n r s t q : 0 <= r < 55296 ->
  lexString n s = Some (t, q) -> lexString (S n) (u_escape r ++ s) = Some (utf8_encode r ++ t, q).
Proof.
  intros Hr Hs. unfold u_escape. rewrite <- sapp_assoc.
  change ("\u" ++ hex4 r ++ s) with (String "\" (String "u" (hex4 r ++ s))). cbn [lexString].
  change (Ascii.eqb "\" (chr 34)) with false. change (byte "\" <? 32) with false.
  change (Ascii.eqb "\" "\") with true. change (Ascii.eqb "u" "u") with true. cbv iota.
  unfold unescapeU. rewrite unhex4_hex4 by lia.
  unfold between. destruct (55296 <=? r) eqn:E; bools; [lia|]. cbn [andb]. by rewrite Hs.
Qed.

Lemma lexString_short n d out s t q : unescape1 d = Some out -> Ascii.eqb d "u" = false ->
  lexString n s = Some (t, q) -> lexString (S n) (String "\" (String d s)) = Some (out ++ t, q).
Proof.
  intros Ho Hd Hs. cbn [lexString]. change (Ascii.eqb "\" (chr 34)) with false.
  change (byte "\" <? 32) with false. change (Ascii.eqb "\" "\") with true. cbv iota. by rewrite Hd, Ho, Hs.
Qed.

(** One escaped rune is read back as its own bytes. *)
Lemma lexString_chunk n k s t q : okChunk k -> (match k with Rune _ _ => True | Bad _ => False end) ->
  lexString n s = Some (t, q) ->
  lexString (String.length (json_escape k) + n) (json_escape k ++ s) = Some (chunk_bytes k ++ t, q).
Proof.
  intros Hk Hr Hs. destruct k as [r e|]; [|done]. clear Hr.
  assert (Hs' : lexString (S n) s = Some (t, q)) by (by eapply lexString_fuel; [exact Hs|lia]).
  assert (Hu : 0 <= r < 55296 -> e = utf8_encode r ->
     lexString (String.length (u_escape r) + n) (u_escape r ++ s) = Some (chunk_bytes (Rune r e) ++ t, q)).
  { intros Hb He. simpl chunk_bytes. rewrite He. eapply lexString_fuel; [by apply lexString_u|simpl; lia]. }
  destruct Hk as [[Hlt (c & -> & Hc)]|(Hge & Hhigh & H28 & H29)].
  - assert (Hraw : 32 <= r -> r <> 34 -> r <> 92 ->
       lexString (String.length (str1 c) + n) (str1 c ++ s) = Some (chunk_bytes (Rune r (str1 c)) ++ t, q)).
    { intros. apply (lexString_raw1 n c s t q); try lia. done. }
    pose proof (byte_range c). assert (Henc : str1 c = utf8_encode r).
    { unfold utf8_encode, between. destruct (_ || _ || _) eqn:E; [bools; lia|]. simpl.
      destruct (r <? 128) eqn:E2; bools; [|lia]. subst r. by rewrite chr_byte. }
    assert (Hcc : c = chr r) by (subst r; by rewrite chr_byte).
    unfold json_escape.
    do 7 (case_if; [match goal with E : r = _ |- _ => rewrite E in Hcc end; subst c; cbn -[lexString]; etransitivity; [eapply (lexString_short (S n)); [reflexivity|reflexivity|exact Hs']|reflexivity]|]).
    case_if; [apply Hu; [lia|done]|]. bools. apply Hraw; lia.
  - unfold json_escape.
    repeat (case_if; [bools; lia|]). case_if.
    + bools. assert (r = 8232 \/ r = 8233) as [Hr|Hr] by lia; apply Hu; subst; try lia; auto.
    + by apply lexString_raw.
Qed.

Lemma lexString_chunks ks rest : Forall okChunk ks ->
  forallb (fun k => match k with Rune _ _ => true | Bad _ => false end) ks = true ->
  let body := sconcat (map json_escape ks) in
  lexString (S (String.length body)) (body ++ String (chr 34) rest) = Some (chunks_bytes ks, rest).
Proof.
  intros Hok Hv. cbv zeta. induction Hok as [|k ks Hk Hks IH]; [done|]. simpl in Hv.
  apply andb_true_iff in Hv as [Hr Hv]. specialize (IH Hv). cbn [map sconcat foldr].
  fold (sconcat (map json_escape ks)). rewrite <- sapp_assoc, sapp_length.
  replace (S (String.length (json_escape k) + String.length (sconcat (map json_escape ks))))%nat
    with (String.length (json_escape k) + S (String.length (sconcat (map json_escape ks))))%nat by lia.
  etransitivity; [apply lexString_chunk; [done|by destruct k|exact IH]|done].
Qed.

Lemma coerceUTF8_valid s : utf8_Valid s = true -> coerceUTF8 s = s.
Proof.
  intros Hv. rewrite <- (utf8_decode_bytes s) at 2. unfold coerceUTF8, chunks_bytes, utf8_Valid in *.
  induction (utf8_decode s) as [|k ks IH]; [done|]. simpl in *. apply andb_true_iff in Hv as [Hk Hv].
  destruct k; [|done]. simpl. unfold sconcat in *. by rewrite IH.
Qed.

Lemma parseString_json s rest : utf8_Valid s = true ->
  parseString (json_string_body s ++ String (chr 34) rest) = Some (s, rest).
Proof.
  intros Hv. unfold parseString.
  assert (Hl : lexString (S (String.length (json_string_body s))) (json_string_body s ++ String (chr 34) rest)
               = Some (s, rest)).
  { etransitivity; [apply (lexString_chunks (utf8_decode s)); [apply utf8_decode_ok|exact Hv]|].
    by rewrite utf8_decode_bytes. }
  rewrite (lexString_fuel _ _ _ _ Hl) by (rewrite sapp_length; simpl; lia). by rewrite coerceUTF8_valid.
Qed.

(** ** Numbers *)

(** A text that is exactly one JSON number. *)
Definition numText (t : string) : bool :=
  match lexNumber t with Some (_, r) => String.eqb r "" | None => false end.
(** What may follow a number. *)
Definition numEnd (s : string) : bool :=
  match s with
  | String c _ => negb (isDigit c || Ascii.eqb c "." || Ascii.eqb c "e" || Ascii.eqb c "E")
  | EmptyString => true
  end.

Lemma spanDigits_app s rest : numEnd rest = true ->
  spanDigits (s ++ rest) = let '(d, r) := spanDigits s in (d, r ++ rest).
Proof.
  intros He. induction s as [|c s IH].
  - destruct rest as [|c rest]; [done|]. simpl in *. destruct (isDigit c); done.
  - simpl. destruct (isDigit c); [|done]. rewrite IH. by destruct (spanDigits s).
Qed.

Lemma lexInt_app s rest i r : numEnd rest = true -> lexInt s = Some (i, r) -> lexInt (s ++ rest) = Some (i, r ++ rest).
Proof.
  intros He. destruct s as [|c s]; [done|].
  change (String c s ++ rest) with (String c (s ++ rest)). unfold lexInt. destruct (Ascii.eqb c "0"); [by intros [= <- <-]|].
  change (String c (s ++ rest)) with (String c s ++ rest). rewrite spanDigits_app by done.
  destruct (spanDigits (String c s)) as [d r']. destruct (String.eqb d ""); [done|]. by intros [= <- <-].
Qed.

Lemma HasPrefix_char c s d : HasPrefix (String c s) (String d "") = Ascii.eqb c d.
Proof. simpl. by rewrite andb_true_r, Ascii.eqb_sym. Qed.

Lemma lexFrac_app s rest f r : numEnd rest = true -> lexFrac s = Some (f, r) -> lexFrac (s ++ rest) = Some (f, r ++ rest).
Proof.
  intros He. unfold lexFrac. destruct s as [|c s].
  - intros [= <- <-]. destruct rest as [|c rest]; [done|]. simpl in He.
    change ("" ++ String c rest) with (String c rest). rewrite HasPrefix_char.
    destruct (Ascii.eqb c "."); [by rewrite orb_true_r in He|done].
  - change (String c s ++ rest) with (String c (s ++ rest)). rewrite !HasPrefix_char.
    destruct (Ascii.eqb c "."); [|by intros [= <- <-]].
    change (sdrop 1 (String c (s ++ rest))) with (s ++ rest). change (sdrop 1 (String c s)) with s.
    rewrite spanDigits_app by done. destruct (spanDigits s) as [d r']. destruct (String.eqb d ""); [done|].
    by intros [= <- <-].
Qed.

Lemma lexExp_app s rest e r : numEnd rest = true -> lexExp s = Some (e, r) -> lexExp (s ++ rest) = Some (e, r ++ rest).
Proof.
  intros He. unfold lexExp. destruct s as [|c s].
  - intros [= <- <-]. destruct rest as [|c rest]; [done|]. unfold numEnd in He.
    apply negb_true_iff in He. rewrite !orb_false_iff in He. destruct He as [[_ H1] H2].
    change ("" ++ String c rest) with (String c rest). cbv beta iota. by rewrite H1, H2.
  - change (String c s ++ rest) with (String c (s ++ rest)). cbv beta iota.
    destruct (Ascii.eqb c "e" || Ascii.eqb c "E"); [|by intros [= <- <-]].
    destruct s as [|g s]; [done|]. change (String g s ++ rest) with (String g (s ++ rest)). cbv beta iota.
    destruct (Ascii.eqb g "+" || Ascii.eqb g "-").
    + rewrite spanDigits_app by done. destruct (spanDigits s) as [d r']. destruct (String.eqb d ""); [done|].
      by intros [= <- <-].
    + change (String g (s ++ rest)) with (String g s ++ rest). rewrite spanDigits_app by done.
      destruct (spanDigits (String g s)) as [d r']. destruct (String.eqb d ""); [done|]. by intros [= <- <-].
Qed.

Lemma lexNumber_app s rest t r : numEnd rest = true ->
  lexNumber s = Some (t, r) -> lexNumber (s ++ rest) = Some (t, r ++ rest).
Proof.
  intros He. unfold lexNumber.
  assert (Hs : s <> "" -> (if HasPrefix (s ++ rest) "-" then ("-", sdrop 1 (s ++ rest)) else ("", s ++ rest)) =
    let '(sg, s1) := if HasPrefix s "-" then ("-", sdrop 1 s) else ("", s) in (sg, s1 ++ rest)).
  { destruct s as [|c s]; [done|]. intros _. change (String c s ++ rest) with (String c (s ++ rest)).
    rewrite !HasPrefix_char. by destruct (Ascii.eqb c "-"). }
  destruct (decide (s = "")) as [->|Hne]; [done|]. rewrite (Hs Hne).
  destruct (if HasPrefix s "-" then _ else _) as [sg s1].
  destruct (lexInt s1) as [[i s2]|] eqn:Ei; [|done]. rewrite (lexInt_app _ _ _ _ He Ei).
  destruct (lexFrac s2) as [[f s3]|] eqn:Ef; [|done]. rewrite (lexFrac_app _ _ _ _ He Ef).
  destruct (lexExp s3) as [[e s4]|] eqn:Ee; [|done]. rewrite (lexExp_app _ _ _ _ He Ee).
  by intros [= <- <-].
Qed.

Lemma spanDigits_split s : let '(d, r) := spanDigits s in s = d ++ r.
Proof.
  induction s as [|c s IH]; simpl; [done|]. destruct (isDigit c); [|done].
  destruct (spanDigits s) as [d r]. by rewrite IH.
Qed.

(** The text of a number is what was consumed. *)
Lemma lexNumber_split s t r : lexNumber s = Some (t, r) -> s = t ++ r.
Proof.
  unfold lexNumber. destruct (if HasPrefix s "-" then _ else _) as [sg s1] eqn:E.
  assert (Hs : s = sg ++ s1).
  { destruct (HasPrefix s "-") eqn:Eh; injection E as <- <-; [|done]. apply HasPrefix_spec in Eh as [x ->]. done. }
  destruct (lexInt s1) as [[i s2]|] eqn:Ei; [|done]. destruct (lexFrac s2) as [[f s3]|] eqn:Ef; [|done].
  destruct (lexExp s3) as [[e s4]|] eqn:Ee; [|done]. intros [= <- <-].
  assert (H1 : s1 = i ++ s2).
  { unfold lexInt in Ei. destruct s1 as [|c s1]; [done|]. destruct (Ascii.eqb_spec c "0") as [->|_]; [by injection Ei as <- <-|].
    pose proof (spanDigits_split (String c s1)) as Hd. destruct (spanDigits (String c s1)) as [d q].
    destruct (String.eqb d ""); [done|]. by injection Ei as <- <-. }
  assert (H2 : s2 = f ++ s3).
  { unfold lexFrac in Ef. destruct (HasPrefix s2 ".") eqn:Eh; [|by injection Ef as <- <-].
    apply HasPrefix_spec in Eh as [x ->]. change (sdrop 1 ("." ++ x)) with x in Ef.
    pose proof (spanDigits_split x) as Hd. destruct (spanDigits x) as [d q].
    destruct (String.eqb d ""); [done|]. injection Ef as <- <-. rewrite Hd. by sapp_norm. }
  assert (H3 : s3 = e ++ s4).
  { unfold lexExp in Ee. destruct s3 as [|c s3]; [by injection Ee as <- <-|].
    destruct (Ascii.eqb c "e" || Ascii.eqb c "E"); [|by injection Ee as <- <-].
    destruct (match s3 with String g s' => _ | EmptyString => _ end) as [g s5] eqn:Eg.
    assert (Hg : s3 = g ++ s5).
    { destruct s3 as [|h s3]; [by injection Eg as <- <-|].
      destruct (Ascii.eqb h "+" || Ascii.eqb h "-"); by injection Eg as <- <-. }
    pose proof (spanDigits_split s5) as Hd. destruct (spanDigits s5) as [d q].
    destruct (String.eqb d ""); [done|]. injection Ee as <- <-. rewrite Hg, Hd. simpl. by sapp_norm. }
  rewrite Hs, H1, H2, H3. by sapp_norm.
Qed.

Lemma numText_lex t rest : numText t = true -> numEnd rest = true -> lexNumber (t ++ rest) = Some (t, rest).
Proof.
  unfold numText. destruct (lexNumber t) as [[u r]|] eqn:E; [|done]. intros Hr%String.eqb_eq He. subst r.
  pose proof (lexNumber_split _ _ _ E) as Ht. rewrite sapp_nil_r in Ht. subst u.
  by rewrite (lexNumber_app _ _ _ _ He E).
Qed.

(** ** Values: the round trip *)

(** Induction on trees, with the property for every element and every field. *)
Lemma json_tree_ind (P : json -> Prop) :
  P JNull -> (forall b, P (JBool b)) -> (forall t, P (JNum t)) -> (forall s, P (JStr s)) ->
  (forall l, Forall P l -> P (JArr l)) -> (forall fs, Forall (fun f => P f.2) fs -> P (JObj fs)) ->
  forall j, P j.
Proof.
  intros Hn Hb Ht Hs Ha Ho. fix IH 1. intros [ |b|t|s|l|fs]; [done|done|done|done| |].
  - apply Ha. induction l as [|x l IHl]; constructor; [apply IH|apply IHl].
  - apply Ho. induction fs as [|[k x] fs IHf]; constructor; [apply IH|apply IHf].
Qed.

(** UTF-8 strings and JSON numbers throughout. *)
Fixpoint wfJson (j : json) : bool :=
  match j with
  | JNull | JBool _ => true
  | JNum t => numText t
  | JStr s => utf8_Valid s
  | JArr l => forallb wfJson l
  | JObj fs => forallb (fun f => utf8_Valid f.1 && wfJson f.2) fs
  end.

Fixpoint jsize (j : json) : nat :=
  match j with
  | JArr l => S (list_sum (map jsize l))
  | JObj fs => S (list_sum (map (fun f => jsize f.2) fs))
  | _ => 1
  end.

Lemma json_text_arr l : json_text (JArr l) = "[" ++ Join (map json_text l) "," ++ "]".
Proof. reflexivity. Qed.
Definition field_text (f : string * json) : string := json_string f.1 ++ ":" ++ json_text f.2.
Lemma json_text_obj fs : json_text (JObj fs) = "{" ++ Join (map field_text fs) "," ++ "}".
Proof.
  simpl. f_equal. f_equal. f_equal. induction fs as [|[k x] fs IH]; [done|]. simpl. by rewrite IH.
Qed.

(** The first byte of a value: never white space, never a closing bracket. *)
Definition valueStart (c : ascii) : bool :=
  Ascii.eqb c (chr 34) || Ascii.eqb c "{" || Ascii.eqb c "[" || Ascii.eqb c "n" || Ascii.eqb c "t"
  || Ascii.eqb c "f" || Ascii.eqb c "-" || isDigit c.

Lemma numText_start t : numText t = true ->
  exists c t', t = String c t' /\ (Ascii.eqb c "-" = true \/ isDigit c = true).
Proof.
  unfold numText, lexNumber. destruct t as [|c t]; [done|]. rewrite HasPrefix_char. intros Hn. exists c, t.
  split; [done|]. destruct (Ascii.eqb c "-"); [by left|right].
  unfold lexInt in Hn. destruct (Ascii.eqb_spec c "0") as [->|_]; [done|].
  simpl in Hn. by destruct (isDigit c).
Qed.

Lemma json_text_start j : wfJson j = true -> exists c t, json_text j = String c t /\ valueStart c = true.
Proof.
  destruct j as [ |[]|t|s|l|fs]; intros Hw; try (by do 2 eexists; split; [reflexivity|]).
  - destruct (numText_start t Hw) as (c & t' & -> & Hc). exists c, t'. split; [done|]. unfold valueStart.
    destruct Hc as [->| ->]; by rewrite ?orb_true_r.
Qed.

Lemma valueStart_facts c : valueStart c = true ->
  isWS c = false /\ Ascii.eqb c "]" = false /\ Ascii.eqb c "}" = false.
Proof.
  unfold valueStart, isDigit. intros Hc. rewrite !orb_true_iff, !Ascii.eqb_eq in Hc.
  destruct Hc as [[[[[[[->| ->]| ->]| ->]| ->]| ->]| ->]|Hd]; try done.
  unfold between in Hd. bools. unfold isWS.
  split; [|split].
  - rewrite !orb_false_iff, !Z.eqb_neq. lia.
  - apply Ascii.eqb_neq. intros ->. by vm_compute in H.
  - apply Ascii.eqb_neq. intros ->. by vm_compute in H0.
Qed.

Lemma json_text_pos j : wfJson j = true -> (1 <= String.length (json_text j))%nat.
Proof. intros Hw. destruct (json_text_start j Hw) as (c & t & -> & _). simpl. lia. Qed.

Lemma expect_first c d s : isWS d = false -> expect c (String d s) = if Ascii.eqb c d then Some s else None.
Proof. intros Hd. unfold expect. simpl. by rewrite Hd. Qed.

Section Lists.
Variable pv : string -> option (json * string).

(** [pv] reads the value [j] back, whatever admissible text follows. *)
Definition reads (j : json) : Prop := forall rest, numEnd rest = true -> pv (json_text j ++ rest) = Some (j, rest).

Lemma parseElems_json l rest : Forall reads l -> l <> [] -> forall k, (length l <= k)%nat ->
  parseElems pv k (Join (map json_text l) "," ++ "]" ++ rest) = Some (l, rest).
Proof.
  intros Hl Hne. induction Hl as [|x l Hx Hl IH]; [done|]. intros k Hk. destruct k as [|k]; [simpl in Hk; lia|].
  destruct l as [|y l].
  - cbn [map Join]. cbn [parseElems]. rewrite Hx by done. done.
  - change (Join (map json_text (x :: y :: l)) ",") with (json_text x ++ "," ++ Join (map json_text (y :: l)) ",").
    rewrite <- !sapp_assoc. cbn [parseElems]. rewrite Hx by done.
    change (skipWS ("," ++ ?z)) with ("," ++ z). change ("," ++ ?z) with (String "," z). cbv iota.
    change (Ascii.eqb "," ",") with true. cbv iota. rewrite IH; [done|done|simpl in *; lia].
Qed.

Lemma parseMember_json f rest : utf8_Valid f.1 = true -> reads f.2 -> numEnd rest = true ->
  parseMember pv (field_text f ++ rest) = Some (f.1, f.2, rest).
Proof.
  destruct f as [key v]. cbn [fst snd]. intros Hu Hr He. unfold parseMember, field_text. cbn [fst snd].
  unfold json_string. rewrite <- !sapp_assoc.
  do 2 change (dquote ++ ?z) with (String (chr 34) z). rewrite expect_first by done.
  change (Ascii.eqb (chr 34) (chr 34)) with true. cbv iota.
  rewrite parseString_json by done. change (":" ++ ?z) with (String ":" z). rewrite expect_first by done.
  change (Ascii.eqb ":" ":") with true. cbv iota. by rewrite Hr.
Qed.

Lemma parseMembers_json fs rest : Forall (fun f => utf8_Valid f.1 = true /\ reads f.2) fs -> fs <> [] ->
  forall k, (length fs <= k)%nat ->
  parseMembers pv k (Join (map field_text fs) "," ++ "}" ++ rest) = Some (fs, rest).
Proof.
  intros Hl Hne. induction Hl as [|x l [Hu Hx] Hl IH]; [done|]. intros k Hk. destruct k as [|k]; [simpl in Hk; lia|].
  destruct l as [|y l].
  - cbn [map Join]. cbn [parseMembers]. rewrite parseMember_json by done. by destruct x.
  - change (Join (map field_text (x :: y :: l)) ",") with (field_text x ++ "," ++ Join (map field_text (y :: l)) ",").
    rewrite <- !sapp_assoc. cbn [parseMembers]. rewrite parseMember_json by done.
    change (skipWS ("," ++ ?z)) with ("," ++ z). change ("," ++ ?z) with (String "," z). cbv iota.
    change (Ascii.eqb "," ",") with true. cbv iota. rewrite IH; [by destruct x|done|simpl in *; lia].
Qed.
End Lists.

Lemma jsize_pos j : (1 <= jsize j)%nat.
Proof. destruct j; simpl; lia. Qed.

Lemma list_sum_in {A} (f : A -> nat) l x : x ∈ l -> (f x <= list_sum (map f l))%nat.
Proof. induction 1; simpl; lia. Qed.

Lemma list_sum_length {A} (f : A -> nat) l : (forall x, (1 <= f x)%nat) -> (length l <= list_sum (map f l))%nat.
Proof. intros Hf. induction l as [|x l IH]; simpl; [lia|]. specialize (Hf x). lia. Qed.

Lemma Join_start l : (exists c t, Join l "," = String c t) \/ Join l "," = "".
Proof. destruct (Join l ",") eqn:E; [by right|left; by do 2 eexists]. Qed.

Lemma parseScalar_num t rest : numText t = true -> numEnd rest = true ->
  parseScalar (t ++ rest) = Some (JNum t, rest).
Proof.
  intros Ht He. destruct (numText_start t Ht) as (c & t' & Et & Hc).
  unfold parseScalar. rewrite (numText_lex t rest Ht He). subst t.
  assert (Hno : forall d p, Ascii.eqb d c = false -> HasPrefix (String c t' ++ rest) (String d p) = false)
    by (intros d p Hd; simpl; by rewrite Hd).
  assert (Hd : Ascii.eqb "n" c = false /\ Ascii.eqb "t" c = false /\ Ascii.eqb "f" c = false).
  { destruct Hc as [Hc|Hc]; [by apply Ascii.eqb_eq in Hc as ->|].
    unfold isDigit, between in Hc. bools.
    repeat split; apply Ascii.eqb_neq; intros <-; match goal with E : byte _ <= 57 |- _ => by vm_compute in E end. }
  destruct Hd as (H1 & H2 & H3). by rewrite !Hno.
Qed.

Lemma parseValue_json j : wfJson j = true -> forall n, (jsize j <= n)%nat -> reads (parseValue n) j.
Proof.
  induction j as [ |b|t|s|l IH|fs IH] using json_tree_ind; intros Hw n Hn rest He;
    (destruct n as [|n]; [simpl in Hn; lia|]).
  - done.
  - by destruct b.
  - destruct (numText_start t Hw) as (c & t' & Et & Hc).
    cbn [json_text]. pose proof (parseScalar_num t rest Hw He) as Hs. subst t.
    change (String c t' ++ rest) with (String c (t' ++ rest)) in *.
    assert (Hst : valueStart c = true) by (unfold valueStart; destruct Hc as [->| ->]; by rewrite ?orb_true_r).
    cbn [parseValue skipWS]. destruct (valueStart_facts c Hst) as (-> & _). cbv iota.
    assert (Hx : Ascii.eqb c (chr 34) = false /\ Ascii.eqb c "{" = false /\ Ascii.eqb c "[" = false).
    { destruct Hc as [Hc|Hc]; [by apply Ascii.eqb_eq in Hc as ->|]. unfold isDigit, between in Hc. bools.
      repeat split; apply Ascii.eqb_neq; intros ->;
        match goal with E : 48 <= _, F : _ <= 57 |- _ => first [by vm_compute in E|by vm_compute in F] end. }
    destruct Hx as (-> & -> & ->). exact Hs.
  - cbn [json_text]. unfold json_string. rewrite <- !sapp_assoc.
    do 2 change (dquote ++ ?z) with (String (chr 34) z). cbn [parseValue skipWS].
    change (isWS (chr 34)) with false. change (Ascii.eqb (chr 34) (chr 34)) with true. cbv iota.
    by rewrite parseString_json.
  - rewrite json_text_arr, <- !sapp_assoc. change ("[" ++ ?z) with (String "[" z). cbn [parseValue skipWS].
    change (isWS "[") with false. change (Ascii.eqb "[" (chr 34)) with false. change (Ascii.eqb "[" "{") with false.
    change (Ascii.eqb "[" "[") with true. cbv iota.
    destruct l as [|x l]; [done|]. simpl in Hw. apply andb_true_iff in Hw as [Hwx Hwl].
    destruct (json_text_start x Hwx) as (c & tx & Ex & Hc). destruct (valueStart_facts c Hc) as (Hws & Hb & _).
    assert (Hstart : exists z, Join (map json_text (x :: l)) "," ++ "]" ++ rest = String c z).
    { destruct l; [|change (Join (map json_text (x :: j :: l)) ",") with (json_text x ++ "," ++ Join (map json_text (j :: l)) ",")];
        cbn [map Join]; rewrite Ex; by eexists. }
    destruct Hstart as [z Hz].
    assert (Hex : expect "]" (Join (map json_text (x :: l)) "," ++ "]" ++ rest) = None).
    { rewrite Hz, expect_first by done. rewrite Ascii.eqb_sym. by rewrite Hb. }
    rewrite Hex. rewrite parseElems_json; [done| |done|].
    + apply Forall_forall. intros y Hy. rewrite Forall_forall in IH. apply IH; [done| |].
      * apply elem_of_cons in Hy as [->|Hy]; [done|]. rewrite forallb_forall in Hwl. apply Hwl. by apply list_elem_of_In.
      * pose proof (list_sum_in jsize (x :: l) y Hy). simpl in Hn, H. lia.
    + pose proof (list_sum_length jsize (x :: l) jsize_pos). simpl in Hn, H |- *. lia.
  - rewrite json_text_obj, <- !sapp_assoc. change ("{" ++ ?z) with (String "{" z). cbn [parseValue skipWS].
    change (isWS "{") with false. change (Ascii.eqb "{" (chr 34)) with false. change (Ascii.eqb "{" "{") with true. cbv iota.
    destruct fs as [|x l]; [done|].
    assert (Hstart : exists z, Join (map field_text (x :: l)) "," ++ "}" ++ rest = String (chr 34) z).
    { destruct l as [|y l]; [|change (Join (map field_text (x :: y :: l)) ",") with (field_text x ++ "," ++ Join (map field_text (y :: l)) ",")];
        cbn [map Join]; by eexists. }
    destruct Hstart as [z Hz].
    assert (Hex : expect "}" (Join (map field_text (x :: l)) "," ++ "}" ++ rest) = None) by (by rewrite Hz, expect_first).
    rewrite Hex. rewrite parseMembers_json; [done| |done|].
    + apply Forall_forall. intros y Hy. rewrite Forall_forall in IH.
      assert (Hwy : utf8_Valid y.1 && wfJson y.2 = true).
      { cbn [wfJson] in Hw. rewrite forallb_forall in Hw. apply Hw. by apply list_elem_of_In. }
      apply andb_true_iff in Hwy as [Hu Hwy]. split; [done|]. apply IH; [done|done|].
      pose proof (list_sum_in (fun f => jsize f.2) (x :: l) y Hy). simpl in Hn, H. lia.
    + pose proof (list_sum_length (fun f => jsize f.2) (x :: l) (fun f => jsize_pos f.2)). simpl in Hn, H |- *. lia.
Qed.

Lemma Join_length_ge l : (list_sum (map String.length l) <= String.length (Join l ","))%nat.
Proof.
  induction l as [|x l IH]; [done|]. destruct l as [|y l]; [simpl; lia|].
  change (Join (x :: y :: l) ",") with (x ++ "," ++ Join (y :: l) ","). rewrite !sapp_length.
  cbn [map list_sum foldr] in *. simpl in *. lia.
Qed.

Lemma list_sum_le {A} (f g : A -> nat) l : Forall (fun x => f x <= g x)%nat l ->
  (list_sum (map f l) <= list_sum (map g l))%nat.
Proof. induction 1; simpl; lia. Qed.

(** Every node of a tree takes at least one byte of its text. *)
Lemma jsize_text j : wfJson j = true -> (jsize j <= String.length (json_text j))%nat.
Proof.
  induction j as [ |b|t|s|l IH|fs IH] using json_tree_ind; intros Hw; try (by apply json_text_pos).
  - rewrite json_text_arr, !sapp_length. cbn [jsize]. pose proof (Join_length_ge (map json_text l)) as Hj.
    rewrite map_map in Hj. assert (Hs : (list_sum (map jsize l) <= list_sum (map (fun x => String.length (json_text x)) l))%nat).
    { apply list_sum_le. rewrite Forall_forall in *. intros x Hx. apply IH; [done|].
      cbn [wfJson] in Hw. rewrite forallb_forall in Hw. apply Hw. by apply list_elem_of_In. }
    simpl. lia.
  - rewrite json_text_obj, !sapp_length. cbn [jsize]. pose proof (Join_length_ge (map field_text fs)) as Hj.
    rewrite map_map in Hj.
    assert (Hs : (list_sum (map (fun f => jsize f.2) fs) <= list_sum (map (fun x => String.length (field_text x)) fs))%nat).
    { apply list_sum_le. rewrite Forall_forall in *. intros x Hx. unfold field_text. rewrite !sapp_length.
      specialize (IH x Hx). cbn [wfJson] in Hw. rewrite forallb_forall in Hw.
      specialize (Hw x). rewrite <- list_elem_of_In in Hw. specialize (Hw Hx). apply andb_true_iff in Hw as [_ Hw].
      specialize (IH Hw). lia. }
    simpl. lia.
Qed.

(** The decoder inverts the encoder. *)
Lemma Unmarshal_first s j : Unmarshal s = Some j -> DecodeFirst s = Some j.
Proof.
  unfold Unmarshal, DecodeFirst. destruct (parseValue _ s) as [[j' r]|]; [|done].
  destruct (String.eqb _ _); [|done]. by intros [= ->].
Qed.

Lemma Unmarshal_json_text j : wfJson j = true -> Unmarshal (json_text j) = Some j.
Proof.
  intros Hw. unfold Unmarshal. pose proof (jsize_text j Hw) as Hs.
  assert (Hr : reads (parseValue (S (String.length (json_text j)))) j) by (apply parseValue_json; [done|lia]).
  specialize (Hr "" eq_refl). rewrite sapp_nil_r in Hr. by rewrite Hr.
Qed.

(** ** Struct fields *)

Section Fields.
Context `{UnicodeTables}.

(** Decoding a [string] field that holds [v0]: entries whose key folds to the name are applied in
    order, [null] changes nothing, another type is an error. *)
Definition jstringFrom (v0 name : string) (fs : list (string * json)) : option string :=
  foldl (fun acc f =>
    match acc with
    | None => None
    | Some v =>
      if EqualFold f.1 name then match f.2 with JNull => Some v | JStr s => Some s | _ => None end else Some v
    end) (Some v0) fs.
Definition jstring : string -> list (string * json) -> option string := jstringFrom "".

(** The same for a field that holds an object or a list: the raw entries, in order. *)
Definition jentries (name : string) (fs : list (string * json)) : list json :=
  omap (fun f => if EqualFold f.1 name then Some f.2 else None) fs.
End Fields.
