(* ===== verification/JsonIndent.v ===== *)
(** * [json.MarshalIndent(v, "", "  ")]

    The indented text of a tree: a line per element and member, two spaces per level, a space after
    each colon, nothing between the brackets of an empty array or object.  The decoder reads it back
    as it reads the compact text. *)
From S2P Require Import Prelude GoStrings GoNum GoUrl Json JsonParse.

Fixpoint spaces (n : nat) : string := match n with O => "" | S n' => "  " ++ spaces n' end.
(** A line break at depth [n]. *)
Definition lineBreak (n : nat) : string := newline ++ spaces n.

(** The items of a block between its brackets. *)
Definition block (n : nat) (open close : string) (items : list string) : string :=
  match items with
  | [] => open ++ close
  | _ => open ++ lineBreak (S n) ++ Join items ("," ++ lineBreak (S n)) ++ lineBreak n ++ close
  end.

Fixpoint indentText (n : nat) (j : json) : string :=
  match j with
  | JArr l => block n "[" "]" (map (indentText (S n)) l)
  | JObj fs => block n "{" "}" (map (fun f => json_string f.1 ++ ": " ++ indentText (S n) f.2) fs)
  | _ => json_text j
  end.
Definition MarshalIndent (j : json) : string := indentText 0 j.

(** ** White space *)

Definition allWS (w : string) : bool := string_forallb isWS w.

Lemma skipWS_app w s : allWS w = true -> skipWS (w ++ s) = skipWS s.
Proof. unfold allWS. induction w as [|c w IH]; simpl; [done|]. intros Hw. bools. rewrite H. by apply IH. Qed.
Lemma lineBreak_WS n : allWS (lineBreak n) = true.
Proof. unfold lineBreak, allWS. rewrite string_forallb_app. induction n as [|n IH]; [done|]. by rewrite <- IH. Qed.
Lemma numEnd_WS c w s : isWS c = true -> numEnd (String c w ++ s) = true.
Proof.
  unfold isWS. intros Hc. cbn [String.append numEnd].
  assert (Hd : byte c = 32 \/ byte c = 9 \/ byte c = 10 \/ byte c = 13) by (bools; lia).
  destruct (isDigit c) eqn:E; [unfold isDigit, between in E; bools; lia|].
  destruct (Ascii.eqb_spec c ".") as [->|]; [vm_compute in Hd; lia|].
  destruct (Ascii.eqb_spec c "e") as [->|]; [vm_compute in Hd; lia|].
  destruct (Ascii.eqb_spec c "E") as [->|]; [vm_compute in Hd; lia|]. done.
Qed.
Lemma numEnd_break n s : numEnd (lineBreak n ++ s) = true.
Proof. done. Qed.

Lemma parseValue_WS n w s : allWS w = true -> parseValue n (w ++ s) = parseValue n s.
Proof. intros Hw. destruct n as [|n]; [done|]. cbn [parseValue]. by rewrite skipWS_app. Qed.
Lemma expect_WS c w s : allWS w = true -> expect c (w ++ s) = expect c s.
Proof. intros Hw. unfold expect. by rewrite skipWS_app. Qed.

(** ** Reading a block back *)

Section Blocks.
Variable pv : string -> option (json * string).
Hypothesis pv_WS : forall w s, allWS w = true -> pv (w ++ s) = pv s.

(** [pv] reads [j] from [t], whatever admissible text follows. *)
Definition readsFrom (t : string) (j : json) : Prop := forall rest, numEnd rest = true -> pv (t ++ rest) = Some (j, rest).

Lemma parseElems_block w w' rest ts l : allWS w = true -> (forall s, numEnd (w' ++ s) = true) -> allWS w' = true ->
  Forall2 readsFrom ts l -> l <> [] -> forall k, (length l <= k)%nat ->
  parseElems pv k (w ++ Join ts ("," ++ w) ++ w' ++ "]" ++ rest) = Some (l, rest).
Proof.
  intros Hw He Hw' Hl Hne. induction Hl as [|t x ts l Hx Hl IH]; [done|]. intros k Hk. destruct k as [|k]; [simpl in Hk; lia|].
  destruct Hl as [|t2 y ts l Hy Hl].
  - cbn [Join parseElems]. rewrite pv_WS, Hx by done. rewrite skipWS_app by done. done.
  - change (Join (t :: t2 :: ts) ?z) with (t ++ z ++ Join (t2 :: ts) z). rewrite <- !sapp_assoc. cbn [parseElems].
    rewrite pv_WS, Hx by done. change (skipWS ("," ++ ?z)) with ("," ++ z). change ("," ++ ?z) with (String "," z) at 1.
    cbv iota. change (Ascii.eqb "," ",") with true. cbv iota.
    rewrite IH; [done|done|simpl in *; lia].
Qed.

Lemma parseMember_block w key t v rest : allWS w = true -> utf8_Valid key = true -> readsFrom t v -> numEnd rest = true ->
  parseMember pv (w ++ (json_string key ++ ": " ++ t) ++ rest) = Some (key, v, rest).
Proof.
  intros Hw Hu Hr He. unfold parseMember. rewrite expect_WS by done. unfold json_string. rewrite <- !sapp_assoc.
  do 2 change (dquote ++ ?z) with (String (chr 34) z). rewrite expect_first by done.
  change (Ascii.eqb (chr 34) (chr 34)) with true. cbv iota. rewrite parseString_json by done.
  change (": " ++ ?z) with (String ":" (" " ++ z)). rewrite expect_first by done.
  change (Ascii.eqb ":" ":") with true. cbv iota. by rewrite pv_WS, Hr.
Qed.

Lemma parseMembers_block w w' rest ts fs : allWS w = true -> (forall s, numEnd (w' ++ s) = true) -> allWS w' = true ->
  Forall2 (fun t f => exists u, t = json_string f.1 ++ ": " ++ u /\ utf8_Valid f.1 = true /\ readsFrom u f.2) ts fs -> fs <> [] ->
  forall k, (length fs <= k)%nat ->
  parseMembers pv k (w ++ Join ts ("," ++ w) ++ w' ++ "}" ++ rest) = Some (fs, rest).
Proof.
  intros Hw He Hw' Hl Hne. induction Hl as [|t [key v] ts l (u & -> & Hu & Hx) Hl IH]; [done|]. cbn [fst snd] in *.
  intros k Hk. destruct k as [|k]; [simpl in Hk; lia|]. destruct Hl as [|t2 y ts l Hy Hl].
  - cbn [Join parseMembers]. rewrite (parseMember_block w key u v) by done. rewrite skipWS_app by done. done.
  - change (Join (?t :: t2 :: ts) ?z) with (t ++ z ++ Join (t2 :: ts) z). rewrite <- (sapp_assoc (json_string key ++ ": " ++ u)).
    rewrite <- !(sapp_assoc ("," ++ w)). rewrite <- (sapp_assoc "," w). cbn [parseMembers].
    rewrite (parseMember_block w key u v) by done. change (skipWS ("," ++ ?z)) with ("," ++ z). change ("," ++ ?z) with (String "," z) at 1.
    cbv iota. change (Ascii.eqb "," ",") with true. cbv iota.
    rewrite IH; [done|done|simpl in *; lia].
Qed.
End Blocks.

(** ** Reading a text back *)

Lemma indentText_start n j : wfJson j = true -> exists c t, indentText n j = String c t /\ valueStart c = true.
Proof.
  destruct j as [ |b|t|s|l|fs]; intros Hw; try (by apply json_text_start).
  - by destruct l; do 2 eexists.
  - by destruct fs; do 2 eexists.
Qed.

Lemma Join_first t ts z rest : exists s, Join (t :: ts) z ++ rest = t ++ s.
Proof. destruct ts as [|u ts]; cbn [Join]; [by eexists|]. rewrite <- sapp_assoc. by eexists. Qed.

Lemma expect_block c d w t ts z rest u : allWS w = true -> t = String d u -> isWS d = false -> Ascii.eqb d c = false ->
  expect c (w ++ Join (t :: ts) z ++ rest) = None.
Proof.
  intros Hw -> Hd Hc. rewrite expect_WS by done. destruct (Join_first (String d u) ts z rest) as [s ->].
  change (String d u ++ s) with (String d (u ++ s)). rewrite expect_first by done. by rewrite Ascii.eqb_sym, Hc.
Qed.

Lemma parseValue_indent j : wfJson j = true -> forall d n, (jsize j <= n)%nat -> readsFrom (parseValue n) (indentText d j) j.
Proof.
  induction j as [ |b|t|s|l IH|fs IH] using json_tree_ind; intros Hw d n Hn; try (by apply parseValue_json);
    (destruct n as [|n]; [simpl in Hn; lia|]).
  - destruct l as [|x l]; [exact (parseValue_json (JArr []) eq_refl (S n) Hn)|]. intros rest He.
    assert (Hl : Forall2 (readsFrom (parseValue n)) (map (indentText (S d)) (x :: l)) (x :: l)).
    { apply Forall2_fmap_l, Forall_Forall2_diag, Forall_forall. intros y Hy. rewrite Forall_forall in IH. apply IH; [done| |].
      - cbn [wfJson] in Hw. rewrite forallb_forall in Hw. apply Hw. by apply list_elem_of_In.
      - pose proof (list_sum_in jsize (x :: l) y Hy). cbn [jsize] in Hn. lia. }
    cbn [indentText block map] in *. rewrite <- !sapp_assoc. change ("[" ++ ?z) with (String "[" z). cbn [parseValue skipWS].
    change (isWS "[") with false. change (Ascii.eqb "[" (chr 34)) with false. change (Ascii.eqb "[" "{") with false.
    change (Ascii.eqb "[" "[") with true. cbv iota.
    simpl in Hw. apply andb_true_iff in Hw as [Hwx _].
    destruct (indentText_start (S d) x Hwx) as (c & tx & Ex & Hc). destruct (valueStart_facts c Hc) as (Hws & Hb & _).
    rewrite (expect_block "]" c _ _ _ _ _ tx) by (done || apply lineBreak_WS).
    rewrite (parseElems_block (parseValue n) (parseValue_WS n)) with (l := x :: l); try done; try apply lineBreak_WS.
    pose proof (list_sum_length jsize (x :: l) jsize_pos). simpl in Hn, H |- *. lia.
  - destruct fs as [|x l]; [exact (parseValue_json (JObj []) eq_refl (S n) Hn)|]. intros rest He.
    assert (Hl : Forall2 (fun t f => exists u, t = json_string f.1 ++ ": " ++ u /\ utf8_Valid f.1 = true /\ readsFrom (parseValue n) u f.2)
                   (map (fun f => json_string f.1 ++ ": " ++ indentText (S d) f.2) (x :: l)) (x :: l)).
    { apply Forall2_fmap_l, Forall_Forall2_diag, Forall_forall. intros y Hy. rewrite Forall_forall in IH.
      cbn [wfJson] in Hw. rewrite forallb_forall in Hw. pose proof (Hw y (proj1 (list_elem_of_In _ _) Hy)) as Hwy.
      apply andb_true_iff in Hwy as [Hu Hwy]. eexists. split; [reflexivity|]. split; [done|]. apply IH; [done|done|].
      pose proof (list_sum_in (fun f => jsize f.2) (x :: l) y Hy). cbn [jsize] in Hn. lia. }
    cbn [indentText block map] in *. rewrite <- !sapp_assoc. change ("{" ++ ?z) with (String "{" z) at 1. cbn [parseValue skipWS].
    change (isWS "{") with false. change (Ascii.eqb "{" (chr 34)) with false. change (Ascii.eqb "{" "{") with true. cbv iota.
    rewrite (expect_block "}" (chr 34) _ (json_string x.1 ++ ": " ++ indentText (S d) x.2) _ _ _
      ((json_string_body x.1 ++ dquote) ++ ": " ++ indentText (S d) x.2)) by (done || apply lineBreak_WS).
    rewrite (parseMembers_block (parseValue n) (parseValue_WS n)) with (fs := x :: l); try done; try apply lineBreak_WS.
    pose proof (list_sum_length (fun f => jsize f.2) (x :: l) (fun f => jsize_pos f.2)). simpl in Hn, H |- *. lia.
Qed.

(** Indentation only adds bytes. *)
Lemma Join_longer ts us z : Forall2 (fun t u => String.length t <= String.length u)%nat ts us ->
  (String.length (Join ts ",") <= String.length (Join us ("," ++ z)))%nat.
Proof.
  induction 1 as [|t u ts us Htu Hl IH]; [done|]. destruct Hl as [|t2 u2 ts us H2 Hl]; [done|].
  change (Join (t :: t2 :: ts) ",") with (t ++ "," ++ Join (t2 :: ts) ",").
  change (Join (u :: u2 :: us) ("," ++ z)) with (u ++ ("," ++ z) ++ Join (u2 :: us) ("," ++ z)).
  rewrite !sapp_length in *. simpl in *. lia.
Qed.
Lemma block_longer n o c ts us : Forall2 (fun t u => String.length t <= String.length u)%nat ts us ->
  (String.length (o ++ Join ts "," ++ c) <= String.length (block n o c us))%nat.
Proof.
  intros Hl. pose proof (Join_longer _ _ (lineBreak (S n)) Hl) as Hj. unfold block. destruct Hl; [done|].
  rewrite !sapp_length in *. lia.
Qed.
Lemma indentText_longer j : forall n, (String.length (json_text j) <= String.length (indentText n j))%nat.
Proof.
  induction j as [ |b|t|s|l IH|fs IH] using json_tree_ind; intros n; try done.
  - rewrite json_text_arr. apply block_longer, Forall2_fmap, Forall_Forall2_diag. by apply (Forall_impl _ _ _ IH).
  - rewrite json_text_obj. apply block_longer, Forall2_fmap, Forall_Forall2_diag. apply (Forall_impl _ _ _ IH).
    intros f Hf. unfold field_text. rewrite !sapp_length. specialize (Hf (S n)). fold indentText. cbn [String.length]. lia.
Qed.

(** The decoder inverts [MarshalIndent]. *)
Lemma Unmarshal_MarshalIndent j : wfJson j = true -> Unmarshal (MarshalIndent j) = Some j.
Proof.
  intros Hw. unfold Unmarshal. pose proof (jsize_text j Hw) as Hs. pose proof (indentText_longer j 0) as Hlen.
  assert (Hr : readsFrom (parseValue (S (String.length (MarshalIndent j)))) (indentText 0 j) j)
    by (apply parseValue_indent; [done|unfold MarshalIndent; lia]).
  specialize (Hr "" eq_refl). rewrite sapp_nil_r in Hr. unfold MarshalIndent in *. by rewrite Hr.
Qed.

Example indent_sample :
  MarshalIndent (JObj [("a", JArr [JBool true; JNull]); ("b", JObj [])]) =
    "{" ++ newline ++ "  " ++ dquote ++ "a" ++ dquote ++ ": [" ++ newline ++ "    true," ++ newline ++ "    null" ++ newline ++
    "  ]," ++ newline ++ "  " ++ dquote ++ "b" ++ dquote ++ ": {}" ++ newline ++ "}".
Proof. reflexivity. Qed.
