(* ===== verification/GoTime.v ===== *)
(** * Go's [time] as api-test uses it

    A [time.Time] is the number of nanoseconds since the zero time (January 1, year 1, UTC), so
    [IsZero] is equality with 0 and [Equal], [Before] and [After] are the order of [Z].  A
    [time.Duration] is a signed 64-bit number of nanoseconds. *)
From S2P Require Import Prelude GoStrings GoNum.

Abbreviation Time := Z.
Abbreviation Duration := Z.

Definition Millisecond : Duration := 1000000.
Definition Second : Duration := 1000 * Millisecond.
Definition Minute : Duration := 60 * Second.
Definition Hour : Duration := 60 * Minute.

Definition IsZero (t : Time) : bool := t =? 0.

(** [t.Sub(u)] saturates at the limits of [Duration]. *)
Definition Sub (t u : Time) : Duration := Z.max minInt (Z.min maxInt (t - u)).
(** [d.Milliseconds()]: truncated division. *)
Definition Milliseconds (d : Duration) : Z := Z.quot d Millisecond.

(** ** The civil calendar

    Years, months and days of a day number (days since January 1, year 1), computed in 400-year
    eras that start on March 1. *)
Definition civil (d : Z) : Z * Z * Z :=
  let z := d + 306 in
  let era := z / 146097 in
  let doe := z mod 146097 in
  let yoe := (doe - doe / 1460 + doe / 36524 - doe / 146096) / 365 in
  let doy := doe - (365 * yoe + yoe / 4 - yoe / 100) in
  let mp := (5 * doy + 2) / 153 in
  let day := doy - (153 * mp + 2) / 5 + 1 in
  let month := if mp <? 10 then mp + 3 else mp - 9 in
  (yoe + era * 400 + (if month <=? 2 then 1 else 0), month, day).

(** The inverse: the day number of a civil date. *)
Definition days_of (y m d : Z) : Z :=
  let y1 := if m <=? 2 then y - 1 else y in
  let era := y1 / 400 in
  let yoe := y1 mod 400 in
  let mp := if 2 <? m then m - 3 else m + 9 in
  let doy := (153 * mp + 2) / 5 + d - 1 in
  era * 146097 + (yoe * 365 + yoe / 4 - yoe / 100 + doy) - 306.

(** Decimal, padded with zeros to a width. *)
Definition pad (w : nat) (n : Z) : string :=
  let s := udec n in Repeat "0" (w - String.length s) ++ s.

(** The fractional seconds of [RFC3339Nano]: nine digits without their trailing zeros. *)
Definition frac9 (ns : Z) : string :=
  if ns =? 0 then "" else "." ++ TrimRightByte (pad 9 ns) "0".

(** [t.Format(time.RFC3339Nano)] for a UTC time, which is also how [encoding/json] prints it. *)
Definition RFC3339Nano (t : Time) : string :=
  let day := t / (24 * Hour) in
  let tod := t mod (24 * Hour) in
  let '(y, m, d) := civil day in
  pad 4 y ++ "-" ++ pad 2 m ++ "-" ++ pad 2 d ++ "T"
  ++ pad 2 (tod / Hour) ++ ":" ++ pad 2 (tod / Minute mod 60) ++ ":" ++ pad 2 (tod / Second mod 60)
  ++ frac9 (tod mod Second) ++ "Z".

(** ** Parsing RFC 3339

    [time.Parse(time.RFC3339, s)]: fixed-width fields (the hour may have one digit), an optional
    fraction of any length, and [Z] or a numeric zone. *)

(** Exactly [w] digits. *)
Fixpoint digitsN (w : nat) (acc : Z) (s : string) : option (Z * string) :=
  match w with
  | O => Some (acc, s)
  | S w' =>
    match s with
    | String c s' => if isDigit c then digitsN w' (acc * 10 + (byte c - 48)) s' else None
    | EmptyString => None
    end
  end.
Definition getnum (fixed : bool) (s : string) : option (Z * string) :=
  match digitsN 2 0 s with
  | Some x => Some x
  | None => if fixed then None else digitsN 1 0 s
  end.
Definition skipByte (c : ascii) (s : string) : option string :=
  match s with String d s' => if Ascii.eqb c d then Some s' else None | EmptyString => None end.

(** The digits after the decimal point, as nanoseconds; digits beyond the ninth are dropped. *)
Fixpoint fracDigits (unit : Z) (acc : Z) (s : string) : Z * string :=
  match s with
  | String c s' =>
    if isDigit c then fracDigits (unit / 10) (acc + (byte c - 48) * unit) s' else (acc, s)
  | EmptyString => (acc, s)
  end.
Definition parseFrac (s : string) : Z * string :=
  match s with
  | String p (String c s') =>
    if (Ascii.eqb p "." || Ascii.eqb p ",") && isDigit c then fracDigits 100000000 0 (String c s') else (0, s)
  | _ => (0, s)
  end.

(** The zone's offset from UTC. *)
Definition parseZone (s : string) : option Duration :=
  match s with
  | "Z" => Some 0
  | String g s1 =>
    if Ascii.eqb g "+" || Ascii.eqb g "-" then
      hh ← digitsN 2 0 s1; let '(hr, s2) := hh in
      s3 ← skipByte ":" s2;
      mm ← digitsN 2 0 s3; let '(mi, s4) := mm in
      if negb (String.eqb s4 "") || (24 <? hr) || (60 <? mi) then None
      else Some ((if Ascii.eqb g "+" then 1 else -1) * (hr * Hour + mi * Minute))
    else None
  | EmptyString => None
  end.

Definition isLeap (y : Z) : bool := (y mod 4 =? 0) && (negb (y mod 100 =? 0) || (y mod 400 =? 0)).
Definition daysIn (y m : Z) : Z :=
  if m =? 2 then (if isLeap y then 29 else 28)
  else if (m =? 4) || (m =? 6) || (m =? 9) || (m =? 11) then 30 else 31.

(** The time and the offset of its zone. *)
Definition ParseRFC3339Zoned (s : string) : option (Time * Duration) :=
  yy ← digitsN 4 0 s; let '(y, s) := yy in s ← skipByte "-" s;
  mm ← getnum true s; let '(m, s) := mm in s ← skipByte "-" s;
  dd ← getnum true s; let '(d, s) := dd in s ← skipByte "T" s;
  hh ← getnum false s; let '(h, s) := hh in s ← skipByte ":" s;
  ii ← getnum true s; let '(i, s) := ii in s ← skipByte ":" s;
  cc ← getnum true s; let '(c, s) := cc in
  let '(ns, s) := parseFrac s in
  off ← parseZone s;
  if (m <? 1) || (12 <? m) || (d <? 1) || (daysIn y m <? d) || (23 <? h) || (59 <? i) || (59 <? c) then None
  else Some (days_of y m d * (24 * Hour) + h * Hour + i * Minute + c * Second + ns - off, off).
Definition ParseRFC3339 (s : string) : option Time := fst <$> ParseRFC3339Zoned s.

(** ** Lemmas *)

Lemma Sub_range t u : in64 (Sub t u).
Proof. unfold Sub, in64, minInt, maxInt. lia. Qed.

Lemma Sub_pos t u : u < t -> 0 < Sub t u.
Proof. unfold Sub, minInt, maxInt. lia. Qed.

Example epoch_day : days_of 1970 1 1 = 719162 /\ civil 719162 = (1970, 1, 1).
Proof. by vm_compute. Qed.

Example rfc3339_sample :
  RFC3339Nano ((days_of 2024 2 29 * 86400 + 86399) * Second + 120000000) = "2024-02-29T23:59:59.12Z".
Proof. by vm_compute. Qed.

Example parse_samples :
  ParseRFC3339 "2024-02-29T23:59:59.12Z" = Some ((days_of 2024 2 29 * 86400 + 86399) * Second + 120000000) /\
  ParseRFC3339 "2023-02-29T00:00:00Z" = None /\
  ParseRFC3339 "1970-01-01T01:00:00+01:00" = Some (days_of 1970 1 1 * 24 * Hour) /\
  ParseRFC3339 "2024-01-01" = None.
Proof. by vm_compute. Qed.

(** ** Printing and parsing *)

Definition dayNs : Z := 24 * Hour.

Lemma era_bounds doe : 0 <= doe < 146097 ->
  let yoe := (doe - doe / 1460 + doe / 36524 - doe / 146096) / 365 in
  let doy := doe - (365 * yoe + yoe / 4 - yoe / 100) in
  0 <= yoe < 400 /\ 0 <= doy < 366.
Proof. cbv zeta. intros. Z.to_euclidean_division_equations. lia. Qed.

(** The 366th day of a March-based year only exists before a leap day. *)
Lemma era_leap doe era : 0 <= doe < 146097 ->
  let yoe := (doe - doe / 1460 + doe / 36524 - doe / 146096) / 365 in
  doe - (365 * yoe + yoe / 4 - yoe / 100) = 365 -> isLeap (yoe + era * 400 + 1) = true.
Proof.
  cbv zeta. intros Hd H. set (yoe := (doe - doe / 1460 + doe / 36524 - doe / 146096) / 365) in *.
  assert (Hm : (yoe + 1) mod 4 = 0 /\ ((yoe + 1) mod 100 <> 0 \/ (yoe + 1) mod 400 = 0)).
  { unfold yoe in *. clear yoe. Z.to_euclidean_division_equations. lia. }
  assert (H4 : forall k, (400 mod k = 0) -> 0 < k -> (yoe + era * 400 + 1) mod k = (yoe + 1) mod k).
  { intros k Hk Hp. replace (yoe + era * 400 + 1) with (yoe + 1 + (era * (400 / k)) * k).
    - by rewrite Z.mod_add by lia.
    - assert (Hq : 400 / k * k = 400) by (pose proof (Z.div_mod 400 k); lia).
      rewrite <- Z.mul_assoc, Hq. lia. }
  unfold isLeap. rewrite !H4 by done. destruct Hm as [-> [Hx|Hx]]; simpl.
  - destruct ((yoe + 1) mod 100 =? 0) eqn:E; bools; [lia|done].
  - rewrite Hx. by rewrite orb_true_r.
Qed.

(** A day number is recovered from its civil date, which is a valid one. *)
Lemma civil_spec day : 0 <= day ->
  let '(y, m, d) := civil day in
  days_of y m d = day /\ 1 <= m <= 12 /\ 1 <= d <= daysIn y m /\ 1 <= y.
Proof.
  intros Hd. unfold civil. set (z := day + 306). set (era := z / 146097). set (doe := z mod 146097).
  assert (Hdoe : 0 <= doe < 146097) by (apply Z.mod_pos_bound; lia).
  assert (Hz : z = era * 146097 + doe) by (pose proof (Z.div_mod z 146097); lia).
  assert (Hera : 0 <= era) by (apply Z.div_pos; lia).
  pose proof (era_bounds doe Hdoe) as Hb. pose proof (era_leap doe era Hdoe) as Hleap. cbv zeta in Hb, Hleap.
  set (yoe := (doe - doe / 1460 + doe / 36524 - doe / 146096) / 365) in *.
  set (doy := doe - (365 * yoe + yoe / 4 - yoe / 100)) in *. destruct Hb as [Hy Hdoy].
  set (mp := (5 * doy + 2) / 153).
  assert (Hmp : 0 <= mp <= 11) by (unfold mp; clear - Hdoy; zlia).
  assert (Hdoe' : doe = 365 * yoe + yoe / 4 - yoe / 100 + doy) by (unfold doy; lia).
  set (m := if mp <? 10 then mp + 3 else mp - 9).
  set (yy := yoe + era * 400 + (if m <=? 2 then 1 else 0)).
  assert (Hday : 0 <= doy - (153 * mp + 2) / 5) by (unfold mp; clear - Hdoy; zlia).
  split.
  { unfold days_of. assert (Hm3 : (if 2 <? m then m - 3 else m + 9) = mp).
    { unfold m. destruct (mp <? 10) eqn:E; bools; [destruct (2 <? mp + 3) eqn:E2|destruct (2 <? mp - 9) eqn:E2]; bools; lia. }
    rewrite Hm3. assert (Hy1 : (if m <=? 2 then yy - 1 else yy) = yoe + era * 400).
    { unfold yy. destruct (m <=? 2); lia. }
    rewrite Hy1, Z.div_add, Z.mod_add, (Z.div_small yoe 400), (Z.mod_small yoe 400) by lia. lia. }
  assert (Hm : 1 <= m <= 12) by (unfold m; destruct (mp <? 10) eqn:E; bools; lia).
  split; [done|]. split; [|unfold yy; destruct (m <=? 2) eqn:E; bools; [lia|]].
  - split; [lia|]. destruct (decide (mp = 11)) as [E11|Hne].
    + assert (Hm2 : m = 2) by (unfold m; rewrite E11; done). unfold yy. rewrite Hm2, E11. unfold daysIn. simpl.
      change ((153 * 11 + 2) / 5) with 337. destruct (decide (doy = 365)) as [E365|Hn].
      * rewrite Hleap by done. lia.
      * destruct (isLeap _); lia.
    + assert (Hlen : doy - (153 * mp + 2) / 5 + 1 <= daysIn yy m); [|done].
      unfold daysIn, m. unfold mp in *. clear - Hmp Hne Hdoy.
      assert (Hc : (5 * doy + 2) / 153 = 0 \/ (5 * doy + 2) / 153 = 1 \/ (5 * doy + 2) / 153 = 2 \/
        (5 * doy + 2) / 153 = 3 \/ (5 * doy + 2) / 153 = 4 \/ (5 * doy + 2) / 153 = 5 \/ (5 * doy + 2) / 153 = 6 \/
        (5 * doy + 2) / 153 = 7 \/ (5 * doy + 2) / 153 = 8 \/ (5 * doy + 2) / 153 = 9 \/ (5 * doy + 2) / 153 = 10) by lia.
      repeat (destruct Hc as [Hc|Hc]); rewrite Hc; simpl; zlia.
  - unfold m in E. destruct (mp <? 10) eqn:E2; bools; [|lia].
    destruct (decide (era = 0)) as [Ee|]; [|lia]. destruct (decide (yoe = 0)) as [Ey|]; [|lia]. exfalso.
    assert (Hz306 : 306 <= doy) by (rewrite Ee in Hz; rewrite Ey in Hdoe'; unfold z in Hz; clear - Hz Hdoe' Hd; clearbody doe doy; zlia).
    unfold mp in E2. clear - Hz306 E2. clearbody doy. zlia.
Qed.

(** *** Digits *)

Fixpoint dvalFrom (acc : Z) (s : string) : Z :=
  match s with String c s' => dvalFrom (acc * 10 + (byte c - 48)) s' | EmptyString => acc end.

Lemma dvalFrom_shift s : forall acc, dvalFrom acc s = acc * 10 ^ Z.of_nat (String.length s) + dvalFrom 0 s.
Proof.
  induction s as [|c s IH]; intros acc; [simpl; lia|]. cbn [dvalFrom String.length].
  rewrite IH, (IH (0 * 10 + _)), Nat2Z.inj_succ, Z.pow_succ_r by lia. lia.
Qed.

Lemma dvalFrom_app a b acc : dvalFrom acc (a ++ b) = dvalFrom (dvalFrom acc a) b.
Proof. revert acc. induction a as [|c a IH]; intros acc; simpl; [done|]. apply IH. Qed.

Lemma dvalFrom_zeros k acc : dvalFrom acc (Repeat "0" k) = acc * 10 ^ Z.of_nat k.
Proof.
  revert acc. induction k as [|k IH]; intros acc; [simpl; lia|].
  change (dvalFrom acc (Repeat "0" (S k))) with (dvalFrom (acc * 10 + (byte "0" - 48)) (Repeat "0" k)).
  rewrite IH, Nat2Z.inj_succ, Z.pow_succ_r by lia. change (byte "0") with 48. lia.
Qed.

Lemma byte_digit_val n : 0 <= n < 10 -> byte (digit n) - 48 = n.
Proof. intros. unfold digit. rewrite byte_chr by lia. lia. Qed.

Lemma dval_udec_loop f n acc : 0 <= n < 2 ^ Z.of_nat f -> dvalFrom 0 (udec_loop f n acc) = dvalFrom n acc.
Proof.
  revert n acc. induction f as [|f IH]; intros n acc Hn; [assert (n = 0) as -> by (simpl in Hn; lia); done|].
  cbn [udec_loop]. destruct (n <? 10) eqn:E; bools.
  - cbn [dvalFrom]. rewrite byte_digit_val by lia. f_equal.
  - rewrite IH by (apply fuel_step; lia). cbn [dvalFrom].
    rewrite byte_digit_val by (apply Z.mod_pos_bound; lia). f_equal. pose proof (Z.div_mod n 10). lia.
Qed.

Lemma dval_udec n : 0 <= n -> dvalFrom 0 (udec n) = n.
Proof. intros. unfold udec. rewrite dval_udec_loop; [done|]. split; [lia|]. by apply udec_fuel. Qed.

Lemma Repeat_zero_digits k : string_forallb isDigit (Repeat "0" k) = true.
Proof. induction k as [|k IH]; [done|]. simpl. by rewrite IH. Qed.
Lemma Repeat_length1 c k : String.length (Repeat (str1 c) k) = k.
Proof. induction k as [|k IH]; [done|]. simpl. by rewrite IH. Qed.

Lemma pad_spec w n : (0 < w)%nat -> 0 <= n < 10 ^ Z.of_nat w ->
  string_forallb isDigit (pad w n) = true /\ String.length (pad w n) = w /\ dvalFrom 0 (pad w n) = n.
Proof.
  intros Hw Hn. unfold pad. split; [|split].
  - rewrite string_forallb_app, Repeat_zero_digits, udec_digits by lia. done.
  - rewrite sapp_length. change "0" with (str1 "0"). rewrite Repeat_length1.
    assert (String.length (udec n) <= w)%nat; [|lia].
    pose proof (udec_loop_length_le w (S (Z.to_nat (Z.log2 n))) n "" ltac:(lia)) as Hl. unfold udec. simpl in Hl.
    apply Hl. lia.
  - rewrite dvalFrom_app, dvalFrom_zeros, Z.mul_0_l. apply dval_udec. lia.
Qed.

Lemma digitsN_digits ds : forall acc rest, string_forallb isDigit ds = true ->
  digitsN (String.length ds) acc (ds ++ rest) = Some (dvalFrom acc ds, rest).
Proof.
  induction ds as [|c ds IH]; intros acc rest Hd; [done|]. simpl in Hd. apply andb_true_iff in Hd as [Hc Hd].
  simpl. rewrite Hc. by apply IH.
Qed.

Lemma digitsN_pad w n rest : (0 < w)%nat -> 0 <= n < 10 ^ Z.of_nat w -> digitsN w 0 (pad w n ++ rest) = Some (n, rest).
Proof.
  intros Hw Hn. destruct (pad_spec w n Hw Hn) as (Hd & Hl & Hv).
  rewrite <- Hl at 1. rewrite digitsN_digits by done. by rewrite Hv.
Qed.

Lemma getnum_pad fixed n rest : 0 <= n < 100 -> getnum fixed (pad 2 n ++ rest) = Some (n, rest).
Proof. intros Hn. unfold getnum. by rewrite digitsN_pad by lia. Qed.

Lemma skipByte_app c s : skipByte c (str1 c ++ s) = Some s.
Proof. simpl. by rewrite Ascii.eqb_refl. Qed.

(** *** Fractions *)

Lemma fracDigits_digits ds : forall e acc rest, string_forallb isDigit ds = true ->
  (String.length ds <= e)%nat -> (forall c r, rest = String c r -> isDigit c = false) ->
  fracDigits (10 ^ Z.of_nat e / 10) acc (ds ++ rest) =
  (acc + dvalFrom 0 ds * 10 ^ Z.of_nat (e - String.length ds), rest).
Proof.
  induction ds as [|c ds IH]; intros e acc rest Hd He Hr.
  - simpl. destruct rest as [|c r]; simpl; [f_equal; lia|]. rewrite (Hr c r eq_refl). f_equal. lia.
  - simpl in Hd. apply andb_true_iff in Hd as [Hc Hd]. destruct e as [|e]; [simpl in He; lia|].
    rewrite Nat2Z.inj_succ, Z.pow_succ_r, (Z.mul_comm 10), Z.div_mul by lia.
    change (String c ds ++ rest) with (String c (ds ++ rest)). cbn [fracDigits]. rewrite Hc.
    rewrite IH by (done || (simpl in He; lia)). cbn [dvalFrom String.length].
    rewrite (dvalFrom_shift ds (0 * 10 + _)). simpl in He. replace (S e - S (String.length ds))%nat with (e - String.length ds)%nat by lia.
    f_equal. rewrite Z.mul_add_distr_r, <- Z.mul_assoc, <- Z.pow_add_r by lia.
    replace (Z.of_nat (String.length ds) + Z.of_nat (e - String.length ds)) with (Z.of_nat e) by lia. lia.
Qed.

Lemma parseFrac_frac9 ns : 0 <= ns < Second -> parseFrac (frac9 ns ++ "Z") = (ns, "Z").
Proof.
  intros Hn. unfold frac9. destruct (ns =? 0) eqn:E; bools; [by subst|].
  destruct (pad_spec 9 ns ltac:(lia) ltac:(unfold Second, Millisecond in Hn; lia)) as (Hd & Hl & Hv).
  destruct (TrimRightByte_decomp (pad 9 ns) "0") as [k Hk]. set (T := TrimRightByte (pad 9 ns) "0") in *.
  rewrite Hk in Hd, Hl, Hv. rewrite string_forallb_app in Hd. apply andb_true_iff in Hd as [HdT _].
  rewrite sapp_length, Repeat_length1 in Hl. rewrite dvalFrom_app in Hv. change (str1 "0") with "0" in *.
  rewrite dvalFrom_zeros in Hv.
  destruct T as [|c T'] eqn:ET; [simpl in Hv; lia|].
  unfold parseFrac. rewrite <- sapp_assoc. change ("." ++ String c T' ++ "Z") with (String "." (String c (T' ++ "Z"))).
  cbv beta iota. assert (Hc : isDigit c = true) by (simpl in HdT; by apply andb_true_iff in HdT as [? _]).
  rewrite Hc. change (Ascii.eqb "." "." || Ascii.eqb "." ",") with true. cbn [andb].
  change (String c (T' ++ "Z")) with (String c T' ++ "Z"). change 100000000 with (10 ^ Z.of_nat 9 / 10).
  rewrite fracDigits_digits; [|done|lia|by intros d r [= <- <-]].
  f_equal. replace (9 - String.length (String c T'))%nat with k by lia. lia.
Qed.

(** [ParseRFC3339] inverts [RFC3339Nano] on the years 1 to 9999. *)
Lemma RFC3339_roundtrip t : 0 <= t -> (let '(y, _, _) := civil (t / dayNs) in y <= 9999) ->
  ParseRFC3339 (RFC3339Nano t) = Some t.
Proof.
  intros Ht Hy. unfold RFC3339Nano. fold dayNs. set (day := t / dayNs) in *. set (tod := t mod dayNs).
  assert (Htod : 0 <= tod < dayNs) by (apply Z.mod_pos_bound; done).
  assert (Hday : 0 <= day) by (apply Z.div_pos; done).
  pose proof (civil_spec day Hday) as Hc. destruct (civil day) as [[y m] d]. destruct Hc as (Hdays & Hm & Hd & Hy1).
  assert (Hd31 : daysIn y m <= 31) by (unfold daysIn; repeat case_if; lia).
  assert (Hh : 0 <= tod / Hour < 24) by (unfold dayNs, Hour, Minute, Second, Millisecond in *; zlia).
  assert (Hi : 0 <= tod / Minute mod 60 < 60) by (apply Z.mod_pos_bound; lia).
  assert (Hs : 0 <= tod / Second mod 60 < 60) by (apply Z.mod_pos_bound; lia).
  assert (Hn : 0 <= tod mod Second < Second) by (apply Z.mod_pos_bound; done).
  unfold ParseRFC3339, ParseRFC3339Zoned.
  rewrite digitsN_pad by lia. cbn [mbind option_bind]. rewrite (skipByte_app "-"). cbn [mbind option_bind].
  rewrite getnum_pad by lia. cbn [mbind option_bind]. rewrite (skipByte_app "-"). cbn [mbind option_bind].
  rewrite getnum_pad by lia. cbn [mbind option_bind]. rewrite (skipByte_app "T"). cbn [mbind option_bind].
  rewrite getnum_pad by lia. cbn [mbind option_bind]. rewrite (skipByte_app ":"). cbn [mbind option_bind].
  rewrite getnum_pad by lia. cbn [mbind option_bind]. rewrite (skipByte_app ":"). cbn [mbind option_bind].
  rewrite getnum_pad by lia. cbn [mbind option_bind].
  rewrite parseFrac_frac9 by done. cbn [parseZone mbind option_bind].
  assert (Hsum : days_of y m d * (24 * Hour) + tod / Hour * Hour + tod / Minute mod 60 * Minute
                 + tod / Second mod 60 * Second + tod mod Second - 0 = t).
  { rewrite Hdays. assert (t = day * dayNs + tod) by (pose proof (Z.div_mod t dayNs); unfold dayNs in *; lia).
    unfold dayNs, Hour, Minute, Second, Millisecond in *. clear - H Htod. clearbody tod day. zlia. }
  rewrite Hsum.
  destruct (_ || _ || _ || _ || _ || _ || _) eqn:E; [|done]. exfalso. rewrite !orb_true_iff, !Z.ltb_lt in E. lia.
Qed.

Lemma pad_ascii w n : 0 <= n -> isASCII (pad w n) = true.
Proof.
  intros Hn. unfold isASCII, pad. rewrite string_forallb_app. apply andb_true_iff.
  split; eapply string_forallb_impl; try apply Repeat_zero_digits; try (by apply udec_digits);
    intros c Hc; unfold isDigit, between in Hc; bools; apply Z.ltb_lt; lia.
Qed.

Lemma isASCII_app a b : isASCII (a ++ b) = isASCII a && isASCII b.
Proof. apply string_forallb_app. Qed.

Lemma frac9_ascii ns : 0 <= ns -> isASCII (frac9 ns) = true.
Proof.
  intros Hn. unfold frac9. destruct (ns =? 0); [done|]. rewrite isASCII_app. simpl.
  pose proof (pad_ascii 9 ns Hn) as Hp. destruct (TrimRightByte_decomp (pad 9 ns) "0") as [k Hk].
  rewrite Hk, isASCII_app in Hp. by apply andb_true_iff in Hp as [Hp _].
Qed.

Lemma RFC3339Nano_ascii t : 0 <= t -> isASCII (RFC3339Nano t) = true.
Proof.
  intros Ht. unfold RFC3339Nano. pose proof (civil_spec (t / (24 * Hour))) as Hc.
  destruct (civil (t / (24 * Hour))) as [[y m] d]. destruct Hc as (_ & Hm & Hd & Hy); [by apply Z.div_pos|].
  set (tod := t mod (24 * Hour)). assert (0 <= tod) by (by apply Z.mod_pos_bound).
  rewrite !isASCII_app, !pad_ascii, frac9_ascii; [done|..];
    first [by apply Z.mod_pos_bound|by apply Z.div_pos|lia].
Qed.
