(* ===== verification/Http.v ===== *)
(** * Requests, response writers and handlers ([net/http])

    A handler acts on a response writer only through the interface [http.ResponseWriter] (and
    [http.Flusher] where the writer has it).  The interface is the class [ResponseWriter]: the
    server's own writer is the instance [conn], the middleware's wrappers are further instances,
    and what a handler does is a list of calls [wop], executed on any instance by [exec]. *)
From S2P Require Import Prelude GoStrings GoNum GoTime GoUrl Json.

(** ** Requests *)

(** The identity the inbound credential chain resolved. *)
Record Identity := mkIdentity {
  id_Subject : string;
  id_Email : string;
  id_AuthType : string;
  id_KeyName : string;
  id_Scopes : list string;
  id_Claims : gmap string json
}.

Definition Anonymous : Identity := mkIdentity "" "" "anonymous" "" [] ∅.

(** The identity of a portal user ([auth.Identity]). *)
Record PortalIdentity := mkPortalIdentity {
  pi_Subject : string;
  pi_Email : string;
  pi_Name : string;
  pi_AuthType : string;
  pi_Claims : gmap string json;
  pi_APIKeyID : string
}.

(** The values the program stores in a request context. *)
Record Context := mkContext {
  ctx_Identity : option Identity;        (** [inbound.WithIdentity] *)
  ctx_RequestID : string;                (** set by the RequestID middleware *)
  ctx_Holder : bool;                     (** an [identityHolder] is attached *)
  ctx_Portal : option PortalIdentity     (** [auth.WithIdentity] *)
}.
Definition Background : Context := mkContext None "" false None.

Record Request := mkRequest {
  r_Method : string;
  r_Path : string;                       (** [r.URL.Path], unescaped *)
  r_EscapedPath : string;                (** [r.URL.EscapedPath()] *)
  r_RawQuery : string;                   (** [r.URL.RawQuery] *)
  r_Header : Header;
  r_Host : string;
  r_TLS : bool;                          (** [r.TLS != nil] *)
  r_RemoteAddr : string;
  r_Body : option string;                (** [None] for a nil body *)
  r_PathValue : gmap string string;      (** wildcards bound by the mux *)
  r_Cookies : list (string * string);    (** the parsed Cookie header *)
  r_Context : Context
}.

Definition WithContext (r : Request) (c : Context) : Request :=
  mkRequest (r_Method r) (r_Path r) (r_EscapedPath r) (r_RawQuery r) (r_Header r) (r_Host r) (r_TLS r)
            (r_RemoteAddr r) (r_Body r) (r_PathValue r) (r_Cookies r) c.
Definition WithPathValues (r : Request) (m : gmap string string) : Request :=
  mkRequest (r_Method r) (r_Path r) (r_EscapedPath r) (r_RawQuery r) (r_Header r) (r_Host r) (r_TLS r)
            (r_RemoteAddr r) (r_Body r) m (r_Cookies r) (r_Context r).
Definition WithHeader (r : Request) (h : Header) : Request :=
  mkRequest (r_Method r) (r_Path r) (r_EscapedPath r) (r_RawQuery r) h (r_Host r) (r_TLS r)
            (r_RemoteAddr r) (r_Body r) (r_PathValue r) (r_Cookies r) (r_Context r).

Definition FromContext (c : Context) : option Identity := ctx_Identity c.
Definition WithIdentity (c : Context) (id : Identity) : Context :=
  mkContext (Some id) (ctx_RequestID c) (ctx_Holder c) (ctx_Portal c).
Definition WithPortalIdentity (c : Context) (id : PortalIdentity) : Context :=
  mkContext (ctx_Identity c) (ctx_RequestID c) (ctx_Holder c) (Some id).
Definition GetIdentity (c : Context) : option PortalIdentity := ctx_Portal c.

Definition r_Query (r : Request) : Values := ParseQuery (r_RawQuery r).
Definition q_Get (r : Request) (k : string) : string := Values_Get (r_Query r) k.
Definition h_Get (r : Request) (k : string) : string := Header_Get (r_Header r) k.
Definition PathValue (r : Request) (k : string) : string := default "" (r_PathValue r !! k).

(** ** Response writers *)

Inductive wop :=
| HSet (k v : string)      (** [w.Header().Set(k, v)] *)
| HAdd (k v : string)      (** [w.Header().Add(k, v)] *)
| WriteHeader (code : Z)
| Write (b : string)
| Flush.

Class ResponseWriter (W : Type) := {
  rw_Header : W -> Header;
  rw_setHeader : Header -> W -> W;
  rw_WriteHeader : Z -> W -> W;
  rw_Write : string -> W -> Z * W;
  rw_Flusher : W -> bool;                (** does [w.(http.Flusher)] succeed *)
  rw_Flush : W -> W
}.

Section Exec.
Context `{ResponseWriter W}.

Definition exec1 (o : wop) (w : W) : W :=
  match o with
  | HSet k v => rw_setHeader (Header_Set (rw_Header w) k v) w
  | HAdd k v => rw_setHeader (Header_Add (rw_Header w) k v) w
  | WriteHeader c => rw_WriteHeader c w
  | Write b => (rw_Write b w).2
  | Flush => rw_Flush w
  end.
Definition exec (ops : list wop) (w : W) : W := foldl (fun w o => exec1 o w) w ops.

Lemma exec_app o1 o2 w : exec (o1 ++ o2)%list w = exec o2 (exec o1 w).
Proof. unfold exec. apply foldl_app. Qed.
End Exec.

(** ** The server's writer

    [http.response]: the first final status wins, a 1xx status other than 101 is sent at once as an
    informational response and leaves the final status open, the first write commits status 200,
    and statuses without a body swallow writes. *)
Record conn := mkConn {
  c_header : Header;                  (** the handler's header map *)
  c_wroteHeader : bool;
  c_status : Z;                       (** the final status, once [c_wroteHeader] *)
  c_sent : Header;                    (** the headers committed with it *)
  c_info : list Z;                    (** informational responses sent before it *)
  c_body : string;                    (** body bytes accepted *)
  c_flushes : nat
}.

Definition newConn : conn := mkConn ∅ false 0 ∅ [] "" 0.

Definition informational (code : Z) : bool := between 100 code 199 && negb (code =? 101).
Definition bodyAllowed (status : Z) : bool :=
  negb (between 100 status 199 || (status =? 204) || (status =? 304)).

Definition conn_WriteHeader (code : Z) (w : conn) : conn :=
  if c_wroteHeader w then w
  else if informational code then
    mkConn (c_header w) false (c_status w) (c_sent w) (c_info w ++ [code])%list (c_body w) (c_flushes w)
  else mkConn (c_header w) true code (c_header w) (c_info w) (c_body w) (c_flushes w).

Definition conn_Write (b : string) (w : conn) : Z * conn :=
  let w1 := if c_wroteHeader w then w else conn_WriteHeader 200 w in
  if bodyAllowed (c_status w1) then
    (len b, mkConn (c_header w1) (c_wroteHeader w1) (c_status w1) (c_sent w1) (c_info w1)
                   (c_body w1 ++ b) (c_flushes w1))
  else (0, w1).

Definition conn_Flush (w : conn) : conn :=
  let w1 := if c_wroteHeader w then w else conn_WriteHeader 200 w in
  mkConn (c_header w1) (c_wroteHeader w1) (c_status w1) (c_sent w1) (c_info w1) (c_body w1)
         (S (c_flushes w1)).

Definition conn_setHeader (h : Header) (w : conn) : conn :=
  mkConn h (c_wroteHeader w) (c_status w) (c_sent w) (c_info w) (c_body w) (c_flushes w).

#[export] Instance conn_RW : ResponseWriter conn := {
  rw_Header := c_header;
  rw_setHeader := conn_setHeader;
  rw_WriteHeader := conn_WriteHeader;
  rw_Write := conn_Write;
  rw_Flusher := fun _ => true;
  rw_Flush := conn_Flush
}.

(** What the client finally sees as the status: a handler that commits nothing answers 200. *)
Definition finalStatus (w : conn) : Z := if c_wroteHeader w then c_status w else 200.

(** ** Handlers

    What a request meets outside the program: the clock, fresh identifiers, the client's
    cancellation, entropy, and how the request body arrives in pieces. *)
Record Env := mkEnv {
  env_start : Time;                      (** [time.Now()] when the request is taken up *)
  env_end : Time;                        (** [time.Now()] when the handler has returned *)
  env_uuid : string;                     (** [uuid.NewString()] for the request *)
  env_eventID : string;                  (** [uuid.NewString()] for its audit event *)
  env_cancelled : nat -> bool;           (** is the context done at the i-th point that asks *)
  env_sleptMS : Z;                       (** measured by [time.Since] around a sleep *)
  env_entropy : Z * Z;                   (** two draws of [rand.Uint64()] *)
  env_chunks : string -> list string     (** the pieces in which a body is read *)
}.

(** An [http.Handler] acts on any response writer and on the state [S] of the server. *)
Definition Handler (S : Type) : Type :=
  forall W, ResponseWriter W -> Env -> Request -> S * W -> S * W.

(** An endpoint handler: the calls it makes on its writer, given whether the writer is a flusher,
    and the prefix of the request body it reads. *)
Definition EHandler : Type := Env -> bool -> Request -> list wop * string.

Definition replies (f : Request -> list wop) : EHandler := fun _ _ r => (f r, "").

(** ** The JSON replies shared by every package (each has its own copy of these helpers) *)

Definition writeJSON (status : Z) (body : json) : list wop :=
  [HSet "Content-Type" "application/json"; WriteHeader status; Write (Encode body)].

Definition errorBody (msg : string) : json := JObj [("error", JStr msg)].
Definition writeJSONError (status : Z) (msg : string) : list wop := writeJSON status (errorBody msg).
Definition writeBadRequest (msg : string) : list wop := writeJSONError 400 msg.

(** [http.Error]. *)
Definition httpError (status : Z) (msg : string) : list wop :=
  [HSet "Content-Type" "text/plain; charset=utf-8"; HSet "X-Content-Type-Options" "nosniff";
   WriteHeader status; Write (msg ++ newline)].

(** ** Lemmas *)

Definition wop_bytes (o : wop) : string := match o with Write b => b | _ => "" end.
Definition ops_bytes (ops : list wop) : string := sconcat (map wop_bytes ops).
Definition wop_isWrite (o : wop) : bool := match o with Write _ => true | _ => false end.

Lemma ops_bytes_app a b : ops_bytes (a ++ b)%list = ops_bytes a ++ ops_bytes b.
Proof. unfold ops_bytes. by rewrite map_app, sconcat_app. Qed.

(** Once a body-carrying status is committed, every written byte reaches the client in order. *)
Lemma conn_exec_committed ops w :
  c_wroteHeader w = true -> bodyAllowed (c_status w) = true ->
  c_wroteHeader (exec ops w) = true /\ c_status (exec ops w) = c_status w /\
  c_body (exec ops w) = c_body w ++ ops_bytes ops.
Proof.
  unfold ops_bytes. revert w. induction ops as [|o ops IH]; intros w Hw Hb; simpl.
  - by rewrite sapp_nil_r.
  - destruct (IH (exec1 o w)) as (H1 & H2 & H3).
    + destruct o; simpl; unfold conn_WriteHeader, conn_Write, conn_Flush; rewrite ?Hw; try done.
      by rewrite Hb.
    + destruct o; simpl; unfold conn_WriteHeader, conn_Write, conn_Flush; rewrite ?Hw; try done.
      by rewrite Hb.
    + unfold exec in *. simpl. rewrite H1, H2, H3.
      destruct o; simpl; unfold conn_WriteHeader, conn_Write, conn_Flush; rewrite ?Hw, ?Hb; try done.
      simpl. by rewrite sapp_assoc.
Qed.

(** A JSON reply with a final, body-carrying status arrives as such. *)
Lemma conn_writeJSON status body w :
  c_wroteHeader w = false -> informational status = false -> bodyAllowed status = true ->
  let w' := exec (writeJSON status body) w in
  finalStatus w' = status /\ c_body w' = c_body w ++ Encode body /\
  Header_Get (c_sent w') "Content-Type" = "application/json".
Proof.
  intros Hw Hi Hb. unfold exec, writeJSON, finalStatus. simpl.
  unfold conn_WriteHeader. simpl. rewrite Hw, Hi. simpl. unfold conn_Write. simpl. rewrite Hb. simpl.
  by rewrite Header_Get_Set.
Qed.
