(* ===== verification/AuditEvent.v ===== *)
(** * The audit event model ([pkg/audit/event.go], [pkg/audit/logger.go])

    The event and payload records, their JSON form, redaction of header and query values, and the
    query filter.  A Go map of string lists is [gmap string (list string)]; a [[]byte] is a
    string. *)
From S2P Require Import Prelude GoStrings GoNum GoTime GoUrl Json.

Definition ReplayHeaderName : string := "X-Plexara-Replay-From".

(** ** Data *)

Record Payload := mkPayload {
  RequestHeaders : Header;
  RequestQuery : Values;
  RequestContentType : string;
  RequestBody : string;
  RequestSizeBytes : Z;
  RequestTruncated : bool;
  RequestRemoteAddr : string;
  ResponseHeaders : Header;
  ResponseContentType : string;
  ResponseBody : string;
  ResponseSizeBytes : Z;
  ResponseTruncated : bool;
  ReplayedFrom : string
}.

Record Event := mkEvent {
  ev_ID : string;
  ev_Timestamp : Time;
  ev_DurationMS : Z;
  ev_RequestID : string;
  ev_SessionID : string;
  ev_UserSubject : string;
  ev_UserEmail : string;
  ev_AuthType : string;
  ev_APIKeyName : string;
  ev_Method : string;
  ev_Path : string;
  ev_RouteName : string;
  ev_EndpointGroup : string;
  ev_Status : Z;
  ev_BytesIn : Z;
  ev_BytesOut : Z;
  ev_Success : bool;
  ev_ErrorMessage : string;
  ev_ErrorCategory : string;
  ev_RemoteAddr : string;
  ev_UserAgent : string;
  ev_Payload : option Payload
}.

#[global] Instance Payload_eq_dec : EqDecision Payload.
Proof. solve_decision. Defined.
#[global] Instance Event_eq_dec : EqDecision Event.
Proof. solve_decision. Defined.

Definition ev_withID (e : Event) (id : string) : Event :=
  mkEvent id (ev_Timestamp e) (ev_DurationMS e) (ev_RequestID e) (ev_SessionID e)
    (ev_UserSubject e) (ev_UserEmail e) (ev_AuthType e) (ev_APIKeyName e) (ev_Method e) (ev_Path e)
    (ev_RouteName e) (ev_EndpointGroup e) (ev_Status e) (ev_BytesIn e) (ev_BytesOut e)
    (ev_Success e) (ev_ErrorMessage e) (ev_ErrorCategory e) (ev_RemoteAddr e) (ev_UserAgent e)
    (ev_Payload e).

Definition ev_withPayload (e : Event) (p : option Payload) : Event :=
  mkEvent (ev_ID e) (ev_Timestamp e) (ev_DurationMS e) (ev_RequestID e) (ev_SessionID e)
    (ev_UserSubject e) (ev_UserEmail e) (ev_AuthType e) (ev_APIKeyName e) (ev_Method e) (ev_Path e)
    (ev_RouteName e) (ev_EndpointGroup e) (ev_Status e) (ev_BytesIn e) (ev_BytesOut e)
    (ev_Success e) (ev_ErrorMessage e) (ev_ErrorCategory e) (ev_RemoteAddr e) (ev_UserAgent e) p.

(** [time.Now()] is the argument [now]. *)
Definition NewEvent (now : Time) (method path : string) : Event :=
  mkEvent "" now 0 "" "" "" "" "" "" method path "" "" 0 0 0 false "" "" "" "" None.

(** ** Filters *)

Definition MaxQueryLimit : Z := 1000.

Record QueryFilter := mkQueryFilter {
  qf_From : Time;
  qf_To : Time;
  qf_Method : string;
  qf_Path : string;
  qf_RouteName : string;
  qf_UserID : string;
  qf_SessionID : string;
  qf_EventID : string;
  qf_Status : Z;
  qf_Success : option bool;
  qf_Search : string;
  qf_Limit : Z;
  qf_Offset : Z;
  qf_OrderDesc : bool
}.

Definition noFilter : QueryFilter := mkQueryFilter 0 0 "" "" "" "" "" "" 0 None "" 0 0 false.

(** [f.Offset, f.Limit = offset, limit] *)
Definition qf_page (f : QueryFilter) (limit offset : Z) : QueryFilter :=
  mkQueryFilter (qf_From f) (qf_To f) (qf_Method f) (qf_Path f) (qf_RouteName f) (qf_UserID f)
    (qf_SessionID f) (qf_EventID f) (qf_Status f) (qf_Success f) (qf_Search f) limit offset
    (qf_OrderDesc f).
(** [f.From, f.To = from, to] *)
Definition qf_window (f : QueryFilter) (from to : Time) : QueryFilter :=
  mkQueryFilter from to (qf_Method f) (qf_Path f) (qf_RouteName f) (qf_UserID f)
    (qf_SessionID f) (qf_EventID f) (qf_Status f) (qf_Success f) (qf_Search f) (qf_Limit f)
    (qf_Offset f) (qf_OrderDesc f).

(** ** JSON *)

(** The text and the [_encoding] flag of one captured body. *)
Definition bodyFields (body : string) : string * string :=
  if 0 <? len body then
    if utf8_Valid body then (body, "") else (StdEncoding_EncodeToString body, "base64")
  else ("", "").

(** A map field tagged [omitempty]. *)
Definition omit_map (k : string) (m : gmap string (list string)) : list (string * json) :=
  if bool_decide (m = ∅) then [] else [(k, json_of_map json_strings m)].

(** The fields of the embedded alias come first, the body fields of the wrapper after them. *)
Definition MarshalJSON (p : Payload) : json :=
  let '(reqBody, reqEnc) := bodyFields (RequestBody p) in
  let '(respBody, respEnc) := bodyFields (ResponseBody p) in
  JObj (omit_map "request_headers" (RequestHeaders p)
     ++ omit_map "request_query" (RequestQuery p)
     ++ omit_str "request_content_type" (RequestContentType p)
     ++ omit_int "request_size_bytes" (RequestSizeBytes p)
     ++ omit_bool "request_truncated" (RequestTruncated p)
     ++ omit_str "request_remote_addr" (RequestRemoteAddr p)
     ++ omit_map "response_headers" (ResponseHeaders p)
     ++ omit_str "response_content_type" (ResponseContentType p)
     ++ omit_int "response_size_bytes" (ResponseSizeBytes p)
     ++ omit_bool "response_truncated" (ResponseTruncated p)
     ++ omit_str "replayed_from" (ReplayedFrom p)
     ++ omit_str "request_body" reqBody
     ++ omit_str "request_body_encoding" reqEnc
     ++ omit_str "response_body" respBody
     ++ omit_str "response_body_encoding" respEnc)%list.

Definition json_event (e : Event) : json :=
  JObj ([("id", JStr (ev_ID e)); ("timestamp", JStr (RFC3339Nano (ev_Timestamp e)));
         ("duration_ms", JInt (ev_DurationMS e))]
     ++ omit_str "request_id" (ev_RequestID e)
     ++ omit_str "session_id" (ev_SessionID e)
     ++ omit_str "user_subject" (ev_UserSubject e)
     ++ omit_str "user_email" (ev_UserEmail e)
     ++ omit_str "auth_type" (ev_AuthType e)
     ++ omit_str "api_key_name" (ev_APIKeyName e)
     ++ [("method", JStr (ev_Method e)); ("path", JStr (ev_Path e))]
     ++ omit_str "route_name" (ev_RouteName e)
     ++ omit_str "endpoint_group" (ev_EndpointGroup e)
     ++ [("status", JInt (ev_Status e)); ("bytes_in", JInt (ev_BytesIn e));
         ("bytes_out", JInt (ev_BytesOut e)); ("success", JBool (ev_Success e))]
     ++ omit_str "error_message" (ev_ErrorMessage e)
     ++ omit_str "error_category" (ev_ErrorCategory e)
     ++ omit_str "remote_addr" (ev_RemoteAddr e)
     ++ omit_str "user_agent" (ev_UserAgent e)
     ++ match ev_Payload e with None => [] | Some p => [("payload", MarshalJSON p)] end)%list.

(** ** Redaction *)

Section Redaction.
Context `{UnicodeTables}.

Fixpoint redact_loop (lk : string) (redactKeys : list string) : bool :=
  match redactKeys with
  | [] => false
  | rk :: rest =>
    if String.eqb rk "" then redact_loop lk rest
    else if Contains lk (ToLower rk) then true
    else redact_loop lk rest
  end.
Definition matchesRedactKey (key : string) (redactKeys : list string) : bool :=
  redact_loop (ToLower key) redactKeys.

Definition redactValue (redactKeys : list string) (k : string) (v : list string) : list string :=
  if matchesRedactKey k redactKeys then ["[redacted]"] else v.

Definition SanitizeHeaders (h : Header) (redactKeys : list string) : Header :=
  match redactKeys with
  | [] => h
  | _ => map_imap (fun k v => Some (redactValue redactKeys k v)) h
  end.

Definition SanitizeQuery (q : Values) (redactKeys : list string) : Values :=
  match redactKeys with
  | [] => q
  | _ => map_imap (fun k v => Some (redactValue redactKeys k v)) q
  end.

(** ** Lemmas: redaction *)

Lemma matchesRedactKey_nil k : matchesRedactKey k [] = false.
Proof. done. Qed.

(** The keys that make a lower-cased name sensitive. *)
Definition sensitive (lk : string) (redactKeys : list string) : Prop :=
  Exists (fun rk => rk <> "" /\ Contains lk (ToLower rk) = true) redactKeys.
#[global] Instance sensitive_dec lk rks : Decision (sensitive lk rks).
Proof. unfold sensitive. apply _. Defined.

Lemma redact_loop_spec lk rks : redact_loop lk rks = true <-> sensitive lk rks.
Proof.
  unfold sensitive. induction rks as [|rk rks IH]; simpl.
  - by rewrite Exists_nil.
  - rewrite Exists_cons, <- IH.
    destruct (String.eqb_spec rk ""); [naive_solver|]. case_if; naive_solver.
Qed.

Lemma Sanitize_lookup (m : gmap string (list string)) rks k :
  SanitizeHeaders m rks !! k = redactValue rks k <$> m !! k.
Proof.
  destruct rks as [|rk rks]; unfold SanitizeHeaders.
  - unfold redactValue. rewrite matchesRedactKey_nil. by destruct (m !! k).
  - rewrite map_lookup_imap. by destruct (m !! k).
Qed.

Lemma SanitizeQuery_Headers m rks : SanitizeQuery m rks = SanitizeHeaders m rks.
Proof. by destruct rks. Qed.

(** Redaction matches whatever the case the header name was sent in. *)
Lemma matchesRedactKey_canonical k rks :
  isASCII k = true -> matchesRedactKey (CanonicalHeaderKey k) rks = matchesRedactKey k rks.
Proof.
  intros Hk. unfold matchesRedactKey, CanonicalHeaderKey.
  destruct (string_forallb tokenByte k); [|done]. f_equal.
  assert (forall b s, isASCII s = true ->
    isASCII (canonical_loop b s) = true /\
    string_map lower_ascii (canonical_loop b s) = string_map lower_ascii s) as Hloop.
  { intros b s. revert b. induction s as [|c s IH]; intros b Hs; [done|].
    unfold isASCII in *. cbn [string_forallb canonical_loop string_map] in *. bools.
    set (c' := if b then _ else _).
    assert (byte c' < 128 /\ lower_ascii c' = lower_ascii c) as [Hc1 Hc2].
    { unfold c'. destruct b; split.
      - unfold upper_ascii, isLower, between. case_if; [|done]. rewrite byte_chr; lia.
      - unfold upper_ascii. destruct (isLower c) eqn:E; [|done]. unfold isLower, between in E. bools.
        unfold lower_ascii, isUpper, between. rewrite byte_chr by lia. case_if; [|bools; lia].
        case_if; [lia|]. rewrite <- (chr_byte c) at 2. f_equal. lia.
      - by apply lower_ascii_range.
      - apply lower_ascii_idem. }
    destruct (IH (Ascii.eqb c' "-") H1) as [-> ->].
    split; [|by rewrite Hc2]. apply andb_true_iff. split; [|done]. by apply Z.ltb_lt. }
  destruct (Hloop true k Hk) as [H1 H2]. by rewrite !ToLower_ascii, H2.
Qed.

(** The persisted copy of the headers keeps exactly the header names of the request; a name
    that contains one of the (non-empty) redact keys, compared in lower case, carries the single
    value "[redacted]" and none of the client's, and every other name keeps its values. *)
Theorem sanitize_headers_spec (h : Header) (redactKeys : list string) (k : string) :
  SanitizeHeaders h redactKeys !! k =
  match h !! k with
  | None => None
  | Some v =>
    if decide (sensitive (ToLower k) redactKeys) then Some ["[redacted]"] else Some v
  end.
Proof.
  rewrite Sanitize_lookup. destruct (h !! k) as [v|]; [|done]. simpl. unfold redactValue.
  pose proof (redact_loop_spec (ToLower k) redactKeys) as Hs. unfold matchesRedactKey.
  case_decide as Hd; case_if; naive_solver congruence.
Qed.

End Redaction.

(** ** Bodies *)

(** How a reader of the JSON recovers the captured bytes. *)
Definition readBody (fields : string * string) : option string :=
  if String.eqb fields.2 "base64" then StdEncoding_Decode fields.1 else Some fields.1.

(** The JSON form of a captured body is unambiguous: whatever the bytes are (text, binary,
    invalid UTF-8, empty), the [_body] text and the [_body_encoding] flag together give back exactly
    the captured bytes, and a body printed without the flag is valid UTF-8. *)
Theorem body_fields_roundtrip (body : string) :
  readBody (bodyFields body) = Some body /\
  ((bodyFields body).2 = "" -> utf8_Valid (bodyFields body).1 = true).
Proof.
  unfold readBody, bodyFields. destruct (0 <? len body) eqn:E; bools.
  - destruct (utf8_Valid body) eqn:Hv; [done|]. split; [apply Std_roundtrip|done].
  - cbn. split; [|done]. f_equal. symmetry. apply len_zero. pose proof (len_nonneg body). lia.
Qed.
