(* ===== verification/MemoryLog.v ===== *)
(** * Audit loggers ([pkg/audit/logger.go], [pkg/audit/memory.go], [NoopLogger])

    The class [Logger] is the Go interface; [AuditReads] adds what its readers (portal queries, the
    export, the aggregations, the live tail) rely on.  [MemoryLogger] implements both.
    [sort.Slice] does not specify the order of equal elements, so it enters as the class
    [SortSlice]: any function that returns a sorted permutation for a strict weak order. *)
From S2P Require Import Prelude GoStrings GoNum GoTime GoUrl Json AuditEvent.

(** ** [sort.Slice] *)

Class StrictWeak {A} (less : A -> A -> bool) : Prop := {
  sw_irrefl x : less x x = false;
  sw_trans x y z : less x y = true -> less y z = true -> less x z = true;
  (** not less is transitive: incomparability is an equivalence *)
  sw_neg_trans x y z : less y x = false -> less z y = false -> less z x = false
}.

Definition ordered {A} (less : A -> A -> bool) : list A -> Prop :=
  StronglySorted (fun x y => less y x = false).

Class SortSlice := {
  sort_slice {A} (less : A -> A -> bool) : list A -> list A;
  sort_slice_perm {A} (less : A -> A -> bool) l : sort_slice less l ≡ₚ l;
  sort_slice_sorted {A} (less : A -> A -> bool) `{!StrictWeak less} l : ordered less (sort_slice less l)
}.

(** [for k, v := range m]: every entry once, in an order of the run-time's choice. *)
Class MapRange := {
  range {A} : gmap string A -> list (string * A);
  range_perm {A} (m : gmap string A) : range m ≡ₚ map_to_list m
}.
Definition sorted_range : MapRange := {| range A m := sorted_entries m; range_perm A m := sorted_entries_perm m |}.

(** Concrete sorting functions, to evaluate the model: a stable one and one that reverses equal
    elements. *)
Definition merge_by {A} (less : A -> A -> bool) (l : list A) : list A :=
  merge_sort (fun x y => less y x = false) (H := fun x y => decide (less y x = false)) l.

Lemma merge_by_sorted {A} (less : A -> A -> bool) `{!StrictWeak less} l : ordered less (merge_by less l).
Proof.
  apply Sorted_StronglySorted; [intros x y z Hxy Hyz; by eapply sw_neg_trans|].
  apply Sorted_merge_sort. intros x y. destruct (less y x) eqn:E; [|by left]. right.
  destruct (less x y) eqn:E'; [|done]. pose proof (sw_trans _ _ _ E E') as Hxx.
  by rewrite sw_irrefl in Hxx.
Qed.

Definition merge_slice : SortSlice :=
  {| sort_slice A := merge_by; sort_slice_perm A less l := merge_sort_Permutation _ l;
     sort_slice_sorted A less _ l := merge_by_sorted less l |}.

#[refine] Definition rev_slice : SortSlice :=
  {| sort_slice A less l := merge_by less (rev l); sort_slice_sorted A less _ l := merge_by_sorted less (rev l) |}.
Proof. intros. unfold merge_by. rewrite merge_sort_Permutation. symmetry. apply Permutation_rev. Defined.

(** ** The interfaces *)

Class Logger (L : Type) := {
  (** [newID] is what [uuid.NewString] returns, used only when the event has no ID. *)
  lg_Log (newID : string) (ev : Event) : L -> res string L;
  lg_Query (f : QueryFilter) : L -> res string (list Event);
  lg_Count (f : QueryFilter) : L -> res string Z
}.
Class PayloadLogger (L : Type) := {
  lg_GetPayload (id : string) : L -> res string (option Payload)
}.

(** The effective page of a filter, the same rule in every backend. *)
Definition effOffset (f : QueryFilter) : Z := if qf_Offset f <? 0 then 0 else qf_Offset f.
Definition effLimit (f : QueryFilter) : Z :=
  let limit := if qf_Limit f <=? 0 then 100 else qf_Limit f in
  if MaxQueryLimit <? limit then MaxQueryLimit else limit.

(** newest first, ID as tie breaker *)
Definition event_less (a b : Event) : bool :=
  if negb (ev_Timestamp a =? ev_Timestamp b) then ev_Timestamp b <? ev_Timestamp a
  else str_ltb (ev_ID a) (ev_ID b).

Section Memory.
Context `{UnicodeTables}.

Definition matchesFilter (ev : Event) (f : QueryFilter) : bool :=
  if negb (String.eqb (qf_EventID f) "") && negb (String.eqb (ev_ID ev) (qf_EventID f)) then false
  else if negb (String.eqb (qf_Method f) "") && negb (String.eqb (ev_Method ev) (qf_Method f)) then false
  else if negb (String.eqb (qf_Path f) "") && negb (String.eqb (ev_Path ev) (qf_Path f)) then false
  else if negb (String.eqb (qf_RouteName f) "") && negb (String.eqb (ev_RouteName ev) (qf_RouteName f))
    then false
  else if negb (String.eqb (qf_UserID f) "") && negb (String.eqb (ev_UserSubject ev) (qf_UserID f))
    then false
  else if negb (String.eqb (qf_SessionID f) "") && negb (String.eqb (ev_SessionID ev) (qf_SessionID f))
    then false
  else if negb (qf_Status f =? 0) && negb (ev_Status ev =? qf_Status f) then false
  else if negb (IsZero (qf_From f)) && (ev_Timestamp ev <? qf_From f) then false
  else if negb (IsZero (qf_To f)) && (qf_To f <? ev_Timestamp ev) then false
  else if match qf_Success f with Some b => negb (Bool.eqb (ev_Success ev) b) | None => false end then false
  else if negb (String.eqb (qf_Search f) "") then
    let needle := ToLower (qf_Search f) in
    if negb (Contains (ToLower (ev_Path ev)) needle) && negb (Contains (ToLower (ev_ErrorMessage ev)) needle)
    then false else true
  else true.

(** What a reader may rely on: one ordered list of the matching events, of which [Query] returns
    the window of the filter and [Count] the length. *)
Class AuditReads (L : Type) `{Logger L} := {
  stored : L -> list Event;
  matching : QueryFilter -> L -> list Event;
  matching_perm f l : matching f l ≡ₚ filter (fun ev => matchesFilter ev f = true) (stored l);
  matching_sorted f l : ordered event_less (matching f l);
  matching_page f l limit offset : matching (qf_page f limit offset) l = matching f l;
  query_window f l :
    lg_Query f l = Ok (take (Z.to_nat (effLimit f)) (drop (Z.to_nat (effOffset f)) (matching f l)));
  count_length f l : lg_Count f l = Ok (Z.of_nat (length (matching f l)))
}.

Record MemoryLogger := mkMemoryLogger { ml_events : list Event }.
Definition NewMemoryLogger : MemoryLogger := mkMemoryLogger [].

Context `{SortSlice}.

Definition Log (newID : string) (ev : Event) (m : MemoryLogger) : res string MemoryLogger :=
  let ev := if String.eqb (ev_ID ev) "" then ev_withID ev newID else ev in
  Ok (mkMemoryLogger (ml_events m ++ [ev])%list).

Definition matchAll (m : MemoryLogger) (f : QueryFilter) : list Event :=
  sort_slice event_less (filter (fun ev => matchesFilter ev f = true) (ml_events m)).

Definition Query (f : QueryFilter) (m : MemoryLogger) : res string (list Event) :=
  let out := matchAll m f in
  let offset := if qf_Offset f <? 0 then 0 else qf_Offset f in
  if Z.of_nat (length out) <=? offset then Ok []
  else
    let out := drop (Z.to_nat offset) out in
    let limit := if qf_Limit f <=? 0 then 100 else qf_Limit f in
    let limit := if MaxQueryLimit <? limit then MaxQueryLimit else limit in
    let out := if limit <? Z.of_nat (length out) then take (Z.to_nat limit) out else out in
    Ok out.

Definition Count (f : QueryFilter) (m : MemoryLogger) : res string Z :=
  Ok (Z.of_nat (length (matchAll m f))).

Fixpoint getPayload_loop (evs : list Event) (id : string) : option Payload :=
  match evs with
  | [] => None
  | ev :: rest => if String.eqb (ev_ID ev) id then ev_Payload ev else getPayload_loop rest id
  end.
Definition GetPayload (id : string) (m : MemoryLogger) : res string (option Payload) :=
  Ok (getPayload_loop (ml_events m) id).

Definition Snapshot (m : MemoryLogger) : list Event := ml_events m.

#[export] Instance MemoryLogger_Logger : Logger MemoryLogger :=
  {| lg_Log := Log; lg_Query := Query; lg_Count := Count |}.
#[export] Instance MemoryLogger_PayloadLogger : PayloadLogger MemoryLogger :=
  {| lg_GetPayload := GetPayload |}.

(** ** Lemmas: the order *)

#[export] Instance event_less_weak : StrictWeak event_less.
Proof.
  split; unfold event_less.
  - intros x. rewrite Z.eqb_refl. simpl. apply str_ltb_irrefl.
  - intros x y z. repeat case_if; try lia; try done.
    all: intros; bools; try lia. by eapply str_ltb_trans.
  - intros x y z. repeat case_if; intros; bools; try lia.
    destruct (str_ltb (ev_ID z) (ev_ID x)) eqn:E; [|done].
    destruct (str_ltb_total (ev_ID y) (ev_ID x)) as [?|[Eq|?]]; [congruence| |].
    + congruence.
    + assert (str_ltb (ev_ID z) (ev_ID y) = true) by (eapply str_ltb_trans; eauto). congruence.
Qed.

(** Two events that neither precedes are at the same instant with the same ID. *)
Lemma event_less_antisym x y :
  event_less x y = false -> event_less y x = false -> ev_Timestamp x = ev_Timestamp y /\ ev_ID x = ev_ID y.
Proof.
  unfold event_less. repeat case_if; intros; bools; try lia. split; [done|].
  destruct (str_ltb_total (ev_ID x) (ev_ID y)) as [?|[?|?]]; congruence.
Qed.

Lemma matchesFilter_page ev f limit offset :
  matchesFilter ev (qf_page f limit offset) = matchesFilter ev f.
Proof. done. Qed.

(** ** Lemmas: paging *)

Lemma effLimit_pos f : 1 <= effLimit f <= MaxQueryLimit.
Proof. unfold effLimit, MaxQueryLimit. repeat case_if; lia. Qed.

Lemma query_eq f m :
  Query f m = Ok (take (Z.to_nat (effLimit f)) (drop (Z.to_nat (effOffset f)) (matchAll m f))).
Proof.
  unfold Query, effLimit, effOffset. set (off := if qf_Offset f <? 0 then _ else _).
  assert (0 <= off) by (unfold off; case_if; lia). set (lim := if MaxQueryLimit <? _ then _ else _).
  case_if.
  - rewrite drop_ge by lia. by rewrite take_nil.
  - f_equal. case_if; [done|]. rewrite take_ge by lia. done.
Qed.

#[export, refine] Instance MemoryLogger_reads : AuditReads MemoryLogger := {|
  stored := ml_events;
  matching f m := matchAll m f
|}.
Proof.
  - intros. apply sort_slice_perm.
  - intros. apply sort_slice_sorted, _.
  - done.
  - intros. apply query_eq.
  - done.
Defined.

End Memory.

(** ** Readers of any audit store *)
Section Readers.
Context `{UnicodeTables} {L : Type} `{!Logger L} `{!AuditReads L}.

(** The pages of [size] events at offsets 0, size, ..., as a client that increments the offset by
    the page size reads them. *)
Definition pages (f : QueryFilter) (size : Z) (n : nat) (l : L) : list Event :=
  mjoin (map (fun i => match lg_Query (qf_page f size (Z.of_nat i * size)) l with
                       | Ok evs => evs
                       | Err _ => []
                       end) (seq 0 n)).

Lemma query_page f size off l :
  1 <= size <= MaxQueryLimit -> 0 <= off ->
  lg_Query (qf_page f size off) l = Ok (take (Z.to_nat size) (drop (Z.to_nat off) (matching f l))).
Proof.
  intros. rewrite query_window, matching_page. unfold effLimit, effOffset. simpl.
  unfold MaxQueryLimit in *. by repeat (case_if; try lia).
Qed.

Lemma pages_take f size n l :
  1 <= size <= MaxQueryLimit -> pages f size n l = take (n * Z.to_nat size) (matching f l).
Proof.
  intros Hs. induction n as [|n IH]; [done|].
  unfold pages in *. rewrite seq_S, map_app, join_app, IH. cbn [map mjoin list_join].
  rewrite query_page by lia. cbn [plus].
  rewrite app_nil_r. replace (Z.to_nat (Z.of_nat n * size)) with (n * Z.to_nat size)%nat by nia.
  replace (S n * Z.to_nat size)%nat with (n * Z.to_nat size + Z.to_nat size)%nat by lia.
  apply take_take_drop.
Qed.

Lemma ordered_unique (l k : list Event) :
  (forall x y, x ∈ l -> y ∈ l -> ev_ID x = ev_ID y -> x = y) ->
  ordered event_less l -> ordered event_less k -> l ≡ₚ k -> l = k.
Proof.
  intros Hid Hl Hk Hp. apply (StronglySorted_unique_strong (fun x y => event_less y x = false)); try done.
  intros x y Hx Hy Hxy Hyx. apply Hid; [done| |].
  - by rewrite Hp.
  - by apply event_less_antisym.
Qed.

(** Paging by offset misses nothing and repeats nothing.  For every filter and every page size
    the stores honour, once [n] pages of that size reach the count, their concatenation is a
    permutation of the stored events that match the filter, newest first with the ID as tie
    breaker. *)
Theorem pages_complete (f : QueryFilter) (size : Z) (n : nat) (l : L)
  (Hsize : 1 <= size <= MaxQueryLimit)
  (Hn : exists c, lg_Count f l = Ok c /\ c <= Z.of_nat n * size) :
  pages f size n l ≡ₚ filter (fun ev => matchesFilter ev f = true) (stored l) /\
  ordered event_less (pages f size n l).
Proof.
  destruct Hn as (c & Hc & Hn). rewrite count_length in Hc. injection Hc as <-.
  rewrite pages_take, take_ge by (done || nia). split; [apply matching_perm|apply matching_sorted].
Qed.

End Readers.

(** The page a client sees does not depend on the sorting algorithm.  When the stored events
    have distinct IDs, any two sorted-permutation implementations of [sort.Slice] give the same
    answer to every query. *)
Theorem query_deterministic `{UnicodeTables} (S1 S2 : SortSlice) (f : QueryFilter) (m : MemoryLogger)
  (Hid : NoDup (map ev_ID (ml_events m))) :
  @Query _ S1 f m = @Query _ S2 f m.
Proof.
  rewrite !query_eq. do 3 f_equal. unfold matchAll. apply ordered_unique.
  - intros x y Hx Hy. rewrite sort_slice_perm, list_elem_of_filter in Hx, Hy.
    destruct Hx as [_ Hx], Hy as [_ Hy]. by apply (NoDup_map_inj ev_ID (ml_events m)).
  - apply sort_slice_sorted, _.
  - apply sort_slice_sorted, _.
  - by rewrite !sort_slice_perm.
Qed.

(** An event that was logged is found again: after [Log] of an event whose ID (given, or
    assigned because it had none) is new to the store, the query for that ID returns exactly the
    event as stored and [GetPayload] its payload. *)
Theorem log_then_find `{UnicodeTables} `{SortSlice} (newID : string) (ev : Event) (m : MemoryLogger)
  (Hnew : newID <> "")
  (Hfresh : Forall (fun e => ev_ID e <> if String.eqb (ev_ID ev) "" then newID else ev_ID ev)
                   (ml_events m)) :
  exists m' ev', Log newID ev m = Ok m' /\
    ev' = (if String.eqb (ev_ID ev) "" then ev_withID ev newID else ev) /\
    (let f := mkQueryFilter 0 0 "" "" "" "" "" (ev_ID ev') 0 None "" 1 0 false in
     Query f m' = Ok [ev'] /\ GetPayload (ev_ID ev') m' = Ok (ev_Payload ev)).
Proof.
  set (ev' := if String.eqb (ev_ID ev) "" then ev_withID ev newID else ev).
  assert (Hid : ev_ID ev' <> "") by (unfold ev'; case_if; done).
  assert (Hfr : Forall (fun e => ev_ID e <> ev_ID ev') (ml_events m))
    by (unfold ev'; destruct (String.eqb (ev_ID ev) ""); done).
  assert (Hp : ev_Payload ev' = ev_Payload ev) by (unfold ev'; by case_if).
  eexists _, ev'. split; [done|]. split; [done|]. fold ev'. set (f := mkQueryFilter _ _ _ _ _ _ _ _ _ _ _ _ _ _).
  assert (Hm : forall e, matchesFilter e f = String.eqb (ev_ID e) (ev_ID ev')).
  { intros e. unfold matchesFilter. simpl. destruct (String.eqb_spec (ev_ID ev') ""); [done|].
    by destruct (String.eqb (ev_ID e) (ev_ID ev')). }
  assert (Hf : filter (fun e => matchesFilter e f = true) (ml_events m ++ [ev'])%list = [ev']).
  { rewrite filter_app. replace (filter _ (ml_events m)) with (@nil Event).
    - rewrite filter_cons_True; [done|]. rewrite Hm. apply String.eqb_refl.
    - symmetry. clear -Hfr Hm. induction Hfr as [|e l He Hl IH]; [done|].
      rewrite filter_cons_False; [done|]. rewrite Hm. by apply not_true_iff_false, String.eqb_neq. }
  split.
  - rewrite query_eq. unfold matchAll. cbn [ml_events]. rewrite Hf.
    rewrite (Permutation_length_1_inv (symmetry (sort_slice_perm event_less [ev']))). done.
  - unfold GetPayload. cbn [ml_events]. rewrite <- Hp. f_equal. clear -Hfr.
    induction Hfr as [|e l He Hl IH]; simpl; [by rewrite String.eqb_refl|].
    destruct (String.eqb_spec (ev_ID e) (ev_ID ev')); [congruence|done].
Qed.

(** ** Witnesses *)

Definition sampleEvent (id : string) (t : Time) (path : string) : Event :=
  ev_withID (NewEvent t "GET" path) id.
Definition sampleLog : MemoryLogger :=
  mkMemoryLogger [sampleEvent "a" 10 "/v1/echo"; sampleEvent "b" 30 "/v1/fail";
                  sampleEvent "c" 20 "/v1/echo"; sampleEvent "d" 30 "/v1/echo"].
Definition byPath (p : string) : QueryFilter :=
  mkQueryFilter 0 0 "" p "" "" "" "" 0 None "" 0 0 false.
Definition echoFilter : QueryFilter := byPath "/v1/echo".

#[local] Existing Instance ascii_tables.
#[local] Existing Instance merge_slice.

Lemma pages_complete_witness :
  pages echoFilter 2 2 sampleLog ≡ₚ
    [sampleEvent "a" 10 "/v1/echo"; sampleEvent "c" 20 "/v1/echo"; sampleEvent "d" 30 "/v1/echo"] /\
  ordered event_less (pages echoFilter 2 2 sampleLog).
Proof.
  destruct (pages_complete echoFilter 2 2 sampleLog) as [H1 H2].
  - unfold MaxQueryLimit. lia.
  - exists 3. split; [by vm_compute|lia].
  - split; [|exact H2]. etransitivity; [exact H1|]. apply reflexive_eq. by vm_compute.
Defined.

Lemma query_deterministic_witness :
  @Query _ merge_slice echoFilter sampleLog = @Query _ rev_slice echoFilter sampleLog.
Proof.
  apply (query_deterministic merge_slice rev_slice echoFilter sampleLog).
  apply (bool_decide_unpack _). by vm_compute.
Defined.

Lemma log_then_find_witness : exists m',
  Log "e" (NewEvent 40 "GET" "/x") sampleLog = Ok m' /\
  GetPayload "e" m' = Ok None.
Proof.
  destruct (log_then_find "e" (NewEvent 40 "GET" "/x") sampleLog) as (m' & ev' & H1 & -> & _ & H2).
  - done.
  - apply (bool_decide_unpack _). by vm_compute.
  - by exists m'.
Defined.
