(* ===== verification/AsyncLog.v ===== *)
(** * The asynchronous audit logger ([pkg/audit/async.go])

    A buffered channel, any number of producers calling [Log], one worker goroutine, and [Close].
    Every interleaving is a sequence of actions: [Log] and [Close] calls of request goroutines, and
    the worker's own moves between two channel operations.  [astep] executes one action and is
    undefined when the action is not enabled; which enabled action comes next is the scheduler's
    choice, and so is the branch of a [select] with two ready cases. *)
From S2P Require Import Prelude GoStrings GoNum GoTime GoUrl Json AuditEvent MemoryLog.

(** ** State *)

(** Where the worker of [run] is. *)
Inductive phase :=
| Selecting                          (** the outer [select] *)
| Writing (ev : Event) (drain : bool)  (** inside [write], reached from the outer or the drain loop *)
| Draining                           (** the inner [select] after [stop] was seen *)
| Exited.

#[global] Instance phase_eq_dec : EqDecision phase.
Proof. solve_decision. Defined.

Record AsyncLogger (L : Type) := mkAsync {
  al_inner : L;
  al_ch : list Event;                (** the channel, oldest first *)
  al_cap : nat;
  al_dropped : Z;                    (** [uint64] *)
  al_stopped : bool;                 (** [stop] is closed *)
  al_phase : phase
}.
Arguments mkAsync {L}.
Arguments al_inner {L}.
Arguments al_ch {L}.
Arguments al_cap {L}.
Arguments al_dropped {L}.
Arguments al_stopped {L}.
Arguments al_phase {L}.

(** The logger used when auditing is disabled: it drops every event and answers every read with
    nothing. *)
Record NoopLogger := mkNoop {}.
#[export] Instance NoopLogger_Logger : Logger NoopLogger | 100 :=
  {| lg_Log _ _ n := Ok n; lg_Query _ _ := Ok []; lg_Count _ _ := Ok 0 |}.

Section Async.
Context {L : Type} `{!Logger L}.
Implicit Types (s : AsyncLogger L).

Definition NewAsyncLogger (inner : L) (bufferSize : Z) : AsyncLogger L :=
  let bufferSize := if bufferSize <=? 0 then 1024 else bufferSize in
  mkAsync inner [] (Z.to_nat bufferSize) 0 false Selecting.

(** ** Operations *)

(** [select { case a.ch <- ev: default: a.dropped++ }] *)
Definition Log (ev : Event) s : AsyncLogger L :=
  if (length (al_ch s) <? al_cap s)%nat then
    mkAsync (al_inner s) (al_ch s ++ [ev])%list (al_cap s) (al_dropped s) (al_stopped s) (al_phase s)
  else
    mkAsync (al_inner s) (al_ch s) (al_cap s) ((al_dropped s + 1) mod 2 ^ 64) (al_stopped s) (al_phase s).

Definition Query (f : QueryFilter) s : res string (list Event) := lg_Query f (al_inner s).
Definition Count (f : QueryFilter) s : res string Z := lg_Count f (al_inner s).
(** [pl] is the inner logger's [PayloadLogger] capability, when it has one. *)
Definition GetPayload (pl : option (PayloadLogger L)) (id : string) s : res string (option Payload) :=
  match pl with None => Ok None | Some P => @lg_GetPayload L P id (al_inner s) end.

(** The first half of [Close]; [wg.Wait] returns once the worker is [Exited]. *)
Definition Close s : AsyncLogger L :=
  mkAsync (al_inner s) (al_ch s) (al_cap s) (al_dropped s) true (al_phase s).
Definition Dropped s : Z := al_dropped s.

Definition setPhase (p : phase) s : AsyncLogger L :=
  mkAsync (al_inner s) (al_ch s) (al_cap s) (al_dropped s) (al_stopped s) p.
(** [ev := <-a.ch], then [a.write(ev)]. *)
Definition receive (drain : bool) s : option (AsyncLogger L) :=
  match al_ch s with
  | [] => None
  | ev :: rest =>
    Some (mkAsync (al_inner s) rest (al_cap s) (al_dropped s) (al_stopped s) (Writing ev drain))
  end.

(** [a.inner.Log]; a failed write is logged and the event is gone. *)
Definition write1 (l : L) (w : string * Event) : L :=
  match lg_Log w.1 w.2 l with Ok l' => l' | Err _ => l end.
Definition write (newID : string) (ev : Event) (drain : bool) s : AsyncLogger L :=
  mkAsync (write1 (al_inner s) (newID, ev)) (al_ch s) (al_cap s) (al_dropped s) (al_stopped s)
          (if drain then Draining else Selecting).

(** ** Actions *)

Inductive action :=
| ALog (ev : Event)
| AClose
| WReceive                       (** outer select, case [ev := <-a.ch] *)
| WStop                          (** outer select, case [<-a.stop] *)
| WWrite (newID : string)        (** [write] returns *)
| WDrain                         (** inner select, case [ev := <-a.ch] *)
| WExit.                         (** inner select, default *)

Definition isWorker (a : action) : bool := match a with ALog _ | AClose => false | _ => true end.

Definition run_step (a : action) s : option (AsyncLogger L) :=
  match a, al_phase s with
  | WReceive, Selecting => receive false s
  | WStop, Selecting => if al_stopped s then Some (setPhase Draining s) else None
  | WWrite newID, Writing ev drain => Some (write newID ev drain s)
  | WDrain, Draining => receive true s
  | WExit, Draining => match al_ch s with [] => Some (setPhase Exited s) | _ => None end
  | _, _ => None
  end.

Definition astep (a : action) s : option (AsyncLogger L) :=
  match a with
  | ALog ev => Some (Log ev s)
  | AClose => Some (Close s)
  | _ => run_step a s
  end.

(** ** What an observer of the run sees *)

Record history := mkHistory {
  h_logged : list Event;                   (** arguments of all [Log] calls *)
  h_accepted : list Event;                 (** those that found room in the channel *)
  h_written : list (string * Event);       (** the writes the worker has performed *)
  h_atClose : option (list Event)          (** accepted when [Close] was first called *)
}.
Definition noHistory : history := mkHistory [] [] [] None.

Definition observe (a : action) s (h : history) : history :=
  match a with
  | ALog ev =>
    mkHistory (h_logged h ++ [ev])%list
      (if (length (al_ch s) <? al_cap s)%nat then h_accepted h ++ [ev] else h_accepted h)%list
      (h_written h) (h_atClose h)
  | AClose =>
    mkHistory (h_logged h) (h_accepted h) (h_written h)
      (match h_atClose h with None => Some (h_accepted h) | x => x end)
  | WWrite newID =>
    match al_phase s with
    | Writing ev _ => mkHistory (h_logged h) (h_accepted h) (h_written h ++ [(newID, ev)])%list (h_atClose h)
    | _ => h
    end
  | _ => h
  end.

Fixpoint arun (tr : list action) (c : AsyncLogger L * history) : option (AsyncLogger L * history) :=
  match tr with
  | [] => Some c
  | a :: tr' =>
    match astep a c.1 with
    | None => None
    | Some s' => arun tr' (s', observe a c.1 c.2)
    end
  end.

(** ** The invariant *)

Definition inflight s : list Event := match al_phase s with Writing ev _ => [ev] | _ => [] end.
Definition afterStop s : bool :=
  match al_phase s with Draining | Exited | Writing _ true => true | _ => false end.

Record AInv (inner0 : L) s (h : history) : Prop := {
  inv_fifo : h_accepted h = (map snd (h_written h) ++ inflight s ++ al_ch s)%list;
  inv_cap : (length (al_ch s) <= al_cap s)%nat;
  inv_dropped :
    (length (h_accepted h) <= length (h_logged h))%nat /\
    al_dropped s = Z.of_nat (length (h_logged h) - length (h_accepted h)) mod 2 ^ 64;
  inv_inner : al_inner s = foldl write1 inner0 (h_written h);
  inv_stopped : al_stopped s = true <-> h_atClose h <> None;
  inv_after : afterStop s = true -> al_stopped s = true;
  inv_atClose : forall l, h_atClose h = Some l -> l `prefix_of` h_accepted h;
  inv_exited : al_phase s = Exited ->
    exists l, h_atClose h = Some l /\ l `prefix_of` map snd (h_written h)
}.

Lemma AInv_init inner0 n : AInv inner0 (NewAsyncLogger inner0 n) noHistory.
Proof. split; simpl; try done; try lia. Qed.

Lemma AInv_log inner0 s h ev : AInv inner0 s h -> AInv inner0 (Log ev s) (observe (ALog ev) s h).
Proof.
  intros [F C [D1 D2] I St Af Ac Ex]. unfold Log, observe.
  destruct (length (al_ch s) <? al_cap s)%nat eqn:E.
  - apply Nat.ltb_lt in E. split; simpl; try done.
    + rewrite F. by rewrite <- !app_assoc.
    + rewrite length_app. simpl. lia.
    + rewrite !length_app. simpl. split; [lia|]. rewrite D2. do 2 f_equal. lia.
    + intros l Hl. by apply prefix_app_r, Ac.
  - split; simpl; try done. rewrite length_app. simpl. split; [lia|].
    rewrite D2, Zplus_mod_idemp_l. f_equal. lia.
Qed.

Lemma AInv_close inner0 s h : AInv inner0 s h -> AInv inner0 (Close s) (observe AClose s h).
Proof.
  intros [F C D I St Af Ac Ex]. split; simpl; try done.
  - by destruct (h_atClose h).
  - intros l. destruct (h_atClose h) eqn:E; intros [= <-]; [by apply Ac|done].
  - intros Hx. destruct (Ex Hx) as (l & E & Hl). rewrite E. by exists l.
Qed.

Lemma AInv_worker inner0 a s s' h :
  isWorker a = true -> run_step a s = Some s' -> AInv inner0 s h -> AInv inner0 s' (observe a s h).
Proof.
  intros Ha Hs [F C D I St Af Ac Ex].
  destruct s as [inner ch cap dr st ph], h as [hl ha hw hc]. unfold inflight, afterStop in *. simpl in *.
  destruct a; try done; destruct ph as [|ev drain| |]; try done; unfold run_step, receive in Hs; simpl in Hs.
  - destruct ch; [done|]. injection Hs as <-. split; simpl in *; try done. lia.
  - destruct st; [|done]. by injection Hs as <-.
  - injection Hs as <-. split; simpl; try done; try (by destruct drain).
    + rewrite F, map_app, <- !app_assoc. by destruct drain.
    + by rewrite I, foldl_app.
  - destruct ch; [done|]. injection Hs as <-. split; simpl in *; try done. lia.
  - destruct ch; [|done]. injection Hs as <-. split; simpl in *; try done. intros _.
    rewrite app_nil_r in F. destruct hc as [l|].
    + exists l. split; [done|]. rewrite <- F. by apply Ac.
    + by destruct (proj1 St (Af eq_refl)).
Qed.

Lemma AInv_step inner0 a s s' h :
  astep a s = Some s' -> AInv inner0 s h -> AInv inner0 s' (observe a s h).
Proof.
  destruct (isWorker a) eqn:Ha; intros Hs Hi.
  - apply (AInv_worker _ _ s); [done| |done]. by destruct a.
  - destruct a; try done; injection Hs as <-; [by apply AInv_log|by apply AInv_close].
Qed.

Lemma AInv_run inner0 tr : forall c c',
  arun tr c = Some c' -> AInv inner0 c.1 c.2 -> AInv inner0 c'.1 c'.2.
Proof.
  induction tr as [|a tr IH]; simpl; intros c c'; [by intros [= <-]|].
  destruct (astep a c.1) as [s'|] eqn:E; [|done]. intros Hr Hi.
  by apply (IH _ _ Hr), (AInv_step _ _ _ _ _ E).
Qed.

(** C6: the queue keeps what it accepts.  In every state that an interleaving of requests, worker and
    shutdown reaches, the events that found room in the channel are, in order, the ones already handed
    to the store, the one being written and the ones still queued; the queue never exceeds its
    capacity; the drop counter is the number of [Log] calls that found it full (modulo 2^64); and the
    store is what the writes performed so far, in that order, produce.  Once the worker has exited,
    every event accepted before [Close] was called has been handed to the store, in order.  (An event
    accepted after [Close] may stay in the queue: [log_after_close_is_lost].) *)
Theorem async_conservation (inner0 : L) (bufferSize : Z) (tr : list action) s (h : history)
  (Hrun : arun tr (NewAsyncLogger inner0 bufferSize, noHistory) = Some (s, h)) :
  h_accepted h = (map snd (h_written h) ++ inflight s ++ al_ch s)%list /\
  (length (al_ch s) <= al_cap s)%nat /\
  Dropped s = Z.of_nat (length (h_logged h) - length (h_accepted h)) mod 2 ^ 64 /\
  al_inner s = foldl write1 inner0 (h_written h) /\
  (al_phase s = Exited ->
   exists before, h_atClose h = Some before /\ before `prefix_of` map snd (h_written h)).
Proof.
  destruct (AInv_run inner0 tr _ _ Hrun (AInv_init inner0 bufferSize)) as [F C [_ D] I _ _ _ X].
  done.
Qed.

(** ** Termination of [Close] *)

(** Worker moves left once [stop] is closed. *)
Definition workLeft s : nat :=
  (2 * length (al_ch s) +
   match al_phase s with Selecting => 2 | Writing _ false => 3 | Draining => 1 | Writing _ true => 2 | Exited => 0 end)%nat.

Lemma worker_decreases a s s' :
  run_step a s = Some s' -> (workLeft s' < workLeft s)%nat /\ al_stopped s' = al_stopped s.
Proof.
  destruct s as [inner ch cap dr st ph]. unfold run_step, receive, workLeft. simpl.
  destruct a; destruct ph as [|ev0 drain| |]; try done.
  - destruct ch; [done|]. intros [= <-]. simpl. split; [lia|done].
  - destruct st; [|done]. intros [= <-]. simpl. split; [lia|done].
  - intros [= <-]. destruct drain; simpl; split; [lia|done|lia|done].
  - destruct ch; [done|]. intros [= <-]. simpl. split; [lia|done].
  - destruct ch; [|done]. intros [= <-]. simpl. split; [lia|done].
Qed.

Lemma worker_enabled s :
  al_stopped s = true -> al_phase s <> Exited ->
  exists a s', isWorker a = true /\ run_step a s = Some s'.
Proof.
  intros Hs Hp. destruct (al_phase s) as [|ev d| |] eqn:E; [| | |done].
  - exists WStop. unfold run_step. rewrite E, Hs. eauto.
  - exists (WWrite ""). unfold run_step. rewrite E. eauto.
  - destruct (al_ch s) eqn:Ec.
    + exists WExit. unfold run_step. rewrite E, Ec. eauto.
    + exists WDrain. unfold run_step, receive. rewrite E, Ec. eauto.
Qed.

Lemma worker_run_bound tr : forall s h s' h',
  forallb isWorker tr = true -> arun tr (s, h) = Some (s', h') ->
  (length tr + workLeft s' <= workLeft s)%nat /\ al_stopped s' = al_stopped s.
Proof.
  induction tr as [|a tr IH]; simpl; intros s h s' h' Hw; [by intros [= -> ->]|].
  apply andb_true_iff in Hw as [Ha Hw]. destruct (astep a s) as [s1|] eqn:E; [|done].
  assert (run_step a s = Some s1) as E' by (by destruct a).
  apply worker_decreases in E' as [Hd Hst]. intros Hr.
  destruct (IH _ _ _ _ Hw Hr) as [Hb Hs']. split; [lia|congruence].
Qed.

(** [Close] terminates.  Once [stop] is closed and no more events come in, the worker cannot
    move forever (every schedule of its moves, whichever branch each [select] takes, has at most
    twice the queue length plus three moves) and it never blocks before it has exited, so
    [wg.Wait] returns. *)
Theorem close_terminates s (h : history) (Hstop : al_stopped s = true) :
  forall tr s' h', forallb isWorker tr = true -> arun tr (s, h) = Some (s', h') ->
  (length tr <= 2 * length (al_ch s) + 3)%nat /\
  (al_phase s' = Exited \/
   exists a s'', isWorker a = true /\ arun (tr ++ [a]) (s, h) = Some (s'', observe a s' h')).
Proof.
  intros tr s' h' Hw Hr. destruct (worker_run_bound tr s h s' h' Hw Hr) as [Hb Hst]. split.
  - unfold workLeft in Hb at 2. destruct (al_phase s) as [|? []| |]; lia.
  - destruct (decide (al_phase s' = Exited)) as [|Hne]; [by left|right].
    destruct (worker_enabled s' ltac:(congruence) Hne) as (a & s'' & Ha & Hs'').
    exists a, s''. split; [done|].
    assert (forall c c', arun tr c = Some c' -> arun (tr ++ [a]) c = arun [a] c') as Happ.
    { clear. induction tr as [|b tr IH]; intros c c'; [by intros [= ->]|]. simpl.
      destruct (astep b c.1); [|done]. apply IH. }
    rewrite (Happ _ _ Hr). simpl.
    assert (astep a s' = Some s'') as -> by (by destruct a). done.
Qed.

(** An event logged after [Close] has returned can be accepted and is then never written: the
    worker is gone, so no continuation of the run, of any length, hands it to the store, and it is
    not counted as dropped either. *)
Theorem log_after_close_is_lost s (h : history) (ev : Event)
  (Hexit : al_phase s = Exited) (Hroom : (length (al_ch s) < al_cap s)%nat) :
  Dropped (Log ev s) = Dropped s /\ ev ∈ al_ch (Log ev s) /\
  forall tr s' h', arun tr (Log ev s, h) = Some (s', h') ->
    al_inner s' = al_inner s /\ h_written h' = h_written h /\ ev ∈ al_ch s'.
Proof.
  assert (E : (length (al_ch s) <? al_cap s)%nat = true) by (by apply Nat.ltb_lt).
  assert (Hin : ev ∈ al_ch (Log ev s)) by (unfold Log; rewrite E; simpl; set_solver).
  split; [unfold Dropped, Log; by rewrite E|]. split; [done|].
  assert (Hex : al_phase (Log ev s) = Exited) by (unfold Log; by rewrite E).
  replace (al_inner s) with (al_inner (Log ev s)) by (unfold Log; by rewrite E).
  clear Hexit E Hroom. generalize dependent (Log ev s). clear s. intros s Hin Hex tr. revert s h Hin Hex.
  induction tr as [|a tr IH]; intros s h Hin Hex s' h'; simpl; [by intros [= <- <-]|].
  destruct a; simpl; rewrite ?Hex; try done; intros Hr; apply IH in Hr; simpl in *; try done.
  - unfold Log in Hr. destruct (_ <? _)%nat; exact Hr.
  - unfold Log. destruct (_ <? _)%nat; simpl; set_solver.
  - unfold Log. by destruct (_ <? _)%nat.
Qed.

End Async.

(** ** Witnesses *)

#[local] Existing Instance ascii_tables.
#[local] Existing Instance merge_slice.

Definition e1 : Event := sampleEvent "1" 10 "/v1/echo".
Definition e2 : Event := sampleEvent "2" 20 "/v1/echo".
Definition e3 : Event := sampleEvent "3" 30 "/v1/echo".

(** A buffer of one: the second event is dropped, the third is drained after [Close]. *)
Definition sampleTrace : list action :=
  [ALog e1; ALog e2; WReceive; ALog e3; AClose; WWrite "x"; WStop; WDrain; WWrite "x"; WExit].
Definition sampleStart : AsyncLogger MemoryLogger :=
  NewAsyncLogger NewMemoryLogger 1.

Lemma async_conservation_witness : exists s h before,
  arun sampleTrace (sampleStart, noHistory) = Some (s, h) /\
  Dropped s = 1 /\ ml_events (al_inner s) = [e1; e3] /\
  h_atClose h = Some before /\ before `prefix_of` map snd (h_written h).
Proof.
  destruct (arun sampleTrace (sampleStart, noHistory)) as [[s h]|] eqn:E; [|by vm_compute in E].
  destruct (async_conservation NewMemoryLogger 1 sampleTrace s h E) as (_ & _ & H1 & H2 & H3).
  destruct H3 as (before & H3 & H4); [vm_compute in E; by injection E as <- <-|].
  exists s, h, before. split; [done|]. rewrite H1, H2. split_and!; [| |done|done]; vm_compute in E; by injection E as <- <-.
Defined.

(** After one queued event and [Close]: two moves in, the worker is not yet out and can go on. *)
Lemma close_terminates_witness : exists s h,
  arun [WStop; WDrain] (Close (Log e1 sampleStart), noHistory) = Some (s, h) /\
  exists a s'', isWorker a = true /\
    arun [WStop; WDrain; a] (Close (Log e1 sampleStart), noHistory) = Some (s'', observe a s h).
Proof.
  destruct (arun [WStop; WDrain] (Close (Log e1 sampleStart), noHistory)) as [[s h]|] eqn:E; [|by vm_compute in E].
  exists s, h. split; [done|].
  destruct (close_terminates (Close (Log e1 sampleStart)) noHistory eq_refl [WStop; WDrain] s h eq_refl E)
    as [_ [Hex|Hgo]]; [|exact Hgo].
  vm_compute in E. injection E as <- <-. by vm_compute in Hex.
Defined.

Lemma log_after_close_is_lost_witness : exists s h,
  arun sampleTrace (sampleStart, noHistory) = Some (s, h) /\
  e2 ∈ al_ch (Log e2 s) /\ Dropped (Log e2 s) = 1.
Proof.
  destruct (arun sampleTrace (sampleStart, noHistory)) as [[s h]|] eqn:E; [|by vm_compute in E].
  exists s, h. split; [done|].
  assert (al_phase s = Exited /\ al_ch s = [] /\ al_cap s = 1%nat /\ Dropped s = 1) as (H1 & H2 & H3 & H4)
    by (vm_compute in E; by injection E as <- <-).
  destruct (log_after_close_is_lost s h e2) as (H5 & H6 & _); [done|rewrite H2, H3; simpl; lia|].
  split; [done|]. by rewrite H5.
Defined.
