(* ===== verification/ServeMux.v ===== *)
(** * [http.ServeMux] (Go 1.22 patterns) as api-test uses it

    Patterns of the form [METHOD /seg/{wild}/...], optionally ending in a slash.  Matching works on
    the escaped path, segment by segment, each segment unescaped on its own; the most specific
    matching pattern wins; a GET pattern also serves HEAD. *)
From S2P Require Import Prelude GoStrings GoNum GoUrl Json Http.

(** ** Paths *)

(** [url.PathUnescape]; the mux keeps a segment that does not unescape. *)
Fixpoint PathUnescape (s : string) : option string :=
  match s with
  | EmptyString => Some ""
  | String c s1 =>
    if Ascii.eqb c "%" then
      match s1 with
      | String a (String b s3) =>
        match unhex a, unhex b with
        | Some x, Some y => String (chr (x * 16 + y)) <$> PathUnescape s3
        | _, _ => None
        end
      | _ => None
      end
    else String c <$> PathUnescape s1
  end.
Definition unescapeSegment (s : string) : string := default s (PathUnescape s).

(** A rooted path as its segments; [slash] when it ends in a slash. *)
Record path := mkPath { p_segs : list string; p_slash : bool }.

(** Drop the empty segments that slashes leave behind. *)
Definition segments (s : string) : list string :=
  filter (fun x => negb (String.eqb x "") = true) (Split s "/").

Definition endsWithSlash (s : string) : bool :=
  match LastFrom s "/" with Some "/" => true | _ => false end.

Definition parsePath (s : string) : path := mkPath (segments s) (endsWithSlash s).

(** [cleanPath]: rooted, "." and empty segments dropped, ".." resolved, a final slash kept. *)
Fixpoint clean_loop (segs : list string) (stack : list string) : list string :=
  match segs with
  | [] => rev stack
  | s :: rest =>
    if String.eqb s "" || String.eqb s "." then clean_loop rest stack
    else if String.eqb s ".." then clean_loop rest (tail stack)
    else clean_loop rest (s :: stack)
  end.
Definition cleanPath (s : string) : string :=
  let np := "/" ++ Join (clean_loop (Split s "/") []) "/" in
  if endsWithSlash s && negb (String.eqb np "/") then np ++ "/" else np.
Definition isClean (s : string) : bool := String.eqb (cleanPath s) s.

(** ** Patterns *)

Inductive seg := Lit (s : string) | Wild (name : string).

Record pattern := mkPattern { pt_method : string; pt_segs : list seg; pt_multi : bool }.

(** [{name}] *)
Definition parseSeg (s : string) : seg :=
  match s with
  | String "{" rest => if HasPrefix (sdrop (String.length rest - 1) rest) "}"
                       then Wild (stake (String.length rest - 1) rest) else Lit s
  | _ => Lit s
  end.

Definition parsePattern (s : string) : pattern :=
  let '(m, p, _) := Cut s " " in
  mkPattern m (map parseSeg (segments p)) (endsWithSlash p).

Definition methodOK (pat method : string) : bool :=
  String.eqb pat "" || String.eqb pat method || (String.eqb pat "GET" && String.eqb method "HEAD").

Fixpoint matchSegs (ps : list seg) (multi : bool) (ss : list string) (slash : bool)
    : option (list (string * string)) :=
  match ps, ss with
  | [], [] => if Bool.eqb multi slash then Some [] else None
  | [], _ :: _ => if multi then Some [] else None
  | Lit l :: ps', s :: ss' =>
    if String.eqb l (unescapeSegment s) then matchSegs ps' multi ss' slash else None
  | Wild n :: ps', s :: ss' => cons (n, unescapeSegment s) <$> matchSegs ps' multi ss' slash
  | _ :: _, [] => None
  end.

Definition matchPath (p : pattern) (x : path) : option (list (string * string)) :=
  matchSegs (pt_segs p) (pt_multi p) (p_segs x) (p_slash x).

(** ** Precedence *)

Fixpoint segs_le (ps qs : list seg) (pmulti qmulti : bool) : bool :=
  match ps, qs with
  | [], [] => Bool.eqb pmulti qmulti
  | _ :: _, [] => qmulti
  | Lit a :: ps', Lit b :: qs' => String.eqb a b && segs_le ps' qs' pmulti qmulti
  | _ :: ps', Wild _ :: qs' => segs_le ps' qs' pmulti qmulti
  | _, _ => false
  end.
Definition pat_le (p q : pattern) : bool :=
  methodOK (pt_method q) (pt_method p) && segs_le (pt_segs p) (pt_segs q) (pt_multi p) (pt_multi q).

(** ** Dispatch *)

Definition str_le (a b : string) : Prop := str_ltb b a = false.
#[global] Instance str_le_dec : RelDecision str_le.
Proof. intros a b. unfold str_le. apply _. Defined.

Inductive routed (H : Type) :=
| Found (pat : pattern) (binds : gmap string string) (h : H)
| Redirect (to : string)                 (** to the clean path, or to the path with a final slash *)
| MethodNotAllowed (allow : list string)
| NotFound.
Arguments Found {H}.
Arguments Redirect {H}.
Arguments MethodNotAllowed {H}.
Arguments NotFound {H}.

Section Mux.
Context {H : Type}.
Abbreviation mux := (list (pattern * H)).

Definition candidates (m : mux) (method : string) (x : path) : list (pattern * list (string * string) * H) :=
  omap (fun e => if methodOK (pt_method e.1) method
                 then (fun b => (e.1, b, e.2)) <$> matchPath e.1 x else None) m.

Definition best (cs : list (pattern * list (string * string) * H)) :
    option (pattern * list (string * string) * H) :=
  List.find (fun c => forallb (fun d => pat_le c.1.1 d.1.1) cs) cs.

(** [exactMatch]: a pattern with a final slash matches exactly only its own path. *)
Definition exactMatch (p : pattern) (x : path) : bool :=
  if pt_multi p then p_slash x && Nat.eqb (length (pt_segs p)) (length (p_segs x)) else true.
Definition foundExact (c : option (pattern * list (string * string) * H)) (x : path) : bool :=
  match c with Some (p, _, _) => exactMatch p x | None => false end.

(** [matchingMethods]: the methods under which the path, or the path with a final slash, would match. *)
Definition matchingMethods (m : mux) (x : path) : list string :=
  let ms := map (fun e => pt_method e.1)
              (List.filter (fun e => bool_decide (matchPath e.1 x <> None) ||
                                     bool_decide (matchPath e.1 (mkPath (p_segs x) true) <> None)) m) in
  merge_sort str_le (remove_dups (if bool_decide ("GET" ∈ ms) then "HEAD" :: ms else ms)).

Definition dispatch (m : mux) (method epath : string) : routed H :=
  let cleaned := cleanPath epath in
  let x := parsePath cleaned in
  let n := best (candidates m method x) in
  let slashed := mkPath (p_segs x) true in
  if negb (foundExact n x) && negb (p_slash x) && foundExact (best (candidates m method slashed)) slashed
  then Redirect (cleaned ++ "/")
  else if negb (isClean epath) then Redirect cleaned
  else
    match n with
    | Some (p, b, h) => Found p (list_to_map b) h
    | None =>
      match matchingMethods m x with [] => NotFound | ms => MethodNotAllowed ms end
    end.

(** ** Lemmas *)

Lemma PathUnescape_plain s : ContainsByte s "%" = false -> PathUnescape s = Some s.
Proof.
  induction s as [|c s IH]; [done|]. simpl. intros [Hc Hs]%orb_false_iff. rewrite Hc. by rewrite IH.
Qed.

Lemma find_some {A} (p : A -> bool) l x : List.find p l = Some x -> x ∈ l /\ p x = true.
Proof.
  intros Hf. apply find_some in Hf as [Hin Hp]. by rewrite list_elem_of_In.
Qed.

Lemma isClean_eq epath : isClean epath = true -> cleanPath epath = epath.
Proof. unfold isClean. intros. by bools. Qed.

Lemma dispatch_found m method epath p b h :
  dispatch m method epath = Found p b h ->
  (p, h) ∈ m /\ methodOK (pt_method p) method = true /\ isClean epath = true /\
  exists bs, matchPath p (parsePath epath) = Some bs /\ b = list_to_map bs.
Proof.
  unfold dispatch. destruct (_ && _); [done|]. destruct (isClean epath) eqn:Hc; [|done]. cbn [negb].
  rewrite (isClean_eq _ Hc).
  destruct (best _) as [[[p' b'] h']|] eqn:E; [|by destruct (matchingMethods _ _)].
  intros [= <- <- <-]. apply find_some in E as [Hin _].
  unfold candidates in Hin. apply list_elem_of_omap in Hin as ([q hq] & Hq & Hm). simpl in *.
  destruct (methodOK (pt_method q) method) eqn:Hmo; [|done].
  destruct (matchPath q _) as [bs|] eqn:Hmp; [|done]. injection Hm as <- <- <-.
  split; [done|]. split; [done|]. split; [done|]. by exists bs.
Qed.

(** The best candidate: a matching pattern below every other match. *)
Lemma best_spec m method x p h bs :
  (p, h) ∈ m -> methodOK (pt_method p) method = true -> matchPath p x = Some bs ->
  (forall q hq bq, (q, hq) ∈ m -> methodOK (pt_method q) method = true -> matchPath q x = Some bq ->
     pat_le p q = true /\ (pat_le q p = true -> q = p /\ hq = h)) ->
  best (candidates m method x) = Some (p, bs, h).
Proof.
  intros Hin Hmo Hmp Hle.
  assert (Hcand : (p, bs, h) ∈ candidates m method x).
  { apply list_elem_of_omap. exists (p, h). simpl. by rewrite Hmo, Hmp. }
  assert (Hall : forall c, c ∈ candidates m method x ->
    pat_le p c.1.1 = true /\ (pat_le c.1.1 p = true -> c = (p, bs, h))).
  { intros [[q bq] hq] Hq. apply list_elem_of_omap in Hq as ([q' hq'] & Hq' & Hm). simpl in *.
    destruct (methodOK (pt_method q') method) eqn:E1; [|done].
    destruct (matchPath q' x) as [bq'|] eqn:E2; [|done]. injection Hm as -> <- ->.
    destruct (Hle _ _ _ Hq' E1 E2) as [H1 H2]. split; [done|].
    intros H3. destruct (H2 H3) as [-> ->]. rewrite Hmp in E2. by injection E2 as <-. }
  unfold best. set (cs := candidates m method x) in *.
  destruct (List.find _ cs) as [[[q bq] hq]|] eqn:E.
  - apply find_some in E as [Hq Hq2]. simpl in Hq2. rewrite forallb_forall in Hq2.
    specialize (Hq2 (p, bs, h)). rewrite <- list_elem_of_In in Hq2.
    apply (Hall (q, bq, hq)) in Hq. destruct Hq as [_ Hq]. by injection (Hq (Hq2 Hcand)) as -> -> ->.
  - exfalso. apply List.find_none with (x := (p, bs, h)) in E; [|by apply list_elem_of_In].
    apply not_true_iff_false in E. apply E, forallb_forall. intros c Hc'.
    apply list_elem_of_In in Hc'. by apply (Hall c Hc').
Qed.

Lemma dispatch_best m method epath p h bs :
  isClean epath = true -> pt_multi p = false ->
  best (candidates m method (parsePath epath)) = Some (p, bs, h) ->
  dispatch m method epath = Found p (list_to_map bs) h.
Proof.
  intros Hc Hmu Hb. unfold dispatch. rewrite (isClean_eq _ Hc), Hb, Hc. cbn [foundExact].
  unfold exactMatch. by rewrite Hmu.
Qed.

End Mux.

Example clean_examples :
  cleanPath "/a//b/./c/../d/" = "/a/b/d/" /\ cleanPath "" = "/" /\ isClean "/v1/echo" = true /\
  isClean "/v1//echo" = false /\ isClean "/" = true.
Proof. by vm_compute. Qed.
