(* ===== verification/Registry.v ===== *)
(** * The endpoint registry ([pkg/endpoints/registry.go])

    Endpoint groups, their route metadata, and the route resolution the audit middleware uses.
    The [any]-typed example shapes of the metadata are Go types: [gotype] describes the part of
    [reflect.Type] the OpenAPI generator looks at. *)
From S2P Require Import Prelude GoStrings GoNum GoUrl Json Http ServeMux.

(** ** Go types, as reflection sees them *)
Inductive gotype :=
| TBool | TInt | TFloat | TString | TTime | TAny
| TPtr (t : gotype)
| TSlice (t : gotype)
| TMap (key elem : gotype)
| TStruct (fields : list (string * string * gotype)).  (** name, [json] tag, type *)

(** ** Data *)

Record EndpointMeta := mkMeta {
  m_Name : string;
  m_Group : string;
  m_Method : string;
  m_Path : string;
  m_Description : string;
  m_AuthRequired : bool;
  m_PathParams : option gotype;
  m_QueryParams : option gotype;
  m_RequestBody : option gotype;
  m_ResponseBody : option gotype
}.

(** The interface [Endpoints]: a group's name, its route table and what it mounts. *)
Record Endpoints := mkGroup {
  g_Name : string;
  g_Routes : list EndpointMeta;
  g_Mount : list (string * EHandler)
}.

Record routeEntry := mkEntry { re_group : string; re_meta : EndpointMeta; re_segs : list string }.
Record Registry := mkRegistry { rg_groups : list Endpoints; rg_flat : list routeEntry }.

(** ** Path segments *)

Fixpoint dropEmpty (parts : list string) : list string :=
  match parts with
  | [] => []
  | seg :: rest => if String.eqb seg "" then dropEmpty rest else seg :: dropEmpty rest
  end.
Definition splitPathSegments (p : string) : list string :=
  if String.eqb p "" then [] else dropEmpty (Split p "/").

(** [len(p) >= 2 && p[0] == '{' && p[len(p)-1] == '}'] *)
Definition isWildcard (p : string) : bool :=
  (2 <=? len p) && HasPrefix p "{" && HasPrefix (sdrop (String.length p - 1) p) "}".

Fixpoint match_loop (ps rs : list string) : bool :=
  match ps, rs with
  | p :: ps', r :: rs' =>
    if isWildcard p then match_loop ps' rs'
    else if negb (String.eqb p r) then false
    else match_loop ps' rs'
  | _, _ => true
  end.
Definition matchSegments (patternSegs requestSegs : list string) : bool :=
  if negb (Nat.eqb (length patternSegs) (length requestSegs)) then false
  else match_loop patternSegs requestSegs.

(** ** Operations *)

Definition NewRegistry : Registry := mkRegistry [] [].

Definition Add (r : Registry) (g : Endpoints) : Registry :=
  mkRegistry (rg_groups r ++ [g])%list
    (rg_flat r ++ map (fun route => mkEntry (g_Name g) route (splitPathSegments (m_Path route))) (g_Routes g))%list.

Definition Groups (r : Registry) : list Endpoints := rg_groups r.

Fixpoint route_loop (flat : list routeEntry) (method : string) (reqSegs : list string) : string * string :=
  match flat with
  | [] => ("", "")
  | e :: rest =>
    if negb (String.eqb (m_Method (re_meta e)) method) then route_loop rest method reqSegs
    else if matchSegments (re_segs e) reqSegs then (re_group e, m_Name (re_meta e))
    else route_loop rest method reqSegs
  end.
Definition RouteForRequest (r : Registry) (method requestPath : string) : string * string :=
  route_loop (rg_flat r) method (splitPathSegments requestPath).

Definition All (r : Registry) : list EndpointMeta := mjoin (map g_Routes (rg_groups r)).

(** The patterns a registry puts on the mux, with the handler and the middleware's hook [mw]. *)
Definition Mount {H} (r : Registry) (mw : EHandler -> H) : list (pattern * H) :=
  map (fun ph => (parsePattern ph.1, mw ph.2)) (mjoin (map g_Mount (rg_groups r))).

(** ** Lemmas: segments *)

Lemma dropEmpty_filter l : dropEmpty l = filter (fun x => negb (String.eqb x "") = true) l.
Proof.
  induction l as [|s l IH]; [done|]. simpl. destruct (String.eqb_spec s "") as [->|Hne].
  - by rewrite filter_cons_False.
  - rewrite filter_cons_True by (by apply negb_true_iff, String.eqb_neq). by rewrite IH.
Qed.

Lemma splitPathSegments_segments p : splitPathSegments p = segments p.
Proof.
  unfold splitPathSegments, segments. destruct (String.eqb_spec p "") as [->|_]; [done|].
  apply dropEmpty_filter.
Qed.

Lemma route_loop_first flat method segs e :
  e ∈ flat -> m_Method (re_meta e) = method -> matchSegments (re_segs e) segs = true ->
  (forall e', e' ∈ flat -> m_Method (re_meta e') = method -> matchSegments (re_segs e') segs = true ->
     re_group e' = re_group e /\ m_Name (re_meta e') = m_Name (re_meta e)) ->
  route_loop flat method segs = (re_group e, m_Name (re_meta e)).
Proof.
  intros Hin Hm Hs Hu. induction flat as [|d flat IH]; [by apply not_elem_of_nil in Hin|].
  simpl. destruct (String.eqb_spec (m_Method (re_meta d)) method) as [Hd|Hd]; simpl.
  - destruct (matchSegments (re_segs d) segs) eqn:E.
    + destruct (Hu d) as [-> ->]; try done. left.
    + apply elem_of_cons in Hin as [->|Hin]; [congruence|]. apply IH; [done|]. intros. apply Hu; [by right|done..].
  - apply elem_of_cons in Hin as [->|Hin]; [congruence|]. apply IH; [done|]. intros. apply Hu; [by right|done..].
Qed.

Lemma route_loop_none flat method segs :
  (forall e, e ∈ flat -> m_Method (re_meta e) = method -> matchSegments (re_segs e) segs = false) ->
  route_loop flat method segs = ("", "").
Proof.
  intros Hn. induction flat as [|d flat IH]; [done|]. simpl.
  assert (IH' : route_loop flat method segs = ("", "")) by (apply IH; intros; apply Hn; [by right|done]).
  destruct (String.eqb_spec (m_Method (re_meta d)) method); simpl; [|done].
  by rewrite (Hn d) by (done || left).
Qed.

(** ** Ambiguity *)

(** Two segment patterns that some request satisfies both. *)
Fixpoint overlap (ps qs : list string) : bool :=
  match ps, qs with
  | [], [] => true
  | p :: ps', q :: qs' => (isWildcard p || isWildcard q || String.eqb p q) && overlap ps' qs'
  | _, _ => false
  end.

Lemma matchSegments_cons p ps r rs :
  matchSegments (p :: ps) (r :: rs) = (isWildcard p || String.eqb p r) && matchSegments ps rs.
Proof.
  unfold matchSegments. simpl. destruct (Nat.eqb (length ps) (length rs)); simpl; [|by rewrite andb_false_r].
  destruct (isWildcard p); [done|]. by destruct (String.eqb p r).
Qed.

Lemma match_overlap ps qs rs :
  matchSegments ps rs = true -> matchSegments qs rs = true -> overlap ps qs = true.
Proof.
  revert qs rs. induction ps as [|p ps IH]; intros [|q qs] [|r rs]; try done.
  rewrite !matchSegments_cons. simpl.
  intros [Hp Hps]%andb_true_iff [Hq Hqs]%andb_true_iff.
  rewrite (IH qs rs Hps Hqs), andb_true_r.
  destruct (isWildcard p); [done|]. destruct (isWildcard q); [done|]. simpl in *.
  bools. subst. apply String.eqb_refl.
Qed.

(** No two routes of the table share a method and a request. *)
Fixpoint unambiguous (flat : list routeEntry) : bool :=
  match flat with
  | [] => true
  | e :: rest =>
    forallb (fun d => negb (String.eqb (m_Method (re_meta e)) (m_Method (re_meta d))
                            && overlap (re_segs e) (re_segs d))) rest
    && unambiguous rest
  end.

Lemma overlap_sym ps qs : overlap ps qs = overlap qs ps.
Proof.
  revert qs. induction ps as [|p ps IH]; intros [|q qs]; simpl; try done.
  rewrite IH. f_equal. rewrite (String.eqb_sym q p). by destruct (isWildcard p), (isWildcard q).
Qed.

Lemma unambiguous_unique flat segs e d :
  unambiguous flat = true -> e ∈ flat -> d ∈ flat ->
  m_Method (re_meta e) = m_Method (re_meta d) ->
  matchSegments (re_segs e) segs = true -> matchSegments (re_segs d) segs = true -> e = d.
Proof.
  intros Hu He Hd Hm H1 H2. induction flat as [|x flat IH]; [by apply not_elem_of_nil in He|].
  simpl in Hu. bools. rewrite forallb_forall in H.
  assert (Hx : forall y, y ∈ flat -> m_Method (re_meta x) = m_Method (re_meta y) ->
     matchSegments (re_segs x) segs = true -> matchSegments (re_segs y) segs = true -> False).
  { intros y Hy Hxy H3 H4. specialize (H y). rewrite <- list_elem_of_In in H. specialize (H Hy).
    rewrite Hxy, String.eqb_refl, (match_overlap _ _ _ H3 H4) in H. done. }
  apply elem_of_cons in He as [->|He]; apply elem_of_cons in Hd as [->|Hd]; try done.
  - by destruct (Hx d).
  - by destruct (Hx e).
  - by apply IH.
Qed.

(** Route resolution in an unambiguous table: the matching route, whatever its position. *)
Lemma RouteForRequest_unambiguous r method p e :
  unambiguous (rg_flat r) = true -> e ∈ rg_flat r ->
  m_Method (re_meta e) = method -> matchSegments (re_segs e) (splitPathSegments p) = true ->
  RouteForRequest r method p = (re_group e, m_Name (re_meta e)).
Proof.
  intros Hu He Hm Hs. apply route_loop_first; try done.
  intros d Hd Hdm Hds. 
  assert (d = e) as -> by (apply (unambiguous_unique (rg_flat r) (splitPathSegments p)); congruence). done.
Qed.

(** ** Instances of a route *)

(** Put values in place of the wildcards, in order. *)
Fixpoint instance (ps : list string) (vs : list string) : option (list string) :=
  match ps with
  | [] => match vs with [] => Some [] | _ => None end
  | p :: ps' =>
    if isWildcard p then match vs with v :: vs' => cons v <$> instance ps' vs' | [] => None end
    else cons p <$> instance ps' vs
  end.

Lemma instance_match ps vs rs : instance ps vs = Some rs -> matchSegments ps rs = true.
Proof.
  revert vs rs. induction ps as [|p ps IH]; intros vs rs; simpl.
  - destruct vs; [|done]. by intros [= <-].
  - destruct (isWildcard p) eqn:Ew.
    + destruct vs as [|v vs]; [done|]. destruct (instance ps vs) as [l|] eqn:E; [|done].
      intros [= <-]. rewrite matchSegments_cons, Ew. simpl. by apply IH in E.
    + destruct (instance ps vs) as [l|] eqn:E; [|done]. intros [= <-].
      rewrite matchSegments_cons, Ew, String.eqb_refl. simpl. by apply IH in E.
Qed.

(** Join the segments of a request path. *)
Fixpoint join_path (segs : list string) : string :=
  match segs with [] => "" | s :: rest => "/" ++ s ++ join_path rest end.

Lemma Split_join_path segs :
  Forall (fun s => ContainsByte s "/" = false) segs -> segs <> [] ->
  Split (join_path segs) "/" = "" :: segs.
Proof.
  intros Hs Hne. destruct segs as [|s segs]; [done|]. clear Hne.
  inversion Hs as [|? ? H1 H2]; subst. clear Hs. simpl. f_equal. revert s H1.
  induction H2 as [|t segs Ht Hs IH]; intros s H1; simpl.
  - rewrite sapp_nil_r. by apply Split_absent.
  - rewrite Split_app by done. by rewrite IH.
Qed.

Lemma splitPathSegments_join segs :
  Forall (fun s => ContainsByte s "/" = false /\ s <> "") segs ->
  splitPathSegments (join_path segs) = segs.
Proof.
  intros Hs. destruct segs as [|s segs]; [done|].
  unfold splitPathSegments. replace (String.eqb (join_path (s :: segs)) "") with false by done.
  rewrite Split_join_path; [|by eapply Forall_impl; [exact Hs|naive_solver]|done].
  rewrite dropEmpty_filter, filter_cons_False by done.
  induction Hs as [|t l [_ Ht] Hl IH]; [done|].
  rewrite filter_cons_True by (by apply negb_true_iff, String.eqb_neq). by rewrite IH.
Qed.
