(* ===== verification/Pagination.v ===== *)
(** * The pagination endpoint group ([pkg/endpoints/pagination])

    The three handlers [link], [odata] and [cursor] over the shared synthetic dataset.  Each handler
    is a validation part that ends in a response value or in the message of a 400, followed by one
    JSON reply, exactly as the Go handlers are laid out. *)
From S2P Require Import Prelude GoStrings GoNum Sha256 GoUrl Json Http ServeMux Registry.

Definition defaultTotal : Z := 100.
Definition defaultPageSize : Z := 10.
Definition maxTotal : Z := 10000.
Definition maxPageSize : Z := 1000.

(** ** Data *)

Record Item := mkItem { ID : Z; Value : string }.

(** A Go slice of items: [None] is the nil slice, which encodes as [null]. *)
Abbreviation Items := (option (list Item)).

Record LinkResponse := mkLinkResponse {
  l_Items : Items; l_Page : Z; l_PerPage : Z; l_Total : Z }.
Record ODataResponse := mkODataResponse {
  o_Value : Items; o_Count : Z; o_NextLink : string }.
Record CursorResponse := mkCursorResponse {
  c_Items : Items; c_NextCursor : string }.

(** ** The dataset *)

Definition deterministicValue (id : Z) : string :=
  hex_EncodeToString (stake 8 (sha256 (Itoa id))).

(** [for i := start; i < stop; i++] *)
Definition int_range (start stop : Z) : list Z :=
  map (fun i => start + Z.of_nat i) (seq 0 (Z.to_nat (stop - start))).

Definition sliceItems (start pageSize total : Z) : Items :=
  if total <=? start then None
  else
    let end0 := wrap64 (start + pageSize) in
    let end_ := if total <? end0 then total else end0 in
    Some (map (fun i => mkItem i (deterministicValue i)) (int_range start end_)).

Definition lastPageFor (total perPage : Z) : Z :=
  if total <=? 0 then 1 else Z.quot (wrap64 (wrap64 (total + perPage) - 1)) perPage.

(** ** Parameter parsing *)

Definition positiveDefault (raw : string) (def : Z) : res string Z :=
  if String.eqb raw "" then Ok def
  else let '(n, err) := Atoi raw in
       if bool_decide (err <> None) || (n <? 1) then Err "must be a positive integer" else Ok n.

Definition nonNegativeDefault (raw : string) (def : Z) : res string Z :=
  if String.eqb raw "" then Ok def
  else let '(n, err) := Atoi raw in
       if bool_decide (err <> None) || (n <? 0) then Err "must be a non-negative integer" else Ok n.

Definition boundedDefault (raw : string) (def upper : Z) (name : string) : res string Z :=
  if String.eqb raw "" then Ok def
  else let '(n, err) := Atoi raw in
       if bool_decide (err <> None) || (n <? 1) then Err (name ++ " must be a positive integer")
       else if upper <? n then Err (name ++ " " ++ Itoa n ++ " exceeds max " ++ Itoa upper)
       else Ok n.

(** ** Cursors *)

Definition encodeCursor (offset : Z) : string := RawURLEncoding_EncodeToString (Itoa offset).

Inductive cursor_error := BadBase64 | BadInteger | Negative.

Definition decodeCursor (s : string) : res cursor_error Z :=
  match RawURLEncoding_DecodeString s with
  | None => Err BadBase64
  | Some raw =>
    let '(n, err) := Atoi raw in
    if bool_decide (err <> None) then Err BadInteger
    else if n <? 0 then Err Negative
    else Ok n
  end.

(** ** URLs *)

Definition requestBaseURL (r : Request) : string :=
  (if r_TLS r then "https" else "http") ++ "://" ++ r_Host r ++ r_Path r.

Section Handlers.
Context `{UnicodeTables}.

Definition linkHeader (base rel : string) (page perPage total : Z) : string :=
  "<" ++ base ++ "?page=" ++ Itoa page ++ "&per_page=" ++ Itoa perPage ++ "&total=" ++ Itoa total
  ++ ">; rel=" ++ Quote rel.

(** ** The RFC 5988 Link style *)

(** The value of the Link header and the body, or the message of the 400. *)
Definition link_result (r : Request) : res string (string * LinkResponse) :=
  match positiveDefault (q_Get r "page") 1 with
  | Err _ => Err "page must be a positive integer"
  | Ok page =>
    perPage ← boundedDefault (q_Get r "per_page") defaultPageSize maxPageSize "per_page";
    total ← boundedDefault (q_Get r "total") defaultTotal maxTotal "total";
    let lastPage := lastPageFor total perPage in
    if lastPage <? page then
      Err ("page " ++ Itoa page ++ " is past end of dataset (total=" ++ Itoa total ++ ", per_page="
           ++ Itoa perPage ++ ", last_page=" ++ Itoa lastPage ++ ")")
    else
      let start := wrap64 (wrap64 (page - 1) * perPage) in
      let items := sliceItems start perPage total in
      let base := requestBaseURL r in
      let parts :=
        ([linkHeader base "first" 1 perPage total; linkHeader base "last" lastPage perPage total]
         ++ (if 1 <? page then [linkHeader base "prev" (page - 1) perPage total] else [])
         ++ (if page <? lastPage then [linkHeader base "next" (page + 1) perPage total] else []))%list
      in
      Ok (Join parts ", ", mkLinkResponse items page perPage total)
  end.

Definition json_item (i : Item) : json := JObj [("id", JInt (ID i)); ("value", JStr (Value i))].
Definition json_items (l : Items) : json :=
  match l with None => JNull | Some l => JArr (map json_item l) end.

Definition json_link (x : LinkResponse) : json :=
  JObj [("items", json_items (l_Items x)); ("page", JInt (l_Page x));
        ("per_page", JInt (l_PerPage x)); ("total", JInt (l_Total x))].

Definition link (r : Request) : list wop :=
  match link_result r with
  | Err msg => writeBadRequest msg
  | Ok (hdr, resp) => HSet "Link" hdr :: writeJSON 200 (json_link resp)
  end.

End Handlers.

(** ** The OData v4 style *)

Definition odata_result (r : Request) : res string ODataResponse :=
  top ← boundedDefault (q_Get r "$top") defaultPageSize maxPageSize "$top";
  match nonNegativeDefault (q_Get r "$skip") 0 with
  | Err _ => Err "$skip must be a non-negative integer"
  | Ok skip =>
    total ← boundedDefault (q_Get r "total") defaultTotal maxTotal "total";
    if total <=? skip then
      Err ("$skip " ++ Itoa skip ++ " is past end of dataset (total=" ++ Itoa total ++ ")")
    else
      let items := sliceItems skip top total in
      let next := wrap64 (skip + top) in
      Ok (mkODataResponse items total
            (if next <? total then
               requestBaseURL r ++ "?$top=" ++ Itoa top ++ "&$skip=" ++ Itoa next
               ++ "&total=" ++ Itoa total
             else ""))
  end.

Definition json_odata (x : ODataResponse) : json :=
  JObj ([("value", json_items (o_Value x)); ("@odata.count", JInt (o_Count x))]
        ++ omit_str "@odata.nextLink" (o_NextLink x))%list.

Definition odata (r : Request) : list wop :=
  match odata_result r with
  | Err msg => writeBadRequest msg
  | Ok resp => writeJSON 200 (json_odata resp)
  end.

(** ** The opaque-cursor style *)

Definition cursor_result (r : Request) : res string CursorResponse :=
  limit ← boundedDefault (q_Get r "limit") defaultPageSize maxPageSize "limit";
  total ← boundedDefault (q_Get r "total") defaultTotal maxTotal "total";
  let c := q_Get r "cursor" in
  offset ← (if String.eqb c "" then Ok 0
            else match decodeCursor c with
                 | Err _ => Err "cursor is malformed"
                 | Ok n => Ok n
                 end);
  if total <=? offset then
    Err ("cursor offset " ++ Itoa offset ++ " is past end of dataset (total=" ++ Itoa total ++ ")")
  else
    let items := sliceItems offset limit total in
    let next := wrap64 (offset + limit) in
    Ok (mkCursorResponse items (if next <? total then encodeCursor next else "")).

Definition json_cursor (x : CursorResponse) : json :=
  JObj ([("items", json_items (c_Items x))] ++ omit_str "next_cursor" (c_NextCursor x))%list.

Definition cursor (r : Request) : list wop :=
  match cursor_result r with
  | Err msg => writeBadRequest msg
  | Ok resp => writeJSON 200 (json_cursor resp)
  end.

(** ** Routes *)

Definition groupName : string := "pagination".

Definition ItemT : gotype := TStruct [("ID", "id", TInt); ("Value", "value", TString)].
Definition LinkQueryT : gotype :=
  TPtr (TStruct [("Page", "page,omitempty", TInt); ("PerPage", "per_page,omitempty", TInt);
                 ("Total", "total,omitempty", TInt)]).
Definition LinkResponseT : gotype :=
  TPtr (TStruct [("Items", "items", TSlice ItemT); ("Page", "page", TInt); ("PerPage", "per_page", TInt);
                 ("Total", "total", TInt)]).
Definition ODataQueryT : gotype :=
  TPtr (TStruct [("Top", "$top,omitempty", TInt); ("Skip", "$skip,omitempty", TInt);
                 ("Total", "total,omitempty", TInt)]).
Definition ODataResponseT : gotype :=
  TPtr (TStruct [("Value", "value", TSlice ItemT); ("Count", "@odata.count", TInt);
                 ("NextLink", "@odata.nextLink,omitempty", TString)]).
Definition CursorQueryT : gotype :=
  TPtr (TStruct [("Cursor", "cursor,omitempty", TString); ("Limit", "limit,omitempty", TInt);
                 ("Total", "total,omitempty", TInt)]).
Definition CursorResponseT : gotype :=
  TPtr (TStruct [("Items", "items", TSlice ItemT); ("NextCursor", "next_cursor,omitempty", TString)]).

Definition Routes : list EndpointMeta :=
  [mkMeta "pagination_link" groupName "GET" "/v1/pagination/link"
     "Paginate via RFC 5988 Link header (rel=next/prev/first/last). Verify the gateway preserves Link header URLs through proxying."
     false None (Some LinkQueryT) None (Some LinkResponseT);
   mkMeta "pagination_odata" groupName "GET" "/v1/pagination/odata"
     "Paginate via OData v4 $top / $skip with @odata.nextLink in the body. Verify the gateway preserves the nextLink URL."
     false None (Some ODataQueryT) None (Some ODataResponseT);
   mkMeta "pagination_cursor" groupName "GET" "/v1/pagination/cursor"
     "Paginate via opaque base64 cursor. Verify the gateway round-trips the cursor value without interpretation."
     false None (Some CursorQueryT) None (Some CursorResponseT)].

Definition Mount `{UnicodeTables} : list (string * EHandler) :=
  [("GET /v1/pagination/link", replies link);
   ("GET /v1/pagination/odata", replies odata);
   ("GET /v1/pagination/cursor", replies cursor)].

Definition Group `{UnicodeTables} : Endpoints := mkGroup groupName Routes Mount.

(** ** Specification: windows of the dataset *)

Definition item (i : Z) : Item := mkItem i (deterministicValue i).
(** The items whose index is in [[lo, hi)]. *)
Definition window (lo hi : Z) : list Item := map item (int_range lo hi).
Definition dataset (total : Z) : list Item := window 0 total.

(** A client that keeps the request and replaces its query string. *)
Definition with_query (r : Request) (q : string) : Request :=
  mkRequest (r_Method r) (r_Path r) (r_EscapedPath r) q (r_Header r) (r_Host r) (r_TLS r)
            (r_RemoteAddr r) (r_Body r) (r_PathValue r) (r_Cookies r) (r_Context r).
(** The query string of a URL the server printed. *)
Definition link_query (url : string) : string := (Cut url "?").1.2.

Definition odata_query (top skip total : Z) : string :=
  query_of [("$top", Itoa top); ("$skip", Itoa skip); ("total", Itoa total)].
Definition cursor_query (c : string) (limit total : Z) : string :=
  query_of [("cursor", c); ("limit", Itoa limit); ("total", Itoa total)].
Definition page_query (page perPage total : Z) : string :=
  query_of [("page", Itoa page); ("per_page", Itoa perPage); ("total", Itoa total)].

(** A client that follows [@odata.nextLink] until it is absent, collecting the items. *)
Fixpoint odata_walk (fuel : nat) (r : Request) : option (list Item) :=
  match fuel with
  | O => None
  | S f =>
    match odata_result r with
    | Err _ => None
    | Ok resp =>
      let items := default [] (o_Value resp) in
      if String.eqb (o_NextLink resp) "" then Some items
      else app items <$> odata_walk f (with_query r (link_query (o_NextLink resp)))
    end
  end.

(** A client that passes [next_cursor] back until it is absent. *)
Fixpoint cursor_walk (fuel : nat) (r : Request) (limit total : Z) (c : string) : option (list Item) :=
  match fuel with
  | O => None
  | S f =>
    match cursor_result (with_query r (cursor_query c limit total)) with
    | Err _ => None
    | Ok resp =>
      let items := default [] (c_Items resp) in
      if String.eqb (c_NextCursor resp) "" then Some items
      else app items <$> cursor_walk f r limit total (c_NextCursor resp)
    end
  end.

(** A client that asks for pages 1, 2, ..., n of the Link style. *)
Definition link_pages `{UnicodeTables} (r : Request) (n perPage total : Z) : list Item :=
  mjoin (map (fun p => match link_result (with_query r (page_query p perPage total)) with
                       | Ok (_, resp) => default [] (l_Items resp)
                       | Err _ => []
                       end) (int_range 1 (n + 1))).

(** ** Lemmas: ranges and windows *)

Lemma int_range_empty lo hi : hi <= lo -> int_range lo hi = [].
Proof. intros. unfold int_range. by replace (Z.to_nat (hi - lo)) with 0%nat by lia. Qed.

Lemma int_range_app lo mid hi :
  lo <= mid <= hi -> int_range lo hi = (int_range lo mid ++ int_range mid hi)%list.
Proof.
  intros. unfold int_range.
  replace (Z.to_nat (hi - lo)) with (Z.to_nat (mid - lo) + Z.to_nat (hi - mid))%nat by lia.
  rewrite seq_app, map_app, Nat.add_comm, <- fmap_add_seq. f_equal.
  change (Nat.add ?a <$> ?l) with (map (Nat.add a) l). rewrite map_map. apply map_ext. intros. lia.
Qed.

Lemma int_range_snoc lo hi : lo <= hi -> int_range lo (hi + 1) = (int_range lo hi ++ [hi])%list.
Proof.
  intros. rewrite (int_range_app lo hi) by lia. f_equal. unfold int_range.
  replace (Z.to_nat (hi + 1 - hi)) with 1%nat by lia. simpl. f_equal. lia.
Qed.

Lemma int_range_length lo hi : length (int_range lo hi) = Z.to_nat (hi - lo).
Proof. unfold int_range. by rewrite length_map, length_seq. Qed.

Lemma window_app lo mid hi : lo <= mid <= hi -> window lo hi = (window lo mid ++ window mid hi)%list.
Proof. intros. unfold window. rewrite (int_range_app lo mid hi) by lia. apply map_app. Qed.

Lemma window_length lo hi : length (window lo hi) = Z.to_nat (hi - lo).
Proof. unfold window. by rewrite length_map, int_range_length. Qed.

Lemma sliceItems_window start pageSize total :
  0 <= start < total -> 1 <= pageSize <= maxPageSize -> total <= maxTotal ->
  sliceItems start pageSize total = Some (window start (Z.min total (start + pageSize))).
Proof.
  unfold maxPageSize, maxTotal. intros. unfold sliceItems. case_if; [lia|].
  rewrite wrap64_id by (unfold in64, minInt, maxInt; lia). cbv zeta. f_equal.
  change (map _ _) with (window start
    (if total <? start + pageSize then total else start + pageSize)).
  f_equal. case_if; lia.
Qed.

(** ** Lemmas: parameters *)

Lemma boundedDefault_bounds raw def upper name n :
  1 <= def <= upper -> boundedDefault raw def upper name = Ok n -> 1 <= n <= upper.
Proof.
  intros Hd. unfold boundedDefault. case_if; [by intros [= <-]|].
  destruct (Atoi raw) as [v err]. case_if; [done|]. case_if; [done|]. intros [= <-]. bools. lia.
Qed.

Lemma positiveDefault_bounds raw def n :
  1 <= def <= maxInt -> positiveDefault raw def = Ok n -> 1 <= n <= maxInt.
Proof.
  intros Hd. unfold positiveDefault. case_if; [by intros [= <-]|].
  pose proof (Atoi_range raw) as Hr. destruct (Atoi raw) as [v err]. case_if; [done|].
  intros [= <-]. bools. unfold in64 in Hr. simpl in Hr. lia.
Qed.

Lemma nonNegativeDefault_bounds raw def n :
  0 <= def -> nonNegativeDefault raw def = Ok n -> 0 <= n.
Proof.
  intros Hd. unfold nonNegativeDefault. case_if; [by intros [= <-]|].
  destruct (Atoi raw) as [v err]. case_if; [done|]. intros [= <-]. bools. lia.
Qed.

Lemma Itoa_eqb_empty n : String.eqb (Itoa n) "" = false.
Proof. apply String.eqb_neq, Itoa_nonempty. Qed.

Lemma boundedDefault_Itoa n def upper name :
  1 <= n <= upper -> upper <= maxInt -> boundedDefault (Itoa n) def upper name = Ok n.
Proof.
  intros. unfold boundedDefault. rewrite Itoa_eqb_empty, Atoi_Itoa
    by (unfold in64, minInt, maxInt in *; lia).
  simpl. case_if; [lia|]. by case_if; [lia|].
Qed.

Lemma nonNegativeDefault_Itoa n def :
  0 <= n <= maxInt -> nonNegativeDefault (Itoa n) def = Ok n.
Proof.
  intros. unfold nonNegativeDefault. rewrite Itoa_eqb_empty, Atoi_Itoa
    by (unfold in64, minInt, maxInt in *; lia).
  simpl. by case_if; [lia|].
Qed.

Lemma positiveDefault_Itoa n def :
  1 <= n <= maxInt -> positiveDefault (Itoa n) def = Ok n.
Proof.
  intros. unfold positiveDefault. rewrite Itoa_eqb_empty, Atoi_Itoa
    by (unfold in64, minInt, maxInt in *; lia).
  simpl. by case_if; [lia|].
Qed.

Lemma q_Get_with_query r ps k :
  ps <> [] -> Forall (fun p => plain p.1 = true /\ plain p.2 = true) ps ->
  q_Get (with_query r (query_of ps)) k = default "" (assoc k ps).
Proof. apply Get_query_of. Qed.

Lemma encodeCursor_plain n : plain (encodeCursor n) = true.
Proof. apply base64_encode_chars. by vm_compute. Qed.

Lemma encodeCursor_nonempty n : encodeCursor n <> "".
Proof. apply base64_encode_nonempty, Itoa_nonempty. Qed.

Lemma decode_encode_cursor n : 0 <= n <= maxInt -> decodeCursor (encodeCursor n) = Ok n.
Proof.
  intros. unfold decodeCursor, encodeCursor. rewrite RawURL_roundtrip, Atoi_Itoa
    by (unfold in64, minInt, maxInt in *; lia).
  simpl. by case_if; [lia|].
Qed.

(** Discharge the side conditions of [q_Get_with_query] on printed numbers. *)
Ltac plain_params :=
  repeat (apply Forall_cons; split; [split; [done|] | ]); try done; cbn [snd];
  try (apply alpha_plain_Itoa; lia); try (apply encodeCursor_plain).

Lemma q_odata r top skip total : 0 <= top -> 0 <= skip -> 0 <= total ->
  let r' := with_query r (odata_query top skip total) in
  q_Get r' "$top" = Itoa top /\ q_Get r' "$skip" = Itoa skip /\ q_Get r' "total" = Itoa total.
Proof.
  intros. subst r'. unfold odata_query.
  repeat split; (rewrite q_Get_with_query; [done|done|plain_params]).
Qed.

Lemma q_cursor r c limit total : plain c = true -> 0 <= limit -> 0 <= total ->
  let r' := with_query r (cursor_query c limit total) in
  q_Get r' "cursor" = c /\ q_Get r' "limit" = Itoa limit /\ q_Get r' "total" = Itoa total.
Proof.
  intros. subst r'. unfold cursor_query.
  repeat split; (rewrite q_Get_with_query; [done|done|plain_params]).
Qed.

Lemma q_page r page perPage total : 0 <= page -> 0 <= perPage -> 0 <= total ->
  let r' := with_query r (page_query page perPage total) in
  q_Get r' "page" = Itoa page /\ q_Get r' "per_page" = Itoa perPage /\ q_Get r' "total" = Itoa total.
Proof.
  intros. subst r'. unfold page_query.
  repeat split; (rewrite q_Get_with_query; [done|done|plain_params]).
Qed.

(** ** The OData walk *)

Lemma odata_at r top skip total :
  1 <= top <= maxPageSize -> 0 <= skip < total -> total <= maxTotal ->
  odata_result (with_query r (odata_query top skip total)) =
  Ok (mkODataResponse (Some (window skip (Z.min total (skip + top)))) total
        (if skip + top <? total
         then requestBaseURL r ++ String "?" (odata_query top (skip + top) total) else "")).
Proof.
  unfold maxPageSize, maxTotal. intros. unfold odata_result.
  destruct (q_odata r top skip total) as (-> & -> & ->); [lia..|].
  rewrite !boundedDefault_Itoa by (unfold maxPageSize, maxTotal, maxInt; lia). cbn [mbind res_bind].
  rewrite nonNegativeDefault_Itoa by (unfold maxInt; lia). case_if; [lia|].
  rewrite wrap64_id by (unfold in64, minInt, maxInt; lia).
  rewrite sliceItems_window by (unfold maxPageSize, maxTotal; lia). cbv zeta. do 2 f_equal.
Qed.

Lemma link_query_of base q : ContainsByte base "?" = false -> link_query (base ++ String "?" q) = q.
Proof. intros. unfold link_query. by rewrite Cut_found. Qed.

Lemma with_query_with_query r q q' : with_query (with_query r q) q' = with_query r q'.
Proof. done. Qed.

Lemma odata_walk_from fuel r top skip total :
  ContainsByte (requestBaseURL r) "?" = false ->
  1 <= top <= maxPageSize -> 0 <= skip < total -> total <= maxTotal ->
  total - skip <= Z.of_nat fuel ->
  odata_walk fuel (with_query r (odata_query top skip total)) = Some (window skip total).
Proof.
  intros Hb Htop. revert skip. induction fuel as [|f IH]; intros skip Hskip Htot Hf; [lia|].
  cbn [odata_walk]. rewrite odata_at by done. cbn [o_Value o_NextLink default].
  destruct (skip + top <? total) eqn:E; bools.
  - assert (String.eqb (requestBaseURL r ++ String "?" (odata_query top (skip + top) total)) "" = false)
      as -> by (apply String.eqb_neq; by destruct (requestBaseURL r)).
    rewrite link_query_of, with_query_with_query by done.
    rewrite IH by lia. simpl. f_equal. symmetry. rewrite Z.min_r by lia. apply window_app. lia.
  - simpl. by rewrite Z.min_l by lia.
Qed.

(** C39: OData pagination is complete and exact.  A client that starts at [$skip=0] and follows
    [@odata.nextLink] as printed by the server (the query string is parsed by the server's own URL
    parser) until it is absent, in at most [total] requests, receives every item of the dataset
    exactly once and in order, whatever valid page size it asked for. *)
Theorem odata_walk_complete (r : Request) (top total : Z)
  (Hbase : ContainsByte (requestBaseURL r) "?" = false)
  (Htop : 1 <= top <= maxPageSize) (Htotal : 1 <= total <= maxTotal) :
  odata_walk (Z.to_nat total) (with_query r (odata_query top 0 total)) = Some (dataset total).
Proof. apply odata_walk_from; try done; lia. Qed.

(** ** The cursor walk *)

(** The request parameter and the offset it stands for. *)
Definition cursor_means (c : string) (offset : Z) : Prop :=
  c = "" /\ offset = 0 \/ c = encodeCursor offset.

Lemma cursor_at r c limit offset total :
  cursor_means c offset ->
  1 <= limit <= maxPageSize -> 0 <= offset < total -> total <= maxTotal ->
  cursor_result (with_query r (cursor_query c limit total)) =
  Ok (mkCursorResponse (Some (window offset (Z.min total (offset + limit))))
        (if offset + limit <? total then encodeCursor (offset + limit) else "")).
Proof.
  unfold maxPageSize, maxTotal. intros Hc ? ? ?. unfold cursor_result.
  assert (plain c = true) by (destruct Hc as [[-> _]| ->]; [done|apply encodeCursor_plain]).
  destruct (q_cursor r c limit total) as (-> & -> & ->); [done|lia..|].
  rewrite !boundedDefault_Itoa by (unfold maxPageSize, maxTotal, maxInt; lia). cbn [mbind res_bind]. cbv zeta.
  assert ((if String.eqb c "" then Ok 0 else
           match decodeCursor c with Err _ => Err "cursor is malformed" | Ok n => Ok n end)
          = Ok (E := string) offset) as ->.
  { destruct Hc as [[-> ->]| ->]; [done|].
    rewrite decode_encode_cursor by (unfold maxInt; lia).
    by destruct (String.eqb_spec (encodeCursor offset) "") as [?%encodeCursor_nonempty|]. }
  cbn [mbind res_bind]. case_if; [lia|].
  rewrite wrap64_id by (unfold in64, minInt, maxInt; lia).
  by rewrite sliceItems_window by (unfold maxPageSize, maxTotal; lia).
Qed.

Lemma cursor_walk_from fuel r limit c offset total :
  cursor_means c offset ->
  1 <= limit <= maxPageSize -> 0 <= offset < total -> total <= maxTotal ->
  total - offset <= Z.of_nat fuel ->
  cursor_walk fuel r limit total c = Some (window offset total).
Proof.
  intros Hc Hl. revert c offset Hc. induction fuel as [|f IH]; intros c offset Hc Ho Htot Hf; [lia|].
  cbn [cursor_walk]. rewrite (cursor_at r c limit offset) by done. cbn [c_Items c_NextCursor default].
  destruct (offset + limit <? total) eqn:E; bools.
  - assert (String.eqb (encodeCursor (offset + limit)) "" = false) as ->
      by apply String.eqb_neq, encodeCursor_nonempty.
    rewrite (IH _ (offset + limit)) by (lia || by right). simpl. f_equal. symmetry.
    rewrite Z.min_r by lia. apply window_app. lia.
  - simpl. by rewrite Z.min_l by lia.
Qed.

(** Cursor pagination is complete and exact.  A client that starts without a cursor and passes
    [next_cursor] back until it is absent, in at most [total] requests, receives every item of the
    dataset exactly once and in order. *)
Theorem cursor_walk_complete (r : Request) (limit total : Z)
  (Hlimit : 1 <= limit <= maxPageSize) (Htotal : 1 <= total <= maxTotal) :
  cursor_walk (Z.to_nat total) r limit total "" = Some (dataset total).
Proof. apply cursor_walk_from; try done; try lia. by left. Qed.

(** [decodeCursor] inverts [encodeCursor] on every offset Go's [int] can hold, and refuses the
    cursor of a negative offset. *)
Theorem cursor_roundtrip (n : Z) (Hn : in64 n) :
  decodeCursor (encodeCursor n) = if n <? 0 then Err Negative else Ok n.
Proof.
  case_if.
  - unfold decodeCursor, encodeCursor. rewrite RawURL_roundtrip, Atoi_Itoa by done. simpl.
    by case_if; [|lia].
  - unfold in64 in Hn. apply decode_encode_cursor. lia.
Qed.

(** ** The Link style *)

Lemma lastPageFor_bounds total perPage :
  1 <= perPage <= maxPageSize -> 1 <= total <= maxTotal ->
  let n := lastPageFor total perPage in
  1 <= n /\ (n - 1) * perPage < total <= n * perPage.
Proof.
  unfold maxPageSize, maxTotal. intros. unfold lastPageFor. case_if; [lia|].
  rewrite !wrap64_id by (rewrite ?wrap64_id; unfold in64, minInt, maxInt; lia).
  rewrite Z.quot_div_nonneg by lia. cbv zeta.
  pose proof (Z.div_mod (total + perPage - 1) perPage ltac:(lia)).
  pose proof (Z.mod_pos_bound (total + perPage - 1) perPage ltac:(lia)). nia.
Qed.

Section LinkStyle.
Context `{UnicodeTables}.

(** Whatever the raw parameters are, an accepted request is for a page of the dataset: the offset
    computation stays inside the dataset (no wrap-around) and the page is that window. *)
Lemma link_accepted r hdr resp :
  link_result r = Ok (hdr, resp) ->
  let p := l_Page resp in let n := l_PerPage resp in let t := l_Total resp in
  1 <= n <= maxPageSize /\ 1 <= t <= maxTotal /\ 1 <= p <= lastPageFor t n /\
  0 <= (p - 1) * n < t /\ l_Items resp = Some (window ((p - 1) * n) (Z.min t (p * n))).
Proof.
  unfold link_result.
  destruct (positiveDefault _ 1) as [p|] eqn:Ep; [|done].
  destruct (boundedDefault _ _ _ "per_page") as [n|] eqn:En; [|done].
  destruct (boundedDefault _ _ _ "total") as [t|] eqn:Et; [|done]. cbn [mbind res_bind].
  apply positiveDefault_bounds in Ep; [|unfold maxInt; lia].
  apply boundedDefault_bounds in En; [|unfold defaultPageSize, maxPageSize; lia].
  apply boundedDefault_bounds in Et; [|unfold defaultTotal, maxTotal; lia].
  destruct (lastPageFor_bounds t n En Et) as [Hl1 Hl2].
  case_if; [done|]. intros [= _ <-]. cbn [l_Page l_PerPage l_Total l_Items].
  assert (Hs : 0 <= (p - 1) * n < t) by nia.
  unfold maxPageSize, maxTotal in *.
  rewrite !wrap64_id by (rewrite ?wrap64_id; unfold in64, minInt, maxInt; lia).
  rewrite sliceItems_window by (unfold maxPageSize, maxTotal; lia).
  repeat split; try lia. do 2 f_equal. lia.
Qed.

Lemma linkHeader_page_query base rel page perPage total :
  linkHeader base rel page perPage total =
  "<" ++ (base ++ String "?" (page_query page perPage total)) ++ ">; rel=" ++ Quote rel.
Proof.
  unfold linkHeader, page_query, query_of, kv. cbn [map Join fst snd].
  by sapp_norm.
Qed.

Lemma link_at r page perPage total :
  1 <= perPage <= maxPageSize -> 1 <= total <= maxTotal -> 1 <= page <= lastPageFor total perPage ->
  exists hdr, link_result (with_query r (page_query page perPage total)) =
    Ok (hdr, mkLinkResponse (Some (window ((page - 1) * perPage) (Z.min total (page * perPage))))
               page perPage total) /\
    (page < lastPageFor total perPage ->
     Contains hdr (linkHeader (requestBaseURL r) "next" (page + 1) perPage total) = true).
Proof.
  intros Hn Ht Hp. destruct (lastPageFor_bounds total perPage Hn Ht) as [Hl1 Hl2].
  unfold maxPageSize, maxTotal in *. assert (Hs : 0 <= (page - 1) * perPage < total) by nia.
  unfold link_result. destruct (q_page r page perPage total) as (-> & -> & ->); [lia..|].
  rewrite positiveDefault_Itoa by (unfold maxInt; nia).
  rewrite !boundedDefault_Itoa by (unfold maxPageSize, maxTotal, maxInt; lia). cbn [mbind res_bind].
  case_if; [lia|].
  rewrite !wrap64_id by (rewrite ?wrap64_id; unfold in64, minInt, maxInt; nia).
  rewrite sliceItems_window by (unfold maxPageSize, maxTotal; lia).
  eexists. split.
  - do 4 f_equal. f_equal. f_equal. lia.
  - intros Hlt. destruct (page <? lastPageFor total perPage) eqn:E; [|bools; lia].
    change (requestBaseURL (with_query _ _)) with (requestBaseURL r).
    apply Contains_Join. rewrite !elem_of_app. right. right. by left.
Qed.

Lemma link_pages_prefix r n perPage total :
  1 <= perPage <= maxPageSize -> 1 <= total <= maxTotal -> 0 <= n <= lastPageFor total perPage ->
  link_pages r n perPage total = window 0 (Z.min total (n * perPage)).
Proof.
  intros Hn Ht. destruct (lastPageFor_bounds total perPage Hn Ht) as [Hl1 Hl2].
  unfold maxPageSize, maxTotal in *.
  intros Hb. assert (Hn0 : 0 <= n) by lia. revert n Hn0 Hb. apply (natlike_ind (fun n =>
    0 <= n <= lastPageFor total perPage -> link_pages r n perPage total = _)).
  - intros _. unfold link_pages. rewrite int_range_empty by lia. rewrite Z.min_r by lia.
    unfold window. by rewrite int_range_empty.
  - intros n Hn0 IH Hb. unfold link_pages in *.
    replace (Z.succ n + 1) with (n + 1 + 1) by lia. rewrite int_range_snoc by lia.
    rewrite map_app, join_app, IH by lia. cbn [map].
    destruct (link_at r (n + 1) perPage total) as (hdr & -> & _);
      [unfold maxPageSize; lia | unfold maxTotal; lia | lia |].
    cbn [l_Items default mjoin list_join]. rewrite app_nil_r.
    replace (n + 1 - 1) with n by lia. symmetry. rewrite (Z.min_r total (n * perPage)) by nia.
    replace (Z.succ n) with (n + 1) by lia. apply window_app. nia.
Qed.

(** Link pagination is complete and exact: pages 1 to [lastPageFor], each requested with the
    printed parameters, are consecutive windows whose concatenation is the dataset. *)
Theorem link_pages_complete (r : Request) (perPage total : Z)
  (Hper : 1 <= perPage <= maxPageSize) (Htotal : 1 <= total <= maxTotal) :
  link_pages r (lastPageFor total perPage) perPage total = dataset total.
Proof.
  destruct (lastPageFor_bounds total perPage Hper Htotal) as [Hl1 Hl2].
  rewrite link_pages_prefix by (done || lia). by rewrite Z.min_l by lia.
Qed.

(** C40: no untrusted [page] value, however large, makes the page offset wrap around.  Whenever the
    Link handler accepts a request, the page number lies between 1 and the last page, the 64-bit
    product [(page-1)*per_page] is the exact one and falls inside the dataset, and the items are
    exactly that window. *)
Theorem link_no_overflow (r : Request) (hdr : string) (resp : LinkResponse)
  (Hok : link_result r = Ok (hdr, resp)) :
  1 <= l_Page resp <= lastPageFor (l_Total resp) (l_PerPage resp) /\
  0 <= (l_Page resp - 1) * l_PerPage resp < l_Total resp /\
  wrap64 ((l_Page resp - 1) * l_PerPage resp) = (l_Page resp - 1) * l_PerPage resp /\
  l_Items resp = Some (window ((l_Page resp - 1) * l_PerPage resp)
                         (Z.min (l_Total resp) (l_Page resp * l_PerPage resp))).
Proof.
  destruct (link_accepted r hdr resp Hok) as (Hn & Ht & Hp & Hs & Hi).
  unfold maxTotal in *. rewrite wrap64_id by (unfold in64, minInt, maxInt; lia). done.
Qed.

(** The [rel=next] entry of the Link header leads to the next page: it is printed whenever the
    page is not the last one, and requesting the URL it holds (query string parsed by the server)
    is answered with page + 1 of the same dataset. *)
Theorem link_next_follows (r : Request) (page perPage total : Z)
  (Hbase : ContainsByte (requestBaseURL r) "?" = false)
  (Hper : 1 <= perPage <= maxPageSize) (Htotal : 1 <= total <= maxTotal)
  (Hpage : 1 <= page < lastPageFor total perPage) :
  exists hdr resp url hdr' resp',
    link_result (with_query r (page_query page perPage total)) = Ok (hdr, resp) /\
    Contains hdr ("<" ++ url ++ ">; rel=" ++ Quote "next") = true /\
    link_result (with_query r (link_query url)) = Ok (hdr', resp') /\
    l_Page resp' = page + 1 /\ l_PerPage resp' = perPage /\ l_Total resp' = total.
Proof.
  destruct (link_at r page perPage total) as (hdr & Hr & Hc); [done..|lia|].
  destruct (link_at r (page + 1) perPage total) as (hdr' & Hr' & _); [done..|lia|].
  do 2 eexists. exists (requestBaseURL r ++ String "?" (page_query (page + 1) perPage total)).
  do 2 eexists. split; [exact Hr|]. rewrite link_query_of by done. split; [|by rewrite Hr'].
  specialize (Hc ltac:(lia)). by rewrite linkHeader_page_query in Hc.
Qed.

(** The three styles serve the same items: page [p] of the Link style, [$skip=(p-1)*n] of the
    OData style and the cursor of that offset return the same window. *)
Theorem styles_agree (r1 r2 r3 : Request) (page perPage total : Z)
  (Hper : 1 <= perPage <= maxPageSize) (Htotal : 1 <= total <= maxTotal)
  (Hpage : 1 <= page <= lastPageFor total perPage) :
  let offset := (page - 1) * perPage in
  exists items hdr lresp oresp cresp,
    link_result (with_query r1 (page_query page perPage total)) = Ok (hdr, lresp) /\
    odata_result (with_query r2 (odata_query perPage offset total)) = Ok oresp /\
    cursor_result (with_query r3 (cursor_query (encodeCursor offset) perPage total)) = Ok cresp /\
    l_Items lresp = Some items /\ o_Value oresp = Some items /\ c_Items cresp = Some items /\
    items <> [].
Proof.
  intros offset. destruct (lastPageFor_bounds total perPage Hper Htotal) as [Hl1 Hl2].
  assert (Ho : 0 <= offset < total) by (unfold offset; nia).
  destruct (link_at r1 page perPage total) as (hdr & Hr & _); [done..|].
  assert (Hw : offset + perPage = page * perPage) by (unfold offset; lia).
  exists (window offset (Z.min total (page * perPage))). do 4 eexists.
  split; [exact Hr|]. rewrite odata_at by lia. split; [done|].
  rewrite (cursor_at r3 _ perPage offset) by (lia || by right). split; [done|].
  cbn [l_Items o_Value c_Items]. rewrite Hw. repeat split.
  intros E%(f_equal length). rewrite window_length in E. simpl in E. lia.
Qed.

End LinkStyle.

(** ** Witnesses: each theorem at a concrete request *)

Definition demo : Request :=
  mkRequest "GET" "/v1/pagination/odata" "/v1/pagination/odata" "" ∅ "api.test:8080" false
            "10.0.0.1:4444" None ∅ [] Background.
Lemma odata_walk_complete_witness :
  ContainsByte (requestBaseURL demo) "?" = false /\
  odata_walk 7 (with_query demo (odata_query 3 0 7)) = Some (dataset 7).
Proof. split; [done|]. apply (odata_walk_complete demo 3 7); unfold maxPageSize, maxTotal; done || lia. Defined.

Lemma cursor_walk_complete_witness : cursor_walk 7 demo 3 7 "" = Some (dataset 7).
Proof. apply (cursor_walk_complete demo 3 7); unfold maxPageSize, maxTotal; lia. Defined.

Lemma cursor_roundtrip_witness : decodeCursor (encodeCursor maxInt) = Ok maxInt.
Proof. apply (cursor_roundtrip maxInt). unfold in64, minInt, maxInt. lia. Defined.

Lemma link_pages_complete_witness :
  @link_pages ascii_tables demo 3 3 7 = dataset 7.
Proof. apply (@link_pages_complete ascii_tables demo 3 7); unfold maxPageSize, maxTotal; lia. Defined.

Lemma link_no_overflow_witness : exists hdr resp,
  @link_result ascii_tables (with_query demo "page=2&per_page=3&total=4") = Ok (hdr, resp) /\
  l_Items resp = Some (window 3 4).
Proof.
  destruct (@link_result ascii_tables (with_query demo "page=2&per_page=3&total=4"))
    as [[hdr resp]|e] eqn:E.
  - exists hdr, resp. split; [done|].
    destruct (@link_no_overflow ascii_tables _ hdr resp E) as (_ & _ & _ & H).
    vm_compute in E. injection E as _ <-. exact H.
  - vm_compute in E. discriminate.
Defined.

Lemma link_next_follows_witness : exists hdr resp hdr' resp' url,
  @link_result ascii_tables (with_query demo (page_query 1 3 7)) = Ok (hdr, resp) /\
  @link_result ascii_tables (with_query demo (link_query url)) = Ok (hdr', resp') /\
  l_Page resp' = 2.
Proof.
  destruct (@link_next_follows ascii_tables demo 1 3 7) as (h & x & u & h' & x' & H1 & _ & H2 & H3 & _);
    [done | unfold maxPageSize; lia | unfold maxTotal; lia | by vm_compute |].
  by exists h, x, h', x', u.
Defined.

Lemma styles_agree_witness : exists resp,
  odata_result (with_query demo (odata_query 3 3 7)) = Ok resp /\ o_Value resp <> None.
Proof.
  destruct (@styles_agree ascii_tables demo demo demo 2 3 7) as (i & h & l & o & c & H1 & H2 & H3 & H4 & H5 & _);
    [unfold maxPageSize; lia | unfold maxTotal; lia | by vm_compute |].
  exists o. split; [exact H2|]. by rewrite H5.
Defined.
