(* ===== verification/DataEndpoints.v ===== *)
(** * The data endpoint group ([pkg/endpoints/data])

    Deterministic bodies: [fixed], [sized] (streamed in 4 KiB chunks) and [lorem] (seeded). *)
From S2P Require Import Prelude GoStrings GoNum Sha256 GoRand GoUrl Json Http ServeMux Registry.

Definition groupName : string := "data".

(** ** fixed *)

Definition fixed (r : Request) : list wop :=
  let key := PathValue r "key" in
  let h := hex_EncodeToString (sha256 key) in
  writeJSON 200 (JObj [("key", JStr key); ("hash", JStr h);
                       ("body", JStr ("fixed[" ++ key ++ "]: " ++ h))]).

(** ** sized *)

Definition sizedAlphabet : string := "abcdefghijklmnopqrstuvwxyz".
Definition sizedMax : Z := Z.shiftl 32 20.

Definition alphabetAt (i : Z) : ascii := default "a"%char (String.get (Z.to_nat (i mod 26)) sizedAlphabet).
(** [for i := 0; i < chunk; i++ { buf[i] = sizedAlphabet[(written+i)%len(sizedAlphabet)] }] *)
Definition fillChunk (written : Z) (chunk : nat) : string :=
  string_of_list_ascii (map (fun i => alphabetAt (written + Z.of_nat i)) (seq 0 chunk)).

Fixpoint sized_loop (fuel : nat) (written n : Z) : list wop :=
  match fuel with
  | O => []
  | S f =>
    if written <? n then
      let chunk := if 4096 <? n - written then 4096 else n - written in
      Write (fillChunk written (Z.to_nat chunk)) :: sized_loop f (written + chunk) n
    else []
  end.

Definition sizedPreamble (n : Z) : string :=
  "{" ++ dquote ++ "bytes" ++ dquote ++ ":" ++ Itoa n ++ "," ++ dquote ++ "body" ++ dquote ++ ":" ++ dquote.

Definition sized (r : Request) : list wop :=
  let '(n, err) := Atoi (q_Get r "bytes") in
  if bool_decide (err <> None) || (n <? 0) then
    writeJSONError 400 "bytes must be a non-negative integer"
  else if sizedMax <? n then
    writeJSONError 400 ("bytes " ++ Itoa n ++ " exceeds max " ++ Itoa sizedMax)
  else
    ([HSet "Content-Type" "application/json"; WriteHeader 200; Write (sizedPreamble n)]
     ++ (if 0 <? n then sized_loop (Z.to_nat n) 0 n else [])
     ++ [Write (dquote ++ "}")])%list.

(** ** lorem *)

Definition loremDefaultWords : Z := 50.
Definition loremMaxWords : Z := 5000.

Definition loremDict : list string :=
  ["lorem"; "ipsum"; "dolor"; "sit"; "amet"; "consectetur"; "adipiscing";
   "elit"; "sed"; "do"; "eiusmod"; "tempor"; "incididunt"; "ut"; "labore";
   "et"; "dolore"; "magna"; "aliqua"; "enim"; "ad"; "minim"; "veniam";
   "quis"; "nostrud"; "exercitation"; "ullamco"; "laboris"; "nisi";
   "aliquip"; "ex"; "ea"; "commodo"; "consequat"; "duis"; "aute"; "irure";
   "in"; "reprehenderit"; "voluptate"; "velit"; "esse"; "cillum"; "fugiat";
   "nulla"; "pariatur"; "excepteur"; "sint"; "occaecat"; "cupidatat";
   "non"; "proident"; "sunt"; "culpa"; "qui"; "officia"; "deserunt";
   "mollit"; "anim"; "id"; "est"; "laborum"].

(** [entropy] stands for the two calls of [rand.Uint64] of the unseeded generator. *)
Definition newRand (entropy : Z * Z) (seed : string) : PCG :=
  if String.eqb seed "" then NewPCG entropy.1 entropy.2
  else NewPCG (fnv1a seed) (fnv1a ("salt:" ++ seed)).

Definition pick (dict : list string) (i : Z) : string := default "" (dict !! Z.to_nat i).

Fixpoint lorem_loop (n : nat) (rng : PCG) : list string :=
  match n with
  | O => []
  | S m => let '(i, rng') := IntN (Z.of_nat (length loremDict)) rng in pick loremDict i :: lorem_loop m rng'
  end.

(** [strings.ToUpper(first[:1]) + first[1:]]; the words are ASCII. *)
Definition capitalize (s : string) : string :=
  match s with EmptyString => "" | String c s' => String (upper_ascii c) s' end.
Definition capitalizeFirst (words : list string) : list string :=
  match words with [] => [] | first :: rest => capitalize first :: rest end.

Definition lorem (env : Env) (r : Request) : list wop :=
  let n0 := (Atoi (q_Get r "words")).1 in
  let n := if n0 <=? 0 then loremDefaultWords else n0 in
  if loremMaxWords <? n then
    writeJSONError 400 ("words " ++ Itoa n ++ " exceeds max " ++ Itoa loremMaxWords)
  else
    let words := capitalizeFirst (lorem_loop (Z.to_nat n) (newRand (env_entropy env) (q_Get r "seed"))) in
    writeJSON 200 (JObj [("words", JInt n); ("body", JStr (Join words " " ++ "."))]).

(** ** Routes *)

Definition FixedResponse : gotype :=
  TPtr (TStruct [("Key", "key", TString); ("Hash", "hash", TString); ("Body", "body", TString)]).
Definition SizedQuery : gotype := TPtr (TStruct [("Bytes", "bytes", TInt)]).
Definition SizedResponse : gotype := TPtr (TStruct [("Bytes", "bytes", TInt); ("Body", "body", TString)]).
Definition LoremQuery : gotype := TPtr (TStruct [("Words", "words", TInt); ("Seed", "seed,omitempty", TString)]).
Definition LoremResponse : gotype := TPtr (TStruct [("Words", "words", TInt); ("Body", "body", TString)]).

Definition Routes : list EndpointMeta :=
  [mkMeta "fixed" groupName "GET" "/v1/fixed/{key}"
     "Return a deterministic body derived from the {key} path parameter. Same key, same body."
     false None None None (Some FixedResponse);
   mkMeta "sized" groupName "GET" "/v1/sized"
     "Return exactly ?bytes=N bytes of deterministic content (alphabet repeated). Capped at 32 MiB."
     false None (Some SizedQuery) None (Some SizedResponse);
   mkMeta "lorem" groupName "GET" "/v1/lorem"
     "Return ?words=N words of seeded lorem-ipsum text. Same seed reproduces the same output."
     false None (Some LoremQuery) None (Some LoremResponse)].

Definition Mount : list (string * EHandler) :=
  [("GET /v1/fixed/{key}", replies fixed);
   ("GET /v1/sized", replies sized);
   ("GET /v1/lorem", fun env _ r => (lorem env r, ""))].

Definition Group : Endpoints := mkGroup groupName Routes Mount.

(** ** Lemmas: the streamed body *)

(** The first [n] bytes of the repeated alphabet. *)
Definition alphabet (n : Z) : string := fillChunk 0 (Z.to_nat n).

Lemma fillChunk_app w a b :
  fillChunk w (a + b) = fillChunk w a ++ fillChunk (w + Z.of_nat a) b.
Proof.
  unfold fillChunk. rewrite seq_app, map_app, string_of_list_ascii_app. f_equal.
  rewrite Nat.add_comm, <- fmap_add_seq. change (?f <$> ?l) with (map f l). rewrite map_map.
  f_equal. apply map_ext. intros i. f_equal. lia.
Qed.

Lemma fillChunk_length w c : String.length (fillChunk w c) = c.
Proof.
  unfold fillChunk. rewrite string_of_list_ascii_length, length_map, length_seq. done.
Qed.

Lemma sized_loop_bytes fuel written n :
  0 <= written <= n -> n - written <= Z.of_nat fuel ->
  ops_bytes (sized_loop fuel written n) = fillChunk written (Z.to_nat (n - written)).
Proof.
  revert written. induction fuel as [|f IH]; intros written Hw Hf; cbn [sized_loop].
  - by replace (Z.to_nat (n - written)) with 0%nat by lia.
  - destruct (written <? n) eqn:E; bools.
    + set (chunk := if 4096 <? n - written then _ else _).
      assert (1 <= chunk <= n - written) by (unfold chunk; case_if; lia).
      change (ops_bytes (Write ?b :: ?l)) with (b ++ ops_bytes l).
      rewrite IH by lia. replace (Z.to_nat (n - written)) with (Z.to_nat chunk + Z.to_nat (n - (written + chunk)))%nat by lia.
      rewrite fillChunk_app. do 2 f_equal. lia.
    + by replace (Z.to_nat (n - written)) with 0%nat by lia.
Qed.

Lemma alphabetAt_lower i : isLower (alphabetAt i) = true.
Proof.
  unfold alphabetAt. assert (H : (Z.to_nat (i mod 26) < 26)%nat) by zlia.
  generalize dependent (Z.to_nat (i mod 26)). intros k Hk.
  do 26 (destruct k as [|k]; [done|]). lia.
Qed.

Lemma fillChunk_clean w c :
  string_forallb (fun c => isDigit c || isLower c || isUpper c) (fillChunk w c) = true.
Proof.
  unfold fillChunk. induction (seq 0 c) as [|i l IH]; [done|]. cbn [map string_of_list_ascii string_forallb].
  rewrite alphabetAt_lower, IH. by rewrite orb_true_r.
Qed.

(** What [encoding/json] prints for [SizedResponse{Bytes: n, Body: body}]. *)
Definition sizedReference (n : Z) : json := JObj [("bytes", JInt n); ("body", JStr (alphabet n))].

Lemma sized_ops_bytes n : 0 <= n ->
  sizedPreamble n ++ ops_bytes (if 0 <? n then sized_loop (Z.to_nat n) 0 n else []) ++ dquote ++ "}" =
  json_text (sizedReference n).
Proof.
  intros Hn.
  assert (ops_bytes (if 0 <? n then sized_loop (Z.to_nat n) 0 n else []) = alphabet n) as ->.
  { case_if; [rewrite sized_loop_bytes by lia; unfold alphabet; do 2 f_equal; lia|].
    assert (n = 0) as -> by lia. done. }
  unfold sizedReference. cbn [json_text JInt Join map].
  unfold json_string at 3. rewrite json_string_body_ascii_clean by apply fillChunk_clean.
  unfold sizedPreamble, JInt. cbn [json_text].
  change (json_string "bytes") with (dquote ++ "bytes" ++ dquote).
  change (json_string "body") with (dquote ++ "body" ++ dquote).
  by rewrite <- !sapp_assoc.
Qed.

(** The chunked writer of [/v1/sized] is equivalent to encoding the documented response in one
    piece.  For every size it accepts, the handler answers 200 and the concatenation of its 4 KiB
    writes is exactly the JSON text of [SizedResponse] with a body of [n] bytes. *)
Theorem sized_streams_reference (r : Request) (n : Z)
  (Hq : q_Get r "bytes" = Itoa n) (Hn : 0 <= n <= sizedMax) :
  let w := exec (sized r) newConn in
  finalStatus w = 200 /\ c_body w = json_text (sizedReference n) /\ len (alphabet n) = n.
Proof.
  intros w.
  assert (Hs : sized r =
    ([HSet "Content-Type" "application/json"; WriteHeader 200] ++
     ([Write (sizedPreamble n)] ++ (if 0 <? n then sized_loop (Z.to_nat n) 0 n else [])
      ++ [Write (dquote ++ "}")]))%list).
  { unfold sized. change sizedMax with 33554432 in *.
    rewrite Hq, Atoi_Itoa by (unfold in64, minInt, maxInt; lia).
    simpl bool_decide. case_if; [destruct Heqb; bools; [done|lia]|].
    case_if; [lia|]. done. }
  unfold w. rewrite Hs, exec_app.
  set (w0 := exec [HSet "Content-Type" "application/json"; WriteHeader 200] newConn).
  destruct (conn_exec_committed ([Write (sizedPreamble n)] ++ (if 0 <? n then sized_loop (Z.to_nat n) 0 n else [])
      ++ [Write (dquote ++ "}")])%list w0) as (H1 & H2 & H3); [done..|].
  split; [|split].
  - unfold finalStatus. by rewrite H1, H2.
  - rewrite H3. rewrite !ops_bytes_app. rewrite <- sized_ops_bytes by lia.
    change (ops_bytes [Write (dquote ++ "}")]) with (dquote ++ "}").
    change (ops_bytes [Write (sizedPreamble n)]) with (sizedPreamble n ++ "").
    by rewrite sapp_nil_r.
  - unfold alphabet, len. rewrite fillChunk_length. lia.
Qed.

(** ** Lemmas: lorem *)

Lemma pick_in dict i : 0 <= i < Z.of_nat (length dict) -> pick dict i ∈ dict.
Proof.
  intros Hi. unfold pick. destruct (lookup_lt_is_Some_2 dict (Z.to_nat i)) as [x Hx]; [lia|].
  rewrite Hx. simpl. by eapply list_elem_of_lookup_2.
Qed.

Lemma lorem_loop_spec n rng :
  length (lorem_loop n rng) = n /\ Forall (fun w => w ∈ loremDict) (lorem_loop n rng).
Proof.
  revert rng. induction n as [|n IH]; intros rng; [done|]. cbn [lorem_loop].
  pose proof (IntN_range (Z.of_nat (length loremDict)) rng ltac:(done)) as Hi.
  destruct (IntN (Z.of_nat (length loremDict)) rng) as [i rng']. cbn [fst] in Hi.
  destruct (IH rng') as [Hl Hf]. split; [simpl; by rewrite Hl|]. constructor; [|done]. by apply pick_in.
Qed.

(** A seeded [/v1/lorem] is reproducible and has the size it says.  For every accepted word
    count the reply is a 200 whose body joins exactly that many dictionary words (the first one
    capitalized), and with a seed it does not depend on anything but the request. *)
Theorem lorem_reproducible (env env' : Env) (r : Request) (n : Z)
  (Hn : 1 <= n <= loremMaxWords) (Hq : q_Get r "words" = Itoa n) (Hseed : q_Get r "seed" <> "") :
  lorem env r = lorem env' r /\
  exists words, length words = Z.to_nat n /\ Forall (fun w => w ∈ loremDict) words /\
    lorem env r = writeJSON 200 (JObj [("words", JInt n);
                                       ("body", JStr (Join (capitalizeFirst words) " " ++ "."))]).
Proof.
  assert (Hl : forall e, exists words, length words = Z.to_nat n /\ Forall (fun w => w ∈ loremDict) words /\
    words = lorem_loop (Z.to_nat n) (newRand (0, 0) (q_Get r "seed")) /\
    lorem e r = writeJSON 200 (JObj [("words", JInt n);
                                     ("body", JStr (Join (capitalizeFirst words) " " ++ "."))])).
  { intros e. eexists. destruct (lorem_loop_spec (Z.to_nat n) (newRand (0, 0) (q_Get r "seed"))) as [H1 H2].
    split; [exact H1|]. split; [exact H2|]. split; [done|]. unfold lorem, loremMaxWords in *.
    rewrite Hq, Atoi_Itoa by (unfold in64, minInt, maxInt; lia). cbn [fst].
    destruct (n <=? 0) eqn:E1; bools; [lia|]. destruct (5000 <? n) eqn:E2; bools; [lia|].
    unfold newRand. by destruct (String.eqb_spec (q_Get r "seed") ""). }
  destruct (Hl env) as (w & H1 & H2 & -> & H4), (Hl env') as (w' & _ & _ & -> & H4').
  split; [by rewrite H4, H4'|]. by eexists.
Qed.

(** ** Witnesses *)

Definition sampleEnv : Env := mkEnv 1000 2000 "u" "e" (fun _ => false) 0 (7, 9) (fun s => [s]).
Definition getRequest (path query : string) : Request :=
  mkRequest "GET" path path query ∅ "h" false "10.0.0.1:5" None ∅ [] Background.

Lemma sized_streams_reference_witness :
  c_body (exec (sized (getRequest "/v1/sized" "bytes=30")) newConn) = json_text (sizedReference 30).
Proof.
  destruct (sized_streams_reference (getRequest "/v1/sized" "bytes=30") 30) as (_ & H & _);
    [by vm_compute|by vm_compute|exact H].
Defined.

Lemma lorem_reproducible_witness : exists words,
  length words = 3%nat /\
  lorem sampleEnv (getRequest "/v1/lorem" "words=3&seed=abc") =
  writeJSON 200 (JObj [("words", JInt 3); ("body", JStr (Join (capitalizeFirst words) " " ++ "."))]).
Proof.
  destruct (lorem_reproducible sampleEnv sampleEnv (getRequest "/v1/lorem" "words=3&seed=abc") 3)
    as (_ & words & H1 & _ & H2);
    [done|by vm_compute|by vm_compute|]. exists words. split; [exact H1|exact H2].
Defined.
