(* ===== verification/FailureEndpoints.v ===== *)
(** * The failure endpoint group ([pkg/endpoints/failure])

    Controlled failures: [status], [slow], [flaky].  Binary floating point enters [flaky] only
    through parsing, comparing and printing one number; the class [Float64] names these operations
    and the IEEE facts the handler depends on. *)
From S2P Require Import Prelude GoStrings GoNum GoTime Sha256 GoRand GoUrl Json Http ServeMux Registry.

Definition groupName : string := "failure".

(** ** status *)

(** [http.StatusText]. *)
Definition statusTexts : list (Z * string) :=
  [(100, "Continue"); (101, "Switching Protocols"); (102, "Processing"); (103, "Early Hints");
   (200, "OK"); (201, "Created"); (202, "Accepted"); (203, "Non-Authoritative Information");
   (204, "No Content"); (205, "Reset Content"); (206, "Partial Content"); (207, "Multi-Status");
   (208, "Already Reported"); (226, "IM Used"); (300, "Multiple Choices"); (301, "Moved Permanently");
   (302, "Found"); (303, "See Other"); (304, "Not Modified"); (305, "Use Proxy");
   (307, "Temporary Redirect"); (308, "Permanent Redirect"); (400, "Bad Request");
   (401, "Unauthorized"); (402, "Payment Required"); (403, "Forbidden"); (404, "Not Found");
   (405, "Method Not Allowed"); (406, "Not Acceptable"); (407, "Proxy Authentication Required");
   (408, "Request Timeout"); (409, "Conflict"); (410, "Gone"); (411, "Length Required");
   (412, "Precondition Failed"); (413, "Request Entity Too Large"); (414, "Request URI Too Long");
   (415, "Unsupported Media Type"); (416, "Requested Range Not Satisfiable");
   (417, "Expectation Failed"); (418, "I'm a teapot"); (421, "Misdirected Request");
   (422, "Unprocessable Entity"); (423, "Locked"); (424, "Failed Dependency"); (425, "Too Early");
   (426, "Upgrade Required"); (428, "Precondition Required"); (429, "Too Many Requests");
   (431, "Request Header Fields Too Large"); (451, "Unavailable For Legal Reasons");
   (500, "Internal Server Error"); (501, "Not Implemented"); (502, "Bad Gateway");
   (503, "Service Unavailable"); (504, "Gateway Timeout"); (505, "HTTP Version Not Supported");
   (506, "Variant Also Negotiates"); (507, "Insufficient Storage"); (508, "Loop Detected");
   (510, "Not Extended"); (511, "Network Authentication Required")].
Definition StatusText (code : Z) : string :=
  match List.find (fun p => p.1 =? code) statusTexts with Some p => p.2 | None => "" end.

Definition status (r : Request) : list wop :=
  let '(code, err) := Atoi (PathValue r "code") in
  if bool_decide (err <> None) || (code <? 100) || (599 <? code) then
    writeJSONError 400 "code must be an integer in [100, 599]"
  else writeJSON code (JObj [("status", JInt code); ("message", JStr (StatusText code))]).

(** ** slow *)

Definition slowMaxMS : Z := 60000.

Definition json_slow (sleptMS : Z) (cancelled : bool) (requested : Z) : json :=
  JObj ([("slept_ms", JInt sleptMS)] ++ omit_bool "cancelled" cancelled ++ [("requested_ms", JInt requested)])%list.

(** The [select] between the timer and the request context is [env_cancelled 0]; what [time.Since]
    measures is [env_sleptMS]. *)
Definition slow (env : Env) (r : Request) : list wop :=
  let ms0 := (Atoi (q_Get r "ms")).1 in
  let ms := if ms0 <? 0 then 0 else ms0 in
  if slowMaxMS <? ms then
    writeJSONError 400 ("ms " ++ Itoa ms ++ " exceeds max " ++ Itoa slowMaxMS)
  else if env_cancelled env 0 then writeJSON 499 (json_slow (env_sleptMS env) true ms)
  else writeJSON 200 (json_slow (env_sleptMS env) false ms).

(** ** flaky *)

Class Float64 := {
  float : Type;
  ParseFloat : string -> float;           (** the value, whatever the error *)
  fltb : float -> float -> bool;
  fzero : float;
  fone : float;
  ofFrac53 : Z -> float;                  (** [k / 2^53] *)
  jsonFloat : float -> option string;     (** [None] for NaN and the infinities *)
  fltb_irrefl x : fltb x x = false;
  fltb_trans x y z : fltb x y = true -> fltb y z = true -> fltb x z = true;
  one_not_neg : fltb fone fzero = false;
  frac_nonneg k : 0 <= k < 2 ^ 53 -> fltb (ofFrac53 k) fzero = false;
  frac_lt_one k : 0 <= k < 2 ^ 53 -> fltb (ofFrac53 k) fone = true
}.

Section Flaky.
Context `{Float64}.

Definition flakyRand (entropy : Z * Z) (seed : string) (callID : Z) : PCG :=
  if String.eqb seed "" then NewPCG entropy.1 entropy.2
  else NewPCG (fnv1a (seed ++ "|" ++ Itoa callID)) (fnv1a ("salt|" ++ seed ++ "|" ++ Itoa callID)).

(** [json.NewEncoder(w).Encode] writes nothing when a float cannot be encoded. *)
Definition json_flaky (failed : bool) (roll rate : float) : option json :=
  match jsonFloat roll, jsonFloat rate with
  | Some a, Some b => Some (JObj [("failed", JBool failed); ("roll", JNum a); ("fail_rate", JNum b)])
  | _, _ => None
  end.
Definition writeJSON_opt (status : Z) (body : option json) : list wop :=
  ([HSet "Content-Type" "application/json"; WriteHeader status]
   ++ match body with Some j => [Write (Encode j)] | None => [] end)%list.

Definition clampRate (rate : float) : float :=
  let rate := if fltb rate fzero then fzero else rate in
  if fltb fone rate then fone else rate.

Definition flaky (env : Env) (r : Request) : list wop :=
  let rate := clampRate (ParseFloat (q_Get r "fail_rate")) in
  let callID := (Atoi (q_Get r "call_id")).1 in
  let rng := flakyRand (env_entropy env) (q_Get r "seed") callID in
  let roll := ofFrac53 (Float53 rng).1 in
  if fltb roll rate then writeJSON_opt 503 (json_flaky true roll rate)
  else writeJSON_opt 200 (json_flaky false roll rate).

(** ** Routes *)

Definition StatusResponse : gotype := TPtr (TStruct [("Status", "status", TInt); ("Message", "message", TString)]).
Definition SlowQuery : gotype := TPtr (TStruct [("MS", "ms", TInt)]).
Definition SlowResponse : gotype :=
  TPtr (TStruct [("SleptMS", "slept_ms", TInt); ("Cancelled", "cancelled,omitempty", TBool);
                 ("RequestedM", "requested_ms", TInt)]).
Definition FlakyQuery : gotype :=
  TPtr (TStruct [("FailRate", "fail_rate", TFloat); ("Seed", "seed,omitempty", TString);
                 ("CallID", "call_id,omitempty", TInt)]).
Definition FlakyResponse : gotype :=
  TPtr (TStruct [("Failed", "failed", TBool); ("Roll", "roll", TFloat); ("FailRate", "fail_rate", TFloat)]).

Definition Routes : list EndpointMeta :=
  [mkMeta "status" groupName "GET" "/v1/status/{code}"
     "Return the supplied HTTP status code (httpbin-style). Body documents what was returned."
     false None None None (Some StatusResponse);
   mkMeta "slow" groupName "GET" "/v1/slow"
     "Sleep for ?ms=N milliseconds before responding (cap 60s). Honors context cancellation."
     false None (Some SlowQuery) None (Some SlowResponse);
   mkMeta "flaky" groupName "GET" "/v1/flaky"
     "Return 200 or 503 based on ?fail_rate=&seed=&call_id=. Same seed+call_id always yields the same outcome."
     false None (Some FlakyQuery) None (Some FlakyResponse)].

Definition Mount : list (string * EHandler) :=
  [("GET /v1/status/{code}", replies status);
   ("GET /v1/slow", fun env _ r => (slow env r, ""));
   ("GET /v1/flaky", fun env _ r => (flaky env r, ""))].

Definition Group : Endpoints := mkGroup groupName Routes Mount.

(** ** Theorems *)

Lemma clampRate_high rate : fltb fone rate = true \/ rate = fone -> clampRate rate = fone.
Proof.
  intros Hr. unfold clampRate. destruct (fltb rate fzero) eqn:E.
  - exfalso. pose proof one_not_neg as H1. destruct Hr as [Hr| ->]; [|congruence].
    pose proof (fltb_trans _ _ _ Hr E). congruence.
  - destruct Hr as [->| ->]; [done|]. by rewrite fltb_irrefl.
Qed.

Lemma clampRate_low rate : fltb rate fzero = true \/ rate = fzero -> clampRate rate = fzero.
Proof.
  unfold clampRate. intros [->| ->]; [by rewrite one_not_neg|]. by rewrite fltb_irrefl, one_not_neg.
Qed.

Lemma exec_opt status body :
  informational status = false ->
  finalStatus (exec (writeJSON_opt status body) newConn) = status.
Proof.
  intros Hi. unfold writeJSON_opt, exec, finalStatus. destruct body; simpl; unfold conn_WriteHeader;
    simpl; rewrite Hi; simpl; unfold conn_Write; simpl; by destruct (bodyAllowed status).
Qed.

(** [/v1/flaky] is reproducible and honours the ends of its range.  With a seed the outcome
    depends on the request alone; a rate of one or more always fails with 503, a rate of zero or
    less always succeeds with 200, and no other status is ever sent. *)
Theorem flaky_outcome (env env' : Env) (r : Request) (Hseed : q_Get r "seed" <> "") :
  let rate := ParseFloat (q_Get r "fail_rate") in
  let st e := finalStatus (exec (flaky e r) newConn) in
  flaky env r = flaky env' r /\
  (st env = 200 \/ st env = 503) /\
  (fltb fone rate = true \/ rate = fone -> st env = 503) /\
  (fltb rate fzero = true \/ rate = fzero -> st env = 200).
Proof.
  intros rate st.
  assert (Hr : forall e, flakyRand (env_entropy e) (q_Get r "seed") = flakyRand (0, 0) (q_Get r "seed")).
  { intros e. unfold flakyRand. by destruct (String.eqb_spec (q_Get r "seed") ""). }
  split; [unfold flaky; by rewrite !Hr|]. unfold st, flaky. fold rate. split; [|split].
  - case_if; [right|left]; by apply exec_opt.
  - intros ->%clampRate_high. rewrite frac_lt_one by apply Float53_range. by apply exec_opt.
  - intros ->%clampRate_low. rewrite frac_nonneg by apply Float53_range. by apply exec_opt.
Qed.

(** A rate that compares with nothing and cannot be printed (NaN) yields a 200 with no body. *)
Lemma flaky_unprintable env r :
  let rate := ParseFloat (q_Get r "fail_rate") in
  (forall x, fltb x rate = false /\ fltb rate x = false) -> jsonFloat rate = None ->
  flaky env r = [HSet "Content-Type" "application/json"; WriteHeader 200].
Proof.
  intros rate Hn Hj. unfold flaky. fold rate.
  assert (clampRate rate = rate) as -> by (unfold clampRate; by rewrite (proj2 (Hn fzero)), (proj1 (Hn fone))).
  rewrite (proj1 (Hn _)). unfold writeJSON_opt, json_flaky. rewrite Hj. by repeat case_match.
Qed.

End Flaky.

(** What [/v1/status/{code}] sends.  A code outside 100 to 599 (or no integer) gives 400; an
    accepted code from 200 up, and 101, is the status the client sees.  Any other 1xx code goes out
    as an informational response and the client's final status is 200. *)
Theorem status_sent (r : Request) (code : Z) (err : option num_error)
  (Hcode : Atoi (PathValue r "code") = (code, err)) :
  let w := exec (status r) newConn in
  finalStatus w =
  (if bool_decide (err <> None) || (code <? 100) || (599 <? code) then 400
   else if informational code then 200 else code) /\
  (finalStatus w = 400 \/ informational code = true -> c_info w = if finalStatus w =? 400 then [] else [code]).
Proof.
  cbv zeta. unfold status. rewrite Hcode.
  destruct (bool_decide (err <> None) || (code <? 100) || (599 <? code)) eqn:E; [by split|].
  unfold exec, finalStatus. simpl. unfold conn_WriteHeader. simpl.
  destruct (informational code) eqn:Ei; [by split|].
  simpl. unfold conn_Write. simpl. destruct (bodyAllowed code) eqn:Eb; simpl;
    (split; [done|]); (intros [->|?]; [done|congruence]).
Qed.

(** ** Witnesses *)

Definition statusRequest (code : string) : Request :=
  mkRequest "GET" ("/v1/status/" ++ code) ("/v1/status/" ++ code) "" ∅ "h" false "10.0.0.1:5" None
            {["code" := code]} [] Background.

Lemma status_sent_witness : finalStatus (exec (status (statusRequest "102")) newConn) = 200.
Proof. apply (status_sent (statusRequest "102") 102 None). by vm_compute. Defined.

(** Integers scaled by [2^53] have the order the handler depends on. *)
#[refine] Definition scaledFloat : Float64 := {|
  float := Z; ParseFloat s := (Atoi s).1 * 2 ^ 53; fltb := Z.ltb; fzero := 0; fone := 2 ^ 53;
  ofFrac53 k := k; jsonFloat z := Some (Itoa z)
|}.
Proof.
  - intros. apply Z.ltb_irrefl.
  - intros x y z H1 H2. bools. apply Z.ltb_lt. lia.
  - done.
  - intros k Hk. apply Z.ltb_ge. lia.
  - intros k Hk. apply Z.ltb_lt. lia.
Defined.

Definition flakyRequest : Request :=
  mkRequest "GET" "/v1/flaky" "/v1/flaky" "fail_rate=1&seed=s" ∅ "h" false "10.0.0.1:5" None ∅ [] Background.
Definition flakyEnv : Env := mkEnv 0 0 "" "" (fun _ => false) 0 (1, 2) (fun s => [s]).

Lemma flaky_outcome_witness : finalStatus (exec (@flaky scaledFloat flakyEnv flakyRequest) newConn) = 503.
Proof.
  destruct (@flaky_outcome scaledFloat flakyEnv flakyEnv flakyRequest) as (_ & _ & H & _).
  - by vm_compute.
  - apply H. right. by vm_compute.
Defined.
