(* ===== verification/InspectEndpoints.v ===== *)
(** * The inspection groups: echo, identity and methods
    ([pkg/endpoints/echo], [pkg/endpoints/identity], [pkg/endpoints/methods])

    Handlers that report what the server observed.  Reading an arbitrary JSON body into [any] and
    printing it again is the operation [unmarshalAny] of the class [JsonAny]. *)
From S2P Require Import Prelude GoStrings GoNum GoUrl Json Http ServeMux Registry AuditEvent.

(** [json.Unmarshal(raw, &parsed)] into [any]: the tree the encoder would print, or an error. *)
Class JsonAny := { unmarshalAny : string -> option json }.

Definition omit_any (k : string) (j : option json) : list (string * json) :=
  match j with None | Some JNull => [] | Some j => [(k, j)] end.

Section Redact.
Context `{UnicodeTables}.

(** ** Header redaction, shared by echo and identity *)

(** [New]: the configured keys in lower case. *)
Definition lowerKeys (redactHeaders : list string) : list string := map ToLower redactHeaders.

Fixpoint shouldRedact (redact : list string) (headerLower : string) : bool :=
  match redact with
  | [] => false
  | r :: rest => if Contains headerLower r then true else shouldRedact rest headerLower
  end.

(** The loop over [r.Header]. *)
Definition redactedHeaders (redact : list string) (h : Header) : Header :=
  map_imap (fun k vs => Some (if shouldRedact redact (ToLower k) then ["[redacted]"] else vs)) h.

End Redact.

(** ** echo *)

Module Echo.
Section EchoGroup.
Context `{UnicodeTables} `{JsonAny}.

Definition groupName : string := "echo".
Definition echoMethods : list string := ["GET"; "POST"; "PUT"; "PATCH"; "DELETE"; "HEAD"].
Definition bodyLimit : nat := Z.to_nat (Z.shiftl 1 20).

Definition Response : gotype :=
  TPtr (TStruct [("Method", "method", TString); ("Path", "path", TString);
                 ("Query", "query,omitempty", TMap TString (TSlice TString));
                 ("Headers", "headers", TMap TString (TSlice TString));
                 ("Body", "body,omitempty", TAny); ("BodyRawText", "body_raw_text,omitempty", TString);
                 ("BodySize", "body_size", TInt)]).

(** The bytes the handler reads: at most 1 MiB, nothing for HEAD. *)
Definition readBody (r : Request) : string :=
  match r_Body r with
  | Some b => if String.eqb (r_Method r) "HEAD" then "" else stake bodyLimit b
  | None => ""
  end.

Definition handle (redact : list string) (r : Request) : list wop :=
  let raw := readBody r in
  let '(body, rawText) :=
    if 0 <? len raw then
      match unmarshalAny raw with Some j => (Some j, "") | None => (None, raw) end
    else (None, "") in
  let resp := JObj ([("method", JStr (r_Method r)); ("path", JStr (r_Path r))]
    ++ omit_map "query" (r_Query r)
    ++ [("headers", json_of_map json_strings (redactedHeaders redact (r_Header r)))]
    ++ omit_any "body" body ++ omit_str "body_raw_text" rawText
    ++ [("body_size", JInt (len raw))])%list in
  ([HSet "Content-Type" "application/json"; WriteHeader 200]
   ++ (if String.eqb (r_Method r) "HEAD" then [] else [Write (Encode resp)]))%list.

Definition Routes : list EndpointMeta :=
  map (fun m => mkMeta ("echo_" ++ ToLower m) groupName m "/v1/echo"
         "Echo the request (method, path, query, headers, body) back. Sensitive headers redacted."
         false None None None (Some Response)) echoMethods.

Definition Mount (redactHeaders : list string) : list (string * EHandler) :=
  map (fun m => (m ++ " /v1/echo",
                 (fun _ _ r => (handle (lowerKeys redactHeaders) r, readBody r)) : EHandler)) echoMethods.

Definition Group (redactHeaders : list string) : Endpoints :=
  mkGroup groupName Routes (Mount redactHeaders).

End EchoGroup.
End Echo.

(** ** identity *)

Module IdentityGroup.
Section Group.
Context `{UnicodeTables}.

Definition groupName : string := "identity".

Definition WhoamiResponse : gotype :=
  TPtr (TStruct [("Subject", "subject", TString); ("Email", "email,omitempty", TString);
                 ("AuthType", "auth_type", TString); ("KeyName", "key_name,omitempty", TString);
                 ("Scopes", "scopes,omitempty", TSlice TString);
                 ("Claims", "claims,omitempty", TMap TString TAny)]).
Definition HeadersResponse : gotype :=
  TPtr (TStruct [("Headers", "headers", TMap TString (TSlice TString)); ("Count", "count", TInt)]).

Definition json_whoami (id : Identity) : json :=
  JObj ([("subject", JStr (id_Subject id))] ++ omit_str "email" (id_Email id)
        ++ [("auth_type", JStr (id_AuthType id))] ++ omit_str "key_name" (id_KeyName id)
        ++ match id_Scopes id with [] => [] | l => [("scopes", json_strings l)] end
        ++ (if bool_decide (id_Claims id = ∅) then [] else [("claims", json_of_map (fun j => j) (id_Claims id))]))%list.

Definition whoami (r : Request) : list wop :=
  match FromContext (r_Context r) with
  | None => writeJSON 200 (json_whoami (mkIdentity "" "" "anonymous" "" [] ∅))
  | Some id => writeJSON 200 (json_whoami id)
  end.

Definition headers (redact : list string) (r : Request) : list wop :=
  let out := redactedHeaders redact (r_Header r) in
  writeJSON 200 (JObj [("headers", json_of_map json_strings out); ("count", JInt (Z.of_nat (size out)))]).

Definition Routes : list EndpointMeta :=
  [mkMeta "whoami" groupName "GET" "/v1/whoami"
     "Return the resolved inbound auth identity (mode, key id, subject, scopes)."
     false None None None (Some WhoamiResponse);
   mkMeta "headers" groupName "GET" "/v1/headers"
     "Return inbound HTTP headers, with sensitive values redacted."
     false None None None (Some HeadersResponse)].

Definition Mount (redactHeaders : list string) : list (string * EHandler) :=
  [("GET /v1/whoami", replies whoami);
   ("GET /v1/headers", replies (headers (lowerKeys redactHeaders)))].

Definition Group (redactHeaders : list string) : Endpoints :=
  mkGroup groupName Routes (Mount redactHeaders).

End Group.
End IdentityGroup.

(** ** methods *)

Module Methods.
Section MethodsGroup.
Context `{UnicodeTables}.

Definition groupName : string := "methods".
Definition supportedMethods : list string := ["GET"; "POST"; "PUT"; "PATCH"; "DELETE"; "HEAD"; "OPTIONS"].

Definition Response : gotype :=
  TPtr (TStruct [("Method", "method", TString); ("Path", "path", TString);
                 ("Query", "query,omitempty", TMap TString (TSlice TString))]).

Definition handle (r : Request) : list wop :=
  let resp := JObj ([("method", JStr (r_Method r)); ("path", JStr (r_Path r))]
                    ++ omit_map "query" (r_Query r))%list in
  ([HSet "Content-Type" "application/json"]
   ++ (if String.eqb (r_Method r) "OPTIONS" then [HSet "Allow" (Join supportedMethods ", ")] else [])
   ++ [WriteHeader 200]
   ++ (if String.eqb (r_Method r) "HEAD" then [] else [Write (Encode resp)]))%list.

Definition Routes : list EndpointMeta :=
  map (fun m => mkMeta ("method_" ++ ToLower m) groupName m "/v1/method/echo"
         "Echo the HTTP method the server observed. Verify the gateway preserves the request verb across forwarding."
         false None None None (Some Response)) supportedMethods.

Definition Mount : list (string * EHandler) :=
  map (fun m => (m ++ " /v1/method/echo", replies handle)) supportedMethods.

Definition Group : Endpoints := mkGroup groupName Routes Mount.

End MethodsGroup.
End Methods.

(** ** Redaction agrees with the audit log *)

Section Agreement.
Context `{UnicodeTables}.

Lemma shouldRedact_loop keys lk :
  "" ∉ keys -> shouldRedact (lowerKeys keys) lk = redact_loop lk keys.
Proof.
  induction keys as [|k keys IH]; [done|]. intros Hne. apply not_elem_of_cons in Hne as [Hk Hne].
  simpl. destruct (String.eqb_spec k "") as [->|_]; [done|]. by rewrite IH.
Qed.

(** What the echo and headers endpoints show of the request headers is exactly what the audit
    log would persist: with the same redaction keys (none of them empty) both replace the same
    headers and keep the same values, so neither endpoint reveals a credential the log hides. *)
Theorem echo_redacts_like_audit (keys : list string) (h : Header) (Hkeys : "" ∉ keys) :
  redactedHeaders (lowerKeys keys) h = SanitizeHeaders h keys.
Proof.
  apply map_eq. intros k. rewrite Sanitize_lookup. unfold redactedHeaders. rewrite map_lookup_imap.
  destruct (h !! k) as [vs|]; [|done]. simpl. unfold redactValue, matchesRedactKey.
  by rewrite shouldRedact_loop.
Qed.

(** An empty key makes the endpoints redact every header, while the audit log ignores it. *)
Lemma empty_key_redacts_all h k vs :
  h !! k = Some vs -> redactedHeaders (lowerKeys [""]) h !! k = Some ["[redacted]"].
Proof.
  intros Hk. unfold redactedHeaders. rewrite map_lookup_imap, Hk. simpl. by destruct (ToLower k).
Qed.

End Agreement.

(** ** Witnesses *)

Lemma echo_redacts_like_audit_witness :
  @redactedHeaders ascii_tables (@lowerKeys ascii_tables ["Authorization"])
    {["Authorization" := ["Bearer x"]]} !! "Authorization" = Some ["[redacted]"].
Proof.
  rewrite (@echo_redacts_like_audit ascii_tables ["Authorization"] {["Authorization" := ["Bearer x"]]}).
  - by vm_compute.
  - apply (bool_decide_unpack _). by vm_compute.
Defined.
