(* ===== verification/SecurityEndpoints.v ===== *)
(** * The security probe group ([pkg/endpoints/security])

    Inert handlers that look like dangerous gateway targets. *)
From S2P Require Import Prelude GoStrings GoNum GoUrl Json Http ServeMux Registry.

Definition groupName : string := "security".
Definition bigHeaderCount : nat := 64.
Definition bigHeaderValueLen : nat := 512.

(** [for _, r := range s] *)
Definition containsControl (s : string) : bool :=
  existsb (fun k => let r := chunk_rune k in (r <? 32) || (r =? 127)) (utf8_decode s).

Definition writeJSONOK (body : json) : list wop := writeJSON 200 body.

Definition admin (_ : Request) : list wop :=
  writeJSONOK (JObj [("message", JStr
    "This endpoint exists to be a probe target. A correctly-configured gateway should have refused to forward this request before it reached api-test.")]).

Definition fetch (r : Request) : list wop :=
  let url := q_Get r "url" in
  if String.eqb url "" then
    writeBadRequest "url must be provided (this endpoint is a probe; it does not actually fetch)"
  else writeJSONOK (JObj [("asked_for", JStr url); ("would_have_fetched", JBool false)]).

Definition probeName (i : nat) : string := "X-Big-Probe-" ++ Itoa (Z.of_nat i).
Definition probeValue : string := Repeat "A" bigHeaderValueLen.
Definition bigHeaders (_ : Request) : list wop :=
  let names := map probeName (seq 0 bigHeaderCount) in
  let totalBytes := foldl (fun acc name => acc + (len name + len probeValue + 4)) 0 names in
  (map (fun name => HSet name probeValue) names
   ++ writeJSONOK (JObj [("header_count", JInt (Z.of_nat bigHeaderCount)); ("header_bytes", JInt totalBytes)]))%list.

Definition redirectTo (r : Request) : list wop :=
  let url := q_Get r "url" in
  if String.eqb url "" then writeBadRequest "url must be provided"
  else HSet "X-Would-Redirect-To" url :: writeJSONOK (JObj [("would_redirect_to", JStr url)]).

Definition controlChars (r : Request) : list wop :=
  let q := q_Get r "q" in
  writeJSONOK (JObj [("q", JStr q); ("byte_count", JInt (len q)); ("has_control", JBool (containsControl q))]).

(** ** Routes *)

Definition AdminResponse : gotype := TPtr (TStruct [("Message", "message", TString)]).
Definition FetchQuery : gotype := TPtr (TStruct [("URL", "url", TString)]).
Definition FetchResponse : gotype :=
  TPtr (TStruct [("AskedFor", "asked_for", TString); ("WouldHaveFetched", "would_have_fetched", TBool)]).
Definition BigHeadersResponse : gotype :=
  TPtr (TStruct [("HeaderCount", "header_count", TInt); ("HeaderBytes", "header_bytes", TInt)]).
Definition RedirectQuery : gotype := TPtr (TStruct [("URL", "url", TString)]).
Definition RedirectResponse : gotype := TPtr (TStruct [("WouldRedirectTo", "would_redirect_to", TString)]).
Definition ControlCharsQuery : gotype := TPtr (TStruct [("Q", "q", TString)]).
Definition ControlCharsResponse : gotype :=
  TPtr (TStruct [("Q", "q", TString); ("ByteCount", "byte_count", TInt); ("HasControl", "has_control", TBool)]).

Definition Routes : list EndpointMeta :=
  [mkMeta "security_admin" groupName "GET" "/v1/security/admin/secret"
     "Privileged-looking path. A gateway with path filtering should refuse to forward."
     false None None None (Some AdminResponse);
   mkMeta "security_fetch" groupName "GET" "/v1/security/fetch"
     "SSRF-shape input (?url=...). The handler does NOT fetch; it echoes the URL asked. A gateway with SSRF heuristics should refuse to forward when url points at localhost, link-local addresses, or non-allowlisted hosts."
     false None (Some FetchQuery) None (Some FetchResponse);
   mkMeta "security_big_headers" groupName "GET" "/v1/security/big-headers"
     "Emits ~32 KiB of response headers. A gateway with response-header-size limits should reject or rewrite."
     false None None None (Some BigHeadersResponse);
   mkMeta "security_redirect_to" groupName "POST" "/v1/security/redirect-to"
     "Open-redirect shape: returns 200 + X-Would-Redirect-To header carrying the caller's ?url. NOT a real Location header (and NOT a 3xx status) — the probe is inert by design. Gateway URL filters that scan arbitrary response headers can still pattern-match."
     false None (Some RedirectQuery) None (Some RedirectResponse);
   mkMeta "security_control_chars" groupName "GET" "/v1/security/control-chars"
     "Echoes ?q= back in the response body with any control characters intact. A gateway that sanitizes by replacing or stripping control bytes will produce a different body than the one written here."
     false None (Some ControlCharsQuery) None (Some ControlCharsResponse)].

Definition Mount : list (string * EHandler) :=
  [("GET /v1/security/admin/secret", replies admin);
   ("GET /v1/security/fetch", replies fetch);
   ("GET /v1/security/big-headers", replies bigHeaders);
   ("POST /v1/security/redirect-to", replies redirectTo);
   ("GET /v1/security/control-chars", replies controlChars)].

Definition Group : Endpoints := mkGroup groupName Routes Mount.

(** ** Inertness *)

(** The calls that could make a client follow somewhere: a [Location] header or a 3xx status. *)
Definition redirecting (o : wop) : bool :=
  match o with
  | HSet k _ | HAdd k _ => String.eqb (CanonicalHeaderKey k) "Location"
  | WriteHeader c => between 300 c 399
  | _ => false
  end.

(** The probes are inert.  Whatever the caller passes, no security handler sets a [Location]
    header or a 3xx status, so no client or gateway is ever redirected by one of them. *)
Theorem probes_never_redirect (h : Request -> list wop) (r : Request)
  (Hh : h ∈ [admin; fetch; bigHeaders; redirectTo; controlChars]) :
  existsb redirecting (h r) = false.
Proof.
  set_unfold. destruct Hh as [->|[->|[->|[->|[->|[]]]]]].
  - done.
  - unfold fetch. by case_if.
  - by vm_compute.
  - unfold redirectTo. by case_if.
  - done.
Qed.

Lemma probes_never_redirect_witness :
  existsb redirecting (redirectTo (mkRequest "POST" "/v1/security/redirect-to" "/v1/security/redirect-to"
    "url=http://evil" ∅ "h" false "" None ∅ [] Background)) = false.
Proof. apply (probes_never_redirect redirectTo). set_solver. Defined.

(** The announced size is what the headers take on the wire: 64 names and values with separators. *)
Example big_headers_size :
  foldl (fun acc name => acc + (len name + len probeValue + 4)) 0 (map probeName (seq 0 bigHeaderCount)) = 33910.
Proof. by vm_compute. Qed.
