(* ===== verification/StreamEndpoints.v ===== *)
(** * The streaming group ([pkg/endpoints/streaming])

    Chunked text, Server-Sent Events and NDJSON.  A stream handler writes one item per index,
    flushes when its writer can, and stops at the first wait the client cancels:
    [env_cancelled i] tells whether the wait after item [i] is cut short. *)
From S2P Require Import Prelude GoStrings GoNum GoTime Sha256 GoRand GoUrl Json Http ServeMux Registry.

Definition groupName : string := "streaming".
Definition maxCount : Z := 1000.
Definition maxDelayMS : Z := 5000.
Definition defaultCount : Z := 5.

Record StreamQuery := mkStreamQuery { sq_Count : Z; sq_DelayMS : Z; sq_Seed : string }.

(** [parseStreamQuery]: the query, or the message of the 400. *)
Definition parseStreamQuery (r : Request) : res string StreamQuery :=
  let seed := q_Get r "seed" in
  count ← (let raw := q_Get r "count" in
           if String.eqb raw "" then Ok defaultCount
           else let '(n, err) := Atoi raw in
                if bool_decide (err <> None) || (n <? 0) then Err "count must be a non-negative integer"
                else if maxCount <? n then Err ("count " ++ Itoa n ++ " exceeds max " ++ Itoa maxCount)
                else Ok n);
  delay ← (let raw := q_Get r "delay_ms" in
           if String.eqb raw "" then Ok 0
           else let '(ms, err) := Atoi raw in
                if bool_decide (err <> None) || (ms <? 0) then Err "delay_ms must be a non-negative integer"
                else if maxDelayMS <? ms then Err ("delay_ms " ++ Itoa ms ++ " exceeds max " ++ Itoa maxDelayMS)
                else Ok ms);
  Ok (mkStreamQuery count delay seed).

Definition dict : list string :=
  ["alpha"; "bravo"; "charlie"; "delta"; "echo"; "foxtrot";
   "golf"; "hotel"; "india"; "juliet"; "kilo"; "lima";
   "mike"; "november"; "oscar"; "papa"; "quebec"; "romeo";
   "sierra"; "tango"; "uniform"; "victor"; "whiskey"; "xray";
   "yankee"; "zulu"].

Definition deterministicWord (seed : string) (index : Z) : string :=
  let sum := fnv1a (seed ++ ":" ++ Itoa index) in
  let rng := NewPCG sum (Z.shiftr sum 1) in
  default "" (dict !! Z.to_nat (IntN (Z.of_nat (length dict)) rng).1).

(** ** The item of each format *)

Definition chunkLine (seed : string) (i : Z) : string :=
  "chunk " ++ Itoa i ++ ": " ++ deterministicWord seed i ++ newline.
Definition sseEvent (seed : string) (i : Z) : string :=
  "id: " ++ Itoa i ++ newline ++ "data: "
  ++ json_text (JObj [("id", JInt i); ("word", JStr (deterministicWord seed i))]) ++ newline ++ newline.
Definition ndjsonLine (seed : string) (i : Z) : string :=
  Encode (JObj [("index", JInt i); ("word", JStr (deterministicWord seed i))]).

(** ** The loop shared by the three handlers *)

(** [for i := i; i < q.Count; i++], [k] rounds left. *)
Fixpoint stream_loop (env : Env) (flusher : bool) (line : Z -> string) (delay : Z) (k : nat) (i : nat)
    : list wop :=
  match k with
  | O => []
  | S k' =>
    (Write (line (Z.of_nat i)) :: (if flusher then [Flush] else [])
     ++ (if (0 <? delay) && (0 <? Z.of_nat k') && env_cancelled env i then []
         else stream_loop env flusher line delay k' (S i)))%list
  end.

Definition stream (headers : list wop) (line : string -> Z -> string)
    (env : Env) (flusher : bool) (r : Request) : list wop :=
  match parseStreamQuery r with
  | Err msg => writeBadRequest msg
  | Ok q =>
    (headers ++ WriteHeader 200
     :: stream_loop env flusher (line (sq_Seed q)) (sq_DelayMS q) (Z.to_nat (sq_Count q)) 0)%list
  end.

Definition chunked : Env -> bool -> Request -> list wop :=
  stream [HSet "Content-Type" "text/plain; charset=utf-8"] chunkLine.
Definition sse : Env -> bool -> Request -> list wop :=
  stream [HSet "Content-Type" "text/event-stream"; HSet "Cache-Control" "no-store"] sseEvent.
Definition ndjson : Env -> bool -> Request -> list wop :=
  stream [HSet "Content-Type" "application/x-ndjson"] ndjsonLine.

(** ** Routes *)

Definition StreamQueryT : gotype :=
  TPtr (TStruct [("Count", "count,omitempty", TInt); ("DelayMS", "delay_ms,omitempty", TInt);
                 ("Seed", "seed,omitempty", TString)]).
Definition ChunkedResponse : gotype := TPtr (TStruct [("Index", "index", TInt); ("Word", "word", TString)]).
Definition SSEEvent : gotype := TPtr (TStruct [("ID", "id", TInt); ("Word", "word", TString)]).
Definition NDJSONLine : gotype := TPtr (TStruct [("Index", "index", TInt); ("Word", "word", TString)]).

Definition Routes : list EndpointMeta :=
  [mkMeta "streaming_chunked" groupName "GET" "/v1/streaming/chunked"
     "Stream N text chunks with Transfer-Encoding: chunked. Each chunk is one line, deterministically generated from (seed, index)."
     false None (Some StreamQueryT) None (Some ChunkedResponse);
   mkMeta "streaming_sse" groupName "GET" "/v1/streaming/sse"
     "Stream N Server-Sent Events (text/event-stream). Each event has id and data fields; data payload is deterministic from (seed, index)."
     false None (Some StreamQueryT) None (Some SSEEvent);
   mkMeta "streaming_ndjson" groupName "GET" "/v1/streaming/ndjson"
     "Stream N newline-delimited JSON objects (application/x-ndjson). Same (count, seed) reproduces the same body."
     false None (Some StreamQueryT) None (Some NDJSONLine)].

Definition Mount : list (string * EHandler) :=
  [("GET /v1/streaming/chunked", fun env f r => (chunked env f r, ""));
   ("GET /v1/streaming/sse", fun env f r => (sse env f r, ""));
   ("GET /v1/streaming/ndjson", fun env f r => (ndjson env f r, ""))].

Definition Group : Endpoints := mkGroup groupName Routes Mount.

(** ** Lemmas *)

Lemma parseStreamQuery_bounds r q :
  parseStreamQuery r = Ok q -> 0 <= sq_Count q <= maxCount /\ 0 <= sq_DelayMS q <= maxDelayMS.
Proof.
  unfold parseStreamQuery, maxCount, maxDelayMS, defaultCount.
  assert (Hb : forall raw def upper m1 (m2 : Z -> string), 0 <= def <= upper ->
    forall n, (if String.eqb raw "" then Ok def
     else let '(n, err) := Atoi raw in
          if bool_decide (err <> None) || (n <? 0) then Err m1
          else if upper <? n then Err (m2 n) else Ok n) = Ok (E := string) n -> 0 <= n <= upper).
  { intros raw def upper m1 m2 Hd n. case_if; [by intros [= <-]|]. destruct (Atoi raw) as [v err].
    case_if; [done|]. case_if; [done|]. intros [= <-]. bools. lia. }
  cbv zeta. match goal with |- context [mbind _ ?m] => destruct m as [c|] eqn:Ec end; [|done].
  cbn [mbind res_bind]. match goal with |- context [mbind _ ?m] => destruct m as [d|] eqn:Ed end; [|done].
  cbn [mbind res_bind]. intros [= <-]. cbn [sq_Count sq_DelayMS].
  split; [eapply (Hb _ 5); [lia|exact Ec] | eapply (Hb _ 0); [lia|exact Ed]].
Qed.

(** The items [i, ..., i + k - 1]. *)
Definition items (line : Z -> string) (i k : nat) : string :=
  sconcat (map (fun j => line (Z.of_nat j)) (seq i k)).

Lemma stream_loop_bytes env flusher line delay k i :
  exists n, (n <= k)%nat /\ ops_bytes (stream_loop env flusher line delay k i) = items line i n /\
  ((delay = 0 \/ forall j, env_cancelled env j = false) -> n = k).
Proof.
  revert i. induction k as [|k IH]; intros i; [by exists 0%nat|].
  cbn [stream_loop]. change (ops_bytes (Write ?b :: ?l)) with (b ++ ops_bytes l). rewrite ops_bytes_app.
  assert (ops_bytes (if flusher then [Flush] else []) = "") as -> by (by destruct flusher).
  destruct ((0 <? delay) && (0 <? Z.of_nat k) && env_cancelled env i) eqn:E.
  - exists 1%nat. split; [lia|]. split; [done|]. bools. intros [->|Hc]; [lia|congruence].
  - destruct (IH (S i)) as (n & Hn & -> & Hk). exists (S n). split; [lia|]. split; [done|].
    intros Hc. by rewrite Hk.
Qed.

Lemma items_app line i a b : items line i (a + b) = items line i a ++ items line (i + a) b.
Proof. unfold items. by rewrite seq_app, map_app, sconcat_app. Qed.

Lemma stream_body headers line env flusher r q :
  existsb wop_isWrite headers = false -> existsb (fun o => match o with WriteHeader _ | Flush => true | _ => false end) headers = false ->
  parseStreamQuery r = Ok q ->
  exists n, (n <= Z.to_nat (sq_Count q))%nat /\
    c_body (exec (stream headers line env flusher r) newConn) = items (line (sq_Seed q)) 0 n /\
    finalStatus (exec (stream headers line env flusher r) newConn) = 200 /\
    ((sq_DelayMS q = 0 \/ forall j, env_cancelled env j = false) -> n = Z.to_nat (sq_Count q)).
Proof.
  intros Hh1 Hh2 Hq. unfold stream. rewrite Hq.
  assert (Hw : forall l w, existsb wop_isWrite l = false ->
    existsb (fun o => match o with WriteHeader _ | Flush => true | _ => false end) l = false ->
    c_wroteHeader w = false -> c_body w = "" ->
    c_wroteHeader (exec l w) = false /\ c_body (exec l w) = "").
  { induction l as [|o l IH]; intros w H1 H2 H3 H4; [done|]. simpl in H1, H2.
    apply orb_false_iff in H1 as [Ho1 H1], H2 as [Ho2 H2].
    apply (IH (exec1 o w) H1 H2); destruct o; done. }
  destruct (Hw headers newConn Hh1 Hh2 eq_refl eq_refl) as [Hw1 Hw2].
  rewrite exec_app. set (w0 := exec headers newConn) in *.
  set (l := stream_loop _ _ _ _ _ _). change (exec (WriteHeader 200 :: l) w0) with (exec l (conn_WriteHeader 200 w0)).
  destruct (stream_loop_bytes env flusher (line (sq_Seed q)) (sq_DelayMS q) (Z.to_nat (sq_Count q)) 0) as (n & Hn & Hb & Hk).
  assert (Hc : c_wroteHeader (conn_WriteHeader 200 w0) = true /\ c_status (conn_WriteHeader 200 w0) = 200
     /\ c_body (conn_WriteHeader 200 w0) = "") by (unfold conn_WriteHeader; by rewrite Hw1).
  destruct Hc as (Hc1 & Hc2 & Hc3).
  destruct (conn_exec_committed l (conn_WriteHeader 200 w0)) as (H1 & H2 & H3); [done|by rewrite Hc2|].
  exists n. split; [done|]. split; [by rewrite H3, Hc3|]. split; [|done].
  unfold finalStatus. by rewrite H1, H2.
Qed.

(** ** Theorems *)

(** Streams are replayable prefix by prefix.  For each of the three formats, two accepted
    requests with the same seed get bodies of which the shorter is a prefix of the longer, with or
    without a flushing writer; a client that cancels during a wait has received a prefix of the
    full stream, and one that does not cancel receives exactly [count] items. *)
Theorem streams_prefix (fmt : Env -> bool -> Request -> list wop) (env env' : Env) (f f' : bool)
  (r r' : Request) (q q' : StreamQuery)
  (Hfmt : fmt ∈ [chunked; sse; ndjson])
  (Hq : parseStreamQuery r = Ok q) (Hq' : parseStreamQuery r' = Ok q')
  (Hseed : sq_Seed q = sq_Seed q') (Hcount : sq_Count q <= sq_Count q')
  (Hdone : forall j, env_cancelled env' j = false) :
  exists rest, c_body (exec (fmt env' f' r') newConn) = c_body (exec (fmt env f r) newConn) ++ rest.
Proof.
  assert (exists headers line, fmt = stream headers line /\ existsb wop_isWrite headers = false /\
    existsb (fun o => match o with WriteHeader _ | Flush => true | _ => false end) headers = false)
    as (headers & line & -> & Hh1 & Hh2).
  { set_unfold. destruct Hfmt as [->|[->|[->|[]]]]; by do 2 eexists. }
  destruct (stream_body headers line env f r q Hh1 Hh2 Hq) as (n & Hn & -> & _ & _).
  destruct (stream_body headers line env' f' r' q' Hh1 Hh2 Hq') as (m & _ & -> & _ & Hm).
  rewrite Hm by (by right). rewrite <- Hseed.
  exists (items (line (sq_Seed q)) n (Z.to_nat (sq_Count q') - n)).
  rewrite <- (Nat.add_0_l n) at 2. rewrite <- items_app. f_equal.
  assert (Z.to_nat (sq_Count q) <= Z.to_nat (sq_Count q'))%nat by lia. lia.
Qed.

(** ** Witnesses *)

Definition streamRequest (query : string) : Request :=
  mkRequest "GET" "/v1/streaming/sse" "/v1/streaming/sse" query ∅ "h" false "" None ∅ [] Background.
Definition patient : Env := mkEnv 0 0 "" "" (fun _ => false) 0 (0, 0) (fun s => [s]).
Definition impatient : Env := mkEnv 0 0 "" "" (fun i => Nat.eqb i 1) 0 (0, 0) (fun s => [s]).

Lemma streams_prefix_witness : exists rest,
  c_body (exec (sse patient true (streamRequest "count=4&seed=s")) newConn) =
  c_body (exec (sse impatient false (streamRequest "count=3&seed=s&delay_ms=9")) newConn) ++ rest.
Proof.
  refine (streams_prefix sse impatient patient false true (streamRequest "count=3&seed=s&delay_ms=9")
            (streamRequest "count=4&seed=s") (mkStreamQuery 3 9 "s") (mkStreamQuery 4 0 "s") _ _ _ _ _ _).
  - right. left.
  - by vm_compute.
  - by vm_compute.
  - done.
  - simpl. lia.
  - done.
Defined.
