(* ===== verification/ExportEndpoints.v ===== *)
(** * The export group ([pkg/endpoints/export])

    Large and slow responses.  [env_cancelled i] is [r.Context().Err() != nil] at row [i].  The
    buffer of the CSV writer is written at its explicit flushes; that it may also write when the
    buffer is full does not change the bytes or their order. *)
From S2P Require Import Prelude GoStrings GoNum GoTime Sha256 GoUrl Json Http ServeMux Registry.

Definition groupName : string := "export".
Definition maxBodyKB : Z := 10240.
Definition maxRows : Z := 250000.
Definition maxDurationMS : Z := 60000.
Definition defaultSizeKB : Z := 64.
Definition defaultRows : Z := 1000.

(** ** Helpers *)

Definition deterministicValue (seed : string) (index : Z) : string :=
  hex_EncodeToString (stake 8 (sha256 (seed ++ ":" ++ Itoa index))).

Definition boundedDefault (raw : string) (def upper : Z) (name : string) : res string Z :=
  if String.eqb raw "" then Ok def
  else let '(n, err) := Atoi raw in
       if bool_decide (err <> None) || (n <? 1) then Err (name ++ " must be a positive integer")
       else if upper <? n then Err (name ++ " " ++ Itoa n ++ " exceeds max " ++ Itoa upper)
       else Ok n.

Definition writeBadRequest (msg : string) : list wop := writeJSONError 400 (TrimSpace msg).
Definition writeJSONOK (body : json) : list wop := writeJSON 200 body.

(** ** big-body *)

Definition bigRow (seed : string) (i : Z) : json :=
  JObj [("index", JInt i); ("value", JStr (deterministicValue seed i))].

(** [k] rounds are left of [maxIter]; [i] is the loop index, [first] is [i == 0]. *)
Fixpoint bigBody_loop (env : Env) (flusher : bool) (seed : string) (target : Z) (k : nat) (i : nat)
    (written : Z) : list wop :=
  match k with
  | O => [Write "]"]
  | S k' =>
    if negb (written <? target) then [Write "]"]
    else if env_cancelled env i then []
    else
      let enc := json_text (bigRow seed (Z.of_nat i)) in
      let comma := negb (Nat.eqb i 0) in
      let written1 := (if comma then written + 1 else written) + len enc in
      ((if comma then [Write ","] else []) ++ [Write enc]
       ++ (if flusher && (Z.of_nat i mod 64 =? 0) then [Flush] else [])
       ++ bigBody_loop env flusher seed target k' (S i) written1)%list
  end.

Definition bigBody (env : Env) (flusher : bool) (r : Request) : list wop :=
  match boundedDefault (q_Get r "size_kb") defaultSizeKB maxBodyKB "size_kb" with
  | Err msg => writeBadRequest msg
  | Ok sizeKB =>
    let seed := q_Get r "seed" in
    let target := sizeKB * 1024 in
    let maxIter := target / 40 + 64 in
    ([HSet "Content-Type" "application/json"; WriteHeader 200; Write "["]
     ++ bigBody_loop env flusher seed target (Z.to_nat maxIter) 0 1)%list
  end.

(** ** csv *)

(** [encoding/csv]: does a field need quotes, and its text. *)
Definition fieldNeedsQuotes (f : string) : bool :=
  if String.eqb f "" then false
  else if String.eqb f "\." then true
  else ContainsByte f "," || ContainsByte f (chr 34) || ContainsByte f (chr 10) || ContainsByte f (chr 13)
       || match utf8_decode f with k :: _ => isSpace (chunk_rune k) | [] => false end.
Fixpoint csv_quote (f : string) : string :=
  match f with
  | EmptyString => ""
  | String c f' => (if Ascii.eqb c (chr 34) then dquote ++ dquote else str1 c) ++ csv_quote f'
  end.
Definition csv_field (f : string) : string :=
  if fieldNeedsQuotes f then dquote ++ csv_quote f ++ dquote else f.
Definition csv_record (fields : list string) : string := Join (map csv_field fields) "," ++ newline.

Fixpoint csv_loop (env : Env) (flusher : bool) (seed : string) (k : nat) (i : nat) (buf : string)
    : list wop :=
  match k with
  | O => [Write buf]
  | S k' =>
    if env_cancelled env i then [Write buf]
    else
      let buf := buf ++ csv_record [Itoa (Z.of_nat i); deterministicValue seed (Z.of_nat i)] in
      if flusher && (Z.of_nat i mod 256 =? 0)
      then Write buf :: Flush :: csv_loop env flusher seed k' (S i) ""
      else csv_loop env flusher seed k' (S i) buf
  end.

Definition csv (env : Env) (flusher : bool) (r : Request) : list wop :=
  match boundedDefault (q_Get r "rows") defaultRows maxRows "rows" with
  | Err msg => writeBadRequest msg
  | Ok rows =>
    ([HSet "Content-Type" "text/csv; charset=utf-8"; WriteHeader 200]
     ++ csv_loop env flusher (q_Get r "seed") (Z.to_nat rows) 0 (csv_record ["index"; "value"]))%list
  end.

(** ** long-running *)

Definition longRunning (env : Env) (r : Request) : list wop :=
  match boundedDefault (q_Get r "duration_ms") 1000 maxDurationMS "duration_ms" with
  | Err msg => writeBadRequest msg
  | Ok dur => if env_cancelled env 0 then [] else writeJSONOK (JObj [("slept_ms", JInt dur)])
  end.

(** ** Routes *)

Definition BigBodyQuery : gotype :=
  TPtr (TStruct [("SizeKB", "size_kb,omitempty", TInt); ("Seed", "seed,omitempty", TString)]).
Definition BigBodyRow : gotype := TPtr (TStruct [("Index", "index", TInt); ("Value", "value", TString)]).
Definition CSVQuery : gotype :=
  TPtr (TStruct [("Rows", "rows,omitempty", TInt); ("Seed", "seed,omitempty", TString)]).
Definition CSVRow : gotype := TPtr (TStruct [("Index", "index", TInt); ("Value", "value", TString)]).
Definition LongRunningQuery : gotype := TPtr (TStruct [("DurationMS", "duration_ms,omitempty", TInt)]).
Definition LongRunningResponse : gotype := TPtr (TStruct [("SleptMS", "slept_ms", TInt)]).

Definition Routes : list EndpointMeta :=
  [mkMeta "export_big_body" groupName "GET" "/v1/export/big-body"
     "Stream an approximately N KiB JSON array of deterministic rows. Tests how the gateway forwards large response bodies (buffering, content-length, connection reuse)."
     false None (Some BigBodyQuery) None (Some BigBodyRow);
   mkMeta "export_csv" groupName "GET" "/v1/export/csv"
     "Return a deterministic CSV with N rows. Tests gateway behavior on non-JSON content types and large text bodies."
     false None (Some CSVQuery) None (Some CSVRow);
   mkMeta "export_long_running" groupName "GET" "/v1/export/long-running"
     "Sleep for duration_ms before responding with timing info. Tests how the gateway handles slow first-byte. Stops early on client disconnect (no goroutine leak)."
     false None (Some LongRunningQuery) None (Some LongRunningResponse)].

Definition Mount : list (string * EHandler) :=
  [("GET /v1/export/big-body", fun env f r => (bigBody env f r, ""));
   ("GET /v1/export/csv", fun env f r => (csv env f r, ""));
   ("GET /v1/export/long-running", fun env _ r => (longRunning env r, ""))].

Definition Group : Endpoints := mkGroup groupName Routes Mount.

(** ** Lemmas: the size of a row *)

Lemma exportDefault_bounds raw def upper name n :
  1 <= def <= upper -> boundedDefault raw def upper name = Ok n -> 1 <= n <= upper.
Proof.
  intros Hd. unfold boundedDefault. case_if; [by intros [= <-]|].
  destruct (Atoi raw) as [v err]. case_if; [done|]. case_if; [done|]. intros [= <-]. bools. lia.
Qed.

Lemma deterministicValue_length seed i : len (deterministicValue seed i) = 16.
Proof.
  unfold deterministicValue, len. rewrite hex_length, stake_length, sha256_length. done.
Qed.

Lemma hex_digits_clean s :
  string_forallb (fun c => isDigit c || isLower c || isUpper c) (hex_EncodeToString s) = true.
Proof.
  assert (Hd : forall z, isDigit (hex_digit (z mod 16)) || isLower (hex_digit (z mod 16))
                         || isUpper (hex_digit (z mod 16)) = true).
  { intros z. assert (H : 0 <= z mod 16 < 16) by (apply Z.mod_pos_bound; lia).
    generalize dependent (z mod 16). intros m Hm.
    assert (Hm' : m ∈ seqZ 0 16) by (apply elem_of_seqZ; lia).
    repeat (apply elem_of_cons in Hm' as [->|Hm']; [done|]). by apply not_elem_of_nil in Hm'. }
  induction s as [|c s IH]; [done|]. cbn [hex_EncodeToString string_forallb].
  rewrite IH. rewrite <- (Z.mod_small (byte c / 16) 16) by (pose proof (byte_range c); zlia).
  by rewrite !Hd.
Qed.

Definition digits (i : Z) : Z := len (Itoa i).

Lemma bigRow_length seed i : len (json_text (bigRow seed i)) = 37 + digits i.
Proof.
  unfold bigRow, JInt. cbn [json_text Join map].
  unfold json_string at 3. rewrite json_string_body_ascii_clean
    by (unfold deterministicValue; apply hex_digits_clean).
  rewrite !len_app, deterministicValue_length. unfold digits.
  change (len (json_string "index")) with 7. change (len (json_string "value")) with 7.
  change (len dquote) with 1. change (len ":") with 1. change (len ",") with 1.
  change (len "{") with 1. change (len "}") with 1. lia.
Qed.

(** ** Lemmas: the big body *)

(** A row with the comma that separates it from the previous one. *)
Definition piece (seed : string) (i : nat) : string :=
  (if Nat.eqb i 0 then "" else ",") ++ json_text (bigRow seed (Z.of_nat i)).
Definition pieces (seed : string) (i n : nat) : string := sconcat (map (piece seed) (seq i n)).

Lemma pieces_array seed n :
  "[" ++ pieces seed 0 n ++ "]" = json_text (JArr (map (fun i => bigRow seed (Z.of_nat i)) (seq 0 n))).
Proof.
  rewrite json_text_JArr. f_equal. f_equal. rewrite map_map. unfold pieces.
  destruct n as [|n]; [done|]. cbn [seq map]. unfold sconcat at 1. cbn [foldr].
  set (x := json_text (bigRow seed (Z.of_nat 0))).
  change (piece seed 0) with ("" ++ x). simpl ("" ++ x).
  assert (H : forall l, Forall (fun i => i <> 0%nat) l ->
    forall y, y ++ foldr String.append "" (map (piece seed) l) =
              Join (y :: map (fun i => json_text (bigRow seed (Z.of_nat i))) l) ",").
  { induction 1 as [|i l Hi Hl IH]; intros y; simpl; [apply sapp_nil_r|].
    unfold piece at 1. destruct (Nat.eqb_spec i 0) as [->|_]; [done|].
    rewrite <- sapp_assoc, IH. done. }
  apply H. apply Forall_forall. intros i Hi%elem_of_seq. lia.
Qed.

Lemma piece_length seed i :
  len (piece seed i) = (if Nat.eqb i 0 then 0 else 1) + 37 + digits (Z.of_nat i).
Proof. unfold piece. rewrite len_app, bigRow_length. destruct (Nat.eqb i 0); simpl; unfold len; simpl; lia. Qed.

(** The row counter stops the loop only after the size target has been reached. *)
Lemma bigBody_loop_spec env flusher seed target k : forall i written,
  (forall j, env_cancelled env j = false) ->
  1 <= written -> 40 * Z.of_nat i - Z.min (Z.of_nat i) 10 <= written -> written <= target + 43 ->
  target <= 40 * Z.of_nat (i + k) - 10 -> Z.of_nat (i + k) <= 1000000 ->
  exists n, ops_bytes (bigBody_loop env flusher seed target k i written) = pieces seed i n ++ "]" /\
    target <= written + len (pieces seed i n) <= target + 43.
Proof.
  induction k as [|k IH]; intros i written Hc H1 Hlo Hhi Ht Hi; cbn [bigBody_loop].
  - exists 0%nat. split; [done|]. change (len (pieces seed i 0)) with 0. lia.
  - destruct (written <? target) eqn:E; bools; simpl negb; cbv iota;
      [|exists 0%nat; split; [done|]; change (len (pieces seed i 0)) with 0; lia].
    rewrite Hc. cbv zeta.
    set (written1 := _ + len _).
    assert (Hw : written1 = written + len (piece seed i)).
    { unfold written1. rewrite piece_length, bigRow_length. destruct (Nat.eqb i 0); simpl; lia. }
    assert (Hp : (if Nat.eqb i 0 then 38 else if (i <? 10)%nat then 39 else 40) <= len (piece seed i) <= 44).
    { rewrite piece_length. unfold digits. pose proof (Itoa_length_pos (Z.of_nat i)).
      pose proof (Itoa_length_le 6 (Z.of_nat i) ltac:(simpl; lia) ltac:(lia)).
      destruct (Nat.eqb_spec i 0); [lia|]. destruct (Nat.ltb_spec i 10); [lia|].
      pose proof (Itoa_length_two (Z.of_nat i) ltac:(lia)). lia. }
    assert (0 <= len (piece seed i)) by apply len_nonneg.
    destruct (IH (S i) written1) as (n & Hb & Hn); [done|lia| | |lia|lia|].
    + rewrite Hw, Nat2Z.inj_succ. destruct (Nat.eqb_spec i 0); [lia|]. destruct (Nat.ltb_spec i 10); lia.
    + lia.
    + exists (S n). change (pieces seed i (S n)) with (piece seed i ++ pieces seed (S i) n).
      rewrite len_app. split; [|lia]. rewrite !ops_bytes_app, Hb. rewrite <- sapp_assoc. unfold piece.
      destruct (Nat.eqb i 0), (flusher && (Z.of_nat i mod 64 =? 0)); simpl; by sapp_norm.
Qed.

(** [/v1/export/big-body] delivers the size it promises as one well-formed array.  For every
    accepted size and an undisturbed client, the streamed body is the JSON text of an array of rows
    0, 1, 2, ..., its length exceeds [size_kb] KiB by at least one and at most 44 bytes, and the
    iteration cap never cuts it short. *)
Theorem big_body_size (env : Env) (flusher : bool) (r : Request) (sizeKB : Z)
  (Hsize : boundedDefault (q_Get r "size_kb") defaultSizeKB maxBodyKB "size_kb" = Ok sizeKB)
  (Hlive : forall j, env_cancelled env j = false) :
  let w := exec (bigBody env flusher r) newConn in
  finalStatus w = 200 /\
  (exists n, c_body w = json_text (JArr (map (fun i => bigRow (q_Get r "seed") (Z.of_nat i)) (seq 0 n)))) /\
  sizeKB * 1024 + 1 <= len (c_body w) <= sizeKB * 1024 + 44.
Proof.
  cbv zeta. unfold bigBody. rewrite Hsize.
  apply exportDefault_bounds in Hsize; [|unfold defaultSizeKB, maxBodyKB; lia]. unfold maxBodyKB in Hsize.
  set (target := sizeKB * 1024). set (seed := q_Get r "seed").
  destruct (bigBody_loop_spec env flusher seed target (Z.to_nat (target / 40 + 64)) 0 1 Hlive)
    as (n & Hb & Hn); [lia|lia|lia|zlia|zlia|].
  set (loop := bigBody_loop _ _ _ _ _ _ _) in *.
  rewrite (exec_app (W := conn) [HSet "Content-Type" "application/json"; WriteHeader 200; Write "["] loop).
  set (w0 := exec [_; _; _] newConn).
  destruct (conn_exec_committed loop w0) as (H1 & H2 & H3); [done|done|].
  change (c_body w0) with "[" in H3. rewrite Hb in H3.
  assert (Hbody : c_body (exec loop w0) =
    json_text (JArr (map (fun i => bigRow seed (Z.of_nat i)) (seq 0 n)))) by (by rewrite H3, <- pieces_array).
  split; [unfold finalStatus; rewrite H1, H2; done|]. split; [by exists n|].
  rewrite H3, !len_app. change (len "[") with 1. change (len "]") with 1. lia.
Qed.

(** ** Witnesses *)

Definition exportRequest (query : string) : Request :=
  mkRequest "GET" "/v1/export/big-body" "/v1/export/big-body" query ∅ "h" false "" None ∅ [] Background.
Definition steady : Env := mkEnv 0 0 "" "" (fun _ => false) 0 (0, 0) (fun s => [s]).

Lemma big_body_size_witness :
  1025 <= len (c_body (exec (bigBody steady true (exportRequest "size_kb=1&seed=s")) newConn)) <= 1068.
Proof.
  destruct (big_body_size steady true (exportRequest "size_kb=1&seed=s") 1) as (_ & _ & H);
    [by vm_compute|done|exact H].
Defined.
