(* ===== verification/Inbound.v ===== *)
(** * Inbound authentication ([pkg/auth/inbound])

    The credential chain for [/v1/*]: API keys (file and database), OIDC bearer tokens, static
    bearer tokens.  The JWT validator and the key stores are the interfaces of the Go code. *)
From S2P Require Import Prelude GoStrings GoNum GoUrl Json JsonParse Http.

(** [ErrNoCredential], [ErrInvalidCredential] (possibly wrapped) and any other error. *)
Inductive auth_error :=
| ErrNoCredential
| ErrInvalidCredential
| ErrOther (msg : string).

#[global] Instance auth_error_eq_dec : EqDecision auth_error.
Proof. solve_decision. Defined.

(** ** Interfaces *)

(** [APIKeyStore.LookupAPIKey]: the key's name.  A lookup can leave a trace: [ks_touches] are the IDs of
    the stored keys whose time of last use it has updated. *)
Record APIKeyStore := mkKeyStore {
  ks_LookupAPIKey :> string -> res auth_error string;
  ks_touches : string -> list string }.
(** [Authenticator.Authenticate], with the keys it has updated. *)
Record Authenticator := mkAuthenticator {
  an_Authenticate :> Request -> res auth_error Identity;
  an_touches : Request -> list string }.

(** [OIDCValidator.ValidateBearer]. *)
Definition OIDCValidator : Type := string -> res string PortalIdentity.

(** [json.Unmarshal] of a JWT header into [struct{ Alg string }]; [None] on an error. *)
Definition unmarshalAlg `{UnicodeTables} (header : string) : option string :=
  match Unmarshal header with
  | Some (JObj fs) => jstring "alg" fs
  | Some JNull => Some ""
  | _ => None
  end.

(** ** Key stores *)

Record FileAPIKey := mkFileAPIKey { fk_Name : string; fk_Key : string; fk_Description : string }.

(** [subtle.ConstantTimeCompare(a, b) == 1] is equality of the bytes. *)
Definition ConstantTimeEq (a b : string) : bool := String.eqb a b.

(** The walk keeps the name of the last entry that matched. *)
Fixpoint file_loop (keys : list FileAPIKey) (candidate matched : string) : string :=
  match keys with
  | [] => matched
  | k :: rest => file_loop rest candidate (if ConstantTimeEq candidate (fk_Key k) then fk_Name k else matched)
  end.
Definition fileLookup (keys : list FileAPIKey) (candidate : string) : res auth_error string :=
  if String.eqb candidate "" then Err ErrInvalidCredential
  else let matched := file_loop keys candidate "" in
       if String.eqb matched "" then Err ErrInvalidCredential else Ok matched.
Definition FileAPIKeyStore (keys : list FileAPIKey) : APIKeyStore := mkKeyStore (fileLookup keys) (fun _ => []).

Fixpoint combined_loop (stores : list APIKeyStore) (plaintext : string) (lastErr : option auth_error)
    : res auth_error string :=
  match stores with
  | [] => match lastErr with Some e => Err e | None => Err ErrInvalidCredential end
  | s :: rest =>
    match s plaintext with
    | Ok name => Ok name
    | Err e => combined_loop rest plaintext
                 (if bool_decide (e = ErrInvalidCredential) then lastErr else Some e)
    end
  end.
(** The stores up to the first that knows the key have been asked. *)
Fixpoint combined_touches (stores : list APIKeyStore) (plaintext : string) : list string :=
  match stores with
  | [] => []
  | s :: rest => (ks_touches s plaintext ++ match s plaintext with Ok _ => [] | Err _ => combined_touches rest plaintext end)%list
  end.
Definition CombineAPIKeyStores (stores : list APIKeyStore) : APIKeyStore :=
  mkKeyStore (fun plaintext => combined_loop stores plaintext None) (combined_touches stores).

(** ** The API-key authenticator *)

Record APIKeyAuthenticator := mkAPIKeyAuthenticator {
  ak_store : APIKeyStore; ak_headerName : string; ak_queryParam : string }.

Definition NewAPIKey (store : APIKeyStore) (headerName queryParam : string) : APIKeyAuthenticator :=
  mkAPIKeyAuthenticator store
    (if String.eqb headerName "" then "X-API-Key" else headerName)
    (if String.eqb queryParam "" then "api_key" else queryParam).

Definition apikeyIdentity (name : string) : Identity := mkIdentity name "" "apikey" name [] ∅.

Definition apikeyCandidate (a : APIKeyAuthenticator) (r : Request) : string :=
  let candidate := TrimSpace (h_Get r (ak_headerName a)) in
  if String.eqb candidate "" then TrimSpace (q_Get r (ak_queryParam a)) else candidate.

Definition apikeyVerdict (a : APIKeyAuthenticator) (r : Request) : res auth_error Identity :=
  let candidate := apikeyCandidate a r in
  if String.eqb candidate "" then Err ErrNoCredential
  else match ak_store a candidate with
       | Err e => Err e
       | Ok name => Ok (apikeyIdentity name)
       end.
Definition APIKey_Authenticate (a : APIKeyAuthenticator) : Authenticator :=
  mkAuthenticator (apikeyVerdict a)
    (fun r => let candidate := apikeyCandidate a r in if String.eqb candidate "" then [] else ks_touches (ak_store a) candidate).

Section Bearer.
Context `{UnicodeTables}.

(** ** Static bearer tokens *)

Definition extractBearer (authHeader : string) : string :=
  if String.eqb authHeader "" then ""
  else if len authHeader <? len "Bearer " then ""
  else if negb (EqualFold (stake 7 authHeader) "Bearer ") then ""
  else TrimSpace (sdrop 7 authHeader).

Record FileBearerToken := mkFileBearerToken { bt_Name : string; bt_Token : string; bt_Description : string }.

Fixpoint bearer_loop (tokens : list FileBearerToken) (candidate matched : string) : string :=
  match tokens with
  | [] => matched
  | t :: rest => bearer_loop rest candidate (if ConstantTimeEq candidate (bt_Token t) then bt_Name t else matched)
  end.

Definition bearerVerdict (tokens : list FileBearerToken) (r : Request) : res auth_error Identity :=
  let candidate := extractBearer (h_Get r "Authorization") in
  if String.eqb candidate "" then Err ErrNoCredential
  else let matched := bearer_loop tokens candidate "" in
       if String.eqb matched "" then Err ErrInvalidCredential
       else Ok (mkIdentity matched "" "bearer" matched [] ∅).
Definition Bearer_Authenticate (tokens : list FileBearerToken) : Authenticator := mkAuthenticator (bearerVerdict tokens) (fun _ => []).

(** ** OIDC bearer tokens *)

Definition looksLikeJWT (s : string) : bool :=
  match Split s "." with
  | [p0; _; _] =>
    match RawURLEncoding_DecodeString p0 with
    | None => false
    | Some header => match unmarshalAlg header with None => false | Some alg => negb (String.eqb alg "") end
    end
  | _ => false
  end.

Definition oidcVerdict (validator : option OIDCValidator) (r : Request) : res auth_error Identity :=
  match validator with
  | None => Err ErrNoCredential
  | Some validate =>
    let token := extractBearer (h_Get r "Authorization") in
    if String.eqb token "" then Err ErrNoCredential
    else if negb (looksLikeJWT token) then Err ErrNoCredential
    else match validate token with
         | Err _ => Err ErrInvalidCredential
         | Ok aid =>
           let subject := if String.eqb (pi_Subject aid) "" then "oidc-subject-missing" else pi_Subject aid in
           Ok (mkIdentity subject (pi_Email aid) "oidc" subject [] (pi_Claims aid))
         end
  end.
Definition OIDCBearer_Authenticate (validator : option OIDCValidator) : Authenticator := mkAuthenticator (oidcVerdict validator) (fun _ => []).

(** ** The chain *)

Record Chain := mkChain { ch_authenticators : list Authenticator; ch_allowAnonymous : bool }.

(** [NewChain] skips nil authenticators. *)
Definition NewChain (allowAnonymous : bool) (auths : list (option Authenticator)) : Chain :=
  mkChain (omap id auths) allowAnonymous.

Fixpoint chain_loop (auths : list Authenticator) (r : Request) : option (res auth_error Identity) :=
  match auths with
  | [] => None
  | a :: rest =>
    match a r with
    | Ok id => Some (Ok id)
    | Err ErrNoCredential => chain_loop rest r
    | Err e => Some (Err e)
    end
  end.

Definition Chain_Authenticate (c : Chain) (r : Request) : res auth_error Identity :=
  match chain_loop (ch_authenticators c) r with
  | Some v => v
  | None => if ch_allowAnonymous c then Ok Anonymous else Err ErrNoCredential
  end.

(** The keys that the authenticators asked by the chain have updated. *)
Fixpoint chain_touches (auths : list Authenticator) (r : Request) : list string :=
  match auths with
  | [] => []
  | a :: rest => (an_touches a r ++ match a r with Err ErrNoCredential => chain_touches rest r | _ => [] end)%list
  end.
Definition Chain_touches (c : Chain) (r : Request) : list string := chain_touches (ch_authenticators c) r.

Definition AllowAnonymous (c : Chain) : bool := ch_allowAnonymous c.

(** The chain the server composes ([internal/server/server.go], Build): API keys, then OIDC when
    configured, then static bearer tokens. *)
Definition serverChain (allowAnonymous : bool) (apikey : APIKeyAuthenticator)
    (validator : option OIDCValidator) (tokens : list FileBearerToken) : Chain :=
  NewChain allowAnonymous
    ([Some (APIKey_Authenticate apikey)]
     ++ match validator with Some v => [Some (OIDCBearer_Authenticate (Some v))] | None => [] end
     ++ [Some (Bearer_Authenticate tokens)])%list.

(** ** Lemmas *)

Lemma chain_loop_app (pre : list Authenticator) (a : Authenticator) post r v :
  Forall (fun b : Authenticator => b r = Err ErrNoCredential) pre -> a r = v -> v <> Err ErrNoCredential ->
  chain_loop (pre ++ a :: post)%list r = Some v.
Proof.
  intros Hpre Ha Hv. induction Hpre as [|b pre Hb Hpre IH]; simpl.
  - rewrite Ha. destruct v as [id|[]]; done.
  - by rewrite Hb.
Qed.

Lemma chain_loop_none (auths : list Authenticator) r :
  chain_loop auths r = None <-> Forall (fun b : Authenticator => b r = Err ErrNoCredential) auths.
Proof.
  induction auths as [|a auths IH]; simpl; [by rewrite Forall_nil|]. rewrite Forall_cons, <- IH.
  destruct (a r) as [id|[]]; naive_solver.
Qed.

(** A store that updates only keys it accepts; the composed chain then updates only keys that it
    authenticates the request with. *)
Definition touchesMatch (s : APIKeyStore) : Prop := forall p, ks_touches s p <> [] -> exists name, s p = Ok name.

Lemma file_touches keys : touchesMatch (FileAPIKeyStore keys).
Proof. by intros p. Qed.
Lemma combined_touchesMatch stores : Forall touchesMatch stores -> touchesMatch (CombineAPIKeyStores stores).
Proof.
  intros Hs p. cbn [CombineAPIKeyStores ks_touches ks_LookupAPIKey]. generalize (@None auth_error).
  induction Hs as [|s stores H1 Hs IH]; intros lastErr; cbn [combined_touches combined_loop]; [done|].
  destruct (s p) as [name|e] eqn:E; [by eexists|]. destruct (ks_touches s p) eqn:Et; [apply IH|].
  destruct (H1 p) as [name Hn]; [by rewrite Et|congruence].
Qed.
Lemma serverChain_touches anon ak v tokens r : touchesMatch (ak_store ak) -> Chain_touches (serverChain anon ak v tokens) r <> [] ->
  exists name, Chain_Authenticate (serverChain anon ak v tokens) r = Ok (apikeyIdentity name).
Proof.
  intros Hs. unfold Chain_touches, Chain_Authenticate. set (rest := ch_authenticators (NewChain anon
    (match v with Some v => [Some (OIDCBearer_Authenticate (Some v))] | None => [] end ++ [Some (Bearer_Authenticate tokens)])%list)).
  change (ch_authenticators (serverChain anon ak v tokens)) with (APIKey_Authenticate ak :: rest).
  assert (Hrest : chain_touches rest r = []) by (unfold rest; destruct v as [v|]; cbn -[oidcVerdict bearerVerdict]; [destruct (oidcVerdict (Some v) r) as [?|[]]|]; try done;
    by destruct (bearerVerdict tokens r) as [?|[]]).
  cbn [chain_touches chain_loop APIKey_Authenticate an_touches an_Authenticate]. unfold apikeyVerdict.
  destruct (String.eqb (apikeyCandidate ak r) ""); [by rewrite Hrest|].
  destruct (ks_touches (ak_store ak) _) eqn:Et; [intros Hne; exfalso; apply Hne|intros _].
  - destruct (ak_store ak _) as [?|[]]; by rewrite ?Hrest.
  - destruct (Hs (apikeyCandidate ak r)) as [name ->]; [by rewrite Et|]. by exists name.
Qed.

(** A chain as [Build] composes it, over such a store. *)
Definition builtChain (c : Chain) : Prop :=
  exists anon ak v tokens, c = serverChain anon ak v tokens /\ touchesMatch (ak_store ak).

Lemma file_loop_spec keys c m :
  file_loop keys c m = match last (filter (fun k => fk_Key k = c) keys) with Some k => fk_Name k | None => m end.
Proof.
  revert m. induction keys as [|k keys IH]; intros m; [done|]. simpl. rewrite IH. unfold ConstantTimeEq.
  destruct (String.eqb_spec c (fk_Key k)) as [->|Hne].
  - rewrite filter_cons_True by done.
    destruct (filter (fun k0 => fk_Key k0 = fk_Key k) keys) as [|k' l]; [done|]. rewrite last_cons_cons.
    by destruct (last (k' :: l)) eqn:E; [|apply last_None in E].
  - by rewrite filter_cons_False by congruence.
Qed.

(** ** Theorems *)

(** The file key store accepts exactly the configured keys.  With non-empty names, a candidate
    is accepted iff it equals the secret of some entry (no prefix, case or whitespace leniency), the
    name returned belongs to an entry with that secret, and anything else is [ErrInvalidCredential]. *)
Theorem file_store_exact (keys : list FileAPIKey) (candidate : string)
  (Hnames : Forall (fun k => fk_Name k <> "") keys) :
  (forall name, FileAPIKeyStore keys candidate = Ok name ->
     exists k, k ∈ keys /\ fk_Key k = candidate /\ fk_Name k = name) /\
  (candidate <> "" -> (exists k, k ∈ keys /\ fk_Key k = candidate) ->
     exists name, FileAPIKeyStore keys candidate = Ok name) /\
  (forall e, FileAPIKeyStore keys candidate = Err e -> e = ErrInvalidCredential).
Proof.
  unfold FileAPIKeyStore, fileLookup. cbn [ks_LookupAPIKey]. destruct (String.eqb_spec candidate "") as [->|Hc]; [naive_solver|].
  rewrite file_loop_spec. rewrite Forall_forall in Hnames.
  destruct (last (filter (fun k => fk_Key k = candidate) keys)) as [k|] eqn:E.
  - apply last_Some_elem_of, list_elem_of_filter in E as [Hk Hin].
    destruct (String.eqb_spec (fk_Name k) ""); [by destruct (Hnames k)|]. naive_solver.
  - simpl. split; [done|]. split; [|naive_solver].
    intros _ (k & Hk & Hkc). apply last_None in E.
    assert (k ∈ filter (fun k => fk_Key k = candidate) keys) as Hin by (by apply list_elem_of_filter).
    rewrite E in Hin. by apply not_elem_of_nil in Hin.
Qed.

(** The first authenticator that recognizes its credential decides.  Whatever comes after it in
    the chain, an authenticator that answers anything but [ErrNoCredential] fixes the outcome, so a
    rejected credential is never retried as another kind; the anonymous fallback is used only when
    every authenticator found no credential and the configuration allows it. *)
Theorem chain_first_decides (c : Chain) (r : Request) :
  (forall (pre : list Authenticator) (a : Authenticator) post, ch_authenticators c = (pre ++ a :: post)%list ->
     Forall (fun b : Authenticator => b r = Err ErrNoCredential) pre -> a r <> Err ErrNoCredential ->
     Chain_Authenticate c r = a r) /\
  (Forall (fun b : Authenticator => b r = Err ErrNoCredential) (ch_authenticators c) ->
     Chain_Authenticate c r = if AllowAnonymous c then Ok Anonymous else Err ErrNoCredential) /\
  (Chain_Authenticate c r = Err ErrNoCredential ->
     Forall (fun b : Authenticator => b r = Err ErrNoCredential) (ch_authenticators c) /\ AllowAnonymous c = false).
Proof.
  unfold Chain_Authenticate. split; [|split].
  - intros pre a post -> Hpre Ha. by rewrite (chain_loop_app _ _ _ _ (a r)).
  - intros Hall. apply chain_loop_none in Hall as ->. done.
  - destruct (chain_loop (ch_authenticators c) r) as [v|] eqn:E.
    + intros ->. exfalso. revert E. generalize (ch_authenticators c).
      induction l as [|a l IH]; simpl; [done|]. by destruct (a r) as [id|[]].
    + apply chain_loop_none in E. unfold AllowAnonymous. by destruct (ch_allowAnonymous c).
Qed.

(** In the composed chain a wrong API key is final: if the request carries a non-blank key (in
    the header or the query) that the store rejects, the request is rejected with the store's error
    whatever bearer token it also carries, whether or not OIDC or anonymous access is enabled. *)
Theorem wrong_key_is_final (allowAnonymous : bool) (ak : APIKeyAuthenticator)
  (validator : option OIDCValidator) (tokens : list FileBearerToken) (r : Request) (e : auth_error)
  (Hcand : apikeyCandidate ak r <> "") (Hrej : ak_store ak (apikeyCandidate ak r) = Err e)
  (He : e <> ErrNoCredential) :
  Chain_Authenticate (serverChain allowAnonymous ak validator tokens) r = Err e.
Proof.
  assert (Ha : APIKey_Authenticate ak r = Err e).
  { cbn [APIKey_Authenticate an_Authenticate]. unfold apikeyVerdict. destruct (String.eqb_spec (apikeyCandidate ak r) ""); [done|]. by rewrite Hrej. }
  unfold Chain_Authenticate. cbn -[APIKey_Authenticate]. rewrite Ha. by destruct e.
Qed.

(** A JWT that fails validation is never retried as a static token: without an API key, a
    structurally valid JWT the identity provider's validator rejects is answered with
    [ErrInvalidCredential], even if the very same string is configured as a static bearer token. *)
Theorem rejected_jwt_no_fallthrough (allowAnonymous : bool) (ak : APIKeyAuthenticator)
  (validate : OIDCValidator) (tokens : list FileBearerToken) (r : Request) (msg : string)
  (Hkey : apikeyCandidate ak r = "")
  (Htok : extractBearer (h_Get r "Authorization") <> "")
  (Hjwt : looksLikeJWT (extractBearer (h_Get r "Authorization")) = true)
  (Hrej : validate (extractBearer (h_Get r "Authorization")) = Err msg) :
  Chain_Authenticate (serverChain allowAnonymous ak (Some validate) tokens) r = Err ErrInvalidCredential.
Proof.
  assert (Ha : APIKey_Authenticate ak r = Err ErrNoCredential).
  { cbn [APIKey_Authenticate an_Authenticate]. unfold apikeyVerdict. by rewrite Hkey. }
  assert (Ho : OIDCBearer_Authenticate (Some validate) r = Err ErrInvalidCredential).
  { cbn [OIDCBearer_Authenticate an_Authenticate]. unfold oidcVerdict.
    destruct (String.eqb_spec (extractBearer (h_Get r "Authorization")) ""); [done|].
    by rewrite Hjwt, Hrej. }
  unfold Chain_Authenticate. cbn -[APIKey_Authenticate OIDCBearer_Authenticate]. by rewrite Ha, Ho.
Qed.

End Bearer.

(** ** Witnesses *)

Definition authRequest (h : list (string * string)) (query : string) : Request :=
  mkRequest "GET" "/v1/whoami" "/v1/whoami" query
    (foldr (fun p m => Header_Set m p.1 p.2) ∅ h) "h" false "" None ∅ [] Background.

Definition sampleKeys : list FileAPIKey := [mkFileAPIKey "ops" "K1" ""; mkFileAPIKey "dev" "K2" ""].
Definition sampleAuth : APIKeyAuthenticator := NewAPIKey (FileAPIKeyStore sampleKeys) "" "".
(** A token whose header names RS256. *)
Definition jwtShaped : string := "eyJhbGciOiJSUzI1NiJ9.p.s".
Definition sampleTokens : list FileBearerToken := [mkFileBearerToken "t" jwtShaped ""].
Lemma file_store_exact_witness : exists k, k ∈ sampleKeys /\ fk_Key k = "K2" /\ fk_Name k = "dev".
Proof.
  apply (proj1 (file_store_exact sampleKeys "K2" ltac:(apply (bool_decide_unpack _); by vm_compute))).
  by vm_compute.
Defined.

Lemma wrong_key_is_final_witness :
  @Chain_Authenticate (@serverChain ascii_tables true sampleAuth None
    [mkFileBearerToken "t" "secret" ""]) (authRequest [("X-API-Key", "wrong"); ("Authorization", "Bearer secret")] "")
  = Err ErrInvalidCredential.
Proof.
  apply (@wrong_key_is_final ascii_tables true sampleAuth None); by vm_compute.
Defined.

Lemma rejected_jwt_no_fallthrough_witness :
  @Chain_Authenticate (@serverChain ascii_tables true sampleAuth (Some (fun _ => Err "expired"))
    sampleTokens) (authRequest [("Authorization", "Bearer " ++ jwtShaped)] "")
  = Err ErrInvalidCredential.
Proof.
  apply (@rejected_jwt_no_fallthrough ascii_tables true sampleAuth (fun _ => Err "expired")
    sampleTokens (authRequest [("Authorization", "Bearer " ++ jwtShaped)] "") "expired"); by vm_compute.
Defined.
