(* ===== verification/Middleware.v ===== *)
(** * Request middleware ([pkg/httpmw])

    RequestID, AccessLog, Identity and Audit as functions on handlers.  The two recorders are
    further instances of [ResponseWriter] wrapped around any other; neither has a [Flush] method,
    so [http.Flusher] is lost behind them. *)
From S2P Require Import Prelude GoStrings GoNum GoTime GoUrl Json Http ServeMux Registry AuditEvent MemoryLog Inbound.

(** ** The state handlers share *)

(** One line of the access log. *)
Record AccessLine := mkAccessLine {
  al_method : string; al_path : string; al_status : Z; al_bytes : Z; al_durationMS : Z;
  al_requestID : string;
  al_identity : option (string * string)      (** [auth_type] and [subject], when resolved *)
}.

Record ServerState (L : Type) := mkState {
  sv_audit : L;                               (** the audit logger *)
  sv_holder : option Identity;                (** the content of the request's [identityHolder] *)
  sv_access : list AccessLine;                (** the structured access log *)
  sv_read : string;                           (** what the handler has read of the request body *)
  sv_ready : bool;                            (** [Readiness.ready] *)
  sv_nonces : gmap string Time;               (** [BrowserAuth.usedNonces] *)
  sv_touched : list string                    (** the API keys whose time of last use was updated, by ID *)
}.
Arguments mkState {L}.
Arguments sv_audit {L}.
Arguments sv_holder {L}.
Arguments sv_access {L}.
Arguments sv_read {L}.
Arguments sv_ready {L}.
Arguments sv_nonces {L}.
Arguments sv_touched {L}.

(** ** statusRecorder *)

Record statusRecorder (W : Type) := mkStatusRecorder {
  sr_inner : W; sr_status : Z; sr_bytes : Z; sr_wroteHeader : bool }.
Arguments mkStatusRecorder {W}.
Arguments sr_inner {W}.
Arguments sr_status {W}.
Arguments sr_bytes {W}.
Arguments sr_wroteHeader {W}.

Definition newStatusRecorder {W} (w : W) : statusRecorder W := mkStatusRecorder w 200 0 false.

Definition sr_WriteHeader `{ResponseWriter W} (code : Z) (s : statusRecorder W) : statusRecorder W :=
  if sr_wroteHeader s then s
  else mkStatusRecorder (rw_WriteHeader code (sr_inner s)) code (sr_bytes s) true.

Definition sr_Write `{ResponseWriter W} (b : string) (s : statusRecorder W) : Z * statusRecorder W :=
  let s1 := if sr_wroteHeader s then s else sr_WriteHeader 200 s in
  let '(n, w) := rw_Write b (sr_inner s1) in
  (n, mkStatusRecorder w (sr_status s1) (sr_bytes s1 + n) (sr_wroteHeader s1)).

#[export] Instance statusRecorder_RW `{ResponseWriter W} : ResponseWriter (statusRecorder W) := {|
  rw_Header s := rw_Header (sr_inner s);
  rw_setHeader h s := mkStatusRecorder (rw_setHeader h (sr_inner s)) (sr_status s) (sr_bytes s) (sr_wroteHeader s);
  rw_WriteHeader := sr_WriteHeader;
  rw_Write := sr_Write;
  rw_Flusher _ := false;
  rw_Flush s := s
|}.

(** ** auditRecorder *)

Record auditRecorder (W : Type) := mkAuditRecorder {
  ar_inner : W; ar_status : Z; ar_wroteHeader : bool;
  ar_body : string; ar_max : Z; ar_capture : bool; ar_truncated : bool; ar_bytesTotal : Z }.
Arguments mkAuditRecorder {W}.
Arguments ar_inner {W}.
Arguments ar_status {W}.
Arguments ar_wroteHeader {W}.
Arguments ar_body {W}.
Arguments ar_max {W}.
Arguments ar_capture {W}.
Arguments ar_truncated {W}.
Arguments ar_bytesTotal {W}.

Definition newAuditRecorder {W} (w : W) (maxBytes : Z) (capture : bool) : auditRecorder W :=
  mkAuditRecorder w 200 false "" maxBytes capture false 0.

Definition ar_WriteHeader `{ResponseWriter W} (code : Z) (a : auditRecorder W) : auditRecorder W :=
  if ar_wroteHeader a then a
  else mkAuditRecorder (rw_WriteHeader code (ar_inner a)) code true (ar_body a) (ar_max a) (ar_capture a)
         (ar_truncated a) (ar_bytesTotal a).

(** The captured prefix after one more write, and whether something was cut off. *)
Definition captureStep (max : Z) (body b : string) : string * bool :=
  let remaining := max - len body in
  let captured := if 0 <? remaining then (if len b <? remaining then len b else remaining) else 0 in
  (body ++ stake (Z.to_nat captured) b, captured <? len b).

Definition ar_Write `{ResponseWriter W} (b : string) (a : auditRecorder W) : Z * auditRecorder W :=
  let a1 := if ar_wroteHeader a then a else ar_WriteHeader 200 a in
  let '(body, cut) := if ar_capture a1 then captureStep (ar_max a1) (ar_body a1) b else (ar_body a1, false) in
  let '(n, w) := rw_Write b (ar_inner a1) in
  (n, mkAuditRecorder w (ar_status a1) (ar_wroteHeader a1) body (ar_max a1) (ar_capture a1)
        (ar_truncated a1 || cut) (ar_bytesTotal a1 + n)).

#[export] Instance auditRecorder_RW `{ResponseWriter W} : ResponseWriter (auditRecorder W) := {|
  rw_Header a := rw_Header (ar_inner a);
  rw_setHeader h a := mkAuditRecorder (rw_setHeader h (ar_inner a)) (ar_status a) (ar_wroteHeader a)
                        (ar_body a) (ar_max a) (ar_capture a) (ar_truncated a) (ar_bytesTotal a);
  rw_WriteHeader := ar_WriteHeader;
  rw_Write := ar_Write;
  rw_Flusher _ := false;
  rw_Flush a := a
|}.

(** ** capWriter and readCloserTee *)

(** [capWriter.Write] on the buffer and the oversize flag. *)
Definition capWriter_Write (max : Z) (st : string * bool) (p : string) : string * bool :=
  let '(buf, oversize) := st in
  let remaining := max - len buf in
  if remaining <=? 0 then (buf, true)
  else
    let n := if len p <? remaining then len p else remaining in
    (buf ++ stake (Z.to_nat n) p, oversize || (n <? len p)).

(** Every non-empty read is mirrored into the writer. *)
Definition readCloserTee_Read (max : Z) (st : string * bool) (p : string) : string * bool :=
  if 0 <? len p then capWriter_Write max st p else st.

Definition tee (max : Z) (chunks : list string) : string * bool :=
  foldl (readCloserTee_Read max) ("", false) chunks.

(** ** Middleware *)

Section Middleware.
Context `{UnicodeTables} {L : Type} `{!Logger L}.
Abbreviation State := (ServerState L).
Abbreviation Hnd := (Handler State).

Definition setHolder (id : option Identity) (s : State) : State :=
  mkState (sv_audit s) id (sv_access s) (sv_read s) (sv_ready s) (sv_nonces s) (sv_touched s).
Definition setAudit (l : L) (s : State) : State :=
  mkState l (sv_holder s) (sv_access s) (sv_read s) (sv_ready s) (sv_nonces s) (sv_touched s).
Definition setRead (b : string) (s : State) : State :=
  mkState (sv_audit s) (sv_holder s) (sv_access s) b (sv_ready s) (sv_nonces s) (sv_touched s).
Definition addAccess (a : AccessLine) (s : State) : State :=
  mkState (sv_audit s) (sv_holder s) (sv_access s ++ [a])%list (sv_read s) (sv_ready s) (sv_nonces s) (sv_touched s).

Definition touchKeys (ids : list string) (s : State) : State :=
  mkState (sv_audit s) (sv_holder s) (sv_access s) (sv_read s) (sv_ready s) (sv_nonces s) (sv_touched s ++ ids)%list.

(** An endpoint handler as an [http.Handler]. *)
Definition serve (h : EHandler) : Hnd := fun W RW env r sw =>
  let '(ops, read) := h env (rw_Flusher sw.2) r in
  (setRead read sw.1, exec ops sw.2).

(** A plain reply that does not touch the server's state. *)
Definition respond (ops : list wop) : Hnd := fun W RW env r sw => (sw.1, exec ops sw.2).

(** ** RequestID *)

Definition HeaderRequestID : string := "X-Request-Id".

Definition RequestID (next : Hnd) : Hnd := fun W RW env r sw =>
  let id0 := h_Get r HeaderRequestID in
  let id := if String.eqb id0 "" then env_uuid env else id0 in
  let w := rw_setHeader (Header_Set (rw_Header sw.2) HeaderRequestID id) sw.2 in
  let ctx := mkContext (ctx_Identity (r_Context r)) id true (ctx_Portal (r_Context r)) in
  next W RW env (WithContext r ctx) (setHolder None sw.1, w).

Definition RequestIDFromContext (c : Context) : string := ctx_RequestID c.

Definition recordIdentity (c : Context) (id : Identity) (s : State) : State :=
  if ctx_Holder c then setHolder (Some id) s else s.
Definition resolvedIdentity (c : Context) (s : State) : option Identity :=
  if ctx_Holder c then sv_holder s else None.

(** ** AccessLog *)

Definition AccessLog (next : Hnd) : Hnd := fun W RW env r sw =>
  let rec := newStatusRecorder sw.2 in
  let '(s, rec) := next (statusRecorder W) _ env r (sw.1, rec) in
  let line := mkAccessLine (r_Method r) (r_Path r) (sr_status rec) (sr_bytes rec)
                (Milliseconds (Sub (env_end env) (env_start env)))
                (RequestIDFromContext (r_Context r))
                ((fun id => (id_AuthType id, id_Subject id)) <$> resolvedIdentity (r_Context r) s) in
  (addAccess line s, sr_inner rec).

(** ** Identity *)

Definition hasInboundCredential (r : Request) : bool :=
  if negb (String.eqb (h_Get r "X-API-Key") "") then true
  else if negb (String.eqb (q_Get r "api_key") "") then true
  else let a := h_Get r "Authorization" in
       negb (String.eqb a "") && HasPrefix (ToLower a) "bearer ".

Definition challenge : string := "Bearer realm=" ++ dquote ++ "api-test" ++ dquote.
Definition missingCredential : list wop :=
  HSet "WWW-Authenticate" challenge :: writeJSONError 401 "missing credential".
Definition invalidCredential : list wop :=
  HSet "WWW-Authenticate" (challenge ++ ", error=" ++ dquote ++ "invalid_token" ++ dquote)
  :: writeJSONError 401 "invalid credential".
Definition authErrorReply (e : auth_error) : list wop :=
  match e with
  | ErrNoCredential => missingCredential
  | ErrInvalidCredential => invalidCredential
  | ErrOther _ => writeJSONError 500 "auth error"
  end.

Definition IdentityMW (chain : Chain) (next : Hnd) : Hnd := fun W RW env r sw =>
  match FromContext (r_Context r), hasInboundCredential r with
  | Some pre, false => next W RW env r (recordIdentity (r_Context r) pre sw.1, sw.2)
  | _, _ =>
    let s := touchKeys (Chain_touches chain r) sw.1 in
    match Chain_Authenticate chain r with
    | Err e => respond (authErrorReply e) W RW env r (s, sw.2)
    | Ok id =>
      let ctx := WithIdentity (r_Context r) id in
      next W RW env (WithContext r ctx) (recordIdentity ctx id s, sw.2)
    end
  end.

(** ** Audit *)

Record AuditOptions := mkAuditOptions {
  CapturePayloads : bool; CaptureHeaders : bool; MaxPayloadBytes : Z; RedactKeys : list string }.

Definition withDefaults (o : AuditOptions) : AuditOptions :=
  if MaxPayloadBytes o =? 0
  then mkAuditOptions (CapturePayloads o) (CaptureHeaders o) (Z.shiftl 1 20) (RedactKeys o) else o.

(** The payload row: [rec] after the handler returned, the tee's buffer and flag. *)
Definition auditPayload (opts : AuditOptions) (r : Request) (reqBody : string) (reqOversize : bool)
    (respHeader : Header) (respBody : string) (respTruncated : bool) (bytesTotal : Z) : Payload :=
  mkPayload
    (if CaptureHeaders opts then SanitizeHeaders (r_Header r) (RedactKeys opts) else ∅)
    (if CaptureHeaders opts then SanitizeQuery (r_Query r) (RedactKeys opts) else ∅)
    (h_Get r "Content-Type") reqBody (len reqBody) reqOversize (r_RemoteAddr r)
    (if CaptureHeaders opts then SanitizeHeaders respHeader (RedactKeys opts) else ∅)
    (Header_Get respHeader "Content-Type") respBody bytesTotal respTruncated
    (h_Get r ReplayHeaderName).

Definition auditEvent (opts : AuditOptions) (registry : option Registry) (env : Env) (r : Request)
    (reqBody : string) (reqOversize : bool) (status : Z) (respHeader : Header)
    (respBody : string) (respTruncated : bool) (bytesTotal : Z) : Event :=
  let '(group, name) := match registry with
                        | Some reg => RouteForRequest reg (r_Method r) (r_Path r)
                        | None => ("", "")
                        end in
  let id := FromContext (r_Context r) in
  let str (f : Identity -> string) := match id with Some i => f i | None => "" end in
  mkEvent "" (env_start env) (Milliseconds (Sub (env_end env) (env_start env)))
    (RequestIDFromContext (r_Context r)) ""
    (str id_Subject) (str id_Email) (str id_AuthType) (str id_KeyName)
    (r_Method r) (r_Path r) name group status
    (if reqOversize then MaxPayloadBytes opts else len reqBody) bytesTotal
    ((200 <=? status) && (status <? 400)) "" "" (r_RemoteAddr r) (h_Get r "User-Agent")
    (if CapturePayloads opts
     then Some (auditPayload opts r reqBody reqOversize respHeader respBody respTruncated bytesTotal) else None).

Definition logEvent (env : Env) (ev : Event) (s : State) : State :=
  match lg_Log (env_eventID env) ev (sv_audit s) with Ok l => setAudit l s | Err _ => s end.

Definition Audit (registry : option Registry) (opts0 : AuditOptions) (next : Hnd) : Hnd := fun W RW env r sw =>
  let opts := withDefaults opts0 in
  let rec := newAuditRecorder sw.2 (MaxPayloadBytes opts) (CapturePayloads opts) in
  let '(s, rec) := next (auditRecorder W) _ env r (setRead "" sw.1, rec) in
  let '(reqBody, reqOversize) :=
    if bool_decide (r_Body r <> None) && CapturePayloads opts
    then tee (MaxPayloadBytes opts) (env_chunks env (sv_read s)) else ("", false) in
  let ev := auditEvent opts registry env r reqBody reqOversize (ar_status rec) (rw_Header rec)
              (ar_body rec) (ar_truncated rec) (ar_bytesTotal rec) in
  (logEvent env ev s, ar_inner rec).

(** [endpointMW] of [internal/server/server.go]: identity outside, audit inside. *)
Definition endpointMW (chain : Chain) (registry : Registry) (opts : AuditOptions) (h : EHandler) : Hnd :=
  IdentityMW chain (Audit (Some registry) opts (serve h)).

End Middleware.

(** ** What a writer promises to a handler

    [Faithful]: behind the writer there is one client connection ([view]), and the calls of a
    handler act on it as they would act directly.  [good] is the writer's own invariant.  The
    promise covers final status codes; what happens to informational ones is stated separately. *)
Class Faithful (W : Type) `{ResponseWriter W} := {
  view : W -> conn;
  good : W -> Prop;
  header_view w : rw_Header w = c_header (view w);
  setHeader_view h w : good w -> view (rw_setHeader h w) = conn_setHeader h (view w) /\ good (rw_setHeader h w);
  writeHeader_view c w : good w -> informational c = false ->
    view (rw_WriteHeader c w) = conn_WriteHeader c (view w) /\ good (rw_WriteHeader c w);
  write_view b w : good w ->
    (rw_Write b w).1 = (conn_Write b (view w)).1 /\
    view (rw_Write b w).2 = (conn_Write b (view w)).2 /\ good (rw_Write b w).2
}.

(** The calls a handler may make behind a recorder: final statuses, no flushing. *)
Definition plainOp (o : wop) : bool :=
  match o with WriteHeader c => negb (informational c) | Flush => false | _ => true end.
Definition plainOps (ops : list wop) : bool := forallb plainOp ops.

Definition fresh (c : conn) : Prop := c_wroteHeader c = false /\ c_body c = "".

(** *** The connection itself *)

#[export, refine] Instance conn_Faithful : Faithful conn := {| view c := c; good c := True |}.
Proof. all: intros; by repeat split. Defined.

Lemma conn_WriteHeader_final c w : informational c = false ->
  c_wroteHeader (conn_WriteHeader c w) = true /\ c_body (conn_WriteHeader c w) = c_body w /\
  finalStatus (conn_WriteHeader c w) = if c_wroteHeader w then finalStatus w else c.
Proof.
  intros Hi. unfold conn_WriteHeader, finalStatus. rewrite Hi. by destruct (c_wroteHeader w) eqn:E; rewrite ?E.
Qed.

(** A write commits the header first, then appends what the status allows. *)
Lemma conn_Write_commit b w : c_wroteHeader w = false -> conn_Write b w = conn_Write b (conn_WriteHeader 200 w).
Proof. intros Hw. unfold conn_Write at 1. rewrite Hw. unfold conn_Write, conn_WriteHeader. by rewrite Hw. Qed.

Lemma conn_Write_spec b w :
  c_wroteHeader (conn_Write b w).2 = true /\
  finalStatus (conn_Write b w).2 = finalStatus w /\
  c_body (conn_Write b w).2 = (if bodyAllowed (finalStatus w) then c_body w ++ b else c_body w) /\
  (conn_Write b w).1 = (if bodyAllowed (finalStatus w) then len b else 0).
Proof.
  unfold conn_Write, finalStatus. destruct (c_wroteHeader w) eqn:E.
  - destruct (bodyAllowed (c_status w)); simpl; rewrite ?E; done.
  - unfold conn_WriteHeader. rewrite E. done.
Qed.

Lemma conn_Write_count b w : (conn_Write b w).1 = len (c_body (conn_Write b w).2) - len (c_body w).
Proof.
  destruct (conn_Write_spec b w) as (_ & _ & -> & ->). destruct (bodyAllowed (finalStatus w)); [|lia].
  rewrite len_app. lia.
Qed.

(** *** The status recorder *)

Section StatusRecorder.
Context `{Faithful W}.

Definition sr_good (s : statusRecorder W) : Prop :=
  good (sr_inner s) /\ sr_wroteHeader s = c_wroteHeader (view (sr_inner s)) /\
  sr_status s = finalStatus (view (sr_inner s)) /\ sr_bytes s = len (c_body (view (sr_inner s))).

Lemma sr_writeHeader_view c s : sr_good s -> informational c = false ->
  view (sr_inner (sr_WriteHeader c s)) = conn_WriteHeader c (view (sr_inner s)) /\ sr_good (sr_WriteHeader c s).
Proof.
  intros (Hg & Hw & Hs & Hb) Hi. unfold sr_WriteHeader, sr_good. destruct (sr_wroteHeader s) eqn:E.
  - split; [|by rewrite E]. unfold conn_WriteHeader. by rewrite <- Hw.
  - simpl. destruct (writeHeader_view c (sr_inner s) Hg Hi) as [-> Hg'].
    destruct (conn_WriteHeader_final c (view (sr_inner s)) Hi) as (-> & -> & ->). by rewrite <- Hw.
Qed.

Lemma sr_write_view b s : sr_good s ->
  (sr_Write b s).1 = (conn_Write b (view (sr_inner s))).1 /\
  view (sr_inner (sr_Write b s).2) = (conn_Write b (view (sr_inner s))).2 /\ sr_good (sr_Write b s).2.
Proof.
  intros Hg0. unfold sr_Write. set (s1 := if sr_wroteHeader s then s else _).
  assert (H1 : sr_good s1 /\ sr_wroteHeader s1 = true /\
               conn_Write b (view (sr_inner s)) = conn_Write b (view (sr_inner s1))).
  { unfold s1. destruct (sr_wroteHeader s) eqn:E; [done|].
    destruct (sr_writeHeader_view 200 s Hg0 eq_refl) as [Hv Hg1]. split; [done|].
    rewrite Hv. destruct Hg0 as (_ & Hw & _). split; [unfold sr_WriteHeader; by rewrite E|].
    apply conn_Write_commit. congruence. }
  destruct H1 as ((Hg & Hw & Hs & Hb) & Hwr & ->).
  destruct (write_view b (sr_inner s1) Hg) as (Hn & Hv & Hg').
  pose proof (conn_Write_count b (view (sr_inner s1))) as Hc.
  destruct (rw_Write b (sr_inner s1)) as [n w]. cbn [fst snd sr_inner sr_wroteHeader sr_status] in *.
  split; [done|]. split; [done|].
  destruct (conn_Write_spec b (view (sr_inner s1))) as (Hc1 & Hc2 & _).
  unfold sr_good. simpl. rewrite Hv, Hc1, Hc2. split; [done|]. split; [done|]. split; [done|]. lia.
Qed.

#[export, refine] Instance statusRecorder_Faithful : Faithful (statusRecorder W) :=
  {| view s := view (sr_inner s); good := sr_good |}.
Proof.
  - intros w. exact (header_view (sr_inner w)).
  - intros h w (Hg & Hw & Hs & Hb). simpl. destruct (setHeader_view h (sr_inner w) Hg) as [-> Hg'].
    unfold sr_good. simpl. destruct (setHeader_view h (sr_inner w) Hg) as [-> _]. done.
  - intros. by apply sr_writeHeader_view.
  - intros. by apply sr_write_view.
Defined.

Lemma newStatusRecorder_good w : good w -> fresh (view w) -> good (newStatusRecorder w).
Proof. intros Hg [Hf Hb]. unfold good, statusRecorder_Faithful, sr_good, finalStatus. simpl. by rewrite Hf, Hb. Qed.
End StatusRecorder.

(** *** The audit recorder *)

Lemma captureStep_spec max total b : 0 <= max ->
  captureStep max (stake (Z.to_nat max) total) b =
  (stake (Z.to_nat max) (total ++ b),
   negb (len b =? 0) && (max <? len (total ++ b))).
Proof.
  intros Hm. unfold captureStep. pose proof (len_nonneg b) as Hb. rewrite len_app.
  destruct (Z.le_gt_cases max (len total)) as [Hle|Hgt].
  - assert (len (stake (Z.to_nat max) total) = max) as -> by (unfold len in *; rewrite stake_length; lia).
    rewrite Z.sub_diag. simpl. rewrite sapp_nil_r, stake_app_le by (unfold len in Hle; lia). f_equal.
    destruct (len b =? 0) eqn:E; bools; simpl.
    + apply Z.ltb_ge. lia.
    + destruct (max <? len total + len b) eqn:E2; bools; [|lia]. apply Z.ltb_lt. lia.
  - rewrite (stake_ge (Z.to_nat max) total) by (unfold len in Hgt; lia).
    destruct (0 <? max - len total) eqn:E; bools; [|lia].
    rewrite stake_app_ge by (unfold len in Hgt; lia).
    replace (Z.to_nat max - String.length total)%nat with (Z.to_nat (max - len total))
      by (unfold len in *; lia).
    destruct (len b <? max - len total) eqn:E2; bools.
    + rewrite (stake_ge (Z.to_nat (max - len total)) b), (stake_ge (Z.to_nat (len b)) b)
        by (unfold len in *; lia).
      f_equal. rewrite Z.ltb_irrefl. symmetry. apply andb_false_iff. right. apply Z.ltb_ge. lia.
    + f_equal. destruct (len b =? 0) eqn:E3; bools; [lia|]. simpl.
      destruct (max <? len total + len b) eqn:E4; bools; [apply Z.ltb_lt; lia|apply Z.ltb_ge; lia].
Qed.

(** Capture of a stream of writes: a prefix, and whether anything was left out. *)
Definition captured (max : Z) (total : string) : string * bool :=
  (stake (Z.to_nat max) total, max <? len total).

Lemma captured_step max total b : 0 <= max ->
  ((captureStep max (captured max total).1 b).1,
   (captured max total).2 || (captureStep max (captured max total).1 b).2) = captured max (total ++ b).
Proof.
  intros Hm. unfold captured. cbn [fst snd]. rewrite captureStep_spec by done. cbn [fst snd]. f_equal.
  rewrite len_app. pose proof (len_nonneg b).
  destruct (len b =? 0) eqn:E; bools; simpl; [rewrite orb_false_r; f_equal; lia|].
  destruct (max <? len total) eqn:E1; bools; simpl; [|done]. symmetry. apply Z.ltb_lt. lia.
Qed.

Section AuditRecorder.
Context `{Faithful W}.

(** [total]: the concatenation of everything the handler wrote. *)
Definition ar_good (a : auditRecorder W) : Prop :=
  good (ar_inner a) /\ ar_wroteHeader a = c_wroteHeader (view (ar_inner a)) /\
  ar_status a = finalStatus (view (ar_inner a)).

Lemma ar_writeHeader_view c a : ar_good a -> informational c = false ->
  view (ar_inner (ar_WriteHeader c a)) = conn_WriteHeader c (view (ar_inner a)) /\ ar_good (ar_WriteHeader c a).
Proof.
  intros (Hg & Hw & Hs) Hi. unfold ar_WriteHeader, ar_good. destruct (ar_wroteHeader a) eqn:E.
  - split; [|by rewrite E]. unfold conn_WriteHeader. by rewrite <- Hw.
  - simpl. destruct (writeHeader_view c (ar_inner a) Hg Hi) as [-> Hg'].
    destruct (conn_WriteHeader_final c (view (ar_inner a)) Hi) as (-> & _ & ->). by rewrite <- Hw.
Qed.

Lemma ar_write_view b a : ar_good a ->
  (ar_Write b a).1 = (conn_Write b (view (ar_inner a))).1 /\
  view (ar_inner (ar_Write b a).2) = (conn_Write b (view (ar_inner a))).2 /\ ar_good (ar_Write b a).2.
Proof.
  intros Hg0. unfold ar_Write. set (a1 := if ar_wroteHeader a then a else _).
  assert (H1 : ar_good a1 /\ ar_wroteHeader a1 = true /\
               conn_Write b (view (ar_inner a)) = conn_Write b (view (ar_inner a1))).
  { unfold a1. destruct (ar_wroteHeader a) eqn:E; [done|].
    destruct (ar_writeHeader_view 200 a Hg0 eq_refl) as [Hv Hg1]. split; [done|].
    rewrite Hv. destruct Hg0 as (_ & Hw & _). split; [unfold ar_WriteHeader; by rewrite E|].
    apply conn_Write_commit. congruence. }
  destruct H1 as ((Hg & Hw & Hs) & Hwr & ->).
  destruct (write_view b (ar_inner a1) Hg) as (Hn & Hv & Hg').
  destruct (if ar_capture a1 then _ else _) as [body cut].
  destruct (rw_Write b (ar_inner a1)) as [n w]. cbn [fst snd ar_inner ar_wroteHeader ar_status] in *.
  split; [done|]. split; [done|].
  destruct (conn_Write_spec b (view (ar_inner a1))) as (Hc1 & Hc2 & _).
  unfold ar_good. simpl. rewrite Hv, Hc1, Hc2. done.
Qed.

#[export, refine] Instance auditRecorder_Faithful : Faithful (auditRecorder W) :=
  {| view a := view (ar_inner a); good := ar_good |}.
Proof.
  - intros w. exact (header_view (ar_inner w)).
  - intros h w (Hg & Hw & Hs). simpl. destruct (setHeader_view h (ar_inner w) Hg) as [-> Hg'].
    unfold ar_good. simpl. destruct (setHeader_view h (ar_inner w) Hg) as [-> _]. done.
  - intros. by apply ar_writeHeader_view.
  - intros. by apply ar_write_view.
Defined.

Lemma newAuditRecorder_good w max cap : good w -> fresh (view w) -> good (newAuditRecorder w max cap).
Proof. intros Hg [Hf _]. unfold good, auditRecorder_Faithful, ar_good, finalStatus. simpl. by rewrite Hf. Qed.
End AuditRecorder.

(** *** Handlers behind faithful writers *)

Lemma exec1_view `{Faithful W} o w : good w -> plainOp o = true ->
  view (exec1 o w) = exec1 o (view w) /\ good (exec1 o w).
Proof.
  intros Hg Hp. destruct o as [k v|k v|c|b|]; simpl in *; try done.
  - rewrite header_view. by apply setHeader_view.
  - rewrite header_view. by apply setHeader_view.
  - apply negb_true_iff in Hp. by apply writeHeader_view.
  - destruct (write_view b w Hg) as (_ & Hv & Hg'). done.
Qed.

Lemma exec_view `{Faithful W} ops w : good w -> plainOps ops = true ->
  view (exec ops w) = exec ops (view w) /\ good (exec ops w).
Proof.
  revert w. induction ops as [|o ops IH]; intros w Hg Hp; [done|].
  simpl in Hp. apply andb_true_iff in Hp as [Ho Hp].
  destruct (exec1_view o w Hg Ho) as [Hv Hg'].
  change (exec (o :: ops) w) with (exec ops (exec1 o w)).
  destruct (IH _ Hg' Hp) as [-> Hg'']. by rewrite Hv.
Qed.

(** *** Counters *)

Lemma conn_exec1_body o w : plainOp o = true -> wop_isWrite o = false -> c_body (exec1 o w) = c_body w.
Proof.
  destruct o; simpl; try done. intros Hc _. apply negb_true_iff in Hc.
  by apply conn_WriteHeader_final.
Qed.

Section Counters.
Context `{Faithful W}.

Lemma ar_exec1_counts o (a : auditRecorder W) : good a -> plainOp o = true ->
  ar_bytesTotal (exec1 o a) = ar_bytesTotal a + (len (c_body (view (exec1 o a))) - len (c_body (view a))) /\
  ar_capture (exec1 o a) = ar_capture a /\ ar_max (exec1 o a) = ar_max a /\
  (forall total, ar_capture a = true -> 0 <= ar_max a ->
     (ar_body a, ar_truncated a) = captured (ar_max a) total ->
     (ar_body (exec1 o a), ar_truncated (exec1 o a)) = captured (ar_max a) (total ++ wop_bytes o)).
Proof.
  intros Hg Ho. destruct (exec1_view o a Hg Ho) as [Hv Hg'].
  destruct (wop_isWrite o) eqn:Ew.
  - destruct o as [| | |b|]; try done. destruct (ar_write_view b a Hg) as (Hn & _ & _).
    change (exec1 (Write b) a) with (ar_Write b a).2 in *.
    rewrite Hv. change (exec1 (Write b) (view a)) with (conn_Write b (view a)).2.
    change (view (ar_inner a)) with (view a) in Hn. rewrite <- conn_Write_count, <- Hn. clear Hv Hg' Hn.
    unfold ar_Write. set (a1 := if ar_wroteHeader a then a else _).
    assert (ar_bytesTotal a1 = ar_bytesTotal a /\ ar_capture a1 = ar_capture a /\ ar_max a1 = ar_max a /\
            ar_body a1 = ar_body a /\ ar_truncated a1 = ar_truncated a) as (-> & -> & -> & -> & ->)
      by (unfold a1, ar_WriteHeader; by destruct (ar_wroteHeader a) eqn:E; rewrite ?E).
    destruct (rw_Write b (ar_inner a1)) as [n w].
    destruct (if ar_capture a then _ else _) as [body cut] eqn:Ec. cbn.
    split; [lia|]. split; [done|]. split; [done|]. intros total Hcap Hmax Hb. rewrite Hcap in Ec.
    injection Hb as Hb1 Hb2. rewrite <- captured_step by done.
    unfold captured. cbn [fst snd]. rewrite <- Hb1, <- Hb2, Ec. done.
  - rewrite Hv, conn_exec1_body by done.
    assert (Hsame : ar_bytesTotal (exec1 o a) = ar_bytesTotal a /\ ar_capture (exec1 o a) = ar_capture a /\
      ar_max (exec1 o a) = ar_max a /\ ar_body (exec1 o a) = ar_body a /\ ar_truncated (exec1 o a) = ar_truncated a).
    { destruct o; try done. simpl. unfold ar_WriteHeader. by destruct (ar_wroteHeader a). }
    destruct Hsame as (-> & -> & -> & -> & ->). split; [lia|]. split; [done|]. split; [done|].
    intros total _ _ ->. assert (wop_bytes o = "") as -> by (by destruct o). by rewrite sapp_nil_r.
Qed.

Lemma ar_exec_counts ops (a : auditRecorder W) : good a -> plainOps ops = true ->
  ar_bytesTotal (exec ops a) = ar_bytesTotal a + (len (c_body (view (exec ops a))) - len (c_body (view a))) /\
  (forall total, ar_capture a = true -> 0 <= ar_max a ->
     (ar_body a, ar_truncated a) = captured (ar_max a) total ->
     (ar_body (exec ops a), ar_truncated (exec ops a)) = captured (ar_max a) (total ++ ops_bytes ops)).
Proof.
  revert a. induction ops as [|o ops IH]; intros a Hg Hp.
  - split; [unfold exec; simpl; lia|]. intros total _ _ Hb. change (ops_bytes []) with "". by rewrite sapp_nil_r.
  - simpl in Hp. apply andb_true_iff in Hp as [Ho Hp].
    change (exec (o :: ops) a) with (exec ops (exec1 o a)).
    destruct (exec1_view o a Hg Ho) as [Hv Hg'].
    destruct (ar_exec1_counts o a Hg Ho) as (Hb & Hc & Hm & Hcap).
    destruct (IH (exec1 o a) Hg' Hp) as [Hb' Hcap']. split; [lia|].
    intros total H1 H2 H3. rewrite <- Hm.
    change (ops_bytes (o :: ops)) with (wop_bytes o ++ ops_bytes ops). rewrite sapp_assoc.
    apply Hcap'; [congruence|congruence|]. rewrite Hm. by apply Hcap.
Qed.
End Counters.

(** *** The request tee *)

Lemma tee_loop max chunks : 0 <= max -> forall total,
  foldl (readCloserTee_Read max) (captured max total) chunks = captured max (total ++ sconcat chunks).
Proof.
  intros Hm. induction chunks as [|p chunks IH]; intros total; cbn [foldl sconcat foldr]; [by rewrite sapp_nil_r|].
  assert (readCloserTee_Read max (captured max total) p = captured max (total ++ p)) as ->.
  { unfold readCloserTee_Read. destruct (0 <? len p) eqn:E; bools.
    - rewrite <- captured_step by done. unfold captured, capWriter_Write, captureStep. cbn [fst snd].
      set (buf := stake (Z.to_nat max) total).
      destruct (max - len buf <=? 0) eqn:E1; bools.
      + destruct (0 <? max - len buf) eqn:E2; bools; [lia|]. simpl. rewrite sapp_nil_r. f_equal.
        destruct (0 <? len p) eqn:E3; bools; [|lia]. by rewrite orb_true_r.
      + destruct (0 <? max - len buf) eqn:E2; bools; [done|lia].
    - assert (p = "") as -> by (apply len_zero; pose proof (len_nonneg p); lia). by rewrite sapp_nil_r. }
  rewrite IH. unfold sconcat. simpl. by rewrite <- sapp_assoc.
Qed.

Lemma tee_spec max chunks : 0 <= max -> tee max chunks = captured max (sconcat chunks).
Proof.
  intros Hm. unfold tee. change (sconcat chunks) with ("" ++ sconcat chunks).
  rewrite <- (tee_loop max chunks Hm ""). f_equal.
  unfold captured. change (len "") with 0. destruct (Z.to_nat max); simpl; f_equal; symmetry; by apply Z.ltb_ge.
Qed.

(** ** Theorems *)

Section Facts.
Context `{UnicodeTables} {L : Type} `{!Logger L}.
Abbreviation State := (ServerState L).

(** The request body is captured the same way however it arrives.  For any way the transport
    splits what the handler reads into pieces (empty ones included), the audit buffer holds exactly
    the first [max] bytes and the truncation flag is set iff more than [max] bytes were read. *)
Theorem tee_chunking_irrelevant (max : Z) (chunks : list string) (Hmax : 0 <= max) :
  tee max chunks = (stake (Z.to_nat max) (sconcat chunks), max <? len (sconcat chunks)).
Proof. by apply tee_spec. Qed.

(** The event the audit middleware logs for an endpoint handler on a fresh connection. *)
Lemma audit_serve `{Faithful W} (registry : option Registry) (opts0 : AuditOptions) (h : EHandler)
    (env : Env) (r : Request) (s : State) (w : W) :
  let opts := withDefaults opts0 in
  let ops := (h env false r).1 in
  let read := (h env false r).2 in
  good w -> fresh (view w) -> plainOps ops = true ->
  sconcat (env_chunks env read) = read ->
  let out := Audit registry opts0 (serve h) W _ env r (s, w) in
  let c := exec ops (view w) in
  view out.2 = c /\ good out.2 /\
  exists reqBody reqOversize respBody respTruncated,
    (CapturePayloads opts = true -> 0 <= MaxPayloadBytes opts ->
       (respBody, respTruncated) = captured (MaxPayloadBytes opts) (ops_bytes ops) /\
       (reqBody, reqOversize) = captured (MaxPayloadBytes opts) (match r_Body r with Some _ => read | None => "" end)) /\
    out.1 = logEvent env (auditEvent opts registry env r reqBody reqOversize (finalStatus c) (c_header c)
                            respBody respTruncated (len (c_body c))) (setRead read s).
Proof.
  intros opts ops read Hg Hf Hp Hch. unfold Audit. fold opts. cbn [fst snd].
  set (rec0 := newAuditRecorder w (MaxPayloadBytes opts) (CapturePayloads opts)).
  assert (Hg0 : good rec0) by (by apply newAuditRecorder_good).
  unfold serve. cbn [fst snd rw_Flusher auditRecorder_RW].
  destruct (h env false r) as [ops' read'] eqn:Eh. subst ops read. cbn [fst snd] in *.
  destruct (exec_view ops' rec0 Hg0 Hp) as [Hv Hg1].
  destruct (ar_exec_counts ops' rec0 Hg0 Hp) as [Hb Hcap].
  change (view rec0) with (view w) in *.
  destruct (if bool_decide (r_Body r <> None) && CapturePayloads opts then _ else _) as [rb ro] eqn:Er.
  cbn [fst snd sv_read setRead] in *.
  set (rec := exec ops' rec0) in *. change (view (ar_inner rec)) with (view rec).
  destruct Hg1 as (Hgi & Hw & Hs). change (view (ar_inner rec)) with (view rec) in *. rewrite Hv in *.
  split; [done|]. split; [done|].
  assert (Hempty : 0 <= MaxPayloadBytes opts -> captured (MaxPayloadBytes opts) "" = ("", false)).
  { intros Hm. unfold captured. change (len "") with 0. destruct (Z.to_nat (MaxPayloadBytes opts)); simpl; f_equal; by apply Z.ltb_ge. }
  exists rb, ro, (ar_body rec), (ar_truncated rec). split.
  - intros Hcp Hm. split.
    + specialize (Hcap ""). simpl in Hcap. rewrite Hcap; [done|done|done|]. by rewrite Hempty.
    + rewrite Hcp, andb_true_r in Er. destruct (r_Body r); cbn in Er; [|by rewrite Hempty].
      rewrite <- Er, tee_spec by done. by rewrite Hch.
  - rewrite Hs. change (rw_Header rec) with (rw_Header (ar_inner rec)). rewrite header_view.
    change (view (ar_inner rec)) with (view rec). rewrite Hv.
    assert (ar_bytesTotal rec = len (c_body (exec ops' (view w)))) as ->; [|done].
    destruct Hf as [_ Hf]. rewrite Hb, Hf. change (ar_bytesTotal rec0) with 0. change (len "") with 0. lia.
Qed.


(** C24: no sensitive header or query value reaches the audit log.  In the payload of any logged
    event, a request header, query parameter or response header whose name contains a redaction key
    carries only the marker. *)
Theorem audit_payload_redacted (opts : AuditOptions) (registry : option Registry) (env : Env)
  (r : Request) (reqBody : string) (reqOversize : bool) (status : Z) (respHeader : Header)
  (respBody : string) (respTruncated : bool) (bytesTotal : Z) (p : Payload) (k : string) (vs : list string)
  (Hp : ev_Payload (auditEvent opts registry env r reqBody reqOversize status respHeader respBody
                      respTruncated bytesTotal) = Some p)
  (Hk : sensitive (ToLower k) (RedactKeys opts))
  (Hin : RequestHeaders p !! k = Some vs \/ RequestQuery p !! k = Some vs \/ ResponseHeaders p !! k = Some vs) :
  vs = ["[redacted]"].
Proof.
  unfold auditEvent in Hp. destruct (match registry with Some _ => _ | None => _ end) as [g n].
  cbn [ev_Payload] in Hp. destruct (CapturePayloads opts); [|done]. injection Hp as <-.
  assert (Hs : forall m, SanitizeHeaders m (RedactKeys opts) !! k = Some vs -> vs = ["[redacted]"]).
  { intros m. rewrite Sanitize_lookup. destruct (m !! k); [|done]. simpl. unfold redactValue, matchesRedactKey.
    apply redact_loop_spec in Hk as ->. by intros [= <-]. }
  unfold auditPayload in Hin. cbn [RequestHeaders RequestQuery ResponseHeaders] in Hin.
  destruct (CaptureHeaders opts); [|by rewrite !lookup_empty in Hin; destruct Hin as [?|[?|?]]].
  destruct Hin as [Hi|[Hi|Hi]]; exact (Hs _ Hi).
Qed.

(** A rejected request never reaches the handler.  When the chain refuses and no identity was
    attached beforehand, the middleware answers 401 (500 for an internal error), with a
    [WWW-Authenticate] challenge for the credential errors; neither the handler nor the audit log
    is touched, whatever they are. *)
Theorem rejected_never_reaches_handler (chain : Chain) (next : Handler State) (env : Env) (r : Request)
  (s : State) (w : conn) (e : auth_error)
  (Hfresh : fresh w) (Hpre : FromContext (r_Context r) = None) (Hrej : Chain_Authenticate chain r = Err e) :
  let out := IdentityMW chain next conn _ env r (s, w) in
  out.1 = touchKeys (Chain_touches chain r) s /\
  finalStatus out.2 = (match e with ErrOther _ => 500 | _ => 401 end) /\
  (Header_Get (c_sent out.2) "WWW-Authenticate" <> "" \/ exists msg, e = ErrOther msg).
Proof.
  cbv zeta. unfold IdentityMW. rewrite Hpre, Hrej. unfold respond. cbn [fst snd]. split; [done|].
  destruct Hfresh as [Hf _]. unfold exec, finalStatus, authErrorReply.
  destruct e as [| |msg]; simpl; unfold conn_WriteHeader; simpl; rewrite Hf; simpl; unfold conn_Write; simpl.
  - split; [done|]. left. unfold Header_Get, Values_Get, Header_Set.
    rewrite lookup_insert_ne by done. by rewrite lookup_insert_eq.
  - split; [done|]. left. unfold Header_Get, Values_Get, Header_Set.
    rewrite lookup_insert_ne by done. by rewrite lookup_insert_eq.
  - split; [done|]. right. by exists msg.
Qed.

End Facts.

(** ** Witnesses *)

#[local] Existing Instance ascii_tables.
#[local] Existing Instance merge_slice.

Definition sampleEnv : Env := mkEnv 1000 (1000 + 7 * Millisecond) "req-1" "ev-1" (fun _ => false) 0 (1, 2)
  (fun s => [stake 1 s; ""; sdrop 1 s]).
Definition sampleRequest : Request :=
  mkRequest "POST" "/v1/echo" "/v1/echo" "token=abc&x=1" {["Authorization" := ["Bearer x"]]} "h" false "10.0.0.1"
    (Some "ping") ∅ [] (mkContext None "req-1" true None).
Definition sampleState : ServerState MemoryLogger := mkState NewMemoryLogger None [] "" true ∅ [].
Definition sampleOpts : AuditOptions := mkAuditOptions true true 3 ["token"; "authorization"].
Definition sampleRegistry : Registry := mkRegistry [] [].
(** Reads the whole body and answers 201 in two writes. *)
Definition sampleHandler : EHandler := fun _ _ r =>
  ([HSet "X-Token" "t"; WriteHeader 201; Write "po"; Write "ng"], default "" (r_Body r)).

Lemma tee_chunking_irrelevant_witness : tee 3 ["p"; ""; "in"; "g"] = ("pin", true).
Proof. etransitivity; [apply (tee_chunking_irrelevant 3); lia|by vm_compute]. Defined.


Definition sampleAuditEvent : Event :=
  auditEvent sampleOpts None sampleEnv sampleRequest "" false 200 ∅ "" false 0.

Lemma audit_payload_redacted_witness :
  exists p, ev_Payload sampleAuditEvent = Some p /\ RequestQuery p !! "token" = Some ["[redacted]"].
Proof.
  destruct (ev_Payload sampleAuditEvent) as [p|] eqn:E; [|by vm_compute in E]. exists p. split; [done|].
  destruct (RequestQuery p !! "token") as [vs|] eqn:Ev.
  - f_equal.
    apply (audit_payload_redacted sampleOpts None sampleEnv sampleRequest "" false 200 ∅ "" false 0 p "token" vs).
    + exact E.
    + apply (bool_decide_unpack _). by vm_compute.
    + right. by left.
  - exfalso. revert Ev. assert (Some p = ev_Payload sampleAuditEvent) as Hp by done.
    vm_compute in Hp. injection Hp as ->. by vm_compute.
Defined.

Lemma rejected_never_reaches_handler_witness :
  finalStatus (IdentityMW (L := MemoryLogger) (serverChain false sampleAuth None []) (fun W _ _ _ sw => sw) conn _
                 sampleEnv sampleRequest (sampleState, newConn)).2 = 401.
Proof.
  apply (rejected_never_reaches_handler (serverChain false sampleAuth None []) (fun W _ _ _ sw => sw) sampleEnv
           sampleRequest sampleState newConn ErrInvalidCredential); by vm_compute.
Defined.
