(* ===== verification/Config.v ===== *)
(** * Configuration ([pkg/config])

    The configuration document, environment expansion, defaults and validation.  Parsing YAML is
    [yaml.v3]'s job: [Load] takes it as a parameter; so are the process environment and the file. *)
From S2P Require Import Prelude GoStrings GoNum GoTime Inbound.

(** ** Data *)

Record ShutdownConfig := mkShutdown { GracePeriod : Duration; PreShutdownDelay : Duration }.
Record TLSConfig := mkTLS { tls_Enabled : bool; tls_CertFile : string; tls_KeyFile : string }.
Record ServerConfig := mkServerConfig {
  sc_Name : string; sc_Address : string; sc_BaseURL : string; sc_Description : string;
  sc_ReadHeaderTimeout : Duration; sc_Shutdown : ShutdownConfig; sc_TLS : TLSConfig }.
Record OIDCConfig := mkOIDCConfig {
  oc_Enabled : bool; oc_Issuer : string; oc_Audience : string; oc_ClientID : string;
  oc_ClientSecret : string; oc_AllowedClients : list string; oc_ClockSkewSeconds : Z;
  oc_JWKSCacheTTL : Duration; oc_SkipSignatureVerification : bool }.
Record APIKeysConfig := mkAPIKeysConfig {
  kc_File : list FileAPIKey; kc_DBEnabled : bool; kc_HeaderName : string; kc_QueryParamName : string }.
Record AuthConfig := mkAuthConfig {
  ac_AllowAnonymous : bool; ac_RequireForAPI : bool; ac_RequireForPortal : bool }.
Record DatabaseConfig := mkDatabaseConfig {
  dc_URL : string; dc_MaxOpenConns : Z; dc_MaxIdleConns : Z; dc_ConnMaxLifetime : Duration }.
Record AuditConfig := mkAuditConfig {
  au_Enabled : bool; au_RetentionDays : Z; au_RedactKeys : list string;
  au_CapturePayloads : option bool; au_CaptureHeaders : option bool; au_MaxPayloadBytes : Z }.
Record PortalConfig := mkPortalConfig {
  po_Enabled : bool; po_CookieName : string; po_CookieSecret : string; po_CookieSecure : bool;
  po_OIDCRedirectPath : string }.
Record EndpointsConfig := mkEndpointsConfig {
  ec_Identity : bool; ec_Data : bool; ec_Failure : bool; ec_Streaming : bool; ec_Pagination : bool;
  ec_Methods : bool; ec_Security : bool; ec_Export : bool; ec_Echo : bool }.
Record PlexaraRegisterConfig := mkRegister {
  pr_Enabled : bool; pr_AdminURL : string; pr_AuthHeader : string; pr_ConnName : string }.

Record Config := mkConfig {
  cf_Server : ServerConfig;
  cf_OIDC : OIDCConfig;
  cf_APIKeys : APIKeysConfig;
  cf_BearerTokens : list FileBearerToken;
  cf_Auth : AuthConfig;
  cf_Database : DatabaseConfig;
  cf_Audit : AuditConfig;
  cf_Portal : PortalConfig;
  cf_Endpoints : EndpointsConfig;
  cf_Register : PlexaraRegisterConfig
}.

Definition CapturePayloadsEnabled (a : AuditConfig) : bool :=
  match au_CapturePayloads a with None => true | Some b => b end.
Definition CaptureHeadersEnabled (a : AuditConfig) : bool :=
  match au_CaptureHeaders a with None => true | Some b => b end.

(** ** Environment expansion *)

Definition identStart (c : ascii) : bool := isUpper c || isLower c || Ascii.eqb c "_".
Definition identByte (c : ascii) : bool := identStart c || isDigit c.

(** The longest run of identifier bytes. *)
Fixpoint spanIdent (s : string) : string * string :=
  match s with
  | String c s' => if identByte c then let '(a, b) := spanIdent s' in (String c a, b) else ("", s)
  | EmptyString => ("", "")
  end.

(** A match of the pattern after its leading [${]: the name, the default (empty when there is none)
    and the rest of the text. *)
Definition matchVar (s : string) : option (string * string * string) :=
  match s with
  | String c _ =>
    if identStart c then
      let '(name, rest) := spanIdent s in
      if HasPrefix rest "}" then Some (name, "", sdrop 1 rest)
      else if HasPrefix rest ":-" then
        let '(def, rest', found) := Cut (sdrop 2 rest) "}" in
        if found then Some (name, def, rest') else None
      else None
    else None
  | EmptyString => None
  end.

Definition lookupOr (env : gmap string string) (name def : string) : string :=
  match env !! name with Some v => v | None => def end.

(** [ReplaceAllStringFunc]: left to right, matches do not overlap and replacements are not
    scanned again.  [fuel] bounds the length of the text. *)
Fixpoint expand_loop (fuel : nat) (env : gmap string string) (s : string) : string :=
  match fuel, s with
  | S f, String c s1 =>
    match (if Ascii.eqb c "$" && HasPrefix s1 "{" then matchVar (sdrop 1 s1) else None) with
    | Some (name, def, rest) => lookupOr env name def ++ expand_loop f env rest
    | None => String c (expand_loop f env s1)
    end
  | _, _ => s
  end.
Definition expandEnv (env : gmap string string) (s : string) : string :=
  expand_loop (String.length s) env s.

(** ** Defaults *)

Definition portFromAddr (addr : string) : string := default ":8080" (LastFrom addr ":").

Definition strDefault (s d : string) : string := if String.eqb s "" then d else s.
Definition intDefault (z d : Z) : Z := if z =? 0 then d else z.

Definition defaultRedactKeys : list string :=
  ["password"; "token"; "secret"; "authorization"; "api_key";
   "api-key"; "credentials"; "bearer"; "cookie"; "jwt";
   "session_id"; "private_key"; "passwd"].

Definition DefaultServerDescription : string :=
"api-test is a controllable HTTP REST fixture used to exercise API
gateways (Plexara's in particular) end-to-end.

Endpoints are deliberately simple and deterministic. Their job is not to
compute anything useful; their job is to make a gateway's behavior
observable. Every request is recorded in a Postgres-backed audit log,
so a tester can compare what a client sent, what reached this server,
and what came back.

Endpoints are grouped by what they help you test:
  - identity:   whoami, headers, echo - verify the gateway forwards
                identity, args, and HTTP headers, with redaction.
  - data:       fixed, sized, lorem - deterministic outputs for
                testing dedup, response-size handling, and caching.
  - failure:    status, slow, flaky - controlled failure modes
                (errors, latency, probabilistic flakiness) for retry
                and timeout policy testing.
  - streaming:  chunked, sse, ndjson - long-running responses.
  - pagination: link, odata, cursor variants - one endpoint per cursor
                style the gateway recognizes.
  - methods:    GET/POST/PUT/PATCH/DELETE/HEAD on /v1/method/echo.
  - security:   probe targets the gateway should refuse to forward.
  - export:     large/long-running targets exercising api_export.
  - echo:       catch-all that returns the request verbatim.

This server is not a data source. Do not call it for real information.".

Definition applyDefaults (c : Config) : Config :=
  let s := cf_Server c in
  let address := strDefault (sc_Address s) ":8080" in
  mkConfig
    (mkServerConfig (strDefault (sc_Name s) "api-test") address
       (strDefault (sc_BaseURL s) ("http://localhost" ++ portFromAddr address))
       (strDefault (sc_Description s) DefaultServerDescription)
       (intDefault (sc_ReadHeaderTimeout s) (10 * Second))
       (mkShutdown (intDefault (GracePeriod (sc_Shutdown s)) (25 * Second))
                   (intDefault (PreShutdownDelay (sc_Shutdown s)) (2 * Second)))
       (sc_TLS s))
    (let o := cf_OIDC c in
     mkOIDCConfig (oc_Enabled o) (oc_Issuer o) (oc_Audience o) (oc_ClientID o) (oc_ClientSecret o)
       (oc_AllowedClients o) (intDefault (oc_ClockSkewSeconds o) 30) (intDefault (oc_JWKSCacheTTL o) Hour)
       (oc_SkipSignatureVerification o))
    (let k := cf_APIKeys c in
     mkAPIKeysConfig (kc_File k) (kc_DBEnabled k) (strDefault (kc_HeaderName k) "X-API-Key")
       (strDefault (kc_QueryParamName k) "api_key"))
    (cf_BearerTokens c) (cf_Auth c)
    (let d := cf_Database c in
     mkDatabaseConfig (dc_URL d) (intDefault (dc_MaxOpenConns d) 25) (intDefault (dc_MaxIdleConns d) 5)
       (intDefault (dc_ConnMaxLifetime d) Hour))
    (let a := cf_Audit c in
     mkAuditConfig (au_Enabled a) (intDefault (au_RetentionDays a) 7)
       (match au_RedactKeys a with [] => defaultRedactKeys | l => l end)
       (au_CapturePayloads a) (au_CaptureHeaders a) (intDefault (au_MaxPayloadBytes a) (Z.shiftl 1 20)))
    (let p := cf_Portal c in
     mkPortalConfig (po_Enabled p) (strDefault (po_CookieName p) "api_test_session") (po_CookieSecret p)
       (po_CookieSecure p) (strDefault (po_OIDCRedirectPath p) "/portal/auth/callback"))
    (cf_Endpoints c)
    (let r := cf_Register c in
     mkRegister (pr_Enabled r) (pr_AdminURL r) (pr_AuthHeader r) (strDefault (pr_ConnName r) "api-test")).

(** ** Validation *)

Definition hasInboundAuth (c : Config) : bool :=
  oc_Enabled (cf_OIDC c) || negb (bool_decide (length (kc_File (cf_APIKeys c)) = 0%nat))
  || kc_DBEnabled (cf_APIKeys c) || negb (bool_decide (length (cf_BearerTokens c) = 0%nat)).

Definition complaints (env : gmap string string) (c : Config) : list string :=
  ((if (au_Enabled (cf_Audit c) || kc_DBEnabled (cf_APIKeys c)) && String.eqb (dc_URL (cf_Database c)) ""
    then ["database.url is required when audit.enabled or api_keys.db.enabled"] else [])
   ++ (if po_Enabled (cf_Portal c) && String.eqb (po_CookieSecret (cf_Portal c)) ""
       then ["portal.cookie_secret is required when portal.enabled=true"] else [])
   ++ (if oc_Enabled (cf_OIDC c) && String.eqb (oc_Issuer (cf_OIDC c)) ""
       then ["oidc.issuer is required when oidc.enabled=true"] else [])
   ++ (if oc_SkipSignatureVerification (cf_OIDC c)
          && negb (String.eqb (default "" (env !! "APITEST_INSECURE")) "1")
       then ["oidc.skip_signature_verification requires APITEST_INSECURE=1"] else [])
   ++ (if negb (hasInboundAuth c) && negb (ac_AllowAnonymous (cf_Auth c))
       then ["no inbound auth method enabled: configure oidc, api_keys, bearer.tokens, or auth.allow_anonymous"]
       else [])
   ++ (if pr_Enabled (cf_Register c) && String.eqb (pr_AdminURL (cf_Register c)) ""
       then ["plexara.register.admin_url is required when plexara.register.enabled=true"] else []))%list.

Definition Validate (env : gmap string string) (c : Config) : res string unit :=
  match complaints env c with
  | [] => Ok tt
  | errs => Err ("invalid config: " ++ Join errs "; ")
  end.

(** [raw] is what reading the file at [path] gives, [unmarshal] is [yaml.Unmarshal] into a zero [Config]. *)
Definition Load (env : gmap string string) (path : string) (raw : res string string)
    (unmarshal : string -> res string Config) : res string Config :=
  match raw with
  | Err e => Err ("read config " ++ path ++ ": " ++ e)
  | Ok text =>
    match unmarshal (expandEnv env text) with
    | Err e => Err ("parse config: " ++ e)
    | Ok cfg =>
      let cfg := applyDefaults cfg in
      match Validate env cfg with Err e => Err e | Ok _ => Ok cfg end
    end
  end.

(** ** Lemmas *)

Lemma strDefault_idem s d : strDefault (strDefault s d) d = strDefault s d.
Proof. unfold strDefault. destruct (String.eqb_spec s "") as [->|]; [by destruct (String.eqb d "")|].
  destruct (String.eqb_spec s ""); congruence. Qed.

Lemma strDefault_nonempty s d : d <> "" -> strDefault s d <> "".
Proof. intros. unfold strDefault. by case_if. Qed.

Lemma strDefault_other s d d' : d <> "" -> strDefault (strDefault s d) d' = strDefault s d.
Proof.
  intros. unfold strDefault at 1. destruct (String.eqb_spec (strDefault s d) "") as [E|]; [|done].
  by apply strDefault_nonempty in E.
Qed.

Lemma intDefault_idem z d : intDefault (intDefault z d) d = intDefault z d.
Proof. unfold intDefault. destruct (z =? 0) eqn:E; [by destruct (d =? 0)|]. by rewrite E. Qed.

Lemma spanIdent_app s : let '(a, b) := spanIdent s in s = a ++ b.
Proof.
  induction s as [|c s IH]; simpl; [done|]. destruct (identByte c); [|done].
  destruct (spanIdent s) as [a b]. by rewrite IH.
Qed.

Lemma matchVar_length s name def rest :
  matchVar s = Some (name, def, rest) -> (String.length rest < String.length s)%nat.
Proof.
  unfold matchVar. destruct s as [|c s]; [done|]. destruct (identStart c); [|done].
  pose proof (spanIdent_app (String c s)) as Happ. destruct (spanIdent (String c s)) as [a b].
  assert (Hl : (String.length b <= String.length (String c s))%nat) by (rewrite Happ, sapp_length; lia).
  destruct (HasPrefix b "}") eqn:E1.
  - intros [= _ _ <-]. apply HasPrefix_spec in E1 as [t ->]. simpl in *. lia.
  - destruct (HasPrefix b ":-") eqn:E2; [|done]. apply HasPrefix_spec in E2 as [t ->].
    destruct (Cut (sdrop 2 (":-" ++ t)) "}") as [[d r] f] eqn:Ec. destruct f; [|done].
    intros [= _ _ <-]. apply Cut_length in Ec. simpl in *. lia.
Qed.

(** The fuel is enough: more changes nothing. *)
Lemma expand_loop_fuel env f : forall g s,
  (String.length s <= f)%nat -> (String.length s <= g)%nat -> expand_loop f env s = expand_loop g env s.
Proof.
  induction f as [|f IH]; intros g s Hf Hg.
  - destruct s; [by destruct g|simpl in Hf; lia].
  - destruct s as [|c s]; [by destruct g|]. destruct g as [|g]; [simpl in Hg; lia|]. cbn [expand_loop String.length] in *.
    destruct (if Ascii.eqb c "$" && HasPrefix s "{" then _ else _) as [[[name def] rest]|] eqn:E.
    + f_equal. destruct (Ascii.eqb c "$" && HasPrefix s "{") eqn:Eb; [|done]. bools.
      apply matchVar_length in E. rewrite sdrop_length in E. apply IH; lia.
    + f_equal. apply IH; lia.
Qed.

Lemma expandEnv_cons env c s :
  expandEnv env (String c s) =
  match (if Ascii.eqb c "$" && HasPrefix s "{" then matchVar (sdrop 1 s) else None) with
  | Some (name, def, rest) => lookupOr env name def ++ expandEnv env rest
  | None => String c (expandEnv env s)
  end.
Proof.
  unfold expandEnv. cbn [String.length expand_loop].
  destruct (if Ascii.eqb c "$" && HasPrefix s "{" then _ else _) as [[[name def] rest]|] eqn:E; [|done].
  f_equal. destruct (Ascii.eqb c "$" && HasPrefix s "{") eqn:Eb; [|done].
  apply matchVar_length in E. rewrite sdrop_length in E. apply expand_loop_fuel; lia.
Qed.

Lemma expandEnv_plain env pre s : ContainsByte pre "$" = false -> expandEnv env (pre ++ s) = pre ++ expandEnv env s.
Proof.
  induction pre as [|c pre IH]; [done|]. simpl. intros [Hc Hp]%orb_false_iff.
  rewrite expandEnv_cons, Hc. simpl. by rewrite IH.
Qed.

Lemma spanIdent_ident name c rest :
  string_forallb identByte name = true -> identByte c = false -> spanIdent (name ++ String c rest) = (name, String c rest).
Proof.
  intros Hn Hc. induction name as [|d name IH]; simpl in *; [by rewrite Hc|].
  apply andb_true_iff in Hn as [-> Hn]. by rewrite IH.
Qed.

(** A well-formed variable name. *)
Definition isIdent (name : string) : bool :=
  match name with String c _ => identStart c && string_forallb identByte name | EmptyString => false end.

Lemma matchVar_default name def rest :
  isIdent name = true -> ContainsByte def "}" = false ->
  matchVar (name ++ ":-" ++ def ++ "}" ++ rest) = Some (name, def, rest).
Proof.
  intros Hn Hd. unfold matchVar, isIdent in *. destruct name as [|c name]; [done|].
  apply andb_true_iff in Hn as [Hs Hn].
  change (String c name ++ ":-" ++ def ++ "}" ++ rest) with
    (String c (name ++ String ":" (String "-" (def ++ String "}" rest)))).
  cbv beta iota. rewrite Hs.
  change (String c (name ++ ?x)) with (String c name ++ x).
  rewrite spanIdent_ident by done. cbn [HasPrefix]. simpl HasPrefix. cbv iota.
  change (sdrop 2 (String ":" (String "-" (def ++ String "}" rest)))) with (def ++ String "}" rest).
  by rewrite Cut_found.
Qed.

(** ** Theorems *)

(** Defaulting is idempotent and leaves nothing required unset: applying the defaults twice is
    applying them once, and afterwards the server name, address, base URL, API-key header and query
    names, cookie name and redirect path are non-empty, the redaction list is non-empty and the
    capture limit is not zero. *)
Theorem applyDefaults_idempotent (c : Config) :
  applyDefaults (applyDefaults c) = applyDefaults c /\
  (let c' := applyDefaults c in
   sc_Name (cf_Server c') <> "" /\ sc_Address (cf_Server c') <> "" /\ sc_BaseURL (cf_Server c') <> "" /\
   kc_HeaderName (cf_APIKeys c') <> "" /\ kc_QueryParamName (cf_APIKeys c') <> "" /\
   po_CookieName (cf_Portal c') <> "" /\ po_OIDCRedirectPath (cf_Portal c') <> "" /\
   au_RedactKeys (cf_Audit c') <> [] /\ au_MaxPayloadBytes (cf_Audit c') <> 0).
Proof.
  split.
  - destruct c as [s o k b a db au p e r], s, o, k, db, au as [? ? keys], p, r, sc_Shutdown0.
    unfold applyDefaults. cbn -[strDefault intDefault portFromAddr Z.shiftl DefaultServerDescription].
    rewrite !strDefault_idem, !intDefault_idem. by destruct keys.
  - cbn -[strDefault intDefault portFromAddr Z.shiftl DefaultServerDescription].
    repeat split; try (by apply strDefault_nonempty).
    + by destruct (au_RedactKeys (cf_Audit c)).
    + unfold intDefault. case_if; done.
Qed.

(** Environment expansion is single-pass.  A reference [${NAME:-default}] is replaced by the
    variable's value (or the default when it is unset), the text before it is kept, expansion goes
    on after it, and the substituted value is never scanned for further references. *)
Theorem expandEnv_single_pass (env : gmap string string) (pre name def post : string)
  (Hpre : ContainsByte pre "$" = false) (Hname : isIdent name = true) (Hdef : ContainsByte def "}" = false) :
  expandEnv env (pre ++ "${" ++ name ++ ":-" ++ def ++ "}" ++ post) =
  pre ++ lookupOr env name def ++ expandEnv env post.
Proof.
  rewrite expandEnv_plain by done. f_equal.
  change ("${" ++ ?x) with (String "$" (String "{" x)). rewrite expandEnv_cons. simpl andb. cbv iota.
  change (sdrop 1 (String "{" ?x)) with x. by rewrite matchVar_default.
Qed.

(** C32: a configuration that loads is safe to serve.  [Load] returns a configuration only if OIDC, a
    key or token of the file or the key table is configured for inbound authentication, or anonymous
    access is explicitly allowed; signature verification is skipped only under [APITEST_INSECURE=1];
    an enabled portal has a cookie secret, enabled OIDC an issuer, enabled auditing and an enabled key
    table a database, enabled registration a URL. *)
Theorem load_is_validated (env : gmap string string) (path : string)
  (raw : res string string) (unmarshal : string -> res string Config) (c : Config)
  (Hload : Load env path raw unmarshal = Ok c) :
  (oc_Enabled (cf_OIDC c) = true \/ kc_File (cf_APIKeys c) <> [] \/ kc_DBEnabled (cf_APIKeys c) = true \/
   cf_BearerTokens c <> [] \/ ac_AllowAnonymous (cf_Auth c) = true) /\
  (oc_SkipSignatureVerification (cf_OIDC c) = true -> env !! "APITEST_INSECURE" = Some "1") /\
  (po_Enabled (cf_Portal c) = true -> po_CookieSecret (cf_Portal c) <> "") /\
  (au_Enabled (cf_Audit c) = true -> dc_URL (cf_Database c) <> "") /\
  (kc_DBEnabled (cf_APIKeys c) = true -> dc_URL (cf_Database c) <> "") /\
  (oc_Enabled (cf_OIDC c) = true -> oc_Issuer (cf_OIDC c) <> "") /\
  (pr_Enabled (cf_Register c) = true -> pr_AdminURL (cf_Register c) <> "").
Proof.
  unfold Load in Hload. destruct raw as [text|]; [|done].
  destruct (unmarshal (expandEnv env text)) as [c0|]; [|done]. set (c1 := applyDefaults c0) in *.
  destruct (Validate env c1) eqn:Hv; [|done]. injection Hload as ->.
  unfold Validate in Hv. destruct (complaints env c) eqn:Hc; [|done]. clear Hv. unfold complaints in Hc.
  repeat (apply app_eq_nil in Hc as [?Hc1 Hc]).
  repeat match goal with H : (if ?b then _ else _) = [] |- _ => destruct b eqn:?; [done|]; clear H end.
  repeat split.
  - unfold hasInboundAuth in *. destruct (ac_AllowAnonymous (cf_Auth c)); [tauto|]. destruct (oc_Enabled (cf_OIDC c)); [tauto|].
    destruct (kc_DBEnabled (cf_APIKeys c)); [tauto|]. destruct (kc_File (cf_APIKeys c)); [|by right; left].
    destruct (cf_BearerTokens c); [done|]. by right; right; right; left.
  - intros Hs. rewrite Hs in *. simpl in *. bools. destruct (env !! "APITEST_INSECURE"); simpl in *; congruence.
  - intros Hs E. rewrite Hs, E in *. done.
  - intros Hs E. rewrite Hs, E in *. done.
  - intros Hs E. rewrite Hs, E, ?orb_true_r in *. done.
  - intros Hs E. rewrite Hs, E in *. done.
  - intros Hs E. rewrite Hs, E in *. done.
Qed.

(** ** Witnesses *)

Definition zeroConfig : Config :=
  mkConfig (mkServerConfig "" "" "" "" 0 (mkShutdown 0 0) (mkTLS false "" ""))
    (mkOIDCConfig false "" "" "" "" [] 0 0 false) (mkAPIKeysConfig [] false "" "") []
    (mkAuthConfig true false false) (mkDatabaseConfig "" 0 0 0) (mkAuditConfig false 0 [] None None 0)
    (mkPortalConfig false "" "" false "") (mkEndpointsConfig true true true true true true true true true)
    (mkRegister false "" "" "").

Lemma applyDefaults_idempotent_witness :
  applyDefaults (applyDefaults zeroConfig) = applyDefaults zeroConfig.
Proof. apply (applyDefaults_idempotent zeroConfig). Defined.

Lemma expandEnv_single_pass_witness :
  expandEnv {["DSN" := "${HOME}"]} ("url: " ++ "${" ++ "DSN" ++ ":-" ++ "none" ++ "}" ++ newline)
  = "url: " ++ "${HOME}" ++ newline.
Proof.
  etransitivity; [apply (expandEnv_single_pass {["DSN" := "${HOME}"]} "url: " "DSN" "none" newline)|];
    by vm_compute.
Defined.

(** Keys in the table, a portal and auditing, all with what they need. *)
Definition keysConfig : Config :=
  mkConfig (cf_Server zeroConfig) (cf_OIDC zeroConfig) (mkAPIKeysConfig [] true "" "") [] (mkAuthConfig false false false)
    (mkDatabaseConfig "postgres://db/audit" 0 0 0) (mkAuditConfig true 0 [] None None 0)
    (mkPortalConfig true "" "0123456789abcdef" false "") (cf_Endpoints zeroConfig) (cf_Register zeroConfig).

Lemma load_is_validated_witness :
  kc_DBEnabled (cf_APIKeys (applyDefaults keysConfig)) = true /\ dc_URL (cf_Database (applyDefaults keysConfig)) <> "".
Proof.
  split; [done|].
  apply (load_is_validated ∅ "a.yml" (Ok "") (fun _ => Ok keysConfig) (applyDefaults keysConfig)); by vm_compute.
Defined.
