(* ===== verification/Oidc.v ===== *)
(** * The OIDC token validator ([pkg/auth/oidc.go])

    Discovery, the cache of the provider's signing keys with its time to live and its grace period,
    and the validation of bearer tokens.  What a GET on a provider's URL returns is an argument;
    parsing and verifying a JWT is the class [Jwt], whose laws are what the library documents.  A
    call reads the clock several times; [Clock] names the instants.  Errors carry the program's own
    text, without that of the library error they wrap. *)
From S2P Require Import Prelude GoStrings GoNum GoUrl Json JsonParse GoTime Http Inbound Config.

(** ** Keys *)

Record PublicKey := mkPublicKey { pk_N : Z; pk_E : Z }.
#[global] Instance PublicKey_eq_dec : EqDecision PublicKey.
Proof. solve_decision. Defined.

(** [big.Int.SetBytes]: the big-endian value. *)
Definition SetBytes (s : string) : Z := foldl (fun acc c => acc * 256 + byte c) 0 (list_ascii_of_string s).

Definition decodeRSA (nB64 eB64 : string) : res string PublicKey :=
  match RawURLEncoding_DecodeString nB64 with
  | None => Err "decode n"
  | Some n =>
    match RawURLEncoding_DecodeString eB64 with
    | None => Err "decode e"
    | Some e =>
      if 4 <? len e then Err ("e too large: " ++ Itoa (len e) ++ " bytes")
      else Ok (mkPublicKey (SetBytes n)
                 (foldl (fun ei c => wrap64 (wrap64 (Z.shiftl ei 8) + byte c)) 0 (list_ascii_of_string e)))
    end
  end.

Record jwkRSA := mkJwk { jwk_KTY : string; jwk_Use : string; jwk_Alg : string; jwk_Kid : string; jwk_N : string; jwk_E : string }.
Definition zeroJwk : jwkRSA := mkJwk "" "" "" "" "" "".

(** The filters of the loop in [refreshJWKS], and what an entry contributes. *)
Definition rsAlgs : list string := ["RS256"; "RS384"; "RS512"].
Definition jwkUsable (k : jwkRSA) : bool :=
  String.eqb (jwk_KTY k) "RSA"
  && (String.eqb (jwk_Use k) "" || String.eqb (jwk_Use k) "sig")
  && (String.eqb (jwk_Alg k) "" || existsb (String.eqb (jwk_Alg k)) rsAlgs).
Definition jwkKey (k : jwkRSA) : option PublicKey :=
  if jwkUsable k then res_opt (decodeRSA (jwk_N k) (jwk_E k)) else None.
Definition collectKeys (ks : list jwkRSA) : gmap string PublicKey :=
  foldl (fun m k => match jwkKey k with Some p => <[jwk_Kid k := p]> m | None => m end) ∅ ks.

(** ** Documents *)

Section Documents.
Context `{UnicodeTables}.

(** Decoding one element of the key list into an existing one. *)
Definition jwkFrom (k : jwkRSA) (j : json) : option jwkRSA :=
  match j with
  | JNull => Some k
  | JObj fs =>
    kty ← jstringFrom (jwk_KTY k) "kty" fs; use ← jstringFrom (jwk_Use k) "use" fs;
    alg ← jstringFrom (jwk_Alg k) "alg" fs; kid ← jstringFrom (jwk_Kid k) "kid" fs;
    n ← jstringFrom (jwk_N k) "n" fs; e ← jstringFrom (jwk_E k) "e" fs;
    Some (mkJwk kty use alg kid n e)
  | _ => None
  end.
Fixpoint jwksFrom (old : list jwkRSA) (js : list json) : option (list jwkRSA) :=
  match js with
  | [] => Some []
  | j :: js' => k ← jwkFrom (default zeroJwk (head old)) j; ks ← jwksFrom (tail old) js'; Some (k :: ks)
  end.
Definition jwksDoc (body : string) : option (list jwkRSA) :=
  match DecodeFirst body with
  | Some JNull => Some []
  | Some (JObj fs) =>
    foldl (fun acc j => old ← acc;
             match j with JNull => Some [] | JArr js => jwksFrom old js | _ => None end)
          (Some []) (jentries "keys" fs)
  | _ => None
  end.
(** [discoveryDoc.JWKSURI]. *)
Definition discoveryDoc (body : string) : option string :=
  match DecodeFirst body with
  | Some JNull => Some ""
  | Some (JObj fs) => jstring "jwks_uri" fs
  | _ => None
  end.

(** ** The authenticator *)

Record OIDCAuthenticator := mkOIDC {
  oa_cfg : OIDCConfig;
  oa_jwksURL : string;
  oa_keys : gmap string PublicKey;
  oa_expiresAt : Time;
  oa_staleOK : Time }.

Definition staleGracePeriod : Duration := 5 * Minute.
(** What a GET returns: status and body, or a transport error. *)
Definition Net : Type := string -> option (Z * string).

(** The loop drops one trailing ['/'] after the other. *)
Definition trimRightSlash (s : string) : string := TrimRightByte s "/".

Definition discover (net : Net) (v : OIDCAuthenticator) : res string OIDCAuthenticator :=
  let url := trimRightSlash (oc_Issuer (oa_cfg v)) ++ "/.well-known/openid-configuration" in
  match net url with
  | None => Err ("discover " ++ url)
  | Some (status, body) =>
    if negb (status =? 200) then Err ("discover " ++ url ++ ": status " ++ Itoa status)
    else
      match discoveryDoc body with
      | None => Err "decode discovery"
      | Some uri =>
        if String.eqb uri "" then Err "discovery doc missing jwks_uri"
        else Ok (mkOIDC (oa_cfg v) uri (oa_keys v) (oa_expiresAt v) (oa_staleOK v))
      end
  end.

Definition effTTL (cfg : OIDCConfig) : Duration := if oc_JWKSCacheTTL cfg =? 0 then Hour else oc_JWKSCacheTTL cfg.

(** The key set a GET on the JWKS URL gives. *)
Definition fetchKeys (net : Net) (url : string) : res string (gmap string PublicKey) :=
  match net url with
  | None => Err "fetch jwks"
  | Some (status, body) =>
    if negb (status =? 200) then Err ("fetch jwks: status " ++ Itoa status)
    else match jwksDoc body with None => Err "decode jwks" | Some ks => Ok (collectKeys ks) end
  end.
Definition install (now : Time) (keys : gmap string PublicKey) (v : OIDCAuthenticator) : OIDCAuthenticator :=
  mkOIDC (oa_cfg v) (oa_jwksURL v) keys (now + effTTL (oa_cfg v)) (now + wrap64 (effTTL (oa_cfg v) + staleGracePeriod)).

(** [refreshJWKS] at [now]: the error if any, and the authenticator afterwards. *)
Definition refreshJWKS (net : Net) (now : Time) (v : OIDCAuthenticator) : option string * OIDCAuthenticator :=
  match (if String.eqb (oa_jwksURL v) "" then discover net v else Ok v) with
  | Err e => (Some e, v)
  | Ok v1 =>
    match fetchKeys net (oa_jwksURL v1) with
    | Err e => (Some e, v1)
    | Ok keys => (None, install now keys v1)
    end
  end.

Definition NewOIDC (net : Net) (now : Time) (cfg : OIDCConfig) : res string OIDCAuthenticator :=
  if String.eqb (oc_Issuer cfg) "" then Err "oidc: issuer is required"
  else
    v ← discover net (mkOIDC cfg "" ∅ 0 0);
    match refreshJWKS net now v with
    | (Some e, _) => Err e
    | (None, v') => Ok v'
    end.

(** ** Looking up a key

    Three sections of [publicKey]: the read under the lock, the refresh, and what follows it. *)

Definition lookupKey (v : OIDCAuthenticator) (kid : string) (now : Time) : PublicKey + option PublicKey * Time :=
  match (if now <? oa_expiresAt v then oa_keys v !! kid else None) with
  | Some k => inl k
  | None => inr (oa_keys v !! kid, oa_staleOK v)
  end.
Definition afterRefresh (v : OIDCAuthenticator) (kid : string) (err : option string) (cached : option PublicKey)
    (staleOK now : Time) : res string PublicKey :=
  match err with
  | Some e => match cached with Some k => if now <? staleOK then Ok k else Err e | None => Err e end
  | None => match oa_keys v !! kid with Some k => Ok k | None => Err ("no public key for kid " ++ Quote kid) end
  end.

(** The instants of one validation: the lookup, the installation of fetched keys, the check of the
    grace period, the check of the claims. *)
Record Clock := mkClock { ck_lookup : Time; ck_fetched : Time; ck_failed : Time; ck_claims : Time }.

Definition publicKey (net : Net) (ck : Clock) (kid : string) (v : OIDCAuthenticator)
    : res string PublicKey * OIDCAuthenticator :=
  match lookupKey v kid (ck_lookup ck) with
  | inl k => (Ok k, v)
  | inr (cached, staleOK) =>
    let '(err, v') := refreshJWKS net (ck_fetched ck) v in
    (afterRefresh v' kid err cached staleOK (ck_failed ck), v')
  end.

End Documents.

(** ** Tokens *)

(** The parser's options that [ValidateBearer] sets. *)
Record ParserOptions := mkParserOptions {
  po_leeway : Duration; po_issuer : string; po_expirationRequired : bool; po_validMethods : list string }.
(** A parsed token: [alg] and [kid] of the header, the claims. *)
Record Token := mkToken { tk_alg : string; tk_kid : option json; tk_claims : gmap string json }.

Definition strClaim (m : gmap string json) (k : string) : string :=
  match m !! k with Some (JStr s) => s | _ => "" end.

(** The JWT library.  [Parser.Parse] works in two parts around its single call of the key function:
    the token is split and decoded and its method checked against the valid ones; then the signature
    is verified and the claims are validated.  [jwt_signed tok alg key] says that the signature of
    the text [tok] verifies, [jwt_exp] reads the [exp] claim. *)
Class Jwt := {
  jwt_ParseUnverified : string -> option Token;
  jwt_begin : ParserOptions -> string -> option Token;
  jwt_end : ParserOptions -> Time -> string -> Token -> PublicKey -> bool;
  jwt_signed : string -> string -> PublicKey -> bool;
  jwt_exp : gmap string json -> option Time;
  jwt_begin_method o tok t : jwt_begin o tok = Some t -> tk_alg t ∈ po_validMethods o;
  jwt_begin_unverified o tok t : jwt_begin o tok = Some t -> jwt_ParseUnverified tok = Some t;
  jwt_end_signed o now tok t k : jwt_end o now tok t k = true -> jwt_signed tok (tk_alg t) k = true;
  jwt_end_issuer o now tok t k : jwt_end o now tok t k = true -> po_issuer o <> "" ->
    strClaim (tk_claims t) "iss" = po_issuer o;
  jwt_end_exp o now tok t k : jwt_end o now tok t k = true -> po_expirationRequired o = true ->
    exists e, jwt_exp (tk_claims t) = Some e /\ now < e + po_leeway o
}.

Definition audienceMatches (aud : option json) (want : string) : bool :=
  match aud with
  | Some (JStr s) => String.eqb s want
  | Some (JArr l) => existsb (fun e => match e with JStr s => String.eqb s want | _ => false end) l
  | _ => false
  end.

Definition clientAllowed (claims : gmap string json) (allowed : list string) : bool :=
  existsb (fun claim => let v := strClaim claims claim in
             negb (String.eqb v "") && existsb (fun a => String.eqb a v) allowed)
          ["azp"; "client_id"; "appid"].

Definition parserOptions (cfg : OIDCConfig) : ParserOptions :=
  mkParserOptions (wrap64 (oc_ClockSkewSeconds cfg * Second)) (oc_Issuer cfg) true rsAlgs.

(** The signing method of a token is an RSA method (PKCS #1 v1.5) exactly for these names. *)
Definition isSigningMethodRSA (alg : string) : bool := existsb (String.eqb alg) rsAlgs.

Section Validate.
Context `{UnicodeTables} `{Jwt}.

(** The checks after parsing. *)
Definition checkClaims (cfg : OIDCConfig) (claims : gmap string json) : res string PortalIdentity :=
  if negb (String.eqb (oc_Audience cfg) "") && negb (audienceMatches (claims !! "aud") (oc_Audience cfg))
  then Err ("audience mismatch: want " ++ Quote (oc_Audience cfg))
  else if (0 <? Z.of_nat (length (oc_AllowedClients cfg))) && negb (clientAllowed claims (oc_AllowedClients cfg))
  then Err "client not in allowed_clients"
  else
    let sub := strClaim claims "sub" in
    Ok (mkPortalIdentity (if String.eqb sub "" then strClaim claims "preferred_username" else sub)
          (strClaim claims "email") (strClaim claims "name") "oidc" claims "").

Definition keyfunc (net : Net) (ck : Clock) (t : Token) (v : OIDCAuthenticator) : res string PublicKey * OIDCAuthenticator :=
  if oc_SkipSignatureVerification (oa_cfg v) then (Err "signature verification skipped; do not call keyfunc", v)
  else if negb (isSigningMethodRSA (tk_alg t)) then (Err "unexpected signing method", v)
  else publicKey net ck (match tk_kid t with Some (JStr s) => s | _ => "" end) v.

(** [parser.Parse]. *)
Definition Parse (net : Net) (ck : Clock) (token : string) (v : OIDCAuthenticator) : res string Token * OIDCAuthenticator :=
  let o := parserOptions (oa_cfg v) in
  match jwt_begin o token with
  | None => (Err "parse jwt", v)
  | Some t =>
    let '(key, v') := keyfunc net ck t v in
    match key with
    | Err _ => (Err "parse jwt", v')
    | Ok k => (if jwt_end o (ck_claims ck) token t k then Ok t else Err "parse jwt", v')
    end
  end.

Definition ValidateBearer (net : Net) (ck : Clock) (token : string) (v : OIDCAuthenticator)
    : res string PortalIdentity * OIDCAuthenticator :=
  if String.eqb token "" then (Err "empty bearer token", v)
  else
    let '(parsed, v') :=
      if oc_SkipSignatureVerification (oa_cfg v)
      then (match jwt_ParseUnverified token with Some t => Ok t | None => Err "parse jwt" end, v)
      else Parse net ck token v in
    match parsed with
    | Err e => (Err e, v')
    | Ok t => (checkClaims (oa_cfg v) (tk_claims t), v')
    end.

(** The validator that the chain and the login flow call, at a given moment. *)
Definition validatorAt (net : Net) (ck : Clock) (v : OIDCAuthenticator) : OIDCValidator :=
  fun token => (ValidateBearer net ck token v).1.

End Validate.

(** ** Concurrent lookups

    Any number of calls of [publicKey] run at once.  A call reads the cache; on a miss it waits for
    a refresh, which several calls share ([singleflight]); when the refresh has ended it takes the
    cached key or reads the cache again.  A flight wakes the calls that joined it; which ones did,
    what the provider answered and when, is not determined. *)

Inductive call :=
| Waiting (kid : string) (began : Time) (cached : option PublicKey) (staleOK : Time)
| Flown (kid : string) (began : Time) (cached : option PublicKey) (staleOK : Time) (err : option string).

Definition land (err : option string) (c : call) : call :=
  match c with
  | Waiting kid began cached staleOK => Flown kid began cached staleOK err
  | Flown _ _ _ _ _ => c
  end.

Record Returned := mkReturned { rt_kid : string; rt_began : Time; rt_at : Time; rt_result : res string PublicKey }.

(** [sy_fetched] remembers the successful fetches, newest first. *)
Record System := mkSystem {
  sy_auth : OIDCAuthenticator; sy_calls : gmap nat call; sy_returned : list Returned;
  sy_fetched : list (Time * Net); sy_now : Time }.

Section Interleaving.
Context `{UnicodeTables}.

Inductive sstep : System -> System -> Prop :=
| s_hit s kid now k :
    sy_now s <= now -> lookupKey (sy_auth s) kid now = inl k ->
    sstep s (mkSystem (sy_auth s) (sy_calls s) (mkReturned kid now now (Ok k) :: sy_returned s) (sy_fetched s) now)
| s_miss s tid kid now cached staleOK :
    sy_now s <= now -> sy_calls s !! tid = None -> lookupKey (sy_auth s) kid now = inr (cached, staleOK) ->
    sstep s (mkSystem (sy_auth s) (<[tid := Waiting kid now cached staleOK]> (sy_calls s)) (sy_returned s) (sy_fetched s) now)
| s_flight s net now err v' (joined : gset nat) :
    sy_now s <= now -> refreshJWKS net now (sy_auth s) = (err, v') ->
    sstep s (mkSystem v' (map_imap (fun tid c => Some (if bool_decide (tid ∈ joined) then land err c else c)) (sy_calls s))
               (sy_returned s) (match err with None => (now, net) :: sy_fetched s | Some _ => sy_fetched s end) now)
| s_finish s tid now kid began cached staleOK err :
    sy_now s <= now -> sy_calls s !! tid = Some (Flown kid began cached staleOK err) ->
    sstep s (mkSystem (sy_auth s) (delete tid (sy_calls s))
               (mkReturned kid began now (afterRefresh (sy_auth s) kid err cached staleOK now) :: sy_returned s)
               (sy_fetched s) now).

Definition startup (t : Time) (net : Net) (v : OIDCAuthenticator) : System := mkSystem v ∅ [] [(t, net)] t.

(** *** The invariant *)

(** The fetch [f] served [k] for [kid]. *)
Definition servedBy (url kid : string) (k : PublicKey) (f : Time * Net) : Prop :=
  exists ks, fetchKeys f.2 url = Ok ks /\ ks !! kid = Some k.

Definition grace (cfg : OIDCConfig) : Duration := wrap64 (effTTL cfg + staleGracePeriod).

Definition cachedOK (cfg : OIDCConfig) (url : string) (F : list (Time * Net)) (kid : string) (cached : option PublicKey)
    (staleOK : Time) : Prop :=
  forall k, cached = Some k -> exists f, f ∈ F /\ servedBy url kid k f /\ staleOK = f.1 + grace cfg.

Definition callOK (cfg : OIDCConfig) (url : string) (F : list (Time * Net)) (c : call) : Prop :=
  match c with
  | Waiting kid began cached staleOK => cachedOK cfg url F kid cached staleOK
  | Flown kid began cached staleOK err =>
    cachedOK cfg url F kid cached staleOK /\ (err = None -> exists f rest, F = f :: rest /\ began <= f.1)
  end.
Definition began (c : call) : Time := match c with Waiting _ t _ _ | Flown _ t _ _ _ => t end.

(** What a returned key is worth: served by some fetch before, within its life and grace, or during
    the call. *)
Definition returnedOK (cfg : OIDCConfig) (url : string) (F : list (Time * Net)) (r : Returned) : Prop :=
  forall k, rt_result r = Ok k ->
  exists f, f ∈ F /\ servedBy url (rt_kid r) k f /\ f.1 <= rt_at r /\
    (rt_at r < f.1 + effTTL cfg \/ rt_at r < f.1 + grace cfg \/ rt_began r <= f.1).

Record KInv (cfg : OIDCConfig) (url : string) (s : System) : Prop := {
  ki_cfg : oa_cfg (sy_auth s) = cfg;
  ki_url : oa_jwksURL (sy_auth s) = url;
  ki_latest : exists f rest, sy_fetched s = f :: rest /\ fetchKeys f.2 url = Ok (oa_keys (sy_auth s)) /\
    oa_expiresAt (sy_auth s) = f.1 + effTTL cfg /\ oa_staleOK (sy_auth s) = f.1 + grace cfg;
  ki_times : Forall (fun f => f.1 <= sy_now s) (sy_fetched s);
  ki_calls : map_Forall (fun _ c => callOK cfg url (sy_fetched s) c /\ began c <= sy_now s) (sy_calls s);
  ki_returned : Forall (returnedOK cfg url (sy_fetched s)) (sy_returned s) }.

(** ** Lemmas *)

Lemma refresh_url net now v : oa_jwksURL v <> "" ->
  refreshJWKS net now v =
  match fetchKeys net (oa_jwksURL v) with Err e => (Some e, v) | Ok ks => (None, install now ks v) end.
Proof. intros Hu. unfold refreshJWKS. by destruct (String.eqb_spec (oa_jwksURL v) ""). Qed.

Lemma lookup_hit v kid now k : lookupKey v kid now = inl k -> now < oa_expiresAt v /\ oa_keys v !! kid = Some k.
Proof.
  unfold lookupKey. destruct (Z.ltb_spec now (oa_expiresAt v)); [|done].
  destruct (oa_keys v !! kid); [|done]. by intros [= ->].
Qed.

Lemma lookup_miss v kid now c t : lookupKey v kid now = inr (c, t) -> c = oa_keys v !! kid /\ t = oa_staleOK v.
Proof. unfold lookupKey. destruct (now <? oa_expiresAt v), (oa_keys v !! kid); try done; by intros [= <- <-]. Qed.

(** More fetches keep what is known of calls and results. *)
Lemma cachedOK_cons cfg url F f kid c t : cachedOK cfg url F kid c t -> cachedOK cfg url (f :: F) kid c t.
Proof. intros Hc k Hk. destruct (Hc k Hk) as (g & Hg & Hr). exists g. split; [by right|done]. Qed.

Lemma callOK_cons cfg url F f c : callOK cfg url F c -> began c <= f.1 -> callOK cfg url (f :: F) c.
Proof.
  destruct c as [kid b c t|kid b c t e]; simpl; [intros Hc _; by apply cachedOK_cons|].
  intros [Hc _] Hb. split; [by apply cachedOK_cons|]. intros _. by exists f, F.
Qed.

Lemma callOK_land cfg url (F : list (Time * Net)) c err : callOK cfg url F c ->
  (err = None -> exists (f : Time * Net) rest, F = f :: rest /\ began c <= f.1) -> callOK cfg url F (land err c).
Proof. destruct c; simpl; [by split|done]. Qed.

Lemma began_land err c : began (land err c) = began c.
Proof. by destruct c. Qed.

Lemma returnedOK_cons cfg url F f r : returnedOK cfg url F r -> returnedOK cfg url (f :: F) r.
Proof. intros Hr k Hk. destruct (Hr k Hk) as (g & Hg & Hs). exists g. split; [by right|done]. Qed.

Lemma later_times (F : list (Time * Net)) t t' : t <= t' -> Forall (fun f => f.1 <= t) F -> Forall (fun f => f.1 <= t') F.
Proof. intros Ht HF. eapply Forall_impl; [exact HF|]. intros f Hf. simpl in *. lia. Qed.

Lemma later_calls cfg url F t t' (m : gmap nat call) : t <= t' ->
  map_Forall (fun _ c => callOK cfg url F c /\ began c <= t) m ->
  map_Forall (fun _ c => callOK cfg url F c /\ began c <= t') m.
Proof. intros Ht Hm i c Hc. destruct (Hm i c Hc). split; [done|lia]. Qed.

Section Steps.
Context (cfg : OIDCConfig) (url : string) (Hurl : url <> "").

Lemma KInv_flight s net now err v' (joined : gset nat) : KInv cfg url s -> sy_now s <= now ->
  refreshJWKS net now (sy_auth s) = (err, v') ->
  KInv cfg url (mkSystem v' (map_imap (fun tid c => Some (if bool_decide (tid ∈ joined) then land err c else c)) (sy_calls s))
    (sy_returned s) (match err with None => (now, net) :: sy_fetched s | Some _ => sy_fetched s end) now).
Proof.
  intros [Hc Hu Hl Ht Hcalls Hr] Hn. rewrite refresh_url by congruence. rewrite Hu.
  pose proof (later_times _ _ _ Hn Ht) as Ht'.
  destruct (fetchKeys net url) as [ks|e] eqn:Ef; intros [= <- <-]; constructor; cbn [sy_auth sy_fetched sy_calls sy_returned sy_now];
    try done.
  - exists (now, net), (sy_fetched s). cbn [install oa_keys oa_expiresAt oa_staleOK fst snd]. by rewrite Hc.
  - by constructor.
  - intros i c Hi. rewrite map_lookup_imap in Hi. destruct (sy_calls s !! i) as [c0|] eqn:E; [|done].
    injection Hi as <-. destruct (Hcalls i c0 E) as [Hk Hb].
    assert (Hk' : callOK cfg url ((now, net) :: sy_fetched s) c0) by (apply callOK_cons; simpl; [done|lia]).
    case_bool_decide; [|split; [done|lia]]. rewrite began_land. split; [|lia]. apply callOK_land; [done|].
    intros _. exists (now, net), (sy_fetched s). split; [done|simpl; lia].
  - eapply Forall_impl; [exact Hr|]. intros r. apply returnedOK_cons.
  - intros i c Hi. rewrite map_lookup_imap in Hi. destruct (sy_calls s !! i) as [c0|] eqn:E; [|done].
    injection Hi as <-. destruct (Hcalls i c0 E) as [Hk Hb].
    case_bool_decide; [|split; [done|lia]]. rewrite began_land. split; [|lia]. by apply callOK_land.
Qed.

Lemma KInv_finish s tid now kid b cached staleOK err : KInv cfg url s -> sy_now s <= now ->
  sy_calls s !! tid = Some (Flown kid b cached staleOK err) ->
  returnedOK cfg url (sy_fetched s) (mkReturned kid b now (afterRefresh (sy_auth s) kid err cached staleOK now)).
Proof.
  intros [Hc Hu Hl Ht Hcalls Hr] Hn Hi k Hk. cbn [rt_result rt_kid rt_at rt_began] in *.
  destruct (Hcalls tid _ Hi) as [[Hca He] Hb]. rewrite Forall_forall in Ht. unfold afterRefresh in Hk.
  destruct err as [e|].
  - destruct cached as [k0|]; [|done]. destruct (Z.ltb_spec now staleOK); [|done]. injection Hk as ->.
    destruct (Hca k eq_refl) as (f & Hf & Hs & ->). exists f. specialize (Ht f Hf). repeat split; try done; lia.
  - destruct (oa_keys (sy_auth s) !! kid) as [k0|] eqn:Ek; [|done]. injection Hk as ->.
    destruct Hl as (f & rest & HF & Hks & _). destruct (He eq_refl) as (f' & rest' & HF' & Hb').
    rewrite HF in HF'. injection HF' as <- <-. exists f.
    assert (Hf : f ∈ sy_fetched s) by (rewrite HF; by left). specialize (Ht f Hf).
    split; [done|]. split; [by exists (oa_keys (sy_auth s))|]. lia.
Qed.

Lemma KInv_step s s' : KInv cfg url s -> sstep s s' -> KInv cfg url s'.
Proof.
  intros HI Hst. destruct Hst as [s kid now k Hn Hh|s tid kid now c st Hn Hfree Hm|s net now err v' joined Hn Hf|
    s tid now kid b c st err Hn Hi].
  - pose proof HI as [Hc Hu Hl Ht Hcalls Hr]. apply lookup_hit in Hh as [Hlt Hk].
    constructor; cbn [sy_auth sy_fetched sy_calls sy_returned sy_now]; try done.
    + by eapply later_times.
    + by eapply later_calls.
    + constructor; [|done]. intros k0 [= <-]. destruct Hl as (f & rest & HF & Hks & He & _). exists f.
      assert (Hf : f ∈ sy_fetched s) by (rewrite HF; by left). rewrite Forall_forall in Ht. specialize (Ht f Hf).
      cbn [rt_kid rt_at rt_began]. repeat split; try done; [by exists (oa_keys (sy_auth s))|lia|lia].
  - pose proof HI as [Hc Hu Hl Ht Hcalls Hr]. apply lookup_miss in Hm as [-> ->].
    constructor; cbn [sy_auth sy_fetched sy_calls sy_returned sy_now]; try done.
    + by eapply later_times.
    + apply map_Forall_insert_2; [|by eapply later_calls]. split; [|simpl; lia]. intros k Hk.
      destruct Hl as (f & rest & HF & Hks & _ & Hs). exists f. split; [rewrite HF; by left|].
      split; [by exists (oa_keys (sy_auth s))|done].
  - by apply KInv_flight.
  - pose proof (KInv_finish s tid now kid b c st err HI Hn Hi) as Hret. destruct HI as [Hc Hu Hl Ht Hcalls Hr].
    constructor; cbn [sy_auth sy_fetched sy_calls sy_returned sy_now]; try done.
    + by eapply later_times.
    + apply map_Forall_delete. by eapply later_calls.
    + by constructor.
Qed.

End Steps.

Lemma NewOIDC_KInv net t cfg v : NewOIDC net t cfg = Ok v -> oa_jwksURL v <> "" /\ KInv cfg (oa_jwksURL v) (startup t net v).
Proof.
  unfold NewOIDC. destruct (String.eqb (oc_Issuer cfg) ""); [done|].
  destruct (discover net _) as [v0|] eqn:Ed; [|done]. cbn [mbind res_bind].
  assert (Hv0 : oa_cfg v0 = cfg /\ oa_jwksURL v0 <> "").
  { unfold discover in Ed. destruct (net _) as [[st body]|]; [|done]. destruct (negb _); [done|].
    destruct (discoveryDoc body) as [uri|]; [|done]. destruct (String.eqb_spec uri ""); [done|]. by injection Ed as <-. }
  destruct Hv0 as [Hcfg Hne]. rewrite refresh_url by done. destruct (fetchKeys net _) as [ks|] eqn:Ef; [|done].
  intros [= <-]. cbn [install oa_jwksURL]. split; [done|]. constructor; cbn [startup sy_auth sy_fetched sy_calls sy_returned sy_now].
  - done.
  - done.
  - exists (t, net), []. cbn [install oa_keys oa_expiresAt oa_staleOK fst snd]. by rewrite Hcfg.
  - by repeat constructor.
  - apply map_Forall_empty.
  - constructor.
Qed.

End Interleaving.

(** Adding up at most four bytes never wraps. *)
Lemma exponent_loop l : forall m ei, 0 <= m -> 0 <= ei < 256 ^ m -> m + Z.of_nat (length l) <= 4 ->
  foldl (fun ei c => wrap64 (wrap64 (Z.shiftl ei 8) + byte c)) ei l = foldl (fun acc c => acc * 256 + byte c) ei l /\
  0 <= foldl (fun acc c => acc * 256 + byte c) ei l < 256 ^ (m + Z.of_nat (length l)).
Proof.
  induction l as [|c l IH]; intros m ei Hm Hei Hl; cbn [length foldl] in *; [by rewrite Z.add_0_r|].
  pose proof (byte_range c). assert (256 ^ m <= 256 ^ 3) by (apply Z.pow_le_mono_r; lia).
  rewrite Z.shiftl_mul_pow2 by lia. change (2 ^ 8) with 256.
  rewrite (wrap64_id (ei * 256)), wrap64_id by (unfold in64, minInt, maxInt; lia).
  destruct (IH (m + 1) (ei * 256 + byte c)) as [IH1 IH2]; [lia|rewrite Z.pow_add_r by lia; lia|lia|].
  split; [exact IH1|]. replace (m + Z.of_nat (S (length l))) with (m + 1 + Z.of_nat (length l)) by lia. exact IH2.
Qed.

(** The exponent is at most four bytes: it is their big-endian value. *)
Lemma decodeRSA_exponent n e k : decodeRSA n e = Ok k -> exists eb, RawURLEncoding_DecodeString e = Some eb /\
  pk_E k = SetBytes eb /\ 0 <= pk_E k < 2 ^ 32.
Proof.
  unfold decodeRSA. destruct (RawURLEncoding_DecodeString n) as [nb|]; [|done].
  destruct (RawURLEncoding_DecodeString e) as [eb|]; [|done]. destruct (Z.ltb_spec 4 (len eb)) as [|Hl]; [done|].
  intros [= <-]. exists eb. split; [done|]. cbn [pk_E]. unfold SetBytes, len in *.
  assert (El : length (list_ascii_of_string eb) = String.length eb) by (clear; by induction eb; simpl; f_equal).
  rewrite <- El in Hl.
  destruct (exponent_loop (list_ascii_of_string eb) 0 0) as [-> Hb]; [lia..|]. split; [done|].
  assert (256 ^ (0 + Z.of_nat (length (list_ascii_of_string eb))) <= 256 ^ 4) by (apply Z.pow_le_mono_r; lia). lia.
Qed.

(** ** Theorems *)

Section Claims.
Context `{UnicodeTables} `{Jwt}.

Lemma Parse_sound net ck token v t v' : oc_SkipSignatureVerification (oa_cfg v) = false ->
  Parse net ck token v = (Ok t, v') ->
  exists k, jwt_begin (parserOptions (oa_cfg v)) token = Some t /\
    (publicKey net ck (match tk_kid t with Some (JStr s) => s | _ => "" end) v).1 = Ok k /\
    jwt_end (parserOptions (oa_cfg v)) (ck_claims ck) token t k = true.
Proof.
  intros Hskip. unfold Parse, keyfunc. rewrite Hskip. destruct (jwt_begin _ token) as [t0|]; [|done].
  destruct (negb _); [done|]. destruct (publicKey _ _ _ v) as [[k|] v1] eqn:Ek; [|done].
  destruct (jwt_end _ _ token t0 k) eqn:Ee; [|done]. intros [= <- <-]. exists k. by rewrite Ek.
Qed.

Lemma audienceMatches_spec aud want : audienceMatches aud want = true ->
  aud = Some (JStr want) \/ exists l, aud = Some (JArr l) /\ JStr want ∈ l.
Proof.
  destruct aud as [[]|]; try done; simpl.
  - intros ->%String.eqb_eq. by left.
  - intros (x & Hx & E)%existsb_exists. right. eexists. split; [done|]. apply list_elem_of_In.
    destruct x; try done. by apply String.eqb_eq in E as ->.
Qed.

Lemma clientAllowed_spec claims allowed : clientAllowed claims allowed = true ->
  exists c, c ∈ ["azp"; "client_id"; "appid"] /\ strClaim claims c ∈ allowed /\ strClaim claims c <> "".
Proof.
  intros (c & Hc & E)%existsb_exists. exists c. apply andb_true_iff in E as [E1 (a & Ha & E2)%existsb_exists].
  apply negb_true_iff, String.eqb_neq in E1. apply String.eqb_eq in E2. rewrite !list_elem_of_In. by subst.
Qed.

Lemma checkClaims_sound cfg claims id : checkClaims cfg claims = Ok id ->
  (oc_Audience cfg = "" \/ claims !! "aud" = Some (JStr (oc_Audience cfg)) \/
   exists l, claims !! "aud" = Some (JArr l) /\ JStr (oc_Audience cfg) ∈ l) /\
  (oc_AllowedClients cfg = [] \/
   exists c, c ∈ ["azp"; "client_id"; "appid"] /\ strClaim claims c ∈ oc_AllowedClients cfg /\ strClaim claims c <> "") /\
  pi_Claims id = claims /\ pi_AuthType id = "oidc".
Proof.
  unfold checkClaims. destruct (negb (String.eqb (oc_Audience cfg) "") && _) eqn:Ea; [done|].
  destruct ((0 <? _) && _) eqn:Ec; [done|]. intros [= <-]. split_and!; [..|done|done].
  - destruct (String.eqb_spec (oc_Audience cfg) ""); [by left|right]. cbn [negb andb] in Ea.
    apply audienceMatches_spec. by apply negb_false_iff.
  - destruct (oc_AllowedClients cfg) as [|a l]; [by left|right]. cbn [andb] in Ec.
    apply clientAllowed_spec. by apply negb_false_iff.
Qed.

(** C16: no key outlives its welcome.  Whatever the interleaving of key lookups, shared refreshes and
    answers of the provider after start-up, a key that a lookup for [kid] returns at [t] was served
    under that [kid] by the provider in a successful fetch at some [t0] not later than [t], and
    either the lookup began before that fetch, or [t] is within the cache's time to live plus five
    minutes of it.  So a key the provider has withdrawn stops being used that long after the last
    fetch that contained it. *)
Theorem key_freshness (net0 : Net) (t0 : Time) (cfg : OIDCConfig) (v0 : OIDCAuthenticator) (s : System)
  (r : Returned) (k : PublicKey)
  (Httl : minInt <= effTTL cfg /\ effTTL cfg + staleGracePeriod <= maxInt)
  (Hnew : NewOIDC net0 t0 cfg = Ok v0) (Hrun : rtc sstep (startup t0 net0 v0) s)
  (Hr : r ∈ sy_returned s) (Hk : rt_result r = Ok k) :
  exists t net ks, (t, net) ∈ sy_fetched s /\ fetchKeys net (oa_jwksURL v0) = Ok ks /\ ks !! rt_kid r = Some k /\
    t <= rt_at r /\ (rt_began r <= t \/ rt_at r < t + effTTL cfg + 5 * Minute).
Proof.
  destruct (NewOIDC_KInv _ _ _ _ Hnew) as [Hne HI].
  assert (HIs : KInv cfg (oa_jwksURL v0) s).
  { clear -Hrun HI Hne. induction Hrun as [|s1 s2 s3 Hst _ IH]; [done|]. apply IH. by eapply KInv_step. }
  pose proof (ki_returned _ _ _ HIs) as HR. rewrite Forall_forall in HR.
  destruct (HR r Hr k Hk) as ([t net] & Hf & (ks & Hks & Hkid) & Ht & Hor). exists t, net, ks.
  cbn [fst snd] in *. repeat split; try done. unfold grace, staleGracePeriod in *.
  rewrite wrap64_id in Hor by (unfold in64, Minute, Second, Millisecond in *; lia).
  unfold Minute, Second, Millisecond in *. lia.
Qed.

(** An outage of the provider is ridden out.  After keys were fetched at [t0] and while every
    fetch fails, a lookup of a known key id succeeds with that key until five minutes after the
    cache has expired, and from then on fails with the error of the fetch; the cache is kept, so
    this holds of every lookup during the outage. *)
Theorem outage_grace (net : Net) (ck : Clock) (v : OIDCAuthenticator) (t0 : Time) (ks : gmap string PublicKey)
  (kid : string) (k : PublicKey) (e : string)
  (Httl : minInt <= effTTL (oa_cfg v) /\ effTTL (oa_cfg v) + staleGracePeriod <= maxInt)
  (Hurl : oa_jwksURL v <> "") (Hk : ks !! kid = Some k) (Hdown : fetchKeys net (oa_jwksURL v) = Err e)
  (Hclock : ck_lookup ck <= ck_failed ck) :
  publicKey net ck kid (install t0 ks v) =
  (if (ck_lookup ck <? t0 + effTTL (oa_cfg v)) || (ck_failed ck <? t0 + effTTL (oa_cfg v) + 5 * Minute)
   then Ok k else Err e, install t0 ks v).
Proof.
  unfold publicKey, lookupKey. cbn [install oa_expiresAt oa_keys oa_staleOK]. rewrite Hk.
  destruct (Z.ltb_spec (ck_lookup ck) (t0 + effTTL (oa_cfg v))); [done|]. cbn [orb].
  rewrite refresh_url by done. cbn [install oa_jwksURL]. rewrite Hdown. unfold afterRefresh, staleGracePeriod in *.
  rewrite wrap64_id by (unfold in64, Minute, Second, Millisecond in *; lia). by rewrite Z.add_assoc.
Qed.

Lemma collectKeys_served ks kid k : collectKeys ks !! kid = Some k -> exists j, j ∈ ks /\ jwk_Kid j = kid /\ jwkKey j = Some k.
Proof.
  unfold collectKeys. assert (Hgen : forall m : gmap string PublicKey, foldl (fun m k => match jwkKey k with Some p => <[jwk_Kid k := p]> m | None => m end) m ks !! kid = Some k ->
    m !! kid = Some k \/ exists j, j ∈ ks /\ jwk_Kid j = kid /\ jwkKey j = Some k).
  { induction ks as [|j ks IH]; intros m; [by left|]. cbn [foldl]. intros [Hm|(j' & Hj' & Hr)]%IH; [|right; exists j'; split; [by right|done]].
    destruct (jwkKey j) as [p|] eqn:Ej; [|by left]. destruct (decide (jwk_Kid j = kid)) as [Hk|Hk]; [|rewrite lookup_insert_ne in Hm by done; by left].
    subst kid. rewrite lookup_insert_eq in Hm. injection Hm as ->. right. exists j. split; [by left|done]. }
  intros [Hm|?]%Hgen; [by rewrite lookup_empty in Hm|done].
Qed.

(** Where a key can come from: the cache, while it is fresh or in its grace period after a failed
    refresh, or an RSA signing key that the provider serves under that id now. *)
Definition keySource (net : Net) (ck : Clock) (v : OIDCAuthenticator) (kid : string) (k : PublicKey) : Prop :=
  (oa_keys v !! kid = Some k /\ (ck_lookup ck < oa_expiresAt v \/ ck_failed ck < oa_staleOK v)) \/
  (exists url body jwks j,
     (url = oa_jwksURL v \/ oa_jwksURL v = "" /\ exists doc,
        net (trimRightSlash (oc_Issuer (oa_cfg v)) ++ "/.well-known/openid-configuration") = Some (200, doc) /\ discoveryDoc doc = Some url) /\
     net url = Some (200, body) /\ jwksDoc body = Some jwks /\ j ∈ jwks /\ jwk_Kid j = kid /\ jwk_KTY j = "RSA" /\
     (jwk_Use j = "" \/ jwk_Use j = "sig") /\ decodeRSA (jwk_N j) (jwk_E j) = Ok k).

Lemma fetchKeys_served net url keys kid k : fetchKeys net url = Ok keys -> keys !! kid = Some k ->
  exists body jwks j, net url = Some (200, body) /\ jwksDoc body = Some jwks /\ j ∈ jwks /\ jwk_Kid j = kid /\ jwk_KTY j = "RSA" /\
    (jwk_Use j = "" \/ jwk_Use j = "sig") /\ decodeRSA (jwk_N j) (jwk_E j) = Ok k.
Proof.
  unfold fetchKeys. destruct (net url) as [[status body]|]; [|done]. destruct (Z.eqb_spec status 200) as [->|]; [|done]. cbn [negb].
  destruct (jwksDoc body) as [jwks|] eqn:Ej; [|done]. intros [= <-] (j & Hj & Hkid & Hk)%collectKeys_served.
  unfold jwkKey, jwkUsable in Hk. destruct (String.eqb_spec (jwk_KTY j) "RSA"); [|done]. cbn [andb] in Hk.
  destruct (String.eqb (jwk_Use j) "" || _) eqn:Eu; [|done]. cbn [andb] in Hk. destruct (String.eqb (jwk_Alg j) "" || _); [|done]. exists body, jwks, j.
  destruct (decodeRSA _ _); [|done]. injection Hk as ->. split_and!; try done. apply orb_true_iff in Eu as [E|E]; apply String.eqb_eq in E; tauto.
Qed.

Lemma publicKey_source net ck kid v k : (publicKey net ck kid v).1 = Ok k -> keySource net ck v kid k.
Proof.
  unfold publicKey, lookupKey. destruct (ck_lookup ck <? oa_expiresAt v) eqn:El; bools.
  1: destruct (oa_keys v !! kid) as [k0|] eqn:Ek; [intros [= <-]; left; auto|].
  all: unfold refreshJWKS.
  all: destruct (if String.eqb (oa_jwksURL v) "" then discover net v else Ok v) as [v1|e] eqn:Ed; cbn [fst]; unfold afterRefresh.
  all: try (destruct (oa_keys v !! kid) as [k1|] eqn:Ek1; [|done]; destruct (ck_failed ck <? oa_staleOK v) eqn:Es; [|done]; bools;
    intros [= <-]; left; auto).
  all: destruct (fetchKeys net (oa_jwksURL v1)) as [keys|e] eqn:Ef; cbn [fst install oa_keys].
  all: try (destruct (oa_keys v !! kid) as [k1|] eqn:Ek1; [|done]; destruct (ck_failed ck <? oa_staleOK v) eqn:Es; [|done]; bools;
    intros [= <-]; left; auto).
  all: destruct (keys !! kid) as [k1|] eqn:Ek1; [|done]; intros [= <-]; right.
  all: destruct (fetchKeys_served _ _ _ _ _ Ef Ek1) as (body & jwks & j & Hrest).
  all: exists (oa_jwksURL v1), body, jwks, j; split; [|done].
  all: destruct (String.eqb_spec (oa_jwksURL v) "") as [Eu|]; [right; split; [done|]|left; by injection Ed as <-].
  all: unfold discover in Ed; destruct (net _) as [[status doc]|]; [|done]; destruct (Z.eqb_spec status 200) as [->|]; [|done]; cbn [negb] in Ed.
  all: exists doc; split; [done|]; destruct (discoveryDoc doc) as [uri|]; [|done]; destruct (String.eqb uri ""); [done|]; by injection Ed as <-.
Qed.

(** C17: what an accepted token is.  If [ValidateBearer] accepts a token, signature verification is on
    ([skip_signature_verification] false) and an issuer is configured, the token was signed with an
    RSA method under a key for its key id that the cache holds (and is fresh, or in its grace period
    after a failed refresh) or that the provider serves now as an RSA signing key under that id; its
    issuer is the configured one, its expiry is not past by more than the clock skew, its audience
    includes the configured one if there is one, one of its client claims is allowed if clients are
    listed, and the identity carries its claims. *)
Theorem validated_token_sound (net : Net) (ck : Clock) (token : string) (v : OIDCAuthenticator) (id : PortalIdentity)
  (Hskip : oc_SkipSignatureVerification (oa_cfg v) = false) (Hiss : oc_Issuer (oa_cfg v) <> "")
  (Hok : (ValidateBearer net ck token v).1 = Ok id) :
  exists t k e,
    jwt_ParseUnverified token = Some t /\ tk_alg t ∈ ["RS256"; "RS384"; "RS512"] /\
    keySource net ck v (match tk_kid t with Some (JStr s) => s | _ => "" end) k /\
    jwt_signed token (tk_alg t) k = true /\
    strClaim (tk_claims t) "iss" = oc_Issuer (oa_cfg v) /\
    jwt_exp (tk_claims t) = Some e /\ ck_claims ck < e + wrap64 (oc_ClockSkewSeconds (oa_cfg v) * Second) /\
    (oc_Audience (oa_cfg v) = "" \/ tk_claims t !! "aud" = Some (JStr (oc_Audience (oa_cfg v))) \/
     exists l, tk_claims t !! "aud" = Some (JArr l) /\ JStr (oc_Audience (oa_cfg v)) ∈ l) /\
    (oc_AllowedClients (oa_cfg v) = [] \/
     exists c, c ∈ ["azp"; "client_id"; "appid"] /\ strClaim (tk_claims t) c ∈ oc_AllowedClients (oa_cfg v) /\
       strClaim (tk_claims t) c <> "") /\
    pi_Claims id = tk_claims t /\ pi_AuthType id = "oidc".
Proof.
  unfold ValidateBearer in Hok. destruct (String.eqb token ""); [done|]. rewrite Hskip in Hok.
  destruct (Parse net ck token v) as [[t|] v'] eqn:Ep; [|done]. cbn [fst] in Hok.
  destruct (Parse_sound _ _ _ _ _ _ Hskip Ep) as (k & Hb & Hkey & Hend).
  destruct (checkClaims_sound _ _ _ Hok) as (Haud & Hcl & Hc & Ht).
  destruct (jwt_end_exp _ _ _ _ _ Hend eq_refl) as (e & He & Hlt).
  exists t, k, e. split; [by eapply jwt_begin_unverified|]. split; [exact (jwt_begin_method _ _ _ Hb)|].
  split; [by apply publicKey_source|]. split; [by eapply jwt_end_signed|]. split; [by apply (jwt_end_issuer _ _ _ _ _ Hend)|]. done.
Qed.

End Claims.

(** ** Witnesses *)

#[local] Existing Instance ascii_tables.

(** A library that knows one token, signed under the key 65537 / 65537, valid until [2 * Hour]. *)
Definition sampleToken : Token :=
  mkToken "RS256" (Some (JStr "k1")) {["iss" := JStr "https://idp"; "aud" := JArr [JStr "x"; JStr "api"]; "sub" := JStr "u1"]}.
Definition sampleKey : PublicKey := mkPublicKey 65537 65537.
Definition knows (o : ParserOptions) (tok : string) : option Token :=
  if String.eqb tok "tok" && bool_decide ("RS256" ∈ po_validMethods o) then Some sampleToken else None.

#[local] Instance sampleJwt : Jwt.
Proof.
  refine {|
    jwt_ParseUnverified := fun tok => if String.eqb tok "tok" then Some sampleToken else None;
    jwt_begin := knows;
    jwt_end := fun o now tok t k => bool_decide (k = sampleKey) && String.eqb (strClaim (tk_claims t) "iss") (po_issuer o)
      && (now <? 2 * Hour + po_leeway o);
    jwt_signed := fun tok alg k => bool_decide (k = sampleKey);
    jwt_exp := fun _ => Some (2 * Hour) |}.
  - intros o tok t. unfold knows. destruct (String.eqb tok "tok"); [|done]. case_bool_decide; [|done]. by intros [= <-].
  - intros o tok t. unfold knows. destruct (String.eqb tok "tok"); [|done]. case_bool_decide; done.
  - intros o now tok t k. by intros [[-> _]%andb_true_iff _]%andb_true_iff.
  - intros o now tok t k. by intros [[_ ->%String.eqb_eq]%andb_true_iff _]%andb_true_iff.
  - intros o now tok t k [_ Hn%Z.ltb_lt]%andb_true_iff _. by exists (2 * Hour).
Defined.

Definition sampleOIDC : OIDCConfig := mkOIDCConfig true "https://idp" "api" "" "" [] 30 0 false.
Definition jwksBody : string :=
  json_text (JObj [("keys", JArr [JObj [("kty", JStr "RSA"); ("kid", JStr "k1"); ("n", JStr "AQAB"); ("e", JStr "AQAB")]])]).
Definition idpUp : Net := fun url =>
  if String.eqb url "https://idp/keys" then Some (200, jwksBody)
  else Some (200, json_text (JObj [("jwks_uri", JStr "https://idp/keys")])).
Definition idpDown : Net := fun _ => None.
Definition started : OIDCAuthenticator :=
  mkOIDC sampleOIDC "https://idp/keys" {["k1" := sampleKey]} Hour (65 * Minute).

Lemma started_new : NewOIDC idpUp 0 sampleOIDC = Ok started.
Proof. vm_compute. reflexivity. Defined.

(** The cache has expired, the refresh fails, the cached key is returned within the grace period. *)
Definition staleReturn : Returned := mkReturned "k1" (62 * Minute) (64 * Minute) (Ok sampleKey).
Lemma sstep_to s s1 s2 : sstep s s1 -> s1 = s2 -> sstep s s2.
Proof. by intros ? <-. Defined.
Definition waiting : System := mkSystem started {[0%nat := Waiting "k1" (62 * Minute) (Some sampleKey) (65 * Minute)]} []
  [(0, idpUp)] (62 * Minute).
Definition flown : System :=
  mkSystem started {[0%nat := Flown "k1" (62 * Minute) (Some sampleKey) (65 * Minute) (Some "fetch jwks")]} []
  [(0, idpUp)] (63 * Minute).
Definition finished : System := mkSystem started ∅ [staleReturn] [(0, idpUp)] (64 * Minute).
Lemma stale_run : rtc sstep (startup 0 idpUp started) finished.
Proof.
  apply (rtc_l _ _ waiting).
  { eapply sstep_to; [apply (s_miss _ 0%nat "k1" (62 * Minute)); [by vm_compute|done|vm_compute; reflexivity]|vm_compute; reflexivity]. }
  apply (rtc_l _ _ flown).
  { eapply sstep_to; [apply (s_flight _ idpDown (63 * Minute) (Some "fetch jwks") started {[0%nat]}); [by vm_compute|vm_compute; reflexivity]|vm_compute; reflexivity]. }
  apply (rtc_l _ _ finished); [|apply rtc_refl].
  eapply sstep_to; [apply (s_finish _ 0%nat (64 * Minute)); [by vm_compute|vm_compute; reflexivity]|vm_compute; reflexivity].
Defined.

Lemma key_freshness_witness : exists t net ks, (t, net) ∈ [(0, idpUp)] /\ fetchKeys net "https://idp/keys" = Ok ks /\
  ks !! "k1" = Some sampleKey /\ 64 * Minute < t + Hour + 5 * Minute.
Proof.
  destruct (key_freshness idpUp 0 sampleOIDC started finished staleReturn sampleKey) as (t & net & ks & H1 & H2 & H3 & H4 & H5);
    [split; by vm_compute|exact started_new|exact stale_run|by left|reflexivity|].
  exists t, net, ks. split; [exact H1|]. split; [exact H2|]. split; [exact H3|].
  destruct H5 as [H5|H5]; [|exact H5]. exfalso. apply list_elem_of_singleton in H1. injection H1 as -> _.
  vm_compute in H5. by apply H5.
Defined.

Lemma outage_grace_witness :
  (publicKey idpDown (mkClock (62 * Minute) 0 (63 * Minute) 0) "k1" (install 0 {["k1" := sampleKey]} started)).1 = Ok sampleKey /\
  (publicKey idpDown (mkClock (66 * Minute) 0 (67 * Minute) 0) "k1" (install 0 {["k1" := sampleKey]} started)).1 = Err "fetch jwks".
Proof.
  split.
  - rewrite (outage_grace _ _ started _ _ _ sampleKey "fetch jwks");
      [by vm_compute|split; by vm_compute|done|reflexivity|reflexivity|by vm_compute].
  - rewrite (outage_grace _ _ started _ _ _ sampleKey "fetch jwks");
      [by vm_compute|split; by vm_compute|done|reflexivity|reflexivity|by vm_compute].
Defined.

Lemma validated_token_sound_witness : exists t k,
  jwt_ParseUnverified "tok" = Some t /\ jwt_signed "tok" (tk_alg t) k = true /\ strClaim (tk_claims t) "iss" = "https://idp".
Proof.
  destruct (validated_token_sound idpUp (mkClock Minute Minute Minute Minute) "tok" started
    (mkPortalIdentity "u1" "" "" "oidc" (tk_claims sampleToken) ""))
    as (t & k & e & H1 & _ & _ & H2 & H3 & _); [done|done|vm_compute; reflexivity|].
  exists t, k. split; [exact H1|]. split; [exact H2|exact H3].
Defined.
