(* ===== verification/Session.v ===== *)
(** * Portal sessions ([pkg/httpsrv/session.go])

    The session cookie: a JSON payload in base64, a dot, and the HMAC-SHA256 of the base64 text.
    Printing and reading the payload go through the JSON and time layers below. *)
From S2P Require Import Prelude GoStrings GoNum Sha256 GoUrl Json JsonParse GoTime Http.

(** ** Cookies ([net/http]) *)

Definition weekday (day : Z) : string := nth (Z.to_nat (day mod 7)) ["Mon"; "Tue"; "Wed"; "Thu"; "Fri"; "Sat"; "Sun"] "".
Definition monthName (m : Z) : string :=
  nth (Z.to_nat (m - 1)) ["Jan"; "Feb"; "Mar"; "Apr"; "May"; "Jun"; "Jul"; "Aug"; "Sep"; "Oct"; "Nov"; "Dec"] "".
(** [t.UTC().Format(http.TimeFormat)]. *)
Definition httpDate (t : Time) : string :=
  let day := t / (24 * Hour) in
  let tod := t mod (24 * Hour) in
  let '(y, m, d) := civil day in
  weekday day ++ ", " ++ pad 2 d ++ " " ++ monthName m ++ " " ++ pad 4 y ++ " "
  ++ pad 2 (tod / Hour) ++ ":" ++ pad 2 (tod / Minute mod 60) ++ ":" ++ pad 2 (tod / Second mod 60) ++ " GMT".

Record Cookie := mkCookie {
  ck_Name : string; ck_Value : string; ck_Path : string; ck_Expires : option Time; ck_MaxAge : Z;
  ck_HttpOnly : bool; ck_Secure : bool; ck_SameSiteLax : bool }.

Definition cookieValueByte (c : ascii) : bool :=
  between 32 (byte c) 126 && negb (byte c =? 34) && negb (byte c =? 59) && negb (byte c =? 92).
Definition sanitizeCookieValue (v : string) : string :=
  let v := string_filter cookieValueByte v in
  if ContainsByte v " " || ContainsByte v "," then dquote ++ v ++ dquote else v.

(** [Cookie.String], empty for an invalid name; an expiry before 1601 is left out. *)
Definition Cookie_String (c : Cookie) : string :=
  if String.eqb (ck_Name c) "" || negb (string_forallb tokenByte (ck_Name c)) then ""
  else
    ck_Name c ++ "=" ++ sanitizeCookieValue (ck_Value c)
    ++ (if String.eqb (ck_Path c) "" then "" else "; Path=" ++ ck_Path c)
    ++ (match ck_Expires c with
        | Some t => if days_of 1601 1 1 * (24 * Hour) <=? t then "; Expires=" ++ httpDate t else ""
        | None => ""
        end)
    ++ (if 0 <? ck_MaxAge c then "; Max-Age=" ++ Itoa (ck_MaxAge c)
        else if ck_MaxAge c <? 0 then "; Max-Age=0" else "")
    ++ (if ck_HttpOnly c then "; HttpOnly" else "") ++ (if ck_Secure c then "; Secure" else "")
    ++ (if ck_SameSiteLax c then "; SameSite=Lax" else "").
Definition SetCookie (c : Cookie) : list wop :=
  let v := Cookie_String c in if String.eqb v "" then [] else [HAdd "Set-Cookie" v].

(** [r.Cookie(name)]. *)
Definition r_Cookie (r : Request) (name : string) : option string :=
  snd <$> List.find (fun c => String.eqb c.1 name) (r_Cookies r).

(** ** Payloads *)

Record SessionPayload := mkSessionPayload { sp_Identity : option PortalIdentity; sp_Expires : Time }.

Definition omit_claims (m : gmap string json) : list (string * json) :=
  if bool_decide (map_to_list m = []) then [] else [("claims", json_of_map id m)].
Definition json_identity (i : PortalIdentity) : json :=
  JObj ([("subject", JStr (pi_Subject i))]
        ++ omit_str "email" (pi_Email i) ++ omit_str "name" (pi_Name i)
        ++ [("auth_type", JStr (pi_AuthType i))]
        ++ omit_claims (pi_Claims i) ++ omit_str "api_key_id" (pi_APIKeyID i))%list.

(** [Time.MarshalJSON] refuses years beyond four digits. *)
Definition json_time (t : Time) : option json :=
  let '(y, _, _) := civil (t / (24 * Hour)) in
  if (y <? 0) || (9999 <? y) then None else Some (JStr (RFC3339Nano t)).

Definition json_payload (p : SessionPayload) : option json :=
  e ← json_time (sp_Expires p);
  Some (JObj [("identity", match sp_Identity p with Some i => json_identity i | None => JNull end); ("expires", e)]).

Section Decode.
Context `{UnicodeTables}.

(** Decoding an object into an existing map, entry by entry. *)
Definition claimsFrom (m0 : gmap string json) (j : json) : option (gmap string json) :=
  match j with
  | JNull => Some ∅
  | JObj fs => Some (foldl (fun m f => <[f.1 := f.2]> m) m0 fs)
  | _ => None
  end.
Definition jmapFrom (m0 : gmap string json) (name : string) (fs : list (string * json)) : option (gmap string json) :=
  foldl (fun acc j => m ← acc; claimsFrom m j) (Some m0) (jentries name fs).

Definition identityFrom (i : PortalIdentity) (fs : list (string * json)) : option PortalIdentity :=
  sub ← jstringFrom (pi_Subject i) "subject" fs;
  email ← jstringFrom (pi_Email i) "email" fs;
  name ← jstringFrom (pi_Name i) "name" fs;
  typ ← jstringFrom (pi_AuthType i) "auth_type" fs;
  claims ← jmapFrom (pi_Claims i) "claims" fs;
  key ← jstringFrom (pi_APIKeyID i) "api_key_id" fs;
  Some (mkPortalIdentity sub email name typ claims key).
Definition zeroIdentity : PortalIdentity := mkPortalIdentity "" "" "" "" ∅ "".

(** A pointer field: [null] makes it nil, an object is decoded into what it points to. *)
Definition identityPtrFrom (p : option PortalIdentity) (j : json) : option (option PortalIdentity) :=
  match j with
  | JNull => Some None
  | JObj fs => Some <$> identityFrom (default zeroIdentity p) fs
  | _ => None
  end.
Definition timeFrom (t : Time) (j : json) : option Time :=
  match j with JNull => Some t | JStr s => ParseRFC3339 s | _ => None end.

Definition unmarshalPayload (body : string) : option SessionPayload :=
  match Unmarshal body with
  | Some JNull => Some (mkSessionPayload None 0)
  | Some (JObj fs) =>
    i ← foldl (fun acc j => p ← acc; identityPtrFrom p j) (Some None) (jentries "identity" fs);
    t ← foldl (fun acc j => t ← acc; timeFrom t j) (Some 0) (jentries "expires" fs);
    Some (mkSessionPayload i t)
  | _ => None
  end.
End Decode.

(** ** The store *)

Record SessionStore := mkSessionStore {
  ss_cookieName : string; ss_secret : string; ss_secure : bool; ss_maxAge : Duration }.

Definition NewSessionStore (cookieName secret : string) (secure : bool) (maxAge : Duration) : res string SessionStore :=
  if len secret <? 16 then Err "session secret too short (need >= 16 bytes)"
  else Ok (mkSessionStore (if String.eqb cookieName "" then "api_test_session" else cookieName) secret secure
             (if maxAge =? 0 then 12 * Hour else maxAge)).

Definition CookieName (s : SessionStore) : string := ss_cookieName s.

Definition encode (s : SessionStore) (pl : SessionPayload) : option string :=
  body ← json_payload pl;
  let b64 := RawURLEncoding_EncodeToString (json_text body) in
  Some (b64 ++ "." ++ RawURLEncoding_EncodeToString (hmac_sha256 (ss_secret s) b64)).

Section Store.
Context `{UnicodeTables}.

(** [strings.SplitN(v, ".", 2)], then signature, then payload. *)
Definition decode (s : SessionStore) (v : string) : res string SessionPayload :=
  let '(p0, p1, found) := Cut v "." in
  if negb found then Err "malformed cookie"
  else
    let want := RawURLEncoding_EncodeToString (hmac_sha256 (ss_secret s) p0) in
    match RawURLEncoding_DecodeString p1 with
    | None => Err "decode sig"
    | Some got =>
      match RawURLEncoding_DecodeString want with
      | None => Err "decode want"
      | Some wantBytes =>
        if negb (String.eqb got wantBytes) then Err "bad signature"
        else
          match RawURLEncoding_DecodeString p0 with
          | None => Err "decode body"
          | Some body => match unmarshalPayload body with Some pl => Ok pl | None => Err "unmarshal" end
          end
      end
    end.

(** [Issue] at time [now]: the cookie, or nothing when the payload cannot be encoded. *)
Definition sessionCookie (s : SessionStore) (value : string) (expires : Time) : Cookie :=
  mkCookie (ss_cookieName s) value "/" (Some expires) 0 true (ss_secure s) true.
Definition Issue (s : SessionStore) (now : Time) (id : option PortalIdentity) : option Cookie :=
  let expires := now + ss_maxAge s in
  enc ← encode s (mkSessionPayload id expires);
  Some (sessionCookie s enc expires).

Definition Clear (s : SessionStore) : list wop :=
  SetCookie (mkCookie (ss_cookieName s) "" "/" (Some (days_of 1970 1 1 * (24 * Hour))) (-1) true (ss_secure s) true).

Definition Read (s : SessionStore) (now : Time) (r : Request) : option PortalIdentity :=
  match r_Cookie r (ss_cookieName s) with
  | None => None
  | Some v =>
    if String.eqb v "" then None
    else match decode s v with
         | Err _ => None
         | Ok pl => if sp_Expires pl <? now then None else sp_Identity pl
         end
  end.
End Store.

(** ** Lemmas: payloads *)

Lemma foldl_insert {A} (l : list (string * A)) (m0 : gmap string A) : NoDup l.*1 ->
  foldl (fun m f => <[f.1 := f.2]> m) m0 l = list_to_map l ∪ m0.
Proof.
  revert m0. induction l as [|[k v] l IH]; intros m0 Hnd; [simpl; by rewrite (left_id_L ∅ (∪))|].
  apply NoDup_cons in Hnd as [Hk Hnd]. cbn [foldl fst snd list_to_map]. simpl. rewrite IH by done.
  rewrite <- insert_union_r; [by rewrite insert_union_l|]. by apply not_elem_of_list_to_map_1.
Qed.

Lemma sorted_entries_map {A} (m : gmap string A) : list_to_map (sorted_entries m) = m.
Proof.
  rewrite <- (list_to_map_to_list m) at 2. apply list_to_map_proper; [|apply sorted_entries_perm].
  rewrite (fmap_Permutation fst _ _ (sorted_entries_perm m)). apply NoDup_fst_map_to_list.
Qed.

Lemma sorted_entries_fold {A} (m : gmap string A) :
  foldl (fun m f => <[f.1 := f.2]> m) ∅ (sorted_entries m) = m.
Proof.
  rewrite foldl_insert, sorted_entries_map by
    (rewrite (fmap_Permutation fst _ _ (sorted_entries_perm m)); apply NoDup_fst_map_to_list).
  by rewrite (right_id_L ∅ (∪)).
Qed.

(** Identities that JSON can carry: UTF-8 text and JSON numbers. *)
Definition wfIdentity (i : PortalIdentity) : bool :=
  utf8_Valid (pi_Subject i) && utf8_Valid (pi_Email i) && utf8_Valid (pi_Name i) && utf8_Valid (pi_AuthType i)
  && utf8_Valid (pi_APIKeyID i)
  && forallb (fun p => utf8_Valid p.1 && wfJson p.2) (map_to_list (pi_Claims i)).

(** Evaluate the comparisons of field names. *)
Ltac fold_keys :=
  repeat match goal with
  | |- context [EqualFold ?a ?b] =>
    let v := eval vm_compute in (EqualFold a b) in change (EqualFold a b) with v
  end.

Section PayloadFacts.
Context `{UnicodeTables}.

Lemma identity_roundtrip i : exists fs, json_identity i = JObj fs /\ identityFrom zeroIdentity fs = Some i.
Proof.
  destruct i as [sub email name typ claims key]. eexists. split; [reflexivity|].
  unfold identityFrom, zeroIdentity, jmapFrom, jentries, jstringFrom, omit_claims, omit_str.
  cbn [pi_Subject pi_Email pi_Name pi_AuthType pi_Claims pi_APIKeyID].
  assert (Hc : claimsFrom ∅ (json_of_map (@id json) claims) = Some claims).
  { unfold json_of_map, claimsFrom. rewrite <- (sorted_entries_fold claims) at 2. f_equal. f_equal.
    rewrite <- (map_id (sorted_entries claims)) at 2. apply map_ext. by intros []. }
  destruct (String.eqb_spec email "") as [->|_], (String.eqb_spec name "") as [->|_], (String.eqb_spec key "") as [->|_];
    (destruct (bool_decide (map_to_list claims = [])) eqn:E;
     [apply bool_decide_eq_true, map_to_list_empty_iff in E; subst claims|]);
    cbn [foldl app fst snd omap list_omap]; fold_keys; cbn [foldl app fst snd omap list_omap mbind option_bind]; fold_keys;
    cbn [mbind option_bind foldl]; rewrite ?Hc; done.
Qed.

Lemma wf_identity_json i : wfIdentity i = true -> wfJson (json_identity i) = true.
Proof.
  unfold wfIdentity. rewrite !andb_true_iff. intros (((((H1 & H2) & H3) & H4) & H5) & H6).
  unfold json_identity. cbn [wfJson]. rewrite !forallb_app, !andb_true_iff.
  assert (Ho : forall k s, utf8_Valid k = true -> utf8_Valid s = true ->
    forallb (fun f => utf8_Valid f.1 && wfJson f.2) (omit_str k s) = true).
  { intros k s Hk Hs. unfold omit_str. destruct (String.eqb s ""); [done|]. simpl. by rewrite Hk, Hs. }
  repeat split; try (by apply Ho); try (cbn [forallb fst snd wfJson]; by rewrite ?H1, ?H4).
  unfold omit_claims. destruct (bool_decide _); [done|]. cbn [forallb fst snd]. rewrite andb_true_r.
  apply andb_true_iff. split; [done|]. unfold json_of_map. cbn [wfJson]. rewrite forallb_forall in *.
  intros f Hf. apply in_map_iff in Hf as (p & <- & Hp). cbn [fst snd id]. apply H6.
  apply list_elem_of_In. apply list_elem_of_In in Hp. by rewrite <- (sorted_entries_perm (pi_Claims i)).
Qed.

Lemma ascii_utf8 s : isASCII s = true -> utf8_Valid s = true.
Proof.
  intros Hs. unfold utf8_Valid. rewrite utf8_decode_ascii by done. clear Hs.
  induction s as [|c s IH]; [done|]. exact IH.
Qed.

(** Payloads that JSON can carry. *)
Definition wfPayload (p : SessionPayload) : Prop :=
  0 <= sp_Expires p /\ (let '(y, _, _) := civil (sp_Expires p / dayNs) in y <= 9999) /\
  match sp_Identity p with Some i => wfIdentity i = true | None => True end.

Lemma payload_roundtrip p : wfPayload p ->
  exists j, json_payload p = Some j /\ unmarshalPayload (json_text j) = Some p.
Proof.
  destruct p as [i t]. intros (Ht & Hy & Hi). cbn [sp_Expires sp_Identity] in *.
  assert (Hj : json_time t = Some (JStr (RFC3339Nano t))).
  { unfold json_time. fold dayNs. pose proof (civil_spec (t / dayNs)) as Hc. destruct (civil (t / dayNs)) as [[y m] d].
    destruct Hc as (_ & _ & _ & Hy1); [by apply Z.div_pos|].
    destruct (y <? 0) eqn:E1; bools; [lia|]. destruct (9999 <? y) eqn:E2; bools; [lia|done]. }
  unfold json_payload. cbn [sp_Expires sp_Identity]. rewrite Hj. cbn [mbind option_bind]. eexists. split; [reflexivity|].
  unfold unmarshalPayload.
  assert (Hwi : wfJson (match i with Some i => json_identity i | None => JNull end) = true)
    by (destruct i; [by apply wf_identity_json|done]).
  rewrite Unmarshal_json_text.
  - unfold jentries. cbn [omap list_omap fst snd]. fold_keys. cbn [foldl mbind option_bind].
    destruct i as [i|].
    + destruct (identity_roundtrip i) as (fs & -> & Hf). cbn [identityPtrFrom default]. rewrite Hf.
      cbn [fmap option_fmap option_map mbind option_bind timeFrom]. by rewrite RFC3339_roundtrip.
    + cbn [identityPtrFrom mbind option_bind timeFrom]. by rewrite RFC3339_roundtrip.
  - cbn [wfJson forallb fst snd]. rewrite Hwi, (ascii_utf8 (RFC3339Nano t)) by (by apply RFC3339Nano_ascii). done.
Qed.

End PayloadFacts.

(** ** Lemmas: cookies *)

Section StoreFacts.
Context `{UnicodeTables}.

Lemma rawurl_no_dot s : ContainsByte (RawURLEncoding_EncodeToString s) "." = false.
Proof.
  apply (string_forallb_no_byte (fun c => negb (Ascii.eqb c "."))); [done|].
  apply base64_encode_chars. by vm_compute.
Qed.

Lemma decode_encode s pl v : wfPayload pl -> encode s pl = Some v -> decode s v = Ok pl.
Proof.
  intros Hw. unfold encode. destruct (payload_roundtrip pl Hw) as (j & -> & Hj). cbn [mbind option_bind].
  intros [= <-]. unfold decode. rewrite Cut_found by apply rawurl_no_dot. cbn [negb].
  rewrite !RawURL_roundtrip, String.eqb_refl. cbn [negb]. by rewrite Hj.
Qed.

(** What [decode] accepts. *)
Lemma decode_signed s v pl : decode s v = Ok pl ->
  exists b64 sig, v = b64 ++ "." ++ sig /\ ContainsByte b64 "." = false /\
    RawURLEncoding_DecodeString sig = Some (hmac_sha256 (ss_secret s) b64).
Proof.
  unfold decode. destruct (Cut v ".") as [[p0 p1] found] eqn:Ec. destruct (Cut_spec _ _ _ _ _ Ec) as [Hn Hv].
  destruct found; [|done]. cbn [negb]. destruct (RawURLEncoding_DecodeString p1) as [got|] eqn:Eg; [|done].
  rewrite RawURL_roundtrip. destruct (String.eqb_spec got (hmac_sha256 (ss_secret s) p0)) as [->|]; [|done].
  intros _. by exists p0, p1.
Qed.

(** ** Theorems *)

(** A session lasts exactly as long as it should.  The cookie [Issue] writes for an identity is
    read back as that identity on every request that carries it up to and including the expiry
    time, and as no identity after it. *)
Theorem session_roundtrip (s : SessionStore) (now now' : Time) (id : PortalIdentity) (c : Cookie) (r : Request)
  (Hid : wfIdentity id = true) (Hnow : 0 <= now + ss_maxAge s)
  (Hyear : let '(y, _, _) := civil ((now + ss_maxAge s) / dayNs) in y <= 9999)
  (Hissue : Issue s now (Some id) = Some c)
  (Hr : r_Cookie r (ss_cookieName s) = Some (ck_Value c)) :
  Read s now' r = if now + ss_maxAge s <? now' then None else Some id.
Proof.
  unfold Issue in Hissue. destruct (encode s _) as [v|] eqn:Ee; [|done]. injection Hissue as <-.
  unfold Read. rewrite Hr. cbn [ck_Value sessionCookie].
  assert (Hw : wfPayload (mkSessionPayload (Some id) (now + ss_maxAge s))) by (split; [done|]; split; done).
  rewrite (decode_encode _ _ _ Hw Ee). cbn [sp_Expires sp_Identity].
  destruct (String.eqb_spec v "") as [->|_]; [|done]. exfalso. unfold encode in Ee.
  destruct (json_payload _); [|done]. injection Ee as Ee.
  apply (f_equal String.length) in Ee. rewrite !sapp_length in Ee. simpl in Ee. lia.
Qed.

(** Only signed cookies are believed.  If a request is read as some identity, its session cookie
    is a payload, a dot and a signature that decodes to the HMAC-SHA256 of exactly that payload text
    under the store's secret.  So a cookie whose payload was altered is refused unless the altered
    text has the same MAC, and a cookie signed with another secret unless the two MACs coincide. *)
Theorem session_cookie_signed (s : SessionStore) (now : Time) (r : Request) (id : PortalIdentity)
  (Hread : Read s now r = Some id) :
  exists b64 sig, r_Cookie r (ss_cookieName s) = Some (b64 ++ "." ++ sig) /\ ContainsByte b64 "." = false /\
    RawURLEncoding_DecodeString sig = Some (hmac_sha256 (ss_secret s) b64).
Proof.
  unfold Read in Hread. destruct (r_Cookie r (ss_cookieName s)) as [v|]; [|done].
  destruct (String.eqb v ""); [done|]. destruct (decode s v) as [pl|] eqn:Ed; [|done].
  destruct (decode_signed s v pl Ed) as (b64 & sig & -> & Hn & Hs). by exists b64, sig.
Qed.

End StoreFacts.

(** ** Witnesses *)

#[local] Existing Instance ascii_tables.

Definition sampleStore : SessionStore := mkSessionStore "api_test_session" "0123456789abcdef" true (12 * Hour).
Definition sampleUser : PortalIdentity :=
  mkPortalIdentity "user-1" "u@example.com" "" "oidc" {["iat" := JInt 1700000000]} "".
Definition sampleNow : Time := days_of 2024 2 29 * (24 * Hour).
Definition sampleCookie : Cookie :=
  default (mkCookie "" "" "" None 0 false false false) (Issue sampleStore sampleNow (Some sampleUser)).
Definition cookieRequest (v : string) : Request :=
  mkRequest "GET" "/api/v1/portal/me" "/api/v1/portal/me" "" ∅ "h" false "" None ∅ [("api_test_session", v)] Background.

Lemma session_roundtrip_witness :
  Read sampleStore (sampleNow + Hour) (cookieRequest (ck_Value sampleCookie)) = Some sampleUser /\
  Read sampleStore (sampleNow + 13 * Hour) (cookieRequest (ck_Value sampleCookie)) = None.
Proof.
  split; (etransitivity;
    [apply (session_roundtrip sampleStore sampleNow _ sampleUser sampleCookie); by vm_compute|by vm_compute]).
Defined.

Lemma session_cookie_signed_witness : exists b64 sig,
  r_Cookie (cookieRequest (ck_Value sampleCookie)) "api_test_session" = Some (b64 ++ "." ++ sig) /\
  RawURLEncoding_DecodeString sig = Some (hmac_sha256 "0123456789abcdef" b64).
Proof.
  destruct (session_cookie_signed sampleStore sampleNow (cookieRequest (ck_Value sampleCookie)) sampleUser)
    as (b & g & H1 & _ & H2); [vm_compute; reflexivity|]. exists b, g. split; [exact H1|exact H2].
Defined.
