(* ===== verification/Server.v ===== *)
(** * The server ([internal/server/server.go], [pkg/httpsrv])

    The endpoint registry a configuration enables, the mux with its fixed routes, the outer
    wrappers (CORS, browser redirect, access log, request id), and the whole handler the process
    serves.  The portal's handlers and the rendered OpenAPI documents are arguments. *)
From S2P Require Import Pagination DataEndpoints FailureEndpoints InspectEndpoints SecurityEndpoints.
From S2P Require Import StreamEndpoints ExportEndpoints.
From S2P Require Import Prelude GoStrings GoNum GoTime GoUrl Json Http ServeMux Registry AuditEvent.
From S2P Require Import MemoryLog Inbound Middleware Config.

(** ** The registry *)

Section Registry.
Context `{UnicodeTables} `{JsonAny} `{Float64}.

Definition addIf (enabled : bool) (g : Endpoints) (r : Registry) : Registry :=
  if enabled then Add r g else r.

Definition buildRegistry (cfg : Config) : Registry :=
  let e := cf_Endpoints cfg in
  let keys := au_RedactKeys (cf_Audit cfg) in
  let r := NewRegistry in
  let r := addIf (ec_Identity e) (InspectEndpoints.IdentityGroup.Group keys) r in
  let r := addIf (ec_Data e) DataEndpoints.Group r in
  let r := addIf (ec_Failure e) FailureEndpoints.Group r in
  let r := addIf (ec_Echo e) (InspectEndpoints.Echo.Group keys) r in
  let r := addIf (ec_Streaming e) StreamEndpoints.Group r in
  let r := addIf (ec_Pagination e) Pagination.Group r in
  let r := addIf (ec_Methods e) InspectEndpoints.Methods.Group r in
  let r := addIf (ec_Security e) SecurityEndpoints.Group r in
  addIf (ec_Export e) ExportEndpoints.Group r.
End Registry.

(** ** Replies of [net/http] the mux gives by itself *)

(** [http.Redirect] to an already clean, rooted URL. *)
Definition htmlEscape (s : string) : string :=
  sconcat (map (fun c =>
    if Ascii.eqb c "&" then "&amp;" else if Ascii.eqb c "<" then "&lt;" else if Ascii.eqb c ">" then "&gt;"
    else if Ascii.eqb c (chr 34) then "&#34;" else if Ascii.eqb c "'" then "&#39;" else str1 c)
    (list_ascii_of_string s)).
Definition httpRedirect (r : Request) (hadCT : bool) (url : string) (code : Z) : list wop :=
  let get := String.eqb (r_Method r) "GET" in
  ([HSet "Location" url]
   ++ (if negb hadCT && (get || String.eqb (r_Method r) "HEAD")
       then [HSet "Content-Type" "text/html; charset=utf-8"] else [])
   ++ [WriteHeader code]
   ++ (if negb hadCT && get
       then [Write ("<a href=" ++ dquote ++ htmlEscape url ++ dquote ++ ">" ++ StatusText code ++ "</a>."
                    ++ newline ++ newline)] else []))%list.

(** A path as [URL.String] prints it. *)
Definition pathByte (c : ascii) : bool :=
  isUpper c || isLower c || isDigit c ||
  existsb (Ascii.eqb c) ["-"; "_"; "."; "~"; "$"; "&"; "+"; ","; "/"; ":"; ";"; "="; "@"]%char.
Definition hexDigit (z : Z) : ascii := chr (if z <? 10 then 48 + z else 55 + z).
Definition escapePath (s : string) : string :=
  sconcat (map (fun c => if pathByte c then str1 c
                         else String "%" (String (hexDigit (byte c / 16)) (str1 (hexDigit (byte c mod 16)))))
               (list_ascii_of_string s)).
Definition muxRedirect (r : Request) (to : string) : list wop :=
  let q := r_RawQuery r in
  httpRedirect r false (escapePath to ++ (if String.eqb q "" then "" else "?" ++ q)) 307.

Definition notFoundReply : list wop := httpError 404 "404 page not found".
Definition methodNotAllowedReply (allow : list string) : list wop :=
  HSet "Allow" (Join allow ", ") :: httpError 405 (StatusText 405).

(** ** Handlers of [pkg/httpsrv] *)

Definition HealthzHandler : list wop := [WriteHeader 200; Write "ok"].

Definition readyzReply (ready : bool) : list wop :=
  if ready then [WriteHeader 200; Write "ready"] else [WriteHeader 503; Write "draining"].

Definition serveBytes (contentType body : string) : list wop :=
  [HSet "Content-Type" contentType; HSet "Cache-Control" "no-store"; WriteHeader 200; Write body].

(** The page, with its double quotes written as backquotes. *)
Definition docsHTML : string := string_map (fun c => if Ascii.eqb c "`" then chr 34 else c)
"<!DOCTYPE html>
<html lang=`en`>
<head>
  <meta charset=`utf-8`>
  <title>api-test &mdash; API reference</title>
  <meta name=`viewport` content=`width=device-width, initial-scale=1`>
  <meta name=`referrer` content=`no-referrer`>
  <link rel=`icon` href=`data:,`>
  <style>
    body { margin: 0; padding: 0; }
  </style>
</head>
<body>
  <redoc spec-url=`/openapi.json`></redoc>
  <script src=`https://cdn.redoc.ly/redoc/latest/bundles/redoc.standalone.js`></script>
</body>
</html>
".
Definition docsHandler : list wop := serveBytes "text/html; charset=utf-8" docsHTML.

Definition rootBanner (registry : Registry) (portalEnabled : bool) : json :=
  let links : gmap string string :=
    list_to_map ([("healthz", "/healthz"); ("readyz", "/readyz"); ("openapi_json", "/openapi.json");
                  ("openapi_yaml", "/openapi.yaml"); ("docs", "/docs")]
                 ++ (if portalEnabled then [("portal", "/portal/")] else []))%list in
  JObj [("endpoint_groups", json_strings (map g_Name (Groups registry)));
        ("endpoints", JInt (Z.of_nat (length (All registry))));
        ("links", json_of_map JStr links);
        ("name", JStr "api-test")].
Definition rootHandler (registry : Registry) (portalEnabled : bool) (r : Request) : list wop :=
  if negb (String.eqb (r_Path r) "/") then writeJSONError 404 "no such endpoint"
  else writeJSON 200 (rootBanner registry portalEnabled).

(** *** Well-known metadata; the status is left to the first write *)

Definition encodeJSON (body : json) : list wop := [HSet "Content-Type" "application/json"; Write (Encode body)].

Definition ProtectedResourceMetadata (cfg : Config) : list wop :=
  let o := cf_OIDC cfg in
  encodeJSON (JObj
    [("authorization_servers",
      json_strings (if oc_Enabled o && negb (String.eqb (oc_Issuer o) "") then [oc_Issuer o] else []));
     ("bearer_methods_supported", json_strings ["header"]);
     ("resource", JStr (TrimRightByte (sc_BaseURL (cf_Server cfg)) "/" ++ "/"));
     ("scopes_supported", json_strings [])]).

Definition AuthorizationServerStub (cfg : Config) : list wop :=
  let issuer := oc_Issuer (cf_OIDC cfg) in
  encodeJSON (JObj
    [("issuer", JStr issuer);
     ("note", JStr "api-test delegates auth to the issuer above; fetch the openid_configuration_url for the real authorization server metadata");
     ("openid_configuration_url", JStr (TrimRightByte issuer "/" ++ "/.well-known/openid-configuration"))]).

Definition ProtectedResourceMetadataURL (cfg : Config) : string :=
  TrimRightByte (sc_BaseURL (cf_Server cfg)) "/" ++ "/.well-known/oauth-protected-resource".

(** *** The single-page app *)

Definition isClientRoute (path : string) : bool :=
  if HasPrefix path "assets/" then false
  else let base := match LastFrom path "/" with Some t => sdrop 1 t | None => path end in
       negb (Contains base ".").

Definition serveIndex (bytes : string) : list wop :=
  [HSet "Content-Type" "text/html; charset=utf-8"; HSet "Cache-Control" "no-cache"; Write bytes].

(** The file system: [open] says whether a path opens, [fileServer] is [http.FileServer]'s reply. *)
Record SpaFS := mkSpaFS { fs_index : string; fs_open : string -> bool; fs_fileServer : Request -> list wop }.

Definition SPAHandler (fs : SpaFS) (r : Request) : list wop :=
  let path0 := TrimPrefix (r_Path r) "/" in
  let path := if String.eqb path0 "" then "index.html" else path0 in
  if String.eqb path "index.html" then serveIndex (fs_index fs)
  else if fs_open fs path then fs_fileServer fs r
  else if isClientRoute path then serveIndex (fs_index fs)
  else notFoundReply.

Definition spaOrStub (fs : option SpaFS) (r : Request) : list wop :=
  match fs with
  | Some fs => SPAHandler fs r
  | None => writeJSON 503 (JObj [("detail", JStr "internal/ui/dist is empty; run `make ui` and rebuild the binary");
                                 ("error", JStr "ui not built")])
  end.

(** [http.StripPrefix("/portal", h)]; a path without the prefix is not found. *)
Definition stripPortal (h : Request -> list wop) (r : Request) : list wop :=
  let p := TrimPrefix (r_Path r) "/portal" in
  let e := TrimPrefix (r_EscapedPath r) "/portal" in
  if (len p <? len (r_Path r)) && (len e <? len (r_EscapedPath r))
  then h (mkRequest (r_Method r) p e (r_RawQuery r) (r_Header r) (r_Host r) (r_TLS r) (r_RemoteAddr r)
                    (r_Body r) (r_PathValue r) (r_Cookies r) (r_Context r))
  else notFoundReply.

Section Server.
Context `{UnicodeTables} `{JsonAny} `{Float64} {L : Type} `{!Logger L}.
Abbreviation State := (ServerState L).
Abbreviation Hnd := (Handler State).

Definition ReadyzHandler : Hnd := fun W RW env r sw => (sw.1, exec (readyzReply (sv_ready sw.1)) sw.2).
Definition SetReady (v : bool) (s : State) : State :=
  mkState (sv_audit s) (sv_holder s) (sv_access s) (sv_read s) v (sv_nonces s) (sv_touched s).

Definition byRequest (f : Request -> list wop) : Hnd := fun W RW env r sw => (sw.1, exec (f r) sw.2).

(** *** CORS *)

Definition corsHeaders : list wop :=
  [HSet "Access-Control-Allow-Origin" "*";
   HSet "Access-Control-Allow-Methods" "GET, POST, PUT, PATCH, DELETE, HEAD, OPTIONS";
   HSet "Access-Control-Allow-Headers" "Authorization, Content-Type, X-API-Key, X-Request-Id";
   HSet "Access-Control-Expose-Headers" "X-Request-Id";
   HSet "Access-Control-Max-Age" "600"].

Definition CORS (next : Hnd) : Hnd := fun W RW env r sw =>
  let w := exec corsHeaders sw.2 in
  if String.eqb (r_Method r) "OPTIONS" then (sw.1, exec [WriteHeader 204] w)
  else next W RW env r (sw.1, w).

(** *** Browser redirect *)

Definition isBrowserRoot (r : Request) : bool :=
  if negb (String.eqb (r_Method r) "GET") || negb (String.eqb (r_Path r) "/") then false
  else Contains (h_Get r "Accept") "text/html".

Definition BrowserRedirect (portalPath0 : string) (next : Hnd) : Hnd := fun W RW env r sw =>
  let portalPath := if String.eqb portalPath0 "" then "/portal/" else portalPath0 in
  if isBrowserRoot r
  then (sw.1, exec (httpRedirect r (bool_decide (rw_Header sw.2 !! "Content-Type" <> None)) portalPath 302) sw.2)
  else next W RW env r sw.

(** *** CSRF *)

Definition stateChanging (m : string) : bool :=
  existsb (String.eqb m) ["POST"; "PUT"; "PATCH"; "DELETE"].
Definition requireCSRFHeader (next : Hnd) : Hnd := fun W RW env r sw =>
  if stateChanging (r_Method r) && String.eqb (h_Get r "X-Requested-With") ""
  then (sw.1, exec (httpError 403 "missing X-Requested-With header") sw.2)
  else next W RW env r sw.

(** *** The mux *)

Definition muxTable : Type := list (pattern * Hnd).

Definition ServeMux_ServeHTTP (m : muxTable) : Hnd := fun W RW env r sw =>
  match dispatch m (r_Method r) (r_EscapedPath r) with
  | Found _ binds h => h W RW env (WithPathValues r binds) sw
  | Redirect to => (sw.1, exec (muxRedirect r to) sw.2)
  | MethodNotAllowed ms => (sw.1, exec (methodNotAllowedReply ms) sw.2)
  | NotFound => (sw.1, exec notFoundReply sw.2)
  end.

(** What the portal mounts: the login flow when OIDC is on, and the admin API. *)
Record PortalDeps := mkPortalDeps {
  pd_Cfg : Config;
  pd_SPA : option SpaFS;
  pd_BrowserAuth : option (list (string * Hnd));
  pd_PortalAPI : list (string * Hnd)
}.

Definition handleFunc (ph : string * Hnd) : pattern * Hnd := (parsePattern ph.1, ph.2).

Definition mountOpenAPI (docs : string * string) : list (string * Hnd) :=
  [("GET /openapi.json", respond (serveBytes "application/json" docs.1));
   ("GET /openapi.yaml", respond (serveBytes "application/yaml" docs.2));
   ("GET /docs", respond docsHandler)].

Definition portalRoutes (p : PortalDeps) : list (string * Hnd) :=
  ([("GET /.well-known/oauth-protected-resource", respond (ProtectedResourceMetadata (pd_Cfg p)));
    ("GET /.well-known/oauth-authorization-server", respond (AuthorizationServerStub (pd_Cfg p)))]
   ++ default [] (pd_BrowserAuth p) ++ pd_PortalAPI p
   ++ [("GET /portal/", byRequest (stripPortal (spaOrStub (pd_SPA p))))])%list.

(** The routes of the mux. *)
Definition muxRoutes (registry : Registry) (mw : EHandler -> Hnd) (portal : option PortalDeps)
    (oapiDoc : option (string * string)) : muxTable :=
  (map handleFunc [("GET /healthz", respond HealthzHandler); ("GET /readyz", ReadyzHandler)]
   ++ Mount registry mw
   ++ map handleFunc (match oapiDoc with Some d => mountOpenAPI d | None => [] end)
   ++ map handleFunc (match portal with Some p => portalRoutes p | None => [] end)
   ++ map handleFunc [("GET /", byRequest (rootHandler registry (bool_decide (portal <> None))))])%list.

Definition BuildMux (registry : Registry) (mw : EHandler -> Hnd) (portal : option PortalDeps)
    (oapiDoc : option (string * string)) : Hnd :=
  let mux := ServeMux_ServeHTTP (muxRoutes registry mw portal oapiDoc) in
  CORS (match portal with Some _ => BrowserRedirect "/portal/" mux | None => mux end).

(** *** The application *)

(** [Build] captures payloads only when auditing is enabled. *)
Definition auditOptions (cfg : Config) : AuditOptions :=
  mkAuditOptions (CapturePayloadsEnabled (cf_Audit cfg) && au_Enabled (cf_Audit cfg))
    (CaptureHeadersEnabled (cf_Audit cfg)) (au_MaxPayloadBytes (cf_Audit cfg)) (au_RedactKeys (cf_Audit cfg)).

Definition Build_chain (cfg : Config) (dbKeys : option APIKeyStore)
    (oidc : option OIDCValidator) : Chain :=
  let fileStore := FileAPIKeyStore (kc_File (cf_APIKeys cfg)) in
  let keyStore := match dbKeys with Some db => CombineAPIKeyStores [fileStore; db] | None => fileStore end in
  serverChain (ac_AllowAnonymous (cf_Auth cfg))
    (NewAPIKey keyStore (kc_HeaderName (cf_APIKeys cfg)) (kc_QueryParamName (cf_APIKeys cfg)))
    oidc (cf_BearerTokens cfg).

(** The handler [Build] installs, for a given credential chain. *)
Definition Application_mux (cfg : Config) (chain : Chain) (portal : option PortalDeps)
    (oapiDoc : option (string * string)) : Hnd :=
  let registry := buildRegistry cfg in
  RequestID (AccessLog (BuildMux registry (endpointMW chain registry (auditOptions cfg)) portal oapiDoc)).

End Server.
