(* ===== verification/Routing.v ===== *)
(** * Route resolution of the built server

    Which handler a request meets, and which route the audit log names for it: the mux and the
    registry's own matcher agree on every instance of every route, for any set of enabled groups. *)
From S2P Require Import Pagination DataEndpoints FailureEndpoints InspectEndpoints SecurityEndpoints.
From S2P Require Import StreamEndpoints ExportEndpoints.
From S2P Require Import Prelude GoStrings GoNum GoTime GoUrl Json Http ServeMux Registry AuditEvent.
From S2P Require Import MemoryLog Inbound Middleware Config Server.

#[global] Instance seg_eq_dec : EqDecision seg.
Proof. solve_decision. Defined.
#[global] Instance pattern_eq_dec : EqDecision pattern.
Proof. solve_decision. Defined.

(** ** Patterns that share a request *)

Fixpoint segsOverlap (ps qs : list seg) (pm qm : bool) : bool :=
  match ps, qs with
  | [], [] => true
  | [], _ => pm
  | _, [] => qm
  | Lit a :: ps', Lit b :: qs' => String.eqb a b && segsOverlap ps' qs' pm qm
  | _ :: ps', _ :: qs' => segsOverlap ps' qs' pm qm
  end.

Lemma matchSegs_overlap ps qs pm qm ss slash b1 b2 :
  matchSegs ps pm ss slash = Some b1 -> matchSegs qs qm ss slash = Some b2 -> segsOverlap ps qs pm qm = true.
Proof.
  revert qs ss b1 b2. induction ps as [|p ps IH]; intros [|q qs] ss b1 b2 H1 H2; try done.
  - destruct ss; simpl in *; [by destruct q|]. by destruct pm.
  - destruct ss; simpl in *; [by destruct p|]. destruct p; by destruct qm.
  - destruct ss as [|s ss]; [by destruct p|].
    destruct p as [a|a], q as [b|b]; simpl in *;
      repeat match goal with
      | H : (if String.eqb ?x ?y then _ else _) = _ |- _ => destruct (String.eqb_spec x y); [|done]
      | H : (_ <$> ?m) = Some _ |- _ => destruct m eqn:?; [|done]; clear H
      end; subst; rewrite ?String.eqb_refl; simpl; eauto.
Qed.

(** The pattern [p] is what the mux picks for a request with method [m], even when [q] matches too. *)
Definition wins (m : string) (p q : pattern) : bool :=
  if methodOK (pt_method q) m && segsOverlap (pt_segs p) (pt_segs q) (pt_multi p) (pt_multi q)
  then pat_le p q && negb (pat_le q p) else true.

Lemma pat_le_refl p : pat_le p p = true.
Proof.
  unfold pat_le, methodOK. rewrite String.eqb_refl, orb_true_r. simpl.
  induction (pt_segs p) as [|[a|a] l IH]; simpl; rewrite ?String.eqb_refl; try done. by destruct (pt_multi p).
Qed.

(** ** Sublists: disabling groups only removes routes *)

Lemma sublist_mjoin {A B} (f : A -> list B) l k : l `sublist_of` k -> mjoin (map f l) `sublist_of` mjoin (map f k).
Proof.
  induction 1 as [|x l k Hl IH|x l k Hl IH]; simpl; [done| |].
  - by apply sublist_app.
  - by apply sublist_inserts_l.
Qed.

Lemma NoDup_fst_unique {A B} (l : list (A * B)) x y1 y2 :
  NoDup l.*1 -> (x, y1) ∈ l -> (x, y2) ∈ l -> y1 = y2.
Proof.
  intros Hnd. induction l as [|[a b] l IH]; [by intros ?%not_elem_of_nil|].
  apply NoDup_cons in Hnd as [Ha Hnd]. simpl in Ha.
  assert (Hx : forall y, (a, y) ∈ l -> False) by (intros y Hy; apply Ha, list_elem_of_fmap; by exists (a, y)).
  rewrite !elem_of_cons. intros [E1|H1] [E2|H2]; simplify_eq; eauto; exfalso; eauto.
Qed.

Lemma unambiguous_sublist l k : l `sublist_of` k -> unambiguous k = true -> unambiguous l = true.
Proof.
  induction 1 as [|x l k Hl IH|x l k Hl IH]; simpl; intros Hk; [done| |]; bools; [|by apply IH].
  apply andb_true_iff. split; [|by apply IH]. rewrite forallb_forall in *. intros y Hy. apply H.
  rewrite <- list_elem_of_In in *. eapply elem_of_submseteq; [exact Hy|by apply sublist_submseteq].
Qed.

(** ** Requests made from a route *)

(** A path segment that stands for itself: no escapes, no slash, not a dot segment. *)
Definition plainSeg (s : string) : bool :=
  negb (String.eqb s "") && negb (ContainsByte s "/") && negb (ContainsByte s "%")
  && negb (String.eqb s ".") && negb (String.eqb s "..").

Definition wildNames (ps : list string) : list string :=
  omap (fun p => match parseSeg p with Wild n => Some n | Lit _ => None end) ps.

(** A segment that the registry and the mux read alike. *)
Definition segOK (p : string) : bool :=
  match parseSeg p with
  | Wild _ => isWildcard p
  | Lit l => negb (isWildcard p) && String.eqb l p && plainSeg p
  end.

Lemma plainSeg_spec s : plainSeg s = true ->
  s <> "" /\ ContainsByte s "/" = false /\ unescapeSegment s = s /\ s <> "." /\ s <> "..".
Proof.
  unfold plainSeg, unescapeSegment. rewrite !andb_true_iff, !negb_true_iff.
  intros ((((H1 & H2) & H3) & H4) & H5). rewrite PathUnescape_plain by done.
  rewrite String.eqb_neq in *. done.
Qed.

(** A segment that a clean path can have; escapes are allowed. *)
Definition cleanSeg (s : string) : bool :=
  negb (String.eqb s "") && negb (ContainsByte s "/") && negb (String.eqb s ".") && negb (String.eqb s "..").

Lemma cleanSeg_spec s : cleanSeg s = true -> s <> "" /\ ContainsByte s "/" = false /\ s <> "." /\ s <> "..".
Proof. unfold cleanSeg. rewrite !andb_true_iff, !negb_true_iff, !String.eqb_neq. tauto. Qed.
Lemma plain_clean segs : Forall (fun s => plainSeg s = true) segs -> Forall (fun s => cleanSeg s = true) segs.
Proof. intros Hp. eapply Forall_impl; [exact Hp|]. unfold plainSeg, cleanSeg. intros s Hs. rewrite !andb_true_iff in *. tauto. Qed.

Lemma instance_plain ps vs rs :
  instance ps vs = Some rs -> forallb segOK ps = true -> forallb plainSeg vs = true ->
  Forall (fun r => plainSeg r = true) rs /\
  matchSegs (map parseSeg ps) false rs false = Some (zip (wildNames ps) vs).
Proof.
  revert vs rs. induction ps as [|p ps IH]; intros vs rs; simpl.
  - destruct vs; [|done]. by intros [= <-].
  - intros Hi [Hp Hps]%andb_true_iff Hv. unfold segOK in Hp. destruct (parseSeg p) as [l|n] eqn:Ep.
    + apply andb_true_iff in Hp as [[Hw Hl]%andb_true_iff Hpl].
      apply negb_true_iff in Hw. apply String.eqb_eq in Hl as ->. rewrite Hw in Hi.
      destruct (instance ps vs) as [rs'|] eqn:E; [|done]. injection Hi as <-.
      destruct (IH vs rs' E Hps Hv) as [H1' H2']. split; [by constructor|].
      destruct (plainSeg_spec p Hpl) as (_ & _ & -> & _). by rewrite String.eqb_refl.
    + rewrite Hp in Hi. destruct vs as [|v vs]; [done|]. simpl in Hv.
      apply andb_true_iff in Hv as [Hv1 Hv2].
      destruct (instance ps vs) as [rs'|] eqn:E; [|done]. injection Hi as <-.
      destruct (IH vs rs' E Hps Hv2) as [H1' H2']. split; [by constructor|].
      destruct (plainSeg_spec v Hv1) as (_ & _ & -> & _). simpl. by rewrite H2'.
Qed.

(** The same for segments that may contain escapes: the mux binds what they unescape to. *)
Lemma instance_clean ps ws rs :
  instance ps ws = Some rs -> forallb segOK ps = true -> forallb cleanSeg ws = true ->
  Forall (fun r => cleanSeg r = true) rs /\
  matchSegs (map parseSeg ps) false rs false = Some (zip (wildNames ps) (map unescapeSegment ws)).
Proof.
  revert ws rs. induction ps as [|p ps IH]; intros ws rs; simpl.
  - destruct ws; [|done]. by intros [= <-].
  - intros Hi [Hp Hps]%andb_true_iff Hv. unfold segOK in Hp. destruct (parseSeg p) as [l|n] eqn:Ep.
    + apply andb_true_iff in Hp as [[Hw Hl]%andb_true_iff Hpl].
      apply negb_true_iff in Hw. apply String.eqb_eq in Hl as ->. rewrite Hw in Hi.
      destruct (instance ps ws) as [rs'|] eqn:E; [|done]. injection Hi as <-.
      destruct (IH ws rs' E Hps Hv) as [H1' H2'].
      split; [constructor; [|done]; by apply (Forall_singleton (fun s => cleanSeg s = true)), plain_clean, Forall_singleton|].
      destruct (plainSeg_spec p Hpl) as (_ & _ & -> & _). by rewrite String.eqb_refl.
    + rewrite Hp in Hi. destruct ws as [|v ws]; [done|]. simpl in Hv.
      apply andb_true_iff in Hv as [Hv1 Hv2].
      destruct (instance ps ws) as [rs'|] eqn:E; [|done]. injection Hi as <-.
      destruct (IH ws rs' E Hps Hv2) as [H1' H2']. split; [by constructor|]. simpl. by rewrite H2'.
Qed.

Lemma instance_nonempty ps vs rs : instance ps vs = Some rs -> ps <> [] -> rs <> [].
Proof.
  destruct ps as [|p ps]; [done|]. simpl. intros Hi _. destruct (isWildcard p).
  - destruct vs as [|v vs]; [done|]. destruct (instance ps vs); [|done]. by injection Hi as <-.
  - destruct (instance ps vs); [|done]. by injection Hi as <-.
Qed.

(** *** Joined paths are clean *)

Lemma LastFrom_app a b c t : LastFrom b c = Some t -> LastFrom (a ++ b) c = Some t.
Proof. intros Hb. induction a as [|d a IH]; simpl; [done|]. by rewrite IH. Qed.

Lemma join_path_last segs : segs <> [] -> Forall (fun s => cleanSeg s = true) segs ->
  exists t, LastFrom (join_path segs) "/" = Some ("/" ++ t) /\ t <> "".
Proof.
  intros Hne Hp. induction Hp as [|s segs Hs Hp IH]; [done|].
  destruct (cleanSeg_spec s Hs) as (Hse & Hsl & _). simpl join_path.
  destruct segs as [|s' segs].
  - exists s. split; [|done]. simpl. rewrite sapp_nil_r, LastFrom_absent by done. done.
  - destruct IH as (t & Ht & Hte); [done|]. exists t. split; [|done].
    change (String "/" (s ++ ?x)) with (("/" ++ s) ++ x). by apply LastFrom_app.
Qed.

Lemma join_path_noslash segs : segs <> [] -> Forall (fun s => cleanSeg s = true) segs ->
  endsWithSlash (join_path segs) = false.
Proof.
  intros Hne Hp. destruct (join_path_last segs Hne Hp) as (t & Ht & Hte).
  unfold endsWithSlash. rewrite Ht. by destruct t.
Qed.

Lemma clean_loop_clean segs stack : Forall (fun s => cleanSeg s = true) segs ->
  clean_loop segs stack = (rev stack ++ segs)%list.
Proof.
  intros Hp. revert stack. induction Hp as [|s segs Hs Hp IH]; intros stack; simpl; [by rewrite app_nil_r|].
  destruct (cleanSeg_spec s Hs) as (Hse & _ & Hd & Hdd).
  rewrite (proj2 (String.eqb_neq _ _) Hse), (proj2 (String.eqb_neq _ _) Hd), (proj2 (String.eqb_neq _ _) Hdd).
  simpl. rewrite IH. simpl. by rewrite <- app_assoc.
Qed.

Lemma Join_join_path segs : segs <> [] -> "/" ++ Join segs "/" = join_path segs.
Proof.
  induction segs as [|s segs IH]; [done|]. intros _. destruct segs as [|s' segs].
  - simpl. by rewrite sapp_nil_r.
  - change (Join (s :: s' :: segs) "/") with (s ++ "/" ++ Join (s' :: segs) "/").
    rewrite IH by done. done.
Qed.

Lemma clean_no_slash segs : Forall (fun s => cleanSeg s = true) segs ->
  Forall (fun s => ContainsByte s "/" = false /\ s <> "") segs.
Proof. intros Hp. eapply Forall_impl; [exact Hp|]. intros s Hs. by destruct (cleanSeg_spec s Hs) as (? & ? & _). Qed.

Lemma join_path_cleanSegs segs : segs <> [] -> Forall (fun s => cleanSeg s = true) segs ->
  isClean (join_path segs) = true /\ parsePath (join_path segs) = mkPath segs false.
Proof.
  intros Hne Hp. pose proof (join_path_noslash segs Hne Hp) as He. split.
  - unfold isClean, cleanPath. cbv zeta. rewrite He. cbn [andb].
    rewrite Split_join_path; [|eapply Forall_impl; [by apply clean_no_slash|naive_solver]|done].
    change (clean_loop ("" :: segs) []) with (clean_loop segs []).
    rewrite clean_loop_clean by done. change (rev [] ++ segs)%list with segs.
    rewrite Join_join_path by done. apply String.eqb_refl.
  - unfold parsePath. rewrite He, <- splitPathSegments_segments, splitPathSegments_join; [done|].
    by apply clean_no_slash.
Qed.

Lemma plain_no_slash segs : Forall (fun s => plainSeg s = true) segs ->
  Forall (fun s => ContainsByte s "/" = false /\ s <> "") segs.
Proof. intros Hp. by apply clean_no_slash, plain_clean. Qed.
Lemma join_path_clean segs : segs <> [] -> Forall (fun s => plainSeg s = true) segs ->
  isClean (join_path segs) = true /\ parsePath (join_path segs) = mkPath segs false.
Proof. intros Hne Hp. by apply join_path_cleanSegs, plain_clean. Qed.

(** ** The full registry *)

Section Routing.
Context `{UnicodeTables} `{JsonAny} `{Float64} {L : Type} `{!Logger L}.
Abbreviation State := (ServerState L).
Abbreviation Hnd := (Handler State).

Definition allGroups (keys : list string) : list Endpoints :=
  [IdentityGroup.Group keys; DataEndpoints.Group; FailureEndpoints.Group; Echo.Group keys;
   StreamEndpoints.Group; Pagination.Group; Methods.Group; SecurityEndpoints.Group; ExportEndpoints.Group].

Definition flatOf (g : Endpoints) : list routeEntry :=
  map (fun route => mkEntry (g_Name g) route (splitPathSegments (m_Path route))) (g_Routes g).

Lemma addIf_groups b g r : rg_groups (addIf b g r) = (rg_groups r ++ if b then [g] else [])%list.
Proof. destruct b; simpl; [done|]. by rewrite app_nil_r. Qed.

Lemma addIf_flat b g r :
  rg_flat r = mjoin (map flatOf (rg_groups r)) ->
  rg_flat (addIf b g r) = mjoin (map flatOf (rg_groups (addIf b g r))).
Proof.
  intros Hr. destruct b; simpl; [|done]. rewrite Hr, map_app, join_app. simpl. by rewrite app_nil_r.
Qed.

Lemma buildRegistry_flat cfg :
  rg_flat (buildRegistry cfg) = mjoin (map flatOf (rg_groups (buildRegistry cfg))).
Proof. unfold buildRegistry. by do 9 apply addIf_flat. Qed.

Lemma sublist_if {A} (b : bool) (x : A) : (if b then [x] else []) `sublist_of` [x].
Proof. destruct b; [done|]. by repeat constructor. Qed.

Lemma buildRegistry_groups cfg :
  rg_groups (buildRegistry cfg) `sublist_of` allGroups (au_RedactKeys (cf_Audit cfg)).
Proof.
  unfold buildRegistry. rewrite !addIf_groups. unfold allGroups. simpl rg_groups.
  change ([?a; ?b; ?c; ?d; ?e; ?f; ?g; ?h; ?i]) with
    ((((((((([] ++ [a]) ++ [b]) ++ [c]) ++ [d]) ++ [e]) ++ [f]) ++ [g]) ++ [h]) ++ [i])%list.
  repeat (apply sublist_app; [|apply sublist_if]). done.
Qed.

(** The text a group hands to [mux.Handle] for a route. *)
Definition patternText (m : EndpointMeta) : string := m_Method m ++ " " ++ m_Path m.

(** Every group mounts exactly the routes it declares, in the same order. *)
Lemma groups_mount_routes keys :
  Forall (fun g => map fst (g_Mount g) = map patternText (g_Routes g)) (allGroups keys).
Proof. unfold allGroups. repeat constructor. Qed.

Definition fullFlat (keys : list string) : list routeEntry := mjoin (map flatOf (allGroups keys)).
Definition fullPatterns (keys : list string) : list pattern :=
  map (fun ph => parsePattern ph.1) (mjoin (map g_Mount (allGroups keys))).

Lemma fullFlat_unambiguous keys : unambiguous (fullFlat keys) = true.
Proof. by vm_compute. Qed.

Lemma flat_unambiguous cfg : unambiguous (rg_flat (buildRegistry cfg)) = true.
Proof.
  rewrite buildRegistry_flat. eapply unambiguous_sublist; [|apply fullFlat_unambiguous].
  apply sublist_mjoin, buildRegistry_groups.
Qed.

Definition startsV1 (p : pattern) : bool := match pt_segs p with Lit a :: _ => String.eqb a "v1" | _ => false end.

(** Endpoint patterns are distinct, live under [/v1/], end without a slash, and win over every other. *)
Lemma fullPatterns_ok keys :
  NoDup (fullPatterns keys) /\
  Forall (fun p => startsV1 p = true /\ pt_method p <> "" /\ pt_multi p = false /\
                   Forall (fun q => p = q \/ wins (pt_method p) p q = true) (fullPatterns keys)) (fullPatterns keys).
Proof. split; [apply (bool_decide_unpack _)|apply (bool_decide_unpack _)]; by vm_compute. Qed.

(** Facts about every route of the full registry. *)
Lemma fullFlat_ok keys :
  Forall (fun e =>
    parsePattern (patternText (re_meta e)) = mkPattern (m_Method (re_meta e)) (map parseSeg (re_segs e)) false /\
    forallb segOK (re_segs e) = true /\ re_segs e <> []) (fullFlat keys).
Proof. apply (bool_decide_unpack _). by vm_compute. Qed.

(** ** Routes outside [/v1/] *)

(** The catch-all root, or a pattern that starts with another literal. *)
Definition otherPattern (q : pattern) : bool :=
  match pt_segs q with
  | [] => pt_multi q && negb (String.eqb (pt_method q) "HEAD")
  | Lit a :: _ => negb (String.eqb a "v1")
  | Wild _ :: _ => false
  end.

Lemma methodOK_le a b m : methodOK a m = true -> methodOK b m = true -> a <> "" -> b <> "HEAD" -> methodOK b a = true.
Proof.
  unfold methodOK. rewrite !orb_true_iff, !andb_true_iff, !String.eqb_eq. intros Ha Hb Hne Hh.
  destruct Ha as [[?|<-]|[-> ->]]; [done|done|]. destruct Hb as [[?|?]|[? _]]; [by left; left|done|by left; right].
Qed.

Lemma wins_other m p q : startsV1 p = true -> pt_method p <> "" -> methodOK (pt_method p) m = true ->
  otherPattern q = true -> wins m p q = true.
Proof.
  unfold startsV1, otherPattern, wins, pat_le. destruct (pt_segs p) as [|[a|] ps]; try done.
  intros Ha%String.eqb_eq Hne Hm Hq. subst a. destruct (methodOK (pt_method q) m) eqn:Hqm; [|done].
  destruct (pt_segs q) as [|[b|] qs]; cbn [segsOverlap segs_le andb].
  - apply andb_true_iff in Hq as [Hq Hh%negb_true_iff%String.eqb_neq]. rewrite Hq, andb_false_r.
    by rewrite (methodOK_le (pt_method p) (pt_method q) m).
  - rewrite (String.eqb_sym "v1" b). by destruct (String.eqb b "v1").
  - done.
Qed.

(** The portal's handlers stay out of [/v1/]. *)
Definition portalElsewhere (portal : option (PortalDeps (L := L))) : bool :=
  match portal with
  | None => true
  | Some p => forallb (fun ph => otherPattern (parsePattern ph.1)) (default [] (pd_BrowserAuth p) ++ pd_PortalAPI p)%list
  end.

(** Every entry of the mux is an endpoint or lies elsewhere. *)
Lemma muxRoutes_split reg (mw : EHandler -> Hnd) portal oapi q h :
  portalElsewhere portal = true -> (q, h) ∈ muxRoutes reg mw portal oapi ->
  (q, h) ∈ Registry.Mount reg mw \/ otherPattern q = true.
Proof.
  intros Hp. unfold muxRoutes. rewrite !elem_of_app.
  assert (Hh : forall l : list (string * Hnd), forallb (fun ph => otherPattern (parsePattern ph.1)) l = true ->
     (q, h) ∈ map handleFunc l -> otherPattern q = true).
  { intros l Hl Hin. apply list_elem_of_fmap in Hin as (ph & [= -> ->] & Hin).
    rewrite forallb_forall in Hl. apply Hl. by apply list_elem_of_In. }
  intros [Hi|[Hi|[Hi|[Hi|Hi]]]]; [right|by left|right..]; (eapply Hh; [|exact Hi]); try done.
  - by destruct oapi.
  - destruct portal as [p|]; [|done]. unfold portalRoutes. simpl in Hp. rewrite forallb_app in *.
    apply andb_true_iff in Hp as [Hp1 Hp2].
    by rewrite !forallb_app, Hp1, Hp2.
Qed.

(** ** The mux table of a configuration *)

Section Table.
Variables (cfg : Config) (mw : EHandler -> Hnd) (portal : option (PortalDeps (L := L)))
          (oapi : option (string * string)).
Hypothesis Hportal : portalElsewhere portal = true.
Let reg := buildRegistry cfg.
Let table := muxRoutes reg mw portal oapi.

Lemma mount_patterns :
  map fst (Registry.Mount reg mw) `sublist_of` fullPatterns (au_RedactKeys (cf_Audit cfg)).
Proof.
  unfold Registry.Mount, fullPatterns. rewrite map_map. cbn [fst].
  apply sublist_map, sublist_mjoin, buildRegistry_groups.
Qed.

Lemma mount_unique q h1 h2 :
  (q, h1) ∈ Registry.Mount reg mw -> (q, h2) ∈ Registry.Mount reg mw -> h1 = h2.
Proof.
  assert (Hnd : NoDup (Registry.Mount reg mw).*1).
  { eapply sublist_NoDup; [|apply mount_patterns]. apply fullPatterns_ok. }
  by apply NoDup_fst_unique.
Qed.

(** A declared route is mounted by its group. *)
Lemma route_mounted e : e ∈ rg_flat reg ->
  exists g h, g ∈ rg_groups reg /\ g_Name g = re_group e /\ (patternText (re_meta e), h) ∈ g_Mount g /\
    (parsePattern (patternText (re_meta e)), mw h) ∈ Registry.Mount reg mw.
Proof.
  intros He. unfold reg in He. rewrite buildRegistry_flat in He. apply list_elem_of_join in He as (l & He & Hl).
  apply list_elem_of_fmap in Hl as (g & -> & Hg). apply list_elem_of_fmap in He as (m & -> & Hm).
  pose proof (groups_mount_routes (au_RedactKeys (cf_Audit cfg))) as Hall. rewrite Forall_forall in Hall.
  assert (Hgm : map fst (g_Mount g) = map patternText (g_Routes g)).
  { apply Hall. eapply elem_of_submseteq; [exact Hg|]. apply sublist_submseteq, buildRegistry_groups. }
  assert (Ht : patternText m ∈ map fst (g_Mount g)) by (rewrite Hgm; by apply list_elem_of_fmap_2).
  apply list_elem_of_fmap in Ht as ([t h] & Ht & Hth). simpl in Ht. subst t.
  exists g, h. split; [done|]. split; [done|]. split; [done|].
  apply list_elem_of_fmap. exists (patternText m, h). split; [done|].
  apply list_elem_of_join. exists (g_Mount g). split; [done|]. by apply list_elem_of_fmap_2.
Qed.

Lemma mounted_pattern_ok p h : (p, h) ∈ Registry.Mount reg mw ->
  startsV1 p = true /\ pt_method p <> "" /\ pt_multi p = false /\
  forall q hq, (q, hq) ∈ Registry.Mount reg mw -> p = q \/ wins (pt_method p) p q = true.
Proof.
  assert (Hfull : forall q hq, (q, hq) ∈ Registry.Mount reg mw -> q ∈ fullPatterns (au_RedactKeys (cf_Audit cfg))).
  { intros q hq Hq. eapply elem_of_submseteq; [|apply sublist_submseteq, mount_patterns].
    apply list_elem_of_fmap. by exists (q, hq). }
  intros Hin. destruct (fullPatterns_ok (au_RedactKeys (cf_Audit cfg))) as [_ Hall]. rewrite Forall_forall in Hall.
  destruct (Hall p (Hfull _ _ Hin)) as (Hv1 & Hne & Hmu & Hwin). rewrite Forall_forall in Hwin. eauto 7.
Qed.

(** A request that an endpoint's pattern matches goes to it, unless another endpoint wins. *)
Lemma endpoint_best m p h x bs :
  (p, h) ∈ Registry.Mount reg mw -> methodOK (pt_method p) m = true -> matchPath p x = Some bs ->
  (forall q hq, (q, hq) ∈ Registry.Mount reg mw -> p = q \/ wins m p q = true) ->
  best (candidates table m x) = Some (p, bs, h).
Proof.
  intros Hin Hpm Hm Hwin. destruct (mounted_pattern_ok p h Hin) as (Hv1 & Hmne & Hmu & _).
  apply best_spec; [|done|done|].
  { unfold table, muxRoutes. rewrite !elem_of_app. by right; left. }
  intros q hq bq Hq Hmo Hmq.
  assert (Hw : wins m p q = true -> pat_le p q = true /\ (pat_le q p = true -> q = p /\ hq = h)).
  { unfold wins. rewrite Hmo. unfold matchPath in Hm, Hmq. rewrite (matchSegs_overlap _ _ _ _ _ _ _ _ Hm Hmq).
    intros [H3 H4]%andb_true_iff. split; [done|]. intros H5. by rewrite H5 in H4. }
  apply muxRoutes_split in Hq as [Hq|Hq]; [|by apply Hw, wins_other|done].
  destruct (Hwin q hq Hq) as [<-|Hwq]; [|by apply Hw]. split.
  - apply pat_le_refl.
  - intros _. split; [done|]. eapply mount_unique; done.
Qed.

End Table.

Lemma flat_entry_ok cfg e : e ∈ rg_flat (buildRegistry cfg) ->
  parsePattern (patternText (re_meta e)) = mkPattern (m_Method (re_meta e)) (map parseSeg (re_segs e)) false /\
  forallb segOK (re_segs e) = true /\ re_segs e <> [].
Proof.
  intros He. pose proof (fullFlat_ok (au_RedactKeys (cf_Audit cfg))) as Hall. rewrite Forall_forall in Hall.
  apply Hall. eapply elem_of_submseteq; [exact He|]. rewrite buildRegistry_flat.
  apply sublist_submseteq, sublist_mjoin, buildRegistry_groups.
Qed.

(** Dispatch of an instance of a declared route whose parameters are escaped. *)
Lemma route_found_escaped (cfg : Config) (mw : EHandler -> Hnd) (portal : option (PortalDeps (L := L)))
  (oapi : option (string * string)) (e : routeEntry) (ws rs : list string) :
  portalElsewhere portal = true -> e ∈ rg_flat (buildRegistry cfg) ->
  instance (re_segs e) ws = Some rs -> forallb cleanSeg ws = true ->
  exists g h, g ∈ rg_groups (buildRegistry cfg) /\ g_Name g = re_group e /\ (patternText (re_meta e), h) ∈ g_Mount g /\
    dispatch (muxRoutes (buildRegistry cfg) mw portal oapi) (m_Method (re_meta e)) (join_path rs) =
    Found (parsePattern (patternText (re_meta e))) (list_to_map (zip (wildNames (re_segs e)) (map unescapeSegment ws))) (mw h).
Proof.
  intros Hportal He Hi Hw. destruct (flat_entry_ok cfg e He) as (Hpp & Hok & Hne).
  destruct (instance_clean _ _ _ Hi Hok Hw) as [Hclean Hms].
  destruct (join_path_cleanSegs rs (instance_nonempty _ _ _ Hi Hne) Hclean) as [Hcl Hparse].
  destruct (route_mounted cfg mw e He) as (g & h & Hg & Hgn & Hgm & Hmt).
  exists g, h. split; [done|]. split; [done|]. split; [done|].
  apply dispatch_best; [done|by rewrite Hpp|]. rewrite Hparse.
  replace (m_Method (re_meta e)) with (pt_method (parsePattern (patternText (re_meta e)))) by (by rewrite Hpp).
  apply endpoint_best; [done|done| | |].
  - unfold methodOK. by rewrite String.eqb_refl, orb_true_r.
  - unfold matchPath. by rewrite Hpp.
  - eapply mounted_pattern_ok, Hmt.
Qed.

Lemma unescape_plain vs : forallb plainSeg vs = true -> map unescapeSegment vs = vs /\ forallb cleanSeg vs = true.
Proof.
  induction vs as [|v vs IH]; [done|]. cbn. intros [H1' H2']%andb_true_iff. destruct (IH H2') as [-> ->].
  destruct (plainSeg_spec v H1') as (_ & _ & -> & _). split; [done|]. rewrite andb_true_r.
  unfold plainSeg, cleanSeg in *. rewrite !andb_true_iff in *. tauto.
Qed.

(** Dispatch and resolution of an instance of a declared route. *)
Lemma route_found (cfg : Config) (mw : EHandler -> Hnd) (portal : option (PortalDeps (L := L)))
  (oapi : option (string * string)) (e : routeEntry) (vs segs : list string)
  (Hportal : portalElsewhere portal = true) (He : e ∈ rg_flat (buildRegistry cfg))
  (Hi : instance (re_segs e) vs = Some segs) (Hv : forallb plainSeg vs = true) :
  let m := re_meta e in
  RouteForRequest (buildRegistry cfg) (m_Method m) (join_path segs) = (re_group e, m_Name m) /\
  exists g h, g ∈ rg_groups (buildRegistry cfg) /\ g_Name g = re_group e /\ (patternText m, h) ∈ g_Mount g /\
    dispatch (muxRoutes (buildRegistry cfg) mw portal oapi) (m_Method m) (join_path segs) =
    Found (parsePattern (patternText m)) (list_to_map (zip (wildNames (re_segs e)) vs)) (mw h).
Proof.
  intros m. destruct (flat_entry_ok cfg e He) as (Hpp & Hok & Hne).
  destruct (instance_plain _ _ _ Hi Hok Hv) as [Hplain Hms].
  pose proof (instance_nonempty _ _ _ Hi Hne) as Hsne.
  destruct (join_path_clean segs Hsne Hplain) as [Hclean Hparse]. split.
  - apply RouteForRequest_unambiguous; [apply flat_unambiguous|done|done|].
    rewrite splitPathSegments_join by (by apply plain_no_slash). by eapply instance_match.
  - destruct (unescape_plain vs Hv) as [Hu Hcl].
    destruct (route_found_escaped cfg mw portal oapi e vs segs Hportal He Hi Hcl) as (g & h & Hg & Hgn & Hgm & Hd).
    exists g, h. by rewrite Hu in Hd.
Qed.

(** C5: the audit log names the route that served the request.  For any configuration (any set of
    enabled endpoint groups), a portal whose routes lie elsewhere, any route and any values for its path
    parameters that stand for themselves (not empty, no slash, no per cent sign, no dot segment), the mux hands the request to the handler that the route's own group mounted for it,
    with the path parameters bound to the given values, and the registry's matcher, which the audit
    middleware consults independently of the mux, resolves the same path to that route's group and
    name. *)
Theorem route_attribution (cfg : Config) (mw : EHandler -> Hnd) (portal : option (PortalDeps (L := L)))
  (oapi : option (string * string)) (e : routeEntry) (vs segs : list string)
  (Hportal : portalElsewhere portal = true) (He : e ∈ rg_flat (buildRegistry cfg))
  (Hi : instance (re_segs e) vs = Some segs) (Hv : forallb plainSeg vs = true) :
  let m := re_meta e in
  RouteForRequest (buildRegistry cfg) (m_Method m) (join_path segs) = (re_group e, m_Name m) /\
  exists g h, g ∈ rg_groups (buildRegistry cfg) /\ g_Name g = re_group e /\ (patternText m, h) ∈ g_Mount g /\
    dispatch (muxRoutes (buildRegistry cfg) mw portal oapi) (m_Method m) (join_path segs) =
    Found (parsePattern (patternText m)) (list_to_map (zip (wildNames (re_segs e)) vs)) (mw h).
Proof. by apply route_found. Qed.

(** A mounted pattern comes from a declared route. *)
Lemma mounted_from_flat cfg (mw : EHandler -> Hnd) q hq : (q, hq) ∈ Registry.Mount (buildRegistry cfg) mw ->
  exists d, d ∈ rg_flat (buildRegistry cfg) /\ q = parsePattern (patternText (re_meta d)).
Proof.
  intros Hq. apply list_elem_of_fmap in Hq as ([t h] & [= -> ->] & Hin).
  apply list_elem_of_join in Hin as (l & Hl & Hg). apply list_elem_of_fmap in Hg as (g & -> & Hg).
  pose proof (groups_mount_routes (au_RedactKeys (cf_Audit cfg))) as Hall. rewrite Forall_forall in Hall.
  assert (Hgm : map fst (g_Mount g) = map patternText (g_Routes g)).
  { apply Hall. eapply elem_of_submseteq; [exact Hg|]. apply sublist_submseteq, buildRegistry_groups. }
  assert (Ht : t ∈ map fst (g_Mount g)) by (apply list_elem_of_fmap; by exists (t, h)).
  rewrite Hgm in Ht. apply list_elem_of_fmap in Ht as (m & -> & Hm).
  exists (mkEntry (g_Name g) m (splitPathSegments (m_Path m))). split; [|done].
  rewrite buildRegistry_flat. apply list_elem_of_join. exists (flatOf g). split; [|by apply list_elem_of_fmap_2].
  apply list_elem_of_fmap. by exists m.
Qed.

Lemma segsOverlap_overlap ps qs : forallb segOK ps = true -> forallb segOK qs = true ->
  segsOverlap (map parseSeg ps) (map parseSeg qs) false false = overlap ps qs.
Proof.
  revert qs. induction ps as [|p ps IH]; intros [|q qs]; cbn [forallb map]; [done|by destruct (parseSeg q)|by destruct (parseSeg p)|].
  intros [Hp Hps]%andb_true_iff [Hq Hqs]%andb_true_iff. simpl. unfold segOK in Hp, Hq.
  destruct (parseSeg p) as [a|a], (parseSeg q) as [b|b]; bools; subst;
    repeat match goal with H : isWildcard _ = _ |- _ => rewrite H end; simpl; rewrite IH by done; done.
Qed.

(** What wins for GET wins for HEAD, over patterns that do not answer HEAD themselves. *)
Lemma wins_head p q : wins (pt_method p) p q = true -> pt_method p = "GET" ->
  (pt_method q = "HEAD" -> segsOverlap (pt_segs p) (pt_segs q) (pt_multi p) (pt_multi q) = false) ->
  wins "HEAD" p q = true.
Proof.
  unfold wins. intros Hw Hp Hh. rewrite Hp in Hw.
  destruct (methodOK (pt_method q) "HEAD") eqn:E; [|done]. unfold methodOK in E.
  destruct (String.eqb_spec (pt_method q) "HEAD") as [Hq|Hq]; [by rewrite Hh|].
  assert (Hg : methodOK (pt_method q) "GET" = true); [|by rewrite Hg in Hw].
  unfold methodOK. rewrite !orb_true_iff, !andb_true_iff, !String.eqb_eq in *.
  destruct E as [[?|?]|[? _]]; [by left; left|done|by left; right].
Qed.

(** No route answers HEAD on the paths of [e]. *)
Definition noHeadRoute (reg : Registry) (e : routeEntry) : bool :=
  forallb (fun d => negb (String.eqb (m_Method (re_meta d)) "HEAD" && overlap (re_segs e) (re_segs d))) (rg_flat reg).

(** HEAD requests are served but not attributed.  The mux serves HEAD with the handler of a GET
    route, but the registry's matcher compares methods exactly: for every GET route whose paths no
    HEAD route covers, a HEAD request reaches the route's handler while the audit log gets an empty
    group and route name for it. *)
Theorem head_served_but_unattributed (cfg : Config) (mw : EHandler -> Hnd)
  (portal : option (PortalDeps (L := L))) (oapi : option (string * string)) (e : routeEntry) (vs segs : list string)
  (Hportal : portalElsewhere portal = true) (He : e ∈ rg_flat (buildRegistry cfg))
  (Hget : m_Method (re_meta e) = "GET") (Hnone : noHeadRoute (buildRegistry cfg) e = true)
  (Hi : instance (re_segs e) vs = Some segs) (Hv : forallb plainSeg vs = true) :
  RouteForRequest (buildRegistry cfg) "HEAD" (join_path segs) = ("", "") /\
  exists h, dispatch (muxRoutes (buildRegistry cfg) mw portal oapi) "HEAD" (join_path segs) =
    Found (parsePattern (patternText (re_meta e))) (list_to_map (zip (wildNames (re_segs e)) vs)) (mw h).
Proof.
  destruct (flat_entry_ok cfg e He) as (Hpp & Hok & Hne).
  destruct (instance_plain _ _ _ Hi Hok Hv) as [Hplain Hms].
  pose proof (instance_nonempty _ _ _ Hi Hne) as Hsne.
  destruct (join_path_clean segs Hsne Hplain) as [Hclean Hparse].
  unfold noHeadRoute in Hnone. rewrite forallb_forall in Hnone.
  assert (Hd : forall d, d ∈ rg_flat (buildRegistry cfg) -> m_Method (re_meta d) = "HEAD" ->
                         overlap (re_segs e) (re_segs d) = false).
  { intros d Hd%list_elem_of_In Hm. specialize (Hnone d Hd). rewrite Hm in Hnone. by apply negb_true_iff in Hnone. }
  split.
  - apply route_loop_none. intros d Hin Hm. rewrite splitPathSegments_join by (by apply plain_no_slash).
    apply not_true_iff_false. intros Hds. specialize (Hd d Hin Hm). apply not_true_iff_false in Hd. apply Hd.
    eapply match_overlap; [by eapply instance_match|exact Hds].
  - destruct (route_mounted cfg mw e He) as (g & h & Hg & Hgn & Hgm & Hmt). exists h.
    apply dispatch_best; [done|by rewrite Hpp|]. rewrite Hparse.
    apply endpoint_best; [done|done|by rewrite Hpp, Hget|unfold matchPath; by rewrite Hpp|].
    intros q hq Hq. destruct (mounted_pattern_ok cfg mw _ _ Hmt) as (_ & _ & _ & Hw).
    destruct (Hw q hq Hq) as [?|Hwq]; [by left|right]. apply (wins_head _ _ Hwq); [by rewrite Hpp|].
    intros Hqm. destruct (mounted_from_flat cfg mw q hq Hq) as (d & Hdf & ->).
    destruct (flat_entry_ok cfg d Hdf) as (Hdp & _). rewrite Hpp, Hdp. simpl.
    rewrite segsOverlap_overlap; [|apply (flat_entry_ok cfg e He)|apply (flat_entry_ok cfg d Hdf)].
    apply Hd; [done|]. by rewrite Hdp in Hqm.
Qed.

End Routing.

(** ** Witnesses *)

#[local] Existing Instance ascii_tables.
#[local] Existing Instance scaledFloat.
#[local] Existing Instance merge_slice.

(** A reader that accepts no JSON. *)
Definition noJson : JsonAny := {| unmarshalAny := fun _ => None |}.
#[local] Existing Instance noJson.

Definition fixedEntry : routeEntry :=
  default (mkEntry "" (mkMeta "" "" "" "" "" false None None None None) [])
    (rg_flat (buildRegistry zeroConfig) !! 2%nat).
Definition asHandler (h : EHandler) : Handler (ServerState MemoryLogger) := serve h.

Lemma fixedEntry_in : fixedEntry ∈ rg_flat (buildRegistry zeroConfig).
Proof. apply list_elem_of_lookup. by exists 2%nat. Defined.

Lemma route_attribution_witness :
  RouteForRequest (buildRegistry zeroConfig) "GET" "/v1/fixed/k1" = ("data", "fixed") /\
  exists h, dispatch (muxRoutes (buildRegistry zeroConfig) asHandler None None) "GET" "/v1/fixed/k1" =
    Found (parsePattern "GET /v1/fixed/{key}") {["key" := "k1"]} (asHandler h).
Proof.
  destruct (route_attribution zeroConfig asHandler None None fixedEntry ["k1"] ["v1"; "fixed"; "k1"]
              eq_refl fixedEntry_in eq_refl eq_refl) as (H1 & g & h & _ & _ & _ & H2).
  split; [exact H1|]. exists h. exact H2.
Defined.

Lemma head_served_but_unattributed_witness :
  RouteForRequest (buildRegistry zeroConfig) "HEAD" "/v1/fixed/k1" = ("", "") /\
  exists h, dispatch (muxRoutes (buildRegistry zeroConfig) asHandler None None) "HEAD" "/v1/fixed/k1" =
    Found (parsePattern "GET /v1/fixed/{key}") {["key" := "k1"]} (asHandler h).
Proof.
  assert (Hn : noHeadRoute (buildRegistry zeroConfig) fixedEntry = true) by (by vm_compute).
  exact (head_served_but_unattributed zeroConfig asHandler None None fixedEntry ["k1"] ["v1"; "fixed"; "k1"]
           eq_refl fixedEntry_in eq_refl Hn eq_refl eq_refl).
Defined.
