(* ===== verification/Handlers.v ===== *)
(** * What the endpoint handlers do to the response writer

    Behind the recorders of the middleware a handler is recorded faithfully when it sends a final
    status, does not flush and leaves the request-id header alone.  Every handler of every group
    does, for every request, with one exception: [/v1/status/{code}] asked for an informational
    code. *)
From S2P Require Import Pagination DataEndpoints FailureEndpoints InspectEndpoints SecurityEndpoints.
From S2P Require Import StreamEndpoints ExportEndpoints.
From S2P Require Import Prelude GoStrings GoNum GoTime GoUrl Json Http ServeMux Registry AuditEvent.
From S2P Require Import MemoryLog Inbound Middleware Config Server Routing.

Definition keepsHeader (k : string) (o : wop) : bool :=
  match o with
  | HSet k' _ | HAdd k' _ => negb (String.eqb (CanonicalHeaderKey k') (CanonicalHeaderKey k))
  | _ => true
  end.
Definition tame (o : wop) : bool := plainOp o && keepsHeader HeaderRequestID o.
Definition tameOps (ops : list wop) : Prop := forallb tame ops = true.

Create HintDb tame.

Lemma tame_nil : tameOps [].
Proof. done. Qed.
Lemma tame_app a b : tameOps a -> tameOps b -> tameOps (a ++ b)%list.
Proof. unfold tameOps. intros Ha Hb. by rewrite forallb_app, Ha, Hb. Qed.
Lemma tame_write b ops : tameOps ops -> tameOps (Write b :: ops).
Proof. done. Qed.
Lemma tame_status c ops : informational c = false -> tameOps ops -> tameOps (WriteHeader c :: ops).
Proof. intros Hc Ho. unfold tameOps, tame. cbn [forallb plainOp]. by rewrite Hc. Qed.
Lemma tame_set k v ops : keepsHeader HeaderRequestID (HSet k v) = true -> tameOps ops -> tameOps (HSet k v :: ops).
Proof. intros Hk Ho. unfold tameOps, tame. cbn [forallb]. by rewrite Hk. Qed.
Lemma tame_writeJSON c j : informational c = false -> tameOps (writeJSON c j).
Proof. intros Hc. apply tame_set; [done|]. by apply tame_status. Qed.
Lemma tame_writeJSONError c m : informational c = false -> tameOps (writeJSONError c m).
Proof. apply tame_writeJSON. Qed.
Lemma tame_if (b : bool) x y : tameOps x -> tameOps y -> tameOps (if b then x else y).
Proof. by destruct b. Qed.

#[export] Hint Resolve tame_nil tame_app tame_write tame_status tame_set tame_writeJSON tame_writeJSONError tame_if : tame.
#[export] Hint Extern 1 (informational _ = false) => reflexivity : tame.
#[export] Hint Extern 1 (keepsHeader _ _ = true) => reflexivity : tame.

(** Split the cases of a handler and solve each by the rules above. *)
Ltac tame_solve := repeat case_match; auto 12 with tame nocore.

Lemma tame_sized_loop f : forall w n, tameOps (sized_loop f w n).
Proof. induction f as [|f IH]; intros w n; cbn [sized_loop]; tame_solve. Qed.

Lemma tame_stream_loop env line delay k : forall i, tameOps (stream_loop env false line delay k i).
Proof. induction k as [|k IH]; intros i; cbn [stream_loop]; [done|]. apply tame_write. cbn [app]. tame_solve. Qed.

Lemma tame_bigBody_loop env seed target k : forall i w, tameOps (bigBody_loop env false seed target k i w).
Proof. induction k as [|k IH]; intros i w; cbn [bigBody_loop andb app]; tame_solve. Qed.

Lemma tame_csv_loop env seed k : forall i buf, tameOps (csv_loop env false seed k i buf).
Proof. induction k as [|k IH]; intros i buf; cbn [csv_loop andb]; tame_solve. Qed.

#[export] Hint Resolve tame_sized_loop tame_stream_loop tame_bigBody_loop tame_csv_loop : tame.

Lemma tame_stream hdrs line env r : tameOps hdrs -> tameOps (stream hdrs line env false r).
Proof. intros Hh. unfold stream, writeBadRequest. tame_solve. Qed.

Lemma tame_status_handler r : informational (Atoi (PathValue r "code")).1 = false -> tameOps (status r).
Proof. unfold status. destruct (Atoi _) as [code err]. cbn [fst]. intros Hc. tame_solve. Qed.

Lemma tame_bigHeaders r : tameOps (bigHeaders r).
Proof. unfold bigHeaders. apply tame_app; [|auto with tame]. by vm_compute. Qed.

Section Groups.
Context `{UnicodeTables} `{JsonAny} `{Float64}.

Definition tameHandler (r : Request) (h : EHandler) : Prop := forall env, tameOps (h env false r).1.

Lemma groups_tame keys r : informational (Atoi (PathValue r "code")).1 = false ->
  Forall (fun g => Forall (fun ph => tameHandler r ph.2) (g_Mount g)) (allGroups keys).
Proof.
  intros Hc. unfold allGroups, tameHandler, replies. repeat constructor; intros env; cbn [fst snd];
    try (by apply tame_status_handler); try apply tame_bigHeaders;
    try (by apply tame_stream);
    unfold replies, IdentityGroup.whoami, sized, lorem, slow, flaky, Echo.handle, link, odata, cursor, Methods.handle,
      fetch, redirectTo, bigBody, csv, longRunning, writeBadRequest, writeJSON_opt, writeJSONOK, ExportEndpoints.writeJSONOK;
    cbn [fst]; tame_solve.
Qed.

End Groups.
