(* ===== verification/OpenApi.v ===== *)
(** * The OpenAPI generator ([pkg/oapi], [buildOpenAPI] of [internal/server/server.go])

    Schemas from Go types, operations from route metadata, the document of a registry and the
    self check.  A Go map is a [gmap] ([properties], inside the recursive schema, an association
    list without repeated keys).  Schema fields the generator never sets (description, nullable,
    example, enum) are left out, and so is the rendering to JSON and YAML. *)
From S2P Require Import Pagination DataEndpoints FailureEndpoints InspectEndpoints SecurityEndpoints.
From S2P Require Import StreamEndpoints ExportEndpoints.
From S2P Require Import Prelude GoStrings GoNum GoTime GoUrl Json Http ServeMux Registry AuditEvent.
From S2P Require Import MemoryLog Inbound Middleware Config Server Routing.

(** ** Schemas *)

Inductive Schema := mkSchema {
  s_Type : string; s_Format : string; s_Properties : list (string * Schema);
  s_Required : list string; s_Items : option Schema; s_Additional : option Schema }.
Definition anySchema : Schema := mkSchema "" "" [] [] None None.
Definition typed (t : string) : Schema := mkSchema t "" [] [] None None.

(** Assignment to a map entry. *)
Fixpoint put {A} (k : string) (v : A) (l : list (string * A)) : list (string * A) :=
  match l with
  | [] => [(k, v)]
  | (k', v') :: l' => if String.eqb k' k then (k, v) :: l' else (k', v') :: put k v l'
  end.
Fixpoint assoc {A} (k : string) (l : list (string * A)) : option A :=
  match l with [] => None | (k', v) :: l' => if String.eqb k' k then Some v else assoc k l' end.

(** [StructField.IsExported]. *)
Definition IsExported (name : string) : bool := match name with String c _ => isUpper c | "" => false end.

(** Wire name and [omitempty]; [None] for a skipped field. *)
Definition parseJSONTag (name tag : string) : option (string * bool) :=
  if String.eqb tag "-" then None
  else if String.eqb tag "" then Some (name, false)
  else
    match Split tag "," with
    | [] => Some (name, false)
    | p0 :: opts => Some (if String.eqb p0 "" then name else p0, existsb (fun o => String.eqb o "omitempty") opts)
    end.

Fixpoint schemaFromType (t : gotype) : Schema :=
  match t with
  | TPtr t' => schemaFromType t'
  | TTime => mkSchema "string" "date-time" [] [] None None
  | TBool => typed "boolean"
  | TInt => typed "integer"
  | TFloat => typed "number"
  | TString => typed "string"
  | TSlice t' => mkSchema "array" "" [] [] (Some (schemaFromType t')) None
  | TMap k e =>
    match k with
    | TString => mkSchema "object" "" [] [] None (Some (schemaFromType e))
    | _ => typed "object"
    end
  | TStruct fs =>
    let '(props, req) :=
      (fix structSchema (fs : list (string * string * gotype)) (props : list (string * Schema)) (req : list string) :=
         match fs with
         | [] => (props, req)
         | (name, tag, ft) :: fs' =>
           if negb (IsExported name) then structSchema fs' props req
           else match parseJSONTag name tag with
                | None => structSchema fs' props req
                | Some (wire, omitEmpty) =>
                  structSchema fs' (put wire (schemaFromType ft) props) (if omitEmpty then req else req ++ [wire])%list
                end
         end) fs [] [] in
    mkSchema "object" "" props req None None
  | TAny => anySchema
  end.

(** [for t.Kind() == reflect.Ptr { t = t.Elem() }] *)
Fixpoint deref (t : gotype) : gotype := match t with TPtr t' => deref t' | _ => t end.

Section Generator.
Context `{UnicodeTables} `{SortSlice}.

Fixpoint lookup_field (fs : list (string * string * gotype)) (target : string) : option gotype :=
  match fs with
  | [] => None
  | (name, tag, ft) :: fs' =>
    if negb (IsExported name) then lookup_field fs' target
    else match parseJSONTag name tag with
         | None => lookup_field fs' target
         | Some (wire, _) =>
           if String.eqb wire target || EqualFold wire target then Some ft else lookup_field fs' target
         end
  end.
Definition lookupFieldByJSONName (t : gotype) (target : string) : option gotype :=
  match deref t with TStruct fs => lookup_field fs target | _ => None end.

(** ** Documents *)

Record Info := mkInfo { in_Title : string; in_Description : string; in_Version : string }.
Record Server := mkServer { sr_URL : string; sr_Description : string }.
Record ParameterObject := mkParameter { pa_Name : string; pa_In : string; pa_Required : bool; pa_Schema : Schema }.
(** [Content] has at most the one entry [application/json]. *)
Record RequestBody := mkRequestBody { rb_Required : bool; rb_Content : gmap string Schema }.
Record Response := mkResponse { rs_Description : string; rs_Content : gmap string Schema }.
Record Operation := mkOperation {
  op_OperationID : string; op_Description : string; op_Tags : list string; op_Parameters : list ParameterObject;
  op_RequestBody : option RequestBody; op_Responses : gmap string Response;
  op_Security : list (gmap string (list string)) }.
Record PathItem := mkPathItem {
  p_Get : option Operation; p_Post : option Operation; p_Put : option Operation; p_Patch : option Operation;
  p_Delete : option Operation; p_Head : option Operation; p_Options : option Operation }.
Definition zeroPathItem : PathItem := mkPathItem None None None None None None None.
Record SecurityScheme := mkSecurityScheme {
  ssc_Type : string; ssc_In : string; ssc_Name : string; ssc_Scheme : string; ssc_Description : string }.
Record Document := mkDocument {
  d_OpenAPI : string; d_Info : Info; d_Servers : list Server; d_Paths : gmap string PathItem;
  d_Components : option (gmap string SecurityScheme); d_Tags : list string }.
Record BuildOptions := mkBuildOptions {
  bo_Info : Info; bo_Servers : list Server; bo_APIKeyHeader : string; bo_BearerEnabled : bool }.

(** ** Operations *)

(** [pathParamPattern.FindAllStringSubmatch]: the names in braces, left to right; [fuel] bounds the
    length of the text. *)
Fixpoint spanParam (s : string) : string * string :=
  match s with
  | EmptyString => ("", "")
  | String c s' => if Ascii.eqb c "}" || Ascii.eqb c "/" then ("", s)
                   else let '(a, b) := spanParam s' in (String c a, b)
  end.
Fixpoint pathParams_loop (fuel : nat) (s : string) : list string :=
  match fuel, s with
  | S n, String c s' =>
    if Ascii.eqb c "{" then
      match spanParam s' with
      | (String a name, String "}" rest) => String a name :: pathParams_loop n rest
      | _ => pathParams_loop n s'
      end
    else pathParams_loop n s'
  | _, _ => []
  end.
Definition pathParams (path : string) : list string := pathParams_loop (String.length path) path.

Definition pathParamSchema (name : string) (pathParams : option gotype) : Schema :=
  match pathParams with
  | None => typed "string"
  | Some t => match lookupFieldByJSONName t name with Some ft => schemaFromType ft | None => typed "string" end
  end.

Definition queryParam (f : string * string * gotype) : option ParameterObject :=
  let '(name, tag, ft) := f in
  if negb (IsExported name) then None
  else match parseJSONTag name tag with
       | None => None
       | Some (wire, omitEmpty) => Some (mkParameter wire "query" (negb omitEmpty) (schemaFromType ft))
       end.
Definition parametersFor (route : EndpointMeta) : list ParameterObject :=
  (map (fun name => mkParameter name "path" true (pathParamSchema name (m_PathParams route))) (pathParams (m_Path route))
   ++ match m_QueryParams route with
      | None => []
      | Some t => match deref t with TStruct fs => omap queryParam fs | _ => [] end
      end)%list.

Definition responsesFor (route : EndpointMeta) : gmap string Response :=
  {["200" := mkResponse "Success"
      (match m_ResponseBody route with
       | Some t => {["application/json" := schemaFromType t]}
       | None => ∅
       end)]}.

Definition securityRequirement (opts : BuildOptions) : list (gmap string (list string)) :=
  ((if String.eqb (bo_APIKeyHeader opts) "" then [] else [{["apiKey" := []]}])
   ++ (if bo_BearerEnabled opts then [{["bearer" := []]}] else []))%list.

Definition operationFor (route : EndpointMeta) (opts : BuildOptions) : Operation :=
  mkOperation (m_Name route) (m_Description route) [m_Group route] (parametersFor route)
    ((fun t => mkRequestBody true {["application/json" := schemaFromType t]}) <$> m_RequestBody route)
    (responsesFor route)
    (if m_AuthRequired route then securityRequirement opts else []).

Definition assignOperation (p : PathItem) (method : string) (op : Operation) : PathItem :=
  let '(mkPathItem g po pu pa de he opt) := p in
  let m := ToUpper method in
  if String.eqb m "GET" then mkPathItem (Some op) po pu pa de he opt
  else if String.eqb m "POST" then mkPathItem g (Some op) pu pa de he opt
  else if String.eqb m "PUT" then mkPathItem g po (Some op) pa de he opt
  else if String.eqb m "PATCH" then mkPathItem g po pu (Some op) de he opt
  else if String.eqb m "DELETE" then mkPathItem g po pu pa (Some op) he opt
  else if String.eqb m "HEAD" then mkPathItem g po pu pa de (Some op) opt
  else if String.eqb m "OPTIONS" then mkPathItem g po pu pa de he (Some op)
  else p.

Definition componentsFor (opts : BuildOptions) : option (gmap string SecurityScheme) :=
  let schemes : gmap string SecurityScheme := if String.eqb (bo_APIKeyHeader opts) "" then ∅ else
    {["apiKey" := mkSecurityScheme "apiKey" "header" (bo_APIKeyHeader opts) ""
                    "Inbound API key header. Configured by api_keys.header_name."]} in
  let schemes := if bo_BearerEnabled opts then
    <["bearer" := mkSecurityScheme "http" "" "" "bearer"
        "Inbound bearer token validated against the static bearer.tokens list or the OIDC validator when enabled."]> schemes
    else schemes in
  if bool_decide (size schemes = 0%nat) then None else Some schemes.

Definition tagsFor (reg : Registry) : list string :=
  sort_slice str_ltb
    (foldl (fun tags name => if existsb (String.eqb name) tags then tags else (tags ++ [name])%list) []
           (map g_Name (Groups reg))).

Definition addRoute (opts : BuildOptions) (paths : gmap string PathItem) (route : EndpointMeta) : gmap string PathItem :=
  <[m_Path route := assignOperation (default zeroPathItem (paths !! m_Path route)) (m_Method route) (operationFor route opts)]> paths.
Definition Build (reg : Registry) (opts : BuildOptions) : Document :=
  mkDocument "3.1.0" (bo_Info opts) (bo_Servers opts)
    (foldl (fun paths group => foldl (addRoute opts) paths (g_Routes group)) ∅ (Groups reg))
    (componentsFor opts) (tagsFor reg).

(** ** The self check *)

Definition pathItemMethods (p : PathItem) : list string :=
  let has (o : option Operation) (m : string) := match o with Some _ => [m] | None => [] end in
  (has (p_Get p) "GET" ++ has (p_Post p) "POST" ++ has (p_Put p) "PUT" ++ has (p_Patch p) "PATCH"
   ++ has (p_Delete p) "DELETE" ++ has (p_Head p) "HEAD" ++ has (p_Options p) "OPTIONS")%list.

Definition docRouteSet (doc : Document) : gset string :=
  list_to_set (p ← map_to_list (d_Paths doc); map (fun m => m ++ " " ++ p.1) (pathItemMethods p.2)).
Definition registryRouteSet (reg : Registry) : gset string :=
  list_to_set (map (fun r => ToUpper (m_Method r) ++ " " ++ m_Path r) (All reg)).

(** [sort.Strings] of distinct strings. *)
Definition sortStrings (l : list string) : list string := merge_by str_ltb l.

Definition SelfCheck (doc : Document) (reg : Registry) : option string :=
  let missingInDoc : list string := elements (registryRouteSet reg ∖ docRouteSet doc) in
  let missingInRegistry : list string := elements (docRouteSet doc ∖ registryRouteSet reg) in
  match missingInDoc, missingInRegistry with
  | [], [] => None
  | _, _ =>
    let parts :=
      ((if bool_decide (missingInDoc = []) then [] else [("missing from openapi doc: " ++ Join (sortStrings missingInDoc) ", ")%string])
       ++ (if bool_decide (missingInRegistry = []) then []
           else [("missing from registry: " ++ Join (sortStrings missingInRegistry) ", ")%string]))%list in
    Some ("openapi/registry mismatch: " ++ Join parts "; ")
  end.

(** ** The served document; [version] is stamped at link time. *)
Definition buildOpenAPI (version : string) (cfg : Config) (registry : Registry) : Document :=
  Build registry (mkBuildOptions (mkInfo (sc_Name (cf_Server cfg)) (sc_Description (cf_Server cfg)) version)
    [mkServer (sc_BaseURL (cf_Server cfg)) ""] (kc_HeaderName (cf_APIKeys cfg))
    ((0 <? Z.of_nat (length (cf_BearerTokens cfg))) || oc_Enabled (cf_OIDC cfg))).

End Generator.

(** ** Lemmas: the operations of a document *)

Definition httpMethods : list string := ["GET"; "POST"; "PUT"; "PATCH"; "DELETE"; "HEAD"; "OPTIONS"].

Definition opAt (m : string) (p : PathItem) : option Operation :=
  if String.eqb m "GET" then p_Get p else if String.eqb m "POST" then p_Post p
  else if String.eqb m "PUT" then p_Put p else if String.eqb m "PATCH" then p_Patch p
  else if String.eqb m "DELETE" then p_Delete p else if String.eqb m "HEAD" then p_Head p
  else if String.eqb m "OPTIONS" then p_Options p else None.
(** The operation a document has for a method and a path. *)
Definition docOp (doc : Document) (m path : string) : option Operation := d_Paths doc !! path ≫= opAt m.

Section DocFacts.
Context `{UnicodeTables} `{SortSlice}.

Lemma opAt_assign p m op m' : m' ∈ httpMethods ->
  opAt m' (assignOperation p m op) = if String.eqb (ToUpper m) m' then Some op else opAt m' p.
Proof.
  intros Hm. destruct p as [g po pu pa de he opt]. unfold assignOperation. generalize (ToUpper m) as u. intros u.
  unfold httpMethods in Hm. rewrite !elem_of_cons, elem_of_nil in Hm. destruct_or! Hm; try done; subst m';
    repeat match goal with |- context [String.eqb u ?s] => destruct (String.eqb_spec u s) as [->|] end; done.
Qed.

Lemma opAt_zero m : opAt m zeroPathItem = None.
Proof. unfold opAt. by repeat case_match. Qed.

Definition serves (m path : string) (r : EndpointMeta) : bool :=
  String.eqb (ToUpper (m_Method r)) m && String.eqb (m_Path r) path.
Definition lastRoute (m path : string) (rs : list EndpointMeta) : option EndpointMeta :=
  foldl (fun acc r => if serves m path r then Some r else acc) None rs.

Lemma addRoutes_op opts m path rs : m ∈ httpMethods -> forall paths acc,
  paths !! path ≫= opAt m = (fun r => operationFor r opts) <$> acc ->
  foldl (addRoute opts) paths rs !! path ≫= opAt m =
  (fun r => operationFor r opts) <$> foldl (fun acc r => if serves m path r then Some r else acc) acc rs.
Proof.
  intros Hm. induction rs as [|r rs IH]; intros paths acc Hacc; [done|]. cbn [foldl]. apply IH.
  unfold addRoute, serves. destruct (String.eqb_spec (m_Path r) path) as [<-|Hne].
  - rewrite lookup_insert_eq. cbn [mbind option_bind]. rewrite opAt_assign by done. rewrite andb_true_r.
    destruct (String.eqb (ToUpper (m_Method r)) m); [done|]. rewrite <- Hacc.
    destruct (paths !! m_Path r); [done|]. apply opAt_zero.
  - rewrite lookup_insert_ne by done. by rewrite andb_false_r.
Qed.

Lemma foldl_groups opts gs : forall paths,
  foldl (fun paths group => foldl (addRoute opts) paths (g_Routes group)) paths gs =
  foldl (addRoute opts) paths (mjoin (map g_Routes gs)).
Proof. induction gs as [|g gs IH]; intros paths; [done|]. cbn [foldl map]. simpl. by rewrite IH, foldl_app. Qed.

(** The document of a registry has, for a method and a path, the operation of the last route that
    serves them. *)
Lemma Build_op reg opts m path : m ∈ httpMethods ->
  docOp (Build reg opts) m path = (fun r => operationFor r opts) <$> lastRoute m path (All reg).
Proof. intros Hm. unfold docOp, Build. cbn [d_Paths]. rewrite foldl_groups. by apply addRoutes_op. Qed.

Lemma lastRoute_acc m path rs : forall acc r,
  foldl (fun acc r => if serves m path r then Some r else acc) acc rs = Some r ->
  acc = Some r \/ (r ∈ rs /\ serves m path r = true).
Proof.
  induction rs as [|x rs IH]; intros acc r; cbn [foldl]; [by left|]. intros Hf.
  destruct (IH _ _ Hf) as [Hx|[Hin Hs]]; [|right; split; [by right|done]].
  destruct (serves m path x) eqn:Ex; [|by left]. injection Hx as ->. right. split; [by left|done].
Qed.
Lemma lastRoute_Some m path rs r : lastRoute m path rs = Some r -> r ∈ rs /\ serves m path r = true.
Proof. intros Hf. by destruct (lastRoute_acc _ _ _ _ _ Hf). Qed.

Lemma lastRoute_keeps m path rs : forall r, is_Some (foldl (fun acc r => if serves m path r then Some r else acc) (Some r) rs).
Proof. induction rs as [|x rs IH]; intros r; cbn [foldl]; [by eexists|]. destruct (serves m path x); apply IH. Qed.
Lemma lastRoute_is_Some m path rs r : r ∈ rs -> serves m path r = true -> is_Some (lastRoute m path rs).
Proof.
  unfold lastRoute. generalize (@None EndpointMeta). intros acc Hin Hs. revert acc.
  induction Hin as [x rs|x y rs Hin IH]; intros acc; cbn [foldl].
  - rewrite Hs. apply lastRoute_keeps.
  - by apply IH.
Qed.

Lemma pathItemMethods_spec p m : m ∈ pathItemMethods p <-> m ∈ httpMethods /\ opAt m p <> None.
Proof.
  unfold pathItemMethods, httpMethods. rewrite !elem_of_app, !elem_of_cons, elem_of_nil. destruct p as [g po pu pa de he opt].
  cbn [p_Get p_Post p_Put p_Patch p_Delete p_Head p_Options]. split.
  - intros Hm. destruct_or! Hm; repeat match goal with H : m ∈ match ?o with _ => _ end |- _ => destruct o eqn:?; [|by apply elem_of_nil in H] end;
      apply list_elem_of_singleton in Hm; subst m; (split; [tauto|done]).
  - intros [Hm Ho]. destruct_or! Hm; try done; subst m; unfold opAt in Ho; cbn in Ho;
      match goal with H : ?o <> None |- _ => destruct o; [|done] end; rewrite list_elem_of_singleton; tauto.
Qed.

Lemma docRouteSet_spec reg opts k : k ∈ docRouteSet (Build reg opts) <->
  exists r, r ∈ All reg /\ ToUpper (m_Method r) ∈ httpMethods /\ k = ToUpper (m_Method r) ++ " " ++ m_Path r.
Proof.
  unfold docRouteSet. rewrite elem_of_list_to_set, list_elem_of_bind. split.
  - intros ([path item] & Hk & Hp). apply list_elem_of_fmap in Hk as (m & -> & Hm). cbn [fst snd] in *.
    apply pathItemMethods_spec in Hm as [Hm Ho]. apply elem_of_map_to_list in Hp.
    pose proof (Build_op reg opts m path Hm) as Hb. unfold docOp in Hb. rewrite Hp in Hb. cbn [mbind option_bind] in Hb.
    destruct (lastRoute m path (All reg)) as [r|] eqn:El; [|done]. apply lastRoute_Some in El as [Hr Hs].
    apply andb_true_iff in Hs as [E1%String.eqb_eq E2%String.eqb_eq]. exists r. by subst.
  - intros (r & Hr & Hm & ->). pose proof (Build_op reg opts _ (m_Path r) Hm) as Hb.
    destruct (lastRoute_is_Some (ToUpper (m_Method r)) (m_Path r) (All reg) r Hr) as [r' Hl];
      [unfold serves; by rewrite !String.eqb_refl|].
    rewrite Hl in Hb. unfold docOp in Hb. destruct (d_Paths (Build reg opts) !! m_Path r) as [item|] eqn:Ei; [|done].
    exists (m_Path r, item). split; [|by apply elem_of_map_to_list]. apply list_elem_of_fmap.
    exists (ToUpper (m_Method r)). split; [done|]. apply pathItemMethods_spec. split; [done|].
    cbn [mbind option_bind snd] in *. by rewrite Hb.
Qed.

Lemma registryRouteSet_spec reg k : k ∈ registryRouteSet reg <->
  exists r, r ∈ All reg /\ k = ToUpper (m_Method r) ++ " " ++ m_Path r.
Proof.
  unfold registryRouteSet. rewrite elem_of_list_to_set, list_elem_of_fmap. naive_solver.
Qed.

(** The path parameters of an operation are the braces of its path; query parameters come after. *)
Lemma parametersFor_path r :
  map pa_Name (filter (fun p => pa_In p = "path") (parametersFor r)) = pathParams (m_Path r) /\
  Forall (fun p => pa_In p = "path" -> pa_Required p = true) (parametersFor r).
Proof.
  unfold parametersFor. set (qs := match m_QueryParams r with Some _ => _ | None => _ end).
  assert (Hq : Forall (fun p => pa_In p <> "path") qs).
  { unfold qs. destruct (m_QueryParams r) as [t|]; [|constructor]. destruct (deref t); try constructor.
    apply Forall_forall. intros p Hp. apply list_elem_of_omap in Hp as ([[name tag] ft] & _ & Hf). unfold queryParam in Hf.
    destruct (negb (IsExported name)); [done|]. destruct (parseJSONTag name tag) as [[w om]|]; [|done]. by injection Hf as <-. }
  split.
  - rewrite filter_app, map_app. assert (filter (fun p => pa_In p = "path") qs = []) as ->
      by (clear -Hq; induction Hq as [|p qs Hp _ IH]; [done|]; by rewrite filter_cons_False).
    rewrite app_nil_r.
    generalize (pathParams (m_Path r)). intros l. induction l as [|n l IH]; [done|]. cbn [map].
    rewrite filter_cons_True by done. cbn [map pa_Name]. by rewrite IH.
  - apply Forall_app. split; [|by eapply Forall_impl; [exact Hq|intros p Hp ?; done]].
    apply Forall_forall. intros p Hp _. apply list_elem_of_fmap in Hp as (n & -> & _). done.
Qed.

Lemma diff_nil (X Y : gset string) : elements (X ∖ Y) = [] <-> X ⊆ Y.
Proof.
  rewrite elements_empty_iff. split; [apply empty_difference_subseteq|apply subseteq_empty_difference].
Qed.

Lemma SelfCheck_None doc reg : SelfCheck doc reg = None <-> docRouteSet doc = registryRouteSet reg.
Proof.
  unfold SelfCheck. pose proof (diff_nil (registryRouteSet reg) (docRouteSet doc)) as Ha.
  pose proof (diff_nil (docRouteSet doc) (registryRouteSet reg)) as Hb. rewrite set_eq_subseteq.
  destruct (elements (registryRouteSet reg ∖ _)), (elements (docRouteSet doc ∖ _)); intuition congruence.
Qed.

End DocFacts.

(** ** Theorems *)

Section Documented.
Context `{UnicodeTables} `{JsonAny} `{Float64} `{SortSlice}.

(** The routes of all groups: standard methods, no two for the same method and path, braces that are
    exactly the wildcards, and no route that declares authentication. *)
Definition fullMetas (keys : list string) : list EndpointMeta := mjoin (map g_Routes (allGroups keys)).

Lemma fullMetas_ok keys :
  NoDup (map (fun m => (m_Method m, m_Path m)) (fullMetas keys)) /\
  Forall (fun m => ToUpper (m_Method m) = m_Method m /\ m_Method m ∈ httpMethods /\ m_AuthRequired m = false /\
    pathParams (m_Path m) = wildNames (splitPathSegments (m_Path m))) (fullMetas keys).
Proof.
  split.
  - apply (bool_decide_eq_true_1 (NoDup _)). by vm_compute.
  - repeat (apply List.Forall_cons; [split_and!; [reflexivity|by repeat constructor|reflexivity|reflexivity]|]). constructor.
Qed.

Lemma All_sublist cfg : All (buildRegistry cfg) `sublist_of` fullMetas (au_RedactKeys (cf_Audit cfg)).
Proof. apply sublist_mjoin, buildRegistry_groups. Qed.

Lemma All_flat cfg e : e ∈ rg_flat (buildRegistry cfg) ->
  re_meta e ∈ All (buildRegistry cfg) /\ re_segs e = splitPathSegments (m_Path (re_meta e)).
Proof.
  rewrite buildRegistry_flat. intros He. apply list_elem_of_join in He as (l & He & Hl).
  apply list_elem_of_fmap in Hl as (g & -> & Hg). apply list_elem_of_fmap in He as (m & -> & Hm). split; [|done].
  apply list_elem_of_join. exists (g_Routes g). split; [done|]. by apply list_elem_of_fmap_2.
Qed.

Lemma All_ok cfg m : m ∈ All (buildRegistry cfg) ->
  ToUpper (m_Method m) = m_Method m /\ m_Method m ∈ httpMethods /\ m_AuthRequired m = false /\
  pathParams (m_Path m) = wildNames (splitPathSegments (m_Path m)).
Proof.
  intros Hm. pose proof (proj2 (fullMetas_ok (au_RedactKeys (cf_Audit cfg)))) as Hall. rewrite Forall_forall in Hall.
  apply Hall. eapply elem_of_submseteq; [exact Hm|]. apply sublist_submseteq, All_sublist.
Qed.

Lemma All_unique cfg m m' : m ∈ All (buildRegistry cfg) -> m' ∈ All (buildRegistry cfg) ->
  m_Method m = m_Method m' -> m_Path m = m_Path m' -> m = m'.
Proof.
  intros Hm Hm' E1 E2. assert (Hnd : NoDup (map (fun m => (m_Method m, m_Path m)) (All (buildRegistry cfg)))).
  { eapply sublist_NoDup; [apply fullMetas_ok|]. apply sublist_map, All_sublist. }
  apply (NoDup_map_inj _ _ _ _ Hnd Hm Hm'). by rewrite E1, E2.
Qed.

(** The check passes when every route has one of the seven methods, so for every configuration. *)
Lemma selfcheck_pass reg opts : Forall (fun r => ToUpper (m_Method r) ∈ httpMethods) (All reg) -> SelfCheck (Build reg opts) reg = None.
Proof.
  intros Hall. rewrite Forall_forall in Hall. apply SelfCheck_None. apply set_eq. intros k.
  rewrite docRouteSet_spec, registryRouteSet_spec. naive_solver.
Qed.
Lemma selfcheck_all version cfg : SelfCheck (buildOpenAPI version cfg (buildRegistry cfg)) (buildRegistry cfg) = None.
Proof. apply selfcheck_pass. apply Forall_forall. intros r Hr. destruct (All_ok cfg r Hr) as (-> & Hm & _). done. Qed.

(** C38: the self check finds exactly what the generator drops.  For a registry whose methods contain
    no space, the boot-time check of the generated document passes if and only if every route has
    one of the seven HTTP methods; in particular it passes for every configuration, so it never
    keeps the server from starting. *)
Theorem selfcheck_exact (reg : Registry) (opts : BuildOptions)
  (Hspace : Forall (fun r => ContainsByte (ToUpper (m_Method r)) " " = false) (All reg)) :
  (SelfCheck (Build reg opts) reg = None <-> Forall (fun r => ToUpper (m_Method r) ∈ httpMethods) (All reg)) /\
  forall version cfg, SelfCheck (buildOpenAPI version cfg (buildRegistry cfg)) (buildRegistry cfg) = None.
Proof.
  split; [split; [|apply selfcheck_pass]|apply selfcheck_all].
  intros Hsc%SelfCheck_None. rewrite Forall_forall in *. intros r Hr.
    assert (Hk : ToUpper (m_Method r) ++ " " ++ m_Path r ∈ docRouteSet (Build reg opts))
      by (rewrite Hsc; apply registryRouteSet_spec; by exists r).
    apply docRouteSet_spec in Hk as (r' & Hr' & Hm & E). apply (f_equal (fun s => Cut s " ")) in E.
    change (" " ++ ?x) with (String " " x) in E. rewrite !Cut_found in E by (by apply Hspace). by injection E as -> _.
Qed.

(** The operation of a route is generated from its own metadata. *)
Lemma route_op version cfg m : m ∈ All (buildRegistry cfg) ->
  exists opts, docOp (buildOpenAPI version cfg (buildRegistry cfg)) (m_Method m) (m_Path m) = Some (operationFor m opts).
Proof.
  intros Hm. destruct (All_ok cfg _ Hm) as (Hu & Hhttp & _ & _). unfold buildOpenAPI. rewrite Build_op by done.
  destruct (lastRoute_is_Some (m_Method m) (m_Path m) (All (buildRegistry cfg)) _ Hm) as [r Hl];
    [unfold serves; by rewrite Hu, !String.eqb_refl|].
  rewrite Hl. apply lastRoute_Some in Hl as [Hr Hsv]. apply andb_true_iff in Hsv as [E1%String.eqb_eq E2%String.eqb_eq].
  rewrite (proj1 (All_ok cfg r Hr)) in E1. assert (r = m) as -> by (by eapply All_unique). by eexists.
Qed.

Lemma route_documented version cfg g m : g ∈ rg_groups (buildRegistry cfg) -> m ∈ g_Routes g ->
  exists op, docOp (buildOpenAPI version cfg (buildRegistry cfg)) (m_Method m) (m_Path m) = Some op /\
    match m_ResponseBody m with
    | None => True
    | Some t => exists rs, op_Responses op !! "200" = Some rs /\ rs_Content rs !! "application/json" = Some (schemaFromType t)
    end.
Proof.
  intros Hg Hm. assert (Ha : m ∈ All (buildRegistry cfg)).
  { apply list_elem_of_join. exists (g_Routes g). split; [done|]. by apply list_elem_of_fmap_2. }
  destruct (route_op version cfg m Ha) as [opts Hop]. eexists. split; [exact Hop|].
  cbn [operationFor op_Responses]. unfold responsesFor. destruct (m_ResponseBody m) as [t|]; [|done].
  eexists. split; [apply lookup_singleton_eq|]. apply lookup_singleton_eq.
Qed.

(** Every route is documented as it is served.  For any configuration and any of its routes the
    OpenAPI document has an operation for the route's method and path, generated from that route's
    own metadata; its path parameters are exactly the wildcards the mux binds, all required; and
    the identifiers and tags are the names the audit log uses. *)
Theorem documented_route (version : string) (cfg : Config) (e : routeEntry)
  (He : e ∈ rg_flat (buildRegistry cfg)) :
  exists op, docOp (buildOpenAPI version cfg (buildRegistry cfg)) (m_Method (re_meta e)) (m_Path (re_meta e)) = Some op /\
    op_OperationID op = m_Name (re_meta e) /\
    map pa_Name (filter (fun p => pa_In p = "path") (op_Parameters op)) = wildNames (re_segs e) /\
    Forall (fun p => pa_In p = "path" -> pa_Required p = true) (op_Parameters op) /\
    (m_ResponseBody (re_meta e) = None \/
     exists t rs, m_ResponseBody (re_meta e) = Some t /\ op_Responses op !! "200" = Some rs /\
       rs_Content rs !! "application/json" = Some (schemaFromType t)).
Proof.
  destruct (All_flat cfg e He) as [Hm Hs]. destruct (All_ok cfg _ Hm) as (_ & _ & _ & Hpar).
  destruct (route_op version cfg _ Hm) as [opts Hop]. exists (operationFor (re_meta e) opts). split; [done|].
  cbn [op_OperationID operationFor op_Parameters op_Responses]. split; [done|].
  destruct (parametersFor_path (re_meta e)) as [Hp Hq]. rewrite Hp, Hpar, <- Hs. split; [done|]. split; [done|].
  unfold responsesFor. destruct (m_ResponseBody (re_meta e)) as [t|]; [right|by left].
  exists t. eexists. split; [done|]. split; [apply lookup_singleton_eq|]. apply lookup_singleton_eq.
Qed.

(** The document never asks for credentials.  Whatever authentication the configuration enables,
    no operation of the served document carries a security requirement, since no route's metadata
    declares one, while the credential chain guards every route. *)
Theorem security_undeclared (version : string) (cfg : Config) (m path : string) (op : Operation)
  (Hm : m ∈ httpMethods) (Hop : docOp (buildOpenAPI version cfg (buildRegistry cfg)) m path = Some op) :
  op_Security op = [].
Proof.
  unfold buildOpenAPI in Hop. rewrite Build_op in Hop by done.
  destruct (lastRoute m path _) as [r|] eqn:El; [|done]. apply lastRoute_Some in El as [Hr _].
  injection Hop as <-. unfold operationFor. cbn [op_Security]. by rewrite (proj1 (proj2 (proj2 (All_ok cfg r Hr)))).
Qed.

End Documented.

(** ** Witnesses *)

#[local] Existing Instance ascii_tables.
#[local] Existing Instance scaledFloat.
#[local] Existing Instance merge_slice.
#[local] Existing Instance noJson.

(** A registry with a route of a method that OpenAPI has no field for. *)
Definition purgeMeta : EndpointMeta := mkMeta "purge" "x" "purge" "/v1/x" "" false None None None None.
Definition purgeRegistry : Registry := Add NewRegistry (mkGroup "x" [purgeMeta] []).
Definition docOptions : BuildOptions := mkBuildOptions (mkInfo "t" "" "v1") [] "" false.

Lemma selfcheck_exact_witness : SelfCheck (Build purgeRegistry docOptions) purgeRegistry <> None.
Proof.
  intros Hsc. destruct (selfcheck_exact purgeRegistry docOptions) as [[Hok _] _].
  - repeat constructor.
  - specialize (Hok Hsc). inversion Hok as [|? ? Hm _]. apply (bool_decide_eq_false_1 (_ ∈ httpMethods)) in Hm; done.
Defined.

Lemma documented_route_witness : exists op,
  docOp (buildOpenAPI "v1" zeroConfig (buildRegistry zeroConfig)) "GET" "/v1/fixed/{key}" = Some op /\
  op_OperationID op = "fixed" /\ map pa_Name (filter (fun p => pa_In p = "path") (op_Parameters op)) = ["key"].
Proof.
  destruct (documented_route "v1" zeroConfig fixedEntry fixedEntry_in) as (op & Hop & Hid & Hp & _).
  exists op. split_and!; [exact Hop|exact Hid|exact Hp].
Defined.

Lemma documented_route_op version : exists op,
  docOp (buildOpenAPI version zeroConfig (buildRegistry zeroConfig)) "GET" "/v1/fixed/{key}" = Some op.
Proof. destruct (route_op version zeroConfig _ (proj1 (All_flat zeroConfig _ fixedEntry_in))) as [o Ho]. eexists. exact Ho. Defined.

Lemma security_undeclared_witness :
  option_map op_Security (docOp (buildOpenAPI "v1" zeroConfig (buildRegistry zeroConfig)) "GET" "/v1/fixed/{key}") = Some [].
Proof.
  destruct (documented_route_op "v1") as [op Hop]. rewrite Hop. simpl. f_equal.
  apply (security_undeclared "v1" zeroConfig "GET" "/v1/fixed/{key}" op); [by repeat constructor|exact Hop].
Defined.
