(* ===== verification/OpenApiJson.v ===== *)
(** * The OpenAPI document as JSON ([pkg/oapi/doc.go], [RenderJSON])

    The trees [encoding/json] makes of the document's structs: fields in declaration order under
    their tags, [omitempty] fields left out when empty, map entries by key.  Fields the generator
    never sets are empty strings, nil or false under [omitempty] and never appear. *)
From S2P Require Import Pagination DataEndpoints FailureEndpoints InspectEndpoints SecurityEndpoints.
From S2P Require Import StreamEndpoints ExportEndpoints.
From S2P Require Import Prelude GoStrings GoNum GoTime GoUrl Json JsonParse JsonIndent Http ServeMux Registry AuditEvent.
From S2P Require Import MemoryLog Inbound Middleware Config Server Routing OpenApi Session.

(** ** Marshalling *)

Definition omit_list {A} (k : string) (f : list A -> json) (l : list A) : list (string * json) :=
  match l with [] => [] | _ => [(k, f l)] end.
Definition omit_opt {A} (k : string) (f : A -> json) (o : option A) : list (string * json) :=
  match o with Some x => [(k, f x)] | None => [] end.
Definition omit_map {A} (k : string) (f : A -> json) (m : gmap string A) : list (string * json) :=
  if bool_decide (m = ∅) then [] else [(k, json_of_map f m)].

Fixpoint json_schema (s : Schema) : json :=
  match s with
  | mkSchema ty fm props req items additional =>
    JObj (omit_str "type" ty ++ omit_str "format" fm
          ++ omit_list "properties" (fun fs => JObj (merge_sort key_le fs)) (map (fun p => (p.1, json_schema p.2)) props)
          ++ omit_list "required" json_strings req
          ++ (match items with Some i => [("items", json_schema i)] | None => [] end)
          ++ (match additional with Some a => [("additionalProperties", json_schema a)] | None => [] end))
  end.

Definition json_media (s : Schema) : json := JObj [("schema", json_schema s)].
Definition json_info (i : Info) : json :=
  JObj ([("title", JStr (in_Title i))] ++ omit_str "description" (in_Description i) ++ [("version", JStr (in_Version i))]).
Definition json_server (s : Server) : json := JObj ([("url", JStr (sr_URL s))] ++ omit_str "description" (sr_Description s)).
Definition json_tag (name : string) : json := JObj [("name", JStr name)].
Definition json_parameter (p : ParameterObject) : json :=
  JObj ([("name", JStr (pa_Name p)); ("in", JStr (pa_In p))] ++ omit_bool "required" (pa_Required p)
        ++ [("schema", json_schema (pa_Schema p))]).
Definition json_requestBody (b : RequestBody) : json :=
  JObj (omit_bool "required" (rb_Required b) ++ [("content", json_of_map json_media (rb_Content b))]).
Definition json_response (r : Response) : json :=
  JObj ([("description", JStr (rs_Description r))] ++ omit_map "content" json_media (rs_Content r)).
Definition json_requirement (m : gmap string (list string)) : json := json_of_map json_strings m.
Definition json_operation (op : Operation) : json :=
  JObj ([("operationId", JStr (op_OperationID op))] ++ omit_str "description" (op_Description op)
        ++ omit_list "tags" json_strings (op_Tags op)
        ++ omit_list "parameters" (fun l => JArr (map json_parameter l)) (op_Parameters op)
        ++ omit_opt "requestBody" json_requestBody (op_RequestBody op)
        ++ [("responses", json_of_map json_response (op_Responses op))]
        ++ omit_list "security" (fun l => JArr (map json_requirement l)) (op_Security op)).
Definition json_pathItem (p : PathItem) : json :=
  JObj (omit_opt "get" json_operation (p_Get p) ++ omit_opt "post" json_operation (p_Post p)
        ++ omit_opt "put" json_operation (p_Put p) ++ omit_opt "patch" json_operation (p_Patch p)
        ++ omit_opt "delete" json_operation (p_Delete p) ++ omit_opt "head" json_operation (p_Head p)
        ++ omit_opt "options" json_operation (p_Options p)).
Definition json_securityScheme (s : SecurityScheme) : json :=
  JObj ([("type", JStr (ssc_Type s))] ++ omit_str "in" (ssc_In s) ++ omit_str "name" (ssc_Name s)
        ++ omit_str "scheme" (ssc_Scheme s) ++ omit_str "description" (ssc_Description s)).
Definition json_components (m : gmap string SecurityScheme) : json := JObj (omit_map "securitySchemes" json_securityScheme m).
Definition json_document (d : Document) : json :=
  JObj ([("openapi", JStr (d_OpenAPI d)); ("info", json_info (d_Info d))]
        ++ omit_list "servers" (fun l => JArr (map json_server l)) (d_Servers d)
        ++ [("paths", json_of_map json_pathItem (d_Paths d))]
        ++ omit_opt "components" json_components (d_Components d)
        ++ omit_list "tags" (fun l => JArr (map json_tag l)) (d_Tags d)).

(** [RenderJSON]: marshalling these structs cannot fail. *)
Definition RenderJSON (doc : Document) : res string string := Ok (MarshalIndent (json_document doc)).

(** ** Reading a tree *)

Definition member (k : string) (j : json) : option json := match j with JObj fs => assoc k fs | _ => None end.
(** The value under a path of member names. *)
Fixpoint at_path (ks : list string) (j : json) : option json :=
  match ks with [] => Some j | k :: ks' => member k j ≫= at_path ks' end.

Lemma assoc_list_to_map {A} k (l : list (string * A)) : assoc k l = (list_to_map l : gmap string A) !! k.
Proof.
  induction l as [|[k' v] l IH]; cbn [assoc list_to_map foldr fst snd]; [by rewrite lookup_empty|].
  destruct (String.eqb_spec k' k) as [->|Hne]; [by rewrite lookup_insert_eq|by rewrite lookup_insert_ne].
Qed.
Lemma assoc_map {A B} (f : A -> B) k (l : list (string * A)) : assoc k (map (fun p => (p.1, f p.2)) l) = f <$> assoc k l.
Proof. induction l as [|[k' v] l IH]; cbn [assoc map fst snd]; [done|]. by destruct (String.eqb k' k). Qed.

(** A member of a marshalled map is the marshalled entry. *)
Lemma member_of_map {A} (f : A -> json) (m : gmap string A) k : member k (json_of_map f m) = f <$> m !! k.
Proof. unfold member, json_of_map. by rewrite assoc_map, assoc_list_to_map, sorted_entries_map. Qed.

Definition methodFields : list (string * string) :=
  [("GET", "get"); ("POST", "post"); ("PUT", "put"); ("PATCH", "patch"); ("DELETE", "delete"); ("HEAD", "head"); ("OPTIONS", "options")].

Lemma member_pathItem m field p : (m, field) ∈ methodFields -> member field (json_pathItem p) = json_operation <$> opAt m p.
Proof.
  unfold methodFields. rewrite !elem_of_cons, elem_of_nil. destruct p as [g po pu pa de he opt].
  intros Hm. destruct_or! Hm; try done; injection Hm as -> ->; unfold opAt, json_pathItem; cbn [p_Get p_Post p_Put p_Patch p_Delete p_Head p_Options];
    by destruct g, po, pu, pa, de, he, opt.
Qed.

(** The operation of a document, found in its tree. *)
Lemma document_operation doc m field path : (m, field) ∈ methodFields ->
  at_path ["paths"; path; field] (json_document doc) = json_operation <$> docOp doc m path.
Proof.
  intros Hm. assert (Hp : member "paths" (json_document doc) = Some (json_of_map json_pathItem (d_Paths doc))).
  { unfold json_document, member. by destruct (d_Servers doc). }
  unfold at_path, docOp. rewrite Hp. cbn [mbind option_bind]. rewrite member_of_map.
  destruct (d_Paths doc !! path) as [p|]; [|done]. cbn [fmap option_fmap option_map mbind option_bind].
  rewrite (member_pathItem m field p Hm). by destruct (opAt m p).
Qed.

(** ** Every text is UTF-8 *)

Definition wfFields (fs : list (string * json)) : bool := forallb (fun f => utf8_Valid f.1 && wfJson f.2) fs.

Lemma wfFields_app a b : wfFields (a ++ b) = wfFields a && wfFields b.
Proof. apply forallb_app. Qed.
Lemma wf_omit_str k s : utf8_Valid k = true -> utf8_Valid s = true -> wfFields (omit_str k s) = true.
Proof. intros Hk Hs. unfold omit_str. destruct (String.eqb s ""); [done|]. cbn [wfFields forallb fst snd wfJson]. by rewrite Hk, Hs. Qed.
Lemma wf_omit_bool k b : utf8_Valid k = true -> wfFields (omit_bool k b) = true.
Proof. intros Hk. destruct b; [|done]. cbn [omit_bool wfFields forallb fst snd wfJson]. by rewrite Hk. Qed.
Lemma wf_omit_list {A} k (f : list A -> json) l : utf8_Valid k = true -> wfJson (f l) = true -> wfFields (omit_list k f l) = true.
Proof. intros Hk Hf. destruct l; [done|]. cbn [omit_list wfFields forallb fst snd]. by rewrite Hk, Hf. Qed.
Lemma wf_omit_opt {A} k (f : A -> json) o : utf8_Valid k = true -> (forall x, o = Some x -> wfJson (f x) = true) ->
  wfFields (omit_opt k f o) = true.
Proof. intros Hk Hf. destruct o; [|done]. cbn [omit_opt wfFields forallb fst snd]. by rewrite Hk, Hf. Qed.
Lemma wf_of_map {A} (f : A -> json) (m : gmap string A) :
  map_Forall (fun k v => utf8_Valid k = true /\ wfJson (f v) = true) m -> wfJson (json_of_map f m) = true.
Proof.
  intros Hm. cbn [json_of_map wfJson]. rewrite forallb_forall. intros p Hp. apply list_elem_of_In, list_elem_of_fmap in Hp as ([k v] & -> & Hp).
  rewrite sorted_entries_perm in Hp. apply elem_of_map_to_list in Hp. cbn [fst snd]. by destruct (Hm k v Hp) as [-> ->].
Qed.
Lemma wf_omit_map {A} k (f : A -> json) (m : gmap string A) : utf8_Valid k = true ->
  map_Forall (fun k v => utf8_Valid k = true /\ wfJson (f v) = true) m -> wfFields (omit_map k f m) = true.
Proof. intros Hk Hm. unfold omit_map. case_bool_decide; [done|]. cbn [wfFields forallb fst snd]. by rewrite Hk, wf_of_map. Qed.
Lemma wf_arr {A} (f : A -> json) l : Forall (fun x => wfJson (f x) = true) l -> wfJson (JArr (map f l)) = true.
Proof. intros Hl. cbn [wfJson]. induction Hl as [|x l Hx Hl IH]; [done|]. cbn [map forallb]. by rewrite Hx. Qed.
Lemma wf_strings l : Forall (fun s => utf8_Valid s = true) l -> wfJson (json_strings l) = true.
Proof. intros Hl. by apply wf_arr. Qed.

(** Splits an object into its groups of fields and settles the optional texts and flags. *)
Ltac wf_obj := cbn [wfJson]; fold wfFields; change (forallb (fun f => utf8_Valid f.1 && wfJson f.2)) with wfFields;
  rewrite !wfFields_app; rewrite ?andb_true_iff; split_and!;
  try (first [apply wf_omit_str | apply wf_omit_bool]; first [assumption | reflexivity]).

Section Valid.
Context `{UnicodeTables} `{JsonAny} `{Float64} `{SortSlice}.

Definition typeOK (t : option gotype) : bool := match t with Some t => wfJson (json_schema (schemaFromType t)) | None => true end.
Definition fieldsOf (t : option gotype) : list (string * string * gotype) :=
  match t with Some t => match deref t with TStruct fs => fs | _ => [] end | None => [] end.
(** Metadata whose texts, field names and tags are UTF-8. *)
Definition metaOK (m : EndpointMeta) : bool :=
  forallb utf8_Valid ([m_Name m; m_Description m; m_Group m; m_Path m] ++ pathParams (m_Path m))
  && typeOK (m_ResponseBody m) && typeOK (m_RequestBody m)
  && forallb (fun p => wfJson (json_parameter p)) (omap queryParam (fieldsOf (m_QueryParams m)))
  && forallb (fun f => typeOK (Some f.2)) (fieldsOf (m_PathParams m)).

Lemma fullMetas_valid keys : forallb metaOK (fullMetas keys) = true.
Proof. by vm_compute. Qed.
Lemma All_valid cfg m : m ∈ All (buildRegistry cfg) -> metaOK m = true.
Proof.
  intros Hm. pose proof (fullMetas_valid (au_RedactKeys (cf_Audit cfg))) as Hall. rewrite forallb_forall in Hall.
  apply Hall, list_elem_of_In. eapply elem_of_submseteq; [exact Hm|]. apply sublist_submseteq, All_sublist.
Qed.

Lemma lookup_field_in fs target ft : lookup_field fs target = Some ft -> exists f, f ∈ fs /\ f.2 = ft.
Proof.
  induction fs as [|[[name tag] t] fs IH]; cbn [lookup_field]; [done|]. intros Hl.
  assert (Hrec : lookup_field fs target = Some ft -> exists f, f ∈ (name, tag, t) :: fs /\ f.2 = ft)
    by (intros Hr; destruct (IH Hr) as (f & Hf & E); exists f; split; [by right|done]).
  destruct (negb (IsExported name)); [by apply Hrec|]. destruct (parseJSONTag name tag) as [[w om]|]; [|by apply Hrec].
  destruct (_ || _); [|by apply Hrec]. injection Hl as <-. exists (name, tag, t). split; [by left|done].
Qed.
Lemma pathParamSchema_valid m name : metaOK m = true -> wfJson (json_schema (pathParamSchema name (m_PathParams m))) = true.
Proof.
  intros Hm. unfold metaOK in Hm. rewrite !andb_true_iff in Hm. destruct Hm as [_ Hp]. unfold pathParamSchema, fieldsOf in *.
  destruct (m_PathParams m) as [t|]; [|done]. unfold lookupFieldByJSONName. destruct (deref t); try done.
  destruct (lookup_field _ name) as [ft|] eqn:E; [|done]. apply lookup_field_in in E as (f & Hf & <-).
  rewrite forallb_forall in Hp. by apply Hp, list_elem_of_In.
Qed.

Lemma operation_valid m opts : metaOK m = true -> wfJson (json_operation (operationFor m opts)) = true.
Proof.
  intros Hm. pose proof (fun n => pathParamSchema_valid m n Hm) as Hpath. unfold metaOK in Hm. rewrite !andb_true_iff in Hm.
  destruct Hm as [[[[Htexts Hresp] Hreq] Hquery] _]. rewrite forallb_app in Htexts. apply andb_true_iff in Htexts as [Ht Hpp].
  cbn [forallb] in Ht. rewrite !andb_true_iff in Ht. destruct Ht as (Hn & Hd & Hg & _ & _).
  unfold json_operation, operationFor. cbn [op_OperationID op_Description op_Tags op_Parameters op_RequestBody op_Responses op_Security].
  wf_obj.
  - cbn [wfFields forallb fst snd wfJson]. by rewrite Hn.
  - apply wf_omit_list; [done|]. cbn [json_strings map wfJson forallb]. by rewrite Hg.
  - apply wf_omit_list; [done|]. apply wf_arr. unfold parametersFor. apply Forall_app. split.
    + apply Forall_fmap, Forall_forall. intros n Hin. rewrite forallb_forall in Hpp.
      change (wfJson (json_parameter (mkParameter n "path" true (pathParamSchema n (m_PathParams m)))) = true). unfold json_parameter.
      cbn [pa_Name pa_In pa_Required pa_Schema wfJson omit_bool app forallb fst snd].
      rewrite (Hpp n) by (by apply list_elem_of_In). by rewrite Hpath.
    + unfold fieldsOf in Hquery. destruct (m_QueryParams m) as [t|]; [|constructor]. destruct (deref t); try constructor.
      apply Forall_forall. intros p Hp. rewrite forallb_forall in Hquery. by apply Hquery, list_elem_of_In.
  - apply wf_omit_opt; [done|]. intros b Hb. unfold typeOK in Hreq. destruct (m_RequestBody m) as [t|]; [|done]. injection Hb as <-.
    unfold json_requestBody. wf_obj. cbn [wfFields forallb fst snd rb_Content]. rewrite wf_of_map; [done|].
    apply map_Forall_singleton. split; [done|]. cbn [json_media wfJson forallb fst snd]. by rewrite Hreq.
  - cbn [wfFields forallb fst snd]. rewrite wf_of_map; [done|]. apply map_Forall_singleton. split; [done|].
    unfold json_response. wf_obj; [done|]. apply wf_omit_map; [done|]. unfold typeOK in Hresp. cbn [rs_Content].
    destruct (m_ResponseBody m) as [t|]; [|apply map_Forall_empty]. apply map_Forall_singleton. split; [done|]. cbn [json_media wfJson forallb fst snd]. by rewrite Hresp.
  - apply wf_omit_list; [done|]. apply wf_arr. destruct (m_AuthRequired m); [|constructor]. unfold securityRequirement.
    apply Forall_app. split; [destruct (String.eqb _ _)|destruct (bo_BearerEnabled opts)]; repeat constructor.
Qed.

Lemma pathItem_valid p : (forall m op, m ∈ httpMethods -> opAt m p = Some op -> wfJson (json_operation op) = true) ->
  wfJson (json_pathItem p) = true.
Proof.
  intros Hp. unfold json_pathItem. wf_obj; (apply wf_omit_opt; [done|]); intros op Hop.
  - apply (Hp "GET"); [set_solver|done].
  - apply (Hp "POST"); [set_solver|done].
  - apply (Hp "PUT"); [set_solver|done].
  - apply (Hp "PATCH"); [set_solver|done].
  - apply (Hp "DELETE"); [set_solver|done].
  - apply (Hp "HEAD"); [set_solver|done].
  - apply (Hp "OPTIONS"); [set_solver|done].
Qed.

Lemma addRoutes_key opts rs : forall paths path p, foldl (addRoute opts) paths rs !! path = Some p ->
  is_Some (paths !! path) \/ exists r, r ∈ rs /\ m_Path r = path.
Proof.
  induction rs as [|r rs IH]; intros paths path p Hf; cbn [foldl] in Hf; [left; by eexists|].
  destruct (IH _ _ _ Hf) as [[p' Hp']|(r' & Hr' & E)]; [|right; exists r'; split; [by right|done]].
  unfold addRoute in Hp'. destruct (decide (m_Path r = path)) as [E|Hne]; [right; exists r; split; [by left|done]|].
  rewrite lookup_insert_ne in Hp' by done. left. by eexists.
Qed.

(** The paths of a document whose routes are valid. *)
Lemma paths_valid reg opts : Forall (fun m => metaOK m = true) (All reg) ->
  map_Forall (fun k p => utf8_Valid k = true /\ wfJson (json_pathItem p) = true) (d_Paths (Build reg opts)).
Proof.
  intros Hall path p Hp. rewrite Forall_forall in Hall. split.
  - pose proof Hp as Hk. cbn [d_Paths Build] in Hk. rewrite foldl_groups in Hk.
    apply addRoutes_key in Hk as [[x Hx]|(r & Hr & <-)]; [by rewrite lookup_empty in Hx|].
    specialize (Hall r Hr). unfold metaOK in Hall. rewrite forallb_app in Hall. cbn [forallb] in Hall. rewrite !andb_true_iff in Hall. tauto.
  - apply pathItem_valid. intros m op Hm Hop. pose proof (Build_op reg opts m path Hm) as Hb. unfold docOp in Hb.
    rewrite Hp in Hb. cbn [mbind option_bind] in Hb. rewrite Hop in Hb. destruct (lastRoute m path (All reg)) as [r|] eqn:El; [|done].
    injection Hb as ->. apply lastRoute_Some in El as [Hr _]. by apply operation_valid, Hall.
Qed.

Lemma tagsFor_in reg name : name ∈ tagsFor reg -> name ∈ map g_Name (Groups reg).
Proof.
  unfold tagsFor. rewrite sort_slice_perm. set (names := map g_Name (Groups reg)).
  assert (Hg : forall tags, name ∈ foldl (fun tags n => if existsb (String.eqb n) tags then tags else (tags ++ [n])%list) tags names ->
     name ∈ tags \/ name ∈ names); [|intros Hin; by destruct (Hg _ Hin) as [?%not_elem_of_nil|]].
  induction names as [|n names IH]; intros tags Hin; cbn [foldl] in Hin; [by left|].
  destruct (IH _ Hin) as [Hi|Hi]; [|right; by right]. destruct (existsb _ _); [by left|]. apply elem_of_app in Hi as [Hi|Hi]; [by left|]. right. apply list_elem_of_singleton in Hi as ->. by left.
Qed.
Lemma groupNames_valid cfg : Forall (fun s => utf8_Valid s = true) (map g_Name (Groups (buildRegistry cfg))).
Proof.
  apply Forall_forall. intros s Hs. assert (Hall : forallb utf8_Valid (map g_Name (allGroups (au_RedactKeys (cf_Audit cfg)))) = true) by done.
  rewrite forallb_forall in Hall. apply Hall, list_elem_of_In. eapply elem_of_submseteq; [exact Hs|].
  apply sublist_submseteq, sublist_map, buildRegistry_groups.
Qed.

(** The configured texts of a document are UTF-8. *)
Definition docTexts (version : string) (cfg : Config) : bool :=
  forallb utf8_Valid [version; sc_Name (cf_Server cfg); sc_Description (cf_Server cfg); sc_BaseURL (cf_Server cfg); kc_HeaderName (cf_APIKeys cfg)].

Lemma components_valid opts ms : utf8_Valid (bo_APIKeyHeader opts) = true -> componentsFor opts = Some ms -> wfJson (json_components ms) = true.
Proof.
  intros Hk. unfold componentsFor. case_bool_decide; [done|]. intros [= <-]. unfold json_components. cbn [wfJson].
  apply wf_omit_map; [done|].
  assert (Hapi : map_Forall (fun k v => utf8_Valid k = true /\ wfJson (json_securityScheme v) = true)
    (if String.eqb (bo_APIKeyHeader opts) "" then (∅ : gmap string SecurityScheme) else
       {["apiKey" := mkSecurityScheme "apiKey" "header" (bo_APIKeyHeader opts) "" "Inbound API key header. Configured by api_keys.header_name."]})).
  { destruct (String.eqb _ _); [apply map_Forall_empty|]. apply map_Forall_singleton. split; [done|]. unfold json_securityScheme. wf_obj. done. }
  destruct (bo_BearerEnabled opts); [|done]. by apply map_Forall_insert_2.
Qed.

Lemma document_valid version cfg : docTexts version cfg = true ->
  wfJson (json_document (buildOpenAPI version cfg (buildRegistry cfg))) = true.
Proof.
  unfold docTexts. cbn [forallb]. rewrite !andb_true_iff. intros (Hv & Hn & Hd & Hb & Hk & _).
  unfold json_document, buildOpenAPI. cbn [d_OpenAPI d_Info d_Servers d_Components d_Tags Build].
  set (opts := mkBuildOptions _ _ _ _). fold (Build (buildRegistry cfg) opts). wf_obj.
  - cbn [wfFields forallb fst snd]. unfold json_info. cbn [bo_Info opts in_Title in_Description in_Version].
    assert (wfJson (JObj ([("title", JStr (sc_Name (cf_Server cfg)))] ++ omit_str "description" (sc_Description (cf_Server cfg))
      ++ [("version", JStr version)])) = true) as ->; [|done].
    wf_obj; cbn [wfFields forallb fst snd wfJson]; rewrite ?Hn, ?Hv; done.
  - cbn [wfFields bo_Servers opts omit_list forallb map fst snd wfJson json_server sr_URL sr_Description omit_str app]. by rewrite Hb.
  - cbn [wfFields forallb fst snd]. rewrite wf_of_map; [done|]. apply paths_valid, Forall_forall. intros m Hm. by apply (All_valid cfg).
  - apply wf_omit_opt; [done|]. intros ms. by apply components_valid.
  - apply wf_omit_list; [done|]. apply wf_arr, Forall_forall. intros s Hs%tagsFor_in. pose proof (groupNames_valid cfg) as Hg.
    rewrite Forall_forall in Hg. cbn [json_tag wfJson forallb fst snd]. by rewrite (Hg s Hs).
Qed.

(** What the served text says: the decoder reads it, and under [paths] it has exactly the operations
    of the registry's routes. *)
Lemma rendered_document version cfg : docTexts version cfg = true ->
  exists text j, RenderJSON (buildOpenAPI version cfg (buildRegistry cfg)) = Ok text /\ Unmarshal text = Some j /\
    forall m field path, (m, field) ∈ methodFields ->
      at_path ["paths"; path; field] j = json_operation <$> docOp (buildOpenAPI version cfg (buildRegistry cfg)) m path.
Proof.
  intros Hv. eexists _, _. split; [reflexivity|]. split; [by apply Unmarshal_MarshalIndent, document_valid|].
  intros m field path Hm. by apply document_operation.
Qed.
End Valid.
