(* ===== verification/Conformance.v ===== *)
(** * The documented response schemas and the responses

    [conforms] is validation of a JSON value against the schemas the OpenAPI generator emits (the
    keywords [type], [properties], [required], [items] and [additionalProperties] of JSON Schema).
    The theorem compares what the document says of each route with what its handler sends. *)
From S2P Require Import Pagination DataEndpoints FailureEndpoints InspectEndpoints SecurityEndpoints.
From S2P Require Import StreamEndpoints ExportEndpoints.
From S2P Require Import Prelude GoStrings GoNum GoTime GoUrl Json Http ServeMux Registry AuditEvent.
From S2P Require Import MemoryLog Inbound Middleware Config Server Routing OpenApi.

(** ** Validation *)

Definition isIntText (t : string) : bool :=
  let digits := match t with String "-" d => d | _ => t end in
  negb (String.eqb digits "") && string_forallb isDigit digits.

Definition typeIs (s : Schema) (t : string) : bool := String.eqb (s_Type s) "" || String.eqb (s_Type s) t.

Fixpoint conforms (s : Schema) (j : json) {struct j} : bool :=
  match j with
  | JNull => String.eqb (s_Type s) ""
  | JBool _ => typeIs s "boolean"
  | JNum x => typeIs s "number" || (typeIs s "integer" && isIntText x)
  | JStr _ => typeIs s "string"
  | JArr l =>
    typeIs s "array"
    && match s_Items s with
       | None => true
       | Some si => (fix all (l : list json) : bool := match l with [] => true | x :: l' => conforms si x && all l' end) l
       end
  | JObj fs =>
    typeIs s "object"
    && forallb (fun k => existsb (fun f => String.eqb f.1 k) fs) (s_Required s)
    && (fix all (fs : list (string * json)) : bool :=
          match fs with
          | [] => true
          | (k, x) :: fs' =>
            match assoc k (s_Properties s) with
            | Some sp => conforms sp x
            | None => match s_Additional s with Some sa => conforms sa x | None => true end
            end && all fs'
          end) fs
  end.

Lemma conforms_arr s l : conforms s (JArr l) =
  typeIs s "array" && match s_Items s with None => true | Some si => forallb (conforms si) l end.
Proof. reflexivity. Qed.

(** The schema of a member, and whether a member conforms. *)
Definition member (s : Schema) (f : string * json) : bool :=
  match assoc f.1 (s_Properties s) with
  | Some sp => conforms sp f.2
  | None => match s_Additional s with Some sa => conforms sa f.2 | None => true end
  end.
Definition hasField (fs : list (string * json)) (k : string) : bool := existsb (fun f => String.eqb f.1 k) fs.

Lemma conforms_obj s fs : conforms s (JObj fs) =
  typeIs s "object" && forallb (hasField fs) (s_Required s) && forallb (member s) fs.
Proof. cbn [conforms]. f_equal. induction fs as [|[k x] fs IH]; [done|]. cbn [forallb]. by rewrite IH. Qed.

Lemma isIntText_Itoa n : isIntText (Itoa n) = true.
Proof.
  unfold Itoa. destruct (Z.ltb_spec n 0) as [Hn|Hn].
  - unfold isIntText. cbn [String.append]. apply andb_true_iff. split; [|by apply udec_digits; lia].
    apply negb_true_iff, String.eqb_neq, udec_nonempty.
  - pose proof (udec_digits n Hn) as Hd. pose proof (udec_nonempty n) as Hne. unfold isIntText.
    destruct (udec n) as [|c s] eqn:E; [done|]. assert (c <> "-"%char) by (intros ->; done).
    destruct c as [[] [] [] [] [] [] [] []]; try done; rewrite Hd; done.
Qed.

Lemma conforms_int n : conforms (typed "integer") (JInt n) = true.
Proof. unfold JInt. cbn [conforms]. rewrite isIntText_Itoa. done. Qed.

Lemma conforms_any j : conforms anySchema j = true.
Proof.
  destruct j as [ |b|x|s|l|fs]; try done. rewrite conforms_obj. simpl. clear. induction fs as [|f fs IH]; [done|]. apply IH.
Qed.

Lemma conforms_strings l : conforms (schemaFromType (TSlice TString)) (json_strings l) = true.
Proof. unfold json_strings. rewrite conforms_arr. simpl. by induction l. Qed.

Lemma conforms_map {A} (f : A -> json) (sa : Schema) (m : gmap string A) :
  (forall v, conforms sa (f v) = true) -> conforms (mkSchema "object" "" [] [] None (Some sa)) (json_of_map f m) = true.
Proof.
  intros Hf. unfold json_of_map. rewrite conforms_obj. simpl. apply forallb_forall. intros [k x] Hin.
  apply in_map_iff in Hin as ([k' v] & [= <- <-] & _). apply Hf.
Qed.

(** ** Replies *)

Definition headerOp (o : wop) : bool := match o with HSet _ _ | HAdd _ _ => true | _ => false end.

Lemma headers_exec hs w : forallb headerOp hs = true -> c_wroteHeader (exec hs w) = c_wroteHeader w /\ c_body (exec hs w) = c_body w.
Proof.
  revert w. induction hs as [|o hs IH]; intros w Hh; [done|]. simpl in Hh. apply andb_true_iff in Hh as [Ho Hh].
  change (exec (o :: hs) w) with (exec hs (exec1 o w)). destruct (IH (exec1 o w) Hh) as [-> ->]. by destruct o.
Qed.

Lemma writeJSON_body s j w : c_wroteHeader w = false -> c_body w = "" ->
  c_body (exec (writeJSON s j) w) = "" \/ c_body (exec (writeJSON s j) w) = Encode j.
Proof.
  intros Hw Hb. unfold exec, writeJSON. simpl. unfold conn_WriteHeader. simpl. rewrite Hw.
  destruct (informational s); simpl; unfold conn_Write; simpl; rewrite ?Hw; simpl.
  - right. unfold conn_WriteHeader. simpl. by rewrite Hb.
  - destruct (bodyAllowed s); simpl; rewrite Hb; auto.
Qed.

Lemma writeJSON_status s j w : c_wroteHeader w = false -> informational s = false ->
  finalStatus (exec (writeJSON s j) w) = s.
Proof.
  intros Hw Hs. unfold exec, writeJSON, finalStatus. simpl. unfold conn_WriteHeader. simpl. rewrite Hw, Hs. simpl.
  unfold conn_Write. simpl. by destruct (bodyAllowed s).
Qed.

(** What a handler sends with status 200, if it sends a body, is a JSON text of the given type. *)
Definition documents (t : gotype) (ops : list wop) : Prop :=
  let w := exec ops newConn in
  finalStatus w = 200 -> c_body w <> "" ->
  exists j, (c_body w = Encode j \/ c_body w = json_text j) /\ conforms (schemaFromType t) j = true.

Lemma documents_json t hs s j : forallb headerOp hs = true -> conforms (schemaFromType t) j = true ->
  documents t (hs ++ writeJSON s j)%list.
Proof.
  intros Hh Hc _ Hb. exists j. split; [|done]. left. rewrite exec_app in *.
  destruct (headers_exec hs newConn Hh) as [H1 H2]. by destruct (writeJSON_body s j (exec hs newConn) H1 H2).
Qed.
Lemma documents_writeJSON t s j : conforms (schemaFromType t) j = true -> documents t (writeJSON s j).
Proof. apply (documents_json t []). done. Qed.

Lemma documents_error t s j : informational s = false -> s <> 200 -> documents t (writeJSON s j).
Proof. intros Hi Hs Hw _. by rewrite writeJSON_status in Hw. Qed.

Create HintDb conforms.
#[export] Hint Resolve conforms_int conforms_any conforms_strings conforms_map documents_writeJSON : conforms.
#[export] Hint Extern 1 (documents _ (writeJSONError _ _)) => apply documents_error; done : conforms.
#[export] Hint Extern 1 (documents _ (writeBadRequest _)) => apply documents_error; done : conforms.

(** Check an object against the schema of a struct type, member by member. *)
#[local] Arguments conforms : simpl never.
Ltac conform_leaf := first [reflexivity | apply conforms_int | apply conforms_any | apply conforms_strings
  | apply conforms_map; intros; conform_leaf | assumption].
Ltac conform_obj := rewrite conforms_obj; unfold member, hasField; simpl; rewrite ?andb_true_iff; repeat split; try conform_leaf.

(** ** The handlers *)

Section Handlers.
Context `{UnicodeTables} `{JsonAny} `{Float64}.

Lemma conforms_items l : conforms (schemaFromType (TSlice ItemT)) (json_items (Some l)) = true.
Proof.
  cbn [json_items]. rewrite conforms_arr. simpl. induction l as [|i l IH]; [done|]. cbn [map forallb].
  rewrite IH, andb_true_r. unfold json_item. conform_obj.
Qed.

Lemma sliceItems_Some start n total : start < total -> exists l, sliceItems start n total = Some l.
Proof. intros Hs. unfold sliceItems. destruct (Z.leb_spec total start); [lia|]. by eexists. Qed.

Lemma doc_link r : documents LinkResponseT (link r).
Proof.
  unfold link. destruct (link_result r) as [[hdr resp]|] eqn:E; [|auto with conforms].
  destruct (link_accepted r hdr resp E) as (_ & _ & _ & _ & Hi).
  apply (documents_json _ [HSet "Link" hdr]); [done|]. unfold json_link. rewrite Hi. conform_obj. by apply conforms_items.
Qed.

Lemma doc_odata r : documents ODataResponseT (odata r).
Proof.
  unfold odata. destruct (odata_result r) as [resp|] eqn:E; [|auto with conforms].
  assert (Hi : exists l, o_Value resp = Some l).
  { unfold odata_result in E. destruct (Pagination.boundedDefault _ _ _ "$top") as [top|]; [|done].
    cbn [mbind res_bind] in E. destruct (nonNegativeDefault _ 0) as [skip|]; [|done].
    destruct (Pagination.boundedDefault _ _ _ "total") as [total|]; [|done]. cbn [mbind res_bind] in E.
    destruct (Z.leb_spec total skip); [done|]. injection E as <-. cbn [o_Value]. by apply sliceItems_Some. }
  destruct Hi as [l Hi]. apply documents_writeJSON. unfold json_odata, omit_str. rewrite Hi.
  destruct (String.eqb (o_NextLink resp) ""); conform_obj; by apply conforms_items.
Qed.

Lemma doc_cursor r : documents CursorResponseT (cursor r).
Proof.
  unfold cursor. destruct (cursor_result r) as [resp|] eqn:E; [|auto with conforms].
  assert (Hi : exists l, c_Items resp = Some l).
  { unfold cursor_result in E. destruct (Pagination.boundedDefault _ _ _ "limit") as [limit|]; [|done].
    destruct (Pagination.boundedDefault _ _ _ "total") as [total|]; [|done]. cbn [mbind res_bind] in E.
    destruct (if String.eqb _ _ then _ else _) as [offset|]; [|done]. cbn [mbind res_bind] in E.
    destruct (Z.leb_spec total offset); [done|]. injection E as <-. cbn [c_Items]. by apply sliceItems_Some. }
  destruct Hi as [l Hi]. apply documents_writeJSON. unfold json_cursor, omit_str. rewrite Hi.
  destruct (String.eqb (c_NextCursor resp) ""); conform_obj; by apply conforms_items.
Qed.

Lemma doc_sized r : documents SizedResponse (sized r).
Proof.
  unfold sized. destruct (Atoi (q_Get r "bytes")) as [n err].
  destruct (bool_decide (err <> None) || (n <? 0)) eqn:E; [auto with conforms|].
  destruct (sizedMax <? n); [auto with conforms|]. apply orb_false_iff in E as [_ Hn%Z.ltb_ge].
  intros _ _. exists (sizedReference n). split.
  - right. rewrite exec_app. set (w := exec [_; _; _] newConn).
    destruct (conn_exec_committed ((if 0 <? n then sized_loop (Z.to_nat n) 0 n else []) ++ [Write (dquote ++ "}")])%list w)
      as (_ & _ & ->); [done|done|]. rewrite ops_bytes_app.
    change (ops_bytes [Write (dquote ++ "}")]) with ((dquote ++ "}") ++ ""). rewrite sapp_nil_r.
    change (c_body w) with (sizedPreamble n). by apply sized_ops_bytes.
  - unfold sizedReference. conform_obj.
Qed.

Lemma doc_lorem env r : documents LoremResponse (lorem env r).
Proof.
  unfold lorem. destruct (loremMaxWords <? _); [auto with conforms|]. apply documents_writeJSON. conform_obj.
Qed.

Lemma doc_status r : documents StatusResponse (status r).
Proof.
  unfold status. destruct (Atoi (PathValue r "code")) as [code err]. destruct (_ || _); [auto with conforms|].
  apply documents_writeJSON. conform_obj.
Qed.

Lemma doc_slow env r : documents SlowResponse (slow env r).
Proof.
  unfold slow. destruct (slowMaxMS <? _); [auto with conforms|].
  destruct (env_cancelled env 0); apply documents_writeJSON; unfold json_slow, omit_bool; conform_obj.
Qed.

Lemma doc_flaky env r : documents FlakyResponse (flaky env r).
Proof.
  assert (Hopt : forall s b x y, documents FlakyResponse (writeJSON_opt s (json_flaky b x y))).
  { intros s b x y. unfold writeJSON_opt, json_flaky. destruct (jsonFloat x) as [tx|], (jsonFloat y) as [ty|];
      [by apply documents_writeJSON| |..]; intros _ Hb; exfalso; apply Hb; unfold exec; simpl; unfold conn_WriteHeader; simpl;
      by destruct (informational s). }
  unfold flaky. destruct (fltb _ _); apply Hopt.
Qed.

Lemma doc_echo keys r : documents Echo.Response (Echo.handle keys r).
Proof.
  unfold Echo.handle. destruct (if 0 <? len _ then _ else _) as [body rawText].
  destruct (String.eqb (r_Method r) "HEAD"); [intros _ Hb; by exfalso|]. apply documents_writeJSON.
  unfold omit_map, omit_any, omit_str.
  destruct (bool_decide (r_Query r = ∅)), body as [[]|], (String.eqb rawText ""); conform_obj.
Qed.

Lemma doc_whoami r : documents IdentityGroup.WhoamiResponse (IdentityGroup.whoami r).
Proof.
  assert (Hid : forall id, conforms (schemaFromType IdentityGroup.WhoamiResponse) (IdentityGroup.json_whoami id) = true).
  { intros id. unfold IdentityGroup.json_whoami, omit_str.
    destruct (String.eqb (id_Email id) ""), (String.eqb (id_KeyName id) ""), (id_Scopes id), (bool_decide (id_Claims id = ∅));
      conform_obj. }
  unfold IdentityGroup.whoami. destruct (FromContext _); apply documents_writeJSON, Hid.
Qed.

Lemma doc_headers keys r : documents IdentityGroup.HeadersResponse (IdentityGroup.headers keys r).
Proof. apply documents_writeJSON. conform_obj. Qed.

Lemma doc_methods r : documents Methods.Response (Methods.handle r).
Proof.
  unfold Methods.handle. destruct (String.eqb (r_Method r) "HEAD").
  - intros _ Hb. exfalso. apply Hb. by destruct (String.eqb (r_Method r) "OPTIONS").
  - set (j := JObj _). assert (Hj : conforms (schemaFromType Methods.Response) j = true).
    { unfold j, omit_map. destruct (bool_decide (r_Query r = ∅)); conform_obj. }
    intros _ Hb. exists j. split; [|done]. left. by destruct (String.eqb (r_Method r) "OPTIONS").
Qed.

Lemma doc_bigHeaders r : documents BigHeadersResponse (bigHeaders r).
Proof.
  unfold bigHeaders. set (names := map probeName _). generalize (foldl (fun acc name => acc + (len name + len probeValue + 4)) 0 names).
  generalize (Z.of_nat bigHeaderCount). intros n k. apply documents_json; [|conform_obj].
  induction names as [|x l IH]; [done|exact IH].
Qed.

Lemma doc_security r :
  documents AdminResponse (admin r) /\ documents FetchResponse (fetch r) /\ documents BigHeadersResponse (bigHeaders r) /\
  documents RedirectResponse (redirectTo r) /\ documents ControlCharsResponse (controlChars r).
Proof.
  split_and!.
  - apply documents_writeJSON. conform_obj.
  - unfold fetch. destruct (String.eqb _ ""); [auto with conforms|]. apply documents_writeJSON. conform_obj.
  - apply doc_bigHeaders.
  - unfold redirectTo. destruct (String.eqb _ ""); [auto with conforms|].
    apply (documents_json _ [HSet "X-Would-Redirect-To" _]); [done|]. conform_obj.
  - apply documents_writeJSON. conform_obj.
Qed.

Lemma doc_fixed r : documents FixedResponse (fixed r).
Proof. unfold fixed. apply documents_writeJSON. conform_obj. Qed.

(** A route and what is mounted for it. *)
Definition documented (env : Env) (flusher : bool) (r : Request) (m : EndpointMeta) (ph : string * EHandler) : Prop :=
  ph.1 = patternText m /\ exists t, m_ResponseBody m = Some t /\ documents t (ph.2 env flusher r).1.

Lemma documented_intro env f r m p h t : p = patternText m -> m_ResponseBody m = Some t -> documents t (h env f r).1 ->
  documented env f r m (p, h).
Proof. intros Hp Ht Hd. split; [done|]. by exists t. Qed.

Ltac doc_routes :=
  repeat (apply List.Forall2_cons; [eapply documented_intro; [reflexivity|reflexivity|cbv beta]|]); [..|constructor].

Lemma groups_documented keys env f r :
  Forall (fun g => g_Name g ∈ ["streaming"; "export"] \/
    (NoDup (map fst (g_Mount g)) /\ Forall2 (documented env f r) (g_Routes g) (g_Mount g))) (allGroups keys).
Proof.
  destruct (doc_security r) as (S1 & S2 & S3 & S4 & S5).
  assert (Hnd : forall l : list string, bool_decide (NoDup l) = true -> NoDup l) by (intros l; apply bool_decide_eq_true_1).
  unfold allGroups. repeat apply List.Forall_cons; [..|constructor];
    try (left; apply (bool_decide_eq_true_1 (_ ∈ _)); by vm_compute); right; (split; [apply Hnd; by vm_compute|]).
  - doc_routes; [apply doc_whoami|apply doc_headers].
  - doc_routes; [apply doc_fixed|apply doc_sized|apply doc_lorem].
  - doc_routes; [apply doc_status|apply doc_slow|apply doc_flaky].
  - doc_routes; apply doc_echo.
  - doc_routes; [apply doc_link|apply doc_odata|apply doc_cursor].
  - doc_routes; apply doc_methods.
  - doc_routes; done.
Qed.

(** The handler mounted under a route's pattern is the one paired with the route. *)
Lemma documented_pick env f r ms phs m h : NoDup (map fst phs) -> Forall2 (documented env f r) ms phs ->
  m ∈ ms -> (patternText m, h) ∈ phs -> exists t, m_ResponseBody m = Some t /\ documents t (h env f r).1.
Proof.
  intros Hnd Hf Hm Hh. apply list_elem_of_lookup in Hm as [i Hi], Hh as [j Hj].
  destruct (Forall2_lookup_l _ _ _ _ _ Hf Hi) as ([p h'] & Hi' & Hp & t & Ht & Hd). simpl in Hp. subst p.
  assert (i = j) as ->.
  { apply (NoDup_lookup (map fst phs) i j (patternText m) Hnd); rewrite list_lookup_fmap;
      [exact (f_equal (fmap fst) Hi')|exact (f_equal (fmap fst) Hj)]. }
  assert (E : Some (patternText m, h') = Some (patternText m, h)) by exact (eq_trans (eq_sym Hi') Hj).
  injection E as <-. by exists t.
Qed.

End Handlers.

(** ** The theorem *)

Section Responses.
Context `{UnicodeTables} `{JsonAny} `{Float64} `{SortSlice}.

(** C37: responses have the documented type.  For any configuration, any route of a group other than
    streaming and export, and any request, environment and cancellation: if the handler mounted for
    the route answers 200 with a body, the body is the text of a JSON value that conforms to the
    response schema the OpenAPI document publishes for that route. *)
Theorem responses_conform (version : string) (cfg : Config) (g : Endpoints) (m : EndpointMeta) (h : EHandler)
  (env : Env) (flusher : bool) (r : Request)
  (Hg : g ∈ rg_groups (buildRegistry cfg)) (Hname : g_Name g ∉ ["streaming"; "export"])
  (Hm : m ∈ g_Routes g) (Hh : (patternText m, h) ∈ g_Mount g)
  (Hok : finalStatus (exec (h env flusher r).1 newConn) = 200) (Hbody : c_body (exec (h env flusher r).1 newConn) <> "") :
  exists op rs sch j,
    docOp (buildOpenAPI version cfg (buildRegistry cfg)) (m_Method m) (m_Path m) = Some op /\
    op_Responses op !! "200" = Some rs /\ rs_Content rs !! "application/json" = Some sch /\
    (c_body (exec (h env flusher r).1 newConn) = Encode j \/ c_body (exec (h env flusher r).1 newConn) = json_text j) /\
    conforms sch j = true.
Proof.
  pose proof (groups_documented (au_RedactKeys (cf_Audit cfg)) env flusher r) as Hall. rewrite Forall_forall in Hall.
  destruct (Hall g (elem_of_submseteq _ _ _ Hg (sublist_submseteq _ _ (buildRegistry_groups cfg)))) as [?|[Hnd Hf]]; [done|].
  destruct (documented_pick env flusher r _ _ m h Hnd Hf Hm Hh) as (t & Ht & Hd).
  destruct (Hd Hok Hbody) as (j & Hj & Hc).
  destruct (route_documented version cfg g m Hg Hm) as (op & Hop & Hrs).
  rewrite Ht in Hrs. destruct Hrs as (rs & Hrs & Hsch). by exists op, rs, (schemaFromType t), j.
Qed.

End Responses.

(** ** Witness *)

#[local] Existing Instance ascii_tables.
#[local] Existing Instance scaledFloat.
#[local] Existing Instance merge_slice.
#[local] Existing Instance noJson.

Definition wholeConfig : Config := applyDefaults zeroConfig.
Definition helloRequest : Request :=
  mkRequest "GET" "/v1/fixed/hello" "/v1/fixed/hello" "" ∅ "h" false "10.0.0.1:5" None {["key" := "hello"]} [] Background.
Definition fixedMeta : EndpointMeta := mkMeta "" "" "" "" "" false None None None None.
Definition fixedHandlerOf : EHandler := (nth 0 DataEndpoints.Mount ("", fun _ _ _ => ([], ""))).2.

Lemma responses_conform_witness : exists op rs sch j,
  docOp (buildOpenAPI "v1" wholeConfig (buildRegistry wholeConfig)) "GET" "/v1/fixed/{key}" = Some op /\
  op_Responses op !! "200" = Some rs /\ rs_Content rs !! "application/json" = Some sch /\
  (c_body (exec (fixed helloRequest) newConn) = Encode j \/ c_body (exec (fixed helloRequest) newConn) = json_text j) /\
  conforms sch j = true.
Proof.
  apply (responses_conform "v1" wholeConfig DataEndpoints.Group (nth 0 DataEndpoints.Routes fixedMeta) fixedHandlerOf
           DataEndpoints.sampleEnv true helloRequest).
  - apply list_elem_of_lookup. by exists 1%nat.
  - apply (bool_decide_eq_true_1 (_ ∉ _)). by vm_compute.
  - apply list_elem_of_lookup. by exists 0%nat.
  - apply list_elem_of_lookup. by exists 0%nat.
  - by vm_compute.
  - intros E. apply (f_equal len) in E. by vm_compute in E.
Defined.
