(* ===== verification/EndToEnd.v ===== *)
(** * One request through the whole server

    What the client, the access log and the audit log see of the same request, through the full
    stack [RequestID (AccessLog (CORS (mux (Identity (Audit handler)))))]. *)
From S2P Require Import Pagination DataEndpoints FailureEndpoints InspectEndpoints SecurityEndpoints.
From S2P Require Import StreamEndpoints ExportEndpoints.
From S2P Require Import Prelude GoStrings GoNum GoTime GoUrl Json Http ServeMux Registry AuditEvent.
From S2P Require Import MemoryLog Inbound Middleware Config Server Routing Handlers.

(** ** Headers a handler leaves alone *)

(** The value is in the handler's map and, once committed, in what was sent. *)
Definition carries (k v : string) (c : conn) : Prop :=
  Header_Get (c_header c) k = v /\ (c_wroteHeader c = true -> Header_Get (c_sent c) k = v).

Lemma Header_Get_Add_ne h k k' v :
  CanonicalHeaderKey k <> CanonicalHeaderKey k' -> Header_Get (Header_Add h k v) k' = Header_Get h k'.
Proof.
  intros Hne. unfold Header_Get, Header_Add, Values_Get, Values_add. by rewrite lookup_insert_ne.
Qed.

Lemma carries_exec1 k v o c : carries k v c -> keepsHeader k o = true -> carries k v (exec1 o c).
Proof.
  intros [Hh Hs] Hk. unfold carries.
  assert (Hwh : forall code, carries k v (conn_WriteHeader code c)).
  { intros code. unfold carries, conn_WriteHeader. destruct (c_wroteHeader c); [by auto|].
    destruct (informational code); simpl; done. }
  assert (Hcommit : carries k v (if c_wroteHeader c then c else conn_WriteHeader 200 c)).
  { destruct (c_wroteHeader c) eqn:E; [split; [done|by rewrite E]|apply Hwh]. }
  destruct o as [k' v'|k' v'|code|b|]; simpl in *.
  - apply negb_true_iff, String.eqb_neq in Hk. rewrite Header_Get_Set_ne by done. done.
  - apply negb_true_iff, String.eqb_neq in Hk. rewrite Header_Get_Add_ne by done. done.
  - apply Hwh.
  - unfold conn_Write. by destruct (bodyAllowed _).
  - unfold conn_Flush. done.
Qed.

Lemma carries_exec k v ops c : carries k v c -> forallb (keepsHeader k) ops = true -> carries k v (exec ops c).
Proof.
  revert c. induction ops as [|o ops IH]; intros c Hc Hk; [done|]. simpl in Hk.
  apply andb_true_iff in Hk as [Ho Hk]. change (exec (o :: ops) c) with (exec ops (exec1 o c)).
  apply IH; [|done]. by apply carries_exec1.
Qed.

Section EndToEnd.
Context `{UnicodeTables} `{JsonAny} `{Float64} {L : Type} `{!Logger L}.
Abbreviation State := (ServerState L).

Lemma logEvent_rest env ev (s : State) :
  sv_access (logEvent env ev s) = sv_access s /\ sv_holder (logEvent env ev s) = sv_holder s /\
  sv_audit (logEvent env ev s) =
    match lg_Log (env_eventID env) ev (sv_audit s) with Ok l => l | Err _ => sv_audit s end.
Proof. unfold logEvent. by destruct (lg_Log _ _ _). Qed.

(** The request id the server works with, and the request as the handler meets it. *)
Definition requestID (env : Env) (r : Request) : string :=
  if String.eqb (h_Get r HeaderRequestID) "" then env_uuid env else h_Get r HeaderRequestID.
Definition routedRequest (env : Env) (r : Request) (binds : gmap string string) : Request :=
  WithPathValues (WithContext r (mkContext None (requestID env r) true (ctx_Portal (r_Context r)))) binds.
Definition servedRequest (env : Env) (r : Request) (binds : gmap string string) (id : Identity) : Request :=
  let r' := routedRequest env r binds in WithContext r' (WithIdentity (r_Context r') id).

(** Headers set before the handler runs. *)
Definition outerOps (id : string) : list wop := HSet HeaderRequestID id :: corsHeaders.

Lemma outer_carries id : carries HeaderRequestID id (exec (outerOps id) newConn).
Proof.
  change (exec (outerOps id) newConn) with (exec corsHeaders (exec1 (HSet HeaderRequestID id) newConn)).
  apply carries_exec; [|done]. split; [apply Header_Get_Set|done].
Qed.

(** Does a preflight answer with these headers let a browser send header [k]? *)
Definition preflightAllows (sent : Header) (k : string) : bool :=
  existsb (fun h => String.eqb (CanonicalHeaderKey h) (CanonicalHeaderKey k))
    (map TrimSpace (Split (Header_Get sent "Access-Control-Allow-Headers") ",")).

(** The state in which the handler of an authenticated request runs. *)
Definition identified (chain : Chain) (env : Env) (r : Request) (binds : gmap string string) (id : Identity) (s : State) : State :=
  setHolder (Some id) (touchKeys (Chain_touches chain (routedRequest env r binds)) s).

(** A routed, authenticated request runs the audited handler between the two outer layers. *)
Lemma application_serves cfg chain portal oapi env r pat binds h id (s : State) :
  r_Method r <> "OPTIONS" -> r_Path r <> "/" -> ctx_Identity (r_Context r) = None ->
  dispatch (muxRoutes (buildRegistry cfg) (endpointMW chain (buildRegistry cfg) (auditOptions cfg)) portal oapi)
    (r_Method r) (r_EscapedPath r) = Found pat binds (endpointMW chain (buildRegistry cfg) (auditOptions cfg) h) ->
  Chain_Authenticate chain (routedRequest env r binds) = Ok id ->
  exists w : statusRecorder conn, good w /\ fresh (view w) /\ view w = exec (outerOps (requestID env r)) newConn /\
  Application_mux cfg chain portal oapi conn _ env r (s, newConn) =
  (let '(s', rec) := Audit (Some (buildRegistry cfg)) (auditOptions cfg) (serve h) (statusRecorder conn) _ env
                       (servedRequest env r binds id) (identified chain env r binds id s, w) in
   (addAccess (mkAccessLine (r_Method r) (r_Path r) (sr_status rec) (sr_bytes rec)
                 (Milliseconds (Sub (env_end env) (env_start env))) (requestID env r)
                 ((fun id => (id_AuthType id, id_Subject id)) <$> sv_holder s')) s', sr_inner rec)).
Proof.
  intros Hm Hpath Hctx Hroute Hauth.
  set (w0 := exec [HSet HeaderRequestID (requestID env r)] newConn).
  destruct (exec_view corsHeaders (newStatusRecorder w0)) as [Hv Hg].
  { by apply newStatusRecorder_good. }
  { done. }
  exists (exec corsHeaders (newStatusRecorder w0)). split; [done|]. split; [by rewrite Hv|]. split; [by rewrite Hv|].
  assert (Hmo : String.eqb (r_Method r) "OPTIONS" = false) by (by apply String.eqb_neq).
  assert (Hpa : String.eqb (r_Path r) "/" = false) by (by apply String.eqb_neq).
  unfold Application_mux, RequestID, AccessLog, BuildMux, CORS. cbn [fst snd r_Method r_Path WithContext r_Context].
  rewrite Hmo, Hctx. fold (requestID env r).
  change (rw_setHeader (Header_Set (rw_Header newConn) HeaderRequestID (requestID env r)) newConn) with w0.
  set (wc := exec corsHeaders (newStatusRecorder w0)).
  assert (Hmux : forall st, ServeMux_ServeHTTP (muxRoutes (buildRegistry cfg)
      (endpointMW chain (buildRegistry cfg) (auditOptions cfg)) portal oapi) (statusRecorder conn) _ env
      (WithContext r (mkContext None (requestID env r) true (ctx_Portal (r_Context r)))) (st, wc) =
    Audit (Some (buildRegistry cfg)) (auditOptions cfg) (serve h) (statusRecorder conn) _ env
      (servedRequest env r binds id) (identified chain env r binds id st, wc)).
  { intros st. unfold ServeMux_ServeHTTP. cbn [r_Method r_EscapedPath WithContext]. rewrite Hroute.
    unfold endpointMW, IdentityMW. cbn [FromContext r_Context WithPathValues WithContext ctx_Identity fst snd].
    change (WithPathValues _ binds) with (routedRequest env r binds). by rewrite Hauth. }
  destruct portal as [p|].
  - unfold BrowserRedirect, isBrowserRoot. cbn [r_Method r_Path WithContext fst snd].
    rewrite Hpa, orb_true_r. rewrite Hmux. done.
  - rewrite Hmux. done.
Qed.

(** The records of a request that meets a given handler. *)
Lemma trace_consistent (cfg : Config) (chain : Chain) (portal : option (PortalDeps (L := L)))
  (oapi : option (string * string)) (env : Env) (r : Request) (pat : pattern) (binds : gmap string string)
  (h : EHandler) (id : Identity) (s : State)
  (Hmethod : r_Method r <> "OPTIONS") (Hpath : r_Path r <> "/") (Hctx : ctx_Identity (r_Context r) = None)
  (Hroute : dispatch (muxRoutes (buildRegistry cfg) (endpointMW chain (buildRegistry cfg) (auditOptions cfg))
                        portal oapi) (r_Method r) (r_EscapedPath r) =
            Found pat binds (endpointMW chain (buildRegistry cfg) (auditOptions cfg) h))
  (Hauth : Chain_Authenticate chain (routedRequest env r binds) = Ok id)
  (Hplain : plainOps (h env false (servedRequest env r binds id)).1 = true)
  (Hkeep : forallb (keepsHeader HeaderRequestID) (h env false (servedRequest env r binds id)).1 = true)
  (Hchunks : let read := (h env false (servedRequest env r binds id)).2 in sconcat (env_chunks env read) = read) :
  let out := Application_mux cfg chain portal oapi conn _ env r (s, newConn) in
  let client := out.2 in
  let rid := requestID env r in
  client = exec (h env false (servedRequest env r binds id)).1 (exec (outerOps rid) newConn) /\
  carries HeaderRequestID rid client /\
  exists line ev,
    sv_access out.1 = (sv_access s ++ [line])%list /\
    sv_audit out.1 = match lg_Log (env_eventID env) ev (sv_audit s) with Ok l => l | Err _ => sv_audit s end /\
    al_status line = finalStatus client /\ ev_Status ev = finalStatus client /\
    al_bytes line = len (c_body client) /\ ev_BytesOut ev = len (c_body client) /\
    al_requestID line = rid /\ ev_RequestID ev = rid /\
    al_identity line = Some (id_AuthType id, id_Subject id) /\
    (ev_AuthType ev, ev_UserSubject ev) = (id_AuthType id, id_Subject id) /\
    (al_method line, al_path line) = (ev_Method ev, ev_Path ev) /\
    (ev_EndpointGroup ev, ev_RouteName ev) = RouteForRequest (buildRegistry cfg) (r_Method r) (r_Path r).
Proof.
  cbv zeta. destruct (application_serves cfg chain portal oapi env r pat binds h id s) as (w & Hg & Hf & Hvw & ->); try done.
  set (sr := servedRequest env r binds id) in *.
  destruct (audit_serve (Some (buildRegistry cfg)) (auditOptions cfg) h env sr (identified chain env r binds id s) w)
    as (Hv & Hgo & rb & ro & pb & pt & _ & Ho); try done.
  destruct (Audit _ _ _ _ _ _ _ _) as [s' rec]. cbn [fst snd] in *.
  change (view rec) with (sr_inner rec) in Hv. rewrite Hvw in Hv, Ho. rewrite <- Hv in Ho.
  set (ev := auditEvent _ _ _ _ _ _ _ _ _ _ _) in Ho. rewrite Ho.
  destruct (logEvent_rest env ev (setRead (h env false sr).2 (identified chain env r binds id s))) as (Hacc & Hhold & Haud).
  destruct Hgo as (_ & _ & Hst & Hby). change (view (sr_inner rec)) with (sr_inner rec) in *.
  split; [done|]. split.
  { rewrite Hv. apply carries_exec; [apply outer_carries|done]. }
  do 2 eexists. cbn [sv_access addAccess sv_audit]. rewrite Hacc, Haud. split; [done|]. split; [done|].
  rewrite Hhold. cbn [al_status al_bytes al_requestID al_identity al_method al_path].
  unfold ev, auditEvent. destruct (RouteForRequest _ _ _) as [g n] eqn:Er. cbn.
  by repeat split.
Qed.

(** Every mounted handler is recorded faithfully. *)
Lemma mounted_tame cfg r g t h : g ∈ rg_groups (buildRegistry cfg) -> (t, h) ∈ g_Mount g ->
  informational (Atoi (PathValue r "code")).1 = false ->
  forall env, plainOps (h env false r).1 = true /\ forallb (keepsHeader HeaderRequestID) (h env false r).1 = true.
Proof.
  intros Hg Hm Hc env. pose proof (groups_tame (au_RedactKeys (cf_Audit cfg)) r Hc) as Hall.
  rewrite Forall_forall in Hall. specialize (Hall g). rewrite Forall_forall in Hall.
  assert (Ht : forallb tame (h env false r).1 = true).
  { apply (Hall (elem_of_submseteq _ _ _ Hg (sublist_submseteq _ _ (buildRegistry_groups cfg))) _ Hm). }
  unfold plainOps. rewrite !forallb_forall in *. unfold tame in Ht.
  split; intros o Ho; by apply Ht, andb_true_iff in Ho as [].
Qed.

Lemma route_not_root cfg e vs segs r : e ∈ rg_flat (buildRegistry cfg) -> instance (re_segs e) vs = Some segs ->
  forallb plainSeg vs = true -> r_Path r = join_path segs -> r_Path r <> "/".
Proof.
  intros He Hi Hv ->. destruct (flat_entry_ok cfg e He) as (_ & Hok & Hne).
  destruct (instance_plain _ _ _ Hi Hok Hv) as [Hplain _]. pose proof (instance_nonempty _ _ _ Hi Hne) as Hsne.
  destruct segs as [|x segs]; [done|]. inversion Hplain as [|? ? Hx _]; subst. apply plainSeg_spec in Hx as (Hx & _).
  destruct x as [|c x]; [done|]. cbn [join_path String.append]. by injection.
Qed.

(** C1: the three records of a request agree.  Take any configuration, any route of the endpoint
    groups it enables other than the OPTIONS route (which the CORS layer answers), and a request for an
    instance of that route that the credential chain accepts, whose path values are plain (not empty, no
    slash, no per cent sign, no dot segment) and do not ask for an informational status (which is not
    final).  The response the client receives is that of the handler the route's group mounted,
    behind the request-id and CORS headers; exactly one access line and exactly one audit event are
    recorded; the client's status and byte count, the access line and the event all agree; the
    request id sent to the client, logged and audited is the same; the line and the event name the
    identity the chain resolved; and the event names the route. *)
Theorem request_trace_consistent (cfg : Config) (chain : Chain) (portal : option (PortalDeps (L := L)))
  (oapi : option (string * string)) (env : Env) (r : Request) (e : routeEntry) (vs segs : list string)
  (id : Identity) (s : State)
  (Hportal : portalElsewhere portal = true) (He : e ∈ rg_flat (buildRegistry cfg))
  (Hi : instance (re_segs e) vs = Some segs) (Hv : forallb plainSeg vs = true)
  (Hmethod : r_Method r = m_Method (re_meta e)) (Hopt : r_Method r <> "OPTIONS")
  (Hpath : r_Path r = join_path segs /\ r_EscapedPath r = join_path segs) (Hctx : ctx_Identity (r_Context r) = None)
  (binds := list_to_map (zip (wildNames (re_segs e)) vs) : gmap string string)
  (Hstatus : informational (Atoi (default "" (binds !! "code"))).1 = false)
  (Hauth : Chain_Authenticate chain (routedRequest env r binds) = Ok id)
  (Hchunks : forall b, sconcat (env_chunks env b) = b) :
  let out := Application_mux cfg chain portal oapi conn _ env r (s, newConn) in
  let client := out.2 in
  let rid := requestID env r in
  exists g h line ev,
    g ∈ rg_groups (buildRegistry cfg) /\ g_Name g = re_group e /\ (patternText (re_meta e), h) ∈ g_Mount g /\
    client = exec (h env false (servedRequest env r binds id)).1 (exec (outerOps rid) newConn) /\
    carries HeaderRequestID rid client /\
    sv_access out.1 = (sv_access s ++ [line])%list /\
    sv_audit out.1 = match lg_Log (env_eventID env) ev (sv_audit s) with Ok l => l | Err _ => sv_audit s end /\
    al_status line = finalStatus client /\ ev_Status ev = finalStatus client /\
    al_bytes line = len (c_body client) /\ ev_BytesOut ev = len (c_body client) /\
    al_requestID line = rid /\ ev_RequestID ev = rid /\
    al_identity line = Some (id_AuthType id, id_Subject id) /\
    (ev_AuthType ev, ev_UserSubject ev) = (id_AuthType id, id_Subject id) /\
    (al_method line, al_path line) = (ev_Method ev, ev_Path ev) /\
    (ev_EndpointGroup ev, ev_RouteName ev) = (re_group e, m_Name (re_meta e)).
Proof.
  destruct Hpath as [Hp Hep].
  destruct (route_found cfg (endpointMW chain (buildRegistry cfg) (auditOptions cfg)) portal oapi e vs segs
    Hportal He Hi Hv) as (Hroute & g & h & Hg & Hgn & Hgm & Hd).
  destruct (mounted_tame cfg (servedRequest env r binds id) g _ h Hg Hgm Hstatus env) as [Hplain Hkeep].
  rewrite <- Hmethod, <- Hp in Hroute. rewrite <- Hmethod, <- Hep in Hd.
  destruct (trace_consistent cfg chain portal oapi env r _ binds h id s Hopt (route_not_root cfg e vs segs r He Hi Hv Hp)
    Hctx Hd Hauth Hplain Hkeep (Hchunks _)) as (Hc & Hrid & line & ev & Hrest).
  rewrite Hroute in Hrest. exists g, h, line, ev. by repeat (split; [done|]).
Qed.

Lemma touchKeys_nil (s : State) : touchKeys [] s = s.
Proof. unfold touchKeys. rewrite app_nil_r. by destruct s. Qed.

(** The outer layers around a reply that does not reach the endpoint middleware. *)
Lemma application_outer cfg chain portal oapi env r (s : State) (ids : list string) (ops : list wop) :
  ctx_Identity (r_Context r) = None -> plainOps ops = true ->
  (forall w : statusRecorder conn,
     BuildMux (buildRegistry cfg) (endpointMW chain (buildRegistry cfg) (auditOptions cfg)) portal oapi _ _ env
       (WithContext r (mkContext None (requestID env r) true (ctx_Portal (r_Context r)))) (setHolder None s, w) =
     (setHolder None (touchKeys ids s), exec (corsHeaders ++ ops)%list w)) ->
  let out := Application_mux cfg chain portal oapi conn _ env r (s, newConn) in
  out.2 = exec ops (exec (outerOps (requestID env r)) newConn) /\
  sv_audit out.1 = sv_audit s /\
  sv_access out.1 = (sv_access s ++ [mkAccessLine (r_Method r) (r_Path r) (finalStatus out.2) (len (c_body out.2))
      (Milliseconds (Sub (env_end env) (env_start env))) (requestID env r) None])%list.
Proof.
  intros Hctx Hp Hb out. set (w0 := exec1 (HSet HeaderRequestID (requestID env r)) newConn).
  destruct (exec_view (corsHeaders ++ ops)%list (newStatusRecorder w0)) as [Hv Hg].
  { by apply newStatusRecorder_good. }
  { unfold plainOps in *. by rewrite forallb_app, Hp. }
  assert (Ho : out = (let rec := exec (corsHeaders ++ ops)%list (newStatusRecorder w0) in
     (addAccess (mkAccessLine (r_Method r) (r_Path r) (sr_status rec) (sr_bytes rec)
        (Milliseconds (Sub (env_end env) (env_start env))) (requestID env r) None) (setHolder None (touchKeys ids s)), sr_inner rec))).
  { unfold out, Application_mux, RequestID, AccessLog. cbn [fst snd]. rewrite Hctx. fold (requestID env r).
    change (rw_setHeader (Header_Set (rw_Header newConn) HeaderRequestID (requestID env r)) newConn) with w0.
    by rewrite Hb. }
  rewrite Ho. cbv zeta. set (rec := exec _ (newStatusRecorder w0)) in *. cbn [fst snd sv_audit sv_access addAccess].
  change (view rec) with (sr_inner rec) in Hv. change (view (newStatusRecorder w0)) with w0 in Hv.
  rewrite exec_app in Hv. destruct Hg as (_ & _ & Hst & Hby). change (view (sr_inner rec)) with (sr_inner rec) in *.
  rewrite Hst, Hby. done.
Qed.

(** OPTIONS never reaches an endpoint.  The CORS layer answers every OPTIONS request with 204 and
    no body before the mux is consulted, so no credential is checked, nothing is audited and no
    handler runs, although the methods group registers an OPTIONS route and the registry resolves
    the same request to it. *)
Theorem options_route_unreachable (cfg : Config) (chain : Chain) (portal : option (PortalDeps (L := L)))
  (oapi : option (string * string)) (env : Env) (r : Request) (s : State)
  (Hmethod : r_Method r = "OPTIONS") (Hctx : ctx_Identity (r_Context r) = None)
  (Hmeth : ec_Methods (cf_Endpoints cfg) = true) :
  let out := Application_mux cfg chain portal oapi conn _ env r (s, newConn) in
  finalStatus out.2 = 204 /\ c_body out.2 = "" /\ carries HeaderRequestID (requestID env r) out.2 /\
  sv_audit out.1 = sv_audit s /\
  RouteForRequest (buildRegistry cfg) "OPTIONS" "/v1/method/echo" = ("methods", "method_" ++ ToLower "OPTIONS").
Proof.
  cbv zeta. destruct (application_outer cfg chain portal oapi env r s [] [WriteHeader 204]) as (Hc & Ha & _); try done.
  { intros w. rewrite touchKeys_nil. unfold BuildMux, CORS. cbn [r_Method WithContext]. by rewrite Hmethod, exec_app. }
  rewrite Hc. split; [done|]. split; [done|].
  split; [apply carries_exec; [apply outer_carries|done]|]. split; [done|].
  set (m := nth 6 Methods.Routes (mkMeta "" "" "" "" "" false None None None None)).
  apply (RouteForRequest_unambiguous _ _ _ (mkEntry "methods" m ["v1"; "method"; "echo"]));
    [apply flat_unambiguous| |done|done].
  rewrite buildRegistry_flat. apply list_elem_of_join. exists (flatOf Methods.Group). split.
  - apply list_elem_of_fmap. exists m. split; [done|]. apply list_elem_of_lookup. by exists 6%nat.
  - apply list_elem_of_fmap_2. unfold buildRegistry. rewrite !addIf_groups, Hmeth. set_solver.
Qed.

(** C9: a refused request stays outside.  When the mux routes a request other than OPTIONS to an
    endpoint and the credential chain refuses it, the client gets 401 (500 for an internal error), no
    audit event is written (the documentation says that every request is recorded), and the access log has one line with that status and no identity; the outcome does not
    depend on the endpoint's handler. *)
Theorem refused_end_to_end (cfg : Config) (chain : Chain) (portal : option (PortalDeps (L := L)))
  (oapi : option (string * string)) (env : Env) (r : Request) (pat : pattern) (binds : gmap string string)
  (h : EHandler) (e : auth_error) (s : State)
  (Hmethod : r_Method r <> "OPTIONS") (Hpath : r_Path r <> "/") (Hctx : ctx_Identity (r_Context r) = None)
  (Hroute : dispatch (muxRoutes (buildRegistry cfg) (endpointMW chain (buildRegistry cfg) (auditOptions cfg))
                        portal oapi) (r_Method r) (r_EscapedPath r) =
            Found pat binds (endpointMW chain (buildRegistry cfg) (auditOptions cfg) h))
  (Hauth : Chain_Authenticate chain (routedRequest env r binds) = Err e) :
  let out := Application_mux cfg chain portal oapi conn _ env r (s, newConn) in
  let status := match e with ErrOther _ => 500 | _ => 401 end in
  finalStatus out.2 = status /\ sv_audit out.1 = sv_audit s /\
  exists line, sv_access out.1 = (sv_access s ++ [line])%list /\ al_status line = status /\
    al_identity line = None /\ al_requestID line = requestID env r.
Proof.
  cbv zeta. assert (Hmo : String.eqb (r_Method r) "OPTIONS" = false) by (by apply String.eqb_neq).
  assert (Hpa : String.eqb (r_Path r) "/" = false) by (by apply String.eqb_neq).
  destruct (application_outer cfg chain portal oapi env r s (Chain_touches chain (routedRequest env r binds)) (authErrorReply e)) as (Hc & Ha & Hl); [done|by destruct e| |].
  { intros w. unfold BuildMux, CORS. cbn [r_Method WithContext fst snd]. rewrite Hmo, exec_app.
    assert (Hmux : forall w', ServeMux_ServeHTTP (muxRoutes (buildRegistry cfg)
        (endpointMW chain (buildRegistry cfg) (auditOptions cfg)) portal oapi) (statusRecorder conn) _ env
        (WithContext r (mkContext None (requestID env r) true (ctx_Portal (r_Context r)))) (setHolder None s, w') =
      (setHolder None (touchKeys (Chain_touches chain (routedRequest env r binds)) s), exec (authErrorReply e) w')).
    { intros w'. unfold ServeMux_ServeHTTP. cbn [r_Method r_EscapedPath WithContext]. rewrite Hroute.
      unfold endpointMW, IdentityMW. cbn [FromContext r_Context WithPathValues WithContext ctx_Identity fst snd].
      change (WithPathValues _ binds) with (routedRequest env r binds). by rewrite Hauth. }
    destruct portal as [p|]; [|by rewrite Hmux]. unfold BrowserRedirect, isBrowserRoot.
    cbn [r_Method r_Path WithContext fst snd]. rewrite Hpa, orb_true_r. by rewrite Hmux. }
  assert (Hs : finalStatus (Application_mux cfg chain portal oapi conn _ env r (s, newConn)).2 =
               match e with ErrOther _ => 500 | _ => 401 end) by (rewrite Hc; by destruct e).
  split; [done|]. split; [done|]. eexists. split; [exact Hl|]. cbn. by rewrite Hs.
Qed.

(** A cross-site request cannot carry the CSRF header.  A state-changing request without
    [X-Requested-With] is answered 403 and the guarded handler is not called; and the answer to any
    preflight, whatever it asks for, sends a list of allowed headers that does not contain
    [X-Requested-With], so a browser never sends it across origins. *)
Theorem csrf_header_needs_same_origin (cfg : Config) (chain : Chain) (portal : option (PortalDeps (L := L)))
  (oapi : option (string * string)) (env : Env) (r preflight : Request) (next : Handler State) (s : State)
  (Hr : stateChanging (r_Method r) = true) (Hno : h_Get r "X-Requested-With" = "")
  (Hp : r_Method preflight = "OPTIONS") (Hctx : ctx_Identity (r_Context preflight) = None) :
  requireCSRFHeader next conn _ env r (s, newConn) =
    (s, exec (httpError 403 "missing X-Requested-With header") newConn) /\
  let sent := c_sent (Application_mux cfg chain portal oapi conn _ env preflight (s, newConn)).2 in
  preflightAllows sent "X-Requested-With" = false.
Proof.
  split; [unfold requireCSRFHeader; by rewrite Hr, Hno|]. cbv zeta.
  destruct (application_outer cfg chain portal oapi env preflight s [] [WriteHeader 204]) as (Hc & _ & _); try done.
  { intros w. rewrite touchKeys_nil. unfold BuildMux, CORS. cbn [r_Method WithContext]. by rewrite Hp, exec_app. }
  rewrite Hc. by vm_compute.
Qed.

End EndToEnd.

(** ** Witnesses *)

#[local] Existing Instance ascii_tables.
#[local] Existing Instance scaledFloat.
#[local] Existing Instance merge_slice.
#[local] Existing Instance noJson.

Definition traceCfg : Config := applyDefaults zeroConfig.
Definition openChain : Chain := serverChain true sampleAuth None [].
Definition closedChain : Chain := serverChain false sampleAuth None [].
Definition fixedRequest (method : string) : Request :=
  mkRequest method "/v1/fixed/k1" "/v1/fixed/k1" "" {["X-Api-Key" := ["K2"]]} "h" false "10.0.0.1:5" None ∅ [] Background.
Definition anonRequest (method : string) : Request :=
  mkRequest method "/v1/fixed/k1" "/v1/fixed/k1" "" ∅ "h" false "10.0.0.1:5" None ∅ [] Background.
Definition traceMW (chain : Chain) : EHandler -> Handler (ServerState MemoryLogger) :=
  endpointMW chain (buildRegistry traceCfg) (auditOptions traceCfg).
(** The handler of [GET /v1/fixed/{key}]. *)
Definition fixedHandler : EHandler := (nth 0 DataEndpoints.Mount ("", fun _ _ _ => ([], ""))).2.
Definition fixedBinds : gmap string string := {["key" := "k1"]}.

Lemma fixed_dispatch chain :
  dispatch (muxRoutes (buildRegistry traceCfg) (traceMW chain) None None) "GET" "/v1/fixed/k1" =
  Found (parsePattern "GET /v1/fixed/{key}") fixedBinds (traceMW chain fixedHandler).
Proof. reflexivity. Defined.

Definition traceEntry : routeEntry :=
  default (mkEntry "" (mkMeta "" "" "" "" "" false None None None None) []) (rg_flat (buildRegistry traceCfg) !! 2%nat).
Lemma traceEntry_in : traceEntry ∈ rg_flat (buildRegistry traceCfg).
Proof. apply list_elem_of_lookup. by exists 2%nat. Defined.
Lemma sampleEnv_chunks b : sconcat (env_chunks sampleEnv b) = b.
Proof. unfold sampleEnv, sconcat. cbn [env_chunks foldr]. rewrite sapp_nil_r. apply stake_sdrop. Defined.

Lemma request_trace_consistent_witness :
  exists line ev,
    sv_access (Application_mux traceCfg closedChain None None conn _ sampleEnv (fixedRequest "GET")
                 (sampleState, newConn)).1 = [line] /\
    al_status line = ev_Status ev /\ al_requestID line = "req-1" /\
    al_identity line = Some ("apikey", "dev") /\ (ev_EndpointGroup ev, ev_RouteName ev) = ("data", "fixed").
Proof.
  destruct (request_trace_consistent traceCfg closedChain None None sampleEnv (fixedRequest "GET")
    traceEntry ["k1"] ["v1"; "fixed"; "k1"] (apikeyIdentity "dev") sampleState)
    as (g & h & line & ev & _ & _ & _ & _ & _ & H1 & _ & H2 & H3 & _ & _ & H4 & _ & H5 & _ & _ & H6);
    [done|exact traceEntry_in|done|done|done|done|done|done|by vm_compute|by vm_compute|exact sampleEnv_chunks|].
  exists line, ev. split; [exact H1|]. split; [by rewrite H2, H3|]. split; [exact H4|]. split; [exact H5|exact H6].
Defined.

Lemma options_route_unreachable_witness :
  finalStatus (Application_mux traceCfg closedChain None None conn _ sampleEnv (anonRequest "OPTIONS")
                 (sampleState, newConn)).2 = 204.
Proof.
  apply (options_route_unreachable traceCfg closedChain None None sampleEnv (anonRequest "OPTIONS") sampleState); done.
Defined.

Lemma refused_end_to_end_witness :
  finalStatus (Application_mux traceCfg closedChain None None conn _ sampleEnv (anonRequest "GET")
                 (sampleState, newConn)).2 = 401.
Proof.
  apply (refused_end_to_end traceCfg closedChain None None sampleEnv (anonRequest "GET")
    (parsePattern "GET /v1/fixed/{key}") fixedBinds fixedHandler ErrNoCredential sampleState);
    [done|done|done|apply fixed_dispatch|by vm_compute].
Defined.

Lemma csrf_header_needs_same_origin_witness :
  requireCSRFHeader (fun W _ _ _ sw => sw) conn _ sampleEnv (anonRequest "POST") (sampleState, newConn) =
  (sampleState, exec (httpError 403 "missing X-Requested-With header") newConn).
Proof.
  apply (csrf_header_needs_same_origin traceCfg closedChain None None sampleEnv (anonRequest "POST")
           (anonRequest "OPTIONS") (fun W _ _ _ sw => sw) sampleState); done.
Defined.
