(* ===== verification/BrowserAuth.v ===== *)
(** * Portal authentication ([pkg/httpsrv/portalauth.go], [authgate.go], [browserauth.go])

    The middleware in front of the portal API, and the OIDC login flow: login with a signed PKCE
    cookie, callback with the nonce ledger, code exchange and session issue, logout.  The random
    source, the identity provider's token endpoint and the token validator are parameters; the
    clock is read once per request. *)
From S2P Require Import Prelude GoStrings GoNum Sha256 GoUrl Json JsonParse GoTime Http ServeMux.
From S2P Require Import Registry AuditEvent MemoryLog Inbound Middleware Config Oidc Session Server.

(** ** [net/url] and [http.Redirect] *)

Definition queryByte (c : ascii) : bool :=
  isUpper c || isLower c || isDigit c || existsb (Ascii.eqb c) ["-"; "_"; "."; "~"]%char.
Definition QueryEscape (s : string) : string :=
  sconcat (map (fun c => if queryByte c then str1 c else if Ascii.eqb c " " then "+"
                         else String "%" (String (hexDigit (byte c / 16)) (str1 (hexDigit (byte c mod 16)))))
               (list_ascii_of_string s)).
(** [Values.Encode] with one value per key: sorted by key. *)
Definition Values_Encode (m : gmap string string) : string :=
  Join (map (fun p => QueryEscape p.1 ++ "=" ++ QueryEscape p.2) (sorted_entries m)) "&".

Definition hexEscapeNonASCII (s : string) : string :=
  sconcat (map (fun c => if byte c <? 128 then str1 c
                         else String "%" (String (hex_digit (byte c / 16)) (str1 (hex_digit (byte c mod 16)))))
               (list_ascii_of_string s)).

(** Does [url.Parse] accept a URL that starts with a single slash? *)
Definition isCTL (c : ascii) : bool := (byte c <? 32) || (byte c =? 127).
Definition parseRooted (url : string) : bool :=
  let '(u, frag, _) := Cut url "#" in
  let '(p, _, _) := Cut u "?" in
  negb (existsb isCTL (list_ascii_of_string url))
  && bool_decide (PathUnescape p <> None) && bool_decide (PathUnescape frag <> None).

(** The clean-up [http.Redirect] applies to a rooted URL without a host; absolute URLs and URLs that
    do not parse are kept. *)
Definition pathClean (p : string) : string := "/" ++ Join (clean_loop (Split p "/") []) "/".
Definition redirectTarget (url : string) : string :=
  if HasPrefix url "/" && negb (HasPrefix url "//") && parseRooted url then
    let '(p, q, found) := Cut url "?" in
    let c := pathClean p in
    (if endsWithSlash p && negb (endsWithSlash c) then c ++ "/" else c) ++ (if found then "?" ++ q else "")
  else url.
Definition Redirect302 (r : Request) (hadCT : bool) (url : string) : list wop :=
  let target := redirectTarget url in
  match httpRedirect r hadCT target 302 with
  | HSet k _ :: rest => HSet k (hexEscapeNonASCII target) :: rest
  | ops => ops
  end.

(** ** Return paths *)

Definition sanitizeReturnPath (p : string) : string :=
  if String.eqb p "" then ""
  else if negb (HasPrefix p "/") then ""
  else if HasPrefix p "//" || HasPrefix p "/\" then ""
  else p.

(** ** The nonce ledger *)

Definition nonceTTL : Duration := 10 * Minute.
Definition consumeNonce (nonce : string) (now : Time) (used : gmap string Time) : bool * gmap string Time :=
  if String.eqb nonce "" then (false, used)
  else
    let live := filter (fun p => ~ (nonceTTL < Sub now p.2)) used in
    if bool_decide (live !! nonce <> None) then (false, live)
    else (true, <[nonce := now]> live).

(** ** The flow *)

Definition derivePKCESecret (cookieSecret : string) : string :=
  RawURLEncoding_EncodeToString (hmac_sha256 cookieSecret "api-test/pkce/v1").
Definition pkceChallenge (verifier : string) : string := RawURLEncoding_EncodeToString (sha256 verifier).

(** The error of [json.Marshal] on a time whose year has more than four digits. *)
Definition marshalTimeError : string :=
  "json: error calling MarshalJSON for type time.Time: Time.MarshalJSON: year outside of range [0,9999]".

(** What the token endpoint is sent. *)
Record TokenRequest := mkTokenRequest { tr_URL : string; tr_Body : string; tr_Basic : option (string * string) }.

Record BrowserAuth := mkBrowserAuth {
  ba_cfg : OIDCConfig; ba_baseURL : string; ba_redirectPath : string;
  ba_sessions : SessionStore; ba_pkceCookie : SessionStore;
  ba_authzURL : string; ba_tokenURL : string }.

(** The world outside the flow: random bytes (the i-th call of a request, [None] on failure), the
    identity provider's reply (status and body, [None] on a transport error), the validator. *)
Class Outside := {
  rand_Read : Env -> nat -> nat -> option string;
  tokenEndpoint : Env -> TokenRequest -> option (Z * string);
  discoveryDocument : string -> option (Z * string);
  validator : OIDCValidator
}.

Section Flow.
Context `{UnicodeTables} `{Outside} {L : Type} `{!Logger L}.
Abbreviation State := (ServerState L).
Abbreviation Hnd := (Handler State).

Definition randomString (env : Env) (i n : nat) : option string :=
  RawURLEncoding_EncodeToString <$> rand_Read env i n.

(** [discoverEndpoints]: the authorization and token URLs of the discovery document. *)
Definition discoverEndpoints (issuer : string) : res string (string * string) :=
  let url := TrimRightByte issuer "/" ++ "/.well-known/openid-configuration" in
  match discoveryDocument url with
  | None => Err "discover"
  | Some (status, body) =>
    if negb (status =? 200) then Err ("discover " ++ url ++ ": status " ++ Itoa status)
    else
      match DecodeFirst body with
      | Some (JObj fs) =>
        match jstring "authorization_endpoint" fs, jstring "token_endpoint" fs with
        | Some a, Some t =>
          if String.eqb a "" || String.eqb t "" then Err "discovery missing authorization_endpoint or token_endpoint"
          else Ok (a, t)
        | _, _ => Err "decode discovery"
        end
      | Some JNull => Err "discovery missing authorization_endpoint or token_endpoint"
      | _ => Err "decode discovery"
      end
  end.

Definition NewBrowserAuth (cfg : Config) (sessions : SessionStore) : res string BrowserAuth :=
  if negb (oc_Enabled (cf_OIDC cfg)) then Err "oidc is not enabled"
  else
    pkce ← NewSessionStore "api_test_pkce" (derivePKCESecret (po_CookieSecret (cf_Portal cfg)))
             (po_CookieSecure (cf_Portal cfg)) 0;
    urls ← discoverEndpoints (oc_Issuer (cf_OIDC cfg));
    Ok (mkBrowserAuth (cf_OIDC cfg) (TrimRightByte (sc_BaseURL (cf_Server cfg)) "/")
          (po_OIDCRedirectPath (cf_Portal cfg)) sessions pkce urls.1 urls.2).

Definition hasCT `{ResponseWriter W} (w : W) : bool := bool_decide (rw_Header w !! "Content-Type" <> None).

(** *** Login *)

Definition pkcePayload (state verifier nonce return_ : string) : SessionPayload :=
  mkSessionPayload (Some (mkPortalIdentity "" "" "" ""
    (list_to_map [("state", JStr state); ("verifier", JStr verifier); ("nonce", JStr nonce); ("return", JStr return_)]) "")) 0.

Definition authzQuery (b : BrowserAuth) (state challenge : string) : gmap string string :=
  let m := list_to_map [("response_type", "code"); ("client_id", oc_ClientID (ba_cfg b));
             ("redirect_uri", ba_baseURL b ++ ba_redirectPath b); ("scope", "openid email profile");
             ("state", state); ("code_challenge", challenge); ("code_challenge_method", "S256")] in
  if String.eqb (oc_Audience (ba_cfg b)) "" then m else <["audience" := oc_Audience (ba_cfg b)]> m.

Definition pkceSetCookie (b : BrowserAuth) (value : string) (maxAge : Z) : list wop :=
  SetCookie (mkCookie (ss_cookieName (ba_pkceCookie b)) value "/portal/auth/" None maxAge true
               (ss_secure (ba_pkceCookie b)) true).

Definition handleLogin (b : BrowserAuth) : Hnd := fun W RW env r sw =>
  match randomString env 0 32, randomString env 1 64, randomString env 2 16 with
  | Some state, Some verifier, Some nonce =>
    match encode (ba_pkceCookie b) (pkcePayload state verifier nonce (sanitizeReturnPath (q_Get r "return"))) with
    | None => (sw.1, exec (httpError 500 ("encode pkce: " ++ marshalTimeError)) sw.2)
    | Some encoded =>
      let sep := if Contains (ba_authzURL b) "?" then "&" else "?" in
      let url := ba_authzURL b ++ sep ++ Values_Encode (authzQuery b state (pkceChallenge verifier)) in
      (sw.1, exec (pkceSetCookie b encoded 600 ++ Redirect302 r (hasCT sw.2) url)%list sw.2)
    end
  | _, _, _ => (sw.1, exec (httpError 500 "rng failure") sw.2)
  end.

(** *** Callback *)

Definition tokenRequest (b : BrowserAuth) (code verifier : string) : TokenRequest :=
  mkTokenRequest (ba_tokenURL b)
    (Values_Encode (list_to_map [("grant_type", "authorization_code"); ("code", code);
       ("redirect_uri", ba_baseURL b ++ ba_redirectPath b); ("client_id", oc_ClientID (ba_cfg b));
       ("code_verifier", verifier)]))
    (if String.eqb (oc_ClientSecret (ba_cfg b)) "" then None
     else Some (oc_ClientID (ba_cfg b), oc_ClientSecret (ba_cfg b))).

Definition exchangeCode (b : BrowserAuth) (env : Env) (code verifier : string) : res string string :=
  match tokenEndpoint env (tokenRequest b code verifier) with
  | None => Err "transport"
  | Some (status, full) =>
    let body := stake (Z.to_nat (Z.shiftl 1 20)) full in
    if negb (status =? 200)
    then Err ("token endpoint returned " ++ Itoa status ++ " (body " ++ Itoa (len body) ++ " bytes)")
    else
      match Unmarshal body with
      | Some (JObj fs) =>
        match jstring "id_token" fs with
        | Some t => if String.eqb t "" then Err "token response missing id_token" else Ok t
        | None => Err "decode token response"
        end
      | Some JNull => Err "token response missing id_token"
      | _ => Err "decode token response"
      end
  end.

Definition setNonces (m : gmap string Time) (s : State) : State :=
  mkState (sv_audit s) (sv_holder s) (sv_access s) (sv_read s) (sv_ready s) m (sv_touched s).

(** What the callback decides before it writes: a refusal, or the session to issue. *)
Inductive callbackOutcome :=
| Refused (status : Z) (msg : string)
| SignedIn (id : PortalIdentity) (returnTo : string).

(** A cookie of this server always carries an identity; for a payload without one the code would
    dereference nil, and the connection is dropped ([None]). *)
Definition callback (b : BrowserAuth) (env : Env) (r : Request) (used : gmap string Time)
    : option callbackOutcome * gmap string Time :=
  match r_Cookie r (ss_cookieName (ba_pkceCookie b)) with
  | None => (Some (Refused 400 "missing pkce cookie"), used)
  | Some v =>
    match decode (ba_pkceCookie b) v with
    | Err _ => (Some (Refused 400 "bad pkce cookie"), used)
    | Ok pl =>
      match sp_Identity pl with
      | None => (None, used)
      | Some i =>
        let st := strClaim (pi_Claims i) "state" in
        let verifier := strClaim (pi_Claims i) "verifier" in
        let nonce := strClaim (pi_Claims i) "nonce" in
        let returnTo := strClaim (pi_Claims i) "return" in
        if negb (String.eqb (q_Get r "state") st) || String.eqb st "" then (Some (Refused 400 "state mismatch"), used)
        else
          let '(fresh, used') := consumeNonce nonce (env_start env) used in
          if negb fresh then (Some (Refused 400 "replay rejected"), used')
          else
            let code := q_Get r "code" in
            if String.eqb code "" then (Some (Refused 400 "missing code"), used')
            else
              match exchangeCode b env code verifier with
              | Err _ => (Some (Refused 502 "code exchange failed"), used')
              | Ok idToken =>
                match validator idToken with
                | Err _ => (Some (Refused 401 "id_token validation failed"), used')
                | Ok id => (Some (SignedIn id (if String.eqb returnTo "" then "/portal/" else returnTo)), used')
                end
              end
      end
    end
  end.

Definition handleCallback (b : BrowserAuth) : Hnd := fun W RW env r sw =>
  let '(out, used) := callback b env r (sv_nonces sw.1) in
  let s := setNonces used sw.1 in
  match out with
  | None => (s, sw.2)
  | Some (Refused status msg) => (s, exec (httpError status msg) sw.2)
  | Some (SignedIn id returnTo) =>
    let clear := pkceSetCookie b "" (-1) in
    match Issue (ba_sessions b) (env_start env) (Some id) with
    | None => (s, exec (clear ++ httpError 500 ("issue session: " ++ marshalTimeError))%list sw.2)
    | Some c => (s, exec (clear ++ SetCookie c ++ Redirect302 r (hasCT sw.2) returnTo)%list sw.2)
    end
  end.

Definition handleLogout (b : BrowserAuth) : Hnd := fun W RW env r sw =>
  (sw.1, exec (Clear (ba_sessions b) ++ [WriteHeader 204])%list sw.2).

Definition BrowserAuth_Mount (b : BrowserAuth) : list (string * Hnd) :=
  [("GET /portal/auth/login", handleLogin b); ("GET /portal/auth/callback", handleCallback b);
   ("POST /portal/auth/logout", handleLogout b)].

(** ** The middleware in front of the portal API *)

Definition hasCredential (r : Request) : bool :=
  if negb (String.eqb (h_Get r "X-API-Key") "") then true
  else let a := h_Get r "Authorization" in
       if String.eqb a "" then false else HasPrefix (ToLower a) "bearer ".

Definition adaptInboundIdentity (i : Identity) : PortalIdentity :=
  mkPortalIdentity (id_Subject i) (id_Email i) (id_KeyName i) (id_AuthType i) (id_Claims i) (id_KeyName i).

Definition portalUnauthorized : list wop :=
  [HSet "WWW-Authenticate" ("Bearer realm=" ++ dquote ++ "api-test-portal" ++ dquote);
   HSet "Content-Type" "application/json"; WriteHeader 401;
   Write ("{" ++ dquote ++ "error" ++ dquote ++ ":" ++ dquote ++ "unauthorized" ++ dquote ++ "}")].

(** Who the request is from, for the portal. *)
Definition portalIdentity (sessions : option SessionStore) (chain : option Chain) (env : Env) (r : Request)
    : option PortalIdentity :=
  match sessions ≫= (fun s => Read s (env_start env) r) with
  | Some id => Some id
  | None =>
    match chain with
    | Some c =>
      if hasCredential r then
        match Chain_Authenticate c r with
        | Ok id => if String.eqb (id_AuthType id) "anonymous" then None else Some (adaptInboundIdentity id)
        | Err _ => None
        end
      else None
    | None => None
    end
  end.

(** The API keys that finding this out has updated. *)
Definition portalTouches (sessions : option SessionStore) (chain : option Chain) (env : Env) (r : Request) : list string :=
  match sessions ≫= (fun s => Read s (env_start env) r), chain with
  | None, Some c => if hasCredential r then Chain_touches c r else []
  | _, _ => []
  end.

Definition PortalAuth_Middleware (sessions : option SessionStore) (chain : option Chain) (next : Hnd) : Hnd :=
  fun W RW env r sw =>
    let s := touchKeys (portalTouches sessions chain env r) sw.1 in
    match portalIdentity sessions chain env r with
    | Some id => next W RW env (WithContext r (WithPortalIdentity (r_Context r) id)) (s, sw.2)
    | None => (s, exec portalUnauthorized sw.2)
    end.

End Flow.

(** ** Lemmas: the ledger *)

(** The ledger after a sequence of calls. *)
Definition afterCalls (used : gmap string Time) (calls : list (string * Time)) : gmap string Time :=
  foldl (fun u c => (consumeNonce c.1 c.2 u).2) used calls.

Lemma consumeNonce_keeps n t m now used :
  used !! n = Some t -> Sub now t <= nonceTTL -> (consumeNonce m now used).2 !! n = Some t.
Proof.
  intros Hn Hs. unfold consumeNonce. destruct (String.eqb m ""); [done|].
  set (live := filter _ used).
  assert (Hl : live !! n = Some t) by (apply map_lookup_filter_Some; split; [done|simpl; lia]).
  destruct (bool_decide (live !! m <> None)) eqn:E; [done|]. cbn [snd].
  apply bool_decide_eq_false in E. rewrite lookup_insert_ne; [done|]. intros ->. apply E. by rewrite Hl.
Qed.

Lemma Sub_mono now now' t : now <= now' -> Sub now t <= Sub now' t.
Proof. unfold Sub. lia. Qed.

Lemma afterCalls_keeps n t t' calls : forall used, used !! n = Some t -> Sub t' t <= nonceTTL ->
  Forall (fun c => c.2 <= t') calls -> afterCalls used calls !! n = Some t.
Proof.
  induction calls as [|c calls IH]; intros used Hu Hs Hc; [done|]. inversion Hc as [|? ? H1 H2]; subst.
  cbn [afterCalls foldl]. apply IH; [|done|done]. apply consumeNonce_keeps; [done|].
  etransitivity; [by apply Sub_mono|done].
Qed.

(** ** Lemmas: redirects *)

Lemma clean_loop_pieces segs : forall stack, Forall (fun p => ContainsByte p "/" = false) segs ->
  Forall (fun p => p <> "" /\ ContainsByte p "/" = false) stack ->
  Forall (fun p => p <> "" /\ ContainsByte p "/" = false) (clean_loop segs stack).
Proof.
  induction segs as [|s segs IH]; intros stack Hs Hst; [by apply Forall_rev|]. inversion Hs as [|? ? H1 H2]; subst.
  cbn [clean_loop]. destruct (String.eqb_spec s "") as [|Hne]; [by apply IH|]. cbn [orb].
  destruct (String.eqb s "."); [by apply IH|]. destruct (String.eqb s ".."); apply IH; try done.
  - destruct Hst; [constructor|done].
  - by constructor.
Qed.

(** A cleaned path is the root, or a slash and something that is not a slash. *)
Lemma pathClean_shape p : pathClean p = "/" \/ exists c t, pathClean p = String "/" (String c t) /\ c <> "/"%char.
Proof.
  unfold pathClean. pose proof (clean_loop_pieces (Split p "/") [] (Split_pieces p "/") (List.Forall_nil _)) as Hp.
  destruct (clean_loop (Split p "/") []) as [|s l]; [by left|]. right. inversion Hp as [|? ? [Hne Hc] _]; subst.
  destruct s as [|c s]; [done|]. exists c. destruct l as [|s2 l]; eexists; (split; [reflexivity|]);
    intros ->; simpl in Hc; done.
Qed.

Definition plainHostByte (c : ascii) : bool := isLower c || isUpper c || isDigit c || existsb (Ascii.eqb c) ["."; "-"]%char.
Definition plainHost (h : string) : bool := string_forallb plainHostByte h.

Lemma redirectTarget_local p : HasPrefix p "/" = true -> HasPrefix p "//" = false ->
  HasPrefix (redirectTarget p) "/" = true /\ HasPrefix (redirectTarget p) "//" = false.
Proof.
  intros H1 H2. unfold redirectTarget. rewrite H1, H2. cbn [negb andb]. destruct (parseRooted p); [|done].
  destruct (Cut p "?") as [[pp q] f]. destruct (pathClean_shape pp) as [->|(c & t & -> & Hc)].
  - rewrite andb_false_r. by destruct f.
  - assert (Hd : forall x, HasPrefix (String "/" (String c t) ++ x) "/" = true /\
                           HasPrefix (String "/" (String c t) ++ x) "//" = false).
    { intros x. split; [done|]. cbn [String.append HasPrefix].
      destruct (Ascii.eqb_spec "/" c) as [<-|]; [done|]. by rewrite andb_false_r. }
    destruct (endsWithSlash pp && _); [rewrite <- sapp_assoc|]; apply Hd.
Qed.

Lemma sanitize_ok p : sanitizeReturnPath p <> "" ->
  sanitizeReturnPath p = p /\ HasPrefix p "/" = true /\ HasPrefix p "//" = false.
Proof.
  unfold sanitizeReturnPath. destruct (String.eqb p ""); [done|]. destruct (HasPrefix p "/"); [|done]. cbn [negb].
  destruct (HasPrefix p "//"); [done|]. destruct (HasPrefix p "/\"); done.
Qed.

(** A path of three segments whose middle one is a dot. *)
Lemma redirectTarget_dot h : plainHost h = true ->
  sanitizeReturnPath ("/./\" ++ h) = "/./\" ++ h /\ redirectTarget ("/./\" ++ h) = "/\" ++ h.
Proof.
  intros Hh. split; [done|].
  assert (Hno : forall c, plainHostByte c = false -> ContainsByte h c = false)
    by (intros c Hc; by apply (string_forallb_no_byte plainHostByte)).
  assert (Hctl : existsb isCTL (list_ascii_of_string ("/./\" ++ h)) = false).
  { cbn [String.append list_ascii_of_string existsb]. simpl. clear Hno. unfold plainHost in Hh.
    induction h as [|c h IH]; [done|]. simpl in *. apply andb_true_iff in Hh as [Hc Hh]. rewrite IH by done.
    rewrite orb_false_r. destruct c as [[] [] [] [] [] [] [] []]; done. }
  assert (Hp : parseRooted ("/./\" ++ h) = true).
  { unfold parseRooted. rewrite !Cut_absent by (simpl; by rewrite Hno). rewrite Hctl. cbn [negb andb].
    rewrite PathUnescape_plain by (simpl; by rewrite Hno). done. }
  unfold redirectTarget. rewrite Hp. rewrite Cut_absent by (simpl; by rewrite Hno).
  assert (Hc : pathClean ("/./\" ++ h) = "/\" ++ h).
  { unfold pathClean. change ("/./\" ++ h) with (String "/" (String "." (String "/" (String "\" h)))). cbn [Split Ascii.eqb].
    simpl. rewrite (Split_absent h "/") by (by apply Hno). done. }
  assert (Hs : endsWithSlash ("/./\" ++ h) = false).
  { unfold endsWithSlash. change ("/./\" ++ h) with (String "/" (String "." (String "/" (String "\" h)))).
    cbn [LastFrom]. by rewrite LastFrom_absent by (by apply Hno). }
  rewrite Hc, Hs. cbn [andb]. by rewrite sapp_nil_r.
Qed.

(** ** Theorems *)

Section FlowFacts.
Context `{UnicodeTables} `{Outside} {L : Type} `{!Logger L}.
Abbreviation State := (ServerState L).

Lemma rawurl_utf8 s : utf8_Valid (RawURLEncoding_EncodeToString s) = true.
Proof. apply ascii_utf8. apply base64_encode_chars. by vm_compute. Qed.

Lemma sanitize_utf8 p : utf8_Valid p = true -> utf8_Valid (sanitizeReturnPath p) = true.
Proof.
  intros Hp. destruct (String.eqb_spec (sanitizeReturnPath p) "") as [->|Hne]; [done|].
  by destruct (sanitize_ok p Hne) as [-> _].
Qed.

Lemma pkcePayload_wf st ver nonce ret : utf8_Valid st = true -> utf8_Valid ver = true -> utf8_Valid nonce = true ->
  utf8_Valid ret = true -> wfPayload (pkcePayload st ver nonce ret).
Proof.
  intros H1 H2 H3 H4. split; [done|]. split; [by vm_compute|]. cbn [sp_Identity pkcePayload].
  unfold wfIdentity. cbn [pi_Subject pi_Email pi_Name pi_AuthType pi_Claims pi_APIKeyID].
  apply andb_true_iff. split; [done|]. apply forallb_forall. intros [k j] Hin.
  apply list_elem_of_In, elem_of_map_to_list, elem_of_list_to_map_2 in Hin. cbn [fst snd].
  set_unfold in Hin. destruct_or! Hin; injection Hin as -> ->; cbn [wfJson]; by rewrite ?H1, ?H2, ?H3, ?H4.
Qed.

Lemma pkce_claims st ver nonce ret : exists i, sp_Identity (pkcePayload st ver nonce ret) = Some i /\
  strClaim (pi_Claims i) "state" = st /\ strClaim (pi_Claims i) "verifier" = ver /\
  strClaim (pi_Claims i) "nonce" = nonce /\ strClaim (pi_Claims i) "return" = ret.
Proof. eexists. split; [reflexivity|]. repeat split; vm_compute; reflexivity. Qed.

Lemma consumeNonce_fresh n now used : n <> "" -> used !! n = None ->
  (consumeNonce n now used).1 = true /\ (consumeNonce n now used).2 !! n = Some now.
Proof.
  intros Hn Hu. unfold consumeNonce. destruct (String.eqb_spec n ""); [done|].
  set (live := filter _ used). assert (Hl : live !! n = None) by (apply map_lookup_filter_None; by left).
  rewrite Hl. simpl. by rewrite lookup_insert_eq.
Qed.

(** A login nonce is accepted once per ten minutes.  After a nonce was accepted at [t], every
    further use of it up to ten minutes later is refused, whatever other callbacks came in between;
    but a use after more than ten minutes, with nothing in between, is accepted again. *)
Theorem nonce_single_use (n : string) (t t' : Time) (used : gmap string Time) (calls : list (string * Time))
  (Hok : (consumeNonce n t used).1 = true) (Hcalls : Forall (fun c => c.2 <= t') calls) :
  (Sub t' t <= nonceTTL -> (consumeNonce n t' (afterCalls (consumeNonce n t used).2 calls)).1 = false) /\
  (nonceTTL < Sub t' t -> (consumeNonce n t' (consumeNonce n t used).2).1 = true).
Proof.
  assert (Hn : String.eqb n "" = false /\ (consumeNonce n t used).2 !! n = Some t).
  { unfold consumeNonce in *. destruct (String.eqb n ""); [done|]. split; [done|].
    destruct (bool_decide _); [done|]. apply lookup_insert_eq. }
  destruct Hn as [Hne Hl]. split; intros Ht.
  - pose proof (afterCalls_keeps n t t' calls _ Hl Ht Hcalls) as Hk. unfold consumeNonce at 1. rewrite Hne.
    set (live := filter _ (afterCalls _ _)).
    assert (Hlive : live !! n = Some t) by (apply map_lookup_filter_Some; split; [done|simpl; lia]).
    rewrite bool_decide_true; [done|]. by rewrite Hlive.
  - unfold consumeNonce at 1. rewrite Hne. set (live := filter _ (consumeNonce n t used).2).
    assert (Hlive : live !! n = None).
    { apply map_lookup_filter_None. right. intros x Hx. rewrite Hl in Hx. injection Hx as <-. simpl. lia. }
    rewrite bool_decide_false; [done|]. rewrite Hlive. by intros [].
Qed.

(** C15: the portal is never anonymous.  A request reaches a portal handler only as the identity of a
    session cookie that verifies, or, when it carries a key or bearer header, as the identity the
    credential chain resolved, unless that one is anonymous; any other request is answered 401 with
    a challenge and the handler is not called, even where the chain allows anonymous access.  Nothing
    else happens on the way but that the API keys the chain matched have their last use updated. *)
Theorem portal_never_anonymous (sessions : option SessionStore) (chain : option Chain) (next : Handler State)
  (env : Env) (r : Request) (s : State) (w : conn) (Hfresh : c_wroteHeader w = false) :
  let s' := touchKeys (portalTouches sessions chain env r) s in
  (exists id, PortalAuth_Middleware sessions chain next conn _ env r (s, w) =
       next conn _ env (WithContext r (WithPortalIdentity (r_Context r) id)) (s', w) /\
     ((exists st, sessions = Some st /\ Read st (env_start env) r = Some id) \/
      (exists c i, chain = Some c /\ hasCredential r = true /\ Chain_Authenticate c r = Ok i /\
         id_AuthType i <> "anonymous" /\ id = adaptInboundIdentity i))) \/
  ((PortalAuth_Middleware sessions chain next conn _ env r (s, w)).1 = s' /\
   finalStatus (PortalAuth_Middleware sessions chain next conn _ env r (s, w)).2 = 401).
Proof.
  unfold PortalAuth_Middleware. destruct (portalIdentity sessions chain env r) as [id|] eqn:E.
  - left. exists id. split; [done|]. unfold portalIdentity in E.
    destruct (sessions ≫= _) as [id'|] eqn:Es.
    + injection E as ->. left. destruct sessions as [st|]; [|done]. by exists st.
    + right. destruct chain as [c|]; [|done]. destruct (hasCredential r); [|done].
      destruct (Chain_Authenticate c r) as [i|] eqn:Ec; [|done].
      destruct (String.eqb_spec (id_AuthType i) "anonymous"); [done|]. injection E as <-. by exists c, i.
  - right. split; [done|]. unfold exec, portalUnauthorized, finalStatus. simpl.
    unfold conn_WriteHeader. simpl. rewrite Hfresh. done.
Qed.

(** What [exchangeCode] sent and received. *)
Lemma exchangeCode_sound b env code verifier tok : exchangeCode b env code verifier = Ok tok ->
  exists form body fs, tokenEndpoint env (mkTokenRequest (ba_tokenURL b) (Values_Encode form)
      (if String.eqb (oc_ClientSecret (ba_cfg b)) "" then None else Some (oc_ClientID (ba_cfg b), oc_ClientSecret (ba_cfg b)))) = Some (200, body) /\
    form !! "grant_type" = Some "authorization_code" /\ form !! "code" = Some code /\ form !! "code_verifier" = Some verifier /\
    form !! "client_id" = Some (oc_ClientID (ba_cfg b)) /\ form !! "redirect_uri" = Some (ba_baseURL b ++ ba_redirectPath b) /\
    Unmarshal (stake (Z.to_nat (Z.shiftl 1 20)) body) = Some (JObj fs) /\ jstring "id_token" fs = Some tok /\ tok <> "".
Proof.
  unfold exchangeCode, tokenRequest. generalize (Z.to_nat (Z.shiftl 1 20)). intros limit. set (form := list_to_map _). intros Hex. exists form.
  destruct (tokenEndpoint env _) as [[status body]|] eqn:Et; [|done]. 
  destruct (Z.eqb_spec status 200) as [->|]; [|done]. cbn [negb] in Hex. exists body.
  destruct (Unmarshal _) as [[]|] eqn:Eu; try done. destruct (jstring "id_token" _) as [t|] eqn:Ej; [|done].
  destruct (String.eqb_spec t ""); [done|]. injection Hex as ->. eexists. split; [reflexivity|]. split_and!; try reflexivity; [exact Ej|done].
Qed.

Lemma consumeNonce_true n now used used' : consumeNonce n now used = (true, used') ->
  n <> "" /\ (forall t, used !! n = Some t -> 10 * Minute < Sub now t) /\ used' !! n = Some now.
Proof.
  unfold consumeNonce. destruct (String.eqb_spec n ""); [done|]. case_bool_decide as Hl; [done|]. intros [= <-].
  split; [done|]. split; [|apply lookup_insert_eq]. intros t Ht. destruct (Z.lt_ge_cases (10 * Minute) (Sub now t)) as [|Hge]; [done|].
  rewrite (proj2 (map_lookup_filter_Some _ _ _ t)) in Hl; [done|]. split; [done|]. unfold nonceTTL. simpl. lia.
Qed.

(** A callback that signs a user in has used up a nonce that is not accepted again for ten minutes. *)
Lemma callback_needs_nonce b env r used id ret used' v i t : callback b env r used = (Some (SignedIn id ret), used') ->
  r_Cookie r (ss_cookieName (ba_pkceCookie b)) = Some v -> decode (ba_pkceCookie b) v = Ok (mkSessionPayload (Some i) t) ->
  consumeNonce (strClaim (pi_Claims i) "nonce") (env_start env) used = (true, used').
Proof.
  intros Hcb Hck Hd. unfold callback in Hcb. rewrite Hck, Hd in Hcb. cbn [sp_Identity] in Hcb. destruct (_ || _); [done|].
  destruct (consumeNonce _ _ used) as [[] used'']; [|done]. cbn [negb] in Hcb. destruct (String.eqb _ ""); [done|].
  destruct (exchangeCode _ _ _ _) as [tok|]; [|done]. destruct (validator tok); [|done]. by injection Hcb as _ _ <-.
Qed.

(** C13: a session is only issued at the end of a genuine login.  If the callback signs a user in,
    the request carries a PKCE cookie signed under the PKCE secret; its [state] parameter is the
    non-empty state of that cookie; the cookie's nonce is not empty and was not used in the ten minutes
    before; the code was posted to the token endpoint together with the cookie's verifier, and the
    identity is the one the validator found in the ID token of the answer.  The nonce is then used up:
    for the next ten minutes no callback with the same cookie signs anyone in, whatever other
    callbacks come in between.  (After ten minutes the ledger has forgotten it:
    [nonce_single_use].) *)
Theorem callback_sound (b : BrowserAuth) (env : Env) (r : Request) (used used' : gmap string Time)
  (id : PortalIdentity) (ret : string)
  (Hcb : callback b env r used = (Some (SignedIn id ret), used')) :
  exists b64 sig i tok form body fs,
    r_Cookie r (ss_cookieName (ba_pkceCookie b)) = Some (b64 ++ "." ++ sig) /\
    RawURLEncoding_DecodeString sig = Some (hmac_sha256 (ss_secret (ba_pkceCookie b)) b64) /\
    (exists t, decode (ba_pkceCookie b) (b64 ++ "." ++ sig) = Ok (mkSessionPayload (Some i) t)) /\
    q_Get r "state" = strClaim (pi_Claims i) "state" /\ q_Get r "state" <> "" /\
    strClaim (pi_Claims i) "nonce" <> "" /\
    (forall t, used !! strClaim (pi_Claims i) "nonce" = Some t -> 10 * Minute < Sub (env_start env) t) /\
    used' !! strClaim (pi_Claims i) "nonce" = Some (env_start env) /\
    tokenEndpoint env (mkTokenRequest (ba_tokenURL b) (Values_Encode form)
      (if String.eqb (oc_ClientSecret (ba_cfg b)) "" then None else Some (oc_ClientID (ba_cfg b), oc_ClientSecret (ba_cfg b)))) = Some (200, body) /\
    form !! "grant_type" = Some "authorization_code" /\ form !! "code" = Some (q_Get r "code") /\
    form !! "code_verifier" = Some (strClaim (pi_Claims i) "verifier") /\
    Unmarshal (stake (Z.to_nat (Z.shiftl 1 20)) body) = Some (JObj fs) /\ jstring "id_token" fs = Some tok /\
    validator tok = Ok id /\
    (forall calls env2 r2 id2 ret2 used2, Forall (fun c => c.2 <= env_start env2) calls -> Sub (env_start env2) (env_start env) <= 10 * Minute ->
       r_Cookie r2 (ss_cookieName (ba_pkceCookie b)) = r_Cookie r (ss_cookieName (ba_pkceCookie b)) ->
       callback b env2 r2 (afterCalls used' calls) <> (Some (SignedIn id2 ret2), used2)).
Proof.
  pose proof Hcb as Hcb0. unfold callback in Hcb. destruct (r_Cookie r _) as [v|] eqn:Ev; [|done].
  destruct (decode (ba_pkceCookie b) v) as [[oi t]|] eqn:Ed; [|done]. cbn [sp_Identity] in Hcb.
  destruct oi as [i|]; [|done]. pose proof (callback_needs_nonce _ _ _ _ _ _ _ _ _ _ Hcb0 Ev Ed) as Hn.
  destruct (consumeNonce_true _ _ _ _ Hn) as (Hn1 & Hn2 & Hn3).
  destruct (decode_signed _ _ _ Ed) as (b64 & sig & -> & _ & Hs).
  destruct (String.eqb_spec (q_Get r "state") (strClaim (pi_Claims i) "state")) as [Hst|]; [|done].
  destruct (String.eqb_spec (strClaim (pi_Claims i) "state") "") as [|Hne]; [done|]. cbn [negb orb] in Hcb. rewrite Hn in Hcb. cbn [negb] in Hcb.
  destruct (String.eqb (q_Get r "code") ""); [done|].
  destruct (exchangeCode b env _ _) as [tok|] eqn:Ex; [|done].
  destruct (validator tok) as [id'|] eqn:Evl; [|done]. injection Hcb as -> _.
  destruct (exchangeCode_sound _ _ _ _ _ Ex) as (form & body & fs & H1 & H2 & H3 & H4 & _ & _ & H5 & H6 & _).
  exists b64, sig, i, tok, form, body, fs. rewrite Hst. split_and!; try done; [by exists t|].
  intros calls env2 r2 id2 ret2 used2 Hcalls Hsoon Hck Hcb2.
  pose proof (callback_needs_nonce _ _ _ _ _ _ _ _ _ _ Hcb2 Hck Ed) as Hagain.
  pose proof (proj1 (nonce_single_use (strClaim (pi_Claims i) "nonce") (env_start env) (env_start env2) used calls
    ltac:(by rewrite Hn) Hcalls) Hsoon) as Hno. rewrite Hn in Hno. cbn [snd] in Hno. by rewrite Hagain in Hno.
Qed.

(** Where the return path can lead.  A return path the sanitizer lets through is redirected to a
    rooted location that is never scheme-relative ("//..."): the clean-up of the redirect cannot
    produce one.  But it can produce the backslash form the sanitizer means to exclude: for every
    plain host name, [/./\host] is let through and becomes the location [/\host]. *)
Theorem return_path_redirect (p h : string) (Hp : sanitizeReturnPath p <> "") (Hh : plainHost h = true) :
  (HasPrefix (redirectTarget (sanitizeReturnPath p)) "/" = true /\
   HasPrefix (redirectTarget (sanitizeReturnPath p)) "//" = false) /\
  sanitizeReturnPath ("/\" ++ h) = "" /\
  sanitizeReturnPath ("/./\" ++ h) = "/./\" ++ h /\
  redirectTarget (sanitizeReturnPath ("/./\" ++ h)) = "/\" ++ h.
Proof.
  destruct (redirectTarget_dot h Hh) as [H1 H2]. rewrite H1. destruct (sanitize_ok p Hp) as (-> & Hs & Hss).
  split; [by apply redirectTarget_local|done].
Qed.

(** The path the browser is sent back to: what was asked for if it is rooted and neither
    scheme-relative nor starts with a slash and a backslash, and the portal otherwise. *)
Definition returnsTo (asked : string) : string :=
  match asked with
  | String "/" (String "/" _) | String "/" (String "\" _) => "/portal/"
  | String "/" _ => asked
  | _ => "/portal/"
  end.
Lemma sanitize_returnsTo asked :
  (if String.eqb (sanitizeReturnPath asked) "" then "/portal/" else sanitizeReturnPath asked) = returnsTo asked.
Proof.
  unfold sanitizeReturnPath. destruct asked as [|a [|c s]]; [done|..]; cbn [String.eqb HasPrefix]; rewrite ?andb_true_r.
  - destruct (Ascii.eqb_spec "/" a) as [<-|Hne]; [done|]. cbn. by destruct a as [[] [] [] [] [] [] [] []].
  - destruct (Ascii.eqb_spec "/" a) as [<-|Hne]; cbn [negb andb]; [|by destruct a as [[] [] [] [] [] [] [] []]].
    destruct (Ascii.eqb_spec "/" c) as [<-|H1]; [done|]. destruct (Ascii.eqb_spec "\" c) as [<-|H2]; [done|]. cbn [orb String.eqb].
    by destruct c as [[] [] [] [] [] [] [] []].
Qed.


End FlowFacts.

(** ** Witnesses *)

#[local] Existing Instance ascii_tables.

(** A provider that answers every token request with one token, and a validator that knows it. *)
Definition sampleOutside : Outside := {|
  rand_Read := fun _ i n => Some (Repeat (str1 (ascii_of_nat (97 + i))) n);
  tokenEndpoint := fun _ tr => if String.eqb (tr_URL tr) "https://idp.example/token"
    then Some (200, json_text (JObj [("id_token", JStr "tok-1")])) else None;
  discoveryDocument := fun url => Some (200, json_text (JObj [("authorization_endpoint", JStr "https://idp.example/authorize");
    ("token_endpoint", JStr "https://idp.example/token")]));
  validator := fun t => if String.eqb t "tok-1" then Ok sampleUser else Err "unknown token" |}.
#[local] Existing Instance sampleOutside.

Definition samplePKCE : SessionStore := mkSessionStore "api_test_pkce" "fedcba9876543210" true (12 * Hour).
Definition sampleBrowserAuth : BrowserAuth :=
  mkBrowserAuth (mkOIDCConfig true "https://idp.example" "" "client-1" "" [] 0 0 false) "https://app.example"
    "/portal/auth/callback" sampleStore samplePKCE "https://idp.example/authorize" "https://idp.example/token".
Definition stateOf (c : ascii) (n : nat) : string := RawURLEncoding_EncodeToString (Repeat (str1 c) n).
Definition portalRequest (path query : string) (cookies : list (string * string)) : Request :=
  mkRequest "GET" path path query ∅ "app.example" false "10.0.0.1:5" None ∅ cookies Background.
Definition loginRequest : Request := portalRequest "/portal/auth/login" "return=/portal/audit" [].
Definition pkceValue : string :=
  default "" (encode samplePKCE (pkcePayload (stateOf "a" 32) (stateOf "b" 64) (stateOf "c" 16) "/portal/audit")).
Definition callbackWith (v : string) : Request :=
  portalRequest "/portal/auth/callback" ("code=c1&state=" ++ stateOf "a" 32) [("api_test_pkce", v)].
Definition callbackRequest : Request := callbackWith pkceValue.
Definition envAt (t : Time) : Env := mkEnv t t "req-1" "ev-1" (fun _ => false) 0 (0, 0) (fun s => [s]).

Lemma nonce_single_use_witness :
  (consumeNonce "n" (5 * Minute) (afterCalls (consumeNonce "n" 0 ∅).2 [("m", Minute); ("n", 2 * Minute)])).1 = false /\
  (consumeNonce "n" (11 * Minute) (consumeNonce "n" 0 ∅).2).1 = true.
Proof.
  destruct (nonce_single_use "n" 0 (5 * Minute) ∅ [("m", Minute); ("n", 2 * Minute)]) as [H1 _];
    [vm_compute; reflexivity|apply Forall_forall; intros c Hc; set_unfold in Hc; destruct_or! Hc; subst; by vm_compute|].
  destruct (nonce_single_use "n" 0 (11 * Minute) ∅ []) as [_ H2]; [vm_compute; reflexivity|constructor|].
  split; [apply H1; by vm_compute|apply H2; by vm_compute].
Defined.

Lemma return_path_redirect_witness :
  HasPrefix (redirectTarget (sanitizeReturnPath "/a/..//b")) "//" = false /\
  redirectTarget (sanitizeReturnPath "/./\evil.example") = "/\evil.example".
Proof.
  destruct (return_path_redirect "/a/..//b" "evil.example") as ((_ & H1) & _ & _ & H2); [done|done|].
  split; [exact H1|exact H2].
Defined.

Lemma callback_sound_witness : exists b64 sig,
  r_Cookie callbackRequest "api_test_pkce" = Some (b64 ++ "." ++ sig) /\
  RawURLEncoding_DecodeString sig = Some (hmac_sha256 "fedcba9876543210" b64).
Proof.
  destruct (callback_sound sampleBrowserAuth (envAt 0) callbackRequest ∅ {[stateOf "c" 16 := 0]} sampleUser "/portal/audit")
    as (b64 & sig & i & tok & form & body & fs & H1 & H2 & _); [vm_compute; reflexivity|].
  exists b64, sig. split; [exact H1|exact H2].
Defined.


Lemma portal_never_anonymous_witness :
  finalStatus (PortalAuth_Middleware (L := unit) (Some sampleStore) None (fun W _ _ _ sw => sw) conn _ (envAt 0) loginRequest
                 (mkState tt None [] "" true ∅ [], newConn)).2 = 401.
Proof.
  destruct (portal_never_anonymous (L := unit) (Some sampleStore) None (fun W _ _ _ sw => sw) (envAt 0) loginRequest
    (mkState tt None [] "" true ∅ []) newConn) as [(id & _ & [(st & H1 & H2)|(c & i & H1 & _)])|[_ H]]; [done|..|exact H].
  - injection H1 as <-. exfalso. vm_compute in H2. discriminate H2.
  - discriminate H1.
Defined.
