(* ===== verification/Sql.v ===== *)
(** * PostgreSQL as api-test uses it ([pkg/database/migrate/migrations/0001_init.up.sql])

    The database is a service the program talks to in SQL texts with numbered parameters.  This
    file holds the schema of the migration, a reader for the statements the program sends, their
    documented meaning over tables of rows ([NULL] and three-valued conditions included), and the
    class [Postgres]: a server that answers every such statement as documented.  What depends on
    the server's set-up, the collation of [ORDER BY], the case folding of [ILIKE], the rounding of
    [TIMESTAMPTZ] and the normal form of [JSONB], is a field of the class. *)
From S2P Require Import Prelude GoStrings GoNum GoTime GoUrl Json JsonParse MemoryLog.

(** ** Values and tables *)

Inductive sqlval :=
| VNull
| VText (s : string)
| VInt (z : Z)
| VBool (b : bool)
| VTime (t : Time)
| VBytes (s : string)
| VJsonb (text : string).
#[global] Instance sqlval_eq_dec : EqDecision sqlval.
Proof. solve_decision. Defined.

Abbreviation row := (gmap string sqlval).
Abbreviation table := (list (gmap string sqlval)).
Abbreviation database := (gmap string (list (gmap string sqlval))).

Definition col (r : row) (c : string) : sqlval := default VNull (r !! c).
Definition rows (db : database) (t : string) : table := default [] (db !! t).

(** ** The schema *)

Inductive sqltype := SText | SInteger | SBigint | SBoolean | STimestamptz | SBytea | SJsonb.
Inductive dflt := DNull | DVal (v : sqlval) | DNow.
Record column := mkColumn { cl_name : string; cl_type : sqltype; cl_notNull : bool; cl_default : dflt }.
Record tabledef := mkTable {
  td_columns : list column;
  td_unique : list string;                     (** primary key and unique columns *)
  td_refs : list (string * (string * string)); (** a column and the table and column it references *)
  td_indexed : list string                     (** the text columns that have a b-tree index *)
}.

Definition api_keys_def : tabledef := mkTable
  [mkColumn "id" SText true DNull; mkColumn "name" SText true DNull; mkColumn "hash" SText true DNull;
   mkColumn "description" SText false DNull; mkColumn "created_by" SText false DNull;
   mkColumn "created_at" STimestamptz true DNow; mkColumn "expires_at" STimestamptz false DNull;
   mkColumn "last_used_at" STimestamptz false DNull] ["id"; "name"] [] ["id"; "name"].

Definition audit_events_def : tabledef := mkTable
  [mkColumn "id" SText true DNull; mkColumn "ts" STimestamptz true DNull; mkColumn "duration_ms" SBigint true DNull;
   mkColumn "request_id" SText false DNull; mkColumn "session_id" SText false DNull;
   mkColumn "user_subject" SText false DNull; mkColumn "user_email" SText false DNull;
   mkColumn "auth_type" SText false DNull; mkColumn "api_key_name" SText false DNull;
   mkColumn "method" SText true DNull; mkColumn "path" SText true DNull;
   mkColumn "route_name" SText false DNull; mkColumn "endpoint_group" SText false DNull;
   mkColumn "status" SInteger true DNull; mkColumn "bytes_in" SInteger true (DVal (VInt 0));
   mkColumn "bytes_out" SInteger true (DVal (VInt 0)); mkColumn "success" SBoolean true DNull;
   mkColumn "error_message" SText false DNull; mkColumn "error_category" SText false DNull;
   mkColumn "remote_addr" SText false DNull; mkColumn "user_agent" SText false DNull] ["id"] []
  ["id"; "route_name"; "path"; "user_subject"; "session_id"].

Definition audit_payloads_def : tabledef := mkTable
  [mkColumn "event_id" SText true DNull; mkColumn "request_headers" SJsonb false DNull;
   mkColumn "request_query" SJsonb false DNull; mkColumn "request_content_type" SText false DNull;
   mkColumn "request_body" SBytea false DNull; mkColumn "request_size_bytes" SInteger true (DVal (VInt 0));
   mkColumn "request_truncated" SBoolean true (DVal (VBool false)); mkColumn "request_remote_addr" SText false DNull;
   mkColumn "response_headers" SJsonb false DNull; mkColumn "response_content_type" SText false DNull;
   mkColumn "response_body" SBytea false DNull; mkColumn "response_size_bytes" SInteger true (DVal (VInt 0));
   mkColumn "response_truncated" SBoolean true (DVal (VBool false)); mkColumn "replayed_from" SText false DNull;
   mkColumn "captured_at" STimestamptz true DNow]
  ["event_id"] [("event_id", ("audit_events", "id")); ("replayed_from", ("audit_events", "id"))]
  ["event_id"; "replayed_from"].

Definition schema (t : string) : option tabledef :=
  if String.eqb t "api_keys" then Some api_keys_def
  else if String.eqb t "audit_events" then Some audit_events_def
  else if String.eqb t "audit_payloads" then Some audit_payloads_def
  else None.

Definition typeOf (td : tabledef) (c : string) : option sqltype :=
  option_map cl_type (find (fun k => String.eqb (cl_name k) c) (td_columns td)).

(** ** Statements *)

Inductive operand := Param (n : Z) | Now.
Inductive cond :=
| Cmp (op c : string) (x : operand)
| IsNull (c : string)
| And (a b : cond)
| Or (a b : cond).
Inductive sexpr := Col (c : string) | Coalesce (c : string).   (** [COALESCE(c, '')] *)
Inductive stmt :=
| SInsert (t : string) (cols : list string) (params : list Z)
| SSelect (es : option (list sexpr)) (t : string) (w : option cond) (order : list (string * bool)) (page : option (Z * Z))
| SDelete (t : string) (w : cond)
| SUpdateNow (t c : string) (w : cond).

(** *** Tokens: words between white space; parentheses and commas stand alone. *)

Definition isBlank (c : ascii) : bool := (byte c =? 32) || (byte c =? 9) || (byte c =? 10).
Definition isPunct (c : ascii) : bool := Ascii.eqb c "(" || Ascii.eqb c ")" || Ascii.eqb c ",".
Definition flush (w : string) (ts : list string) : list string := if String.eqb w "" then ts else w :: ts.
Fixpoint lex (w s : string) : list string :=
  match s with
  | EmptyString => flush w []
  | String c s' =>
    if isBlank c then flush w (lex "" s')
    else if isPunct c then flush w (str1 c :: lex "" s')
    else lex (w ++ str1 c) s'
  end.

(** *** Grammar *)

Abbreviation tokens := (list string).

Definition parseParam (t : string) : option Z :=
  match t with
  | String "$" n => match Atoi n with (v, None) => if 0 <? v then Some v else None | _ => None end
  | _ => None
  end.
Definition cmpOps : list string := ["="; ">="; "<="; ">"; "ILIKE"].

(** The tokens after the words [ws], if the tokens begin with them. *)
Fixpoint after (ws : list string) (ts : tokens) : option tokens :=
  match ws, ts with
  | [], _ => Some ts
  | w :: ws', t :: ts' => if String.eqb w t then after ws' ts' else None
  | _ :: _, [] => None
  end.

Inductive level := LOr | LAnd | LPrim.
Definition parseAtom (ts : tokens) : option (cond * tokens) :=
  match ts with
  | c :: rest =>
    match after ["IS"; "NULL"] rest with
    | Some ts' => Some (IsNull c, ts')
    | None =>
      match rest with
      | op :: x :: ts' =>
        if existsb (String.eqb op) cmpOps then
          match after ["now"; "("; ")"] (x :: ts') with
          | Some ts'' => Some (Cmp op c Now, ts'')
          | None => n ← parseParam x; Some (Cmp op c (Param n), ts')
          end
        else None
      | _ => None
      end
    end
  | [] => None
  end.
Fixpoint parseCond (fuel : nat) (l : level) (ts : tokens) : option (cond * tokens) :=
  match fuel with
  | O => None
  | S fuel' =>
    match l with
    | LOr =>
      '(a, ts) ← parseCond fuel' LAnd ts;
      match after ["OR"] ts with
      | Some ts' => '(b, ts) ← parseCond fuel' LOr ts'; Some (Or a b, ts)
      | None => Some (a, ts)
      end
    | LAnd =>
      '(a, ts) ← parseCond fuel' LPrim ts;
      match after ["AND"] ts with
      | Some ts' => '(b, ts) ← parseCond fuel' LAnd ts'; Some (And a b, ts)
      | None => Some (a, ts)
      end
    | LPrim =>
      match after ["("] ts with
      | Some ts' => '(a, ts) ← parseCond fuel' LOr ts'; ts ← after [")"] ts; Some (a, ts)
      | None => parseAtom ts
      end
    end
  end.
Definition condFuel (ts : tokens) : nat := 3 * length ts + 3.

(** Comma-separated names up to the closing parenthesis. *)
Fixpoint parseNames (ts : tokens) : option (list string * tokens) :=
  match ts with
  | x :: sep :: ts' =>
    if String.eqb sep ")" then Some ([x], ts')
    else if String.eqb sep "," then '(xs, ts) ← parseNames ts'; Some (x :: xs, ts) else None
  | _ => None
  end.

(** The select list up to [FROM]; [fuel] bounds its number of entries. *)
Definition parseExpr (ts : tokens) : option (sexpr * tokens) :=
  match after ["COALESCE"; "("] ts with
  | Some (c :: ts') => ts ← after [","; "''"; ")"] ts'; Some (Coalesce c, ts)
  | Some [] => None
  | None => match ts with c :: ts' => Some (Col c, ts') | [] => None end
  end.
Fixpoint parseExprs (fuel : nat) (ts : tokens) : option (list sexpr * tokens) :=
  match fuel with
  | O => None
  | S fuel' =>
    '(e, ts) ← parseExpr ts;
    match ts with
    | sep :: ts' =>
      if String.eqb sep "FROM" then Some ([e], ts')
      else if String.eqb sep "," then '(es, ts) ← parseExprs fuel' ts'; Some (e :: es, ts) else None
    | [] => None
    end
  end.

Fixpoint parseOrder (fuel : nat) (ts : tokens) : option (list (string * bool) * tokens) :=
  match fuel, ts with
  | S fuel', c :: d :: ts' =>
    desc ← (if String.eqb d "DESC" then Some true else if String.eqb d "ASC" then Some false else None);
    match after [","] ts' with
    | Some ts'' => '(os, ts) ← parseOrder fuel' ts''; Some ((c, desc) :: os, ts)
    | None => Some ([(c, desc)], ts')
    end
  | _, _ => None
  end.

Definition parseNum (t : string) : option Z :=
  match Atoi t with (v, None) => if 0 <=? v then Some v else None | _ => None end.

(** What follows the select list. *)
Definition parseWhere (ts : tokens) : option (option cond * tokens) :=
  match after ["WHERE"] ts with
  | Some ts' => '(c, ts) ← parseCond (condFuel ts') LOr ts'; Some (Some c, ts)
  | None => Some (None, ts)
  end.
Definition parseTail (ts : tokens) : option (list (string * bool) * option (Z * Z)) :=
  '(os, ts) ← match after ["ORDER"; "BY"] ts with Some ts' => parseOrder (length ts') ts' | None => Some ([], ts) end;
  match ts with
  | [] => Some (os, None)
  | [l; n; o; m] =>
    if String.eqb l "LIMIT" && String.eqb o "OFFSET" then n ← parseNum n; m ← parseNum m; Some (os, Some (n, m)) else None
  | _ => None
  end.
Definition finish {A} (ts : tokens) (x : A) : option A := match ts with [] => Some x | _ => None end.
Definition parseFrom (es : option (list sexpr)) (ts : tokens) : option stmt :=
  match ts with
  | t :: ts => '(w, ts) ← parseWhere ts; '(os, pg) ← parseTail ts; Some (SSelect es t w os pg)
  | [] => None
  end.

Definition parseInsert (ts : tokens) : option stmt :=
  match ts with
  | t :: ts =>
    ts ← after ["("] ts; '(cols, ts) ← parseNames ts; ts ← after ["VALUES"; "("] ts;
    '(ps, ts) ← parseNames ts; ps ← mapM parseParam ps; finish ts (SInsert t cols ps)
  | [] => None
  end.
Definition parseDelete (ts : tokens) : option stmt :=
  match ts with
  | t :: ts => ts ← after ["WHERE"] ts; '(c, ts) ← parseCond (condFuel ts) LOr ts; finish ts (SDelete t c)
  | [] => None
  end.
Definition parseUpdate (ts : tokens) : option stmt :=
  match ts with
  | t :: ts =>
    ts ← after ["SET"] ts;
    match ts with
    | c :: ts => ts ← after ["="; "now"; "("; ")"; "WHERE"] ts; '(w, ts) ← parseCond (condFuel ts) LOr ts; finish ts (SUpdateNow t c w)
    | [] => None
    end
  | [] => None
  end.
Definition parseSelect (ts : tokens) : option stmt :=
  match after ["count"; "("; "*"; ")"; "FROM"] ts with
  | Some ts' => parseFrom None ts'
  | None => '(es, ts) ← parseExprs (length ts) ts; parseFrom (Some es) ts
  end.

Definition parseStmt (ts : tokens) : option stmt :=
  match ts with
  | k :: ts' =>
    if String.eqb k "SELECT" then parseSelect ts'
    else if String.eqb k "INSERT" then after ["INTO"] ts' ≫= parseInsert
    else if String.eqb k "DELETE" then after ["FROM"] ts' ≫= parseDelete
    else if String.eqb k "UPDATE" then parseUpdate ts'
    else None
  | [] => None
  end.
Definition parseSQL (sql : string) : option stmt := parseStmt (lex "" sql).

Example parse_delete : parseSQL "DELETE FROM api_keys WHERE name = $1" = Some (SDelete "api_keys" (Cmp "=" "name" (Param 1))).
Proof. reflexivity. Qed.

(** ** What depends on the server *)

Definition NUL : ascii := chr 0.
(** [TEXT] holds UTF-8 without the zero character. *)
Definition textOK (s : string) : bool := utf8_Valid s && negb (ContainsByte s NUL).

(** The maps of string lists that the program stores as [JSONB], as [json.Marshal] writes them. *)
Definition mapText (m : gmap string (list string)) : string := json_text (json_of_map json_strings m).
Definition mapValid (p : string -> bool) (m : gmap string (list string)) : Prop :=
  map_Forall (fun k vs => p k = true /\ Forall (fun v => p v = true) vs) m.

(** [json.Unmarshal] into a [map[string][]string] that is nil: an entry of another type is stored
    as the zero value, and so is an element that is not a string; the error is not looked at. *)
Definition stringsOf (j : json) : list string :=
  match j with JArr l => map (fun x => match x with JStr s => s | _ => "" end) l | _ => [] end.
Definition unmarshalMap (s : string) : gmap string (list string) :=
  match Unmarshal s with
  | Some (JObj fs) => foldl (fun m f => <[f.1 := stringsOf f.2]> m) ∅ fs
  | _ => ∅
  end.

Class Locale := {
  (** the collation, deterministic: different texts are never equal *)
  collate : string -> string -> bool;
  collate_weak :: StrictWeak collate;
  collate_det x y : collate x y = false -> collate y x = false -> x = y;
  (** case folding, which on ASCII does not depend on the locale *)
  fold_case : string -> string;
  fold_case_ascii s : isASCII s = true -> fold_case s = string_map lower_ascii s;
  (** [TIMESTAMPTZ] has microseconds *)
  tz_round : Time -> Time;
  tz_mono t u : t <= u -> tz_round t <= tz_round u;
  tz_near t : Z.abs (tz_round t - t) < 1000;
  tz_micro t : t mod 1000 = 0 -> tz_round t = t;
  (** whether a text fits an entry of a b-tree index: an entry of more than 2704 bytes, after
      compression, is refused together with its row *)
  index_entry : string -> bool;
  index_short s : len s <= 2600 -> index_entry s = true;
  (** the text of a [JSONB] value: the same value in a normal form; U+0000 is refused *)
  jsonb_out : string -> option string;
  jsonb_keeps m : mapValid textOK m -> exists t, jsonb_out (mapText m) = Some t /\ t <> "" /\ unmarshalMap t = m;
  jsonb_nul m k vs v : mapValid utf8_Valid m -> m !! k = Some vs -> v ∈ vs -> ContainsByte v NUL = true -> jsonb_out (mapText m) = None
}.

(** ** Meaning of the statements *)

Section Meaning.
Context `{Locale}.

(** A value as a column of the type keeps it; [None]: the value is refused. *)
Definition store_value (ty : sqltype) (v : sqlval) : option sqlval :=
  match ty, v with
  | _, VNull => Some VNull
  | SText, VText s => if textOK s then Some v else None
  | SInteger, VInt z => if (- 2 ^ 31 <=? z) && (z <? 2 ^ 31) then Some v else None
  | SBigint, VInt z => if (minInt <=? z) && (z <=? maxInt) then Some v else None
  | SBoolean, VBool _ => Some v
  | STimestamptz, VTime t => Some (VTime (tz_round t))
  | SBytea, VBytes _ => Some v
  | SJsonb, VBytes s => VJsonb <$> jsonb_out s
  | _, _ => None
  end.

(** [LIKE]: per cent is any text, underscore any one character, backslash makes the next character
    literal. *)
Definition chars (s : string) : list string := map chunk_bytes (utf8_decode s).
Fixpoint like (p t : list string) {struct p} : bool :=
  let literal k p' := match t with c :: t' => String.eqb c k && like p' t' | [] => false end in
  match p with
  | [] => match t with [] => true | _ => false end
  | k :: p' =>
    if String.eqb k "%" then
      (fix star (t : list string) : bool := like p' t || match t with [] => false | _ :: t' => star t' end) t
    else if String.eqb k "_" then match t with _ :: t' => like p' t' | [] => false end
    else if String.eqb k "\" then match p' with k' :: p'' => match t with c :: t' => String.eqb c k' && like p'' t' | [] => false end | [] => false end
    else literal k p'
  end.
Definition ilike (t p : string) : bool := like (chars (fold_case p)) (chars (fold_case t)).

(** The order of values of one type; [NULL] comes last.  Values of different types never meet in a
    column. *)
Definition kind (v : sqlval) : Z :=
  match v with VText _ => 0 | VInt _ => 1 | VBool _ => 2 | VTime _ => 3 | VBytes _ => 4 | VJsonb _ => 5 | VNull => 6 end.
Definition val_lt (a b : sqlval) : bool :=
  match a, b with
  | VText x, VText y => collate x y
  | VInt x, VInt y => x <? y
  | VTime x, VTime y => x <? y
  | VNull, VNull => false
  | _, VNull => true
  | _, _ => kind a <? kind b
  end.
(** The comparison of a column with a value; [None] is unknown. *)
Definition compare_vals (op : string) (a b : sqlval) : option bool :=
  match a, b with
  | VNull, _ | _, VNull => None
  | _, _ =>
    if String.eqb op "=" then Some (bool_decide (a = b))
    else if String.eqb op ">=" then Some (negb (val_lt a b))
    else if String.eqb op "<=" then Some (negb (val_lt b a))
    else if String.eqb op ">" then Some (val_lt b a)
    else match a, b with VText t, VText p => Some (ilike t p) | _, _ => None end
  end.

Definition and3 (a b : option bool) : option bool :=
  match a, b with Some false, _ | _, Some false => Some false | Some true, x => x | None, _ => None end.
Definition or3 (a b : option bool) : option bool :=
  match a, b with Some true, _ | _, Some true => Some true | Some false, x => x | None, _ => None end.

Variables (td : tabledef) (now : Time) (args : list sqlval).

Definition arg (n : Z) : sqlval := default VNull (args !! Z.to_nat (n - 1)).
(** A parameter compared with a column is sent in the column's type. *)
Definition paramVal (c : string) (n : Z) : option sqlval := ty ← typeOf td c; store_value ty (arg n).

Fixpoint eval_cond (r : row) (c : cond) : option bool :=
  match c with
  | Cmp op k (Param n) => v ← paramVal k n; compare_vals op (col r k) v
  | Cmp op k Now => compare_vals op (col r k) (VTime now)
  | IsNull k => Some (bool_decide (col r k = VNull))
  | And a b => and3 (eval_cond r a) (eval_cond r b)
  | Or a b => or3 (eval_cond r a) (eval_cond r b)
  end.
Definition holds (w : option cond) (r : row) : bool :=
  match w with None => true | Some c => match eval_cond r c with Some true => true | _ => false end end.

Definition known (c : string) : bool := match typeOf td c with Some _ => true | None => false end.
(** Known columns, and parameters that can be sent. *)
Fixpoint condOK (c : cond) : bool :=
  match c with
  | Cmp _ k (Param n) => (n <=? Z.of_nat (length args)) && match paramVal k n with Some _ => true | None => false end
  | Cmp _ k Now => match typeOf td k with Some STimestamptz => true | _ => false end
  | IsNull k => known k
  | And a b | Or a b => condOK a && condOK b
  end.
Definition whereOK (w : option cond) : bool := match w with Some c => condOK c | None => true end.
Definition exprCol (e : sexpr) : string := match e with Col c | Coalesce c => c end.

(** *** Rows *)

Definition project1 (r : row) (e : sexpr) : sqlval :=
  match e with Col c => col r c | Coalesce c => match col r c with VNull => VText "" | v => v end end.
Definition project (es : list sexpr) (r : row) : list sqlval := map (project1 r) es.

Fixpoint row_lt (order : list (string * bool)) (r s : row) : bool :=
  match order with
  | [] => false
  | (c, desc) :: os =>
    let lt a b := if desc : bool then val_lt b a else val_lt a b in
    if lt (col r c) (col s c) then true else if lt (col s c) (col r c) then false else row_lt os r s
  end.

Definition paged {A} (page : option (Z * Z)) (l : list A) : list A :=
  match page with None => l | Some (n, m) => take (Z.to_nat n) (drop (Z.to_nat m) l) end.

(** The rows a select may return: the order leaves rows it does not distinguish open. *)
Definition selects (es : option (list sexpr)) (w : option cond) (order : list (string * bool)) (page : option (Z * Z))
  (t : table) (out : list (list sqlval)) : Prop :=
  exists l, l ≡ₚ filter (fun r => holds w r = true) t /\ ordered (row_lt order) l /\
    out = match es with None => [[VInt (Z.of_nat (length l))]] | Some es => map (project es) (paged page l) end.
Definition selectOK (es : option (list sexpr)) (w : option cond) (order : list (string * bool)) : bool :=
  forallb (fun e => known (exprCol e)) (default [] es) && whereOK w && forallb (fun o => known o.1) order.

(** *** Inserting *)

Definition dfltVal (d : dflt) : sqlval := match d with DNull => VNull | DVal v => v | DNow => VTime now end.
Fixpoint lookupParam (c : string) (cols : list string) (params : list Z) : option sqlval :=
  match cols, params with
  | k :: cols', n :: params' => if String.eqb k c then Some (arg n) else lookupParam c cols' params'
  | _, _ => None
  end.
Definition cellOf (cols : list string) (params : list Z) (k : column) : option sqlval :=
  v ← store_value (cl_type k) (default (dfltVal (cl_default k)) (lookupParam (cl_name k) cols params));
  if cl_notNull k && bool_decide (v = VNull) then None else Some v.
Fixpoint newRow (cols : list string) (params : list Z) (ks : list column) : option row :=
  match ks with
  | [] => Some ∅
  | k :: ks' => v ← cellOf cols params k; r ← newRow cols params ks'; Some (<[cl_name k := v]> r)
  end.
Definition present (v : sqlval) (c : string) (t : table) : bool := existsb (fun r => bool_decide (col r c = v)) t.
Definition uniqueOK (t : table) (r : row) : bool :=
  forallb (fun c => bool_decide (col r c = VNull) || negb (present (col r c) c t)) (td_unique td).
Definition refsOK (db : database) (r : row) : bool :=
  forallb (fun '(c, (t', c')) => bool_decide (col r c = VNull) || present (col r c) c' (rows db t')) (td_refs td).
Definition indexOK (r : row) : bool :=
  forallb (fun c => match col r c with VText s => index_entry s | _ => true end) (td_indexed td).
Definition insertInto (t : string) (cols : list string) (params : list Z) (db : database) : option database :=
  if forallb known cols && (length cols =? length params)%nat && (length params =? length args)%nat then
    r ← newRow cols params (td_columns td);
    if uniqueOK (rows db t) r && refsOK db r && indexOK r then Some (<[t := (rows db t ++ [r])%list]> db) else None
  else None.

Definition matchesRow (c : cond) (r : row) : bool := holds (Some c) r.
Definition deleteFrom (t : string) (c : cond) (db : database) : database :=
  <[t := filter (fun r => matchesRow c r = false) (rows db t)]> db.
Definition updateNow (t k : string) (c : cond) (db : database) : database :=
  <[t := map (fun r => if matchesRow c r then <[k := VTime (tz_round now)]> r else r) (rows db t)]> db.
Definition affected (t : string) (c : cond) (db : database) : Z :=
  Z.of_nat (length (filter (fun r => matchesRow c r = true) (rows db t))).

End Meaning.

(** ** The server *)

(** One round trip: the state after it, the rows returned and the number of rows affected.  [now]
    is the server's clock. *)
Class Postgres `{Locale} := {
  pg_run (now : Time) (sql : string) (args : list sqlval) (db : database) :
    res string (database * list (list sqlval) * Z);
  pg_insert now sql args db t cols ps td : parseSQL sql = Some (SInsert t cols ps) -> schema t = Some td ->
    match insertInto td now args t cols ps db with
    | Some db' => pg_run now sql args db = Ok (db', [], 1)
    | None => exists e, pg_run now sql args db = Err e
    end;
  pg_select now sql args db es t w os pg td : parseSQL sql = Some (SSelect es t w os pg) -> schema t = Some td ->
    if selectOK td args es w os
    then exists out, pg_run now sql args db = Ok (db, out, Z.of_nat (length out)) /\
           selects td now args es w os pg (rows db t) out
    else exists e, pg_run now sql args db = Err e;
  (** of a table that no other references *)
  pg_delete now sql args db c : parseSQL sql = Some (SDelete "api_keys" c) ->
    if condOK api_keys_def args c
    then pg_run now sql args db =
      Ok (deleteFrom api_keys_def now args "api_keys" c db, [], affected api_keys_def now args "api_keys" c db)
    else exists e, pg_run now sql args db = Err e;
  pg_update now sql args db k c : parseSQL sql = Some (SUpdateNow "api_keys" k c) ->
    typeOf api_keys_def k = Some STimestamptz ->
    if condOK api_keys_def args c
    then pg_run now sql args db =
      Ok (updateNow api_keys_def now args "api_keys" k c db, [], affected api_keys_def now args "api_keys" c db)
    else exists e, pg_run now sql args db = Err e
}.

(** How a round trip ends for the client: it goes through, it fails before it has an effect, or
    the answer is lost after it. *)
Inductive fate := Through | Refused (e : string) | Lost (e : string).

(** ** Lemmas: tokens *)

Lemma lex_blank w a c b : isBlank c = true -> lex w (a ++ String c b) = (lex w a ++ lex "" b)%list.
Proof.
  intros Hc. revert w. induction a as [|d a IH]; intros w; cbn [String.append lex].
  - rewrite Hc. unfold flush. by case_if.
  - destruct (isBlank d); [|destruct (isPunct d)].
    + rewrite IH. unfold flush. by case_if.
    + rewrite IH. unfold flush. by case_if.
    + apply IH.
Qed.

Lemma lex_punct w a c b : isBlank c = false -> isPunct c = true ->
  lex w (a ++ String c b) = (lex w a ++ str1 c :: lex "" b)%list.
Proof.
  intros Hb Hc. revert w. induction a as [|d a IH]; intros w; cbn [String.append lex].
  - rewrite Hb, Hc. unfold flush. by case_if.
  - destruct (isBlank d); [|destruct (isPunct d)]; rewrite IH; unfold flush; by repeat case_if.
Qed.

Definition wordByte (c : ascii) : bool := negb (isBlank c) && negb (isPunct c).
Lemma lex_word w s : string_forallb wordByte s = true -> lex w s = flush (w ++ s) [].
Proof.
  revert w. induction s as [|c s IH]; intros w Hs; [by rewrite sapp_nil_r|].
  cbn [string_forallb] in Hs. apply andb_true_iff in Hs as [Hc Hs]. unfold wordByte in Hc. bools.
  cbn [lex]. rewrite H, H0. rewrite IH by done. by rewrite <- sapp_assoc.
Qed.

Lemma digits_word s : string_forallb isDigit s = true -> string_forallb wordByte s = true.
Proof.
  apply string_forallb_impl. intros c Hc. unfold isDigit, between in Hc. bools. unfold wordByte, isBlank, isPunct.
  apply andb_true_iff. rewrite !negb_true_iff, !orb_false_iff, !Z.eqb_neq. split_and!; try lia.
  all: apply Ascii.eqb_neq; intros ->; vm_compute in H, H0; done.
Qed.

Lemma lex_Itoa n : 0 <= n -> lex "" (Itoa n) = [Itoa n].
Proof.
  intros Hn. rewrite lex_word by (by apply digits_word, Itoa_digits). unfold flush. cbn [String.append].
  destruct (String.eqb_spec (Itoa n) "") as [E|_]; [|done]. by apply Itoa_nonempty in E.
Qed.

Lemma parseParam_dollar n : 0 < n <= maxInt -> parseParam ("$" ++ Itoa n) = Some n.
Proof.
  intros Hn. cbn [parseParam String.append]. rewrite Atoi_Itoa by (unfold in64, minInt, maxInt in *; lia).
  by destruct (Z.ltb_spec 0 n); [|lia].
Qed.
Lemma parseNum_Itoa n : 0 <= n <= maxInt -> parseNum (Itoa n) = Some n.
Proof.
  intros Hn. unfold parseNum. rewrite Atoi_Itoa by (unfold in64, minInt, maxInt in *; lia).
  by destruct (Z.leb_spec 0 n); [|lia].
Qed.

(** ** Lemmas: rows *)

Lemma newRow_Some `{Locale} now args cols ps ks vs : Forall2 (fun k v => cellOf now args cols ps k = Some v) ks vs ->
  newRow now args cols ps ks = Some (list_to_map (zip (map cl_name ks) vs)).
Proof. induction 1 as [|k v ks vs Hk Hf IH]; [done|]. cbn [newRow]. rewrite Hk, IH. done. Qed.
Lemma newRow_None `{Locale} now args cols ps ks k : k ∈ ks -> cellOf now args cols ps k = None ->
  newRow now args cols ps ks = None.
Proof.
  induction 1 as [k ks|k k' ks Hin IH]; intros Hk; cbn [newRow].
  - by rewrite Hk.
  - rewrite (IH Hk). by destruct (cellOf _ _ _ _ k').
Qed.

Lemma store_text `{Locale} s : textOK s = true -> store_value SText (VText s) = Some (VText s).
Proof. intros Hs. unfold store_value. by rewrite Hs. Qed.

(** A cell whose value the column keeps. *)
Lemma cell_some `{Locale} now args cols ps k v v' :
  default (dfltVal now (cl_default k)) (lookupParam args (cl_name k) cols ps) = v ->
  store_value (cl_type k) v = Some v' -> (cl_notNull k = true -> v' <> VNull) -> cellOf now args cols ps k = Some v'.
Proof.
  intros Hv Hs Hn. unfold cellOf. rewrite Hv, Hs. cbn. destruct (cl_notNull k); [|done].
  rewrite bool_decide_eq_false_2 by auto. done.
Qed.

Lemma cell_text `{Locale} now args cols ps k s v : cl_type k = SText ->
  default (dfltVal now (cl_default k)) (lookupParam args (cl_name k) cols ps) = VText s ->
  cellOf now args cols ps k = Some v -> v = VText s.
Proof.
  intros Ht Hs. unfold cellOf. rewrite Hs, Ht. cbn -[textOK]. destruct (textOK s); [|done]. cbn.
  by destruct (cl_notNull k); intros [= <-].
Qed.
Lemma cell_text_bad `{Locale} now args cols ps k s : cl_type k = SText -> textOK s = false ->
  default (dfltVal now (cl_default k)) (lookupParam args (cl_name k) cols ps) = VText s -> cellOf now args cols ps k = None.
Proof. intros Ht Hb Hs. unfold cellOf. rewrite Hs, Ht. cbn -[textOK]. by rewrite Hb. Qed.

(** The cells of a row, one goal for each value to store. *)
Ltac cells := repeat (apply List.Forall2_cons; [eapply cell_some; [reflexivity| |done]|]); [..|constructor].

Lemma newRow_lookup `{Locale} now args cols ps ks r k : newRow now args cols ps ks = Some r -> NoDup (map cl_name ks) -> k ∈ ks ->
  r !! cl_name k = cellOf now args cols ps k.
Proof.
  revert r. induction ks as [|k' ks IH]; intros r Hr Hnd Hin; [by apply elem_of_nil in Hin|].
  cbn [newRow] in Hr. destruct (cellOf now args cols ps k') as [v|] eqn:Ev; [|done].
  destruct (newRow now args cols ps ks) as [r'|]; [|done]. injection Hr as <-. cbn [map] in Hnd.
  apply NoDup_cons in Hnd as [Hk Hnd]. apply elem_of_cons in Hin as [->|Hin].
  - by rewrite lookup_insert_eq.
  - rewrite lookup_insert_ne; [by apply IH|]. intros E. apply Hk. rewrite E. by apply list_elem_of_fmap_2.
Qed.

Lemma bool_decide_VText a b : bool_decide (VText a = VText b) = String.eqb a b.
Proof. destruct (String.eqb_spec a b) as [->|E]; [by apply bool_decide_eq_true_2|]. apply bool_decide_eq_false_2. congruence. Qed.

Lemma present_map {A} (g : A -> row) (key : A -> string) c s l : (forall x, col (g x) c = VText (key x)) ->
  present (VText s) c (map g l) = bool_decide (s ∈ map key l).
Proof.
  intros Hg. induction l as [|x l IH]; [done|]. cbn [map]. unfold present in *. cbn [existsb]. rewrite IH, Hg.
  destruct (String.eqb_spec (key x) s) as [->|E].
  - rewrite (bool_decide_eq_true_2 (VText s = VText s)) by done. symmetry. apply bool_decide_eq_true_2. set_solver.
  - rewrite (bool_decide_eq_false_2 (VText _ = _)) by congruence. cbn. apply bool_decide_ext. set_solver.
Qed.

Lemma filter_map_bool {A B} (g : A -> B) (p : B -> bool) (q : A -> bool) l : (forall x, p (g x) = q x) ->
  filter (fun y => p y = true) (map g l) = map g (filter (fun x => q x = true) l).
Proof.
  intros Hpq. induction l as [|x l IH]; [done|]. cbn [map]. rewrite !filter_cons, Hpq, IH. by destruct (decide (q x = true)).
Qed.
Lemma ordered_map {A B} (g : A -> B) (less : B -> B -> bool) l : ordered less (map g l) -> ordered (fun x y => less (g x) (g y)) l.
Proof.
  unfold ordered. induction l as [|x l IH]; intros Hl; [constructor|]. cbn [map] in Hl. apply StronglySorted_inv in Hl as [Hl Hx].
  constructor; [auto|]. rewrite Forall_map in Hx. exact Hx.
Qed.

Lemma ordered_ext {A} (l1 l2 : A -> A -> bool) l : (forall x y, x ∈ l -> y ∈ l -> l1 x y = l2 x y) -> ordered l1 l -> ordered l2 l.
Proof.
  unfold ordered. induction l as [|x l IH]; intros He Hl; [constructor|]. apply StronglySorted_inv in Hl as [Hl Hx]. constructor.
  - apply IH; [|done]. intros y z Hy Hz. apply He; by right.
  - rewrite Forall_forall in *. intros y Hy. rewrite <- He; [by apply Hx|by right|by left].
Qed.

Lemma insertInto_Some `{Locale} td now args t cols ps db db' : insertInto td now args t cols ps db = Some db' ->
  exists r, newRow now args cols ps (td_columns td) = Some r /\ db' = <[t := (rows db t ++ [r])%list]> db /\
    uniqueOK td (rows db t) r = true /\ refsOK td db r = true /\ indexOK td r = true.
Proof.
  unfold insertInto. destruct (_ && _); [|done]. destruct (newRow _ _ _ _ _) as [r|]; [|done]. cbn.
  destruct (uniqueOK _ _ _ && refsOK _ _ _ && _) eqn:E; [|done]. apply andb_true_iff in E as [[E1 E2]%andb_true_iff E3]. intros [= <-]. by exists r.
Qed.
Lemma rows_insert db t l : rows (<[t := l]> db) t = l.
Proof. unfold rows. by rewrite lookup_insert_eq. Qed.
Lemma rows_insert_ne db t t' l : t <> t' -> rows (<[t := l]> db) t' = rows db t'.
Proof. intros Ht. unfold rows. by rewrite lookup_insert_ne. Qed.

(** ** Lemmas: stored maps *)

Lemma stringsOf_json vs : stringsOf (json_strings vs) = vs.
Proof. unfold json_strings, stringsOf. rewrite map_map. by rewrite map_id. Qed.

Lemma mapText_wf m : mapValid utf8_Valid m -> wfJson (json_of_map json_strings m) = true.
Proof.
  intros Hm. unfold json_of_map. cbn [wfJson]. apply forallb_forall. intros f Hf.
  apply in_map_iff in Hf as ([k vs] & <- & Hin). apply list_elem_of_In in Hin. rewrite sorted_entries_perm in Hin.
  apply elem_of_map_to_list in Hin. destruct (Hm k vs Hin) as [Hk Hvs]. cbn [fst snd]. rewrite Hk. simpl.
  unfold json_strings. cbn [wfJson]. apply forallb_forall. intros x Hx. apply in_map_iff in Hx as (v & <- & Hv).
  rewrite Forall_forall in Hvs. apply Hvs. by apply list_elem_of_In.
Qed.

Lemma foldl_insert_perm (fs : list (string * list string)) (m0 : gmap string (list string)) :
  NoDup fs.*1 -> foldl (fun m f => <[f.1 := f.2]> m) m0 fs = list_to_map fs ∪ m0.
Proof.
  revert m0. induction fs as [|[k v] fs IH]; intros m0 Hnd; simpl; [by rewrite (left_id_L ∅ (∪))|].
  apply NoDup_cons in Hnd as [Hk Hnd]. rewrite IH by done.
  rewrite <- insert_union_r; [by rewrite insert_union_l|]. by apply not_elem_of_list_to_map.
Qed.

Lemma unmarshalMap_mapText m : mapValid utf8_Valid m -> unmarshalMap (mapText m) = m.
Proof.
  intros Hm. unfold unmarshalMap, mapText. rewrite Unmarshal_json_text by (by apply mapText_wf).
  unfold json_of_map. assert (E : forall fs (m0 : gmap string (list string)), foldl (fun m f => <[f.1 := stringsOf f.2]> m) m0
    (map (fun p : string * list string => (p.1, json_strings p.2)) fs) = foldl (fun m f => <[f.1 := f.2]> m) m0 fs).
  { intros fs. induction fs as [|f fs IH]; intros m0; [done|]. cbn [map foldl fst snd]. by rewrite stringsOf_json, IH. }
  rewrite E, foldl_insert_perm.
  - rewrite (right_id_L ∅ (∪)). rewrite (list_to_map_proper _ (map_to_list m)); [apply list_to_map_to_list| |apply sorted_entries_perm].
    rewrite sorted_entries_perm. apply NoDup_fst_map_to_list.
  - rewrite sorted_entries_perm. apply NoDup_fst_map_to_list.
Qed.

Lemma mapValid_impl (p q : string -> bool) m : (forall s, p s = true -> q s = true) -> mapValid p m -> mapValid q m.
Proof. intros Hpq Hm k vs Hk. destruct (Hm k vs Hk) as [H1 H2]. split; [auto|]. eapply Forall_impl; [exact H2|]. auto. Qed.

(** ** Lemmas: patterns *)

Definition plainPattern (s : string) : bool :=
  string_forallb (fun c => negb (Ascii.eqb c "%" || Ascii.eqb c "_" || Ascii.eqb c "\")) s.

Fixpoint bytesOf (s : string) : list string := match s with EmptyString => [] | String c s' => str1 c :: bytesOf s' end.
Lemma chars_ascii s : isASCII s = true -> chars s = bytesOf s.
Proof.
  intros Hs. unfold chars. rewrite utf8_decode_ascii by done. clear Hs. induction s as [|c s IH]; [done|]. simpl. by rewrite IH.
Qed.

Lemma like_percent p t : like ("%" :: p) t = like p t || match t with [] => false | _ :: t' => like ("%" :: p) t' end.
Proof. by destruct t. Qed.
Lemma like_any t : like ["%"] t = true.
Proof. induction t as [|c t IH]; [done|]. rewrite like_percent, IH. apply orb_true_r. Qed.

Lemma like_prefix s t : plainPattern s = true -> like (bytesOf s ++ ["%"])%list (bytesOf t) = HasPrefix t s.
Proof.
  revert t. induction s as [|c s IH]; intros t Hs; [apply like_any|].
  cbn [plainPattern string_forallb] in Hs. apply andb_true_iff in Hs as [Hc Hs].
  rewrite negb_true_iff, !orb_false_iff in Hc. destruct Hc as [[H1 H2] H3].
  cbn [bytesOf app like]. unfold str1. cbn [String.eqb]. rewrite H1, H2, H3.
  destruct t as [|d t]; [done|]. cbn [bytesOf HasPrefix String.eqb]. unfold str1. cbn [String.eqb]. rewrite (IH t Hs).
  rewrite (Ascii.eqb_sym d c). by destruct (Ascii.eqb c d).
Qed.

Lemma like_contains s t : plainPattern s = true -> like ("%" :: bytesOf s ++ ["%"])%list (bytesOf t) = Contains t s.
Proof.
  intros Hs. induction t as [|c t IH].
  - rewrite like_percent. rewrite (like_prefix s "" Hs). rewrite orb_false_r. by destruct s.
  - rewrite like_percent. rewrite (like_prefix s (String c t) Hs). cbn [bytesOf]. rewrite IH. reflexivity.
Qed.

Lemma bytesOf_app a b : bytesOf (a ++ b) = (bytesOf a ++ bytesOf b)%list.
Proof. induction a as [|c a IH]; [done|]. simpl. by rewrite IH. Qed.
Lemma string_map_app f a b : string_map f (a ++ b) = string_map f a ++ string_map f b.
Proof. induction a as [|c a IH]; [done|]. simpl. by rewrite IH. Qed.
Lemma isASCII_lower s : isASCII s = true -> isASCII (string_map lower_ascii s) = true.
Proof.
  induction s as [|c s IH]; intros Hs; [done|]. unfold isASCII in *. cbn [string_map string_forallb] in *.
  apply andb_true_iff in Hs as [Hc Hs]. rewrite IH by done. apply Z.ltb_lt in Hc. apply andb_true_iff. split; [|done].
  apply Z.ltb_lt. by apply lower_ascii_range.
Qed.
Lemma plainPattern_lower s : plainPattern s = true -> plainPattern (string_map lower_ascii s) = true.
Proof.
  induction s as [|c s IH]; intros Hs; [done|]. unfold plainPattern in *. cbn [string_map string_forallb] in *.
  apply andb_true_iff in Hs as [Hc Hs]. rewrite IH by done. apply andb_true_iff. split; [|done]. clear IH Hs.
  unfold lower_ascii. destruct (isUpper c) eqn:Hu; [|done]. unfold isUpper, between in Hu. bools.
  assert (Hb : byte (chr (byte c + 32)) = byte c + 32) by (apply byte_chr; lia).
  rewrite negb_true_iff, !orb_false_iff. split_and!; apply Ascii.eqb_neq; intros E; rewrite E in Hb;
    vm_compute (byte "%"%char) in Hb; vm_compute (byte "_"%char) in Hb; vm_compute (byte "\"%char) in Hb; lia.
Qed.

(** [ILIKE] with per cents around a plain text is the substring test that ignores case. *)
Lemma ilike_contains `{Locale} `{UnicodeTables} s t : isASCII s = true -> isASCII t = true -> plainPattern s = true ->
  ilike t ("%" ++ s ++ "%") = Contains (ToLower t) (ToLower s).
Proof.
  intros Hs Ht Hp. unfold ilike. assert (Hps : isASCII ("%" ++ s ++ "%") = true) by (by rewrite !isASCII_app, Hs).
  rewrite !fold_case_ascii, !ToLower_ascii by done. rewrite !chars_ascii by (by apply isASCII_lower).
  rewrite !string_map_app, !bytesOf_app. apply like_contains. by apply plainPattern_lower.
Qed.

(** ** A server *)

#[export] Instance val_lt_weak `{Locale} : StrictWeak val_lt.
Proof.
  split.
  - intros [ |x|x|x|x|x|x]; cbn; try done; try apply sw_irrefl; lia.
  - intros [ |x|x|x|x|x|x] [ |y|y|y|y|y|y] [ |z|z|z|z|z|z]; cbn; intros; bools; try done; try lia. by eapply sw_trans.
  - intros [ |x|x|x|x|x|x] [ |y|y|y|y|y|y] [ |z|z|z|z|z|z]; cbn; intros; bools; try done; try lia. by eapply sw_neg_trans.
Qed.

Lemma sw_asym {A} (lt : A -> A -> bool) `{!StrictWeak lt} x y : lt x y = true -> lt y x = false.
Proof. intros Hxy. destruct (lt y x) eqn:E; [|done]. pose proof (sw_trans _ _ _ Hxy E) as Hx. by rewrite sw_irrefl in Hx. Qed.

(** Comparisons that a strict weak order cannot have together. *)
Ltac weak_contra :=
  exfalso; repeat match goal with
  | H1 : val_lt ?a ?b = true, H2 : val_lt ?b ?a = true |- _ => pose proof (sw_asym _ _ _ H1); congruence
  | H1 : val_lt ?a ?b = true, H2 : val_lt ?b ?c = true, H3 : val_lt ?a ?c = false |- _ =>
    pose proof (sw_trans _ _ _ H1 H2); congruence
  | H1 : val_lt ?a ?b = true, H2 : val_lt ?c ?b = false, H3 : val_lt ?a ?c = false |- _ =>
    pose proof (sw_neg_trans _ _ _ H2 H3); congruence
  end.

#[export] Instance row_lt_weak `{Locale} order : StrictWeak (row_lt order).
Proof.
  induction order as [|[c desc] os IH]; [by split|]. split.
  - intros x. cbn [row_lt]. assert (E : (if desc then val_lt (col x c) (col x c) else val_lt (col x c) (col x c)) = false)
      by (destruct desc; apply sw_irrefl).
    rewrite E. apply sw_irrefl.
  - intros x y z. cbn [row_lt]. destruct desc; repeat case_match; intros; try done; (by eapply sw_trans) || weak_contra.
  - intros x y z. cbn [row_lt]. destruct desc; repeat case_match; intros; try done; (by eapply sw_neg_trans) || weak_contra.
Qed.

(** A server with byte order, microseconds by truncation and [JSONB] kept as written. *)
Definition strMap_nul (m : gmap string (list string)) : bool :=
  bool_decide (map_Forall (fun _ vs => Forall (fun v => ContainsByte v NUL = false) vs) m).

#[refine] Definition plainLocale : Locale := {|
  collate := str_ltb; fold_case := string_map lower_ascii; tz_round t := t / 1000 * 1000;
  index_entry s := len s <=? 2600;
  jsonb_out s := if strMap_nul (unmarshalMap s) then Some s else None
|}.
Proof.
  - split; [apply str_ltb_irrefl|apply str_ltb_trans|]. intros x y z Hyx Hzy.
    destruct (str_ltb z x) eqn:E; [|done]. destruct (str_ltb_total x y) as [Hl|[->|Hl]]; [|congruence|congruence].
    pose proof (str_ltb_trans _ _ _ E Hl). congruence.
  - intros x y Hx Hy. destruct (str_ltb_total x y) as [?|[?|?]]; congruence.
  - done.
  - intros t u Htu. zlia.
  - intros t. zlia.
  - intros t Ht. zlia.
  - intros s Hs. by apply Z.leb_le.
  - intros m Hm. assert (Hu : unmarshalMap (mapText m) = m).
    { apply unmarshalMap_mapText. revert Hm. apply mapValid_impl. unfold textOK. intros s Hs. by apply andb_true_iff in Hs as [-> _]. }
    exists (mapText m). rewrite Hu. split; [|split; [|done]].
    + replace (strMap_nul m) with true; [done|]. symmetry. apply bool_decide_eq_true. intros k vs Hk.
      destruct (Hm k vs Hk) as [_ Hvs]. eapply Forall_impl; [exact Hvs|]. intros v Hv. unfold textOK in Hv. by bools.
    + unfold mapText, json_of_map. intros E. apply (f_equal String.length) in E. by rewrite json_text_obj in E.
  - intros m k vs v Hm Hk Hv Hn. rewrite unmarshalMap_mapText by done.
    replace (strMap_nul m) with false; [done|]. symmetry. apply bool_decide_eq_false. intros Hall.
    specialize (Hall k vs Hk). rewrite Forall_forall in Hall. specialize (Hall v Hv). congruence.
Defined.

Section PlainServer.
#[local] Existing Instance plainLocale.

Definition plainSelect (es : option (list sexpr)) (w : option cond) (os : list (string * bool)) (pg : option (Z * Z))
  (td : tabledef) (now : Time) (args : list sqlval) (t : table) : list (list sqlval) :=
  let l := merge_by (row_lt os) (filter (fun r => holds td now args w r = true) t) in
  match es with None => [[VInt (Z.of_nat (length l))]] | Some es => map (project es) (paged pg l) end.

Definition plainRun (now : Time) (sql : string) (args : list sqlval) (db : database) :
  res string (database * list (list sqlval) * Z) :=
  match parseSQL sql with
  | Some (SInsert t cols ps) =>
    match schema t ≫= fun td => insertInto td now args t cols ps db with
    | Some db' => Ok (db', [], 1)
    | None => Err "constraint"
    end
  | Some (SSelect es t w os pg) =>
    match schema t with
    | Some td =>
      if selectOK td args es w os
      then let out := plainSelect es w os pg td now args (rows db t) in Ok (db, out, Z.of_nat (length out))
      else Err "column or parameter"
    | None => Err "table"
    end
  | Some (SDelete t c) =>
    if String.eqb t "api_keys" && condOK api_keys_def args c
    then Ok (deleteFrom api_keys_def now args t c db, [], affected api_keys_def now args t c db) else Err "delete"
  | Some (SUpdateNow t k c) =>
    if String.eqb t "api_keys" && condOK api_keys_def args c
    then Ok (updateNow api_keys_def now args t k c db, [], affected api_keys_def now args t c db) else Err "update"
  | None => Err "syntax"
  end.

#[refine] Definition plainPostgres : Postgres := {| pg_run := plainRun |}.
Proof.
  - intros now sql args db t cols ps td Hp Ht. unfold plainRun. rewrite Hp, Ht. cbn.
    destruct (insertInto _ _ _ _ _ _ _); [done|by eexists].
  - intros now sql args db es t w os pg td Hp Ht. unfold plainRun. rewrite Hp, Ht.
    destruct (selectOK _ _ _ _ _); [|by eexists]. eexists. split; [done|].
    exists (merge_by (row_lt os) (filter (fun r => holds td now args w r = true) (rows db t))).
    split; [apply merge_sort_Permutation|]. split; [apply merge_by_sorted, _|done].
  - intros now sql args db c Hp. unfold plainRun. rewrite Hp. cbn. destruct (condOK _ _ _); [done|by eexists].
  - intros now sql args db k c Hp Hk. unfold plainRun. rewrite Hp. cbn. destruct (condOK _ _ _); [done|by eexists].
Defined.

End PlainServer.
