(* ===== verification/PgStore.v ===== *)
(** * The Postgres audit store ([pkg/audit/postgres/store.go])

    [Store] builds the statements and reads the rows back; the server is the class [Postgres] of
    [Sql].  A transaction works on a copy of the tables that [Commit] installs.  Every round trip
    has a [fate], so what a broken connection leaves behind is part of the model. *)
From S2P Require Import Prelude GoStrings GoNum GoTime GoUrl Json JsonParse AuditEvent MemoryLog Sql.

(** ** Statements *)

Definition insertEventSQL : string := "
		INSERT INTO audit_events (
			id, ts, duration_ms, request_id, session_id,
			user_subject, user_email, auth_type, api_key_name,
			method, path, route_name, endpoint_group, status,
			bytes_in, bytes_out,
			success, error_message, error_category,
			remote_addr, user_agent
		) VALUES (
			$1,$2,$3,$4,$5,
			$6,$7,$8,$9,
			$10,$11,$12,$13,$14,
			$15,$16,
			$17,$18,$19,
			$20,$21
		)
	".
Definition eventArgs (ev : Event) : list sqlval :=
  [VText (ev_ID ev); VTime (ev_Timestamp ev); VInt (ev_DurationMS ev); VText (ev_RequestID ev); VText (ev_SessionID ev);
   VText (ev_UserSubject ev); VText (ev_UserEmail ev); VText (ev_AuthType ev); VText (ev_APIKeyName ev);
   VText (ev_Method ev); VText (ev_Path ev); VText (ev_RouteName ev); VText (ev_EndpointGroup ev); VInt (ev_Status ev);
   VInt (ev_BytesIn ev); VInt (ev_BytesOut ev);
   VBool (ev_Success ev); VText (ev_ErrorMessage ev); VText (ev_ErrorCategory ev);
   VText (ev_RemoteAddr ev); VText (ev_UserAgent ev)].

Definition insertPayloadSQL : string := "
		INSERT INTO audit_payloads (
			event_id,
			request_headers, request_query, request_content_type, request_body,
			request_size_bytes, request_truncated, request_remote_addr,
			response_headers, response_content_type, response_body,
			response_size_bytes, response_truncated,
			replayed_from
		) VALUES (
			$1,
			$2, $3, $4, $5,
			$6, $7, $8,
			$9, $10, $11,
			$12, $13,
			$14
		)
	".
Definition getPayloadSQL : string := "
		SELECT
			request_headers, request_query,
			COALESCE(request_content_type, ''), request_body,
			request_size_bytes, request_truncated,
			COALESCE(request_remote_addr, ''),
			response_headers,
			COALESCE(response_content_type, ''), response_body,
			response_size_bytes, response_truncated,
			COALESCE(replayed_from, '')
		FROM audit_payloads WHERE event_id = $1
	".
Definition selectEventsSQL : string := "
		SELECT
			id, ts, duration_ms, COALESCE(request_id,''), COALESCE(session_id,''),
			COALESCE(user_subject,''), COALESCE(user_email,''),
			COALESCE(auth_type,''), COALESCE(api_key_name,''),
			method, path, COALESCE(route_name,''), COALESCE(endpoint_group,''),
			status, bytes_in, bytes_out,
			success, COALESCE(error_message,''), COALESCE(error_category,''),
			COALESCE(remote_addr,''), COALESCE(user_agent,'')
		FROM audit_events ".

(** ** Operations *)

Module Store.
Section Store.
Context `{Postgres}.

(** [marshalJSONB] of a map: [NULL] for an empty one. *)
Definition marshalJSONB (m : gmap string (list string)) : sqlval :=
  if bool_decide (m = ∅) then VNull else VBytes (mapText m).
Definition bytesOrNull (b : string) : sqlval := if 0 <? len b then VBytes b else VNull.

Definition payloadArgs (eventID : string) (p : Payload) : list sqlval :=
  [VText eventID;
   marshalJSONB (RequestHeaders p); marshalJSONB (RequestQuery p); VText (RequestContentType p); bytesOrNull (RequestBody p);
   VInt (RequestSizeBytes p); VBool (RequestTruncated p); VText (RequestRemoteAddr p);
   marshalJSONB (ResponseHeaders p); VText (ResponseContentType p); bytesOrNull (ResponseBody p);
   VInt (ResponseSizeBytes p); VBool (ResponseTruncated p);
   if negb (String.eqb (ReplayedFrom p) "") then VText (ReplayedFrom p) else VNull].

(** One statement over the connection. *)
Definition send (f : fate) (now : Time) (sql : string) (args : list sqlval) (db : database) :
  res string (database * list (list sqlval) * Z) :=
  match f with Through => pg_run now sql args db | Refused e | Lost e => Err e end.

Definition insertPayload (f : fate) (now : Time) (eventID : string) (p : Payload) (tx : database) : res string database :=
  match send f now insertPayloadSQL (payloadArgs eventID p) tx with
  | Ok (tx, _, _) => Ok tx
  | Err e => Err ("insert audit payload: " ++ e)
  end.

Definition commit (f : fate) (tx db : database) : database * option string :=
  match f with
  | Through => (tx, None)
  | Refused e => (db, Some ("commit audit event: " ++ e))
  | Lost e => (tx, Some ("commit audit event: " ++ e))
  end.

(** Begin, the two inserts and the commit are round trips 0 to 3; leaving before the commit rolls
    back.  The result is the state of the tables and the error. *)
Definition Log (fates : nat -> fate) (now : Time) (newID : string) (ev : Event) (db : database) : database * option string :=
  let ev := if String.eqb (ev_ID ev) "" then ev_withID ev newID else ev in
  match fates 0%nat with
  | Refused e | Lost e => (db, Some ("begin tx: " ++ e))
  | Through =>
    match send (fates 1%nat) now insertEventSQL (eventArgs ev) db with
    | Err e => (db, Some ("insert audit event: " ++ e))
    | Ok (tx, _, _) =>
      match ev_Payload ev with
      | None => commit (fates 3%nat) tx db
      | Some p =>
        match insertPayload (fates 2%nat) now (ev_ID ev) p tx with
        | Err e => (db, Some e)
        | Ok tx => commit (fates 3%nat) tx db
        end
      end
    end
  end.

(** Columns scanned into a [[]byte]: [NULL] is nil. *)
Definition scanBytes (v : sqlval) : option string :=
  match v with VNull => Some "" | VBytes s => Some s | VJsonb t => Some t | _ => None end.
Definition scanMap (b : string) : gmap string (list string) := if 0 <? len b then unmarshalMap b else ∅.

Definition scanPayload (r : list sqlval) : option Payload :=
  match r with
  | [v1; v2; VText reqContentType; v4; VInt reqSize; VBool reqTrunc; VText reqRemoteAddr;
     v8; VText respContentType; v10; VInt respSize; VBool respTrunc; VText replayedFrom] =>
    reqHeaders ← scanBytes v1; reqQuery ← scanBytes v2; reqBody ← scanBytes v4;
    respHeaders ← scanBytes v8; respBody ← scanBytes v10;
    Some (mkPayload (scanMap reqHeaders) (scanMap reqQuery) reqContentType reqBody reqSize reqTrunc reqRemoteAddr
            (scanMap respHeaders) respContentType respBody respSize respTrunc replayedFrom)
  | _ => None
  end.

Definition GetPayload (f : fate) (now : Time) (eventID : string) (db : database) : res string (option Payload) :=
  match send f now getPayloadSQL [VText eventID] db with
  | Err e => Err ("query audit_payloads: " ++ e)
  | Ok (_, [], _) => Ok None
  | Ok (_, r :: _, _) =>
    match scanPayload r with Some p => Ok (Some p) | None => Err "query audit_payloads: scan" end
  end.

(** [itoa]: digits from the low end into a buffer of 20 bytes; negation wraps at [math.MinInt]. *)
Fixpoint itoa_loop (fuel : nat) (n : Z) (buf : string) : string :=
  match fuel with
  | O => buf
  | S fuel' => if 0 <? n then itoa_loop fuel' (n / 10) (String (digit (n mod 10)) buf) else buf
  end.
Definition itoa (n : Z) : string :=
  if n =? 0 then "0"
  else
    let neg := n <? 0 in
    let n := if neg then wrap64 (- n) else n in
    let buf := itoa_loop 20 n "" in
    if neg then "-" ++ buf else buf.

(** [add]: bind a value and append a clause that refers to it. *)
Definition add (clause : string) (val : sqlval) (acc : list string * list sqlval) : list string * list sqlval :=
  let args := (acc.2 ++ [val])%list in
  ((acc.1 ++ [(clause ++ Itoa (Z.of_nat (length args)))%string])%list, args).
Definition addIf (b : bool) (clause : string) (val : sqlval) (acc : list string * list sqlval) : list string * list sqlval :=
  if b then add clause val acc else acc.

Definition clausesOf (f : QueryFilter) : list string * list sqlval :=
  let acc := addIf (negb (IsZero (qf_From f))) "ts >= $" (VTime (qf_From f)) ([], []) in
  let acc := addIf (negb (IsZero (qf_To f))) "ts <= $" (VTime (qf_To f)) acc in
  let acc := addIf (negb (String.eqb (qf_Method f) "")) "method = $" (VText (qf_Method f)) acc in
  let acc := addIf (negb (String.eqb (qf_Path f) "")) "path = $" (VText (qf_Path f)) acc in
  let acc := addIf (negb (String.eqb (qf_RouteName f) "")) "route_name = $" (VText (qf_RouteName f)) acc in
  let acc := addIf (negb (String.eqb (qf_UserID f) "")) "user_subject = $" (VText (qf_UserID f)) acc in
  let acc := addIf (negb (String.eqb (qf_SessionID f) "")) "session_id = $" (VText (qf_SessionID f)) acc in
  let acc := addIf (negb (String.eqb (qf_EventID f) "")) "id = $" (VText (qf_EventID f)) acc in
  let acc := addIf (negb (qf_Status f =? 0)) "status = $" (VInt (qf_Status f)) acc in
  let acc := match qf_Success f with Some b => add "success = $" (VBool b) acc | None => acc end in
  if negb (String.eqb (qf_Search f) "") then
    let args := (acc.2 ++ [VText ("%" ++ qf_Search f ++ "%")])%list in
    let idx := Itoa (Z.of_nat (length args)) in
    ((acc.1 ++ [("(path ILIKE $" ++ idx ++ " OR error_message ILIKE $" ++ idx ++ ")")%string])%list, args)
  else acc.

Definition buildSelect (f : QueryFilter) (count : bool) : string * list sqlval :=
  let '(clauses, args) := clausesOf f in
  let whereClause := if bool_decide (clauses = []) then "" else "WHERE " ++ Join clauses " AND " in
  if count then ("SELECT count(*) FROM audit_events " ++ whereClause, args)
  else
    let limit := if qf_Limit f <=? 0 then 100 else qf_Limit f in
    let limit := if MaxQueryLimit <? limit then MaxQueryLimit else limit in
    let offset := if qf_Offset f <? 0 then 0 else qf_Offset f in
    (selectEventsSQL ++ whereClause ++ "
		ORDER BY ts DESC, id ASC
		LIMIT " ++ itoa limit ++ " OFFSET " ++ itoa offset, args).

Definition scanEvent (r : list sqlval) : res string Event :=
  match r with
  | [VText id; VTime ts; VInt dur; VText reqID; VText sess; VText subj; VText email; VText authType; VText key;
     VText method; VText path; VText route; VText group; VInt status; VInt bin; VInt bout; VBool success;
     VText msg; VText cat; VText addr; VText ua] =>
    Ok (mkEvent id ts dur reqID sess subj email authType key method path route group status bin bout success msg cat addr ua None)
  | _ => Err "scan audit row: "
  end.
Fixpoint scanEvents (rs : list (list sqlval)) : res string (list Event) :=
  match rs with
  | [] => Ok []
  | r :: rs' => ev ← scanEvent r; evs ← scanEvents rs'; Ok (ev :: evs)
  end.

Definition Query (f : fate) (now : Time) (q : QueryFilter) (db : database) : res string (list Event) :=
  let '(sql, args) := buildSelect q false in
  match send f now sql args db with
  | Err e => Err ("query audit_events: " ++ e)
  | Ok (_, rs, _) => scanEvents rs
  end.

Definition Count (f : fate) (now : Time) (q : QueryFilter) (db : database) : res string Z :=
  let '(sql, args) := buildSelect q true in
  match send f now sql args db with
  | Ok (_, [[VInt n]], _) => Ok n
  | Ok _ => Err "count audit_events: scan"
  | Err e => Err ("count audit_events: " ++ e)
  end.

End Store.
End Store.

Import Store.

(** ** The text of a query

    The clauses of a filter in the order [buildSelect] tries them, each with its parameter. *)

Inductive clause := CFrom | CTo | CMethod | CPath | CRoute | CUser | CSession | CID | CStatus | CSuccess | CSearch.
Definition clauseCol (c : clause) : string :=
  match c with
  | CFrom | CTo => "ts" | CMethod => "method" | CPath => "path" | CRoute => "route_name" | CUser => "user_subject"
  | CSession => "session_id" | CID => "id" | CStatus => "status" | CSuccess => "success" | CSearch => "path"
  end.
Definition clauseOp (c : clause) : string :=
  match c with CFrom => ">=" | CTo => "<=" | CSearch => "ILIKE" | _ => "=" end.
Definition clauseText (c : clause) (n : Z) : string :=
  match c with
  | CSearch => "(path ILIKE $" ++ Itoa n ++ " OR error_message ILIKE $" ++ Itoa n ++ ")"
  | _ => clauseCol c ++ " " ++ clauseOp c ++ " $" ++ Itoa n
  end.
Definition clauseCond (c : clause) (n : Z) : cond :=
  match c with
  | CSearch => Or (Cmp "ILIKE" "path" (Param n)) (Cmp "ILIKE" "error_message" (Param n))
  | _ => Cmp (clauseOp c) (clauseCol c) (Param n)
  end.
Definition clauseToks (c : clause) (n : Z) : list string :=
  match c with
  | CSearch => ["("; "path"; "ILIKE"; ("$" ++ Itoa n)%string; "OR"; "error_message"; "ILIKE"; ("$" ++ Itoa n)%string; ")"]
  | _ => [clauseCol c; clauseOp c; ("$" ++ Itoa n)%string]
  end.

Definition cond1 {A} (b : bool) (x : A) : list A := if b then [x] else [].
Definition filterClauses (f : QueryFilter) : list (clause * sqlval) :=
  (cond1 (negb (IsZero (qf_From f))) (CFrom, VTime (qf_From f))
   ++ cond1 (negb (IsZero (qf_To f))) (CTo, VTime (qf_To f))
   ++ cond1 (negb (String.eqb (qf_Method f) "")) (CMethod, VText (qf_Method f))
   ++ cond1 (negb (String.eqb (qf_Path f) "")) (CPath, VText (qf_Path f))
   ++ cond1 (negb (String.eqb (qf_RouteName f) "")) (CRoute, VText (qf_RouteName f))
   ++ cond1 (negb (String.eqb (qf_UserID f) "")) (CUser, VText (qf_UserID f))
   ++ cond1 (negb (String.eqb (qf_SessionID f) "")) (CSession, VText (qf_SessionID f))
   ++ cond1 (negb (String.eqb (qf_EventID f) "")) (CID, VText (qf_EventID f))
   ++ cond1 (negb (qf_Status f =? 0)) (CStatus, VInt (qf_Status f))
   ++ match qf_Success f with Some b => [(CSuccess, VBool b)] | None => [] end
   ++ cond1 (negb (String.eqb (qf_Search f) "")) (CSearch, VText ("%" ++ qf_Search f ++ "%")))%list.

Fixpoint texts (i : Z) (cs : list (clause * sqlval)) : list string :=
  match cs with [] => [] | (c, _) :: cs' => clauseText c i :: texts (i + 1) cs' end.
Definition rep (cs : list (clause * sqlval)) : list string * list sqlval := (texts 1 cs, map snd cs).

Lemma texts_app i a b : texts i (a ++ b)%list = (texts i a ++ texts (i + Z.of_nat (length a)) b)%list.
Proof.
  revert i. induction a as [|[c v] a IH]; intros i; [simpl; by rewrite Z.add_0_r|].
  cbn [app texts length]. rewrite IH. do 3 f_equal. lia.
Qed.

Lemma rep_snoc cs c v : rep (cs ++ [(c, v)])%list =
  ((texts 1 cs ++ [clauseText c (Z.of_nat (length (map snd cs ++ [v])%list))])%list, (map snd cs ++ [v])%list).
Proof.
  unfold rep. rewrite texts_app, map_app. do 2 f_equal. cbn [texts map]. rewrite length_app, length_map. simpl. do 2 f_equal. lia.
Qed.
Lemma add_rep cs c v : c <> CSearch -> add (clauseCol c ++ " " ++ clauseOp c ++ " $") v (rep cs) = rep (cs ++ [(c, v)])%list.
Proof. intros Hc. rewrite rep_snoc. unfold add, rep. cbn [fst snd]. by destruct c. Qed.
Lemma addIf_rep b cs c v : c <> CSearch ->
  addIf b (clauseCol c ++ " " ++ clauseOp c ++ " $") v (rep cs) = rep (cs ++ cond1 b (c, v))%list.
Proof. intros Hc. destruct b; simpl; [by apply add_rep|by rewrite app_nil_r]. Qed.

Lemma clausesOf_rep f : clausesOf f = rep (filterClauses f).
Proof.
  assert (E : forall c, c <> CSearch -> forall b cs v, addIf b (clauseCol c ++ " " ++ clauseOp c ++ " $") v (rep cs) =
    rep (cs ++ cond1 b (c, v))%list) by (intros; by apply addIf_rep).
  unfold clausesOf. change ([], []) with (rep []).
  rewrite (E CFrom), (E CTo), (E CMethod), (E CPath), (E CRoute), (E CUser), (E CSession), (E CID), (E CStatus) by done.
  match goal with |- context [rep ?l] => set (cs := l) end.
  replace (match qf_Success f with Some b => _ | None => _ end)
    with (rep (cs ++ match qf_Success f with Some b => [(CSuccess, VBool b)] | None => [] end)%list)
    by (destruct (qf_Success f); [symmetry; by apply (add_rep cs CSuccess)|by rewrite app_nil_r]).
  unfold filterClauses. destruct (String.eqb (qf_Search f) ""); cbn [negb cond1].
  - rewrite app_nil_r. f_equal. unfold cs. by rewrite <- !app_assoc.
  - rewrite !app_assoc, rep_snoc. unfold cs. by rewrite <- !app_assoc.
Qed.

Lemma dollar_word n : 0 <= n -> string_forallb wordByte ("$" ++ Itoa n) = true.
Proof. intros Hn. rewrite string_forallb_app. cbn [string_forallb]. by rewrite (digits_word _ (Itoa_digits n Hn)). Qed.
Lemma lex_dollar n : 0 <= n -> lex "" ("$" ++ Itoa n) = [("$" ++ Itoa n)%string].
Proof. intros Hn. by rewrite lex_word by (by apply dollar_word). Qed.

Lemma lex_cmp a b n : 0 <= n -> string_forallb wordByte a && negb (String.eqb a "") = true ->
  string_forallb wordByte b && negb (String.eqb b "") = true ->
  lex "" (a ++ " " ++ b ++ " $" ++ Itoa n) = [a; b; ("$" ++ Itoa n)%string].
Proof.
  intros Hn Ha Hb. bools. change (" " ++ ?x) with (String " " x). rewrite lex_blank by done.
  change (" $" ++ Itoa n) with (String " " ("$" ++ Itoa n)). rewrite lex_blank, lex_dollar by done.
  rewrite !lex_word by done. unfold flush. cbn [String.append].
  destruct (String.eqb_spec a ""), (String.eqb_spec b ""); done.
Qed.

Lemma lex_clause c n : 0 <= n -> lex "" (clauseText c n) = clauseToks c n.
Proof.
  intros Hn. destruct c; try (by apply (lex_cmp _ _ n Hn)). unfold clauseText.
  change ("(path ILIKE $" ++ ?x) with (String "(" ("path ILIKE" ++ String " " ("$" ++ x))). cbn [lex].
  change (isBlank "(") with false. change (isPunct "(") with true. cbv iota. change (flush "" ?x) with x.
  rewrite lex_blank by done. rewrite sapp_assoc. change (" OR" ++ ?x) with (String " " ("OR" ++ x)).
  change (" OR error_message ILIKE $" ++ ?x) with (String " " ("OR error_message ILIKE" ++ String " " ("$" ++ x))).
  rewrite lex_blank, lex_dollar by done. rewrite lex_blank by done. rewrite sapp_assoc.
  change (")") with (String ")" ""). rewrite lex_punct, lex_dollar by done. done.
Qed.

Fixpoint chain (i : Z) (cs : list (clause * sqlval)) : list string :=
  match cs with
  | [] => []
  | [(c, _)] => clauseToks c i
  | (c, _) :: cs' => clauseToks c i ++ "AND" :: chain (i + 1) cs'
  end%list.
Fixpoint condOf (c0 : clause) (i : Z) (cs : list (clause * sqlval)) : cond :=
  match cs with
  | [] => clauseCond c0 i
  | (c, _) :: cs' => And (clauseCond c0 i) (condOf c (i + 1) cs')
  end.

Lemma texts_cons i c v cs : texts i ((c, v) :: cs) = clauseText c i :: texts (i + 1) cs.
Proof. done. Qed.
Lemma lex_chain i cs : 0 <= i -> cs <> [] -> lex "" (Join (texts i cs) " AND ") = chain i cs.
Proof.
  revert i. induction cs as [|[c v] [|[c' v'] cs] IH]; intros i Hi Hne; [done|by apply lex_clause|].
  rewrite texts_cons. specialize (IH (i + 1) ltac:(lia) ltac:(done)). rewrite texts_cons in *.
  change (Join (clauseText c i :: ?y :: ?l) " AND ") with (clauseText c i ++ String " " ("AND" ++ String " " (Join (y :: l) " AND "))).
  rewrite !lex_blank by done. rewrite lex_clause, IH by done. done.
Qed.

Lemma parse_clause c n fuel rest : 0 < n <= maxInt -> (6 <= fuel)%nat ->
  parseCond fuel LPrim (clauseToks c n ++ rest)%list = Some (clauseCond c n, rest).
Proof.
  intros Hn Hf. pose proof (parseParam_dollar n Hn) as Hp. unfold clauseToks. cbn [String.append] in *.
  generalize dependent (Itoa n). intros d Hp. do 6 (destruct fuel as [|fuel]; [lia|]).
  destruct c; cbn -[parseParam]; rewrite ?Hp; cbn -[parseParam]; rewrite ?Hp; done.
Qed.

Lemma parse_chain c v cs i fuel rest : 0 < i -> i + Z.of_nat (length cs) <= maxInt -> (7 + length cs <= fuel)%nat ->
  after ["AND"] rest = None ->
  parseCond fuel LAnd (chain i ((c, v) :: cs) ++ rest)%list = Some (condOf c i cs, rest).
Proof.
  revert c v i fuel. induction cs as [|[c' v'] cs IH]; intros c v i fuel Hi Hmax Hf Hr; cbn [length] in *;
    (destruct fuel as [|fuel]; [lia|]); cbn [parseCond].
  - change (chain i [(c, v)]) with (clauseToks c i). rewrite (parse_clause c i fuel rest) by lia. cbn -[after]. by rewrite Hr.
  - change (chain i ((c, v) :: (c', v') :: cs)) with (clauseToks c i ++ "AND" :: chain (i + 1) ((c', v') :: cs))%list.
    rewrite <- app_assoc, (parse_clause c i) by lia. cbn -[chain parseCond]. change (after ["AND"] ("AND" :: ?l)) with (Some l).
    rewrite (IH c' v' (i + 1) fuel) by lia || done. done.
Qed.

Lemma itoa_loop_udec k : forall n f buf, 0 < n < 10 ^ Z.of_nat k -> n < 2 ^ Z.of_nat f -> itoa_loop k n buf = udec_loop f n buf.
Proof.
  induction k as [|k IH]; intros n f buf Hn Hf; [simpl in Hn; lia|]. destruct f as [|f]; [simpl in Hf; lia|].
  cbn [itoa_loop udec_loop]. rewrite (proj2 (Z.ltb_lt 0 n)) by lia. destruct (Z.ltb_spec n 10) as [Hs|Hs].
  - rewrite Z.div_small, Z.mod_small by lia. destruct k; done.
  - apply IH; [|apply fuel_step; lia]. rewrite Nat2Z.inj_succ, Z.pow_succ_r in Hn by lia.
    split; [apply Z.div_str_pos; lia|]. apply Z.div_lt_upper_bound; lia.
Qed.

(** The store's own decimal printer agrees with [strconv.Itoa] except at the least integer. *)
Lemma itoa_Itoa n : - maxInt <= n <= maxInt -> itoa n = Itoa n.
Proof.
  intros Hn. assert (Hu : forall m, 0 < m <= maxInt -> itoa_loop 20 m "" = udec m).
  { intros m Hm. apply itoa_loop_udec; [|apply udec_fuel; lia]. unfold maxInt in Hm.
    split; [lia|]. eapply Z.le_lt_trans; [apply Hm|]. by vm_compute. }
  unfold itoa, Itoa. destruct (Z.eqb_spec n 0) as [->|Hz]; [done|]. destruct (Z.ltb_spec n 0) as [Hneg|Hpos].
  - rewrite wrap64_id by (unfold in64, minInt, maxInt in *; lia). rewrite Hu by lia. done.
  - apply Hu. lia.
Qed.
Lemma itoa_min : itoa minInt = "-".
Proof. by vm_compute. Qed.

(** ** The statement a query text is read as *)

Definition eventExprs : list sexpr :=
  [Col "id"; Col "ts"; Col "duration_ms"; Coalesce "request_id"; Coalesce "session_id"; Coalesce "user_subject";
   Coalesce "user_email"; Coalesce "auth_type"; Coalesce "api_key_name"; Col "method"; Col "path"; Coalesce "route_name";
   Coalesce "endpoint_group"; Col "status"; Col "bytes_in"; Col "bytes_out"; Col "success"; Coalesce "error_message";
   Coalesce "error_category"; Coalesce "remote_addr"; Coalesce "user_agent"].
Definition eventOrder : list (string * bool) := [("ts", true); ("id", false)].
Definition whereCond (cs : list (clause * sqlval)) : option cond :=
  match cs with [] => None | (c, _) :: cs' => Some (condOf c 1 cs') end.
Definition whereToks (cs : list (clause * sqlval)) : list string := match cs with [] => [] | _ => "WHERE" :: chain 1 cs end.

Lemma filterClauses_length f : (length (filterClauses f) <= 11)%nat.
Proof.
  unfold filterClauses. rewrite !length_app.
  assert (Hc : forall A b (x : A), (length (cond1 b x) <= 1)%nat) by (intros A [] x; simpl; lia).
  assert (Hs : (length (match qf_Success f with Some b => [(CSuccess, VBool b)] | None => [] end) <= 1)%nat)
    by (destruct (qf_Success f); simpl; lia).
  repeat match goal with |- context [length (cond1 ?b ?x)] => pose proof (Hc _ b x); generalize dependent (length (cond1 b x)); intros end.
  lia.
Qed.

Lemma parse_where cs rest : (length cs <= 11)%nat -> after ["WHERE"] rest = None -> after ["AND"] rest = None ->
  after ["OR"] rest = None -> parseWhere (whereToks cs ++ rest)%list = Some (whereCond cs, rest).
Proof.
  intros Hl Hw Ha Ho. destruct cs as [|[c v] cs]; [cbn [whereToks app]; unfold parseWhere; by rewrite Hw|].
  cbn [length] in Hl. unfold whereToks. unfold parseWhere. change (after ["WHERE"] (("WHERE" :: ?l) ++ rest)%list) with (Some (l ++ rest)%list).
  cbv iota beta. set (ts := (chain 1 ((c, v) :: cs) ++ rest)%list).
  assert (Hlen : (3 + 4 * length cs <= length ts)%nat).
  { unfold ts. rewrite length_app. clear. assert (Hc : forall c i, (3 <= length (clauseToks c i))%nat) by (intros []; simpl; lia).
    enough (3 + 4 * length cs <= length (chain 1 ((c, v) :: cs)))%nat by lia.
    generalize 1. revert c v. induction cs as [|[c' v'] cs IH]; intros c v i; [apply Hc|].
    change (chain i ((c, v) :: (c', v') :: cs)) with (clauseToks c i ++ "AND" :: chain (i + 1) ((c', v') :: cs))%list.
    rewrite length_app. cbn [length]. specialize (IH c' v' (i + 1)). specialize (Hc c i). lia. }
  unfold condFuel. destruct (3 * length ts + 3)%nat as [|fuel] eqn:Ef; [lia|]. cbn [parseCond]. unfold ts at 1.
  rewrite (parse_chain c v cs 1 fuel rest) by (unfold maxInt; lia || done). cbn -[after]. by rewrite Ho.
Qed.

Lemma lex_where cs : lex "" (if bool_decide (texts 1 cs = []) then "" else "WHERE " ++ Join (texts 1 cs) " AND ") = whereToks cs.
Proof.
  destruct cs as [|[c v] cs]; [done|]. rewrite bool_decide_eq_false_2 by done.
  change ("WHERE " ++ ?x) with ("WHERE" ++ String " " x). by rewrite lex_blank, lex_chain.
Qed.

Definition pageToks (limit offset : Z) : list string :=
  ["ORDER"; "BY"; "ts"; "DESC"; ","; "id"; "ASC"; "LIMIT"; Itoa limit; "OFFSET"; Itoa offset].

Lemma lex_page limit offset : 0 <= limit -> 0 <= offset ->
  lex "" ("
		ORDER BY ts DESC, id ASC
		LIMIT " ++ Itoa limit ++ " OFFSET " ++ Itoa offset) = pageToks limit offset.
Proof.
  intros Hl Ho. change ("
		ORDER BY ts DESC, id ASC
		LIMIT " ++ ?x) with ("
		ORDER BY ts DESC, id ASC
		LIMIT" ++ String " " x).
  rewrite lex_blank by done. change (" OFFSET " ++ ?x) with (String " " ("OFFSET" ++ String " " x)).
  rewrite !lex_blank, !lex_Itoa by done. done.
Qed.

Lemma parse_page limit offset : 0 <= limit <= maxInt -> 0 <= offset <= maxInt ->
  parseTail (pageToks limit offset) = Some (eventOrder, Some (limit, offset)).
Proof.
  intros Hl Ho. unfold parseTail, pageToks. pose proof (parseNum_Itoa limit Hl) as El. pose proof (parseNum_Itoa offset Ho) as Eo.
  generalize dependent (Itoa limit). generalize dependent (Itoa offset). intros o Eo l El. cbn -[parseNum]. by rewrite El, Eo.
Qed.

Definition selectToks : list string := Eval vm_compute in removelast (lex "" (selectEventsSQL ++ "x")).
Lemma parse_events_list rest : parseStmt (selectToks ++ rest)%list = parseFrom (Some eventExprs) ("audit_events" :: rest).
Proof. reflexivity. Qed.

(** The text [buildSelect] produces, as the server reads it: for every filter whose page fits an
    [int] the statement is the conjunction of the filter's clauses with their parameters, newest
    first with the ID as tie breaker, and the effective page. *)
Lemma parse_buildSelect f (count : bool) : qf_Offset f <= maxInt ->
  parseSQL (buildSelect f count).1 =
    Some (SSelect (if count then None else Some eventExprs) "audit_events" (whereCond (filterClauses f))
            (if count then [] else eventOrder) (if count then None else Some (effLimit f, effOffset f))) /\
  (buildSelect f count).2 = map snd (filterClauses f).
Proof.
  intros Hoff. unfold buildSelect. rewrite clausesOf_rep. unfold rep. pose proof (filterClauses_length f) as Hlen.
  destruct count; cbn [fst snd]; (split; [|done]); unfold parseSQL.
  - change ("SELECT count(*) FROM audit_events " ++ ?x) with ("SELECT count(*) FROM audit_events" ++ String " " x).
    rewrite lex_blank, lex_where by done.
    change (parseStmt _) with (parseFrom None ("audit_events" :: whereToks (filterClauses f))). unfold parseFrom.
    rewrite <- (app_nil_r (whereToks _)), parse_where by done. done.
  - pose proof (effLimit_pos f) as Hl. fold (effOffset f). change (if MaxQueryLimit <? _ then _ else _) with (effLimit f).
    assert (Ho : 0 <= effOffset f <= maxInt) by (unfold effOffset; destruct (Z.ltb_spec (qf_Offset f) 0); unfold maxInt in *; lia).
    unfold MaxQueryLimit, maxInt in *. rewrite !itoa_Itoa by (unfold maxInt; lia).
    match goal with |- context [selectEventsSQL ++ ?w ++ ?p] => set (wh := w); set (pg := p) end.
    assert (E : selectEventsSQL ++ wh ++ pg = stake (String.length selectEventsSQL - 1) selectEventsSQL ++ String " " (wh ++ pg)) by reflexivity.
    rewrite E, lex_blank by done.
    assert (Hpg : exists t, pg = String (chr 10) t) by (by eexists). destruct Hpg as [t Ht].
    assert (Hlex : lex "" pg = pageToks (effLimit f) (effOffset f)) by (apply lex_page; lia).
    assert (Hsplit : lex "" (wh ++ pg) = (whereToks (filterClauses f) ++ pageToks (effLimit f) (effOffset f))%list).
    { rewrite Ht, lex_blank by done. rewrite <- Hlex, Ht. cbn [lex]. change (isBlank (chr 10)) with true. cbv iota.
      change (flush "" ?x) with x. f_equal. apply lex_where. }
    rewrite Hsplit. change (lex "" (stake _ _)) with selectToks. rewrite parse_events_list. unfold parseFrom.
    rewrite parse_where by done. cbn [mbind option_bind]. rewrite parse_page by (unfold maxInt; lia). done.
Qed.
