(* ===== verification/PgRows.v ===== *)
(** * The rows of the Postgres audit store

    What the statements of [PgStore] do to the tables: the row of an event and of a payload, the
    meaning of a filter's condition on such rows, and the tables that hold a given list of events
    ([holdsAll]), which [Log] extends and [Query], [Count] and [GetPayload] read. *)
From S2P Require Import Prelude GoStrings GoNum GoTime GoUrl Json JsonParse AuditEvent MemoryLog Sql PgStore.
Import Store.

(** ** Rows *)

Section Rows.
Context `{Postgres}.

Definition int4 (z : Z) : bool := (- 2 ^ 31 <=? z) && (z <? 2 ^ 31).
Definition int8 (z : Z) : bool := (minInt <=? z) && (z <=? maxInt).

(** The events and payloads the columns can hold. *)
Definition eventTexts (ev : Event) : list string :=
  [ev_ID ev; ev_RequestID ev; ev_SessionID ev; ev_UserSubject ev; ev_UserEmail ev; ev_AuthType ev; ev_APIKeyName ev;
   ev_Method ev; ev_Path ev; ev_RouteName ev; ev_EndpointGroup ev; ev_ErrorMessage ev; ev_ErrorCategory ev;
   ev_RemoteAddr ev; ev_UserAgent ev].
(** The indexed texts. *)
Definition eventKeys (ev : Event) : list string := [ev_ID ev; ev_RouteName ev; ev_Path ev; ev_UserSubject ev; ev_SessionID ev].
Definition eventOK (ev : Event) : bool :=
  forallb textOK (eventTexts ev) && forallb int4 [ev_Status ev; ev_BytesIn ev; ev_BytesOut ev] && int8 (ev_DurationMS ev)
  && forallb index_entry (eventKeys ev).
Record payloadOK (p : Payload) : Prop := {
  pok_maps : mapValid textOK (RequestHeaders p) /\ mapValid textOK (RequestQuery p) /\ mapValid textOK (ResponseHeaders p);
  pok_texts : forallb textOK [RequestContentType p; RequestRemoteAddr p; ResponseContentType p; ReplayedFrom p] = true;
  pok_ints : int4 (RequestSizeBytes p) && int4 (ResponseSizeBytes p) = true;
  pok_index : index_entry (ReplayedFrom p) = true
}.

Definition eventRow (ev : Event) : row :=
  list_to_map (zip (map cl_name (td_columns audit_events_def))
    [VText (ev_ID ev); VTime (tz_round (ev_Timestamp ev)); VInt (ev_DurationMS ev); VText (ev_RequestID ev); VText (ev_SessionID ev);
     VText (ev_UserSubject ev); VText (ev_UserEmail ev); VText (ev_AuthType ev); VText (ev_APIKeyName ev);
     VText (ev_Method ev); VText (ev_Path ev); VText (ev_RouteName ev); VText (ev_EndpointGroup ev); VInt (ev_Status ev);
     VInt (ev_BytesIn ev); VInt (ev_BytesOut ev); VBool (ev_Success ev); VText (ev_ErrorMessage ev);
     VText (ev_ErrorCategory ev); VText (ev_RemoteAddr ev); VText (ev_UserAgent ev)]).

Definition mapCell (m : gmap string (list string)) : sqlval :=
  if bool_decide (m = ∅) then VNull else VJsonb (default "" (jsonb_out (mapText m))).
Definition payloadRow (now : Time) (id : string) (p : Payload) : row :=
  list_to_map (zip (map cl_name (td_columns audit_payloads_def))
    [VText id; mapCell (RequestHeaders p); mapCell (RequestQuery p); VText (RequestContentType p); bytesOrNull (RequestBody p);
     VInt (RequestSizeBytes p); VBool (RequestTruncated p); VText (RequestRemoteAddr p);
     mapCell (ResponseHeaders p); VText (ResponseContentType p); bytesOrNull (ResponseBody p);
     VInt (ResponseSizeBytes p); VBool (ResponseTruncated p);
     if negb (String.eqb (ReplayedFrom p) "") then VText (ReplayedFrom p) else VNull; VTime (tz_round now)]).

Definition eventCols : list string := map cl_name (td_columns audit_events_def).
Definition payloadCols : list string := removelast (map cl_name (td_columns audit_payloads_def)).
Definition nums (n : nat) : list Z := map (fun i => Z.of_nat i + 1) (seq 0 n).

Lemma parse_insertEvent : parseSQL insertEventSQL = Some (SInsert "audit_events" eventCols (nums 21)).
Proof. reflexivity. Qed.
Lemma parse_insertPayload : parseSQL insertPayloadSQL = Some (SInsert "audit_payloads" payloadCols (nums 14)).
Proof. reflexivity. Qed.

Lemma store_int4 z : int4 z = true -> store_value SInteger (VInt z) = Some (VInt z).
Proof. intros Hs. unfold store_value. unfold int4 in Hs. by rewrite Hs. Qed.
Lemma store_int8 z : int8 z = true -> store_value SBigint (VInt z) = Some (VInt z).
Proof. intros Hs. unfold store_value. unfold int8 in Hs. by rewrite Hs. Qed.
Lemma store_map m : mapValid textOK m -> store_value SJsonb (marshalJSONB m) = Some (mapCell m).
Proof.
  intros Hm. unfold marshalJSONB, mapCell. destruct (bool_decide (m = ∅)); [done|]. cbn [store_value].
  destruct (jsonb_keeps m Hm) as (t & -> & _). done.
Qed.
Lemma store_bytes b : store_value SBytea (bytesOrNull b) = Some (bytesOrNull b).
Proof. unfold bytesOrNull. by destruct (0 <? len b). Qed.

Lemma newRow_event now ev : eventOK ev = true ->
  newRow now (eventArgs ev) eventCols (nums 21) (td_columns audit_events_def) = Some (eventRow ev).
Proof.
  unfold eventOK. intros Hok. apply andb_true_iff in Hok as [[Hok Hd]%andb_true_iff _]. apply andb_true_iff in Hok as [Ht Hi].
  apply forallb_Forall in Ht, Hi. unfold eventTexts in Ht.
  repeat match goal with H : Forall _ (_ :: _) |- _ => apply Forall_cons in H as [? H] end.
  apply newRow_Some. cells; first [by apply store_text|by apply store_int4|by apply store_int8|reflexivity].
Qed.

Lemma newRow_payload now id p : textOK id = true -> payloadOK p ->
  newRow now (payloadArgs id p) payloadCols (nums 14) (td_columns audit_payloads_def) = Some (payloadRow now id p).
Proof.
  intros Hid [(Hm1 & Hm2 & Hm3) Ht Hi _]. apply andb_true_iff in Hi as [Hi1 Hi2]. apply forallb_Forall in Ht.
  repeat match goal with H : Forall _ (_ :: _) |- _ => apply Forall_cons in H as [? H] end.
  apply newRow_Some. cells; first [by apply store_text|by apply store_int4|by apply store_map|by apply store_bytes|reflexivity|idtac].
  unfold payloadArgs, arg. cbn. destruct (String.eqb (ReplayedFrom p) ""); [done|]. by apply store_text.
Qed.

(** ** Conditions on event rows *)

(** What a clause says of an event. *)
Definition clauseTest (ev : Event) (cv : clause * sqlval) : bool :=
  match cv with
  | (CFrom, VTime t) => negb (tz_round (ev_Timestamp ev) <? tz_round t)
  | (CTo, VTime t) => negb (tz_round t <? tz_round (ev_Timestamp ev))
  | (CMethod, VText s) => String.eqb (ev_Method ev) s
  | (CPath, VText s) => String.eqb (ev_Path ev) s
  | (CRoute, VText s) => String.eqb (ev_RouteName ev) s
  | (CUser, VText s) => String.eqb (ev_UserSubject ev) s
  | (CSession, VText s) => String.eqb (ev_SessionID ev) s
  | (CID, VText s) => String.eqb (ev_ID ev) s
  | (CStatus, VInt z) => ev_Status ev =? z
  | (CSuccess, VBool b) => Bool.eqb (ev_Success ev) b
  | (CSearch, VText p) => ilike (ev_Path ev) p || ilike (ev_ErrorMessage ev) p
  | _ => false
  end.
(** The parameter can be sent. *)
Definition clauseOK (cv : clause * sqlval) : bool :=
  match cv with
  | (CFrom, VTime _) | (CTo, VTime _) | (CSuccess, VBool _) => true
  | (CStatus, VInt z) => int4 z
  | (CFrom, _) | (CTo, _) | (CSuccess, _) | (CStatus, _) => false
  | (_, VText s) => textOK s
  | _ => false
  end.

Lemma bool_decide_VInt a b : bool_decide (VInt a = VInt b) = (a =? b).
Proof. destruct (Z.eqb_spec a b) as [->|E]; [by apply bool_decide_eq_true_2|]. apply bool_decide_eq_false_2. congruence. Qed.
Lemma bool_decide_VBool a b : bool_decide (VBool a = VBool b) = Bool.eqb a b.
Proof. by destruct a, b. Qed.

Lemma eventRow_cols ev :
  col (eventRow ev) "id" = VText (ev_ID ev) /\ col (eventRow ev) "ts" = VTime (tz_round (ev_Timestamp ev)) /\
  col (eventRow ev) "method" = VText (ev_Method ev) /\ col (eventRow ev) "path" = VText (ev_Path ev) /\
  col (eventRow ev) "route_name" = VText (ev_RouteName ev) /\ col (eventRow ev) "user_subject" = VText (ev_UserSubject ev) /\
  col (eventRow ev) "session_id" = VText (ev_SessionID ev) /\ col (eventRow ev) "status" = VInt (ev_Status ev) /\
  col (eventRow ev) "success" = VBool (ev_Success ev) /\ col (eventRow ev) "error_message" = VText (ev_ErrorMessage ev).
Proof. repeat split. Qed.

Lemma eval_clause now args ev c v n : clauseOK (c, v) = true -> arg args n = v -> n <= Z.of_nat (length args) ->
  eval_cond audit_events_def now args (eventRow ev) (clauseCond c n) = Some (clauseTest ev (c, v)) /\
  condOK audit_events_def args (clauseCond c n) = true.
Proof.
  intros Hok Ha Hn. apply Z.leb_le in Hn.
  destruct c, v as [ |s|z|b|t|b|j]; try done; cbn [clauseOK] in Hok;
    cbn [clauseCond eval_cond condOK clauseCol clauseOp]; unfold paramVal; rewrite Ha, Hn;
    match goal with |- context [typeOf audit_events_def ?k] =>
      let t := eval vm_compute in (typeOf audit_events_def k) in change (typeOf audit_events_def k) with t end;
    try change (typeOf audit_events_def "error_message") with (Some SText);
    cbn [mbind option_bind]; rewrite ?(store_text _ Hok), ?(store_int4 _ Hok); cbn [store_value mbind option_bind andb].
  all: split; [|done].
  all: destruct (eventRow_cols ev) as (E1 & E2 & E3 & E4 & E5 & E6 & E7 & E8 & E9 & E10).
  all: rewrite ?E1, ?E2, ?E3, ?E4, ?E5, ?E6, ?E7, ?E8, ?E9, ?E10.
  all: cbn [compare_vals String.eqb Ascii.eqb Bool.eqb val_lt or3].
  all: rewrite ?bool_decide_VText, ?bool_decide_VInt, ?bool_decide_VBool; try done.
  cbn [clauseTest]. by destruct (ilike (ev_Path ev) s), (ilike (ev_ErrorMessage ev) s).
Qed.

Lemma arg_app args1 v args2 i : i = Z.of_nat (length args1) + 1 -> arg (args1 ++ v :: args2)%list i = v.
Proof. intros ->. unfold arg. rewrite Z.add_simpl_r, Nat2Z.id. by rewrite list_lookup_middle. Qed.

Lemma eval_condOf now ev cs : forall c v i args1, forallb clauseOK ((c, v) :: cs) = true -> i = Z.of_nat (length args1) + 1 ->
  let args := (args1 ++ v :: map snd cs)%list in
  eval_cond audit_events_def now args (eventRow ev) (condOf c i cs) = Some (forallb (clauseTest ev) ((c, v) :: cs)) /\
  condOK audit_events_def args (condOf c i cs) = true.
Proof.
  induction cs as [|[c' v'] cs IH]; intros c v i args1 Hok Hi args; cbn [forallb] in Hok; apply andb_true_iff in Hok as [Hc Hok];
    (destruct (eval_clause now args ev c v i Hc) as [He Hk];
      [by apply arg_app|unfold args; rewrite length_app; cbn [length]; lia|]); cbn [condOf].
  - cbn [forallb]. rewrite andb_true_r. done.
  - destruct (IH c' v' (i + 1) (args1 ++ [v])%list Hok) as [He' Hk']; [rewrite length_app; cbn [length]; lia|].
    rewrite <- app_assoc in He', Hk'. cbn [eval_cond condOK]. fold args in He', Hk'. change (([v] ++ v' :: map snd cs)%list) with (v :: map snd ((c', v') :: cs)) in He', Hk'.
    fold args in He', Hk'. rewrite He, He', Hk, Hk'. split; [|done].
    change (forallb (clauseTest ev) ((c, v) :: (c', v') :: cs)) with (clauseTest ev (c, v) && forallb (clauseTest ev) ((c', v') :: cs)).
    by destruct (clauseTest ev (c, v)), (forallb (clauseTest ev) ((c', v') :: cs)).
Qed.

Lemma holds_where now ev cs : forallb clauseOK cs = true ->
  holds audit_events_def now (map snd cs) (whereCond cs) (eventRow ev) = forallb (clauseTest ev) cs /\
  whereOK audit_events_def (map snd cs) (whereCond cs) = true.
Proof.
  intros Hok. destruct cs as [|[c v] cs]; [done|]. destruct (eval_condOf now ev cs c v 1 [] Hok eq_refl) as [He Hk].
  cbn [whereCond holds whereOK]. change ([] ++ v :: map snd cs)%list with (map snd ((c, v) :: cs)) in *. rewrite He, Hk.
  split; [|done]. destruct (forallb (clauseTest ev) ((c, v) :: cs)); done.
Qed.

(** *** The filter *)

(** The table keeps, and compares, instants rounded to microseconds: an event and a filter as it sees
    them. *)
Definition micro (ev : Event) : Event :=
  mkEvent (ev_ID ev) (tz_round (ev_Timestamp ev)) (ev_DurationMS ev) (ev_RequestID ev) (ev_SessionID ev)
    (ev_UserSubject ev) (ev_UserEmail ev) (ev_AuthType ev) (ev_APIKeyName ev) (ev_Method ev) (ev_Path ev)
    (ev_RouteName ev) (ev_EndpointGroup ev) (ev_Status ev) (ev_BytesIn ev) (ev_BytesOut ev)
    (ev_Success ev) (ev_ErrorMessage ev) (ev_ErrorCategory ev) (ev_RemoteAddr ev) (ev_UserAgent ev) (ev_Payload ev).
Definition microFilter (f : QueryFilter) : QueryFilter := qf_window f (tz_round (qf_From f)) (tz_round (qf_To f)).

(** The filters both backends read alike: parameters the columns can hold, a search text of plain
    ASCII without wildcards, no bound within a microsecond of the zero time (which stands for no
    bound), an offset that is an [int]. *)
Record plainFilter (f : QueryFilter) : Prop := {
  pf_times : (tz_round (qf_From f) = 0 -> qf_From f = 0) /\ (tz_round (qf_To f) = 0 -> qf_To f = 0);
  pf_clauses : forallb clauseOK (filterClauses f) = true;
  pf_search : isASCII (qf_Search f) = true /\ plainPattern (qf_Search f) = true;
  pf_offset : qf_Offset f <= maxInt
}.
(** The texts a search looks at fold case alike in both backends; without a search, any do. *)
Definition searchable (f : QueryFilter) (ev : Event) : Prop :=
  qf_Search f = "" \/ (isASCII (ev_Path ev) = true /\ isASCII (ev_ErrorMessage ev) = true).

Lemma if_guard (a b x : bool) : (if a && negb b then false else x) = (negb a || b) && x.
Proof. by destruct a, b. Qed.
Lemma forallb_cond1 {A} (p : A -> bool) b x : forallb p (cond1 b x) = negb b || p x.
Proof. destruct b; simpl; [apply andb_true_r|done]. Qed.

Lemma round_zero t : (tz_round t = 0 -> t = 0) -> IsZero (tz_round t) = IsZero t.
Proof.
  intros Ht. unfold IsZero. destruct (Z.eqb_spec t 0) as [->|Hne]; [rewrite tz_micro by done; done|].
  apply Z.eqb_neq. auto.
Qed.

Lemma search_clause `{UnicodeTables} ev f : isASCII (qf_Search f) = true -> plainPattern (qf_Search f) = true -> searchable f ev ->
  negb (negb (String.eqb (qf_Search f) "")) || clauseTest ev (CSearch, VText ("%" ++ qf_Search f ++ "%")) =
  (negb (negb (String.eqb (qf_Search f) "")) || (Contains (ToLower (ev_Path ev)) (ToLower (qf_Search f)) || Contains (ToLower (ev_ErrorMessage ev)) (ToLower (qf_Search f)))).
Proof.
  intros Hs1 Hs2 [->|[Hp He]]; [done|]. cbn [clauseTest]. by rewrite !ilike_contains.
Qed.

Lemma matchesFilter_clauses `{UnicodeTables} ev f : plainFilter f -> searchable f ev ->
  matchesFilter (micro ev) (microFilter f) = forallb (clauseTest ev) (filterClauses f).
Proof.
  intros [[Hfrom Hto] _ [Hs1 Hs2] _] Hev. unfold filterClauses. rewrite !forallb_app, !forallb_cond1, (search_clause ev f) by done.
  cbn [clauseTest]. rewrite <- (round_zero _ Hfrom), <- (round_zero _ Hto).
  unfold matchesFilter. cbv zeta. cbn [micro microFilter qf_window ev_ID ev_Timestamp ev_Method ev_Path ev_RouteName ev_UserSubject ev_SessionID ev_Status ev_Success ev_ErrorMessage
    qf_From qf_To qf_Method qf_Path qf_RouteName qf_UserID qf_SessionID qf_EventID qf_Status qf_Success qf_Search].
  assert (Eb : (if match qf_Success f with Some b => negb (Bool.eqb (ev_Success ev) b) | None => false end then false
      else (if negb (String.eqb (qf_Search f) "") then
        if negb (Contains (ToLower (ev_Path ev)) (ToLower (qf_Search f))) && negb (Contains (ToLower (ev_ErrorMessage ev)) (ToLower (qf_Search f)))
        then false else true else true)) =
    forallb (clauseTest ev) match qf_Success f with Some b => [(CSuccess, VBool b)] | None => [] end &&
    (negb (negb (String.eqb (qf_Search f) "")) || (Contains (ToLower (ev_Path ev)) (ToLower (qf_Search f)) || Contains (ToLower (ev_ErrorMessage ev)) (ToLower (qf_Search f))))).
  { destruct (qf_Success f) as [b|]; [cbn; destruct (Bool.eqb (ev_Success ev) b)|];
      destruct (String.eqb (qf_Search f) ""), (Contains (ToLower (ev_Path ev)) _), (Contains (ToLower (ev_ErrorMessage ev)) _); done. }
  assert (Et : forall a b x, (if negb a && b then false else x) = (negb (negb a) || negb b) && x :> bool) by (by intros [] [] []).
  rewrite Eb, !if_guard, !Et. apply eq_true_iff_eq. rewrite !andb_true_iff. tauto.
Qed.

(** *** Queries *)

(** What a query returns of an event: the summary columns. *)
Definition summary (ev : Event) : Event := ev_withPayload (micro ev) None.

Lemma scan_summary ev : scanEvent (project eventExprs (eventRow ev)) = Ok (summary ev).
Proof. reflexivity. Qed.
Lemma scanEvents_map l : scanEvents (map (project eventExprs) (map eventRow l)) = Ok (map summary l).
Proof. induction l as [|ev l IH]; [done|]. cbn [map scanEvents]. rewrite scan_summary, IH. done. Qed.

Definition rowOrder (a b : Event) : bool := row_lt eventOrder (eventRow a) (eventRow b).
Definition selected (f : QueryFilter) (m : list Event) : list Event :=
  filter (fun ev => forallb (clauseTest ev) (filterClauses f) = true) m.

Lemma query_selected now f db m : rows db "audit_events" = map eventRow m ->
  forallb clauseOK (filterClauses f) = true -> qf_Offset f <= maxInt ->
  (exists l, l ≡ₚ selected f m /\ ordered rowOrder l /\
     Query Through now f db = Ok (map summary (take (Z.to_nat (effLimit f)) (drop (Z.to_nat (effOffset f)) l)))) /\
  Count Through now f db = Ok (Z.of_nat (length (selected f m))).
Proof.
  intros Hm Hok Hoff. assert (Hflt : filter (fun r => holds audit_events_def now (map snd (filterClauses f)) (whereCond (filterClauses f)) r = true)
      (map eventRow m) = map eventRow (selected f m)).
  { apply filter_map_bool. intros ev. by apply holds_where. }
  assert (Hsel : forall es os, selectOK audit_events_def (map snd (filterClauses f)) es (whereCond (filterClauses f)) os =
    forallb (fun e => known audit_events_def (exprCol e)) (default [] es) && true && forallb (fun o => known audit_events_def o.1) os).
  { intros es os. unfold selectOK. by rewrite (proj2 (holds_where now (NewEvent 0 "" "") _ Hok)). }
  split.
  - destruct (parse_buildSelect f false Hoff) as [Hp Ha].
    pose proof (pg_select now (buildSelect f false).1 (buildSelect f false).2 db _ _ _ _ _ _ Hp eq_refl) as Hsql.
    rewrite Ha, Hsel in Hsql. cbv iota in Hsql. destruct Hsql as (out & Hrun & l & Hl & Hord & Hout).
    rewrite Hm, Hflt in Hl. apply Permutation_map_inv in Hl as (l' & -> & Hl').
    exists l'. split; [by symmetry|]. split; [by apply ordered_map in Hord|].
    unfold Query. rewrite (surjective_pairing (buildSelect f false)). cbn [send]. rewrite Ha, Hrun. subst out. cbn [paged].
    rewrite skipn_map, firstn_map. apply scanEvents_map.
  - destruct (parse_buildSelect f true Hoff) as [Hp Ha].
    pose proof (pg_select now (buildSelect f true).1 (buildSelect f true).2 db _ _ _ _ _ _ Hp eq_refl) as Hsql.
    rewrite Ha, Hsel in Hsql. cbv iota in Hsql. destruct Hsql as (out & Hrun & l & Hl & _ & Hout).
    rewrite Hm, Hflt in Hl. unfold Count. rewrite (surjective_pairing (buildSelect f true)). cbn [send]. rewrite Ha, Hrun.
    subst out. by rewrite Hl, length_map.
Qed.

(** ** Inserting *)

Lemma insertEvent_run now ev db : exists e,
  pg_run now insertEventSQL (eventArgs ev) db =
    match insertInto audit_events_def now (eventArgs ev) "audit_events" eventCols (nums 21) db with
    | Some db' => Ok (db', [], 1) | None => Err e end.
Proof.
  pose proof (pg_insert now insertEventSQL (eventArgs ev) db _ _ _ _ parse_insertEvent eq_refl) as Hrun.
  destruct (insertInto _ _ _ _ _ _ _); [by exists ""|]. destruct Hrun as [e He]. by exists e.
Qed.
Lemma insertPayload_run now id p db : exists e,
  pg_run now insertPayloadSQL (payloadArgs id p) db =
    match insertInto audit_payloads_def now (payloadArgs id p) "audit_payloads" payloadCols (nums 14) db with
    | Some db' => Ok (db', [], 1) | None => Err e end.
Proof.
  pose proof (pg_insert now insertPayloadSQL (payloadArgs id p) db _ _ _ _ parse_insertPayload eq_refl) as Hrun.
  destruct (insertInto _ _ _ _ _ _ _); [by exists ""|]. destruct Hrun as [e He]. by exists e.
Qed.

Lemma insertInto_event now ev db : insertInto audit_events_def now (eventArgs ev) "audit_events" eventCols (nums 21) db =
  r ← newRow now (eventArgs ev) eventCols (nums 21) (td_columns audit_events_def);
  if uniqueOK audit_events_def (rows db "audit_events") r && refsOK audit_events_def db r && indexOK audit_events_def r
  then Some (<["audit_events" := (rows db "audit_events" ++ [r])%list]> db) else None.
Proof. reflexivity. Qed.
Lemma insertInto_payload now id p db :
  insertInto audit_payloads_def now (payloadArgs id p) "audit_payloads" payloadCols (nums 14) db =
  r ← newRow now (payloadArgs id p) payloadCols (nums 14) (td_columns audit_payloads_def);
  if uniqueOK audit_payloads_def (rows db "audit_payloads") r && refsOK audit_payloads_def db r && indexOK audit_payloads_def r
  then Some (<["audit_payloads" := (rows db "audit_payloads" ++ [r])%list]> db) else None.
Proof. reflexivity. Qed.

(** ** The tables that hold a list of events *)

Definition payloadsOf (m : list Event) : list (string * Payload) :=
  omap (fun ev => (fun p => (ev_ID ev, p)) <$> ev_Payload ev) m.
Definition holdsPayload (r : row) (e : string * Payload) : Prop := exists now, r = payloadRow now e.1 e.2.
Record holdsAll (m : list Event) (db : database) : Prop := {
  ha_events : rows db "audit_events" = map eventRow m;
  ha_payloads : Forall2 holdsPayload (rows db "audit_payloads") (payloadsOf m);
  ha_ids : NoDup (map ev_ID m)
}.

(** An event the tables can take after the events [m]: new ID, values the columns hold, and a
    replay reference to an event that is there. *)
Record storable (m : list Event) (ev : Event) : Prop := {
  st_new : ev_ID ev ∉ map ev_ID m;
  st_event : eventOK ev = true;
  st_payload p : ev_Payload ev = Some p -> payloadOK p /\
    (ReplayedFrom p = "" \/ ReplayedFrom p ∈ map ev_ID m \/ ReplayedFrom p = ev_ID ev)
}.

Lemma payloadRow_cols now id p : col (payloadRow now id p) "event_id" = VText id /\
  col (payloadRow now id p) "replayed_from" = (if negb (String.eqb (ReplayedFrom p) "") then VText (ReplayedFrom p) else VNull).
Proof. split; reflexivity. Qed.

Lemma payloadsOf_ids m e : e ∈ payloadsOf m -> e.1 ∈ map ev_ID m.
Proof.
  unfold payloadsOf. intros He. apply list_elem_of_omap in He as (ev & Hev & Hp). destruct (ev_Payload ev); [|done].
  injection Hp as <-. apply (list_elem_of_fmap_2 ev_ID m ev Hev).
Qed.
Lemma present_payload id rs es : Forall2 holdsPayload rs es -> id ∉ map fst es -> present (VText id) "event_id" rs = false.
Proof.
  induction 1 as [|r e rs es [now ->] Hf IH]; intros Hid; [done|]. cbn [map] in Hid. unfold present in *. cbn [existsb].
  rewrite IH by set_solver. rewrite (proj1 (payloadRow_cols now e.1 e.2)), bool_decide_eq_false_2; [done|].
  intros [= E]. set_solver.
Qed.

Lemma eventOK_parts ev : eventOK ev = true -> textOK (ev_ID ev) = true /\ index_entry (ev_ID ev) = true /\
  indexOK audit_events_def (eventRow ev) = true.
Proof.
  unfold eventOK. intros [[[Ht _]%andb_true_iff _]%andb_true_iff Hi]%andb_true_iff. split; [by apply andb_true_iff in Ht as [? _]|].
  split; [by apply andb_true_iff in Hi as [? _]|]. exact Hi.
Qed.
Lemma payload_index now id p : index_entry id = true -> payloadOK p -> indexOK audit_payloads_def (payloadRow now id p) = true.
Proof.
  intros Hid [_ _ _ Hr]. unfold indexOK. cbn [td_indexed audit_payloads_def forallb]. destruct (payloadRow_cols now id p) as [-> ->].
  rewrite Hid. destruct (String.eqb _ _); cbn [negb]; [done|]. by rewrite Hr.
Qed.

Definition healthy : nat -> fate := fun _ => Through.

Lemma ids_snoc x m ev : x ∈ map ev_ID (m ++ [ev])%list <-> x ∈ map ev_ID m \/ x = ev_ID ev.
Proof. rewrite map_app, elem_of_app. cbn [map]. by rewrite list_elem_of_singleton. Qed.

Lemma log_holds now ev m db : holdsAll m db -> ev_ID ev <> "" -> storable m ev ->
  exists db', Store.Log healthy now "" ev db = (db', None) /\ holdsAll (m ++ [ev])%list db'.
Proof.
  intros [He Hp Hnd] Hid [Hnew Hok Hpay]. unfold Store.Log, healthy. rewrite (proj2 (String.eqb_neq _ _) Hid). cbn [send].
  destruct (insertEvent_run now ev db) as [e ->]. rewrite insertInto_event, newRow_event by done. cbn [mbind option_bind].
  assert (Hu : uniqueOK audit_events_def (rows db "audit_events") (eventRow ev) = true).
  { cbn [uniqueOK td_unique audit_events_def forallb]. rewrite He, (proj1 (eventRow_cols ev)).
    rewrite (present_map eventRow ev_ID) by (intros; apply eventRow_cols). by rewrite (bool_decide_eq_false_2 _ Hnew). }
  destruct (eventOK_parts ev Hok) as (Htid & Hixid & Hix).
  rewrite Hu, Hix. cbn [refsOK td_refs audit_events_def forallb andb].
  set (tx := <["audit_events" := _]> db).
  assert (Hev : rows tx "audit_events" = map eventRow (m ++ [ev])%list) by (unfold tx; by rewrite rows_insert, He, map_app).
  assert (Hpl : rows tx "audit_payloads" = rows db "audit_payloads") by (unfold tx; by rewrite rows_insert_ne).
  assert (Hnd' : NoDup (map ev_ID (m ++ [ev])%list)).
  { rewrite map_app. apply NoDup_app. split; [done|]. split; [|apply NoDup_singleton].
    intros x Hx Hx'%list_elem_of_singleton. by subst x. }
  unfold payloadsOf in Hp. destruct (ev_Payload ev) as [p|] eqn:Ep.
  - destruct (Hpay p eq_refl) as [Hpok Href]. unfold insertPayload. cbn [send].
    destruct (insertPayload_run now (ev_ID ev) p tx) as [e' ->]. rewrite insertInto_payload, newRow_payload;
      [|done|done]. cbn [mbind option_bind].
    destruct (payloadRow_cols now (ev_ID ev) p) as [Hc1 Hc2].
    assert (Hu2 : uniqueOK audit_payloads_def (rows tx "audit_payloads") (payloadRow now (ev_ID ev) p) = true).
    { cbn [uniqueOK td_unique audit_payloads_def forallb]. rewrite Hc1, Hpl, (present_payload _ _ _ Hp); [done|].
      intros Hin. apply list_elem_of_fmap in Hin as (e0 & E & Hin). apply payloadsOf_ids in Hin. rewrite <- E in Hin. done. }
    assert (Hr2 : refsOK audit_payloads_def tx (payloadRow now (ev_ID ev) p) = true).
    { cbn [refsOK td_refs audit_payloads_def forallb]. rewrite Hc1, Hc2, Hev, (present_map eventRow ev_ID) by (intros; apply eventRow_cols).
      rewrite (bool_decide_eq_true_2 (ev_ID ev ∈ _)) by (apply ids_snoc; by right).
      destruct (String.eqb_spec (ReplayedFrom p) "") as [E|E]; [done|]. cbn [negb].
      rewrite (present_map eventRow ev_ID) by (intros; apply eventRow_cols).
      rewrite (bool_decide_eq_true_2 (ReplayedFrom p ∈ _)); [done|]. apply ids_snoc. by destruct Href. }
    rewrite Hu2, Hr2, payload_index by done. cbn [andb commit]. eexists. split; [done|]. split; [by rewrite rows_insert_ne| |done].
    rewrite rows_insert. unfold payloadsOf. rewrite omap_app. cbn. rewrite Ep. cbn. rewrite Hpl.
    apply Forall2_app; [done|]. constructor; [by exists now|constructor].
  - cbn [commit]. eexists. split; [done|]. split; [done| |done].
    unfold payloadsOf. rewrite omap_app. cbn. rewrite Ep. cbn. by rewrite app_nil_r, Hpl.
Qed.

(** ** Reading a payload back *)

Definition payloadExprs : list sexpr :=
  [Col "request_headers"; Col "request_query"; Coalesce "request_content_type"; Col "request_body"; Col "request_size_bytes";
   Col "request_truncated"; Coalesce "request_remote_addr"; Col "response_headers"; Coalesce "response_content_type";
   Col "response_body"; Col "response_size_bytes"; Col "response_truncated"; Coalesce "replayed_from"].
Definition byEventID : cond := Cmp "=" "event_id" (Param 1).
Lemma parse_getPayload : parseSQL getPayloadSQL = Some (SSelect (Some payloadExprs) "audit_payloads" (Some byEventID) [] None).
Proof. reflexivity. Qed.

Lemma scan_map m : mapValid textOK m -> exists b, scanBytes (mapCell m) = Some b /\ scanMap b = m.
Proof.
  intros Hm. unfold mapCell. destruct (bool_decide_reflect (m = ∅)) as [->|Hne]; [by exists ""|].
  destruct (jsonb_keeps m Hm) as (t & Ht & Hne' & Hu). rewrite Ht. exists t. split; [done|]. unfold scanMap.
  destruct (Z.ltb_spec 0 (len t)) as [_|Hl]; [done|]. exfalso. apply Hne', len_zero. pose proof (len_nonneg t). lia.
Qed.
Lemma scan_bytes b : scanBytes (bytesOrNull b) = Some b.
Proof.
  unfold bytesOrNull. destruct (Z.ltb_spec 0 (len b)) as [_|Hl]; [done|].
  cbn. f_equal. symmetry. apply len_zero. pose proof (len_nonneg b). lia.
Qed.

Lemma scan_payload now id p : payloadOK p -> scanPayload (project payloadExprs (payloadRow now id p)) = Some p.
Proof.
  intros [(Hm1 & Hm2 & Hm3) _ _ _]. destruct (scan_map _ Hm1) as (b1 & E1 & F1), (scan_map _ Hm2) as (b2 & E2 & F2), (scan_map _ Hm3) as (b3 & E3 & F3).
  assert (Ep : project payloadExprs (payloadRow now id p) =
    [mapCell (RequestHeaders p); mapCell (RequestQuery p); VText (RequestContentType p); bytesOrNull (RequestBody p);
     VInt (RequestSizeBytes p); VBool (RequestTruncated p); VText (RequestRemoteAddr p);
     mapCell (ResponseHeaders p); VText (ResponseContentType p); bytesOrNull (ResponseBody p);
     VInt (ResponseSizeBytes p); VBool (ResponseTruncated p); VText (ReplayedFrom p)]).
  { cbn [project payloadExprs map project1]. rewrite (proj2 (payloadRow_cols now id p)).
    destruct (String.eqb_spec (ReplayedFrom p) "") as [->|_]; reflexivity. }
  rewrite Ep. unfold scanPayload. rewrite E1, E2, E3, !scan_bytes. cbn [mbind option_bind]. rewrite F1, F2, F3. by destruct p.
Qed.

Lemma getPayload_find m id : NoDup (map ev_ID m) ->
  filter (fun e => e.1 = id) (payloadsOf m) = match getPayload_loop m id with Some p => [(id, p)] | None => [] end.
Proof.
  induction m as [|ev m IH]; intros Hnd; [done|]. cbn [map] in Hnd. apply NoDup_cons in Hnd as [Hid Hnd].
  cbn [getPayload_loop]. destruct (String.eqb_spec (ev_ID ev) id) as [E|E].
  - subst id. assert (Hno : filter (fun e => e.1 = ev_ID ev) (payloadsOf m) = []).
    { apply elem_of_nil_inv. intros e [Hc He]%list_elem_of_filter. apply payloadsOf_ids in He. rewrite Hc in He. done. }
    change (payloadsOf (ev :: m)) with (match (fun p => (ev_ID ev, p)) <$> ev_Payload ev with Some y => y :: payloadsOf m | None => payloadsOf m end).
    destruct (ev_Payload ev) as [p|]; cbn [fmap option_fmap option_map]; [|done]. rewrite filter_cons_True by done. by rewrite Hno.
  - change (payloadsOf (ev :: m)) with (match (fun p => (ev_ID ev, p)) <$> ev_Payload ev with Some y => y :: payloadsOf m | None => payloadsOf m end).
    destruct (ev_Payload ev) as [p|]; cbn [fmap option_fmap option_map]; [|by apply IH]. rewrite filter_cons_False by done. by apply IH.
Qed.

Lemma filter_holds now id rs es : textOK id = true -> Forall2 holdsPayload rs es ->
  Forall2 holdsPayload (filter (fun r => holds audit_payloads_def now [VText id] (Some byEventID) r = true) rs)
                       (filter (fun e => e.1 = id) es).
Proof.
  intros Hid. induction 1 as [|r e rs es [now' ->] Hf IH]; [constructor|].
  assert (Eh : holds audit_payloads_def now [VText id] (Some byEventID) (payloadRow now' e.1 e.2) = String.eqb e.1 id).
  { unfold holds, byEventID. cbn [eval_cond]. unfold paramVal. change (typeOf audit_payloads_def "event_id") with (Some SText).
    cbn [mbind option_bind]. change (arg [VText id] 1) with (VText id). rewrite store_text by done. cbn [mbind option_bind].
    rewrite (proj1 (payloadRow_cols now' e.1 e.2)). cbn [compare_vals String.eqb Ascii.eqb Bool.eqb]. rewrite bool_decide_VText.
    by destruct (String.eqb e.1 id). }
  rewrite !filter_cons, Eh. destruct (String.eqb_spec e.1 id) as [E|E]; rewrite ?decide_True, ?decide_False by done;
    repeat case_decide; try done. constructor; [by exists now'|done].
Qed.

Lemma getPayload_holds now m db id : holdsAll m db -> (forall ev p, ev ∈ m -> ev_Payload ev = Some p -> payloadOK p) ->
  textOK id = true -> Store.GetPayload Through now id db = Ok (getPayload_loop m id).
Proof.
  intros [He Hp Hnd] Hok Hid. unfold Store.GetPayload. cbn [send].
  pose proof (pg_select now getPayloadSQL [VText id] db _ _ _ _ _ _ parse_getPayload eq_refl) as Hsql.
  assert (Hsel : selectOK audit_payloads_def [VText id] (Some payloadExprs) (Some byEventID) [] = true).
  { unfold selectOK, whereOK, byEventID. cbn [condOK]. unfold paramVal. change (typeOf audit_payloads_def "event_id") with (Some SText).
    cbn [mbind option_bind]. change (arg [VText id] 1) with (VText id). by rewrite store_text. }
  rewrite Hsel in Hsql. destruct Hsql as (out & Hrun & l & Hl & _ & Hout). rewrite Hrun. subst out. cbn [paged].
  pose proof (filter_holds now id _ _ Hid Hp) as Hf. rewrite getPayload_find in Hf by done.
  destruct (getPayload_loop m id) as [p|] eqn:Eg.
  - apply Forall2_cons_inv_r in Hf as (r & rs & [now' ->] & ->%Forall2_nil_inv_r & E1). rewrite E1 in Hl.
    rewrite (Permutation_length_1_inv (symmetry Hl)). cbn [map]. cbn [fst snd]. rewrite scan_payload; [done|].
    assert (Hin : (id, p) ∈ payloadsOf m).
    { assert (Hin : (id, p) ∈ filter (fun e => e.1 = id) (payloadsOf m)) by (rewrite getPayload_find, Eg by done; set_solver).
      by apply list_elem_of_filter in Hin as [_ Hin]. }
    apply list_elem_of_omap in Hin as (ev & Hev & Hpe). destruct (ev_Payload ev) eqn:Epl; [|done]. injection Hpe as _ <-. by apply (Hok ev).
  - apply Forall2_nil_inv_r in Hf. rewrite Hf in Hl. apply Permutation_nil_r in Hl as ->. done.
Qed.
End Rows.
