(* ===== verification/PgAudit.v ===== *)
(** * Theorems on the Postgres audit store

    Atomicity of [Log] under connection failures, refinement of the in-memory log, and the requests
    whose audit event the store refuses. *)
From S2P Require Import Prelude GoStrings GoNum GoTime GoUrl Json JsonParse AuditEvent MemoryLog Sql PgStore PgRows.
From S2P Require Import Http ServeMux Registry Inbound Middleware.
Import Store.

Section Theorems.
Context `{Postgres} `{UnicodeTables} `{SortSlice}.

Definition withNewID (newID : string) (ev : Event) : Event := if String.eqb (ev_ID ev) "" then ev_withID ev newID else ev.

Lemma newRow_col td now args cols ps r k v : newRow now args cols ps (td_columns td) = Some r ->
  NoDup (map cl_name (td_columns td)) -> k ∈ td_columns td -> cellOf now args cols ps k = Some v -> col r (cl_name k) = v.
Proof. intros Hr Hnd Hk Hv. unfold col. by rewrite (newRow_lookup _ _ _ _ _ _ _ Hr Hnd Hk), Hv. Qed.

Lemma insertEvent_adds now ev db db' : insertInto audit_events_def now (eventArgs ev) "audit_events" eventCols (nums 21) db = Some db' ->
  exists r, db' = <["audit_events" := (rows db "audit_events" ++ [r])%list]> db /\ col r "id" = VText (ev_ID ev) /\
    present (VText (ev_ID ev)) "id" (rows db "audit_events") = false.
Proof.
  intros Hi. apply insertInto_Some in Hi as (r & Hr & -> & Hu & _). exists r. split; [done|].
  set (k := mkColumn "id" SText true DNull). assert (Hk : k ∈ td_columns audit_events_def) by (apply list_elem_of_lookup; by exists 0%nat).
  assert (Hnd : NoDup (map cl_name (td_columns audit_events_def))) by (apply (bool_decide_eq_true_1 (NoDup _)); by vm_compute).
  pose proof (newRow_lookup _ _ _ _ _ _ _ Hr Hnd Hk) as Hl. destruct (cellOf _ _ _ _ k) as [v|] eqn:Ec.
  - assert (v = VText (ev_ID ev)) as ->.
    { by apply (cell_text _ _ _ _ k (ev_ID ev)) in Ec. }
    assert (Hc : col r "id" = VText (ev_ID ev)) by (unfold col; change (r !! "id") with (r !! cl_name k); by rewrite Hl). split; [done|].
    unfold uniqueOK in Hu. cbn [td_unique audit_events_def forallb] in Hu. rewrite Hc in Hu. cbn [bool_decide] in Hu.
    rewrite bool_decide_eq_false_2 in Hu by done. rewrite andb_true_r in Hu. by apply negb_true_iff in Hu.
  - pose proof (newRow_None now (eventArgs ev) eventCols (nums 21) _ k Hk Ec). congruence.
Qed.

Lemma payload_cells now id p r : newRow now (payloadArgs id p) payloadCols (nums 14) (td_columns audit_payloads_def) = Some r ->
  col r "event_id" = VText id /\
  col r "replayed_from" = (if negb (String.eqb (ReplayedFrom p) "") then VText (ReplayedFrom p) else VNull).
Proof.
  intros Hr. assert (Hnd : NoDup (map cl_name (td_columns audit_payloads_def))) by (apply (bool_decide_eq_true_1 (NoDup _)); by vm_compute).
  set (k1 := mkColumn "event_id" SText true DNull). set (k2 := mkColumn "replayed_from" SText false DNull).
  assert (Hk1 : k1 ∈ td_columns audit_payloads_def) by (apply list_elem_of_lookup; by exists 0%nat).
  assert (Hk2 : k2 ∈ td_columns audit_payloads_def) by (apply list_elem_of_lookup; by exists 13%nat).
  destruct (cellOf now (payloadArgs id p) payloadCols (nums 14) k1) as [v1|] eqn:E1;
    [|by rewrite (newRow_None _ _ _ _ _ k1 Hk1 E1) in Hr].
  destruct (cellOf now (payloadArgs id p) payloadCols (nums 14) k2) as [v2|] eqn:E2;
    [|by rewrite (newRow_None _ _ _ _ _ k2 Hk2 E2) in Hr].
  change (col r "event_id") with (col r (cl_name k1)). change (col r "replayed_from") with (col r (cl_name k2)).
  rewrite (newRow_col audit_payloads_def _ _ _ _ _ _ _ Hr Hnd Hk1 E1), (newRow_col audit_payloads_def _ _ _ _ _ _ _ Hr Hnd Hk2 E2).
  split; [by apply (cell_text _ _ _ _ k1 id) in E1|].
  assert (Ea : arg (payloadArgs id p) 14 = if negb (String.eqb (ReplayedFrom p) "") then VText (ReplayedFrom p) else VNull) by done.
  destruct (String.eqb (ReplayedFrom p) "") eqn:En; cbn [negb] in *.
  - unfold cellOf in E2. change (lookupParam _ _ _ _) with (Some (arg (payloadArgs id p) 14)) in E2. rewrite Ea in E2. by injection E2 as <-.
  - by apply (cell_text _ _ _ _ k2 (ReplayedFrom p)) in E2.
Qed.

(** C21: an event and its payload are stored together or not at all.  Whatever happens to the
    connection at any of the round trips, [Log] leaves the tables as they were and reports an
    error, or it has added one event row under an ID that was not there together with one payload
    row that references it (none when the event has no payload).  Only when the answer to the commit is
    lost is an error reported for an event that is stored. *)
Theorem log_atomic (fates : nat -> fate) (now : Time) (newID : string) (ev : Event) (db : database) :
  let out := Store.Log fates now newID ev db in
  let ev' := withNewID newID ev in
  (out.1 = db /\ out.2 <> None) \/
  (exists re, rows out.1 "audit_events" = (rows db "audit_events" ++ [re])%list /\ col re "id" = VText (ev_ID ev') /\
     present (VText (ev_ID ev')) "id" (rows db "audit_events") = false /\
     (out.2 = None \/ exists e, fates 3%nat = Lost e) /\
     match ev_Payload ev' with
     | None => rows out.1 "audit_payloads" = rows db "audit_payloads"
     | Some _ => exists rp, rows out.1 "audit_payloads" = (rows db "audit_payloads" ++ [rp])%list /\
                            col rp "event_id" = VText (ev_ID ev')
     end).
Proof.
  cbv zeta. unfold Store.Log. fold (withNewID newID ev). set (ev' := withNewID newID ev).
  destruct (fates 0%nat); [|by left|by left]. destruct (fates 1%nat); [|by left|by left]. cbn [send].
  destruct (insertEvent_run now ev' db) as [e ->].
  destruct (insertInto _ _ _ "audit_events" _ _ _) as [tx|] eqn:Ei; [|by left].
  apply insertEvent_adds in Ei as (re & -> & Hid & Hnew). set (tx := <["audit_events" := _]> db).
  assert (Hcommit : forall tx', rows tx' "audit_events" = (rows db "audit_events" ++ [re])%list -> forall P,
    ((commit (fates 3%nat) tx' db).1 = db /\ (commit (fates 3%nat) tx' db).2 <> None) \/
    (P tx' -> exists re, rows (commit (fates 3%nat) tx' db).1 "audit_events" = (rows db "audit_events" ++ [re])%list /\ col re "id" = VText (ev_ID ev') /\
     present (VText (ev_ID ev')) "id" (rows db "audit_events") = false /\
     ((commit (fates 3%nat) tx' db).2 = None \/ exists e, fates 3%nat = Lost e) /\ P (commit (fates 3%nat) tx' db).1)).
  { intros tx' Htx P. destruct (fates 3%nat) as [|e'|e']; cbn [commit fst snd].
    - right. intros HP. exists re. split_and!; try done. by left.
    - by left.
    - right. intros HP. exists re. split_and!; try done. right. by exists e'. }
  assert (Hre : rows tx "audit_events" = (rows db "audit_events" ++ [re])%list) by apply rows_insert.
  assert (Hpl : rows tx "audit_payloads" = rows db "audit_payloads") by (by apply rows_insert_ne).
  destruct (ev_Payload ev') as [p|] eqn:Ep.
  - unfold insertPayload. destruct (fates 2%nat); [|by left|by left]. cbn [send].
    destruct (insertPayload_run now (ev_ID ev') p tx) as [e' ->].
    destruct (insertInto _ _ _ "audit_payloads" _ _ _) as [tx'|] eqn:Ei'; [|by left].
    apply insertInto_Some in Ei' as (rp & Hrp & -> & _ & _). apply payload_cells in Hrp as [Hrp _].
    destruct (Hcommit (<["audit_payloads" := (rows tx "audit_payloads" ++ [rp])%list]> tx) ltac:(by rewrite rows_insert_ne)
      (fun d => exists rp, rows d "audit_payloads" = (rows db "audit_payloads" ++ [rp])%list /\ col rp "event_id" = VText (ev_ID ev')))
      as [?|Hc]; [by left|]. right. apply Hc. exists rp. by rewrite rows_insert, Hpl.
  - destruct (Hcommit tx Hre (fun d => rows d "audit_payloads" = rows db "audit_payloads")) as [?|Hc]; [by left|]. right. by apply Hc.
Qed.

(** ** Refinement of the in-memory log *)

(** The same events logged one after the other, the i-th at the server's time [nows i]. *)
Fixpoint logAll (evs : list (Time * Event)) (db : database) : database :=
  match evs with [] => db | (now, ev) :: evs' => logAll evs' (Store.Log healthy now "" ev db).1 end.
Definition memoryOf (evs : list (Time * Event)) : MemoryLogger :=
  foldl (fun m e => match MemoryLog.Log "" e.2 m with Ok m' => m' | Err _ => m end) NewMemoryLogger evs.

Lemma memoryOf_events evs : Forall (fun e => ev_ID e.2 <> "") evs -> ml_events (memoryOf evs) = map snd evs.
Proof.
  intros Hid. unfold memoryOf. assert (Hg : forall m, ml_events (foldl (fun m e => match MemoryLog.Log "" e.2 m with Ok m' => m' | Err _ => m end) m evs)
    = (ml_events m ++ map snd evs)%list); [|by rewrite Hg].
  induction Hid as [|e evs He Hid IH]; intros m; cbn [foldl map]; [by rewrite app_nil_r|]. rewrite IH. unfold MemoryLog.Log.
  rewrite (proj2 (String.eqb_neq _ _) He). cbn [ml_events]. by rewrite <- app_assoc.
Qed.

Lemma logAll_holds evs : forall m db, holdsAll m db ->
  (forall pre e post, evs = (pre ++ e :: post)%list -> ev_ID e.2 <> "" /\ storable (m ++ map snd pre)%list e.2) ->
  holdsAll (m ++ map snd evs)%list (logAll evs db).
Proof.
  induction evs as [|[now ev] evs IH]; intros m db Hm Hst; cbn [map logAll]; [by rewrite app_nil_r|].
  destruct (Hst [] (now, ev) evs eq_refl) as [Hid Hs]. cbn [map] in Hs. rewrite app_nil_r in Hs.
  destruct (log_holds now ev m db Hm Hid Hs) as (db' & -> & Hm'). cbn [fst snd].
  change (m ++ ev :: map snd evs)%list with (m ++ [ev] ++ map snd evs)%list. rewrite app_assoc. apply IH; [done|].
  intros pre e post E. rewrite <- app_assoc. apply (Hst ((now, ev) :: pre) e post). by rewrite E.
Qed.

(** Among events of one microsecond, the server's collation orders the IDs by their bytes. *)
Definition byteOrderTies (m : list Event) : Prop := forall a b, a ∈ m -> b ∈ m ->
  tz_round (ev_Timestamp a) = tz_round (ev_Timestamp b) -> collate (ev_ID a) (ev_ID b) = str_ltb (ev_ID a) (ev_ID b).

Lemma rowOrder_event_less m a b : byteOrderTies m -> a ∈ m -> b ∈ m -> rowOrder a b = event_less (micro a) (micro b).
Proof.
  intros Hm Ha Hb. unfold rowOrder, event_less, eventOrder. cbn [row_lt micro ev_Timestamp ev_ID].
  destruct (eventRow_cols a) as (A1 & A2 & _), (eventRow_cols b) as (B1 & B2 & _). rewrite A1, A2, B1, B2. cbn [val_lt].
  set (ta := tz_round (ev_Timestamp a)) in *. set (tb := tz_round (ev_Timestamp b)) in *.
  destruct (Z.ltb_spec tb ta), (Z.ltb_spec ta tb), (Z.eqb_spec ta tb) as [E|]; try lia; try done. cbn [negb].
  rewrite (Hm a b), (Hm b a) by (done || by symmetry).
  destruct (str_ltb (ev_ID a) (ev_ID b)) eqn:E'; [done|]. by destruct (str_ltb (ev_ID b) (ev_ID a)).
Qed.

Lemma micro_ids m : map ev_ID (map micro m) = map ev_ID m.
Proof. by rewrite map_map. Qed.

Lemma ordered_fmap {A B} (g : A -> B) (less : B -> B -> bool) l : ordered (fun x y => less (g x) (g y)) l -> ordered less (map g l).
Proof. unfold ordered. induction 1 as [|x l Hl IH Hx]; cbn [map]; [constructor|]. constructor; [done|]. by rewrite Forall_map. Qed.

(** The order of the rows is that of the in-memory log, and what the table selects is what it matches. *)
Lemma selected_matchAll f m l : plainFilter f -> (forall ev, ev ∈ m -> searchable f ev) -> byteOrderTies m -> NoDup (map ev_ID m) ->
  l ≡ₚ selected f m -> ordered rowOrder l -> map micro l = matchAll (mkMemoryLogger (map micro m)) (microFilter f).
Proof.
  intros Hf Htexts Hties Hnd Hl Hord.
  assert (Hsub : forall ev, ev ∈ l -> ev ∈ m) by (intros ev; rewrite Hl; intros [_ ?]%list_elem_of_filter; done).
  assert (Hflt : filter (fun ev => matchesFilter ev (microFilter f) = true) (map micro m) = map micro (selected f m)).
  { clear - Hf Htexts. induction m as [|x m IH]; [done|]. unfold selected in *. cbn [map]. rewrite !filter_cons.
    rewrite IH by (intros ev Hev; apply Htexts; by apply list_elem_of_further).
    rewrite matchesFilter_clauses by (try done; apply Htexts, list_elem_of_here).
    by case_decide. }
  apply ordered_unique.
  - intros x y (x' & -> & Hx%Hsub)%list_elem_of_fmap (y' & -> & Hy%Hsub)%list_elem_of_fmap E. f_equal. by apply (NoDup_map_inj ev_ID m).
  - apply ordered_fmap. revert Hord. apply ordered_ext. intros x y Hx%Hsub Hy%Hsub. by apply (rowOrder_event_less m).
  - apply sort_slice_sorted, _.
  - unfold matchAll. cbn [ml_events]. by rewrite sort_slice_perm, Hflt, Hl.
Qed.

Lemma payload_loop_micro m id : getPayload_loop (map micro m) id = getPayload_loop m id.
Proof. induction m as [|ev m IH]; [done|]. cbn [map getPayload_loop]. by rewrite IH. Qed.

(** Tables that hold events answer as an in-memory log of them does, in microseconds. *)
Lemma holds_refines (m : list Event) (db : database) (f : QueryFilter) (now : Time) : holdsAll m db ->
  (forall ev, ev ∈ m -> searchable f ev) -> byteOrderTies m -> plainFilter f ->
  Store.Query Through now f db =
    map (fun ev => ev_withPayload ev None) <$> MemoryLog.Query (microFilter f) (mkMemoryLogger (map micro m)) /\
  Store.Count Through now f db = MemoryLog.Count (microFilter f) (mkMemoryLogger (map micro m)).
Proof.
  intros [Hrows _ Hnd] Htexts Hties Hf. pose proof Hf as [_ Hclauses _ Hoff].
  destruct (query_selected now f _ m Hrows Hclauses Hoff) as [(l & Hl & Hord & ->) ->].
  pose proof (selected_matchAll f m l Hf Htexts Hties Hnd Hl Hord) as El. split.
  - rewrite query_eq, <- El. cbn [fmap res_fmap]. f_equal. unfold summary. change (effLimit (microFilter f)) with (effLimit f).
    change (effOffset (microFilter f)) with (effOffset f). rewrite skipn_map, firstn_map. by rewrite map_map.
  - unfold MemoryLog.Count. by rewrite <- El, length_map, Hl.
Qed.

(** C22: the Postgres store refines the in-memory log.  Log events, each with an ID of its own and
    values the columns and their indexes can hold, into empty tables, and the same events with their
    timestamps rounded to microseconds into an empty in-memory log.  Every query with plain
    parameters answers with the summaries of the same events in the same order on every page as the
    in-memory log does for the query with its bounds rounded, every count is the same, and every
    payload is read back as it was logged.  Plain is: parameters the columns can hold, and a search
    text, if any, of ASCII without [%], [_] and backslash over paths and error messages in ASCII.  The
    collation has to order the IDs of events of the same microsecond by their bytes. *)
Theorem pg_refines_memory (evs : list (Time * Event)) (f : QueryFilter) (now : Time)
  (Hst : forall pre e post, evs = (pre ++ e :: post)%list ->
    ev_ID e.2 <> "" /\ storable (map snd pre) e.2 /\ searchable f e.2)
  (Hties : byteOrderTies (map snd evs)) (Hf : plainFilter f) :
  let mem := memoryOf (map (fun e => (e.1, micro e.2)) evs) in
  Store.Query Through now f (logAll evs ∅) = map (fun ev => ev_withPayload ev None) <$> MemoryLog.Query (microFilter f) mem /\
  Store.Count Through now f (logAll evs ∅) = MemoryLog.Count (microFilter f) mem /\
  forall id, textOK id = true -> Store.GetPayload Through now id (logAll evs ∅) = MemoryLog.GetPayload id mem.
Proof.
  intros mem. assert (Hin : forall ev, ev ∈ map snd evs -> exists pre post e, evs = (pre ++ e :: post)%list /\ e.2 = ev).
  { intros ev (e & -> & (pre & post & E)%list_elem_of_split)%list_elem_of_fmap. by exists pre, post, e. }
  assert (Hmem : mem = mkMemoryLogger (map micro (map snd evs))).
  { enough (ml_events mem = map micro (map snd evs)) by (destruct mem; cbn in *; by subst). unfold mem. rewrite memoryOf_events, !map_map; [done|].
    apply Forall_map, Forall_forall. intros e (pre & post & E)%list_elem_of_split. by apply (Hst pre e post). }
  assert (Hh : holdsAll (map snd evs) (logAll evs ∅)).
  { apply (logAll_holds evs [] ∅); [split; [done|constructor|constructor]|]. intros pre e post E. by destruct (Hst pre e post E) as (? & ? & _). }
  destruct (holds_refines _ _ f now Hh) as [Hq Hc]; [|done|done|].
  - intros ev (pre & post & e & E & <-)%Hin. by apply (Hst pre e post).
  - rewrite Hmem. split; [done|]. split; [done|]. intros id Hid. unfold MemoryLog.GetPayload. cbn [ml_events]. rewrite payload_loop_micro.
    apply getPayload_holds; [done| |done]. intros ev p (pre & post & e & E & <-)%Hin Hpe. by apply (Hst pre e post).
Qed.

(** ** Requests that leave no trace *)

Lemma log_bad_text now newID ev db c s : c ∈ ["path"; "user_agent"] -> textOK s = false ->
  (c = "path" -> ev_Path ev = s) -> (c = "user_agent" -> ev_UserAgent ev = s) ->
  exists e, Store.Log healthy now newID ev db = (db, Some e).
Proof.
  intros Hc Hs Hp Hu. unfold Store.Log. fold (withNewID newID ev). set (ev' := withNewID newID ev). cbn [healthy send].
  assert (Hp' : ev_Path ev' = ev_Path ev /\ ev_UserAgent ev' = ev_UserAgent ev) by (unfold ev', withNewID; by destruct (String.eqb _ _)).
  destruct Hp' as [Ep Eu]. destruct (insertEvent_run now ev' db) as [e ->]. rewrite insertInto_event.
  assert (Hnone : newRow now (eventArgs ev') eventCols (nums 21) (td_columns audit_events_def) = None); [|rewrite Hnone; by eexists].
  set_unfold in Hc. destruct Hc as [->|[->|[]]].
  - apply (newRow_None _ _ _ _ _ (mkColumn "path" SText true DNull)); [apply list_elem_of_lookup; by exists 10%nat|].
    apply (cell_text_bad _ _ _ _ _ (ev_Path ev')); [done|by rewrite Ep, Hp|done].
  - apply (newRow_None _ _ _ _ _ (mkColumn "user_agent" SText false DNull)); [apply list_elem_of_lookup; by exists 20%nat|].
    apply (cell_text_bad _ _ _ _ _ (ev_UserAgent ev')); [done|by rewrite Eu, Hu|done].
Qed.

(** An indexed path that makes too large an index entry. *)
Lemma log_long_path now newID ev db : index_entry (ev_Path ev) = false -> exists e, Store.Log healthy now newID ev db = (db, Some e).
Proof.
  intros Hp. unfold Store.Log. fold (withNewID newID ev). set (ev' := withNewID newID ev). cbn [healthy send].
  assert (Ep : ev_Path ev' = ev_Path ev) by (unfold ev', withNewID; by destruct (String.eqb _ _)).
  destruct (insertEvent_run now ev' db) as [e ->]. rewrite insertInto_event. destruct (newRow _ _ _ _ _) as [r|] eqn:Er; [|by eexists].
  cbn [mbind option_bind]. set (k := mkColumn "path" SText true DNull).
  assert (Hk : k ∈ td_columns audit_events_def) by (apply list_elem_of_lookup; by exists 10%nat).
  assert (Hnd : NoDup (map cl_name (td_columns audit_events_def))) by (apply (bool_decide_eq_true_1 (NoDup _)); by vm_compute).
  assert (Hcol : col r "path" = VText (ev_Path ev')).
  { destruct (cellOf now (eventArgs ev') eventCols (nums 21) k) as [v|] eqn:Ec; [|by rewrite (newRow_None _ _ _ _ _ k Hk Ec) in Er].
    change (col r "path") with (col r (cl_name k)). rewrite (newRow_col audit_events_def _ _ _ _ _ _ _ Er Hnd Hk Ec).
    by apply (cell_text _ _ _ _ k (ev_Path ev')) in Ec. }
  assert (Hix : indexOK audit_events_def r = false); [|rewrite Hix, andb_false_r; by eexists].
  unfold indexOK. cbn [td_indexed audit_events_def forallb]. rewrite Hcol, Ep, Hp. by rewrite !andb_false_r.
Qed.

Lemma log_dangling now newID ev p db : ev_ID ev = "" -> ev_Payload ev = Some p -> ReplayedFrom p <> "" -> ReplayedFrom p <> newID ->
  present (VText (ReplayedFrom p)) "id" (rows db "audit_events") = false ->
  exists e, Store.Log healthy now newID ev db = (db, Some e).
Proof.
  intros Hid Hp Hne Hnew Habs. unfold Store.Log. rewrite Hid. cbn [String.eqb healthy send].
  destruct (insertEvent_run now (ev_withID ev newID) db) as [e ->].
  destruct (insertInto _ _ _ "audit_events" _ _ _) as [tx|] eqn:Ei; [|by eexists].
  apply insertEvent_adds in Ei as (re & -> & Hre & _). cbn [ev_withID ev_ID ev_Payload] in *. rewrite Hp.
  unfold insertPayload, healthy. cbn [send]. match goal with |- context [pg_run _ _ _ ?d] => set (tx := d) end.
  destruct (insertPayload_run now newID p tx) as [e' ->].
  destruct (insertInto _ _ _ "audit_payloads" _ _ _) as [tx'|] eqn:Ei'; [|by eexists].
  apply insertInto_Some in Ei' as (rp & Hrp & _ & _ & Href & _). apply payload_cells in Hrp as [_ Hrp].
  unfold refsOK in Href. cbn [td_refs audit_payloads_def forallb] in Href. rewrite andb_true_r in Href.
  apply andb_true_iff in Href as [_ Href]. rewrite Hrp, (proj2 (String.eqb_neq _ _) Hne) in Href. cbn [negb] in Href.
  rewrite (bool_decide_eq_false_2 (VText _ = VNull)) in Href by done. cbn [orb] in Href. unfold tx in Href. rewrite rows_insert in Href.
  unfold present in *. rewrite existsb_app, Habs in Href. cbn [existsb] in Href. rewrite Hre in Href. cbn [orb] in Href.
  rewrite bool_decide_eq_false_2 in Href by congruence. done.
Qed.

(** The store behind the logger interface, over a healthy connection at the server's time [now]. *)
Definition pgLogger (now : Time) : Logger database := {|
  lg_Log newID ev db := match Store.Log healthy now newID ev db with (db', None) => Ok db' | (_, Some e) => Err e end;
  lg_Query f db := Store.Query Through now f db;
  lg_Count f db := Store.Count Through now f db
|}.

(** C23: a client can keep its requests out of the audit log.  With the Postgres store behind the
    audit middleware, a request whose path or [User-Agent] is not valid UTF-8 or contains a zero byte
    (a percent-encoded byte in the path is enough), or whose path is too long for the index on it,
    or, when payloads are captured, whose [X-Plexara-Replay-From] header names no stored event, is
    answered as usual but changes nothing in the audit tables: the insert is refused and the event
    is dropped.  The handler writes no informational header. *)
Theorem audit_evadable (now : Time) (registry : Registry) (opts : AuditOptions) (h : EHandler) (env : Env)
  (r : Request) (s : ServerState database) (w : conn)
  (Hfresh : fresh w) (Hplain : plainOps (h env false r).1 = true)
  (Hchunks : sconcat (env_chunks env (h env false r).2) = (h env false r).2)
  (Hbad : textOK (r_Path r) = false \/ index_entry (r_Path r) = false \/ textOK (h_Get r "User-Agent") = false \/
    (CapturePayloads opts = true /\ h_Get r ReplayHeaderName <> "" /\ h_Get r ReplayHeaderName <> env_eventID env /\
     present (VText (h_Get r ReplayHeaderName)) "id" (rows (sv_audit s) "audit_events") = false)) :
  let out := @Audit _ database (pgLogger now) (Some registry) opts (serve h) conn _ env r (s, w) in
  out.2 = exec (h env false r).1 w /\ sv_audit out.1 = sv_audit s.
Proof.
  cbv zeta. assert (Hd : CapturePayloads (withDefaults opts) = CapturePayloads opts) by (unfold withDefaults; by case_if).
  destruct (@audit_serve _ database (pgLogger now) conn _ _ (Some registry) opts h env r s w) as (Hv & _ & rb & ro & pb & pt & _ & Ho);
    try done. split; [exact Hv|]. rewrite Ho. unfold logEvent.
  match goal with |- context [lg_Log _ ?e _] => set (ev := e) end. cbn [sv_audit setRead].
  assert (Hev : ev_ID ev = "" /\ ev_Path ev = r_Path r /\ ev_UserAgent ev = h_Get r "User-Agent" /\
    (CapturePayloads opts = true -> exists p, ev_Payload ev = Some p /\ ReplayedFrom p = h_Get r ReplayHeaderName)).
  { unfold ev, auditEvent. destruct (RouteForRequest _ _ _). cbn. split_and!; try done. rewrite Hd. intros ->. by eexists. }
  destruct Hev as (Hid & Hpath & Hua & Hpay).
  assert (Hlog : exists e, Store.Log healthy now (env_eventID env) ev (sv_audit s) = (sv_audit s, Some e)).
  { destruct Hbad as [Hb|[Hb|[Hb|(Hc & Hne & Hnew & Habs)]]].
    - apply (log_bad_text now _ ev (sv_audit s) "path" _ ltac:(by repeat constructor) Hb); [done|done].
    - apply log_long_path. by rewrite Hpath.
    - apply (log_bad_text now _ ev (sv_audit s) "user_agent" _ ltac:(by repeat constructor) Hb); [done|done].
    - destruct (Hpay Hc) as (p & Hp & Hr). rewrite <- Hr in Hne, Hnew, Habs. by apply (log_dangling now _ ev p). }
  destruct Hlog as [e He]. cbn [lg_Log pgLogger]. by rewrite He.
Qed.

End Theorems.

(** ** Witnesses *)

#[local] Existing Instance ascii_tables.
#[local] Existing Instance merge_slice.
#[local] Existing Instance plainLocale.
#[local] Existing Instance plainPostgres.

Definition pgSamplePayload : Payload :=
  mkPayload {["Accept" := ["a"; "b"]]} ∅ "text/plain" "body" 4 false "10.0.0.1" ∅ "" "" 0 false "e1".
Definition pgSampleEvents : list (Time * Event) :=
  [(7000, sampleEvent "e1" 5123 "/v1/a"); (9000, ev_withPayload (sampleEvent "e2" 6789 "/v1/b") (Some pgSamplePayload))].

Lemma pgSample_storable pre e post : pgSampleEvents = (pre ++ e :: post)%list ->
  ev_ID e.2 <> "" /\ storable (map snd pre) e.2 /\ searchable (byPath "/v1/b") e.2.
Proof.
  intros E. destruct pre as [|a [|b [|c pre]]]; cbn in E; try discriminate; injection E; intros; subst.
  - split; [done|]. split; [|by left]. split; [cbn; set_solver|by vm_compute|done].
  - split; [done|]. split; [|by left]. split; [|by vm_compute|].
    + intros Hin. apply list_elem_of_singleton in Hin. done.
    + intros p [= <-]. split; [|right; left; by left]. split; [|by vm_compute|by vm_compute|by vm_compute].
      split; [|split]; apply (bool_decide_eq_true_1 (mapValid textOK _)); by vm_compute.
Defined.

Lemma pg_refines_memory_witness :
  Store.Query Through 0 (byPath "/v1/b") (logAll pgSampleEvents ∅) = Ok [sampleEvent "e2" 6000 "/v1/b"] /\
  Store.GetPayload Through 0 "e2" (logAll pgSampleEvents ∅) = Ok (Some pgSamplePayload).
Proof.
  destruct (pg_refines_memory pgSampleEvents (byPath "/v1/b") 0 pgSample_storable) as (Hq & _ & Hp).
  - intros a b Ha Hb _. done.
  - split; [done|by vm_compute|done|done].
  - split; [rewrite Hq; by vm_compute|]. rewrite Hp by done. by vm_compute.
Defined.

(** A request whose path holds the byte 255, as [GET /v1/%FF] does after decoding. *)
Definition evadingRequest : Request :=
  mkRequest "GET" ("/v1/" ++ str1 (chr 255)) "/v1/%FF" "" ∅ "h" false "10.0.0.1" None ∅ [] Background.
Definition emptyTables : ServerState database := mkState ∅ None [] "" true ∅ [].

Lemma audit_evadable_witness :
  sv_audit (@Audit _ database (pgLogger 0) (Some sampleRegistry) sampleOpts (serve sampleHandler) conn _ sampleEnv evadingRequest
    (emptyTables, newConn)).1 = ∅.
Proof.
  apply (audit_evadable 0 sampleRegistry sampleOpts sampleHandler sampleEnv evadingRequest emptyTables newConn); try (by vm_compute).
  left. by vm_compute.
Defined.
