(* ===== verification/ApiKeys.v ===== *)
(** * Database API keys ([pkg/apikeys])

    [Store] keeps keys as bcrypt hashes in the table [api_keys]; the server is the class [Postgres]
    of [Sql] and bcrypt the class [Bcrypt].  [AsInboundStore] is what the credential chain of
    [Inbound] sees of it. *)
From S2P Require Import Prelude GoStrings GoNum GoTime GoUrl Json MemoryLog Http Inbound Sql.

(** ** [golang.org/x/crypto/bcrypt] *)

Class Bcrypt := {
  (** [GenerateFromPassword] with the salt it draws; it refuses passwords of more than 72 bytes *)
  GenerateFromPassword (salt password : string) : res string string;
  (** [CompareHashAndPassword(hash, password) == nil] *)
  CompareHashAndPassword (hash password : string) : bool;
  bcrypt_total salt pw : len pw <= 72 -> exists h, GenerateFromPassword salt pw = Ok h;
  bcrypt_match salt pw h : GenerateFromPassword salt pw = Ok h -> CompareHashAndPassword h pw = true;
  bcrypt_text salt pw h : GenerateFromPassword salt pw = Ok h -> textOK h = true
}.

(** ** Data *)

Record Key := mkKey {
  ky_ID : string; ky_Name : string; ky_Description : string; ky_CreatedBy : string;
  ky_CreatedAt : Time; ky_ExpiresAt : option Time; ky_LastUsedAt : option Time }.
Record Created := mkCreated { cr_Key : Key; cr_Plaintext : string }.
Inductive key_error := ErrNotFound | KeyErr (msg : string).

(** What [Create] takes from its surroundings: 32 random bytes ([None] when the source fails), the
    salt, the new UUID, the program's clock and the server's, and the fate of the round trip. *)
Record CreateEnv := mkCreateEnv {
  ce_random : option string; ce_salt : string; ce_uuid : string; ce_now : Time; ce_serverNow : Time; ce_fate : fate }.

Definition createSQL : string := "
		INSERT INTO api_keys (id, name, hash, description, created_by, created_at, expires_at)
		VALUES ($1,$2,$3,$4,$5,$6,$7)
	".
Definition listSQL : string := "
		SELECT id, name, COALESCE(description,''), COALESCE(created_by,''),
		       created_at, expires_at, last_used_at
		FROM api_keys
		ORDER BY created_at DESC
	".
Definition deleteSQL : string := "DELETE FROM api_keys WHERE name = $1".
Definition authenticateSQL : string := "
		SELECT id, name, hash, COALESCE(description,''), COALESCE(created_by,''),
		       created_at, expires_at, last_used_at
		FROM api_keys
		WHERE expires_at IS NULL OR expires_at > now()
	".
Definition touchSQL : string := "UPDATE api_keys SET last_used_at = now() WHERE id = $1".

(** ** Operations *)

Module KeyStore.
Section Store.
Context `{Postgres} `{Bcrypt}.

Definition generatePlaintext (random : option string) : res string string :=
  match random with
  | None => Err "rand"
  | Some buf => Ok ("at_" ++ TrimRightByte (URLEncoding_EncodeToString buf) "=")
  end.

Definition optTime (t : option Time) : sqlval := match t with Some t => VTime t | None => VNull end.

(** A round trip that may change the tables. *)
Definition execSQL (f : fate) (now : Time) (sql : string) (args : list sqlval) (db : database) : database * res string Z :=
  match f with
  | Refused e => (db, Err e)
  | Through | Lost _ =>
    match pg_run now sql args db with
    | Ok (db', _, n) => (db', match f with Lost e => Err e | _ => Ok n end)
    | Err e => (db, Err e)
    end
  end.
Definition querySQL (f : fate) (now : Time) (sql : string) (args : list sqlval) (db : database) : res string (list (list sqlval)) :=
  match f with
  | Refused e | Lost e => Err e
  | Through => match pg_run now sql args db with Ok (_, out, _) => Ok out | Err e => Err e end
  end.

Definition Create (env : CreateEnv) (name description createdBy : string) (expiresAt : option Time) (db : database) :
  database * res string Created :=
  if String.eqb name "" then (db, Err "name is required")
  else
    match generatePlaintext (ce_random env) with
    | Err e => (db, Err e)
    | Ok plaintext =>
      match GenerateFromPassword (ce_salt env) plaintext with
      | Err e => (db, Err ("hash: " ++ e))
      | Ok hash =>
        match execSQL (ce_fate env) (ce_serverNow env) createSQL
                [VText (ce_uuid env); VText name; VText hash; VText description; VText createdBy; VTime (ce_now env); optTime expiresAt] db with
        | (db', Err e) => (db', Err ("insert api key: " ++ e))
        | (db', Ok _) =>
          (db', Ok (mkCreated (mkKey (ce_uuid env) name description createdBy (ce_now env) expiresAt None) plaintext))
        end
      end
    end.

Definition scanOptTime (v : sqlval) : option (option Time) :=
  match v with VNull => Some None | VTime t => Some (Some t) | _ => None end.
Definition scanKey (r : list sqlval) : option Key :=
  match r with
  | [VText id; VText name; VText desc; VText by_; VTime created; v1; v2] =>
    expires ← scanOptTime v1; used ← scanOptTime v2; Some (mkKey id name desc by_ created expires used)
  | _ => None
  end.
Fixpoint scanKeys (rs : list (list sqlval)) : res string (list Key) :=
  match rs with
  | [] => Ok []
  | r :: rs' => match scanKey r with None => Err "scan" | Some k => ks ← scanKeys rs'; Ok (k :: ks) end
  end.

Definition List (f : fate) (now : Time) (db : database) : res string (list Key) :=
  match querySQL f now listSQL [] db with Err e => Err e | Ok rs => scanKeys rs end.

Definition Delete (f : fate) (now : Time) (name : string) (db : database) : database * option key_error :=
  match execSQL f now deleteSQL [VText name] db with
  | (db', Err e) => (db', Some (KeyErr e))
  | (db', Ok n) => (db', if n =? 0 then Some ErrNotFound else None)
  end.

(** Errors of the update are ignored. *)
Definition touchLastUsed (f : fate) (now : Time) (id : string) (db : database) : database :=
  (execSQL f now touchSQL [VText id] db).1.

(** A row of the authentication query: the key and its hash. *)
Definition scanHashed (r : list sqlval) : option (Key * string) :=
  match r with
  | [VText id; VText name; VText hash; VText desc; VText by_; VTime created; v1; v2] =>
    expires ← scanOptTime v1; used ← scanOptTime v2; Some (mkKey id name desc by_ created expires used, hash)
  | _ => None
  end.
Fixpoint match_loop (rs : list (list sqlval)) (pw : string) : res key_error Key :=
  match rs with
  | [] => Err ErrNotFound
  | r :: rs' =>
    match scanHashed r with
    | None => Err (KeyErr "scan")
    | Some (k, hash) => if CompareHashAndPassword hash pw then Ok k else match_loop rs' pw
    end
  end.
(** [f] is the fate of the query, [g] that of the update. *)
Definition Authenticate (f g : fate) (now : Time) (plaintext : string) (db : database) : database * res key_error Key :=
  if String.eqb plaintext "" then (db, Err ErrNotFound)
  else
    match querySQL f now authenticateSQL [] db with
    | Err e => (db, Err (KeyErr e))
    | Ok rs =>
      match match_loop rs plaintext with
      | Err e => (db, Err e)
      | Ok k => (touchLastUsed g now (ky_ID k) db, Ok k)
      end
    end.

Definition LookupAPIKey (f g : fate) (now : Time) (plaintext : string) (db : database) : database * res auth_error string :=
  match Authenticate f g now plaintext db with
  | (db', Err ErrNotFound) => (db', Err ErrInvalidCredential)
  | (db', Err (KeyErr e)) => (db', Err (ErrOther e))
  | (db', Ok k) => (db', Ok (ky_Name k))
  end.
(** The store as the credential chain sees it at one moment: the name, and the key whose time of
    last use the lookup updates. *)
Definition AsInboundStore (f g : fate) (now : Time) (db : database) : APIKeyStore := mkKeyStore
  (fun plaintext => (LookupAPIKey f g now plaintext db).2)
  (fun plaintext => match (Authenticate f g now plaintext db).2 with Ok k => [ky_ID k] | Err _ => [] end).

(** The tables after a lookup are those with the updates of the named keys, and only a key that is
    accepted is updated. *)
Lemma lookup_tables f g now pw db :
  (LookupAPIKey f g now pw db).1 = foldl (fun db id => touchLastUsed g now id db) db (ks_touches (AsInboundStore f g now db) pw).
Proof.
  unfold LookupAPIKey, AsInboundStore. cbn [ks_touches]. unfold Authenticate. destruct (String.eqb pw ""); [done|].
  destruct (querySQL _ _ _ _ _) as [rs|e]; [|done]. by destruct (match_loop rs pw) as [k|[]].
Qed.
Lemma inbound_touches f g now db : touchesMatch (AsInboundStore f g now db).
Proof.
  intros pw. cbn [AsInboundStore ks_touches ks_LookupAPIKey]. unfold LookupAPIKey.
  destruct (Authenticate f g now pw db) as [db' [k|e]]; [by eexists|done].
Qed.

End Store.
End KeyStore.

Import KeyStore.

(** ** Rows *)

Section Rows.
Context `{Postgres} `{Bcrypt}.

Abbreviation entry := (Key * string)%type.

Definition keyRow (e : entry) : row :=
  list_to_map (zip (map cl_name (td_columns api_keys_def))
    [VText (ky_ID e.1); VText (ky_Name e.1); VText e.2; VText (ky_Description e.1); VText (ky_CreatedBy e.1);
     VTime (ky_CreatedAt e.1); optTime (ky_ExpiresAt e.1); optTime (ky_LastUsedAt e.1)]).

(** The tables hold these keys, under unique names and IDs. *)
Record holdsKeys (ks : list entry) (db : database) : Prop := {
  hk_rows : rows db "api_keys" = map keyRow ks;
  hk_names : NoDup (map (fun e => ky_Name e.1) ks);
  hk_ids : NoDup (map (fun e => ky_ID e.1) ks)
}.

Lemma keyRow_cols e : col (keyRow e) "id" = VText (ky_ID e.1) /\ col (keyRow e) "name" = VText (ky_Name e.1) /\
  col (keyRow e) "created_at" = VTime (ky_CreatedAt e.1) /\ col (keyRow e) "expires_at" = optTime (ky_ExpiresAt e.1).
Proof. repeat split. Qed.

(** *** Creating *)

Definition keyCols : list string := ["id"; "name"; "hash"; "description"; "created_by"; "created_at"; "expires_at"].
Lemma parse_create : parseSQL createSQL = Some (SInsert "api_keys" keyCols [1; 2; 3; 4; 5; 6; 7]).
Proof. reflexivity. Qed.

Definition newKey (env : CreateEnv) (name description createdBy : string) (expiresAt : option Time) : Key :=
  mkKey (ce_uuid env) name description createdBy (tz_round (ce_now env)) (option_map tz_round expiresAt) None.
Definition createArgs (env : CreateEnv) (name hash description createdBy : string) (expiresAt : option Time) : list sqlval :=
  [VText (ce_uuid env); VText name; VText hash; VText description; VText createdBy; VTime (ce_now env); optTime expiresAt].

Lemma newRow_key env name hash description createdBy expiresAt :
  newRow (ce_serverNow env) (createArgs env name hash description createdBy expiresAt) keyCols [1; 2; 3; 4; 5; 6; 7] (td_columns api_keys_def) =
  if forallb textOK [ce_uuid env; name; hash; description; createdBy]
  then Some (keyRow (newKey env name description createdBy expiresAt, hash)) else None.
Proof.
  destruct (forallb textOK _) eqn:Hok.
  - apply forallb_Forall in Hok. repeat match goal with H : Forall _ (_ :: _) |- _ => apply Forall_cons in H as [? H] end.
    apply newRow_Some. cells; try (by apply store_text); try reflexivity. by destruct expiresAt.
  - assert (Hbad : exists k s, k ∈ td_columns api_keys_def /\ cl_type k = SText /\ textOK s = false /\
      lookupParam (createArgs env name hash description createdBy expiresAt) (cl_name k) keyCols [1; 2; 3; 4; 5; 6; 7] = Some (VText s)).
    { cbn [forallb] in Hok. rewrite !andb_false_iff in Hok. destruct_or! Hok; [..|done].
      1: exists (mkColumn "id" SText true DNull), (ce_uuid env). 2: exists (mkColumn "name" SText true DNull), name.
      3: exists (mkColumn "hash" SText true DNull), hash. 4: exists (mkColumn "description" SText false DNull), description.
      5: exists (mkColumn "created_by" SText false DNull), createdBy.
      all: split; [apply list_elem_of_In; cbn; tauto|]; by split_and!. }
    destruct Hbad as (k & s & Hk & Ht & Hs & Hl). apply (newRow_None _ _ _ _ _ k Hk).
    apply (cell_text_bad _ _ _ _ _ s); [done|done|by rewrite Hl].
Qed.

Lemma present_keys (key : entry -> string) c s ks : (forall e, col (keyRow e) c = VText (key e)) ->
  present (VText s) c (map keyRow ks) = bool_decide (s ∈ map key ks).
Proof. apply present_map. Qed.

(** What an insert of a key does. *)
Lemma create_run ks db env name hash description createdBy expiresAt : holdsKeys ks db ->
  let e := (newKey env name description createdBy expiresAt, hash) in
  (exists msg, pg_run (ce_serverNow env) createSQL (createArgs env name hash description createdBy expiresAt) db = Err msg) \/
  (exists db', pg_run (ce_serverNow env) createSQL (createArgs env name hash description createdBy expiresAt) db = Ok (db', [], 1) /\
    holdsKeys (ks ++ [e])%list db').
Proof.
  intros [Hr Hn Hi] e. pose proof (pg_insert (ce_serverNow env) createSQL (createArgs env name hash description createdBy expiresAt) db _ _ _ _ parse_create eq_refl) as Hrun.
  destruct (insertInto _ _ _ _ _ _ _) as [db'|] eqn:Ei; [right|by left]. exists db'. split; [done|].
  apply insertInto_Some in Ei as (r & Hrow & -> & Hu & _ & _). rewrite newRow_key in Hrow. destruct (forallb _ _); [|done].
  injection Hrow as <-. fold e in Hu |- *. unfold uniqueOK in Hu. cbn [td_unique api_keys_def forallb] in Hu. rewrite Hr, andb_true_r in Hu.
  destruct (keyRow_cols e) as (E1 & E2 & _). rewrite E1, E2, !(bool_decide_eq_false_2 (VText _ = VNull)) in Hu by done.
  rewrite (present_keys (fun e => ky_ID e.1)), (present_keys (fun e => ky_Name e.1)) in Hu by (intros; apply keyRow_cols).
  apply andb_true_iff in Hu as [Hu1 Hu2]. cbn [orb] in Hu1, Hu2. apply negb_true_iff, bool_decide_eq_false in Hu1, Hu2.
  split; [by rewrite rows_insert, Hr, map_app| |]; rewrite map_app; apply NoDup_app;
    (split; [done|]; split; [|apply NoDup_singleton]; intros x Hx Hx'%list_elem_of_singleton; by subst x).
Qed.

(** An insert of storable values under a name and an ID that are free succeeds. *)
Lemma create_succeeds ks db env name hash description createdBy expiresAt : holdsKeys ks db ->
  forallb textOK [ce_uuid env; name; hash; description; createdBy] = true -> forallb index_entry [ce_uuid env; name] = true ->
  name ∉ map (fun e => ky_Name e.1) ks -> ce_uuid env ∉ map (fun e => ky_ID e.1) ks ->
  exists db', pg_run (ce_serverNow env) createSQL (createArgs env name hash description createdBy expiresAt) db = Ok (db', [], 1) /\
    holdsKeys (ks ++ [(newKey env name description createdBy expiresAt, hash)])%list db'.
Proof.
  intros Hks Hok Hix Hn Hi. pose proof Hks as [Hr _ _].
  destruct (create_run ks db env name hash description createdBy expiresAt Hks) as [[msg Hrun]|Hrun]; [|done].
  exfalso. pose proof (pg_insert (ce_serverNow env) createSQL (createArgs env name hash description createdBy expiresAt) db _ _ _ _ parse_create eq_refl) as Hins.
  replace (insertInto _ _ _ _ _ _ _) with (Some (<["api_keys" := (rows db "api_keys" ++ [keyRow (newKey env name description createdBy expiresAt, hash)])%list]> db)) in Hins;
    [congruence|]. symmetry. unfold insertInto. change (forallb _ keyCols && _ && _) with true. cbv iota. rewrite newRow_key, Hok. cbn [mbind option_bind].
  set (e := (newKey env name description createdBy expiresAt, hash)). unfold uniqueOK. cbn [td_unique api_keys_def forallb].
  destruct (keyRow_cols e) as (E1 & E2 & _). rewrite E1, E2, Hr.
  rewrite (present_keys (fun e => ky_ID e.1)), (present_keys (fun e => ky_Name e.1)) by (intros; apply keyRow_cols).
  rewrite (bool_decide_eq_false_2 (ky_ID e.1 ∈ _)), (bool_decide_eq_false_2 (ky_Name e.1 ∈ _)) by done.
  change (indexOK api_keys_def (keyRow e)) with (forallb index_entry [ce_uuid env; name]). by rewrite Hix, !orb_true_r.
Qed.

(** *** Deleting and touching *)

Lemma parse_deleteKey : parseSQL deleteSQL = Some (SDelete "api_keys" (Cmp "=" "name" (Param 1))).
Proof. reflexivity. Qed.
Lemma parse_touch : parseSQL touchSQL = Some (SUpdateNow "api_keys" "last_used_at" (Cmp "=" "id" (Param 1))).
Proof. reflexivity. Qed.

Lemma textCond c s : typeOf api_keys_def c = Some SText -> condOK api_keys_def [VText s] (Cmp "=" c (Param 1)) = textOK s.
Proof.
  intros Hc. cbn [condOK]. unfold paramVal. rewrite Hc. change (arg [VText s] 1) with (VText s).
  cbn [mbind option_bind store_value]. by destruct (textOK s).
Qed.
Lemma textMatch now c s key e : typeOf api_keys_def c = Some SText -> textOK s = true -> col (keyRow e) c = VText key ->
  matchesRow api_keys_def now [VText s] (Cmp "=" c (Param 1)) (keyRow e) = String.eqb key s.
Proof.
  intros Hc Hs Hk. unfold matchesRow, holds. cbn [eval_cond]. unfold paramVal. rewrite Hc. cbn [mbind option_bind].
  change (arg [VText s] 1) with (VText s). rewrite store_text by done. cbn [mbind option_bind]. rewrite Hk.
  cbn [compare_vals String.eqb Ascii.eqb Bool.eqb]. rewrite bool_decide_VText. by destruct (String.eqb key s).
Qed.

Definition without (name : string) (ks : list entry) : list entry := filter (fun e => String.eqb (ky_Name e.1) name = false) ks.
Definition touched (id : string) (now : Time) (e : entry) : entry :=
  if String.eqb (ky_ID e.1) id
  then (mkKey (ky_ID e.1) (ky_Name e.1) (ky_Description e.1) (ky_CreatedBy e.1) (ky_CreatedAt e.1) (ky_ExpiresAt e.1) (Some (tz_round now)), e.2)
  else e.


Lemma delete_holds now name ks db : holdsKeys ks db -> textOK name = true ->
  exists db', pg_run now deleteSQL [VText name] db =
    Ok (db', [], Z.of_nat (length (filter (fun e => String.eqb (ky_Name e.1) name = true) ks))) /\ holdsKeys (without name ks) db'.
Proof.
  intros [Hr Hn Hi] Hok. pose proof (pg_delete now deleteSQL [VText name] db _ parse_deleteKey) as Hrun. rewrite textCond, Hok in Hrun by done.
  assert (Hm : forall e, matchesRow api_keys_def now [VText name] (Cmp "=" "name" (Param 1)) (keyRow e) = String.eqb (ky_Name e.1) name)
    by (intros e; by apply textMatch).
  eexists. split; [rewrite Hrun; do 2 f_equal|].
  - unfold affected. rewrite Hr, (filter_map_bool keyRow _ _ ks Hm). by rewrite length_map.
  - split.
    + unfold deleteFrom. rewrite rows_insert, Hr. unfold without. clear -Hm.
      induction ks as [|e ks IH]; [done|]. cbn [map]. rewrite !filter_cons, Hm, IH. by destruct (decide _).
    + eapply sublist_NoDup; [exact Hn|]. apply sublist_map, sublist_filter.
    + eapply sublist_NoDup; [exact Hi|]. apply sublist_map, sublist_filter.
Qed.

Lemma touched_row id now e : keyRow (touched id now e) =
  if String.eqb (ky_ID e.1) id then <["last_used_at" := VTime (tz_round now)]> (keyRow e) else keyRow e.
Proof.
  unfold touched. destruct (String.eqb (ky_ID e.1) id); [|done]. unfold keyRow. cbn [ky_ID ky_Name ky_Description ky_CreatedBy ky_CreatedAt ky_ExpiresAt ky_LastUsedAt fst snd].
  cbn [zip zip_with map td_columns api_keys_def cl_name list_to_map foldr fst snd].
  do 7 (rewrite (insert_insert_ne _ "last_used_at") by done). by rewrite insert_insert_eq.
Qed.

Lemma touched_keys id now ks : map (fun e => ky_Name e.1) (map (touched id now) ks) = map (fun e => ky_Name e.1) ks /\
  map (fun e => ky_ID e.1) (map (touched id now) ks) = map (fun e => ky_ID e.1) ks.
Proof.
  rewrite !map_map. split; apply map_ext; intros e; unfold touched; by destruct (String.eqb (ky_ID e.1) id).
Qed.

(** The update changes only the time of last use of the keys with the ID, or nothing. *)
Lemma touch_holds f now id ks db : holdsKeys ks db ->
  holdsKeys ks (touchLastUsed f now id db) \/ holdsKeys (map (touched id now) ks) (touchLastUsed f now id db).
Proof.
  intros Hks. pose proof Hks as [Hr Hn Hi]. unfold touchLastUsed, execSQL.
  pose proof (pg_update now touchSQL [VText id] db _ _ parse_touch eq_refl) as Hrun. rewrite textCond in Hrun by done.
  destruct (textOK id) eqn:Hok; [|destruct Hrun as [e Hrun]; left; destruct f; by rewrite ?Hrun].
  destruct (touched_keys id now ks) as [En Ei].
  assert (Hh : holdsKeys (map (touched id now) ks) (updateNow api_keys_def now [VText id] "api_keys" "last_used_at" (Cmp "=" "id" (Param 1)) db)).
  { split; [|by rewrite En|by rewrite Ei]. unfold updateNow. rewrite rows_insert, Hr, !map_map. apply map_ext. intros e.
    rewrite touched_row, (textMatch now "id" id (ky_ID e.1) e) by (done || apply keyRow_cols). done. }
  destruct f; [right|by left|right]; rewrite Hrun; exact Hh.
Qed.

(** *** Authenticating *)

Definition liveCond : cond := Or (IsNull "expires_at") (Cmp ">" "expires_at" Now).
Definition hashedExprs : list sexpr :=
  [Col "id"; Col "name"; Col "hash"; Coalesce "description"; Coalesce "created_by"; Col "created_at"; Col "expires_at"; Col "last_used_at"].
Lemma parse_authenticate : parseSQL authenticateSQL = Some (SSelect (Some hashedExprs) "api_keys" (Some liveCond) [] None).
Proof. reflexivity. Qed.

Definition live (now : Time) (e : entry) : bool := match ky_ExpiresAt e.1 with None => true | Some t => now <? t end.
Lemma live_row now e : holds api_keys_def now [] (Some liveCond) (keyRow e) = live now e.
Proof.
  unfold holds, liveCond. cbn [eval_cond]. destruct (keyRow_cols e) as (_ & _ & _ & ->). unfold live.
  destruct (ky_ExpiresAt e.1) as [t|]; [|done]. cbn. by destruct (now <? t).
Qed.

Lemma scan_hashed e : scanHashed (project hashedExprs (keyRow e)) = Some e.
Proof. destruct e as [[i n d b c [x|] [u|]] h]; reflexivity. Qed.

(** The first key of a list whose hash matches. *)
Fixpoint firstMatch (ks : list entry) (pw : string) : res key_error Key :=
  match ks with [] => Err ErrNotFound | e :: ks' => if CompareHashAndPassword e.2 pw then Ok e.1 else firstMatch ks' pw end.
Lemma match_loop_keys ks pw : match_loop (map (project hashedExprs) (map keyRow ks)) pw = firstMatch ks pw.
Proof. induction ks as [|e ks IH]; [done|]. cbn [map match_loop firstMatch]. rewrite scan_hashed, IH. by destruct e. Qed.
Lemma firstMatch_Ok ks pw k : firstMatch ks pw = Ok k -> exists h, (k, h) ∈ ks /\ CompareHashAndPassword h pw = true.
Proof.
  induction ks as [|[k' h] ks IH]; cbn [firstMatch]; [done|]. destruct (CompareHashAndPassword _ pw) eqn:E.
  - intros [= <-]. exists h. split; [by left|done].
  - intros Hk. destruct (IH Hk) as (h' & Hin & Hc). exists h'. split; [by right|done].
Qed.
Lemma firstMatch_found ks pw e : e ∈ ks -> CompareHashAndPassword e.2 pw = true -> exists k, firstMatch ks pw = Ok k.
Proof.
  induction 1 as [e ks|e e' ks Hin IH]; intros Hc; cbn [firstMatch]; [rewrite Hc; by eexists|].
  destruct (CompareHashAndPassword e'.2 pw); [by eexists|auto].
Qed.

Lemma authenticate_query now ks db : holdsKeys ks db ->
  exists l, l ≡ₚ filter (fun e => live now e = true) ks /\ querySQL Through now authenticateSQL [] db = Ok (map (project hashedExprs) (map keyRow l)).
Proof.
  intros [Hr _ _]. pose proof (pg_select now authenticateSQL [] db _ _ _ _ _ _ parse_authenticate eq_refl) as Hrun.
  change (selectOK _ _ _ _ _) with true in Hrun. cbv iota in Hrun. destruct Hrun as (out & Hrun & l & Hl & _ & Hout).
  rewrite Hr, (filter_map_bool keyRow _ _ ks (live_row now)) in Hl. apply Permutation_map_inv in Hl as (l' & -> & Hl').
  exists l'. split; [by symmetry|]. unfold querySQL. rewrite Hrun. by subst out.
Qed.

(** *** Listing *)

Definition listExprs : list sexpr :=
  [Col "id"; Col "name"; Coalesce "description"; Coalesce "created_by"; Col "created_at"; Col "expires_at"; Col "last_used_at"].
Lemma parse_list : parseSQL listSQL = Some (SSelect (Some listExprs) "api_keys" None [("created_at", true)] None).
Proof. reflexivity. Qed.
Lemma scan_keys l : scanKeys (map (project listExprs) (map keyRow l)) = Ok (map fst l).
Proof.
  induction l as [|e l IH]; [done|]. cbn [map scanKeys].
  assert (E : scanKey (project listExprs (keyRow e)) = Some e.1) by (destruct e as [[i n d b c [x|] [u|]] h]; reflexivity).
  rewrite E, IH. done.
Qed.
Lemma list_holds now ks db : holdsKeys ks db ->
  exists l, KeyStore.List Through now db = Ok (map fst l) /\ l ≡ₚ ks /\ ordered (fun a b => ky_CreatedAt b.1 <? ky_CreatedAt a.1) l.
Proof.
  intros [Hr _ _]. pose proof (pg_select now listSQL [] db _ _ _ _ _ _ parse_list eq_refl) as Hrun.
  change (selectOK _ _ _ _ _) with true in Hrun. cbv iota in Hrun. destruct Hrun as (out & Hrun & l & Hl & Hord & Hout).
  rewrite Hr, (filter_map_bool keyRow _ (fun _ => true) ks) in Hl by done. apply Permutation_map_inv in Hl as (l' & -> & Hl').
  exists l'. split; [unfold KeyStore.List, querySQL; rewrite Hrun; subst out; apply scan_keys|]. split.
  - rewrite <- Hl'. clear. induction ks as [|e ks IH]; [done|]. rewrite filter_cons_True by done. by rewrite IH.
  - apply ordered_map in Hord. revert Hord. apply ordered_ext. intros x y _ _. cbn [row_lt].
    destruct (keyRow_cols x) as (_ & _ & -> & _), (keyRow_cols y) as (_ & _ & -> & _). cbn [val_lt].
    by destruct (ky_CreatedAt y.1 <? ky_CreatedAt x.1), (ky_CreatedAt x.1 <? ky_CreatedAt y.1).
Qed.
End Rows.

(** ** The plaintext of a key *)

Definition keyByte (c : ascii) : bool := isDigit c || isLower c || isUpper c || Ascii.eqb c "-" || Ascii.eqb c "_".

Lemma base64_length alpha s : 3 * len (base64_encode alpha "" s) <= 4 * len s + 2.
Proof.
  induction s as [s IH] using string_len_ind. destruct s as [|a [|b [|c s]]];
    try (cbn [base64_encode]; unfold len; cbn [String.length String.append str1]; lia).
  specialize (IH s ltac:(simpl; lia)). cbn [base64_encode String.append str1]. unfold len in *. cbn [String.length]. lia.
Qed.

(** A generated key consists of URL-safe characters and is short enough for bcrypt. *)
Lemma plaintext_shape buf pt : generatePlaintext (Some buf) = Ok pt -> len buf = 32 ->
  string_forallb keyByte pt = true /\ len pt <= 72 /\ pt <> "".
Proof.
  intros [= <-] Hl. unfold URLEncoding_EncodeToString. destruct (base64_encode_pad urlAlphabet buf) as [n ->]. rewrite TrimRightByte_pad.
  - split; [change (string_forallb keyByte (base64_encode urlAlphabet "" buf) = true); apply base64_encode_chars; by vm_compute|]. split; [|done].
    pose proof (base64_length urlAlphabet buf). unfold len in *. cbn [String.length]. lia.
  - apply (string_forallb_no_byte (fun c => negb (Ascii.eqb c "="))); [done|]. apply base64_encode_chars. by vm_compute.
Qed.

Lemma TrimSpace_plain s : string_forallb (fun c => (byte c <? 128) && negb (isSpace (byte c))) s = true -> TrimSpace s = s.
Proof.
  intros Hs. assert (Ha : isASCII s = true).
  { revert Hs. apply string_forallb_impl. intros c Hc. by apply andb_true_iff in Hc as [-> _]. }
  assert (Hd : forall l, Forall (fun k => isSpace (chunk_rune k) = false) l -> drop_space l = l).
  { intros l Hl. destruct Hl as [|k l Hk Hl]; [done|]. cbn. by rewrite Hk. }
  assert (Hk : Forall (fun k => isSpace (chunk_rune k) = false) (utf8_decode s)).
  { rewrite utf8_decode_ascii by done. clear Ha Hd. induction s as [|c s IH]; [constructor|]. cbn in Hs |- *.
    apply andb_true_iff in Hs as [Hc Hs]. apply andb_true_iff in Hc as [_ Hc]. apply negb_true_iff in Hc. constructor; [done|auto]. }
  unfold TrimSpace. rewrite (Hd _ Hk). rewrite (Hd (rev _)) by (by apply List.Forall_rev). rewrite rev_involutive. apply utf8_decode_bytes.
Qed.

Lemma keyByte_plain c : keyByte c = true -> (byte c <? 128) && negb (isSpace (byte c)) = true.
Proof. destruct c as [[] [] [] [] [] [] [] []]; by vm_compute. Qed.

(** ** Theorems *)

Section Theorems.
Context `{Postgres} `{Bcrypt}.

(** The states the operations can reach from the migrated, empty table, whatever the arguments and
    the connection. *)
Inductive reachable : database -> Prop :=
| reach_init : reachable ∅
| reach_create env name description createdBy expiresAt db :
    reachable db -> reachable (KeyStore.Create env name description createdBy expiresAt db).1
| reach_delete f now name db : reachable db -> reachable (KeyStore.Delete f now name db).1
| reach_authenticate f g now plaintext db : reachable db -> reachable (KeyStore.Authenticate f g now plaintext db).1.

Lemma execSQL_cases (P : database -> Prop) f now sql args db : P db ->
  (forall db' out n, pg_run now sql args db = Ok (db', out, n) -> P db') -> P (execSQL f now sql args db).1.
Proof.
  intros Hdb Hrun. unfold execSQL. destruct f; try done; destruct (pg_run now sql args db) as [[[db' out] n]|e'] eqn:E; try done; by eapply Hrun.
Qed.

(** One call of the store, and what it does to the keys: nothing, or the row of the key created, the
    rows of the name deleted, the time of last use of an ID. *)
Inductive keyOp :=
| OpCreate (env : CreateEnv) (name description createdBy : string) (expiresAt : option Time)
| OpDelete (f : fate) (now : Time) (name : string)
| OpAuthenticate (f g : fate) (now : Time) (plaintext : string).
Definition keyStep (op : keyOp) (db : database) : database :=
  match op with
  | OpCreate env name description createdBy expiresAt => (KeyStore.Create env name description createdBy expiresAt db).1
  | OpDelete f now name => (KeyStore.Delete f now name db).1
  | OpAuthenticate f g now plaintext => (KeyStore.Authenticate f g now plaintext db).1
  end.
Definition keyRun (ops : list keyOp) (db : database) : database := foldl (fun db op => keyStep op db) db ops.

(** The hash that a creation stores. *)
Definition hashOf (env : CreateEnv) : option string :=
  match generatePlaintext (ce_random env) with
  | Ok pt => match GenerateFromPassword (ce_salt env) pt with Ok h => Some h | Err _ => None end
  | Err _ => None
  end.
Inductive evolves (ks : list (Key * string)) : keyOp -> list (Key * string) -> Prop :=
| ev_none op : evolves ks op ks
| ev_create env name description createdBy expiresAt h : hashOf env = Some h ->
    evolves ks (OpCreate env name description createdBy expiresAt) (ks ++ [(newKey env name description createdBy expiresAt, h)])
| ev_delete f now name : evolves ks (OpDelete f now name) (without name ks)
| ev_touch f g now pw id : evolves ks (OpAuthenticate f g now pw) (map (touched id now) ks).

Lemma step_holds op ks db : holdsKeys ks db -> exists ks', evolves ks op ks' /\ holdsKeys ks' (keyStep op db).
Proof.
  intros Hks. assert (Hsame : exists ks', evolves ks op ks' /\ holdsKeys ks' db) by (exists ks; split; [constructor|done]).
  destruct op as [env name description createdBy expiresAt|f now name|f g now pw]; cbn [keyStep].
  - unfold KeyStore.Create. destruct (String.eqb name ""); [done|]. destruct (generatePlaintext (ce_random env)) as [pt|e] eqn:Eg; [|done].
    destruct (GenerateFromPassword _ pt) as [hash|e] eqn:Eh; [|done].
    match goal with |- context [execSQL ?f ?n ?q ?a ?d] =>
      assert (Hx : exists ks', evolves ks (OpCreate env name description createdBy expiresAt) ks' /\ holdsKeys ks' (execSQL f n q a d).1) end.
    { apply (execSQL_cases (fun d => exists ks', evolves ks (OpCreate env name description createdBy expiresAt) ks' /\ holdsKeys ks' d)); [done|].
      intros db' out n Hrun.
      destruct (create_run ks db env name hash description createdBy expiresAt Hks) as [[msg Hc]|(db'' & Hc & Hh)]; unfold createArgs in Hc; rewrite Hc in Hrun; [done|].
      injection Hrun as <- _ _. eexists. split; [|exact Hh]. apply ev_create. unfold hashOf. by rewrite Eg, Eh. }
    by destruct (execSQL _ _ _ _ _) as [db' [n|e]].
  - unfold KeyStore.Delete. match goal with |- context [execSQL ?f ?n ?q ?a ?d] =>
      assert (Hx : exists ks', evolves ks (OpDelete f now name) ks' /\ holdsKeys ks' (execSQL f n q a d).1) end.
    { apply (execSQL_cases (fun d => exists ks', evolves ks (OpDelete f now name) ks' /\ holdsKeys ks' d)); [done|]. intros db' out n Hrun.
      pose proof (pg_delete now deleteSQL [VText name] db _ parse_deleteKey) as Hd. rewrite textCond in Hd by done.
      destruct (textOK name) eqn:Hok; [|destruct Hd as [e Hd]; by rewrite Hd in Hrun].
      destruct (delete_holds now name ks db Hks Hok) as (db'' & Hr & Hh). rewrite Hr in Hrun. injection Hrun as <- _ _.
      eexists. split; [constructor|done]. }
    by destruct (execSQL _ _ _ _ _) as [db' [n|e]].
  - unfold KeyStore.Authenticate. destruct (String.eqb pw ""); [done|]. destruct (querySQL _ _ _ _ _) as [rs|e]; [|done].
    destruct (match_loop rs pw) as [k|e]; [|done]. destruct (touch_holds g now (ky_ID k) ks db Hks); eexists; (split; [|done]); constructor.
Qed.

Lemma reachable_holds db : reachable db -> exists ks, holdsKeys ks db.
Proof.
  induction 1 as [|env name description createdBy expiresAt db _ [ks Hks]|f now name db _ [ks Hks]|f g now pw db _ [ks Hks]].
  - exists []. split; [done|constructor|constructor].
  - destruct (step_holds (OpCreate env name description createdBy expiresAt) ks db Hks) as (ks' & _ & ?). by exists ks'.
  - destruct (step_holds (OpDelete f now name) ks db Hks) as (ks' & _ & ?). by exists ks'.
  - destruct (step_holds (OpAuthenticate f g now pw) ks db Hks) as (ks' & _ & ?). by exists ks'.
Qed.

(** C18: the key table stays well formed.  In every state that any sequence of [Create], [Delete] and
    [Authenticate] calls reaches, with any arguments and any connection failures, the rows are keys
    with unique names and IDs, and [List] returns exactly them, newest first. *)
Theorem keys_invariant (db : database) (now : Time) (Hreach : reachable db) :
  exists ks l, holdsKeys ks db /\ KeyStore.List Through now db = Ok (map fst l) /\ l ≡ₚ ks /\
    ordered (fun a b => ky_CreatedAt b.1 <? ky_CreatedAt a.1) l.
Proof.
  destruct (reachable_holds db Hreach) as [ks Hks]. destruct (list_holds now ks db Hks) as (l & Hl & Hp & Ho). by exists ks, l.
Qed.

(** C19: authentication accepts only live keys.  Whatever the connection does, a key that
    [Authenticate] returns is in the table, its stored hash matches the presented text, and it
    has not expired; the call changes at most the time of last use of the rows with that ID. *)
Theorem authenticate_sound (f g : fate) (now : Time) (plaintext : string) (ks : list (Key * string)) (db db' : database) (k : Key)
  (Hks : holdsKeys ks db) (Hauth : KeyStore.Authenticate f g now plaintext db = (db', Ok k)) :
  (exists h, (k, h) ∈ ks /\ CompareHashAndPassword h plaintext = true) /\
  match ky_ExpiresAt k with None => True | Some t => now < t end /\
  (holdsKeys ks db' \/ holdsKeys (map (touched (ky_ID k) now) ks) db').
Proof.
  unfold KeyStore.Authenticate in Hauth. destruct (String.eqb plaintext ""); [done|].
  destruct f; [|done|done]. destruct (authenticate_query now ks db Hks) as (l & Hl & Hq). rewrite Hq, match_loop_keys in Hauth.
  destruct (firstMatch l plaintext) as [k'|e] eqn:Em; [|done]. injection Hauth as <- ->.
  apply firstMatch_Ok in Em as (h & Hin & Hc). rewrite Hl in Hin. apply list_elem_of_filter in Hin as [Hlive Hin].
  split; [by exists h|]. split; [|by apply touch_holds]. unfold live in Hlive. cbn [fst] in Hlive.
  destruct (ky_ExpiresAt k); [by apply Z.ltb_lt|done].
Qed.

Lemma authenticate_live g now pw ks db : holdsKeys ks db -> pw <> "" ->
  exists l, l ≡ₚ filter (fun e => live now e = true) ks /\ (KeyStore.Authenticate Through g now pw db).2 = firstMatch l pw.
Proof.
  intros Hks Hne. destruct (authenticate_query now ks db Hks) as (l & Hl & Hq). exists l. split; [done|].
  unfold KeyStore.Authenticate. rewrite (proj2 (String.eqb_neq _ _) Hne), Hq, match_loop_keys. by destruct (firstMatch l pw).
Qed.
Lemma firstMatch_none l pw : (forall e, e ∈ l -> CompareHashAndPassword e.2 pw = false) -> firstMatch l pw = Err ErrNotFound.
Proof.
  induction l as [|e l IH]; intros Hl; [done|]. cbn [firstMatch]. rewrite (Hl e) by (by left). apply IH. intros e' He'. apply Hl. by right.
Qed.

(** *** The life of a key *)

(** Calls that create no other key with a hash that the text matches, and calls that do not delete
    the name. *)
Definition quiet (pt : string) (op : keyOp) : Prop :=
  match op with OpCreate env _ _ _ _ => forall h, hashOf env = Some h -> CompareHashAndPassword h pt = false | _ => True end.
Definition spares (name : string) (op : keyOp) : Prop :=
  match op with OpDelete _ _ n => n <> name | _ => True end.

(** The keys whose hash matches the text all have this name and expiry; with [spares], there is one. *)
Definition onlyKey (pt name : string) (exp : option Time) (ks : list (Key * string)) : Prop :=
  forall e, e ∈ ks -> CompareHashAndPassword e.2 pt = true -> ky_Name e.1 = name /\ ky_ExpiresAt e.1 = exp.
Definition hasKey (pt name : string) (ks : list (Key * string)) : Prop :=
  exists e, e ∈ ks /\ CompareHashAndPassword e.2 pt = true /\ ky_Name e.1 = name.

Definition gone (pt : string) (ks : list (Key * string)) : Prop := forall e, e ∈ ks -> CompareHashAndPassword e.2 pt = false.

Lemma touched_same id now e : ky_Name (touched id now e).1 = ky_Name e.1 /\ ky_ExpiresAt (touched id now e).1 = ky_ExpiresAt e.1 /\
  (touched id now e).2 = e.2.
Proof. unfold touched. by destruct (String.eqb _ _). Qed.

Lemma evolves_only pt name exp ks op ks' : evolves ks op ks' -> quiet pt op -> onlyKey pt name exp ks -> onlyKey pt name exp ks'.
Proof.
  intros [|env n d b x h Hh|f now n|f g now pw id] Hq Ho e He Hc; [by apply Ho| | |].
  - apply elem_of_app in He as [He|He%list_elem_of_singleton]; [by apply Ho|]. subst e. cbn in Hc, Hq. rewrite (Hq h Hh) in Hc. done.
  - apply list_elem_of_filter in He as [_ He]. by apply Ho.
  - apply list_elem_of_fmap in He as (e' & -> & He). destruct (touched_same id now e') as (-> & -> & E). rewrite E in Hc. by apply Ho.
Qed.
Lemma evolves_has pt name ks op ks' : evolves ks op ks' -> spares name op -> hasKey pt name ks -> hasKey pt name ks'.
Proof.
  intros Hev Hs (e & He & Hc & Hn). destruct Hev as [|env n d b x h Hh|f now n|f g now pw id]; [by exists e| | |].
  - exists e. split; [apply elem_of_app; by left|done].
  - exists e. split; [|done]. apply list_elem_of_filter. split; [|done]. apply String.eqb_neq. intros E. apply Hs. cbn. congruence.
  - exists (touched id now e). destruct (touched_same id now e) as (-> & _ & ->). split; [by apply list_elem_of_fmap_2|done].
Qed.

Lemma evolves_gone pt ks op ks' : evolves ks op ks' -> quiet pt op -> gone pt ks -> gone pt ks'.
Proof.
  intros [|env n d b x h Hh|f now n|f g now pw id] Hq Ho e He; [by apply Ho| | |].
  - apply elem_of_app in He as [He|He%list_elem_of_singleton]; [by apply Ho|]. subst e. by apply Hq.
  - apply list_elem_of_filter in He as [_ He]. by apply Ho.
  - apply list_elem_of_fmap in He as (e' & -> & He). destruct (touched_same id now e') as (_ & _ & ->). by apply Ho.
Qed.

(** What every call keeps holds after any calls. *)
Lemma keyRun_keeps (ok : keyOp -> Prop) (P : list (Key * string) -> Prop) ops :
  (forall ks op ks', evolves ks op ks' -> ok op -> P ks -> P ks') -> Forall ok ops -> forall ks db, holdsKeys ks db -> P ks ->
  exists ks', holdsKeys ks' (keyRun ops db) /\ P ks'.
Proof.
  intros Hstep. induction 1 as [|op ops Hq Hqs IH]; intros ks db Hks Ho; [by exists ks|]. cbn [keyRun foldl].
  destruct (step_holds op ks db Hks) as (ks1 & Hev & Hks1). apply (IH ks1 _ Hks1). by eapply Hstep.
Qed.

(** What the store answers for the text. *)
Lemma only_accepted g now pt name exp ks db : holdsKeys ks db -> pt <> "" -> onlyKey pt name exp ks -> hasKey pt name ks ->
  match exp with None => True | Some t => now < t end -> AsInboundStore Through g now db pt = Ok name.
Proof.
  intros Hks Hne Ho (e & He & Hc & Hn) Hlive. destruct (authenticate_live g now pt ks db Hks Hne) as (l & Hl & Ha).
  assert (Hin : e ∈ l).
  { rewrite Hl. apply list_elem_of_filter. split; [|done]. unfold live. destruct (Ho e He Hc) as [_ ->]. destruct exp; [by apply Z.ltb_lt|done]. }
  destruct (firstMatch_found l pt e Hin Hc) as [k Hk]. destruct (firstMatch_Ok _ _ _ Hk) as (h & Hin' & Hc').
  rewrite Hl in Hin'. apply list_elem_of_filter in Hin' as [_ Hin']. destruct (Ho _ Hin' Hc') as [Hname _]. cbn in Hname.
  cbn [AsInboundStore ks_LookupAPIKey]. unfold LookupAPIKey. rewrite (surjective_pairing (KeyStore.Authenticate _ _ _ _ _)), Ha, Hk. cbn. by rewrite Hname.
Qed.
Lemma none_refused g now pt ks db : holdsKeys ks db -> pt <> "" ->
  (forall e, e ∈ ks -> live now e = true -> CompareHashAndPassword e.2 pt = false) -> AsInboundStore Through g now db pt = Err ErrInvalidCredential.
Proof.
  intros Hks Hne Hno. destruct (authenticate_live g now pt ks db Hks Hne) as (l & Hl & Ha).
  cbn [AsInboundStore ks_LookupAPIKey]. unfold LookupAPIKey. rewrite (surjective_pairing (KeyStore.Authenticate _ _ _ _ _)), Ha, firstMatch_none; [done|].
  intros e He. rewrite Hl in He. apply list_elem_of_filter in He as [Hlive He]. by apply Hno.
Qed.

(** The credential chain of the server, with a key that the configuration file does not know in the
    configured header, says what the database says. *)
Lemma chain_asks_store `{UnicodeTables} anon keys (store : APIKeyStore) header param v tokens r pt :
  string_forallb keyByte pt = true -> pt <> "" -> h_Get r (if String.eqb header "" then "X-API-Key" else header) = pt ->
  FileAPIKeyStore keys pt = Err ErrInvalidCredential ->
  store pt = Err ErrInvalidCredential \/ (exists name, store pt = Ok name) ->
  Chain_Authenticate (serverChain anon (NewAPIKey (CombineAPIKeyStores [FileAPIKeyStore keys; store]) header param) v tokens) r =
    match store pt with Ok name => Ok (apikeyIdentity name) | Err e => Err e end.
Proof.
  intros Hchars Hne Hh Hfile Hst. set (ak := NewAPIKey _ _ _).
  assert (Hcand : apikeyCandidate ak r = pt).
  { unfold apikeyCandidate, ak, NewAPIKey. cbn [ak_headerName]. rewrite Hh.
    rewrite TrimSpace_plain by (revert Hchars; apply string_forallb_impl, keyByte_plain). by rewrite (proj2 (String.eqb_neq _ _) Hne). }
  assert (Ha : APIKey_Authenticate ak r = match store pt with Ok name => Ok (apikeyIdentity name) | Err e => Err e end).
  { cbn [APIKey_Authenticate an_Authenticate]. unfold apikeyVerdict. rewrite Hcand, (proj2 (String.eqb_neq _ _) Hne).
    unfold ak, NewAPIKey, CombineAPIKeyStores. cbn [ak_store ks_LookupAPIKey combined_loop]. rewrite Hfile, bool_decide_eq_true_2 by done.
    by destruct Hst as [->|[name ->]]. }
  unfold Chain_Authenticate, serverChain, NewChain. cbn [omap list_omap ch_authenticators app id chain_loop]. rewrite Ha.
  by destruct Hst as [->|[name ->]].
Qed.

(** C20: the life of a key.  Create a key under a free name, with random bytes whose text no stored
    hash matches and values the columns can hold, over a connection that works.  Then let any calls of the
    store follow, on any connection, none of which happens to create a key whose hash matches the same text.
    As long as none of them deletes the name, the server's credential chain authenticates a request
    that carries the plaintext in the configured header as that name until the key expires, and
    refuses it as invalid from then on; deleting the key succeeds, and after that the chain
    refuses the plaintext for ever.  The text is not also a key of the configuration file, and the
    query of the authentication itself reaches the database. *)
Theorem key_lifecycle `{UnicodeTables} (ks : list (Key * string)) (db : database) (env : CreateEnv) (name description createdBy : string)
  (expiresAt : option Time) (buf : string)
  (Hks : holdsKeys ks db) (Hrandom : ce_random env = Some buf) (Hbuf : len buf = 32) (Hfate : ce_fate env = Through)
  (Hname : name <> "") (Htexts : forallb textOK [ce_uuid env; name; description; createdBy] = true)
  (Hindex : forallb index_entry [ce_uuid env; name] = true)
  (Hfree : name ∉ map (fun e => ky_Name e.1) ks) (Huuid : ce_uuid env ∉ map (fun e => ky_ID e.1) ks)
  (Hfresh : forall e pt, e ∈ ks -> generatePlaintext (Some buf) = Ok pt -> CompareHashAndPassword e.2 pt = false) :
  exists db' cr, KeyStore.Create env name description createdBy expiresAt db = (db', Ok cr) /\
    forall anon keys header param v tokens r g,
    h_Get r (if String.eqb header "" then "X-API-Key" else header) = cr_Plaintext cr ->
    FileAPIKeyStore keys (cr_Plaintext cr) = Err ErrInvalidCredential ->
    let served now db := Chain_Authenticate
      (serverChain anon (NewAPIKey (CombineAPIKeyStores [FileAPIKeyStore keys; AsInboundStore Through g now db]) header param) v tokens) r in
    forall ops, Forall (quiet (cr_Plaintext cr)) ops -> Forall (spares name) ops ->
    (forall now, served now (keyRun ops db') =
       if match expiresAt with None => true | Some t => now <? tz_round t end then Ok (apikeyIdentity name) else Err ErrInvalidCredential) /\
    (forall now, exists db'', KeyStore.Delete Through now name (keyRun ops db') = (db'', None) /\
       forall ops' now', Forall (quiet (cr_Plaintext cr)) ops' -> served now' (keyRun ops' db'') = Err ErrInvalidCredential).
Proof.
  destruct (generatePlaintext (Some buf)) as [pt|e] eqn:Eg; [|done].
  destruct (plaintext_shape buf pt Eg Hbuf) as (Hchars & Hlen & Hne).
  destruct (bcrypt_total (ce_salt env) pt Hlen) as [hash Hhash]. pose proof (bcrypt_match _ _ _ Hhash) as Hm.
  assert (Hok : forallb textOK [ce_uuid env; name; hash; description; createdBy] = true).
  { cbn [forallb] in Htexts |- *. rewrite (bcrypt_text _ _ _ Hhash). apply andb_true_iff in Htexts as [-> Ht].
    apply andb_true_iff in Ht as [-> Ht]. done. }
  assert (Hnt : textOK name = true) by (cbn [forallb] in Htexts; by apply andb_true_iff in Htexts as [_ [? _]%andb_true_iff]).
  set (k := newKey env name description createdBy expiresAt).
  destruct (create_succeeds ks db env name hash description createdBy expiresAt Hks Hok Hindex Hfree Huuid) as (db' & Hrun & Hks'). fold k in Hks'.
  exists db', (mkCreated (mkKey (ce_uuid env) name description createdBy (ce_now env) expiresAt None) pt). split.
  { unfold KeyStore.Create. rewrite (proj2 (String.eqb_neq _ _) Hname), Hrandom, Eg, Hhash, Hfate. unfold execSQL.
    unfold createArgs in Hrun. by rewrite Hrun. }
  cbv beta iota delta [cr_Plaintext]. intros anon keys header param v tokens r g Hh Hfile served ops Hq Hs.
  set (exp := option_map tz_round expiresAt).
  assert (Ho : onlyKey pt name exp (ks ++ [(k, hash)])%list).
  { intros e [He|He%list_elem_of_singleton]%elem_of_app Hc; [rewrite (Hfresh e pt He eq_refl) in Hc; done|]. by subst e. }
  assert (Hhas : hasKey pt name (ks ++ [(k, hash)])%list).
  { exists (k, hash). split; [apply elem_of_app; right; by apply list_elem_of_singleton|done]. }
  destruct (keyRun_keeps (fun op => quiet pt op /\ spares name op) (fun ks => onlyKey pt name exp ks /\ hasKey pt name ks) ops)
    with (ks := (ks ++ [(k, hash)])%list) (db := db') as (ks1 & Hks1 & Ho1 & Hhas1); [|by apply Forall_and|done|done|].
  { intros ks0 op ks0' Hev [? ?] [? ?]. split; [by eapply evolves_only|by eapply evolves_has]. }
  split.
  - intros now. assert (Hcase : AsInboundStore Through g now (keyRun ops db') pt =
      if match expiresAt with None => true | Some t => now <? tz_round t end then Ok name else Err ErrInvalidCredential).
    { destruct (match expiresAt with None => true | Some t => now <? tz_round t end) eqn:El.
      - apply (only_accepted g now pt name exp ks1); try done. unfold exp. destruct expiresAt; cbn; [by apply Z.ltb_lt|done].
      - apply (none_refused g now pt ks1); [done..|]. intros e He Hlive. destruct (CompareHashAndPassword e.2 pt) eqn:Ec; [|done].
        destruct (Ho1 e He Ec) as [_ Hx]. unfold live in Hlive. rewrite Hx in Hlive. unfold exp in Hlive. destruct expiresAt; cbn in *; congruence. }
    unfold served. rewrite (chain_asks_store _ _ _ _ _ _ _ _ pt) by (try done; rewrite Hcase; case_match; eauto). rewrite Hcase. by case_match.
  - intros now. destruct (delete_holds now name _ _ Hks1 Hnt) as (db'' & Hd & Hks2). exists db''. split.
    + unfold KeyStore.Delete, execSQL. rewrite Hd. destruct Hhas1 as (e & He & _ & Hn).
      rewrite (proj2 (Z.eqb_neq _ 0)); [done|]. destruct (filter _ ks1) as [|x l] eqn:Ef; [|cbn [length]; lia]. exfalso.
      apply (not_elem_of_nil e). rewrite <- Ef. apply list_elem_of_filter. split; [by apply String.eqb_eq|done].
    + intros ops' now' Hq'. destruct (keyRun_keeps (quiet pt) (gone pt) ops' (evolves_gone pt) Hq' _ db'' Hks2) as (ks3 & Hks3 & Hno).
      { intros e He. destruct (CompareHashAndPassword e.2 pt) eqn:Ec; [|done]. unfold without in He. apply list_elem_of_filter in He as [Hn He].
        destruct (Ho1 e He Ec) as [Hname' _]. rewrite Hname', String.eqb_refl in Hn. done. }
      assert (Hr : AsInboundStore Through g now' (keyRun ops' db'') pt = Err ErrInvalidCredential)
        by (apply (none_refused g now' pt ks3); [done..|]; intros e He _; by apply Hno).
      unfold served. rewrite (chain_asks_store _ _ _ _ _ _ _ _ pt) by (try done; by left). by rewrite Hr.
Qed.

End Theorems.

(** ** Witnesses *)

Lemma textOK_ascii s : string_forallb (fun c => (0 <? byte c) && (byte c <? 128)) s = true -> textOK s = true.
Proof.
  intros Hs. unfold textOK. apply andb_true_iff. split.
  - unfold utf8_Valid. rewrite utf8_decode_ascii.
    + clear Hs. induction s as [|c s IH]; [done|]. exact IH.
    + revert Hs. apply string_forallb_impl. intros c Hc. by apply andb_true_iff in Hc as [_ ->].
  - apply negb_true_iff. eapply string_forallb_no_byte; [|exact Hs]. by vm_compute.
Qed.

Lemma hex_text s : string_forallb (fun c => (0 <? byte c) && (byte c <? 128)) (hex_EncodeToString s) = true.
Proof.
  induction s as [|c s IH]; [done|]. cbn [hex_EncodeToString string_forallb]. rewrite IH, !andb_true_r.
  assert (Hd : forall z, 0 <= z < 16 -> (0 <? byte (hex_digit z)) && (byte (hex_digit z) <? 128) = true).
  { intros z Hz. assert (Hb : 0 < byte (hex_digit z) < 128); [|apply andb_true_iff; split; apply Z.ltb_lt; lia].
    unfold hex_digit. destruct (Z.ltb_spec z 10); rewrite byte_chr; lia. }
  pose proof (byte_range c). rewrite !Hd by zlia. done.
Qed.

(** A stand-in for bcrypt that keeps the password in hexadecimal. *)
#[refine] Definition plainBcrypt : Bcrypt := {|
  GenerateFromPassword salt pw := if len pw <=? 72 then Ok (hex_EncodeToString pw) else Err "too long";
  CompareHashAndPassword h pw := String.eqb h (hex_EncodeToString pw)
|}.
Proof.
  - intros salt pw Hl. apply Z.leb_le in Hl. rewrite Hl. by eexists.
  - intros salt pw h. destruct (len pw <=? 72); [|done]. intros [= <-]. apply String.eqb_refl.
  - intros salt pw h. destruct (len pw <=? 72); [|done]. intros [= <-]. apply textOK_ascii, hex_text.
Defined.

#[local] Existing Instance plainLocale.
#[local] Existing Instance plainPostgres.
#[local] Existing Instance plainBcrypt.
#[local] Existing Instance ascii_tables.

Definition sampleCreate : CreateEnv := mkCreateEnv (Some (Repeat "k" 32)) "salt" "id-1" 5000 6000 Through.
Definition sampleTable : database := (KeyStore.Create sampleCreate "ci" "" "alice" None ∅).1.
Definition sampleKey : Key := mkKey "id-1" "ci" "" "alice" 5000 None None.
Definition sampleText : string := "at_a2tra2tra2tra2tra2tra2tra2tra2tra2tra2tra2s".

Lemma emptyKeys : holdsKeys [] ∅.
Proof. split; [done|constructor|constructor]. Defined.
Lemma sampleKeys : holdsKeys [(sampleKey, hex_EncodeToString sampleText)] sampleTable.
Proof. split; [by vm_compute|apply NoDup_singleton|apply NoDup_singleton]. Defined.

Lemma keys_invariant_witness : exists ks l, holdsKeys ks sampleTable /\ KeyStore.List Through 7000 sampleTable = Ok (map fst l) /\ l ≡ₚ ks.
Proof.
  destruct (keys_invariant sampleTable 7000) as (ks & l & H1 & H2 & H3 & _); [apply reach_create, reach_init|]. by exists ks, l.
Defined.

Lemma authenticate_sound_witness :
  exists h, (sampleKey, h) ∈ [(sampleKey, hex_EncodeToString sampleText)] /\ CompareHashAndPassword h sampleText = true.
Proof.
  destruct (authenticate_sound Through (Refused "x") 7000 sampleText [(sampleKey, hex_EncodeToString sampleText)] sampleTable
              sampleTable sampleKey sampleKeys) as (Hh & _); [by vm_compute|]. exact Hh.
Defined.

Definition keyHeader : Request :=
  mkRequest "GET" "/v1/whoami" "/v1/whoami" "" {["X-Api-Key" := [sampleText]]} "h" false "10.0.0.1" None ∅ [] Background.
(** Another key is created, used and deleted meanwhile. *)
Definition sampleCreate2 : CreateEnv := mkCreateEnv (Some (Repeat "m" 32)) "salt" "id-2" 5500 6500 Through.
Definition meanwhile : list keyOp :=
  [OpCreate sampleCreate2 "other" "" "bob" None; OpAuthenticate Through Through 7000 sampleText; OpDelete Through 7500 "other"].

Lemma key_lifecycle_witness : exists db' cr,
  KeyStore.Create sampleCreate "ci" "" "alice" None ∅ = (db', Ok cr) /\
  Chain_Authenticate (serverChain false (NewAPIKey (CombineAPIKeyStores [FileAPIKeyStore []; AsInboundStore Through Through 8000 (keyRun meanwhile db')]) "" "") None [])
    keyHeader = Ok (apikeyIdentity "ci") /\
  exists db'', KeyStore.Delete Through 8000 "ci" (keyRun meanwhile db') = (db'', None) /\
    Chain_Authenticate (serverChain false (NewAPIKey (CombineAPIKeyStores [FileAPIKeyStore []; AsInboundStore Through Through 9000 (keyRun meanwhile db'')]) "" "") None [])
      keyHeader = Err ErrInvalidCredential.
Proof.
  destruct (key_lifecycle [] ∅ sampleCreate "ci" "" "alice" None (Repeat "k" 32) emptyKeys) as (db' & cr & H1 & H2);
    try done; try (by apply not_elem_of_nil).
  - intros e pt He. by apply elem_of_nil in He.
  - exists db', cr. split; [exact H1|]. assert (Hcr : cr_Plaintext cr = sampleText).
    { assert (E : option_map cr_Plaintext (match (KeyStore.Create sampleCreate "ci" "" "alice" None ∅).2 with Ok c => Some c | Err _ => None end) = Some sampleText)
        by (by vm_compute). rewrite H1 in E. by injection E. }
    rewrite Hcr in H2. assert (Hq : Forall (quiet sampleText) meanwhile).
    { repeat constructor. intros h Hh. assert (E : hashOf sampleCreate2 = Some (hex_EncodeToString "at_bW1tbW1tbW1tbW1tbW1tbW1tbW1tbW1tbW1tbW1tbW0")) by (by vm_compute).
      rewrite E in Hh. injection Hh as <-. by vm_compute. }
    destruct (H2 false [] "" "" None [] keyHeader Through ltac:(by vm_compute) ltac:(by vm_compute) meanwhile Hq) as [H3 H4]; [by repeat constructor|].
    split; [apply H3|]. destruct (H4 8000) as (db'' & H5 & H6). exists db''. split; [exact H5|]. by apply H6.
Defined.
