(* ===== verification/GoUrlParse.v ===== *)
(** * Go's [url.Parse] and [URL.String]

    The parser for absolute and rooted URLs, component by component.  The syntax of the host part
    differs between releases of Go and is the class [UrlHost]; everything else, the order of the
    cuts and the escapes of each component, is written out. *)
From S2P Require Import Prelude GoStrings GoNum GoUrl.

Class UrlHost := {
  parseHost (scheme host : string) : option string;   (** checked and unescaped; [None]: malformed *)
  escapeHost (host : string) : string
}.

(** ** Escaping *)

Definition hexUpper (n : Z) : ascii := if n <? 10 then chr (48 + n) else chr (55 + n).
Definition pctByte (c : ascii) : string := String "%" (String (hexUpper (byte c / 16)) (str1 (hexUpper (byte c mod 16)))).

Inductive mode := encodePath | encodePathSegment | encodeUserPassword | encodeFragment.
Definition unreserved (c : ascii) : bool := isDigit c || isUpper c || isLower c || ContainsByte "-_.~" c.
Definition shouldEscape (m : mode) (c : ascii) : bool :=
  if unreserved c then false
  else match m with
       | encodePath => negb (ContainsByte "$&+,/:;=@" c)
       | encodePathSegment => negb (ContainsByte "$&+:=@" c)
       | encodeUserPassword => negb (ContainsByte "$&+,;=" c)
       | encodeFragment => negb (ContainsByte "$&+,/:;=?@!()*" c)
       end.
Fixpoint escape (m : mode) (s : string) : string :=
  match s with
  | EmptyString => ""
  | String c s' => if shouldEscape m c then pctByte c ++ escape m s' else String c (escape m s')
  end.
Definition PathEscape (s : string) : string := escape encodePathSegment s.

(** [unescape] outside the query: a plus sign is itself. *)
Fixpoint unescape (s : string) : option string :=
  match s with
  | EmptyString => Some ""
  | String c s1 =>
    if Ascii.eqb c "%" then
      match s1 with
      | String a (String b s3) =>
        match unhex a, unhex b with
        | Some x, Some y => String (chr (x * 16 + y)) <$> unescape s3
        | _, _ => None
        end
      | _ => None
      end
    else String c <$> unescape s1
  end.

(** [validEncoded] for paths and fragments. *)
Fixpoint validEncoded (m : mode) (s : string) : bool :=
  match s with
  | EmptyString => true
  | String c s' =>
    (ContainsByte "!$&'()*+,;=:@[]" c || Ascii.eqb c "%" || negb (shouldEscape m c)) && validEncoded m s'
  end.

(** ** URLs *)

Record URL := mkURL {
  u_Scheme : string; u_Opaque : string;
  u_User : option (string * option string);   (** user name and password *)
  u_Host : string; u_Path : string; u_RawPath : string; u_OmitHost : bool;
  u_ForceQuery : bool; u_RawQuery : string; u_Fragment : string; u_RawFragment : string }.

Definition isCTL (c : ascii) : bool := (byte c <? 32) || (byte c =? 127).
Definition noCTL (s : string) : bool := string_forallb (fun c => negb (isCTL c)) s.

(** [getScheme]: [None] for an empty scheme before a colon. *)
Fixpoint scheme_loop (acc s whole : string) : option (string * string) :=
  match s with
  | EmptyString => Some ("", whole)
  | String c s' =>
    if isUpper c || isLower c then scheme_loop (acc ++ str1 c) s' whole
    else if isDigit c || ContainsByte "+-." c then
      if String.eqb acc "" then Some ("", whole) else scheme_loop (acc ++ str1 c) s' whole
    else if Ascii.eqb c ":" then if String.eqb acc "" then None else Some (acc, s')
    else Some ("", whole)
  end.
Definition getScheme (s : string) : option (string * string) := scheme_loop "" s s.

Fixpoint CountByte (s : string) (c : ascii) : nat :=
  match s with EmptyString => O | String d s' => ((if Ascii.eqb d c then 1 else 0) + CountByte s' c)%nat end.
Fixpoint HasSuffixByte (s : string) (c : ascii) : bool :=
  match s with EmptyString => false | String d "" => Ascii.eqb d c | String _ s' => HasSuffixByte s' c end.

(** The query of the remainder: ([ForceQuery], the rest before it, [RawQuery]). *)
Definition splitQuery (rest : string) : bool * string * string :=
  if HasSuffixByte rest "?" && (CountByte rest "?" =? 1)%nat then (true, (Cut rest "?").1.1, "")
  else (false, (Cut rest "?").1.1, (Cut rest "?").1.2).

Definition userinfoByte (c : ascii) : bool :=
  isDigit c || isUpper c || isLower c || ContainsByte "-._:~!$&'()*+,;=%@" c.

(** [s[:i]] and [s[i+1:]] at the last [c]. *)
Definition CutLast (s : string) (c : ascii) : option (string * string) :=
  match LastFrom s c with
  | Some t => Some (stake (String.length s - String.length t) s, sdrop 1 t)
  | None => None
  end.

Section Parse.
Context `{UnicodeTables} `{UrlHost}.

Definition parseUserinfo (ui : string) : option (string * option string) :=
  if string_forallb userinfoByte ui then
    if ContainsByte ui ":" then
      let '(username, password, _) := Cut ui ":" in
      username ← unescape username; password ← unescape password; Some (username, Some password)
    else username ← unescape ui; Some (username, None)
  else None.

Definition parseAuthority (scheme authority : string) : option (option (string * option string) * string) :=
  match CutLast authority "@" with
  | None => host ← parseHost scheme authority; Some (None, host)
  | Some (userinfo, h) => host ← parseHost scheme h; u ← parseUserinfo userinfo; Some (Some u, host)
  end.

(** [setPath]: the decoded path, and the raw one when it is not the default encoding. *)
Definition setPath (p : string) : option (string * string) :=
  path ← unescape p; Some (path, if String.eqb p (escape encodePath path) then "" else p).

Definition parseNoFragment (raw : string) : option URL :=
  if negb (noCTL raw) then None
  else if String.eqb raw "*" then Some (mkURL "" "" None "" "*" "" false false "" "" "")
  else
    '(scheme0, rest) ← getScheme raw;
    let scheme := ToLower scheme0 in
    let '(force, rest, query) := splitQuery rest in
    if negb (HasPrefix rest "/") && negb (String.eqb scheme "") then
      Some (mkURL scheme rest None "" "" "" false force query "" "")
    else if negb (HasPrefix rest "/") && ContainsByte (Cut rest "/").1.1 ":" then None
    else if HasPrefix rest "//" && (negb (String.eqb scheme "") || negb (HasPrefix rest "///")) then
      let after := sdrop 2 rest in
      let '(authority, p, found) := Cut after "/" in
      '(user, host) ← parseAuthority scheme authority;
      '(path, rawPath) ← setPath (if found then String "/" p else "");
      Some (mkURL scheme "" user host path rawPath false force query "" "")
    else
      '(path, rawPath) ← setPath rest;
      Some (mkURL scheme "" None "" path rawPath (negb (String.eqb scheme "") && HasPrefix rest "/") force query "" "").

Definition Parse (raw : string) : option URL :=
  let '(u, frag, _) := Cut raw "#" in
  url ← parseNoFragment u;
  if String.eqb frag "" then Some url
  else
    fragment ← unescape frag;
    Some (mkURL (u_Scheme url) (u_Opaque url) (u_User url) (u_Host url) (u_Path url) (u_RawPath url) (u_OmitHost url)
            (u_ForceQuery url) (u_RawQuery url) fragment (if String.eqb frag (escape encodeFragment fragment) then "" else frag)).

Definition EscapedPath (u : URL) : string :=
  if negb (String.eqb (u_RawPath u) "") && validEncoded encodePath (u_RawPath u)
     && bool_decide (unescape (u_RawPath u) = Some (u_Path u)) then u_RawPath u
  else if String.eqb (u_Path u) "*" then "*" else escape encodePath (u_Path u).
Definition EscapedFragment (u : URL) : string :=
  if negb (String.eqb (u_RawFragment u) "") && validEncoded encodeFragment (u_RawFragment u)
     && bool_decide (unescape (u_RawFragment u) = Some (u_Fragment u)) then u_RawFragment u
  else escape encodeFragment (u_Fragment u).

Definition userinfoString (u : string * option string) : string :=
  escape encodeUserPassword u.1 ++ match u.2 with Some p => ":" ++ escape encodeUserPassword p | None => "" end.

Definition URL_String (u : URL) : string :=
  let scheme := if String.eqb (u_Scheme u) "" then "" else u_Scheme u ++ ":" in
  let body :=
    if negb (String.eqb (u_Opaque u) "") then u_Opaque u
    else
      let hasUser := match u_User u with Some _ => true | None => false end in
      let authority :=
        if negb (String.eqb (u_Scheme u) "") || negb (String.eqb (u_Host u) "") || hasUser then
          if u_OmitHost u && String.eqb (u_Host u) "" && negb hasUser then ""
          else (if negb (String.eqb (u_Host u) "") || negb (String.eqb (u_Path u) "") || hasUser then "//" else "")
               ++ (match u_User u with Some ui => userinfoString ui ++ "@" | None => "" end)
               ++ (if String.eqb (u_Host u) "" then "" else escapeHost (u_Host u))
        else "" in
      let path := EscapedPath u in
      let slash := if negb (String.eqb path "") && negb (HasPrefix path "/") && negb (String.eqb (u_Host u) "") then "/" else "" in
      let dot := if String.eqb scheme "" && String.eqb authority "" && String.eqb slash "" && ContainsByte (Cut path "/").1.1 ":" then "./" else "" in
      authority ++ slash ++ dot ++ path in
  scheme ++ body
  ++ (if u_ForceQuery u || negb (String.eqb (u_RawQuery u) "") then "?" ++ u_RawQuery u else "")
  ++ (if String.eqb (u_Fragment u) "" then "" else "#" ++ EscapedFragment u).

Definition Redacted (u : URL) : string :=
  match u_User u with
  | Some (name, Some _) =>
    URL_String (mkURL (u_Scheme u) (u_Opaque u) (Some (name, Some "xxxxx")) (u_Host u) (u_Path u) (u_RawPath u) (u_OmitHost u)
                  (u_ForceQuery u) (u_RawQuery u) (u_Fragment u) (u_RawFragment u))
  | _ => URL_String u
  end.

Definition URL_Query (u : URL) : Values := ParseQuery (u_RawQuery u).
End Parse.

(** ** Lemmas: URLs with a password *)

Lemma Cut_app a b sep : ContainsByte a sep = false ->
  Cut (a ++ b) sep = (a ++ (Cut b sep).1.1, (Cut b sep).1.2, (Cut b sep).2).
Proof.
  induction a as [|c a IH]; simpl; [by destruct (Cut b sep) as [[]]|]. intros [-> Ha]%orb_false_iff. by rewrite IH.
Qed.
Lemma CountByte_app a b c : CountByte (a ++ b) c = (CountByte a c + CountByte b c)%nat.
Proof. induction a as [|d a IH]; simpl; [done|]. rewrite IH. lia. Qed.
Lemma CountByte_absent a c : ContainsByte a c = false -> CountByte a c = 0%nat.
Proof. induction a as [|d a IH]; simpl; [done|]. intros [-> Ha]%orb_false_iff. by rewrite IH. Qed.
Lemma HasSuffixByte_absent a c : ContainsByte a c = false -> HasSuffixByte a c = false.
Proof. induction a as [|d a IH]; simpl; [done|]. intros [Hd Ha]%orb_false_iff. destruct a; [done|]. by apply IH. Qed.
Lemma HasSuffixByte_app a b c : ContainsByte a c = false -> HasSuffixByte (a ++ b) c = HasSuffixByte b c.
Proof.
  induction a as [|d a IH]; simpl; [done|]. intros [Hd Ha]%orb_false_iff. destruct (a ++ b) eqn:E.
  - destruct a; [|done]. simpl in E. by subst.
  - by apply IH.
Qed.
Lemma splitQuery_app a b : ContainsByte a "?" = false ->
  splitQuery (a ++ b) = ((splitQuery b).1.1, a ++ (splitQuery b).1.2, (splitQuery b).2).
Proof.
  intros Ha. unfold splitQuery. rewrite HasSuffixByte_app, CountByte_app, (CountByte_absent a), (Cut_app a b) by done.
  by destruct (_ && _).
Qed.
Lemma CutLast_found a b c : ContainsByte b c = false -> CutLast (a ++ String c b) c = Some (a, b).
Proof.
  intros Hb. unfold CutLast.
  assert (Hl : LastFrom (a ++ String c b) c = Some (String c b)).
  { induction a as [|d a IH]; simpl; [|by rewrite IH]. rewrite LastFrom_absent by done. by rewrite Ascii.eqb_refl. }
  rewrite Hl. do 2 f_equal. rewrite sapp_length. replace (_ - _)%nat with (String.length a) by lia. apply stake_app_len.
Qed.

(** What may be written between the slashes and the at sign. *)
Definition plainUserinfo (s : string) : bool := string_forallb (fun c => userinfoByte c && negb (Ascii.eqb c "@")) s.
Lemma plainUserinfo_absent s c : plainUserinfo s = true -> (userinfoByte c && negb (Ascii.eqb c "@")) = false -> ContainsByte s c = false.
Proof. intros Hs Hc. revert Hs. by apply string_forallb_no_byte. Qed.
Lemma plainUserinfo_noCTL s : plainUserinfo s = true -> noCTL s = true.
Proof.
  apply string_forallb_impl. intros [[] [] [] [] [] [] [] []]; by vm_compute.
Qed.

Definition passwordURL (scheme user pw rest : string) : string := scheme ++ "://" ++ user ++ ":" ++ pw ++ "@" ++ rest.
(** The host part of what follows the at sign. *)
Definition hostOf (rest : string) : string := (Cut (splitQuery (Cut rest "#").1.1).1.2 "/").1.1.
Definition setPassword (u : URL) (pw : string) : URL :=
  mkURL (u_Scheme u) (u_Opaque u) (match u_User u with Some (n, _) => Some (n, Some pw) | None => None end) (u_Host u) (u_Path u)
    (u_RawPath u) (u_OmitHost u) (u_ForceQuery u) (u_RawQuery u) (u_Fragment u) (u_RawFragment u).

Section PasswordURL.
Context `{UnicodeTables} `{UrlHost}.

Definition goodScheme (scheme : string) : Prop :=
  ToLower scheme = scheme /\ scheme <> "" /\ noCTL scheme = true /\ ContainsByte scheme "#" = false /\
  forall t, getScheme (scheme ++ String ":" t) = Some (scheme, t).

Lemma parseUserinfo_password user pw : plainUserinfo user = true -> ContainsByte user ":" = false -> plainUserinfo pw = true ->
  parseUserinfo (user ++ ":" ++ pw) = u ← unescape user; p ← unescape pw; Some (u, Some p).
Proof.
  intros Hu Hc Hp. unfold parseUserinfo.
  assert (E : string_forallb userinfoByte (user ++ ":" ++ pw) = true).
  { rewrite !string_forallb_app, !andb_true_iff. split; [|split; [done|]]; eapply string_forallb_impl; try eassumption;
      intros c Hx; by apply andb_true_iff in Hx as [? _]. }
  rewrite E. change (":" ++ pw) with (String ":" pw). rewrite ContainsByte_app. cbn [ContainsByte].
  rewrite Ascii.eqb_refl, orb_true_r, Cut_found by done. done.
Qed.

(** Parsing, with the parts that do not depend on the password computed first. *)
Lemma Parse_passwordURL scheme user pw rest :
  goodScheme scheme -> plainUserinfo user = true -> ContainsByte user ":" = false -> plainUserinfo pw = true ->
  ContainsByte (hostOf rest) "@" = false ->
  Parse (passwordURL scheme user pw rest) =
    let '(raw, frag, _) := Cut rest "#" in
    let '(force, r, query) := splitQuery raw in
    let '(h, p, found) := Cut r "/" in
    u ← (if negb (noCTL raw) then None
         else
           '(user, host) ← (host ← parseHost scheme h; u ← (u ← unescape user; p ← unescape pw; Some (u, Some p)); Some (Some u, host));
           '(path, rawPath) ← setPath (if found then String "/" p else "");
           Some (mkURL scheme "" user host path rawPath false force query "" ""));
    if String.eqb frag "" then Some u
    else
      fragment ← unescape frag;
      Some (mkURL (u_Scheme u) (u_Opaque u) (u_User u) (u_Host u) (u_Path u) (u_RawPath u) (u_OmitHost u)
            (u_ForceQuery u) (u_RawQuery u) fragment (if String.eqb frag (escape encodeFragment fragment) then "" else frag)).
Proof.
  intros (Hlow & Hne & Hctl & Hhash & Hget) Hu Huc Hp Hh.
  set (front := "://" ++ user ++ ":" ++ pw ++ "@").
  assert (Hfront : forall c, ContainsByte front c = ContainsByte "://" c || ContainsByte user c || Ascii.eqb ":" c || ContainsByte pw c || Ascii.eqb "@" c).
  { intros c. unfold front. rewrite !ContainsByte_app. cbn [ContainsByte]. by rewrite !orb_false_r, !orb_assoc. }
  assert (Hraw : passwordURL scheme user pw rest = (scheme ++ front) ++ rest) by (unfold passwordURL, front; by rewrite <- !sapp_assoc).
  assert (Ha : forall c, userinfoByte c && negb (Ascii.eqb c "@") = false -> Ascii.eqb ":" c = false -> Ascii.eqb "@" c = false -> ContainsByte "://" c = false -> ContainsByte front c = false).
  { intros c H1 H2 H3 H4. by rewrite Hfront, H2, H3, H4, (plainUserinfo_absent user), (plainUserinfo_absent pw). }
  unfold Parse. rewrite Hraw, Cut_app by (by rewrite ContainsByte_app, Hhash, Ha).
  unfold hostOf in Hh. destruct (Cut rest "#") as [[raw frag] hf]. cbn [fst snd] in *.
  unfold parseNoFragment. unfold noCTL at 1. rewrite !string_forallb_app. fold (noCTL scheme) (noCTL front) (noCTL raw).
  assert (Hfc : noCTL front = true).
  { unfold front, noCTL. rewrite !string_forallb_app. fold (noCTL user) (noCTL pw). by rewrite (plainUserinfo_noCTL _ Hu), (plainUserinfo_noCTL _ Hp). }
  rewrite Hctl, Hfc. cbn [andb].
  destruct (noCTL raw) eqn:Hrc; cbn [negb]; [|by destruct (splitQuery raw) as [[? ?] ?]; destruct (Cut _ _) as [[? ?] ?]].
  destruct (String.eqb_spec ((scheme ++ front) ++ raw) "*") as [E|_].
  { exfalso. apply (f_equal String.length) in E. rewrite !sapp_length in E. unfold front in E. rewrite !sapp_length in E. simpl in E. lia. }
  assert (Hsplit : (scheme ++ front) ++ raw = scheme ++ String ":" ("//" ++ (user ++ ":" ++ pw ++ "@") ++ raw)) by (unfold front; by rewrite <- !sapp_assoc).
  rewrite Hsplit, Hget. cbn [mbind option_bind]. rewrite Hlow. rewrite (sapp_assoc "//").
  rewrite splitQuery_app by (change (ContainsByte front "?" = false); by apply Ha).
  destruct (splitQuery raw) as [[force r] query]. cbn [fst snd] in *.
  rewrite <- (sapp_assoc "//"). rewrite (HasPrefix_app "//"). change (HasPrefix ("//" ++ _) "/") with true. cbn [negb andb].
  destruct (String.eqb_spec scheme "") as [|_]; [done|]. cbn [negb orb]. change (sdrop 2 ("//" ++ ?x)) with x.
  rewrite Cut_app by (rewrite !ContainsByte_app; cbn [ContainsByte]; by rewrite (plainUserinfo_absent user), (plainUserinfo_absent pw)).
  destruct (Cut r "/") as [[h p] found]. cbn [fst snd] in *.
  unfold parseAuthority. replace ((user ++ ":" ++ pw ++ "@") ++ h) with ((user ++ ":" ++ pw) ++ String "@" h) by (by rewrite <- !sapp_assoc).
  rewrite CutLast_found, parseUserinfo_password by done. done.
Qed.

(** Replacing the password changes nothing else of the result. *)
Lemma Parse_setPassword scheme user pw1 pw2 d rest u :
  goodScheme scheme -> plainUserinfo user = true -> ContainsByte user ":" = false -> ContainsByte (hostOf rest) "@" = false ->
  plainUserinfo pw1 = true -> plainUserinfo pw2 = true -> unescape pw2 = Some d ->
  Parse (passwordURL scheme user pw1 rest) = Some u ->
  (exists n p, u_User u = Some (n, Some p)) /\ u_Scheme u = scheme /\ Parse (passwordURL scheme user pw2 rest) = Some (setPassword u d).
Proof.
  intros Hg Hu Huc Hh Hp1 Hp2 Hd. rewrite !Parse_passwordURL by done.
  destruct (Cut rest "#") as [[raw frag] hf], (splitQuery raw) as [[force r] query], (Cut r "/") as [[h p] found].
  destruct (noCTL raw); [|done]. cbn [negb]. destruct (parseHost scheme h) as [host|]; [|done]. cbn [mbind option_bind].
  destruct (unescape user) as [un|]; [|done]. cbn [mbind option_bind]. rewrite Hd. destruct (unescape pw1) as [d1|]; [|done]. cbn [mbind option_bind].
  destruct (setPath _) as [[path rawPath]|]; [|done]. cbn [mbind option_bind].
  destruct (String.eqb frag ""); [intros [= <-]; cbn; by eauto|].
  destruct (unescape frag) as [fr|]; [|done]. cbn [mbind option_bind]. intros [= <-]. cbn. by eauto.
Qed.

(** [Redacted] does not show the password. *)
Lemma Redacted_setPassword u d n p : u_User u = Some (n, Some p) -> Redacted (setPassword u d) = Redacted u.
Proof. intros Hu. unfold Redacted, setPassword. rewrite Hu. cbn. done. Qed.
End PasswordURL.
