(* ===== verification/PortalApi.v ===== *)
(** * The portal API ([pkg/httpsrv/portal_api.go])

    The handlers under [/api/v1/portal] and [/api/v1/admin]: identity, sanitized configuration,
    endpoint catalogue, audit queries, dashboard and key administration.  They act on the server's
    state through the audit logger (class [Logger], payloads through [PortalStore]) and on the key
    table through the store of [ApiKeys].  [uuid.Parse] and the texts of decoding errors are
    parameters.  The process runs in the zone UTC. *)
From S2P Require Import Prelude GoStrings GoNum GoTime GoUrl Json JsonParse Http ServeMux Registry AuditEvent.
From S2P Require Import MemoryLog Inbound FailureEndpoints Middleware Config Session Server BrowserAuth Sql ApiKeys GoUrlParse.

(** ** Parameters *)

(** [github.com/google/uuid]: the canonical form of a valid UUID. *)
Class UUID := {
  uuid_Parse : string -> option string;
  uuid_canonical s id : uuid_Parse s = Some id -> uuid_Parse id = Some id
}.

(** The messages of [json.Decoder.Decode], [time.Parse] and [url.Parse] for a text they refuse. *)
Class ErrorTexts := {
  decodeErrorText : string -> string; timeErrorText : string -> string; urlErrorText : string -> string }.

(** How a slice without elements prints: [null] when it is nil, by the name of its field. *)
Class SliceJSON := { emptySlice : string -> json }.

(** What the portal reaches besides the log: the payloads when the logger keeps them, and the
    tables of the key store with the round trips to its server. *)
Class PortalStore (L : Type) := {
  ps_payloads : option (PayloadLogger L);
  ps_tables : L -> database;
  ps_setTables : database -> L -> L;
  ps_create : Env -> CreateEnv;
  ps_fate : Env -> fate;
  ps_now : Env -> Time
}.

(** ** Query filters *)

Definition queryTime (r : Request) (k : string) : Time :=
  let v := q_Get r k in
  if String.eqb v "" then 0 else default 0 (ParseRFC3339 v).
(** [if v, _ := strconv.Atoi(q.Get(k)); v > 0]. *)
Definition queryPositive (r : Request) (k : string) : Z :=
  let '(v, _) := Atoi (q_Get r k) in if 0 <? v then v else 0.

Definition parseQueryFilter (r : Request) : QueryFilter :=
  mkQueryFilter (queryTime r "from") (queryTime r "to") (q_Get r "method") (q_Get r "path") (q_Get r "route_name")
    (q_Get r "user") (q_Get r "session") ""
    (if String.eqb (q_Get r "status") "" then 0
     else match Atoi (q_Get r "status") with (n, None) => n | (_, Some _) => 0 end)
    (let v := q_Get r "success" in
     if String.eqb v "true" then Some true else if String.eqb v "false" then Some false else None)
    (q_Get r "q") (queryPositive r "limit") (queryPositive r "offset") false.

Fixpoint firstNonEmpty (vs : list string) : string :=
  match vs with [] => "" | v :: rest => if String.eqb v "" then firstNonEmpty rest else v end.

Definition writeError (status : Z) (err : string) : list wop := writeJSONError status err.

(** ** JSON values *)

(** [omitempty] on a pointer to a time. *)
Definition omit_time (k : string) (t : option Time) : option (list (string * json)) :=
  match t with None => Some [] | Some t => j ← json_time t; Some [(k, j)] end.

(** A time printed in a zone of its own; offsets of 24 hours and more are refused. *)
Definition zoneText (off : Duration) : string :=
  if off =? 0 then "Z"
  else let m := Z.abs off / Minute in (if off <? 0 then "-" else "+") ++ pad 2 (m / 60) ++ ":" ++ pad 2 (m mod 60).
Definition json_timeIn (off : Duration) (t : Time) : option json :=
  let '(y, _, _) := civil ((t + off) / (24 * Hour)) in
  if (y <? 0) || (9999 <? y) || (24 * Hour <=? Z.abs off) then None
  else Some (JStr (TrimRightByte (RFC3339Nano (t + off)) "Z" ++ zoneText off)).

Definition json_keyWith (expires : option (list (string * json))) (k : Key) : option json :=
  created ← json_time (ky_CreatedAt k);
  expires ← expires;
  used ← omit_time "last_used_at" (ky_LastUsedAt k);
  Some (JObj ([("id", JStr (ky_ID k)); ("name", JStr (ky_Name k))]
              ++ omit_str "description" (ky_Description k) ++ omit_str "created_by" (ky_CreatedBy k)
              ++ [("created_at", created)] ++ expires ++ used)%list).
Definition json_key (k : Key) : option json := json_keyWith (omit_time "expires_at" (ky_ExpiresAt k)) k.

Definition json_meta (m : EndpointMeta) : json :=
  JObj [("name", JStr (m_Name m)); ("group", JStr (m_Group m)); ("method", JStr (m_Method m)); ("path", JStr (m_Path m));
        ("description", JStr (m_Description m)); ("auth_required", JBool (m_AuthRequired m))].

(** An event whose timestamp JSON can carry. *)
Definition jsonEvent (ev : Event) : option json := _ ← json_time (ev_Timestamp ev); Some (json_event ev).
(** A list of events; the loggers return a nil slice for an empty result. *)
Definition jsonEvents (evs : list Event) : option json :=
  match evs with [] => Some JNull | _ => JArr <$> mapM jsonEvent evs end.

(** ** The configuration page *)

Definition redactIfSet (v : string) : string := if String.eqb v "" then "" else "[redacted]".

(** [dsnPasswordKeywordRE] on the runes of the text: a keyword [password] or [sslpassword] in any
    case, at the start or after a separator, followed by separators and an equals sign. *)
Definition pgxSep (r : Z) : bool := (r =? 32) || between 9 r 13.
Definition foldsTo (r c : Z) : bool := (r =? c) || (r =? c - 32) || ((c =? 115) && (r =? 383)).
Fixpoint matchWord (w : string) (rs : list Z) : option (list Z) :=
  match w, rs with
  | EmptyString, _ => Some rs
  | String c w', r :: rs' => if foldsTo r (byte c) then matchWord w' rs' else None
  | _, [] => None
  end.
Fixpoint sepsThenEq (rs : list Z) : bool :=
  match rs with [] => false | r :: rs' => if pgxSep r then sepsThenEq rs' else r =? 61 end.
Definition passwordKeyword (rs : list Z) : bool :=
  match matchWord "password" rs with Some rest => sepsThenEq rest | None => false end.
Definition keywordAt (rs : list Z) : bool :=
  passwordKeyword rs || match matchWord "ssl" rs with Some rest => passwordKeyword rest | None => false end.
Fixpoint keywordAfterSep (rs : list Z) : bool :=
  match rs with [] => false | r :: rs' => (pgxSep r && keywordAt rs') || keywordAfterSep rs' end.
Definition dsnPasswordKeyword (s : string) : bool :=
  let rs := map chunk_rune (utf8_decode s) in keywordAt rs || keywordAfterSep rs.

Section Config.
Context `{UnicodeTables} `{UrlHost} `{SliceJSON}.

Definition postgresURL (u : URL) : bool :=
  negb (String.eqb (u_Scheme u) "") && (EqualFold (u_Scheme u) "postgres" || EqualFold (u_Scheme u) "postgresql").

Definition redactDatabaseURL (s : string) : string :=
  let dsn := if dsnPasswordKeyword s then "[redacted]" else s in
  if String.eqb s "" then ""
  else
    match Parse s with
    | Some u =>
      if postgresURL u then
        let q := URL_Query u in
        if bool_decide (q !! "password" <> None) then "[redacted]"
        else if bool_decide (q !! "sslpassword" <> None) then "[redacted]"
        else Redacted u
      else dsn
    | None => dsn
    end.

(** The copy with its secrets replaced. *)
Definition sanitized (c : Config) : Config :=
  let o := cf_OIDC c in let k := cf_APIKeys c in let d := cf_Database c in let p := cf_Portal c in let g := cf_Register c in
  mkConfig (cf_Server c)
    (mkOIDCConfig (oc_Enabled o) (oc_Issuer o) (oc_Audience o) (oc_ClientID o) (redactIfSet (oc_ClientSecret o))
       (oc_AllowedClients o) (oc_ClockSkewSeconds o) (oc_JWKSCacheTTL o) (oc_SkipSignatureVerification o))
    (mkAPIKeysConfig (map (fun f => mkFileAPIKey (fk_Name f) (redactIfSet (fk_Key f)) (fk_Description f)) (kc_File k))
       (kc_DBEnabled k) (kc_HeaderName k) (kc_QueryParamName k))
    (map (fun f => mkFileBearerToken (bt_Name f) (redactIfSet (bt_Token f)) (bt_Description f)) (cf_BearerTokens c))
    (cf_Auth c)
    (mkDatabaseConfig (redactDatabaseURL (dc_URL d)) (dc_MaxOpenConns d) (dc_MaxIdleConns d) (dc_ConnMaxLifetime d))
    (cf_Audit c)
    (mkPortalConfig (po_Enabled p) (po_CookieName p) (redactIfSet (po_CookieSecret p)) (po_CookieSecure p) (po_OIDCRedirectPath p))
    (cf_Endpoints c)
    (mkRegister (pr_Enabled g) (pr_AdminURL g) (redactIfSet (pr_AuthHeader g)) (pr_ConnName g)).

(** The struct as [encoding/json] prints it: no tags, so the Go names in declaration order. *)
Definition json_slice {A} (name : string) (f : A -> json) (l : list A) : json :=
  match l with [] => emptySlice name | _ => JArr (map f l) end.
Definition json_boolPtr (b : option bool) : json := match b with Some b => JBool b | None => JNull end.
Definition json_enabled (b : bool) : json := JObj [("Enabled", JBool b)].

Definition json_config (c : Config) : json :=
  let s := cf_Server c in let o := cf_OIDC c in let k := cf_APIKeys c in let a := cf_Auth c in let d := cf_Database c in
  let u := cf_Audit c in let p := cf_Portal c in let e := cf_Endpoints c in let g := cf_Register c in
  JObj
    [("Server", JObj [("Name", JStr (sc_Name s)); ("Address", JStr (sc_Address s)); ("BaseURL", JStr (sc_BaseURL s));
        ("Description", JStr (sc_Description s)); ("ReadHeaderTimeout", JInt (sc_ReadHeaderTimeout s));
        ("Shutdown", JObj [("GracePeriod", JInt (GracePeriod (sc_Shutdown s))); ("PreShutdownDelay", JInt (PreShutdownDelay (sc_Shutdown s)))]);
        ("TLS", JObj [("Enabled", JBool (tls_Enabled (sc_TLS s))); ("CertFile", JStr (tls_CertFile (sc_TLS s))); ("KeyFile", JStr (tls_KeyFile (sc_TLS s)))])]);
     ("OIDC", JObj [("Enabled", JBool (oc_Enabled o)); ("Issuer", JStr (oc_Issuer o)); ("Audience", JStr (oc_Audience o));
        ("ClientID", JStr (oc_ClientID o)); ("ClientSecret", JStr (oc_ClientSecret o));
        ("AllowedClients", json_slice "AllowedClients" JStr (oc_AllowedClients o));
        ("ClockSkewSeconds", JInt (oc_ClockSkewSeconds o)); ("JWKSCacheTTL", JInt (oc_JWKSCacheTTL o));
        ("SkipSignatureVerification", JBool (oc_SkipSignatureVerification o))]);
     ("APIKeys", JObj [("File", json_slice "File" (fun f => JObj [("Name", JStr (fk_Name f)); ("Key", JStr (fk_Key f)); ("Description", JStr (fk_Description f))]) (kc_File k));
        ("DB", json_enabled (kc_DBEnabled k)); ("HeaderName", JStr (kc_HeaderName k)); ("QueryParamName", JStr (kc_QueryParamName k))]);
     ("Bearer", JObj [("Tokens", json_slice "Tokens" (fun f => JObj [("Name", JStr (bt_Name f)); ("Token", JStr (bt_Token f)); ("Description", JStr (bt_Description f))]) (cf_BearerTokens c))]);
     ("Auth", JObj [("AllowAnonymous", JBool (ac_AllowAnonymous a)); ("RequireForAPI", JBool (ac_RequireForAPI a)); ("RequireForPortal", JBool (ac_RequireForPortal a))]);
     ("Database", JObj [("URL", JStr (dc_URL d)); ("MaxOpenConns", JInt (dc_MaxOpenConns d)); ("MaxIdleConns", JInt (dc_MaxIdleConns d)); ("ConnMaxLifetime", JInt (dc_ConnMaxLifetime d))]);
     ("Audit", JObj [("Enabled", JBool (au_Enabled u)); ("RetentionDays", JInt (au_RetentionDays u)); ("RedactKeys", json_slice "RedactKeys" JStr (au_RedactKeys u));
        ("CapturePayloads", json_boolPtr (au_CapturePayloads u)); ("CaptureHeaders", json_boolPtr (au_CaptureHeaders u)); ("MaxPayloadBytes", JInt (au_MaxPayloadBytes u))]);
     ("Portal", JObj [("Enabled", JBool (po_Enabled p)); ("CookieName", JStr (po_CookieName p)); ("CookieSecret", JStr (po_CookieSecret p));
        ("CookieSecure", JBool (po_CookieSecure p)); ("OIDCRedirectPath", JStr (po_OIDCRedirectPath p))]);
     ("Endpoints", JObj [("Identity", json_enabled (ec_Identity e)); ("Data", json_enabled (ec_Data e)); ("Failure", json_enabled (ec_Failure e));
        ("Streaming", json_enabled (ec_Streaming e)); ("Pagination", json_enabled (ec_Pagination e)); ("Methods", json_enabled (ec_Methods e));
        ("Security", json_enabled (ec_Security e)); ("Export", json_enabled (ec_Export e)); ("Echo", json_enabled (ec_Echo e))]);
     ("Plexara", JObj [("Register", JObj [("Enabled", JBool (pr_Enabled g)); ("AdminURL", JStr (pr_AdminURL g)); ("AuthHeader", JStr (pr_AuthHeader g)); ("ConnName", JStr (pr_ConnName g))])])].

(** [build.Version], [build.Commit] and [build.Date], stamped at link time. *)
Record BuildInfo := mkBuildInfo { bi_Version : string; bi_Commit : string; bi_Date : string }.

Definition sanitizedConfig (b : BuildInfo) (cfg : Config) : json :=
  JObj [("commit", JStr (bi_Commit b)); ("config", json_config (sanitized cfg)); ("date", JStr (bi_Date b)); ("version", JStr (bi_Version b))].
End Config.

(** ** The handlers *)

Record PortalAPI (S : Type) := mkPortalAPI {
  pa_cfg : Config;
  pa_registry : Registry;
  pa_keys : bool;                            (** the key store is not nil *)
  pa_replayTarget : option (Handler S)
}.
Arguments mkPortalAPI {S}.
Arguments pa_cfg {S}.
Arguments pa_registry {S}.
Arguments pa_keys {S}.
Arguments pa_replayTarget {S}.

Definition NewPortalAPI {S} (cfg : Config) (registry : Registry) (keys : bool) : PortalAPI S :=
  mkPortalAPI cfg registry keys None.
Definition WithReplayTarget {S} (p : PortalAPI S) (h : Handler S) : PortalAPI S :=
  mkPortalAPI (pa_cfg p) (pa_registry p) (pa_keys p) (Some h).
Definition WithDispatchTarget {S} (p : PortalAPI S) (h : Handler S) : PortalAPI S := WithReplayTarget p h.

Record createKeyRequest := mkCreateKeyRequest { ck_Req_Name : string; ck_Req_Description : string; ck_Req_ExpiresAt : string }.

(** [json.NewDecoder(http.MaxBytesReader(w, r.Body, limit)).Decode]: the first value of the body,
    which has to end within the limit; the empty body is no value. *)
Definition decodeLimited (limit : Z) (r : Request) : option json := DecodeFirst (stake (Z.to_nat limit) (default "" (r_Body r))).

Section Handlers.
Context `{UnicodeTables} `{UrlHost} `{SliceJSON} `{UUID} `{ErrorTexts} `{Postgres} `{Bcrypt}.
Context {L : Type} `{!Logger L} `{!PortalStore L}.
Abbreviation State := (ServerState L).
Abbreviation Hnd := (Handler State).

(** A handler that only reads. *)
Definition reads (f : Env -> Request -> L -> list wop) : Hnd := fun W RW env r sw => (sw.1, exec (f env r (sv_audit sw.1)) sw.2).

Definition me (r : Request) : list wop :=
  writeJSON 200 (match GetIdentity (r_Context r) with Some i => json_identity i | None => JNull end).

Definition server (b : BuildInfo) (p : PortalAPI State) : list wop := writeJSON 200 (sanitizedConfig b (pa_cfg p)).

Definition wellknown (p : PortalAPI State) : list wop :=
  let cfg := pa_cfg p in
  writeJSON 200 (JObj
    [("api_endpoint", JStr (TrimRightByte (sc_BaseURL (cf_Server cfg)) "/" ++ "/v1/"));
     ("audience", JStr (oc_Audience (cf_OIDC cfg)));
     ("authorization_server", JStr (oc_Issuer (cf_OIDC cfg)));
     ("oidc_enabled", JBool (oc_Enabled (cf_OIDC cfg)));
     ("protected_resource_url", JStr (ProtectedResourceMetadataURL cfg))]).

Definition endpoints (p : PortalAPI State) : list wop :=
  writeJSON 200 (JObj [("endpoints", match All (pa_registry p) with [] => JNull | ms => JArr (map json_meta ms) end)]).

Definition endpointDetail (p : PortalAPI State) (r : Request) : list wop :=
  let name := PathValue r "name" in
  match List.find (fun m => String.eqb (m_Name m) name) (All (pa_registry p)) with
  | Some m => writeJSON 200 (json_meta m)
  | None => writeError 404 ("endpoint " ++ Quote name ++ " not found")
  end.

Definition auditMeta (p : PortalAPI State) : list wop :=
  let replay := match pa_replayTarget p, ps_payloads with Some _, Some _ => true | _, _ => false end in
  writeJSON 200 (JObj
    [("features", JObj [("breakdown", JBool true); ("export", JBool true); ("replay", JBool replay);
                        ("stats", JBool true); ("stream", JBool true); ("timeseries", JBool true)]);
     ("filters", json_strings ["from"; "to"; "method"; "path"; "route_name"; "status"; "user"; "session"; "success"; "q"])]).

Definition eventsFilter (r : Request) : QueryFilter :=
  let f := parseQueryFilter r in if qf_Limit f =? 0 then qf_page f 50 (qf_Offset f) else f.
Definition auditEvents (r : Request) (l : L) : list wop :=
  let f := eventsFilter r in
  match lg_Query f l with
  | Err e => writeError 500 e
  | Ok events =>
    let total := match lg_Count f l with Ok n => n | Err _ => 0 end in
    writeJSON_opt 200 (evs ← jsonEvents events;
      Some (JObj [("events", evs); ("limit", JInt (qf_Limit f)); ("offset", JInt (qf_Offset f)); ("total", JInt total)]))
  end.

(** [audit.QueryFilter{Limit: 1, EventID: id}] *)
Definition byID (id : string) : QueryFilter := mkQueryFilter 0 0 "" "" "" "" "" id 0 None "" 1 0 false.

Definition auditEventDetail (r : Request) (l : L) : list wop :=
  match uuid_Parse (PathValue r "id") with
  | None => writeError 400 "event id is not a valid uuid"
  | Some id =>
    match lg_Query (byID id) l with
    | Err e => writeError 500 e
    | Ok [] => writeError 404 ("event " ++ Quote id ++ " not found")
    | Ok (ev :: _) =>
      let payload := match ps_payloads with
                     | Some pl => match @lg_GetPayload L pl id l with Ok p => p | Err _ => None end
                     | None => None
                     end in
      writeJSON_opt 200 (jsonEvent (ev_withPayload ev payload))
    end
  end.

Definition withSuccess (f : QueryFilter) (b : bool) : QueryFilter :=
  mkQueryFilter (qf_From f) (qf_To f) (qf_Method f) (qf_Path f) (qf_RouteName f) (qf_UserID f) (qf_SessionID f) (qf_EventID f)
    (qf_Status f) (Some b) (qf_Search f) (qf_Limit f) (qf_Offset f) (qf_OrderDesc f).
Definition countOr0 (f : QueryFilter) (l : L) : Z := match lg_Count f l with Ok n => n | Err _ => 0 end.

Definition dashboard (now : Time) (l : L) : list wop :=
  let from := now - Hour in
  let f := qf_window noFilter from now in
  let recent := match lg_Query (qf_page f 20 0) l with Ok evs => evs | Err _ => [] end in
  writeJSON_opt 200
    (recent ← jsonEvents recent; wfrom ← json_time from; wto ← json_time now;
     Some (JObj [("recent", recent); ("success_count", JInt (countOr0 (withSuccess f true) l)); ("total", JInt (countOr0 f l));
                 ("window_from", wfrom); ("window_to", wto)])).

(** *** Key administration *)

Definition keysDisabled : list wop := writeError 503 "api keys store not enabled".

Definition listKeys (p : PortalAPI State) (env : Env) (l : L) : list wop :=
  if negb (pa_keys p) then keysDisabled
  else
    match KeyStore.List (ps_fate env) (ps_now env) (ps_tables l) with
    | Err e => writeError 500 e
    | Ok keys => writeJSON_opt 200 (ks ← mapM json_key keys; Some (JObj [("keys", JArr ks)]))
    end.

Definition decodeCreateKey (r : Request) : option createKeyRequest :=
  match decodeLimited 8192 r with
  | Some JNull => Some (mkCreateKeyRequest "" "" "")
  | Some (JObj fs) =>
    name ← jstring "name" fs; description ← jstring "description" fs; expires ← jstring "expires_at" fs;
    Some (mkCreateKeyRequest name description expires)
  | _ => None
  end.

(** The created key; the expiry prints in the zone it was given in. *)
Definition json_created (zone : Duration) (c : Created) : option json :=
  let k := cr_Key c in
  let expires := match ky_ExpiresAt k with None => Some [] | Some t => j ← json_timeIn zone t; Some [("expires_at", j)] end in
  key ← json_keyWith expires k; Some (JObj [("key", key); ("plaintext", JStr (cr_Plaintext c))]).

(** The tables after the call and the reply. *)
Definition createKey (p : PortalAPI State) (env : Env) (r : Request) (l : L) : L * list wop :=
  if negb (pa_keys p) then (l, keysDisabled)
  else
    match decodeCreateKey r with
    | None => (l, writeError 400 (decodeErrorText (default "" (r_Body r))))
    | Some body =>
      if String.eqb (ck_Req_Name body) "" then (l, writeError 400 "name required")
      else
        let expires :=
          if String.eqb (ck_Req_ExpiresAt body) "" then Ok (None, 0)
          else match ParseRFC3339Zoned (ck_Req_ExpiresAt body) with
               | Some (t, zone) => Ok (Some t, zone)
               | None => Err ("expires_at: " ++ timeErrorText (ck_Req_ExpiresAt body))
               end in
        match expires with
        | Err e => (l, writeError 400 e)
        | Ok (expires, zone) =>
          let createdBy := match GetIdentity (r_Context r) with
                           | Some i => firstNonEmpty [pi_Email i; pi_Subject i; pi_Name i]
                           | None => ""
                           end in
          let '(db, result) := KeyStore.Create (ps_create env) (ck_Req_Name body) (ck_Req_Description body) createdBy expires (ps_tables l) in
          (ps_setTables db l,
           match result with
           | Err e => writeError 400 e
           | Ok created => writeJSON_opt 201 (json_created zone created)
           end)
        end
    end.

Definition keyErrorText (e : key_error) : string := match e with ErrNotFound => "api key not found" | KeyErr m => m end.
Definition deleteKey (p : PortalAPI State) (env : Env) (r : Request) (l : L) : L * list wop :=
  if negb (pa_keys p) then (l, keysDisabled)
  else
    let name := PathValue r "name" in
    if String.eqb name "" then (l, writeError 400 "name required")
    else
      let '(db, err) := KeyStore.Delete (ps_fate env) (ps_now env) name (ps_tables l) in
      (ps_setTables db l, match err with Some e => writeError 400 (keyErrorText e) | None => [WriteHeader 204] end).

(** A handler that changes the key table. *)
Definition updates (f : Env -> Request -> L -> L * list wop) : Hnd := fun W RW env r sw =>
  let '(l, ops) := f env r (sv_audit sw.1) in (setAudit l sw.1, exec ops sw.2).

End Handlers.

(** ** The configuration page hides the secrets *)

(** The secrets of a configuration, and a configuration with other secrets in their place. *)
Record Secrets := mkSecrets {
  se_cookie : string; se_client : string; se_authHeader : string; se_keys : list string; se_tokens : list string; se_url : string }.
Definition plug (c : Config) (x : Secrets) : Config :=
  let o := cf_OIDC c in let k := cf_APIKeys c in let d := cf_Database c in let p := cf_Portal c in let g := cf_Register c in
  mkConfig (cf_Server c)
    (mkOIDCConfig (oc_Enabled o) (oc_Issuer o) (oc_Audience o) (oc_ClientID o) (se_client x)
       (oc_AllowedClients o) (oc_ClockSkewSeconds o) (oc_JWKSCacheTTL o) (oc_SkipSignatureVerification o))
    (mkAPIKeysConfig (zip_with (fun f s => mkFileAPIKey (fk_Name f) s (fk_Description f)) (kc_File k) (se_keys x))
       (kc_DBEnabled k) (kc_HeaderName k) (kc_QueryParamName k))
    (zip_with (fun f s => mkFileBearerToken (bt_Name f) s (bt_Description f)) (cf_BearerTokens c) (se_tokens x))
    (cf_Auth c) (mkDatabaseConfig (se_url x) (dc_MaxOpenConns d) (dc_MaxIdleConns d) (dc_ConnMaxLifetime d)) (cf_Audit c)
    (mkPortalConfig (po_Enabled p) (po_CookieName p) (se_cookie x) (po_CookieSecure p) (po_OIDCRedirectPath p))
    (cf_Endpoints c) (mkRegister (pr_Enabled g) (pr_AdminURL g) (se_authHeader x) (pr_ConnName g)).
Definition secretsOf (c : Config) : Secrets :=
  mkSecrets (po_CookieSecret (cf_Portal c)) (oc_ClientSecret (cf_OIDC c)) (pr_AuthHeader (cf_Register c))
    (map fk_Key (kc_File (cf_APIKeys c))) (map bt_Token (cf_BearerTokens c)) (dc_URL (cf_Database c)).

(** Every configuration is one with its own secrets plugged in. *)
Lemma plug_own c : plug c (secretsOf c) = c.
Proof.
  destruct c as [srv [] [file ? ? ?] tokens a [] au [] e []]. unfold plug, secretsOf. simpl.
  assert (E1 : zip_with (fun f s => mkFileAPIKey (fk_Name f) s (fk_Description f)) file (map fk_Key file) = file)
    by (induction file as [|[] file IH]; simpl; by rewrite ?IH).
  assert (E2 : zip_with (fun f s => mkFileBearerToken (bt_Name f) s (bt_Description f)) tokens (map bt_Token tokens) = tokens)
    by (induction tokens as [|[] tokens IH]; simpl; by rewrite ?IH).
  by rewrite E1, E2.
Qed.

(** Both set or both unset. *)
Definition alikeSecret (a b : string) : Prop := String.eqb a "" = String.eqb b "".

Section Hidden.
Context `{UnicodeTables} `{UrlHost} `{SliceJSON}.

(** A connection string in which the query carries a password. *)
Definition queryPassword (s : string) : Prop := exists u, Parse s = Some u /\ postgresURL u = true /\
  (URL_Query u !! "password" <> None \/ URL_Query u !! "sslpassword" <> None).
(** A keyword/value connection string with a password. *)
Definition dsnPassword (s : string) : Prop :=
  dsnPasswordKeyword s = true /\ match Parse s with Some u => postgresURL u = false | None => True end.
(** A URL that carries the password before the at sign. *)
Definition urlPassword (scheme user pw rest : string) : Prop :=
  (scheme = "postgres" \/ scheme = "postgresql") /\ plainUserinfo user = true /\ ContainsByte user ":" = false /\
  ContainsByte (hostOf rest) "@" = false /\ plainUserinfo pw = true /\ unescape pw <> None /\
  Parse (passwordURL scheme user pw rest) <> None.

(** Connection strings that differ at most in their passwords. *)
Inductive alikeURL : string -> string -> Prop :=
| alike_same s : alikeURL s s
| alike_query s1 s2 : queryPassword s1 -> queryPassword s2 -> alikeURL s1 s2
| alike_dsn s1 s2 : dsnPassword s1 -> dsnPassword s2 -> alikeURL s1 s2
| alike_userinfo scheme user pw1 pw2 rest : urlPassword scheme user pw1 rest -> urlPassword scheme user pw2 rest ->
    alikeURL (passwordURL scheme user pw1 rest) (passwordURL scheme user pw2 rest).

Definition alike (x y : Secrets) : Prop :=
  alikeSecret (se_cookie x) (se_cookie y) /\ alikeSecret (se_client x) (se_client y) /\
  alikeSecret (se_authHeader x) (se_authHeader y) /\ Forall2 alikeSecret (se_keys x) (se_keys y) /\
  Forall2 alikeSecret (se_tokens x) (se_tokens y) /\ alikeURL (se_url x) (se_url y).

Lemma redactIfSet_alike a b : alikeSecret a b -> redactIfSet a = redactIfSet b.
Proof. unfold alikeSecret, redactIfSet. by intros ->. Qed.

Lemma pgScheme scheme : scheme = "postgres" \/ scheme = "postgresql" -> goodScheme scheme.
Proof. by intros [->| ->]; (split; [by vm_compute|]; split; [done|]; split; [done|]; split; [done|]; intros t). Qed.

Lemma dsn_redacted s : s <> "" -> dsnPassword s -> redactDatabaseURL s = "[redacted]".
Proof.
  intros Hne [Hk Hp]. unfold redactDatabaseURL. rewrite Hk. destruct (String.eqb_spec s ""); [done|].
  destruct (Parse s); [by rewrite Hp|done].
Qed.
Lemma query_redacted s : s <> "" -> queryPassword s -> redactDatabaseURL s = "[redacted]".
Proof.
  intros Hne (u & Hu & Hs & Hq). unfold redactDatabaseURL. rewrite Hu, Hs. destruct (String.eqb_spec s ""); [done|].
  destruct Hq as [Hq|Hq]; [by rewrite (bool_decide_eq_true_2 _ Hq)|]. case_bool_decide; [done|]. by rewrite (bool_decide_eq_true_2 _ Hq).
Qed.
Lemma secret_nonempty s : queryPassword s \/ dsnPassword s -> s <> "".
Proof. intros [(u & Hu & Hs & _)|[Hk _]] ->; [|done]. injection Hu as <-. done. Qed.

Lemma postgresURL_set u d : postgresURL (setPassword u d) = postgresURL u.
Proof. done. Qed.

Lemma redact_alike s1 s2 : alikeURL s1 s2 -> redactDatabaseURL s1 = redactDatabaseURL s2.
Proof.
  intros [s|? ? Hl Hr|? ? Hl Hr|scheme user pw1 pw2 rest (Hs & Hu & Huc & Hh & Hp1 & He1 & Hok) (_ & _ & _ & _ & Hp2 & He2 & _)]; [done|..].
  - rewrite !query_redacted; eauto using secret_nonempty.
  - rewrite !dsn_redacted; eauto using secret_nonempty.
  - destruct (Parse (passwordURL scheme user pw1 rest)) as [u|] eqn:E1; [|done].
    destruct (unescape pw2) as [d|] eqn:Ed; [|done].
    destruct (Parse_setPassword scheme user pw1 pw2 d rest u) as ((n & p & Hup) & Hsc & E2); eauto using pgScheme.
    unfold redactDatabaseURL. rewrite E1, E2, postgresURL_set.
    assert (Hpg : postgresURL u = true) by (unfold postgresURL; rewrite Hsc; by destruct Hs as [->| ->]).
    rewrite Hpg. change (URL_Query (setPassword u d)) with (URL_Query u). rewrite (Redacted_setPassword _ _ _ _ Hup).
    by destruct Hs as [->| ->].
Qed.

Lemma sanitized_alike c x y : alike x y -> sanitized (plug c x) = sanitized (plug c y).
Proof.
  intros (E1 & E2 & E3 & E4 & E5 & E6). unfold sanitized, plug. cbn.
  rewrite (redactIfSet_alike _ _ E1), (redactIfSet_alike _ _ E2), (redactIfSet_alike _ _ E3), (redact_alike _ _ E6).
  f_equal; [f_equal|]; clear E1 E2 E3 E6.
  - generalize (kc_File (cf_APIKeys c)). induction E4 as [|a b l k Hab _ IH]; intros [|f fs]; simpl; try done.
    by rewrite (redactIfSet_alike _ _ Hab), IH.
  - generalize (cf_BearerTokens c). induction E5 as [|a b l k Hab _ IH]; intros [|f fs]; simpl; try done.
    by rewrite (redactIfSet_alike _ _ Hab), IH.
Qed.
End Hidden.

(** ** What a query string asks for *)

Section Asked.
Context `{UnicodeTables}.

(** The instant a parameter names; the zero time stands for none. *)
Definition timeAsked (r : Request) (k : string) (t : Time) : Prop := ParseRFC3339 (q_Get r k) = Some t /\ t <> 0.
(** The parameters other than the time window, each left open when it is absent or not readable. *)
Record asksFor (r : Request) (ev : Event) : Prop := {
  asks_method : q_Get r "method" = "" \/ ev_Method ev = q_Get r "method";
  asks_path : q_Get r "path" = "" \/ ev_Path ev = q_Get r "path";
  asks_route : q_Get r "route_name" = "" \/ ev_RouteName ev = q_Get r "route_name";
  asks_user : q_Get r "user" = "" \/ ev_UserSubject ev = q_Get r "user";
  asks_session : q_Get r "session" = "" \/ ev_SessionID ev = q_Get r "session";
  asks_status n : Atoi (q_Get r "status") = (n, None) -> n <> 0 -> ev_Status ev = n;
  asks_success : (q_Get r "success" = "true" -> ev_Success ev = true) /\ (q_Get r "success" = "false" -> ev_Success ev = false);
  asks_search : q_Get r "q" = "" \/ Contains (ToLower (ev_Path ev)) (ToLower (q_Get r "q")) = true \/
    Contains (ToLower (ev_ErrorMessage ev)) (ToLower (q_Get r "q")) = true
}.

Lemma guard_true (a b x : bool) : (if a && b then false else x) = true <-> (a = true -> b = false) /\ x = true.
Proof. destruct a, b, x; naive_solver. Qed.
Lemma or_eqb (s t : string) : (negb (String.eqb s "") = true -> negb (String.eqb t s) = false) <-> (s = "" \/ t = s).
Proof. destruct (String.eqb_spec s ""), (String.eqb_spec t s); naive_solver. Qed.

(** The filter of a query string with another window selects what is asked for in that window. *)
Lemma matches_asked r ev from to limit offset :
  matchesFilter ev (qf_page (qf_window (parseQueryFilter r) from to) limit offset) = true <->
  asksFor r ev /\ (from <> 0 -> from <= ev_Timestamp ev) /\ (to <> 0 -> ev_Timestamp ev <= to).
Proof.
  unfold matchesFilter, parseQueryFilter, IsZero. cbn. rewrite !guard_true, !or_eqb.
  assert (Estatus : forall n : Z, (negb (n =? 0) = true -> negb (ev_Status ev =? n) = false) <-> (n <> 0 -> ev_Status ev = n)).
  { intros n. destruct (Z.eqb_spec n 0), (Z.eqb_spec (ev_Status ev) n); naive_solver. }
  assert (Efrom : (negb (from =? 0) = true -> (ev_Timestamp ev <? from) = false) <-> (from <> 0 -> from <= ev_Timestamp ev)).
  { destruct (Z.eqb_spec from 0), (Z.ltb_spec (ev_Timestamp ev) from); naive_solver lia. }
  assert (Eto : (negb (to =? 0) = true -> (to <? ev_Timestamp ev) = false) <-> (to <> 0 -> ev_Timestamp ev <= to)).
  { destruct (Z.eqb_spec to 0), (Z.ltb_spec to (ev_Timestamp ev)); naive_solver lia. }
  rewrite Estatus, Efrom, Eto. clear Estatus Efrom Eto.
  match goal with |- context [if (match ?x with Some _ => _ | None => _ end) then false else ?y] => set (succ := x); set (srch := y) end.
  assert (Esucc : (if match succ with Some b => negb (Bool.eqb (ev_Success ev) b) | None => false end then false else srch) = true <->
    ((q_Get r "success" = "true" -> ev_Success ev = true) /\ (q_Get r "success" = "false" -> ev_Success ev = false)) /\ srch = true).
  { unfold succ. destruct (String.eqb_spec (q_Get r "success") "true") as [->|H1], (String.eqb_spec (q_Get r "success") "false") as [H2|H2];
      destruct (ev_Success ev); cbn; naive_solver. }
  assert (Esrch : srch = true <-> (q_Get r "q" = "" \/ Contains (ToLower (ev_Path ev)) (ToLower (q_Get r "q")) = true \/
    Contains (ToLower (ev_ErrorMessage ev)) (ToLower (q_Get r "q")) = true)).
  { unfold srch. destruct (String.eqb_spec (q_Get r "q") ""), (Contains (ToLower (ev_Path ev)) _), (Contains (ToLower (ev_ErrorMessage ev)) _); cbn; naive_solver. }
  assert (Est : forall P : Z -> Prop, (P (if String.eqb (q_Get r "status") "" then 0 else match Atoi (q_Get r "status") with (n, None) => n | (_, Some _) => 0 end)
      <-> P (match Atoi (q_Get r "status") with (n, None) => n | (_, Some _) => 0 end))).
  { intros Q. by destruct (String.eqb_spec (q_Get r "status") "") as [->|]. }
  rewrite Esucc, Esrch, (Est (fun n => n <> 0 -> ev_Status ev = n)). clear Esucc Esrch Est.
  assert (Ea : ((match Atoi (q_Get r "status") with (n, None) => n | (_, Some _) => 0 end) <> 0 ->
    ev_Status ev = match Atoi (q_Get r "status") with (n, None) => n | (_, Some _) => 0 end) <->
    forall n, Atoi (q_Get r "status") = (n, None) -> n <> 0 -> ev_Status ev = n).
  { destruct (Atoi (q_Get r "status")) as [n [e|]]; naive_solver. }
  rewrite Ea. split.
  - intros (? & ? & ? & ? & ? & ? & ? & ? & [? ?] & ?). by repeat split.
  - intros [[? ? ? ? ? ? [? ?] ?] [? ?]]. by repeat split.
Qed.

(** An unbounded side of the window is the zero time. *)
Lemma queryTime_asked r k (P : Time -> Prop) : (queryTime r k <> 0 -> P (queryTime r k)) <-> (forall t, timeAsked r k t -> P t).
Proof.
  unfold queryTime, timeAsked. destruct (String.eqb_spec (q_Get r k) "") as [->|Hne].
  - split; [intros _ t [E _]; by vm_compute in E|done].
  - destruct (ParseRFC3339 (q_Get r k)) as [t|]; cbn; naive_solver.
Qed.

Lemma parseQueryFilter_window r : parseQueryFilter r =
  qf_page (qf_window (parseQueryFilter r) (queryTime r "from") (queryTime r "to")) (queryPositive r "limit") (queryPositive r "offset").
Proof. done. Qed.
End Asked.

(** ** Theorems *)

Section Theorems.
Context `{UnicodeTables} `{UrlHost} `{SliceJSON} `{UUID}.

(** C25: the configuration page keeps the secrets.  Two configurations that differ only in the cookie
    secret, the client secret, the registration header, API keys, bearer tokens (each set in both or
    in neither) and in the password of the database connection, in any of its three forms, give the
    same reply byte for byte. *)
Theorem server_hides_secrets {L} (b : BuildInfo) (reg : Registry) (keys : bool) (c : Config) (x y : Secrets) (Hxy : alike x y) :
  server b (@NewPortalAPI (ServerState L) (plug c x) reg keys) = server b (@NewPortalAPI (ServerState L) (plug c y) reg keys).
Proof. unfold server, sanitizedConfig. cbn [pa_cfg NewPortalAPI]. by rewrite (sanitized_alike c x y Hxy). Qed.


(** The detail page shows what was logged.  After an event whose ID is new has been logged in
    memory, the page for any spelling of that ID shows the event with its captured payload, the page
    for an ID that no event has is 404, and a path that is no UUID is refused with 400. *)
Theorem detail_shows_logged `{SortSlice} `{PS : !PortalStore MemoryLogger} (newID : string) (ev : Event) (m : MemoryLogger)
  (Hps : ps_payloads = Some MemoryLogger_PayloadLogger) (Hnew : newID <> "")
  (Hfresh : Forall (fun e => ev_ID e <> if String.eqb (ev_ID ev) "" then newID else ev_ID ev) (ml_events m)) :
  exists m' ev', Log newID ev m = Ok m' /\ ev' = (if String.eqb (ev_ID ev) "" then ev_withID ev newID else ev) /\
    (forall r, uuid_Parse (PathValue r "id") = Some (ev_ID ev') -> auditEventDetail r m' = writeJSON_opt 200 (jsonEvent ev')) /\
    (forall r id, uuid_Parse (PathValue r "id") = Some id -> id <> "" -> Forall (fun e => ev_ID e <> id) (ml_events m') ->
       auditEventDetail r m' = writeError 404 ("event " ++ Quote id ++ " not found")) /\
    (forall r, uuid_Parse (PathValue r "id") = None -> auditEventDetail r m' = writeError 400 "event id is not a valid uuid").
Proof.
  destruct (log_then_find newID ev m Hnew Hfresh) as (m' & ev' & Hlog & Hev & Hq & Hp).
  exists m', ev'. split; [done|]. split; [done|]. unfold auditEventDetail. split; [|split].
  - intros r ->. unfold byID. cbn [lg_Query MemoryLogger_Logger]. rewrite Hq, Hps. cbn [lg_GetPayload MemoryLogger_PayloadLogger]. rewrite Hp.
    do 2 f_equal. subst ev'. by destruct ev as [[] ? ? ? ? ? ? ? ? ? ? ? ? ? ? ? ? ? ? ? ? ?].
  - intros r id -> Hid Hnone. cbn [lg_Query MemoryLogger_Logger]. rewrite query_eq. unfold matchAll.
    replace (filter _ (ml_events m')) with (@nil Event); [|symmetry].
    + pose proof (proj1 (Permutation_nil_r _) (sort_slice_perm event_less [])) as ->. by rewrite drop_nil, take_nil.
    + clear - Hnone Hid. induction Hnone as [|e es He _ IH]; [done|]. rewrite filter_cons_False; [done|].
      unfold matchesFilter, byID. cbn. destruct (String.eqb_spec id ""); [done|]. by destruct (String.eqb_spec (ev_ID e) id).
  - by intros r ->.
Qed.
End Theorems.

(** ** Witnesses *)

#[local] Existing Instance ascii_tables.
#[local] Existing Instance merge_slice.
Definition plainHosts : UrlHost := {| parseHost _ h := Some h; escapeHost h := h |}.
#[local] Existing Instance plainHosts.
Definition nullSlices : SliceJSON := {| emptySlice _ := JNull |}.
#[local] Existing Instance nullSlices.
(** A stand-in that takes every text of 36 bytes as canonical. *)
#[refine] Definition plainUUID : UUID := {| uuid_Parse s := if len s =? 36 then Some s else None |}.
Proof. intros s id. destruct (len s =? 36) eqn:E; [|done]. intros [= <-]. by rewrite E. Defined.
#[local] Existing Instance plainUUID.

Definition secretsA : Secrets := mkSecrets "0123456789abcdef" "" "Bearer abc" [] [] "postgres://api:s3cret@db:5432/apitest?sslmode=disable".
Definition secretsB : Secrets := mkSecrets "fedcba9876543210" "" "x" [] [] "postgres://api:hunter%32@db:5432/apitest?sslmode=disable".
Definition blankConfig : Config := applyDefaults zeroConfig.

Lemma server_hides_secrets_witness :
  server (mkBuildInfo "v1" "c" "d") (@NewPortalAPI (ServerState MemoryLogger) (plug blankConfig secretsA) NewRegistry false) =
  server (mkBuildInfo "v1" "c" "d") (@NewPortalAPI (ServerState MemoryLogger) (plug blankConfig secretsB) NewRegistry false) /\
  redactDatabaseURL (se_url secretsA) = "postgres://api:xxxxx@db:5432/apitest?sslmode=disable" /\
  redactDatabaseURL "host=db user=api PassWord = x" = "[redacted]" /\
  redactDatabaseURL "postgres://api@db/apitest?password=&password=x" = "[redacted]".
Proof.
  split; [|by vm_compute]. apply (server_hides_secrets _ _ _ _ secretsA secretsB). split; [done|split; [done|split; [done|split; [constructor|split; [constructor|]]]]].
  assert (Hk : forall pw, plainUserinfo pw = true -> unescape pw <> None ->
    Parse (passwordURL "postgres" "api" pw "db:5432/apitest?sslmode=disable") <> None ->
    urlPassword "postgres" "api" pw "db:5432/apitest?sslmode=disable") by (intros; repeat split; try done; by left).
  apply (alike_userinfo "postgres" "api" "s3cret" "hunter%32" "db:5432/apitest?sslmode=disable"); apply Hk; by vm_compute.
Defined.

Definition memoryStore : PortalStore MemoryLogger := {|
  ps_payloads := Some MemoryLogger_PayloadLogger; ps_tables _ := ∅; ps_setTables _ m := m;
  ps_create _ := mkCreateEnv None "" "" 0 0 Through; ps_fate _ := Through; ps_now _ := 0 |}.
Definition sampleUUID : string := "11111111-2222-3333-4444-555555555555".

Lemma detail_shows_logged_witness :
  exists m', Log sampleUUID (NewEvent 30 "GET" "/v1/echo") sampleLog = Ok m' /\
    auditEventDetail (PortalStore0 := memoryStore)
      (WithPathValues (portalRequest ("/api/v1/portal/audit/events/" ++ sampleUUID) "" []) {["id" := sampleUUID]}) m' =
    writeJSON_opt 200 (jsonEvent (ev_withID (NewEvent 30 "GET" "/v1/echo") sampleUUID)).
Proof.
  destruct (detail_shows_logged (PS := memoryStore) sampleUUID (NewEvent 30 "GET" "/v1/echo") sampleLog) as (m' & ev' & Hl & -> & Hd & _);
    [done..| |].
  - repeat constructor; by vm_compute.
  - exists m'. split; [done|]. by apply Hd.
Defined.
