(* ===== verification/Aggregations.v ===== *)
(** * Audit aggregations ([pkg/httpsrv/portal_audit_aggregations.go])

    Time series, breakdown by one dimension and latency statistics over the events one query
    returns.  Floating point is IEEE 754 binary64 as the Standard Library's [SpecFloat] computes it,
    without fused operations; the decimal text of a float and the conversion of a float beyond the
    range of [int] are parameters, as is the order in which Go walks a map. *)
From Stdlib Require Import SpecFloat.
From S2P Require Import Prelude GoStrings GoNum GoTime GoUrl Json Http AuditEvent MemoryLog FailureEndpoints Session PortalApi.

(** ** Floats *)

Class FloatEnv := { floatText : spec_float -> string; intOverflow : spec_float -> Z }.

Definition prec : Z := 53.
Definition emax : Z := 1024.
Definition float64 (z : Z) : spec_float := binary_normalize prec emax z 0 false.
Definition fdiv : spec_float -> spec_float -> spec_float := SFdiv prec emax.
Definition fmul : spec_float -> spec_float -> spec_float := SFmul prec emax.
Definition fadd : spec_float -> spec_float -> spec_float := SFadd prec emax.

(** [int(v)]: towards zero. *)
Definition truncZ (v : spec_float) : option Z :=
  match v with
  | S754_zero _ => Some 0
  | S754_finite s m e =>
    let a := if 0 <=? e then Z.pos m * 2 ^ e else Z.pos m / 2 ^ (- e) in
    let z := if s then - a else a in
    if (minInt <=? z) && (z <=? maxInt) then Some z else None
  | _ => None
  end.

(** ** Data *)

Record aggregate := mkAggregate { ag_Count : Z; ag_Errors : Z; ag_DurationMS : Z }.
Definition zeroAgg : aggregate := mkAggregate 0 0 0.
Definition addEvent (ev : Event) (a : aggregate) : aggregate :=
  mkAggregate (ag_Count a + 1) (ag_Errors a + (if ev_Success ev then 0 else 1)) (wrap64 (ag_DurationMS a + ev_DurationMS ev)).

Record groupOut := mkGroupOut { go_Key : string; go_Agg : aggregate }.

(** ** Window and buckets *)

Definition timeWindow (now : Time) (r : Request) : QueryFilter * Time * Time :=
  let f := parseQueryFilter r in
  let to := if IsZero (qf_To f) then now else qf_To f in
  let from := if IsZero (qf_From f) then to - Hour else qf_From f in
  let '(from, to) := if to <? from then (to, from) else (from, to) in
  (qf_page (qf_window f from to) MaxQueryLimit 0, from, to).

Definition bucketSeconds (r : Request) : Z :=
  let '(v, _) := Atoi (q_Get r "bucket_seconds") in
  if v <=? 0 then 60 else if 3600 <? v then 3600 else v.

Definition breakdownKeyFn (dimension : string) : option (Event -> string) :=
  let or_ (s d : string) := if String.eqb s "" then d else s in
  if String.eqb dimension "endpoint_group" then Some (fun ev => or_ (ev_EndpointGroup ev) "(unknown)")
  else if String.eqb dimension "route_name" then Some (fun ev => or_ (ev_RouteName ev) "(unknown)")
  else if String.eqb dimension "status" then Some (fun ev => Itoa (ev_Status ev))
  else if String.eqb dimension "auth_type" then Some (fun ev => or_ (ev_AuthType ev) "(unauthenticated)")
  else if String.eqb dimension "user" then
    Some (fun ev =>
      if negb (String.eqb (ev_UserEmail ev) "") then ev_UserEmail ev
      else if negb (String.eqb (ev_UserSubject ev) "") then ev_UserSubject ev
      else if negb (String.eqb (ev_APIKeyName ev) "") then "key:" ++ ev_APIKeyName ev
      else "(anonymous)")
  else None.

Definition bucketStep (from to : Time) (bucketDur totalBuckets : Z) (aggs : list aggregate) (ev : Event) : list aggregate :=
  if (ev_Timestamp ev <? from) || negb (ev_Timestamp ev <? to) then aggs
  else
    let idx := Z.quot (Sub (ev_Timestamp ev) from) bucketDur in
    if (idx <? 0) || (totalBuckets <=? idx) then aggs else alter (addEvent ev) (Z.to_nat idx) aggs.

Definition groupStep (keyFn : Event -> string) (grouped : gmap string aggregate) (ev : Event) : gmap string aggregate :=
  let k := keyFn ev in <[k := addEvent ev (default zeroAgg (grouped !! k))]> grouped.

(** count descending, then key ascending *)
Definition group_less (a b : groupOut) : bool :=
  if negb (ag_Count (go_Agg a) =? ag_Count (go_Agg b)) then ag_Count (go_Agg b) <? ag_Count (go_Agg a)
  else str_ltb (go_Key a) (go_Key b).

Section Aggregations.
Context `{FloatEnv} `{MapRange} `{SortSlice} `{UnicodeTables}.

Definition int_of (v : spec_float) : Z := match truncZ v with Some z => z | None => intOverflow v end.
Definition json_float (v : spec_float) : option json :=
  match v with S754_zero _ | S754_finite _ _ _ => Some (JNum (floatText v)) | _ => None end.

(** Constants are rounded once, like the quotient of two integers. *)
Definition fhalf : spec_float := fdiv (float64 1) (float64 2).
Definition round1 (v : spec_float) : spec_float := fdiv (float64 (int_of (fadd (fmul v (float64 10)) fhalf))) (float64 10).
Definition round3 (v : spec_float) : spec_float := fdiv (float64 (int_of (fadd (fmul v (float64 1000)) fhalf))) (float64 1000).

Definition average (a : aggregate) : spec_float :=
  if 0 <? ag_Count a then fdiv (float64 (ag_DurationMS a)) (float64 (ag_Count a)) else S754_zero false.

(** [sorted[idx]] with the index clamped to the slice. *)
Definition percentileIndex (n : nat) (p : spec_float) : Z :=
  let idx := int_of (fmul (float64 (Z.of_nat n - 1)) p) in
  let idx := if idx <? 0 then 0 else idx in
  if Z.of_nat n <=? idx then Z.of_nat n - 1 else idx.
Definition percentile (sorted : list Z) (p : spec_float) : Z :=
  if bool_decide (sorted = []) then 0 else nth (Z.to_nat (percentileIndex (length sorted) p)) sorted 0.
Definition hundredths (k : Z) : spec_float := fdiv (float64 k) (float64 100).

Definition json_bucket (from : Time) (bucketDur : Z) (i : nat) (a : aggregate) : option json :=
  t ← json_time (from + Z.of_nat i * bucketDur); avg ← json_float (round1 (average a));
  Some (JObj [("time", t); ("count", JInt (ag_Count a)); ("errors", JInt (ag_Errors a)); ("avg_duration_ms", avg)]).
Definition json_group (g : groupOut) : option json :=
  avg ← json_float (round1 (average (go_Agg g)));
  Some (JObj [("key", JStr (go_Key g)); ("count", JInt (ag_Count (go_Agg g))); ("errors", JInt (ag_Errors (go_Agg g))); ("avg_duration_ms", avg)]).

Context {L : Type} `{!Logger L}.

Definition timeseriesBuckets (from to : Time) (bucketDur totalBuckets : Z) (events : list Event) : list aggregate :=
  foldl (bucketStep from to bucketDur totalBuckets) (replicate (Z.to_nat totalBuckets) zeroAgg) events.

Definition auditTimeseries (now : Time) (r : Request) (l : L) : list wop :=
  let '(f, from, to) := timeWindow now r in
  let bucket := bucketSeconds r in
  match lg_Query f l with
  | Err e => writeError 500 e
  | Ok events =>
    let bucketDur := bucket * Second in
    let totalBuckets := Z.quot (Sub to from) bucketDur + 1 in
    let totalBuckets := if totalBuckets <? 1 then 1 else totalBuckets in
    if 10000 <? totalBuckets then
      writeError 400 ("bucket_seconds " ++ Itoa bucket ++ " × window produces " ++ Itoa totalBuckets
                      ++ " buckets (max 10000); pick a coarser bucket or narrower window")
    else
      let aggs := timeseriesBuckets from to bucketDur totalBuckets events in
      writeJSON_opt 200
        (buckets ← mapM (fun p => json_bucket from bucketDur p.1 p.2) (imap pair aggs);
         jfrom ← json_time from; jto ← json_time to;
         Some (JObj [("bucket_seconds", JInt bucket); ("buckets", JArr buckets); ("from", jfrom); ("to", jto)]))
  end.

Definition breakdownTop (r : Request) : nat :=
  let '(v, _) := Atoi (q_Get r "top") in if (0 <? v) && (v <=? 200) then Z.to_nat v else 20%nat.
Definition breakdownGroups (keyFn : Event -> string) (top : nat) (events : list Event) : list groupOut :=
  let grouped := foldl (groupStep keyFn) ∅ events in
  let out := sort_slice group_less (map (fun p => mkGroupOut p.1 p.2) (range grouped)) in
  if (top <? length out)%nat then take top out else out.

Definition auditBreakdown (now : Time) (r : Request) (l : L) : list wop :=
  let dimension := if String.eqb (q_Get r "dimension") "" then "endpoint_group" else q_Get r "dimension" in
  match breakdownKeyFn dimension with
  | None => writeError 400 ("unknown dimension " ++ Quote dimension ++ "; valid: endpoint_group, route_name, status, auth_type, user")
  | Some keyFn =>
    let '(f, from, to) := timeWindow now r in
    match lg_Query f l with
    | Err e => writeError 500 e
    | Ok events =>
      writeJSON_opt 200
        (groups ← mapM json_group (breakdownGroups keyFn (breakdownTop r) events);
         jfrom ← json_time from; jto ← json_time to;
         Some (JObj [("dimension", JStr dimension); ("from", jfrom); ("groups", JArr groups); ("to", jto)]))
    end
  end.

Definition auditStats (now : Time) (r : Request) (l : L) : list wop :=
  let '(f, from, to) := timeWindow now r in
  match lg_Query f l with
  | Err e => writeError 500 e
  | Ok events =>
    let durations := sort_slice Z.ltb (map ev_DurationMS events) in
    let total := Z.of_nat (length events) in
    let errs := foldl (fun n ev => if ev_Success ev then n else n + 1) 0 events in
    let errorRate := if 0 <? total then fdiv (float64 errs) (float64 total) else S754_zero false in
    writeJSON_opt 200
      (rate ← json_float (round3 errorRate); jfrom ← json_time from; jto ← json_time to;
       Some (JObj [("error_rate", rate); ("errors", JInt errs); ("from", jfrom);
                   ("p50_ms", JInt (percentile durations (hundredths 50))); ("p95_ms", JInt (percentile durations (hundredths 95)));
                   ("p99_ms", JInt (percentile durations (hundredths 99))); ("success", JInt (total - errs)); ("to", jto); ("total", JInt total)]))
  end.
End Aggregations.

(** ** Reference definitions *)

Definition sumZ (l : list Z) : Z := foldr Z.add 0 l.
(** How many events, how many of them failed, and the sum of their durations, in 64 bits. *)
Definition countOf (evs : list Event) : Z := Z.of_nat (length evs).
Definition errorsOf (evs : list Event) : Z := Z.of_nat (length (filter (fun ev => ev_Success ev = false) evs)).
Definition durationOf (evs : list Event) : Z := wrap64 (sumZ (map ev_DurationMS evs)).
Definition aggregateOf (evs : list Event) : aggregate := mkAggregate (countOf evs) (errorsOf evs) (durationOf evs).
(** The mean duration in binary64, zero without events. *)
Definition meanOf (evs : list Event) : spec_float :=
  match evs with [] => S754_zero false | _ => fdiv (float64 (durationOf evs)) (float64 (countOf evs)) end.

Lemma aggregate_from evs : forall a,
  foldl (fun a ev => addEvent ev a) a evs =
  match evs with
  | [] => a
  | _ => mkAggregate (ag_Count a + Z.of_nat (length evs))
           (ag_Errors a + Z.of_nat (length (filter (fun ev => ev_Success ev = false) evs)))
           (wrap64 (ag_DurationMS a + sumZ (map ev_DurationMS evs)))
  end.
Proof.
  induction evs as [|ev evs IH]; intros a; [done|]. cbn [foldl]. rewrite IH. destruct evs as [|ev' evs].
  - unfold addEvent. cbn [map sumZ foldr length]. rewrite filter_cons, filter_nil. rewrite Z.add_0_r.
    destruct (ev_Success ev); cbn [length]; f_equal; lia.
  - unfold addEvent. cbn [ag_Count ag_Errors ag_DurationMS]. rewrite (filter_cons _ ev). f_equal.
    + cbn [length]. lia.
    + case_decide as Hs; [rewrite Hs|destruct (ev_Success ev); [|done]]; cbn [length]; lia.
    + rewrite wrap64_add_l. f_equal. cbn [map sumZ foldr]. lia.
Qed.

(** Folding the events one by one gives the aggregate. *)
Lemma aggregate_fold evs : foldl (fun a ev => addEvent ev a) zeroAgg evs = aggregateOf evs.
Proof. rewrite aggregate_from. by destruct evs. Qed.
Lemma average_mean evs : average (aggregateOf evs) = meanOf evs.
Proof. by destruct evs as [|ev evs]. Qed.

(** Durations as [time.Duration.Milliseconds] gives them: no more than a million of them overflow. *)
Definition durationMS (ev : Event) : Prop := Z.abs (ev_DurationMS ev) <= maxInt / 1000000.
Lemma durationOf_exact evs : (length evs <= 1000)%nat -> Forall durationMS evs -> durationOf evs = sumZ (map ev_DurationMS evs).
Proof.
  intros Hl Hd. unfold durationOf. apply wrap64_id.
  assert (Hb : Z.abs (sumZ (map ev_DurationMS evs)) <= Z.of_nat (length evs) * (maxInt / 1000000)).
  { clear Hl. induction Hd as [|ev evs Hev _ IH]; [done|]. cbn [map sumZ foldr length]. unfold durationMS, sumZ in *. lia. }
  change (maxInt / 1000000) with 9223372036854 in Hb. unfold in64, minInt, maxInt. lia.
Qed.

Definition inWindow (from to : Time) (ev : Event) : Prop := from <= ev_Timestamp ev < to.
(** The events of the i-th bucket: its half-open interval, cut at the end of the window. *)
Definition inBucket (from to : Time) (d : Z) (i : nat) (ev : Event) : Prop :=
  inWindow from to ev /\ from + Z.of_nat i * d <= ev_Timestamp ev < from + (Z.of_nat i + 1) * d.
#[global] Instance inWindow_dec from to ev : Decision (inWindow from to ev).
Proof. unfold inWindow. apply _. Defined.
#[global] Instance inBucket_dec from to d i ev : Decision (inBucket from to d i ev).
Proof. unfold inBucket. apply _. Defined.
Definition refBuckets (from to : Time) (d : Z) (n : nat) (events : list Event) : list aggregate :=
  map (fun i => aggregateOf (filter (inBucket from to d i) events)) (seq 0 n).

(** ** Lemmas: buckets *)

Section Buckets.
Context (from to : Time) (d n : Z) (Hd : 0 < d) (Hspan : to - from < n * d) (Hsmall : n * d <= maxInt).

Lemma bucketStep_lookup aggs ev i a : length aggs = Z.to_nat n -> aggs !! i = Some a ->
  bucketStep from to d n aggs ev !! i = Some (if bool_decide (inBucket from to d i ev) then addEvent ev a else a).
Proof.
  intros Hl Hi. pose proof (lookup_lt_Some _ _ _ Hi) as Hlt. unfold bucketStep, inBucket, inWindow.
  destruct (_ || _) eqn:E.
  - rewrite bool_decide_eq_false_2; [done|]. intros [Hw _]. apply orb_true_iff in E as [E|E]; bools; lia.
  - apply orb_false_iff in E as [E1 E2]. apply negb_false_iff in E2. bools.
    assert (Hs : Sub (ev_Timestamp ev) from = ev_Timestamp ev - from) by (unfold Sub, maxInt, minInt in *; lia).
    rewrite Hs, Z.quot_div_nonneg by lia. set (q := (ev_Timestamp ev - from) / d).
    assert (Hq : d * q <= ev_Timestamp ev - from < d * q + d) by (unfold q; pose proof (Z.mul_div_le (ev_Timestamp ev - from) d); pose proof (Z.mul_succ_div_gt (ev_Timestamp ev - from) d); lia).
    assert (Hq0 : 0 <= q < n) by nia.
    destruct (_ || _) eqn:E; [apply orb_true_iff in E as [E|E]; bools; lia|].
    destruct (decide (i = Z.to_nat q)) as [->|Hne].
    + rewrite list_lookup_alter_eq, Hi. cbn. rewrite bool_decide_eq_true_2; [done|]. rewrite Z2Nat.id by lia. lia.
    + rewrite list_lookup_alter_ne by done. rewrite bool_decide_eq_false_2; [done|]. intros [_ Hb]. apply Hne.
      assert (Z.of_nat i = q) by nia. lia.
Qed.

Lemma bucketStep_length aggs ev : length (bucketStep from to d n aggs ev) = length aggs.
Proof. unfold bucketStep. repeat case_if; rewrite ?length_alter; done. Qed.

Lemma buckets_lookup events : forall aggs i a, length aggs = Z.to_nat n -> aggs !! i = Some a ->
  foldl (bucketStep from to d n) aggs events !! i =
  Some (foldl (fun a ev => addEvent ev a) a (filter (inBucket from to d i) events)).
Proof.
  induction events as [|ev events IH]; intros aggs i a Hl Hi; [done|]. cbn [foldl].
  rewrite (IH _ i (if bool_decide (inBucket from to d i ev) then addEvent ev a else a));
    [|by rewrite bucketStep_length|by apply bucketStep_lookup].
  rewrite filter_cons. case_decide; case_bool_decide; done.
Qed.

Lemma buckets_reference events : 
  timeseriesBuckets from to d n events = refBuckets from to d (Z.to_nat n) events.
Proof.
  assert (Hlen : forall aggs, length (foldl (bucketStep from to d n) aggs events) = length aggs).
  { induction events as [|ev evs IH]; intros aggs; [done|]. cbn [foldl]. by rewrite IH, bucketStep_length. }
  apply list_eq. intros i. unfold timeseriesBuckets, refBuckets. destruct (decide (i < Z.to_nat n)%nat) as [Hi|Hi].
  - rewrite (buckets_lookup events _ i zeroAgg); [|apply length_replicate|by apply lookup_replicate_2].
    rewrite list_lookup_fmap, lookup_seq_lt, aggregate_fold by done. done.
  - rewrite !lookup_ge_None_2; [done| |]; rewrite ?length_map, ?length_seq, ?Hlen, ?length_replicate; lia.
Qed.

(** Every event of the window is in exactly one bucket. *)
Lemma buckets_sum events :
  sumZ (map (fun i => countOf (filter (inBucket from to d i) events)) (seq 0 (Z.to_nat n))) = countOf (filter (inWindow from to) events).
Proof.
  unfold countOf. induction events as [|ev events IH].
  - assert (Hz : forall k : list nat, sumZ (map (fun _ => 0) k) = 0) by (induction k as [|x k IHk]; [done|]; cbn [map sumZ foldr]; unfold sumZ in IHk; lia).
    apply Hz.
  - rewrite filter_cons.
    assert (Hsplit : forall k : list nat, sumZ (map (fun i => Z.of_nat (length (filter (inBucket from to d i) (ev :: events)))) k) =
      sumZ (map (fun i => Z.of_nat (length (filter (inBucket from to d i) events))) k)
      + Z.of_nat (length (filter (fun i => inBucket from to d i ev) k))).
    { induction k as [|i k IHk]; [done|]. cbn [map sumZ foldr]. unfold sumZ in IHk. rewrite IHk, (filter_cons (fun i => _) i), (filter_cons (inBucket from to d i)).
      case_decide; cbn [length]; lia. }
    rewrite Hsplit, IH. case_decide as Hw.
    + assert (Hone : filter (fun i => inBucket from to d i ev) (seq 0 (Z.to_nat n)) = [Z.to_nat ((ev_Timestamp ev - from) / d)]).
      { unfold inWindow in Hw. set (q := (ev_Timestamp ev - from) / d).
        assert (Hq : d * q <= ev_Timestamp ev - from < d * q + d) by (unfold q; pose proof (Z.mul_div_le (ev_Timestamp ev - from) d); pose proof (Z.mul_succ_div_gt (ev_Timestamp ev - from) d); lia).
        assert (Hq0 : 0 <= q < n) by nia.
        replace (Z.to_nat n) with (Z.to_nat q + S (Z.to_nat n - Z.to_nat q - 1))%nat by lia. rewrite seq_app. cbn [seq]. rewrite filter_app, filter_cons_True, !filter_none; [done|..].
        - intros i Hi%elem_of_seq [_ Hb]. nia.
        - intros i Hi%elem_of_seq [_ Hb]. nia.
        - unfold inBucket, inWindow. lia. }
      rewrite Hone. cbn [length]. lia.
    + rewrite (filter_none (fun i => inBucket from to d i ev)); [cbn [length]; lia|]. intros i _ [Hb _]. done.
Qed.
End Buckets.

(** ** Lemmas: groups *)

Lemma group_lookup (keyFn : Event -> string) evs : forall m k,
  foldl (groupStep keyFn) m evs !! k =
  match filter (fun ev => keyFn ev = k) evs with
  | [] => m !! k
  | es => Some (foldl (fun a ev => addEvent ev a) (default zeroAgg (m !! k)) es)
  end.
Proof.
  induction evs as [|ev evs IH]; intros m k; [done|]. cbn [foldl]. rewrite IH, filter_cons. unfold groupStep.
  case_decide as Hk; [subst k; rewrite lookup_insert_eq; by destruct (filter _ evs)|by rewrite lookup_insert_ne].
Qed.

Lemma group_lookup_Some keyFn evs k a : foldl (groupStep keyFn) ∅ evs !! k = Some a <->
  (exists ev, ev ∈ evs /\ keyFn ev = k) /\ a = aggregateOf (filter (fun ev => keyFn ev = k) evs).
Proof.
  rewrite group_lookup, lookup_empty. cbn [default]. rewrite <- aggregate_fold. destruct (filter _ evs) as [|e es] eqn:E.
  - split; [done|]. intros [(ev & Hin & Hk) _]. exfalso.
    by apply (filter_nil_not_elem_of _ _ ev E Hk).
  - split; [intros [= <-]; split; [|done]|by intros [_ ->]].
    exists e. assert (He : e ∈ filter (fun ev => keyFn ev = k) evs) by (rewrite E; left). by apply list_elem_of_filter in He as [? ?].
Qed.

#[export] Instance group_less_weak : StrictWeak group_less.
Proof.
  split; unfold group_less.
  - intros x. rewrite Z.eqb_refl. simpl. apply str_ltb_irrefl.
  - intros x y z. repeat case_if; try lia; try done. all: intros; bools; try lia. by eapply str_ltb_trans.
  - intros x y z. repeat case_if; intros; bools; try lia.
    destruct (str_ltb (go_Key z) (go_Key x)) eqn:E; [|done].
    destruct (str_ltb_total (go_Key y) (go_Key x)) as [?|[Eq|?]]; [congruence| |].
    + congruence.
    + assert (str_ltb (go_Key z) (go_Key y) = true) by (eapply str_ltb_trans; eauto). congruence.
Qed.
Lemma group_less_antisym x y : group_less x y = false -> group_less y x = false -> go_Key x = go_Key y.
Proof.
  unfold group_less. repeat case_if; intros; bools; try lia.
  destruct (str_ltb_total (go_Key x) (go_Key y)) as [?|[?|?]]; congruence.
Qed.

(** The keys of a list of events, each once: those with more events first, those with equally many
    in the order of their bytes. *)
Definition ofKey (keyFn : Event -> string) (events : list Event) (k : string) : list Event := filter (fun ev => keyFn ev = k) events.
Definition isRanking (keyFn : Event -> string) (events : list Event) (ks : list string) : Prop :=
  NoDup ks /\ (forall k, k ∈ ks <-> exists ev, ev ∈ events /\ keyFn ev = k) /\
  StronglySorted (fun k1 k2 => countOf (ofKey keyFn events k2) < countOf (ofKey keyFn events k1) \/
    (countOf (ofKey keyFn events k1) = countOf (ofKey keyFn events k2) /\ str_ltb k1 k2 = true)) ks.

Lemma ranking_unique keyFn events ks1 ks2 : isRanking keyFn events ks1 -> isRanking keyFn events ks2 -> ks1 = ks2.
Proof.
  intros (Hn1 & Hs1 & Ho1) (Hn2 & Hs2 & Ho2). eapply (StronglySorted_unique_strong _ ks1 ks2); [|exact Ho1|exact Ho2|].
  - cbn. intros x y _ _ [Hxy|[Exy Hxy]] [Hyx|[Eyx Hyx]]; try lia.
    pose proof (str_ltb_trans _ _ _ Hxy Hyx) as Hxx. by rewrite str_ltb_irrefl in Hxx.
  - apply NoDup_Permutation; [done..|]. intros k. by rewrite Hs1, Hs2.
Qed.

Section Groups.
Context `{MapRange} `{SortSlice}.

(** What the handler sorts: the groups of the ranked keys. *)
Lemma groups_ranked keyFn events : exists ks, isRanking keyFn events ks /\
  sort_slice group_less (map (fun p => mkGroupOut p.1 p.2) (range (foldl (groupStep keyFn) ∅ events))) =
    map (fun k => mkGroupOut k (aggregateOf (ofKey keyFn events k))) ks.
Proof.
  set (m := foldl _ _ _). set (G := sort_slice _ _).
  assert (Hp : G ≡ₚ map (fun p => mkGroupOut p.1 p.2) (map_to_list m)) by (unfold G; rewrite sort_slice_perm; apply Permutation_map, range_perm).
  assert (Hin : forall g, g ∈ G <-> (exists ev, ev ∈ events /\ keyFn ev = go_Key g) /\ go_Agg g = aggregateOf (ofKey keyFn events (go_Key g))).
  { intros [k a]. rewrite Hp, list_elem_of_fmap. cbn [go_Key go_Agg]. unfold ofKey. rewrite <- group_lookup_Some. fold m. split.
    - intros ([k' a'] & [= -> ->] & Hin). by apply elem_of_map_to_list in Hin.
    - intros Hin. exists (k, a). split; [done|]. by apply elem_of_map_to_list. }
  assert (Hnd : NoDup (map go_Key G)) by (rewrite (Permutation_map go_Key Hp), map_map; apply (NoDup_fst_map_to_list m)).
  assert (Hord : ordered group_less G) by (apply sort_slice_sorted, _).
  exists (map go_Key G). split; [split; [done|split]|].
  - intros k. rewrite list_elem_of_fmap. split; [intros (g & -> & [? _]%Hin); done|].
    intros Hk. exists (mkGroupOut k (aggregateOf (ofKey keyFn events k))). split; [done|]. by apply Hin.
  - clear Hp. assert (Hagg : Forall (fun g => ag_Count (go_Agg g) = countOf (ofKey keyFn events (go_Key g))) G)
      by (apply Forall_forall; intros g [_ ->]%Hin; done). clear Hin. clearbody G.
    induction Hord as [|g G Hord IH Hg]; [constructor|]. cbn [map] in Hnd |- *. apply NoDup_cons in Hnd as [Hk Hnd].
    apply Forall_cons in Hagg as [Eg Hagg]. constructor; [by apply IH|]. rewrite Forall_forall in Hg, Hagg. apply Forall_map, Forall_forall.
    intros g' Hg'. specialize (Hg g' Hg'). rewrite <- Eg, <- (Hagg g' Hg'). unfold group_less in Hg.
    destruct (Z.eqb_spec (ag_Count (go_Agg g')) (ag_Count (go_Agg g))) as [E|E]; cbn [negb] in Hg; [right; split; [done|]|left; bools; lia].
    destruct (str_ltb_total (go_Key g) (go_Key g')) as [?|[Ek|?]]; [done| |congruence]. exfalso. apply Hk. rewrite Ek. by apply list_elem_of_fmap_2.
  - rewrite map_map. symmetry. rewrite <- (map_id G) at 2. apply map_ext_in. intros g [_ Ea]%list_elem_of_In%Hin. destruct g. cbn in *. by rewrite Ea.
Qed.

Lemma ranking_sum keyFn events ks : isRanking keyFn events ks -> sumZ (map (fun k => countOf (ofKey keyFn events k)) ks) = countOf events.
Proof.
  intros (Hnd & Hs & _). unfold countOf, ofKey. assert (Hall : forall ev, ev ∈ events -> keyFn ev ∈ ks) by (intros ev Hev; apply Hs; eauto). clear Hs.
  induction events as [|ev events IH].
  - clear. induction ks as [|k ks IH]; [done|]. cbn [map sumZ foldr]. unfold sumZ in IH. rewrite IH. done.
  - assert (Hsplit : forall l, NoDup l -> sumZ (map (fun k => Z.of_nat (length (filter (fun e => keyFn e = k) (ev :: events)))) l) =
      sumZ (map (fun k => Z.of_nat (length (filter (fun e => keyFn e = k) events))) l) + (if bool_decide (keyFn ev ∈ l) then 1 else 0)).
    { induction l as [|k l IHl]; intros Hl; [done|]. apply NoDup_cons in Hl as [Hk Hl]. specialize (IHl Hl). cbn [map sumZ foldr] in *. unfold sumZ in IHl.
      rewrite IHl, (filter_cons (fun e => keyFn e = k)). destruct (decide (keyFn ev = k)) as [Ek|Ek].
      - subst k. rewrite (bool_decide_eq_false_2 (keyFn ev ∈ l)) by done. rewrite bool_decide_eq_true_2 by left. cbn [length]. lia.
      - rewrite (bool_decide_ext (keyFn ev ∈ k :: l) (keyFn ev ∈ l)); [lia|]. rewrite elem_of_cons. split; [by intros [?|?]|by right]. }
    rewrite Hsplit, IH by (try done; intros; apply Hall; by right). rewrite bool_decide_eq_true_2 by (apply Hall; left). cbn [length]. lia.
Qed.
End Groups.

(** The key of an event in each dimension. *)
Definition orElse (s d : string) : string := match s with EmptyString => d | _ => s end.
Definition dimensions (ev : Event) : list (string * string) :=
  [("endpoint_group", orElse (ev_EndpointGroup ev) "(unknown)"); ("route_name", orElse (ev_RouteName ev) "(unknown)");
   ("status", Itoa (ev_Status ev)); ("auth_type", orElse (ev_AuthType ev) "(unauthenticated)");
   ("user", orElse (ev_UserEmail ev) (orElse (ev_UserSubject ev)
              (match ev_APIKeyName ev with EmptyString => "(anonymous)" | name => "key:" ++ name end)))].
Lemma orElse_eqb s d : (if String.eqb s "" then d else s) = orElse s d.
Proof. by destruct s. Qed.
Lemma breakdownKeyFn_dimension dimension :
  match breakdownKeyFn dimension with
  | Some keyFn => forall ev, (dimension, keyFn ev) ∈ dimensions ev
  | None => forall ev, dimension ∉ (dimensions ev).*1
  end.
Proof.
  unfold breakdownKeyFn. cbv zeta.
  destruct (String.eqb_spec dimension "endpoint_group") as [->|H1]; [intros ev; rewrite orElse_eqb; by left|].
  destruct (String.eqb_spec dimension "route_name") as [->|H2]; [intros ev; rewrite orElse_eqb; right; by left|].
  destruct (String.eqb_spec dimension "status") as [->|H3]; [intros ev; do 2 right; by left|].
  destruct (String.eqb_spec dimension "auth_type") as [->|H4]; [intros ev; rewrite orElse_eqb; do 3 right; by left|].
  destruct (String.eqb_spec dimension "user") as [->|H5].
  - intros ev. do 4 right. apply list_elem_of_singleton. f_equal. by destruct (ev_UserEmail ev), (ev_UserSubject ev), (ev_APIKeyName ev).
  - intros ev. cbn. by rewrite !not_elem_of_cons; split_and!; [..|apply not_elem_of_nil].
Qed.

(** ** Lemmas: percentiles *)

(** For every number of events one query can return, the index is the exact quotient. *)
Definition exactIndex (k : Z) : bool :=
  forallb (fun n => match truncZ (fmul (float64 (Z.of_nat n - 1)) (hundredths k)) with
                    | Some z => z =? (Z.of_nat n - 1) * k / 100 | None => false end) (seq 1 1000).
Lemma exactIndex_all k : k ∈ [50; 95; 99] -> exactIndex k = true.
Proof. rewrite !elem_of_cons. intros [->|[->|[->|[]%elem_of_nil]]]; by vm_compute. Qed.

Lemma percentileIndex_exact `{FloatEnv} k n : k ∈ [50; 95; 99] -> (1 <= n <= 1000)%nat ->
  percentileIndex n (hundredths k) = (Z.of_nat n - 1) * k / 100.
Proof.
  intros Hk Hn. pose proof (exactIndex_all k Hk) as He. apply forallb_Forall in He. rewrite Forall_forall in He.
  specialize (He n ltac:(apply elem_of_seq; lia)). unfold percentileIndex, int_of.
  destruct (truncZ _) as [z|]; [|done]. bools. subst z.
  assert (Hb : 0 <= k <= 100) by (rewrite !elem_of_cons in Hk; destruct Hk as [->|[->|[->|[]%elem_of_nil]]]; lia).
  assert (0 <= (Z.of_nat n - 1) * k / 100) by (apply Z.div_pos; nia).
  assert ((Z.of_nat n - 1) * k / 100 <= Z.of_nat n - 1) by (apply Z.div_le_upper_bound; nia).
  destruct (_ <? 0) eqn:E; bools; [lia|]. destruct (_ <=? _) eqn:E2; bools; [lia|done].
Qed.

#[export] Instance ltb_weak : StrictWeak Z.ltb.
Proof. split; intros; lia. Qed.

(** Any sort of numbers is the reference sort. *)
Lemma sort_slice_Z `{SortSlice} l : sort_slice Z.ltb l = merge_sort Z.le l.
Proof.
  apply (StronglySorted_unique Z.le).
  - pose proof (sort_slice_sorted Z.ltb l) as Hs. unfold ordered in Hs. clear - Hs.
    induction Hs as [|x k Hk IH Hx]; constructor; [done|]. eapply Forall_impl; [exact Hx|]. cbn. intros y Hy. bools. lia.
  - apply Sorted_StronglySorted; [intros ? ? ?; lia|]. apply Sorted_merge_sort. intros ? ?. lia.
  - rewrite sort_slice_perm. symmetry. apply merge_sort_Permutation.
Qed.

(** The element at the nearest rank below the percentile. *)
Definition rankOf (k : Z) (durations : list Z) : Z :=
  default 0 (merge_sort Z.le durations !! Z.to_nat ((Z.of_nat (length durations) - 1) * k / 100)).

Lemma percentile_rank `{FloatEnv} `{SortSlice} k l : k ∈ [50; 95; 99] -> (length l <= 1000)%nat ->
  percentile (sort_slice Z.ltb l) (hundredths k) = rankOf k l.
Proof.
  intros Hk Hl. unfold percentile, rankOf. rewrite sort_slice_Z. set (s := merge_sort Z.le l).
  assert (Hs : length s = length l) by (apply Permutation_length, merge_sort_Permutation).
  case_bool_decide as E; [by rewrite E|]. rewrite percentileIndex_exact, Hs by (done || (destruct s; [done|cbn in *; lia])).
  by rewrite nth_lookup.
Qed.

(** ** Theorems *)

Lemma timeWindow_spec now r : let '(f, from, to) := timeWindow now r in
  from <= to /\ qf_From f = from /\ qf_To f = to /\ effLimit f = MaxQueryLimit /\ effOffset f = 0.
Proof.
  unfold timeWindow. cbv zeta. generalize (parseQueryFilter r). intros f.
  set (to := if IsZero (qf_To f) then now else qf_To f). set (from := if IsZero (qf_From f) then to - Hour else qf_From f).
  destruct (to <? from) eqn:E; bools; cbn; repeat split; lia.
Qed.

Lemma bucketSeconds_range r : 1 <= bucketSeconds r <= 3600.
Proof. unfold bucketSeconds. destruct (Atoi _) as [v ?]. repeat case_if; lia. Qed.

(** The number of buckets in exact arithmetic, as far as the limit of 10000 goes. *)
Lemma totalBuckets_exact from to d : from <= to -> Second <= d <= 3600 * Second ->
  let n := Z.quot (Sub to from) d + 1 in
  1 <= n /\ (if 10000 <? n then 10000 < (to - from) / d + 1 else n = (to - from) / d + 1 /\ to - from < n * d /\ n * d <= maxInt).
Proof.
  intros Hle Hd n. set (D := to - from).
  assert (Hdp : 0 < d) by (unfold Second, Millisecond in *; lia).
  assert (HD : d * (D / d) <= D < d * (D / d) + d)
    by (pose proof (Z.mul_div_le D d); pose proof (Z.mul_succ_div_gt D d); lia).
  assert (Hn : n = Z.min maxInt D / d + 1).
  { unfold n. rewrite Z.quot_div_nonneg by (unfold Sub, minInt, maxInt; lia). do 2 f_equal. unfold Sub, minInt, maxInt, D. lia. }
  assert (Hn1 : 1 <= n) by (rewrite Hn; assert (0 <= Z.min maxInt D / d) by (apply Z.div_pos; unfold maxInt, D in *; lia); lia).
  split; [done|]. destruct (Z.le_gt_cases D maxInt) as [Hs|Hs].
  - rewrite Z.min_r in Hn by done. destruct (10000 <? n) eqn:E; bools; [lia|]. split; [done|]. unfold Second, Millisecond, maxInt in *. nia.
  - rewrite Z.min_l in Hn by lia. assert (Hbig : 10000 < maxInt / d).
    { assert (d * 10001 <= maxInt) by (unfold Second, Millisecond, maxInt in *; lia).
      assert (10001 <= maxInt / d) by (apply Z.div_le_lower_bound; lia). lia. }
    destruct (10000 <? n) eqn:E; bools; [|lia]. assert (maxInt / d <= D / d) by (apply Z.div_le_mono; lia). lia.
Qed.

Section Theorems.
Context `{FloatEnv} `{MapRange} `{SortSlice} `{UnicodeTables} {L : Type} `{!Logger L} `{!AuditReads L}.

(** What an aggregation sees: the newest 1000 events of its window. *)
Definition seen (f : QueryFilter) (l : L) : list Event := take 1000 (matching f l).
Lemma query_seen f l : effLimit f = MaxQueryLimit -> effOffset f = 0 -> lg_Query f l = Ok (seen f l).
Proof. intros Hl Ho. rewrite query_window, Hl, Ho. done. Qed.

(** The window a query string asks for: up to the parameter [to] or else the present, from the
    parameter [from] or else an hour before that, exchanged when they are the wrong way round. *)
Definition windowAsked (now : Time) (r : Request) (from to : Time) : Prop :=
  exists f t, (timeAsked r "to" t \/ (forall x, ~ timeAsked r "to" x) /\ t = now) /\
    (timeAsked r "from" f \/ (forall x, ~ timeAsked r "from" x) /\ f = t - Hour) /\ from = Z.min f t /\ to = Z.max f t.
(** The newest thousand of the stored events that the query string asks for in a window. *)
Definition newestAsked (r : Request) (from to : Time) (l : L) (evs : list Event) : Prop :=
  exists all keep, evs = take 1000 all /\ all ≡ₚ filter (fun ev => keep ev = true) (stored l) /\ ordered event_less all /\
    forall ev, keep ev = true <-> asksFor r ev /\ (from <> 0 -> from <= ev_Timestamp ev) /\ (to <> 0 -> ev_Timestamp ev <= to).

Lemma queryTime_cases r k d : exists t, (timeAsked r k t \/ (forall x, ~ timeAsked r k x) /\ t = d) /\
  (if IsZero (queryTime r k) then d else queryTime r k) = t.
Proof.
  eexists. split; [|reflexivity]. unfold IsZero, queryTime, timeAsked. destruct (String.eqb_spec (q_Get r k) "") as [->|Hne].
  - right. split; [|done]. intros x [E _]. by vm_compute in E.
  - destruct (ParseRFC3339 (q_Get r k)) as [t|]; cbn; [|right; split; [by intros x [? _]|done]].
    destruct (Z.eqb_spec t 0) as [->|]; [right; split; [|done]|left; by split]. intros x [[= <-] ?]. done.
Qed.
Lemma timeWindow_asked now r : let '(f, from, to) := timeWindow now r in windowAsked now r from to /\ forall l, newestAsked r from to l (seen f l).
Proof.
  pose proof (eq_refl (timeWindow now r)) as Hw. unfold timeWindow at 2 in Hw. cbv zeta in Hw.
  change (qf_To (parseQueryFilter r)) with (queryTime r "to") in Hw. change (qf_From (parseQueryFilter r)) with (queryTime r "from") in Hw.
  destruct (queryTime_cases r "to" now) as (t & Ht & Et). rewrite Et in Hw.
  destruct (queryTime_cases r "from" (t - Hour)) as (f0 & Hf & Ef). rewrite Ef in Hw.
  assert (E : timeWindow now r = (qf_page (qf_window (parseQueryFilter r) (Z.min f0 t) (Z.max f0 t)) MaxQueryLimit 0, Z.min f0 t, Z.max f0 t)).
  { rewrite Hw. destruct (Z.ltb_spec t f0); [rewrite Z.min_r, Z.max_l by lia|rewrite Z.min_l, Z.max_r by lia]; done. }
  rewrite E. split; [by exists f0, t|]. intros l.
  exists (matching (qf_page (qf_window (parseQueryFilter r) (Z.min f0 t) (Z.max f0 t)) MaxQueryLimit 0) l),
    (fun ev => matchesFilter ev (qf_page (qf_window (parseQueryFilter r) (Z.min f0 t) (Z.max f0 t)) MaxQueryLimit 0)). split; [reflexivity|]. split; [apply matching_perm|].
  split; [apply matching_sorted|]. intros ev. apply matches_asked.
Qed.

(** The buckets of the reply, from the events of each. *)
Definition bucketJSON (from : Time) (d : Z) (i : nat) (evs : list Event) : option json :=
  t ← json_time (from + Z.of_nat i * d); avg ← json_float (round1 (meanOf evs));
  Some (JObj [("time", t); ("count", JInt (countOf evs)); ("errors", JInt (errorsOf evs)); ("avg_duration_ms", avg)]).
Definition groupJSON (key : string) (evs : list Event) : option json :=
  avg ← json_float (round1 (meanOf evs));
  Some (JObj [("key", JStr key); ("count", JInt (countOf evs)); ("errors", JInt (errorsOf evs)); ("avg_duration_ms", avg)]).

Lemma mapM_imap_seq {A B} (h : nat -> A -> option B) (g : nat -> A) n :
  mapM (fun p => h p.1 p.2) (imap pair (map g (seq 0 n))) = mapM (fun i => h i (g i)) (seq 0 n).
Proof.
  assert (E : forall k m, imap (fun i a => ((k + i)%nat, a)) (map g (seq k m)) = map (fun i => (i, g i)) (seq k m)).
  { intros k m. revert k. induction m as [|m IH]; intros k; [done|]. cbn [seq map imap]. rewrite Nat.add_0_r. f_equal. rewrite <- IH.
    apply imap_ext. intros i a _. cbn. f_equal. lia. }
  specialize (E 0%nat n). cbn in E. change (fun i a => (i, a)) with (@pair nat A) in E. rewrite E. clear E.
  induction (seq 0 n) as [|i l IH]; [done|]. cbn. cbn in IH. by rewrite IH.
Qed.
Lemma mapM_map {A B C} (h : B -> option C) (g : A -> B) l : mapM h (map g l) = mapM (fun x => h (g x)) l.
Proof. induction l as [|x l IH]; [done|]. cbn. cbn in IH. by rewrite IH. Qed.
Lemma mapM_same {A B} (h1 h2 : A -> option B) l : (forall x, h1 x = h2 x) -> mapM h1 l = mapM h2 l.
Proof. intros E. induction l as [|x l IH]; [done|]. cbn. cbn in IH. by rewrite E, IH. Qed.

(** C27: the time series.  Of the events asked for in the window of the query (up to [to] or now, from
    [from] or an hour earlier) the newest 1000 are seen.  With buckets of [d] seconds, where [d] is the
    parameter [bucket_seconds] up to 3600 or 60, bucket [i] of the reply has the number of seen
    events with a timestamp in [from + i*d, from + (i+1)*d) and before the end of the window, how
    many of them failed, and the rounded mean of their durations; the counts add up to the seen
    events in [from, to).  The sum of the durations does not overflow when they are numbers of milliseconds of a
    [time.Duration].  A window of more than 10000 buckets is refused with 400. *)
Theorem timeseries_reference (now : Time) (r : Request) (l : L) :
  exists from to evs, windowAsked now r from to /\ newestAsked r from to l evs /\
  let b := (Atoi (q_Get r "bucket_seconds")).1 in
  let secs := if b <=? 0 then 60 else Z.min b 3600 in
  let d := secs * Second in
  let n := (to - from) / d + 1 in
  let bucket i := filter (inBucket from to d i) evs in
  if 10000 <? n then exists msg, auditTimeseries now r l = writeError 400 msg
  else
    auditTimeseries now r l =
      writeJSON_opt 200
        (bs ← mapM (fun i => bucketJSON from d i (bucket i)) (seq 0 (Z.to_nat n)); jfrom ← json_time from; jto ← json_time to;
         Some (JObj [("bucket_seconds", JInt secs); ("buckets", JArr bs); ("from", jfrom); ("to", jto)])) /\
    sumZ (map (fun i => countOf (bucket i)) (seq 0 (Z.to_nat n))) = countOf (filter (inWindow from to) evs) /\
    (Forall durationMS evs -> forall i, durationOf (bucket i) = sumZ (map ev_DurationMS (bucket i))).
Proof.
  pose proof (timeWindow_spec now r) as Hw. pose proof (timeWindow_asked now r) as Ha. destruct (timeWindow now r) as [[f from] to] eqn:Ew.
  destruct Hw as (Hle & _ & _ & Hlim & Hoff). destruct Ha as [Hwin Hnew]. exists from, to, (seen f l). split; [done|]. split; [done|].
  intros b secs d n bucket. assert (Hsecs : bucketSeconds r = secs).
  { unfold bucketSeconds, secs, b. destruct (Atoi _) as [v ?]. cbn [fst]. destruct (Z.leb_spec v 0); [done|]. destruct (Z.ltb_spec 3600 v); lia. }
  unfold auditTimeseries. rewrite Ew, query_seen by done. pose proof (bucketSeconds_range r) as Hb. rewrite Hsecs in *. fold d.
  assert (Hd : Second <= d <= 3600 * Second) by (unfold d, Second, Millisecond; lia).
  destruct (totalBuckets_exact from to d Hle Hd) as [Hn1 Hn].
  destruct (_ <? 1) eqn:E1; bools; [lia|].
  destruct (10000 <? Z.quot (Sub to from) d + 1) eqn:E; bools.
  - destruct (10000 <? n) eqn:E'; unfold n in E'; bools; [by eexists|lia].
  - destruct Hn as (Hn & Hspan & Hsmall). rewrite Hn in *. fold n in Hn, Hspan, Hsmall, E |- *. rewrite (proj2 (Z.ltb_ge _ _)) by lia.
    assert (Hdp : 0 < d) by (unfold Second, Millisecond in *; lia).
    split; [|split; [by apply buckets_sum|]].
    + rewrite buckets_reference by done. unfold refBuckets. rewrite (mapM_imap_seq (json_bucket from d) (fun i => aggregateOf (bucket i))).
      f_equal. f_equal. apply mapM_same. intros i. unfold json_bucket, bucketJSON. by rewrite average_mean.
    + intros Hdur i. apply durationOf_exact; [|apply Forall_forall; intros ev [_ Hev]%list_elem_of_filter; by eapply Forall_forall]. unfold bucket. etransitivity; [apply length_filter|].
      unfold seen. rewrite length_take. lia.
Qed.

(** C28: the breakdown.  Of the events asked for in the window of the query (up to [to] or now, from
    [from] or an hour earlier) the newest 1000 are seen.  For a dimension that is known (the endpoint group
    when none is given) the reply lists the first keys, as many as the parameter [top] between 1 and 200 or 20, of the
    one ranking of the keys that occur among the seen events: more events first, then by the bytes of
    the key, whatever order Go walks the map in and whatever its sort does with equal elements.  Each
    comes with the number of its events, how many of them failed and the rounded mean of their durations; the
    counts of the whole ranking add up to the number of seen events.  Another dimension is refused with 400. *)
Theorem breakdown_groups (now : Time) (r : Request) (l : L) :
  let dimension := orElse (q_Get r "dimension") "endpoint_group" in
  let v := (Atoi (q_Get r "top")).1 in
  let top := if (1 <=? v) && (v <=? 200) then Z.to_nat v else 20%nat in
  exists from to evs, windowAsked now r from to /\ newestAsked r from to l evs /\
  (((forall ev, dimension ∉ (dimensions ev).*1) /\ exists msg, auditBreakdown now r l = writeError 400 msg) \/
   exists keyFn ks, (forall ev, (dimension, keyFn ev) ∈ dimensions ev) /\
     isRanking keyFn evs ks /\ (forall ks', isRanking keyFn evs ks' -> ks' = ks) /\
     sumZ (map (fun k => countOf (ofKey keyFn evs k)) ks) = countOf evs /\
     auditBreakdown now r l =
       writeJSON_opt 200
         (groups ← mapM (fun k => groupJSON k (ofKey keyFn evs k)) (take top ks); jfrom ← json_time from; jto ← json_time to;
          Some (JObj [("dimension", JStr dimension); ("from", jfrom); ("groups", JArr groups); ("to", jto)]))).
Proof.
  intros dimension v top. pose proof (timeWindow_spec now r) as Hw. pose proof (timeWindow_asked now r) as Ha. unfold auditBreakdown.
  rewrite orElse_eqb. fold dimension. destruct (timeWindow now r) as [[f from] to]. destruct Hw as (Hle & _ & _ & Hlim & Hoff), Ha as [Hwin Hnew].
  exists from, to, (seen f l). split; [done|]. split; [done|]. pose proof (breakdownKeyFn_dimension dimension) as Hdim.
  destruct (breakdownKeyFn dimension) as [keyFn|]; [right|left; by eauto]. rewrite query_seen by done.
  destruct (groups_ranked keyFn (seen f l)) as (ks & Hks & Hg). exists keyFn, ks. split; [done|]. split; [done|].
  split; [intros ks' Hks'; by eapply ranking_unique|]. split; [by apply ranking_sum|].
  assert (Htop : breakdownTop r = top).
  { unfold breakdownTop, top, v. destruct (Atoi _) as [u ?]. cbn [fst]. by replace (0 <? u) with (1 <=? u) by lia. }
  f_equal. unfold breakdownGroups. rewrite Hg, Htop, length_map.
  replace (if (top <? length ks)%nat then _ else _) with (map (fun k => mkGroupOut k (aggregateOf (ofKey keyFn (seen f l) k))) (take top ks)).
  - rewrite mapM_map. f_equal. apply mapM_same. intros k. unfold json_group, groupJSON. cbn [go_Key go_Agg]. by rewrite average_mean.
  - destruct (Nat.ltb_spec top (length ks)); [by rewrite firstn_map|by rewrite take_ge].
Qed.

(** C29: the statistics.  Total, errors and successes are those of the newest 1000 events of the
    window, and each percentile is the duration at rank [(n - 1) * k / 100] of the sorted durations:
    computed in binary64, the index is exact for every number of events a query can return. *)
Theorem stats_exact (now : Time) (r : Request) (l : L) :
  let '(f, from, to) := timeWindow now r in
  let events := seen f l in
  let ds := map ev_DurationMS events in
  let errs := Z.of_nat (length (filter (fun ev => ev_Success ev = false) events)) in
  let ok := Z.of_nat (length (filter (fun ev => ev_Success ev = true) events)) in
  let total := Z.min MaxQueryLimit (Z.of_nat (length (matching f l))) in
  auditStats now r l =
    writeJSON_opt 200
      (rate ← json_float (round3 (if 0 <? total then fdiv (float64 errs) (float64 total) else S754_zero false));
       jfrom ← json_time from; jto ← json_time to;
       Some (JObj [("error_rate", rate); ("errors", JInt errs); ("from", jfrom);
                   ("p50_ms", JInt (rankOf 50 ds)); ("p95_ms", JInt (rankOf 95 ds)); ("p99_ms", JInt (rankOf 99 ds));
                   ("success", JInt ok); ("to", jto); ("total", JInt total)])).
Proof.
  pose proof (timeWindow_spec now r) as Hw. unfold auditStats. destruct (timeWindow now r) as [[f from] to].
  destruct Hw as (_ & _ & _ & Hlim & Hoff). rewrite query_seen by done. set (events := seen f l).
  assert (Htot : Z.of_nat (length events) = Z.min MaxQueryLimit (Z.of_nat (length (matching f l))))
    by (unfold events, seen; rewrite length_take; unfold MaxQueryLimit; lia).
  assert (Hlen : (length (map ev_DurationMS events) <= 1000)%nat) by (rewrite length_map; unfold MaxQueryLimit in Htot; lia).
  assert (Herr : forall evs z, foldl (fun n ev => if ev_Success ev then n else n + 1) z evs =
    z + Z.of_nat (length (filter (fun ev => ev_Success ev = false) evs))).
  { induction evs as [|ev evs IH]; intros z; [cbn; lia|]. cbn [foldl]. rewrite IH, (filter_cons _ ev).
    case_decide as Hs; [rewrite Hs|destruct (ev_Success ev); [|done]]; cbn [length]; lia. }
  assert (Hsum : forall evs, (length (filter (fun ev => ev_Success ev = false) evs) + length (filter (fun ev => ev_Success ev = true) evs))%nat = length evs).
  { induction evs as [|ev evs IH]; [done|]. rewrite !filter_cons. repeat case_decide; cbn [length]; try lia; by destruct (ev_Success ev). }
  rewrite Herr, Htot, !percentile_rank by (done || set_solver). cbn [Z.add].
  rewrite <- Htot.
  assert (Hok : Z.of_nat (length (filter (fun ev => ev_Success ev = true) events)) =
    Z.of_nat (length events) - Z.of_nat (length (filter (fun ev => ev_Success ev = false) events))) by (rewrite <- (Hsum events); lia).
  by rewrite Hok.
Qed.
End Theorems.
