(* ===== verification/AuditStream.v ===== *)
(** * Live tail and export ([pkg/httpsrv/portal_audit_stream.go])

    The server-sent event stream polls the log once per tick; the NDJSON export pages through it.
    Other requests log events meanwhile, so each query meets its own state of the log: the loops
    take a function from the number of the query to the log it sees. *)
From S2P Require Import Prelude GoStrings GoNum GoTime GoUrl Json Http AuditEvent MemoryLog FailureEndpoints Session PortalApi.

Definition auditStreamPollInterval : Duration := 1 * Second.
Definition auditStreamHeartbeatInterval : Duration := 15 * Second.
Definition auditStreamMaxPagesPerTick : nat := 10.
Definition auditExportLimit : Z := 100000.

(** The quoted JSON text without its quotes. *)
Definition jsonEscape (s : string) : string :=
  let b := json_string s in stake (String.length b - 2) (sdrop 1 b).

(** [json.Marshal(ev)], nil on an error. *)
Definition marshalEvent (ev : Event) : string := match jsonEvent ev with Some j => json_text j | None => "" end.

(** ** Frames *)

Inductive frame := FEvent (ev : Event) | FError (msg : string) | FSaturated (emitted : nat) | FHeartbeat.

Definition nl2 : string := newline ++ newline.
Definition frameText (f : frame) : string :=
  match f with
  | FEvent ev => "id: " ++ ev_ID ev ++ newline ++ "event: audit" ++ newline ++ "data: " ++ marshalEvent ev ++ nl2
  | FError msg => "event: error" ++ newline ++ "data: " ++ jsonEscape msg ++ nl2
  | FSaturated n =>
    "event: saturated" ++ newline ++ "data: {" ++ dquote ++ "reason" ++ dquote ++ ":" ++ dquote ++ "tied_timestamps" ++ dquote
    ++ "," ++ dquote ++ "emitted_this_tick" ++ dquote ++ ":" ++ Itoa (Z.of_nat n) ++ "}" ++ nl2
  | FHeartbeat => ": heartbeat" ++ newline
  end.
Definition isEvent (f : frame) : bool := match f with FEvent _ => true | _ => false end.
Definition frameOps (f : frame) : list wop :=
  match f with FError _ | FHeartbeat => [Write (frameText f); Flush] | _ => [Write (frameText f)] end.

(** Why the select woke up: the client is gone, the heartbeat ticker, or the poll ticker at a time,
    with what its queries see. *)
Inductive wakeup (L : Type) := Done | Heartbeat | Poll (now : Time) (log : nat -> L).
Arguments Done {L}.
Arguments Heartbeat {L}.
Arguments Poll {L}.

Section Stream.
Context {L : Type} `{!Logger L}.

(** The events of one page: those after [lastSeen] that are not in [seen]. *)
Fixpoint emitPage (lastSeen : Time) (events : list Event) (seen : gset string) : list Event * gset string :=
  match events with
  | [] => ([], seen)
  | ev :: rest =>
    if negb (lastSeen <? ev_Timestamp ev) then emitPage lastSeen rest seen
    else if bool_decide (ev_ID ev ∈ seen) then emitPage lastSeen rest seen
    else let '(out, seen') := emitPage lastSeen rest ({[ev_ID ev]} ∪ seen) in (ev :: out, seen')
  end.

(** [audit.QueryFilter{From: lastSeen, To: cursor, Limit: audit.MaxQueryLimit}] *)
Definition tailFilter (lastSeen cursor : Time) : QueryFilter := qf_page (qf_window noFilter lastSeen cursor) MaxQueryLimit 0.

(** The page loop of a tick from page [page] on; [fuel] is the number of pages left. *)
Fixpoint pageLoop (fuel page : nat) (lastSeen cursor : Time) (seen : gset string) (log : nat -> L) : list frame :=
  match fuel with
  | O => []
  | S fuel' =>
    match lg_Query (tailFilter lastSeen cursor) (log page) with
    | Err e => [FError e]
    | Ok events =>
      let '(fresh, seen') := emitPage lastSeen events seen in
      (map FEvent fresh ++
       (if Z.of_nat (length events) <? MaxQueryLimit then []
        else if bool_decide (fresh = []) then [FSaturated (size seen')]
        else match last events with
             | Some oldest => pageLoop fuel' (S page) lastSeen (ev_Timestamp oldest) seen' log
             | None => []
             end))%list
    end
  end.
Definition tick (lastSeen now : Time) (log : nat -> L) : list frame :=
  pageLoop auditStreamMaxPagesPerTick 0 lastSeen now ∅ log.

Definition tickOps (fs : list frame) : list wop :=
  (mjoin (map frameOps fs) ++ (if existsb isEvent fs then [Flush] else []))%list.

(** The frames of each round of the loop. *)
Fixpoint streamLoop (lastSeen : Time) (ws : list (wakeup L)) : list (list frame) :=
  match ws with
  | [] | Done :: _ => []
  | Heartbeat :: ws' => [FHeartbeat] :: streamLoop lastSeen ws'
  | Poll now log :: ws' => tick lastSeen now log :: streamLoop now ws'
  end.

Definition auditStream (flusher : bool) (now : Time) (ws : list (wakeup L)) : list wop :=
  if negb flusher then writeError 500 "streaming not supported by this writer"
  else ([HSet "Content-Type" "text/event-stream"; HSet "Cache-Control" "no-store"; WriteHeader 200;
         Write (": stream open" ++ newline); Flush] ++ mjoin (map tickOps (streamLoop now ws)))%list.

(** ** Export *)

Definition exportLine (ev : Event) : list wop := match jsonEvent ev with Some j => [Write (Encode j)] | None => [] end.
Definition truncatedLine : list wop :=
  [Write (Encode (JObj [("_export_truncated", JBool true); ("_limit", JInt auditExportLimit)]))].
Definition errorLine (msg : string) : list wop := [Write (Encode (JObj [("_export_error", JStr msg)]))].

(** The events of a page; [None] in the second place when the limit was reached. *)
Fixpoint exportPage (events : list Event) (written : Z) : list wop * option Z :=
  match events with
  | [] => ([], Some written)
  | ev :: rest =>
    let written := written + 1 in
    if auditExportLimit <=? written then ((exportLine ev ++ truncatedLine)%list, None)
    else let '(ops, w) := exportPage rest written in ((exportLine ev ++ ops)%list, w)
  end.

Fixpoint exportLoop (fuel page : nat) (flusher : bool) (cancelled : nat -> bool) (f : QueryFilter) (written : Z) (log : nat -> L) : list wop :=
  match fuel with
  | O => []
  | S fuel' =>
    if negb (written <? auditExportLimit) then []
    else if cancelled page then []
    else
      match lg_Query f (log page) with
      | Err e => errorLine e
      | Ok [] => []
      | Ok events =>
        match exportPage events written with
        | (ops, None) => ops
        | (ops, Some written) =>
          (ops ++ (if flusher then [Flush] else []) ++
           (if Z.of_nat (length events) <? qf_Limit f then []
            else exportLoop fuel' (S page) flusher cancelled (qf_page f (qf_Limit f) (qf_Offset f + Z.of_nat (length events))) written log))%list
        end
      end
  end.

(** The filter with the page size forced and the upper bound pinned to the present. *)
Definition exportFilter (now : Time) (r : Request) : QueryFilter :=
  let f := qf_page (parseQueryFilter r) MaxQueryLimit 0 in
  if IsZero (qf_To f) || (now <? qf_To f) then qf_window f (qf_From f) now else f.

(** Every page that goes on writes at least one event, so the limit bounds the number of pages. *)
Definition exportFuel : nat := Z.to_nat auditExportLimit.
Definition auditExportNDJSON (flusher : bool) (env : Env) (r : Request) (log : nat -> L) : list wop :=
  ([HSet "Content-Type" "application/x-ndjson"; HSet "Cache-Control" "no-store";
    HSet "Content-Disposition" ("attachment; filename=" ++ dquote ++ "audit-events.ndjson" ++ dquote); WriteHeader 200]
   ++ exportLoop exportFuel 0 flusher (env_cancelled env) (exportFilter (env_start env) r) 0 log)%list.
End Stream.

(** ** Lemmas: pages of the tail *)

Definition eventsOf (fs : list frame) : list Event := omap (fun f => match f with FEvent ev => Some ev | _ => None end) fs.
Lemma eventsOf_app a b : eventsOf (a ++ b)%list = (eventsOf a ++ eventsOf b)%list.
Proof. apply omap_app. Qed.
Lemma eventsOf_events evs : eventsOf (map FEvent evs) = evs.
Proof. induction evs as [|ev evs IH]; [done|]. unfold eventsOf in *. cbn. by rewrite IH. Qed.

(** An event the page still has to emit. *)
Definition isFresh (lastSeen : Time) (seen : gset string) (ev : Event) : Prop := lastSeen < ev_Timestamp ev /\ ev_ID ev ∉ seen.
#[global] Instance isFresh_dec lastSeen seen ev : Decision (isFresh lastSeen seen ev).
Proof. unfold isFresh. apply _. Defined.

Lemma emitPage_spec lastSeen events : forall seen, let '(out, seen') := emitPage lastSeen events seen in
  seen' = list_to_set (map ev_ID out) ∪ seen /\ NoDup (map ev_ID out) /\
  Forall (fun ev => ev ∈ events /\ isFresh lastSeen seen ev) out /\
  (NoDup (map ev_ID events) -> out = filter (isFresh lastSeen seen) events).
Proof.
  induction events as [|ev events IH]; intros seen; cbn [emitPage].
  - split; [set_solver|]. split; [constructor|]. split; [constructor|done].
  - assert (Hskip : ~ isFresh lastSeen seen ev -> let '(out, seen') := emitPage lastSeen events seen in
      seen' = list_to_set (map ev_ID out) ∪ seen /\ NoDup (map ev_ID out) /\
      Forall (fun e => e ∈ ev :: events /\ isFresh lastSeen seen e) out /\
      (NoDup (map ev_ID (ev :: events)) -> out = filter (isFresh lastSeen seen) (ev :: events))).
    { intros Hf. specialize (IH seen). destruct (emitPage lastSeen events seen) as [out seen']. destruct IH as (H1 & H2 & H3 & H4).
      split; [done|]. split; [done|]. split; [eapply Forall_impl; [exact H3|]; intros e [? ?]; split; [by right|done]|].
      intros [_ Hnd]%NoDup_cons. rewrite filter_cons_False by done. auto. }
    destruct (lastSeen <? ev_Timestamp ev) eqn:Et; cbn [negb]; bools; [|apply Hskip; unfold isFresh; lia].
    case_bool_decide as Es; [apply Hskip; unfold isFresh; tauto|]. clear Hskip.
    specialize (IH ({[ev_ID ev]} ∪ seen)). destruct (emitPage lastSeen events _) as [out seen']. destruct IH as (H1 & H2 & H3 & H4).
    assert (Hnot : ev_ID ev ∉ map ev_ID out).
    { intros (e & He & Hin)%list_elem_of_fmap. rewrite Forall_forall in H3. destruct (H3 e Hin) as [_ [_ Hn]]. apply Hn. rewrite <- He. set_solver. }
    split; [cbn [map]; rewrite H1; set_solver|]. split; [by apply NoDup_cons|]. split.
    + constructor; [split; [left|by split]|]. eapply Forall_impl; [exact H3|]. intros e [? [? Hn]]. split; [by right|]. split; [done|]. set_solver.
    + intros Hnd. cbn [map] in Hnd. apply NoDup_cons in Hnd as [Hev Hnd]. rewrite filter_cons_True by (by split). f_equal. rewrite (H4 Hnd).
      clear - Hev. induction events as [|e events IH]; [done|]. cbn [map] in Hev. apply not_elem_of_cons in Hev as [He Hev].
      rewrite !filter_cons. rewrite IH by done. unfold isFresh at 1 3. 
      destruct (decide _) as [[? ?]|Hd]; destruct (decide _) as [[? ?]|Hd']; try done; [exfalso; apply Hd'|exfalso; apply Hd]; split; try done; set_solver.
Qed.

(** Within a tick no event is emitted twice, whatever the log answers. *)
Lemma pageLoop_nodup `{Logger L} fuel : forall page lastSeen cursor seen (log : nat -> L),
  let evs := eventsOf (pageLoop fuel page lastSeen cursor seen log) in
  NoDup (map ev_ID evs) /\ Forall (fun ev => isFresh lastSeen seen ev) evs.
Proof.
  induction fuel as [|fuel IH]; intros page lastSeen cursor seen log; cbn [pageLoop]; [split; constructor|].
  destruct (lg_Query _ _) as [events|e]; [|split; constructor].
  pose proof (emitPage_spec lastSeen events seen) as He. destruct (emitPage lastSeen events seen) as [out seen'].
  destruct He as (-> & H2 & H3 & _). cbv zeta. rewrite eventsOf_app, eventsOf_events.
  assert (Hout : Forall (isFresh lastSeen seen) out) by (eapply Forall_impl; [exact H3|]; by intros ? [_ ?]).
  destruct (_ <? _); [rewrite app_nil_r; by split|]. case_bool_decide; [rewrite app_nil_r; by split|].
  destruct (last events) as [o|]; [|rewrite app_nil_r; by split].
  destruct (IH (S page) lastSeen (ev_Timestamp o) (list_to_set (map ev_ID out) ∪ seen) log) as [I1 I2].
  rewrite map_app. split.
  - apply NoDup_app. split; [done|]. split; [|done]. intros x Hx (ev & -> & Hin)%list_elem_of_fmap.
    rewrite Forall_forall in I2. destruct (I2 ev Hin) as [_ Hn]. apply Hn. set_solver.
  - apply Forall_app. split; [done|]. eapply Forall_impl; [exact I2|]. intros ev [? ?]. split; [done|set_solver].
Qed.

(** ** Lemmas: windows *)

Section Windows.
Context `{UnicodeTables} {L : Type} `{!Logger L} `{!AuditReads L}.

Lemma tail_matches ev lastSeen cursor : 0 < lastSeen -> 0 < cursor ->
  matchesFilter ev (tailFilter lastSeen cursor) = true <-> lastSeen <= ev_Timestamp ev <= cursor.
Proof.
  intros Hl Hc. unfold matchesFilter, tailFilter, qf_page, qf_window, noFilter, IsZero. cbn.
  destruct (lastSeen =? 0) eqn:E1, (cursor =? 0) eqn:E2; bools; try lia. cbn [negb andb].
  destruct (_ <? _) eqn:E3; bools; [split; [done|lia]|]. destruct (_ <? _) eqn:E4; bools; [split; [done|lia]|]. split; [lia|done].
Qed.
Lemma tail_elem ev lastSeen cursor l : 0 < lastSeen -> 0 < cursor ->
  ev ∈ matching (tailFilter lastSeen cursor) l <-> ev ∈ stored l /\ lastSeen <= ev_Timestamp ev <= cursor.
Proof. intros Hl Hc. rewrite matching_perm, list_elem_of_filter, tail_matches by done. tauto. Qed.
Lemma tail_query lastSeen cursor l :
  lg_Query (tailFilter lastSeen cursor) l = Ok (take 1000 (matching (tailFilter lastSeen cursor) l)).
Proof. by rewrite query_window. Qed.

Lemma pageLoop_window fuel : forall page lastSeen cursor seen (log : nat -> L), 0 < lastSeen -> 0 < cursor ->
  Forall (fun ev => lastSeen < ev_Timestamp ev <= cursor /\ exists i, ev ∈ stored (log i))
    (eventsOf (pageLoop fuel page lastSeen cursor seen log)).
Proof.
  induction fuel as [|fuel IH]; intros page lastSeen cursor seen log Hl Hc; cbn [pageLoop]; [constructor|].
  rewrite tail_query. set (events := take 1000 _).
  assert (Hev : forall ev, ev ∈ events -> ev ∈ stored (log page) /\ lastSeen <= ev_Timestamp ev <= cursor).
  { intros ev Hin. apply tail_elem; [done..|]. unfold events in Hin. apply elem_of_take in Hin as (i & Hi & _). by eapply list_elem_of_lookup_2. }
  pose proof (emitPage_spec lastSeen events seen) as He. destruct (emitPage lastSeen events seen) as [out seen'].
  destruct He as (_ & _ & Hf & _). rewrite eventsOf_app, eventsOf_events. apply Forall_app. split.
  - eapply Forall_impl; [exact Hf|]. intros ev [Hin [Hlt _]]. destruct (Hev ev Hin) as [Hs Hw]. split; [lia|]. by exists page.
  - destruct (_ <? _); [constructor|]. case_bool_decide; [constructor|]. destruct (last events) as [o|] eqn:Eo; [|constructor].
    destruct (Hev o) as [_ Hw]; [by apply last_Some_elem_of|].
    eapply Forall_impl; [apply IH; lia|]. cbn. intros ev [? ?]. split; [lia|done].
Qed.

(** The ID of an event determines its timestamp. *)
Definition datedBy (ts : string -> Time) (ws : list (wakeup L)) : Prop :=
  Forall (fun w => match w with Poll _ log => forall i ev, ev ∈ stored (log i) -> ev_Timestamp ev = ts (ev_ID ev) | _ => True end) ws.
(** The times of the polls. *)
Definition pollTimes (ws : list (wakeup L)) : list Time := omap (fun w => match w with Poll now _ => Some now | _ => None end) ws.

Lemma stream_events_dated ts ws : forall lastSeen, 0 < lastSeen -> datedBy ts ws ->
  StronglySorted Z.le (lastSeen :: pollTimes ws) ->
  let evs := mjoin (map eventsOf (streamLoop lastSeen ws)) in
  NoDup (map ev_ID evs) /\ Forall (fun ev => lastSeen < ts (ev_ID ev)) evs.
Proof.
  induction ws as [|w ws IH]; intros lastSeen Hl Hd Hs; [split; constructor|]. inversion Hd as [|? ? Hw Hd']; subst.
  destruct w as [| |now log]; cbn [streamLoop]; [split; constructor|by apply IH|].
  unfold pollTimes in Hs. cbn [omap list_omap] in Hs. fold (pollTimes ws) in Hs. apply StronglySorted_inv in Hs as [Hs Hle].
  assert (Hnow : lastSeen <= now) by (by inversion Hle).
  destruct (IH now ltac:(lia) Hd' Hs) as [I1 I2]. cbn [map mjoin list_join]. rewrite map_app.
  unfold tick. destruct (pageLoop_nodup auditStreamMaxPagesPerTick 0 lastSeen now ∅ log) as [J1 _].
  pose proof (pageLoop_window auditStreamMaxPagesPerTick 0 lastSeen now ∅ log Hl ltac:(lia)) as J2. rewrite Forall_forall in J2, I2. split.
  - apply NoDup_app. split; [done|]. split; [|done]. intros x (e & -> & He)%list_elem_of_fmap (e' & Heq & He')%list_elem_of_fmap.
    destruct (J2 e He) as [Hw1 (i & Hi)]. specialize (I2 e' He'). rewrite (Hw _ _ Hi) in Hw1. rewrite Heq in Hw1. lia.
  - apply Forall_app. split; apply Forall_forall.
    + intros e He. destruct (J2 e He) as [Hw1 (i & Hi)]. rewrite <- (Hw _ _ Hi). lia.
    + intros e He. specialize (I2 e He). lia.
Qed.
(** *** Completeness of a tick *)

Section Tick.
Context (l : L) (Hids : NoDup (map ev_ID (stored l))) (lastSeen : Time) (Hl : 0 < lastSeen).

Lemma tail_nodup c : NoDup (map ev_ID (matching (tailFilter lastSeen c) l)).
Proof.
  rewrite (Permutation_map ev_ID (matching_perm _ l)). eapply sublist_NoDup; [exact Hids|]. apply sublist_map, sublist_filter.
Qed.
Lemma tail_same_id c x y : 0 < c -> x ∈ matching (tailFilter lastSeen c) l -> y ∈ matching (tailFilter lastSeen c) l -> ev_ID x = ev_ID y -> x = y.
Proof. intros Hc [Hx _]%tail_elem [Hy _]%tail_elem; [|done..]. by apply (NoDup_map_inj ev_ID (stored l)). Qed.

Lemma sorted_ts f i j x y : (i <= j)%nat -> matching f l !! i = Some x -> matching f l !! j = Some y -> ev_Timestamp y <= ev_Timestamp x.
Proof.
  intros Hij Hi Hj. destruct (decide (i = j)) as [->|Hne]; [rewrite Hi in Hj; injection Hj as ->; lia|].
  pose proof (matching_sorted f l) as Hs. unfold ordered in Hs. rewrite <- (take_drop j (matching f l)) in Hs.
  apply StronglySorted_app_1_elem_of with (x1 := x) (x2 := y) in Hs.
  2: { eapply (list_elem_of_lookup_2 _ i). rewrite lookup_take_lt by lia. exact Hi. }
  2: { eapply (list_elem_of_lookup_2 _ 0). by rewrite lookup_drop, Nat.add_0_r. }
  revert Hs. unfold event_less. repeat case_if; intros; bools; lia.
Qed.

Context (c : Time) (Hc : 0 < c) (Hts : NoDup (map ev_Timestamp (matching (tailFilter lastSeen c) l))).
Abbreviation M := (matching (tailFilter lastSeen c) l).

(** From the k-th event on, the tail is the tail up to that event's time. *)
Lemma tail_drop k o : M !! k = Some o -> matching (tailFilter lastSeen (ev_Timestamp o)) l = drop k M.
Proof.
  intros Ho. assert (Hom : o ∈ M) by (by eapply list_elem_of_lookup_2). apply tail_elem in Hom as [Hso Hwo]; [|done..].
  apply ordered_unique.
  - intros x y Hx Hy. apply tail_same_id with (c := ev_Timestamp o); [lia|done..].
  - apply matching_sorted.
  - pose proof (matching_sorted (tailFilter lastSeen c) l) as Hs. unfold ordered in *. rewrite <- (take_drop k M) in Hs. by eapply StronglySorted_app_1_r.
  - apply NoDup_Permutation; [eapply NoDup_fmap_1, tail_nodup| |].
    { eapply sublist_NoDup; [eapply NoDup_fmap_1, tail_nodup|]. apply sublist_drop. }
    intros ev. rewrite tail_elem by lia. split.
    + intros [Hin Hw]. assert (Hm : ev ∈ M) by (apply tail_elem; [done|done|split; [done|lia]]).
      apply list_elem_of_lookup in Hm as [j Hj]. destruct (decide (k <= j)%nat) as [Hkj|Hkj].
      * apply list_elem_of_lookup. exists (j - k)%nat. rewrite lookup_drop. by replace (k + (j - k))%nat with j by lia.
      * exfalso. pose proof (sorted_ts _ j k ev o ltac:(lia) Hj Ho) as Hle. assert (Heq : ev_Timestamp ev = ev_Timestamp o) by lia.
        assert (j = k); [|lia]. eapply NoDup_lookup; [exact Hts|..]; rewrite list_lookup_fmap; [by rewrite Hj|by rewrite Ho, Heq].
    + intros Hd. apply list_elem_of_lookup in Hd as [j Hj]. rewrite lookup_drop in Hj.
      pose proof (sorted_ts _ k (k + j) o ev ltac:(lia) Ho Hj). assert (Hm : ev ∈ M) by (by eapply list_elem_of_lookup_2).
      apply tail_elem in Hm; [|done..]. split; [tauto|lia].
Qed.
End Tick.

Lemma pageLoop_complete (l : L) (lastSeen : Time) (Hids : NoDup (map ev_ID (stored l))) (Hl : 0 < lastSeen) fuel :
  forall page c seen, 0 < c -> NoDup (map ev_Timestamp (matching (tailFilter lastSeen c) l)) ->
  (length (matching (tailFilter lastSeen c) l) <= 999 * fuel)%nat ->
  (forall i ev, matching (tailFilter lastSeen c) l !! i = Some ev -> ev_ID ev ∈ seen -> i = 0%nat) ->
  pageLoop fuel page lastSeen c seen (fun _ => l) = map FEvent (filter (isFresh lastSeen seen) (matching (tailFilter lastSeen c) l)).
Proof.
  induction fuel as [|fuel IH]; intros page c seen Hc Hts Hlen Hseen; cbn [pageLoop].
  { destruct (matching _ l); [done|cbn in Hlen; lia]. }
  rewrite tail_query. pose proof (tail_drop l Hids lastSeen Hl c Hc Hts) as Hdrop.
  pose proof (tail_nodup l Hids lastSeen c) as Hnd. set (M := matching (tailFilter lastSeen c) l) in *.
  pose proof (emitPage_spec lastSeen (take 1000 M) seen) as He. destruct (emitPage lastSeen (take 1000 M) seen) as [out seen'].
  destruct He as (-> & _ & Hf & Hout). rewrite Hout by (eapply sublist_NoDup; [exact Hnd|]; apply sublist_map, sublist_take).
  destruct (Z.of_nat (length (take 1000 M)) <? MaxQueryLimit) eqn:E; bools.
  { rewrite length_take in E. unfold MaxQueryLimit in E. by rewrite take_ge, app_nil_r by lia. }
  rewrite length_take in E. unfold MaxQueryLimit in E. assert (Hlong : (1000 <= length M)%nat) by lia.
  assert (Hfresh : filter (isFresh lastSeen seen) (take 1000 M) <> []).
  { destruct (lookup_lt_is_Some_2 M 1) as [a Ha]; [lia|]. destruct (lookup_lt_is_Some_2 M 2) as [b Hb]; [lia|]. intros Hnil.
    assert (Ham : a ∈ take 1000 M) by (eapply (list_elem_of_lookup_2 _ 1); by rewrite lookup_take_lt by lia).
    apply (filter_nil_not_elem_of _ _ a Hnil); [|done]. split.
    - pose proof (sorted_ts l _ 1 2 a b ltac:(lia) Ha Hb) as Hle.
      assert (Hne : ev_Timestamp a <> ev_Timestamp b).
      { intros Heq. assert (1 = 2)%nat; [|lia]. eapply NoDup_lookup; [exact Hts|..]; rewrite list_lookup_fmap; [by rewrite Ha|by rewrite Hb, Heq]. }
      assert (Hbm : b ∈ M) by (by eapply list_elem_of_lookup_2). apply tail_elem in Hbm; [|done..]. lia.
    - intros Hs. specialize (Hseen 1%nat a Ha Hs). lia. }
  rewrite bool_decide_eq_false_2 by done.
  destruct (lookup_lt_is_Some_2 M 999) as [o Ho]; [lia|].
  assert (Hlast : last (take 1000 M) = Some o).
  { rewrite last_lookup, length_take. replace (Nat.pred (1000 `min` length M)) with 999%nat by lia. by rewrite lookup_take_lt by lia. }
  rewrite Hlast. specialize (Hdrop 999%nat o Ho).
  assert (Hoc : 0 < ev_Timestamp o <= c).
  { assert (Hom : o ∈ M) by (by eapply list_elem_of_lookup_2). apply tail_elem in Hom; [|done..]. lia. }
  set (seen' := list_to_set (map ev_ID (filter (isFresh lastSeen seen) (take 1000 M))) ∪ seen).
  assert (Hnotin : forall j ev, (1000 <= j)%nat -> M !! j = Some ev -> ev_ID ev ∉ seen').
  { intros j ev Hj Hev Hin. apply elem_of_union in Hin as [Hin|Hin]; [|specialize (Hseen j ev Hev Hin); lia].
    apply elem_of_list_to_set, list_elem_of_fmap in Hin as (e & Heq & Hin). apply list_elem_of_filter in Hin as [_ Hin].
    apply elem_of_take in Hin as (i & Hi & Hlt). assert (i = j); [|lia].
    eapply NoDup_lookup; [exact Hnd|..]; rewrite list_lookup_fmap; [by rewrite Hi|rewrite Hev; cbn; by rewrite Heq]. }
  rewrite IH; rewrite ?Hdrop.
  - rewrite <- map_app. f_equal. rewrite <- (take_drop 1000 M) at 3. rewrite filter_app. f_equal.
    rewrite (drop_S M o 999) by done. rewrite filter_cons_False.
    + assert (Hsuf : forall k, (1000 <= k)%nat -> filter (isFresh lastSeen seen') (drop k M) = filter (isFresh lastSeen seen) (drop k M)).
      { intros k Hk. remember (drop k M) as R eqn:ER. revert k Hk ER. induction R as [|ev R IHR]; intros k Hk ER; [done|].
        assert (Hev : M !! k = Some ev) by (rewrite <- (Nat.add_0_r k), <- lookup_drop, <- ER; done).
        assert (HR : R = drop (S k) M) by (rewrite (drop_S M ev k Hev) in ER; by injection ER).
        rewrite !filter_cons, (IHR (S k)) by (done || lia). pose proof (Hnotin k ev Hk Hev) as Hn.
        assert (Hn' : ev_ID ev ∉ seen) by (intros ?; apply Hn; by apply elem_of_union_r).
        destruct (decide (isFresh lastSeen seen' ev)) as [[? ?]|Hd]; destruct (decide (isFresh lastSeen seen ev)) as [[? ?]|Hd']; try done; [exfalso; apply Hd'|exfalso; apply Hd]; by split. }
      apply Hsuf. lia.
    + intros [Hlt Hn]. apply Hn. unfold seen'. destruct (decide (ev_ID o ∈ seen)); [by apply elem_of_union_r|]. apply elem_of_union_l, elem_of_list_to_set, list_elem_of_fmap.
      exists o. split; [done|]. apply list_elem_of_filter. split; [by split|]. eapply (list_elem_of_lookup_2 _ 999). by rewrite lookup_take_lt by lia.
  - lia.
  - eapply sublist_NoDup; [exact Hts|]. apply sublist_map, sublist_drop.
  - rewrite length_drop. lia.
  - intros i ev Hi Hin. rewrite lookup_drop in Hi. destruct i as [|i]; [done|]. exfalso. by apply (Hnotin (999 + S i)%nat ev ltac:(lia) Hi).
Qed.
End Windows.

(** ** Lemmas: export *)

Section ExportLoop.
Context (limN : nat) (Hlim : Z.of_nat limN = auditExportLimit).

Lemma exportPage_spec events : forall n, (n < limN)%nat ->
  exportPage events (Z.of_nat n) =
  if decide (n + length events < limN)%nat then (mjoin (map exportLine events), Some (Z.of_nat (n + length events)))
  else ((mjoin (map exportLine (take (limN - n) events)) ++ truncatedLine)%list, None).
Proof.
  induction events as [|ev events IH]; intros n Hn; cbn [exportPage].
  - rewrite decide_True by (cbn; lia). cbn. by rewrite Nat.add_0_r.
  - replace (Z.of_nat n + 1) with (Z.of_nat (S n)) by lia. rewrite <- Hlim. destruct (_ <=? _) eqn:E; bools.
    + rewrite decide_False by (cbn; lia). replace (limN - n)%nat with 1%nat by lia. cbn. by rewrite app_nil_r.
    + rewrite IH by lia. cbn [length]. replace (n + S (length events))%nat with (S n + length events)%nat by lia. case_decide.
      * done.
      * replace (limN - n)%nat with (S (limN - S n)) by lia. cbn [take map mjoin list_join]. by rewrite <- app_assoc.
Qed.

(** One page that is neither empty nor reaches the limit. *)
Lemma exportLoop_step `{Logger L} f fuel page n flusher cancelled (log : nat -> L) events : (n < limN)%nat -> cancelled page = false ->
  lg_Query (qf_page f MaxQueryLimit (Z.of_nat n)) (log page) = Ok events -> events <> [] -> (n + length events < limN)%nat ->
  ops_bytes (exportLoop (S fuel) page flusher cancelled (qf_page f MaxQueryLimit (Z.of_nat n)) (Z.of_nat n) log) =
  ops_bytes (mjoin (map exportLine events)) ++
  (if Z.of_nat (length events) <? MaxQueryLimit then ""
   else ops_bytes (exportLoop fuel (S page) flusher cancelled (qf_page f MaxQueryLimit (Z.of_nat (n + length events))) (Z.of_nat (n + length events)) log)).
Proof.
  intros Hn Hc Hq Hne Hlen. cbn [exportLoop]. destruct (Z.of_nat n <? auditExportLimit) eqn:E; bools; [|lia]. cbn [negb].
  rewrite Hc, Hq. destruct events as [|e es]; [done|]. remember (e :: es) as events. rewrite exportPage_spec, decide_True by done.
  change (qf_Limit (qf_page f MaxQueryLimit _)) with MaxQueryLimit. change (qf_page (qf_page f _ _) ?a ?b) with (qf_page f a b).
  change (qf_Offset (qf_page f _ ?o)) with o. rewrite <- Nat2Z.inj_add, !ops_bytes_app.
  replace (ops_bytes (if flusher then [Flush] else [])) with "" by (by destruct flusher). by destruct (_ <? _).
Qed.

(** Every page is answered with its window of one list, whichever state of the log it meets. *)
Context {L : Type} `{!Logger L} (f : QueryFilter) (all : list Event) (log : nat -> L)
  (Hpages : forall i n, (n < limN)%nat -> lg_Query (qf_page f MaxQueryLimit (Z.of_nat n)) (log i) = Ok (take 1000 (drop n all))).
Context (flusher : bool) (cancelled : nat -> bool) (Hnc : forall i, cancelled i = false).

Definition exported (n : nat) : string :=
  ops_bytes (mjoin (map exportLine (take (limN - n) (drop n all)))) ++ (if (limN <=? length all)%nat then ops_bytes truncatedLine else "").

Lemma exportLoop_spec fuel : forall page n, (n <= length all)%nat -> (n < limN)%nat -> (limN - n <= fuel)%nat ->
  ops_bytes (exportLoop fuel page flusher cancelled (qf_page f MaxQueryLimit (Z.of_nat n)) (Z.of_nat n) log) = exported n.
Proof.
  unfold exported. induction fuel as [|fuel IH]; intros page n Hn Hlt Hf; [lia|].
  pose proof (Hpages page n Hlt) as Hq.
  remember (take 1000 (drop n all)) as page' eqn:Epage.
  assert (Hpl : length page' = Nat.min 1000 (length all - n)) by (by rewrite Epage, length_take, length_drop).
  assert (Hmark : (length all < limN)%nat -> (if (limN <=? length all)%nat then ops_bytes truncatedLine else "") = "")
    by (intros Hx; destruct (limN <=? length all)%nat eqn:El; [apply Nat.leb_le in El; lia|done]).
  destruct (decide (page' = [])) as [Ep|Ep].
  { rewrite Ep in Hpl. cbn [length] in Hpl. rewrite drop_ge, take_nil, Hmark by lia. cbn [exportLoop]. rewrite Hnc, Hq, Ep.
    by destruct (negb _). }
  destruct (decide (n + length page' < limN)%nat) as [Hd|Hd].
  - rewrite (exportLoop_step f fuel page n flusher cancelled log page') by done.
    assert (Hp' : page' = take (length page') (drop n all)).
    { rewrite Epage at 1. rewrite Hpl. destruct (decide (1000 <= length all - n)%nat); [by rewrite Nat.min_l|].
      rewrite Nat.min_r by lia. rewrite !take_ge by (rewrite length_drop; lia). done. }
    assert (Hsplit : take (limN - n) (drop n all) = (page' ++ take (limN - (n + length page')) (drop (n + length page') all))%list).
    { rewrite Hp' at 1. rewrite <- drop_drop. replace (limN - n)%nat with (length page' + (limN - (n + length page')))%nat at 1 by lia.
      symmetry. apply take_take_drop. }
    rewrite Hsplit, map_app, join_app, ops_bytes_app, <- sapp_assoc. f_equal.
    destruct (_ <? _) eqn:E2; bools; unfold MaxQueryLimit in E2; [|by rewrite IH by lia].
    rewrite drop_ge, take_nil, Hmark by lia. done.
  - cbn [exportLoop]. destruct (Z.of_nat n <? auditExportLimit) eqn:E; bools; [|lia]. cbn [negb]. rewrite Hnc, Hq.
    destruct page' as [|e es]; [done|]. rewrite exportPage_spec, decide_False by done. rewrite ops_bytes_app, Epage, take_take, Nat.min_l by lia.
    f_equal. destruct (limN <=? length all)%nat eqn:El; [done|apply Nat.leb_gt in El; lia].
Qed.
End ExportLoop.

(** ** Theorems *)

Lemma exportFilter_page now r : exportFilter now r = qf_page (exportFilter now r) MaxQueryLimit 0.
Proof. unfold exportFilter. by destruct (_ || _). Qed.

Lemma header_bytes (h t : list wop) : ops_bytes h = "" -> ops_bytes (h ++ t)%list = ops_bytes t.
Proof. intros Hh. by rewrite ops_bytes_app, Hh. Qed.

(** The text of an exported list: the events that can be encoded, one per line. *)
Definition ndjson (evs : list Event) : string := sconcat (map (fun ev => match jsonEvent ev with Some j => Encode j | None => "" end) evs).
Lemma ndjson_lines evs : ops_bytes (mjoin (map exportLine evs)) = ndjson evs.
Proof.
  unfold ndjson. induction evs as [|ev evs IH]; [done|].
  change (mjoin (map exportLine (ev :: evs))) with (exportLine ev ++ mjoin (map exportLine evs))%list. cbn [map sconcat].
  rewrite ops_bytes_app, IH. f_equal. unfold exportLine.
  destruct (jsonEvent ev); cbn; by rewrite ?sapp_nil_r.
Qed.

(** The body of an export whose pages are windows of one list. *)
Lemma export_body {L} `{!Logger L} flusher env r (log : nat -> L) all :
  (forall i, env_cancelled env i = false) ->
  (forall i n, Z.of_nat n < 100000 ->
     lg_Query (qf_page (exportFilter (env_start env) r) MaxQueryLimit (Z.of_nat n)) (log i) = Ok (take 1000 (drop n all))) ->
  ops_bytes (auditExportNDJSON flusher env r log) =
    ndjson (take (Z.to_nat 100000) all) ++
    (if 100000 <=? Z.of_nat (length all) then Encode (JObj [("_export_truncated", JBool true); ("_limit", JInt 100000)]) else "").
Proof.
  intros Hnc Hpages. unfold auditExportNDJSON. rewrite header_bytes by done. rewrite (exportFilter_page (env_start env) r).
  assert (Hfuel : Z.of_nat exportFuel = auditExportLimit) by (unfold exportFuel, auditExportLimit; lia).
  generalize dependent exportFuel. intros N Hfuel. assert (HN : N = Z.to_nat 100000) by (unfold auditExportLimit in Hfuel; lia).
  change 0 with (Z.of_nat 0). rewrite (exportLoop_spec N Hfuel (exportFilter (env_start env) r) all log); [|intros i n Hn; apply Hpages; lia|done|lia|lia|lia].
  assert (Hcut : (N <=? length all)%nat = (100000 <=? Z.of_nat (length all))).
  { unfold auditExportLimit in Hfuel. rewrite <- Hfuel. destruct (Nat.leb_spec N (length all)); symmetry; [apply Z.leb_le|apply Z.leb_gt]; lia. }
  assert (Hline : ops_bytes truncatedLine = Encode (JObj [("_export_truncated", JBool true); ("_limit", JInt 100000)])) by (vm_compute; reflexivity).
  unfold exported. by rewrite Nat.sub_0_r, drop_0, ndjson_lines, Hcut, Hline, HN.
Qed.

(** An event logged late disturbs the export.  Events carry the start time of their request and
    are logged at its end; when one that started before the export is logged after the first page
    and is newer than the rest, the last event of the first page is exported a second time. *)
Theorem export_late_event_repeats `{UnicodeTables} `{SortSlice} (flusher : bool) (env : Env) (r : Request) (base : list Event) (late : Event)
  (Hnc : forall i, env_cancelled env i = false)
  (Hids : NoDup (map ev_ID (base ++ [late]))) (Hlate : matchesFilter late (exportFilter (env_start env) r) = true)
  (Hnewest : Forall (fun ev => ev_Timestamp ev < ev_Timestamp late) base) :
  let all := matchAll (mkMemoryLogger base) (exportFilter (env_start env) r) in
  (1000 <= length all < 1999)%nat ->
  ops_bytes (auditExportNDJSON flusher env r (fun i => mkMemoryLogger (if (i =? 0)%nat then base else base ++ [late]))) =
    ndjson (take 1000 all) ++ ndjson (drop 999 all).
Proof.
  intros all Hlen. unfold auditExportNDJSON. rewrite header_bytes by done.
  pose proof (exportFilter_page (env_start env) r) as Hpage. set (f := exportFilter (env_start env) r) in *.
  assert (Hall : matchAll (mkMemoryLogger (base ++ [late])) f = late :: all).
  { apply ordered_unique; [..|].
    - unfold matchAll. intros x y Hx Hy. rewrite sort_slice_perm, list_elem_of_filter in Hx, Hy.
      apply (NoDup_map_inj ev_ID _ x y Hids); tauto.
    - apply sort_slice_sorted, _.
    - constructor; [apply sort_slice_sorted, _|]. unfold all, matchAll. apply Forall_forall. intros ev Hev.
      rewrite sort_slice_perm, list_elem_of_filter in Hev. destruct Hev as [_ Hev]. rewrite Forall_forall in Hnewest. specialize (Hnewest ev Hev).
      unfold event_less. repeat case_if; bools; lia.
    - unfold all, matchAll. cbn [ml_events]. rewrite !sort_slice_perm, filter_app, (filter_cons_True _ late) by done.
      by rewrite filter_nil, Permutation_app_comm. }
  assert (Hq : forall m off, (0 <= off) -> lg_Query (qf_page f MaxQueryLimit off) m = Ok (take 1000 (drop (Z.to_nat off) (matchAll m f))))
    by (intros m off Ho; exact (query_page f MaxQueryLimit off m ltac:(unfold MaxQueryLimit; lia) Ho)).
  assert (Hlim : (2000 <= exportFuel)%nat) by (unfold exportFuel, auditExportLimit; lia).
  assert (Hk : exists k, exportFuel = S (S k)) by (exists (exportFuel - 2)%nat; lia). destruct Hk as [k Hk]. rewrite Hk, Hpage.
  change 0 with (Z.of_nat 0). rewrite (exportLoop_step exportFuel eq_refl f _ _ 0 _ _ _ (take 1000 all));
    [|lia|done|by rewrite Hq by lia|..]; rewrite ?length_take; [| |lia].
  2: { intros E. apply (f_equal length) in E. rewrite length_take in E. cbn [length] in E. lia. }
  replace (_ <? MaxQueryLimit) with false by (symmetry; apply Z.ltb_ge; unfold MaxQueryLimit; lia). rewrite Nat.min_l by lia.
  rewrite (exportLoop_step exportFuel eq_refl f _ _ 1000 _ _ _ (drop 999 all)); rewrite ?length_drop; [|lia|done| | |lia].
  - replace (_ <? MaxQueryLimit) with true by (symmetry; apply Z.ltb_lt; unfold MaxQueryLimit; lia). by rewrite !ndjson_lines, sapp_nil_r.
  - rewrite Hq by lia. cbn [Nat.eqb]. rewrite Hall. f_equal. rewrite Nat2Z.id. cbn [drop]. rewrite take_ge; [done|]. rewrite length_drop. lia.
  - intros E. apply (f_equal length) in E. rewrite length_drop in E. cbn [length] in E. lia.
Qed.

(** A tick of the live tail is complete.  When the events of its window have distinct timestamps
    and IDs and are at most 9990, the ten pages of a tick emit exactly the events with a timestamp
    after the last one seen and not after now, newest first, each once, and no other frame. *)
Theorem tick_complete `{UnicodeTables} {L : Type} `{!Logger L} `{!AuditReads L} (l : L) (lastSeen now : Time)
  (Hids : NoDup (map ev_ID (stored l))) (Hlast : 0 < lastSeen <= now)
  (Hts : NoDup (map ev_Timestamp (matching (tailFilter lastSeen now) l)))
  (Hsize : (length (matching (tailFilter lastSeen now) l) <= 999 * auditStreamMaxPagesPerTick)%nat) :
  exists evs, tick lastSeen now (fun _ => l) = map FEvent evs /\ NoDup evs /\ ordered event_less evs /\
    forall ev, ev ∈ evs <-> ev ∈ stored l /\ lastSeen < ev_Timestamp ev <= now.
Proof.
  exists (filter (isFresh lastSeen ∅) (matching (tailFilter lastSeen now) l)). split; [|split; [|split]].
  - apply pageLoop_complete; try done; lia.
  - apply NoDup_filter. eapply NoDup_fmap_1, tail_nodup, Hids.
  - pose proof (matching_sorted (tailFilter lastSeen now) l) as Hs. unfold ordered in *. revert Hs. generalize (matching (tailFilter lastSeen now) l).
    induction 1 as [|x k Hk IH Hx]; [constructor|]. rewrite filter_cons. case_decide; [|done]. constructor; [done|].
    apply Forall_forall. intros y [_ Hy]%list_elem_of_filter. rewrite Forall_forall in Hx. auto.
  - intros ev. rewrite list_elem_of_filter, tail_elem by lia. unfold isFresh. split; [intros [[? _] [? ?]]; split; [done|lia]|].
    intros [? ?]. split; [split; [lia|apply not_elem_of_empty]|split; [done|lia]].
Qed.

(** C31: the live tail never repeats an event.  Whatever the log gains between and during the ticks,
    if the clock does not run backwards and an event's timestamp does not change, no event ID is
    sent twice over the whole life of the stream, and none from before its start. *)
Theorem stream_no_duplicates `{UnicodeTables} {L : Type} `{!Logger L} `{!AuditReads L} (ts : string -> Time) (start : Time) (ws : list (wakeup L))
  (Hstart : 0 < start) (Hdated : datedBy ts ws) (Hclock : StronglySorted Z.le (start :: pollTimes ws)) :
  let evs := mjoin (map eventsOf (streamLoop start ws)) in
  NoDup (map ev_ID evs) /\ Forall (fun ev => start < ts (ev_ID ev)) evs.
Proof. by apply stream_events_dated. Qed.

(** ** Witnesses *)

#[local] Existing Instance ascii_tables.
#[local] Existing Instance merge_slice.

Definition tailLog : MemoryLogger :=
  mkMemoryLogger [sampleEvent "a" 10 "/v1/echo"; sampleEvent "b" 30 "/v1/fail"; sampleEvent "c" 20 "/v1/echo"; sampleEvent "d" 25 "/v1/echo"].
Definition sampleTimes (id : string) : Time :=
  if String.eqb id "a" then 10 else if String.eqb id "b" then 30 else if String.eqb id "c" then 20 else 25.
Definition samplePolls : list (wakeup MemoryLogger) := [Poll 22 (fun _ => tailLog); Heartbeat; Poll 30 (fun _ => tailLog); Poll 30 (fun _ => tailLog)].

Lemma tick_complete_witness : exists evs, tick 10 30 (fun _ => tailLog) = map FEvent evs /\
  evs = [sampleEvent "b" 30 "/v1/fail"; sampleEvent "d" 25 "/v1/echo"; sampleEvent "c" 20 "/v1/echo"].
Proof.
  destruct (tick_complete tailLog 10 30) as (evs & Ht & _); [apply (bool_decide_unpack _); by vm_compute|lia|apply (bool_decide_unpack _); by vm_compute|vm_compute; lia|].
  exists evs. split; [done|]. rewrite <- (eventsOf_events evs), <- Ht. by vm_compute.
Defined.

Lemma stream_no_duplicates_witness :
  map ev_ID (mjoin (map eventsOf (streamLoop 10 samplePolls))) = ["c"; "b"; "d"] /\
  NoDup (map ev_ID (mjoin (map eventsOf (streamLoop 10 samplePolls)))).
Proof.
  split; [by vm_compute|]. apply (stream_no_duplicates sampleTimes 10 samplePolls).
  - lia.
  - assert (Hs : forall ev, ev ∈ stored tailLog -> ev_Timestamp ev = sampleTimes (ev_ID ev)).
    { apply Forall_forall. repeat (apply Forall_cons; split; [by vm_compute|]). by apply Forall_nil. }
    unfold datedBy, samplePolls. repeat (apply Forall_cons; split; [by auto|]). by apply Forall_nil.
  - vm_compute. repeat constructor; done.
Defined.

Definition exportEnv (now : Time) : Env := mkEnv now now "req-1" "ev-1" (fun _ => false) 0 (0, 0) (fun s => [s]).
Definition exportRequest : Request := BrowserAuth.portalRequest "/api/v1/portal/audit/export.ndjson" "path=/v1/echo" [].
(** A thousand events, and one that arrives late. *)
Definition manyEvents : list Event := map (fun i => sampleEvent (Itoa (Z.of_nat i)) (Z.of_nat i) "/v1/echo") (seq 1 1000).
Lemma export_late_event_repeats_witness : exists body,
  ops_bytes (auditExportNDJSON true (exportEnv 5000) exportRequest
    (fun i => mkMemoryLogger (if (i =? 0)%nat then manyEvents else manyEvents ++ [sampleEvent "late" 4000 "/v1/echo"]))) =
  body ++ ndjson [sampleEvent "1" 1 "/v1/echo"] /\ body = ndjson (rev manyEvents).
Proof.
  assert (Hall : matchAll (mkMemoryLogger manyEvents) (exportFilter 5000 exportRequest) = rev manyEvents) by (by vm_compute).
  assert (Hd : drop 999 (rev manyEvents) = [sampleEvent "1" 1 "/v1/echo"]) by (by vm_compute).
  assert (Hlen : length (rev manyEvents) = 1000%nat) by (by vm_compute).
  exists (ndjson (rev manyEvents)). split; [|done].
  pose proof (export_late_event_repeats true (exportEnv 5000) exportRequest manyEvents (sampleEvent "late" 4000 "/v1/echo")) as H.
  cbv zeta in H. change (env_start (exportEnv 5000)) with 5000 in H. rewrite Hall in H. rewrite H; clear H Hall.
  - rewrite Hd, take_ge; [done|]. by rewrite Hlen.
  - done.
  - apply (bool_decide_unpack _). vm_compute. exact I.
  - by vm_compute.
  - apply (bool_decide_unpack _). vm_compute. exact I.
  - rewrite Hlen. lia.
Defined.
