(* ===== verification/Replay.v ===== *)
(** * Replay and Try-It ([pkg/httpsrv/portal_audit_replay.go], [portal_tryit.go])

    Two portal handlers build a request, from a captured event or from an operator's form, and run it
    through the mux against a buffering response writer.  The request carries the operator's identity
    in its context.  The dispatched request meets surroundings of its own: the class [Nested]. *)
From S2P Require Import Prelude GoStrings GoNum GoTime GoUrl Json JsonParse Http ServeMux Registry AuditEvent.
From S2P Require Import MemoryLog Inbound Middleware Config Server BrowserAuth GoUrlParse PortalApi.

Class Nested := { nestedEnv : Env -> Env }.

(** ** The buffering writer *)

Record capResponseWriter := mkCap {
  cw_headers : Header; cw_status : Z; cw_body : string; cw_maxBytes : Z; cw_truncated : bool; cw_wroteHdr : bool }.

Definition newCapResponseWriter (maxBytes : Z) : capResponseWriter := mkCap ∅ 200 "" maxBytes false false.

Definition cw_WriteHeader (status : Z) (c : capResponseWriter) : capResponseWriter :=
  if cw_wroteHdr c then c else mkCap (cw_headers c) status (cw_body c) (cw_maxBytes c) (cw_truncated c) true.
Definition cw_Write (p : string) (c : capResponseWriter) : Z * capResponseWriter :=
  let c := if cw_wroteHdr c then c else cw_WriteHeader 200 c in
  let remaining := cw_maxBytes c - len (cw_body c) in
  if remaining <=? 0 then (len p, mkCap (cw_headers c) (cw_status c) (cw_body c) (cw_maxBytes c) true (cw_wroteHdr c))
  else if remaining <? len p then
    (len p, mkCap (cw_headers c) (cw_status c) (cw_body c ++ stake (Z.to_nat remaining) p) (cw_maxBytes c) true (cw_wroteHdr c))
  else (len p, mkCap (cw_headers c) (cw_status c) (cw_body c ++ p) (cw_maxBytes c) (cw_truncated c) (cw_wroteHdr c)).

#[export] Instance cap_RW : ResponseWriter capResponseWriter := {|
  rw_Header := cw_headers;
  rw_setHeader h c := mkCap h (cw_status c) (cw_body c) (cw_maxBytes c) (cw_truncated c) (cw_wroteHdr c);
  rw_WriteHeader := cw_WriteHeader;
  rw_Write := cw_Write;
  rw_Flusher _ := false;
  rw_Flush c := c
|}.

(** ** Requests *)

Definition replayHeaderMarker : string := ReplayHeaderName.
Definition tryItHeaderMarker : string := "X-Plexara-Try-It".
Definition replayMaxBodyBytes : Z := Z.shiftl 1 20.
Definition tryItMaxBodyBytes : Z := Z.shiftl 1 20.

(** [url.Values.Encode]: sorted by key, the values of a key in order. *)
Definition Values_EncodeAll (m : Values) : string :=
  Join (mjoin (map (fun p => map (fun v => QueryEscape p.1 ++ "=" ++ QueryEscape v) p.2) (sorted_entries m))) "&".
(** [values.Add] for every value of the given entries. *)
Definition addValues (es : list (string * list string)) : Values :=
  foldl (fun m e => foldl (fun m v => Values_add m e.1 v) m e.2) ∅ es.

Definition withRawQuery (u : URL) (q : string) : URL :=
  mkURL (u_Scheme u) (u_Opaque u) (u_User u) (u_Host u) (u_Path u) (u_RawPath u) (u_OmitHost u) (u_ForceQuery u) q (u_Fragment u) (u_RawFragment u).

(** [portalIdentityToInbound]: who the dispatched request is from. *)
Definition portalIdentityToInbound (i : PortalIdentity) : Identity :=
  mkIdentity (pi_Subject i) (pi_Email i) (if String.eqb (pi_AuthType i) "" then "portal" else pi_AuthType i)
    (pi_APIKeyID i) [] (pi_Claims i).
Definition dispatchContext (c : Context) : Context :=
  match GetIdentity c with Some i => WithIdentity c (portalIdentityToInbound i) | None => c end.

Section Requests.
Context `{UnicodeTables} `{UrlHost} `{ErrorTexts}.

(** [http.NewRequestWithContext] for a server-side request: the method is a token ([GET] when
    empty), the URL parses, the headers start empty. *)
Definition NewRequestWithContext (c : Context) (method url body : string) : res string Request :=
  let method := if String.eqb method "" then "GET" else method in
  if negb (string_forallb tokenByte method) then Err ("net/http: invalid method " ++ Quote method)
  else match Parse url with
       | None => Err (urlErrorText url)
       | Some u => Ok (mkRequest method (u_Path u) (EscapedPath u) (u_RawQuery u) ∅ (u_Host u) false "" (Some body) ∅ [] c)
       end.

(** The credential headers and parameters whose captured value is the redaction marker. *)
Definition isRedactedCredentialHeader (name : string) : bool :=
  existsb (String.eqb (ToLower name)) ["authorization"; "x-api-key"; "cookie"].
Definition isRedactedCredentialQuery (name : string) : bool := EqualFold name "api_key".

(** The headers an operator may not set. *)
Definition disallowedTryItHeader (name : string) : bool :=
  existsb (String.eqb (ToLower name)) ["cookie"; "authorization"; "set-cookie"].

Definition addHeaders (h : Header) (es : list (string * list string)) : Header :=
  foldl (fun h e => foldl (fun h v => Header_Add h e.1 v) h e.2) h es.
End Requests.

(** ** Path parameters *)

(** A placeholder after its opening brace: its name and what follows the closing brace. *)
Fixpoint spanParam (s : string) : option (string * string) :=
  match s with
  | EmptyString => None
  | String c s' =>
    if Ascii.eqb c "}" then Some ("", s')
    else if Ascii.eqb c "/" then None
    else match spanParam s' with Some (n, rest) => Some (String c n, rest) | None => None end
  end.
Definition matchParam (s : string) : option (string * string) :=
  match spanParam s with Some (n, rest) => if String.eqb n "" then None else Some (n, rest) | None => None end.

(** [pathParamRe.ReplaceAllStringFunc], left to right; the result and the complaints.  [fuel] bounds
    the length of the text. *)
Fixpoint substitute_loop (fuel : nat) (params : gmap string string) (s : string) : string * list string :=
  match fuel, s with
  | S fuel', String c s1 =>
    match (if Ascii.eqb c "{" then matchParam s1 else None) with
    | Some (name, rest) =>
      let '(out, missing) := substitute_loop fuel' params rest in
      let v := default "" (params !! name) in
      if String.eqb v "" then (("{" ++ name ++ "}" ++ out)%string, name :: missing)
      else if Contains v "/" then (("{" ++ name ++ "}" ++ out)%string, (name ++ " (contains '/')")%string :: missing)
      else ((PathEscape v ++ out)%string, missing)
    | None => let '(out, missing) := substitute_loop fuel' params s1 in (String c out, missing)
    end
  | _, _ => (s, [])
  end.
Definition substitutePathParams (template : string) (params : gmap string string) : res string string :=
  let '(out, missing) := substitute_loop (String.length template) params template in
  match missing with [] => Ok out | _ => Err ("missing or invalid path params: " ++ Join missing ", ") end.

(** ** The form *)

Record TryItRequest := mkTryIt {
  ti_Method : string; ti_PathParams : gmap string string; ti_QueryParams : Values; ti_Headers : Values; ti_Body : string }.

Definition strElem (j : json) : option string := match j with JStr s => Some s | JNull => Some "" | _ => None end.
Definition strsElem (j : json) : option (list string) :=
  match j with JNull => Some [] | JArr l => mapM strElem l | _ => None end.
(** Decoding into a map field: [null] makes it nil, an object adds or replaces entries. *)
Definition mapFrom {A} (elem : json -> option A) (m0 : gmap string A) (j : json) : option (gmap string A) :=
  match j with
  | JNull => Some ∅
  | JObj fs => foldl (fun acc f => m ← acc; v ← elem f.2; Some (<[f.1 := v]> m)) (Some m0) fs
  | _ => None
  end.
Definition mapField `{UnicodeTables} {A} (elem : json -> option A) (name : string) (fs : list (string * json)) : option (gmap string A) :=
  foldl (fun acc j => m ← acc; mapFrom elem m j) (Some ∅) (jentries name fs).

Definition decodeTryIt `{UnicodeTables} (j : json) : option TryItRequest :=
  match j with
  | JNull => Some (mkTryIt "" ∅ ∅ ∅ "")
  | JObj fs =>
    method ← jstring "method" fs; params ← mapField strElem "path_params" fs; query ← mapField strsElem "query_params" fs;
    headers ← mapField strsElem "headers" fs; body ← jstring "body" fs;
    Some (mkTryIt method params query headers body)
  | _ => None
  end.

(** ** The replies *)

Definition json_replay (id : string) (rec : capResponseWriter) : json :=
  JObj [("body", JStr (cw_body rec)); ("body_truncated", JBool (cw_truncated rec));
        ("headers", json_of_map json_strings (cw_headers rec)); ("replayed_from", JStr id); ("status", JInt (cw_status rec))].
(** [TryItResponse]. *)
Definition json_tryIt (url method : string) (rec : capResponseWriter) : json :=
  JObj [("dispatched_to", JStr url); ("method", JStr method); ("status", JInt (cw_status rec));
        ("headers", json_of_map json_strings (cw_headers rec)); ("body", JStr (cw_body rec)); ("body_truncated", JBool (cw_truncated rec))].

(** ** The handlers *)

Section Handlers.
Context `{UnicodeTables} `{UrlHost} `{UUID} `{ErrorTexts} `{MapRange} `{Nested}.
Context {L : Type} `{!Logger L} `{!PortalStore L}.
Abbreviation State := (ServerState L).
Abbreviation Hnd := (Handler State).

(** Running a request through a handler against the buffering writer. *)
Definition dispatchTo (target : Hnd) (maxBytes : Z) (env : Env) (r : Request) (s : State) : State * capResponseWriter :=
  target capResponseWriter _ (nestedEnv env) r (s, newCapResponseWriter maxBytes).

(** [body[:maxBytes]] when the body is longer. *)
Definition limitBody (maxBytes : Z) (body : string) : string :=
  if maxBytes <? len body then stake (Z.to_nat maxBytes) body else body.

Definition setHeaderIf (b : bool) (h : Header) (k v : string) : Header := if b then Header_Set h k v else h.

(** The request a captured event and its payload are replayed as. *)
Definition replayRequest (c : Context) (id : string) (ev : Event) (p : Payload) : res (Z * string) Request :=
  match Parse (ev_Path ev) with
  | None => Err (500, "parse captured path: " ++ urlErrorText (ev_Path ev))
  | Some u =>
    let u := if bool_decide (RequestQuery p = ∅) then u
             else withRawQuery u (Values_EncodeAll (addValues (List.filter (fun e => negb (isRedactedCredentialQuery e.1)) (range (RequestQuery p))))) in
    match NewRequestWithContext (dispatchContext c) (ev_Method ev) (URL_String u) (limitBody replayMaxBodyBytes (RequestBody p)) with
    | Err e => Err (500, "construct replay request: " ++ e)
    | Ok req =>
      let hs := range (RequestHeaders p) in
      if existsb (fun e => EqualFold e.1 replayHeaderMarker) hs then
        Err (400, "captured request already carries the replay marker — refusing to replay a replay")
      else
        let h := addHeaders ∅ (List.filter (fun e => negb (isRedactedCredentialHeader e.1)) hs) in
        let h := Header_Set h replayHeaderMarker id in
        let h := setHeaderIf (negb (String.eqb (RequestContentType p) "") && String.eqb (Header_Get h "Content-Type") "") h
                   "Content-Type" (RequestContentType p) in
        Ok (WithHeader req h)
    end
  end.

Definition auditReplay (p : PortalAPI State) : Hnd := fun W RW env r sw =>
  let reply (s : State) (ops : list wop) := (s, exec ops sw.2) in
  let fail (code : Z) (msg : string) := reply sw.1 (writeError code msg) in
  match pa_replayTarget p with
  | None => fail 503 "replay disabled: composition did not supply a target handler"
  | Some target =>
    match uuid_Parse (PathValue r "id") with
    | None => fail 400 "event id is not a valid uuid"
    | Some id =>
      match lg_Query (byID id) (sv_audit sw.1) with
      | Err e => fail 500 e
      | Ok [] => fail 404 ("event " ++ Quote id ++ " not found")
      | Ok (ev :: _) =>
        if negb (HasPrefix (ev_Path ev) "/v1/") then
          fail 400 ("path " ++ Quote (ev_Path ev) ++ " is not replay-eligible (only /v1/* routes can be replayed)")
        else
          match ps_payloads with
          | None => fail 503 "audit logger does not persist payloads — replay requires PayloadLogger"
          | Some pl =>
            match @lg_GetPayload L pl id (sv_audit sw.1) with
            | Err e => fail 500 ("fetch payload for event " ++ Quote id ++ ": " ++ e)
            | Ok None => fail 404 ("payload for event " ++ Quote id ++
                " not captured (audit.capture_payloads must be enabled when the event was recorded)")
            | Ok (Some payload) =>
              match replayRequest (r_Context r) id ev payload with
              | Err (code, msg) => fail code msg
              | Ok req =>
                let '(s, rec) := dispatchTo target replayMaxBodyBytes env req sw.1 in
                reply s (writeJSON 200 (json_replay id rec))
              end
            end
          end
      end
    end
  end.

Definition findRoute (p : PortalAPI State) (group routeName : string) : option EndpointMeta :=
  List.find (fun m => String.eqb (m_Group m) group && String.eqb (m_Name m) routeName) (All (pa_registry p)).

(** [r.ContentLength] of a body that came with its length. *)
Definition ContentLength (r : Request) : Z := len (default "" (r_Body r)).

(** The form, or the message of the decoding error. *)
Definition readTryIt (r : Request) : res string TryItRequest :=
  if (0 <? ContentLength r) || negb (String.eqb (h_Get r "Content-Type") "") then
    match decodeLimited tryItMaxBodyBytes r ≫= decodeTryIt with
    | Some f => Ok f
    | None => Err ("decode request body: " ++ decodeErrorText (default "" (r_Body r)))
    end
  else Ok (mkTryIt "" ∅ ∅ ∅ "").

(** The request a form is dispatched as, with its method and URL. *)
Definition tryItRequest (c : Context) (meta : EndpointMeta) (f : TryItRequest) : res (Z * string) (string * string * Request) :=
  let method := if String.eqb (ti_Method f) "" then m_Method meta else ti_Method f in
  match substitutePathParams (m_Path meta) (ti_PathParams f) with
  | Err e => Err (400, e)
  | Ok path =>
    match Parse path with
    | None => Err (500, "parse path: " ++ urlErrorText path)
    | Some u =>
      let u := if bool_decide (ti_QueryParams f = ∅) then u else withRawQuery u (Values_EncodeAll (addValues (range (ti_QueryParams f)))) in
      match NewRequestWithContext (dispatchContext c) method (URL_String u) (limitBody tryItMaxBodyBytes (ti_Body f)) with
      | Err e => Err (400, "construct request: " ++ e)
      | Ok req =>
        let h := addHeaders ∅ (List.filter (fun e => negb (disallowedTryItHeader e.1)) (range (ti_Headers f))) in
        Ok (method, URL_String u, WithHeader req (Header_Set h tryItHeaderMarker "true"))
      end
    end
  end.

Definition tryIt (p : PortalAPI State) : Hnd := fun W RW env r sw =>
  let reply (s : State) (ops : list wop) := (s, exec ops sw.2) in
  let fail (code : Z) (msg : string) := reply sw.1 (writeError code msg) in
  match pa_replayTarget p with
  | None => fail 503 "try-it disabled: composition did not supply a dispatch target"
  | Some target =>
    let group := PathValue r "group" in
    let routeName := PathValue r "route" in
    match findRoute p group routeName with
    | None => fail 404 ("endpoint " ++ group ++ "/" ++ routeName ++ " not registered")
    | Some meta =>
      match readTryIt r with
      | Err e => fail 400 e
      | Ok f =>
        match tryItRequest (r_Context r) meta f with
        | Err (code, msg) => fail code msg
        | Ok (method, url, req) =>
          let '(s, rec) := dispatchTo target tryItMaxBodyBytes env req sw.1 in
          reply s (writeJSON 200 (json_tryIt url method rec))
        end
      end
    end
  end.
End Handlers.
