(* ===== verification/PortalServer.v ===== *)
(** * The portal on the mux ([PortalAPI.Mount], [internal/server/server.go])

    The routes of the portal API with their authentication and CSRF guards, and the mux that holds
    them next to the endpoints.  That mux is also what replay and Try-It dispatch into, so the table
    refers to itself: it is built from a dispatch target, and the target of the running server is
    the mux built from itself.  No dispatched request comes back to the portal, so two levels are
    enough, whatever stands below them. *)
From S2P Require Import Pagination DataEndpoints FailureEndpoints InspectEndpoints SecurityEndpoints.
From S2P Require Import StreamEndpoints ExportEndpoints.
From S2P Require Import Prelude GoStrings GoNum GoTime GoUrl Json JsonParse Http ServeMux Registry AuditEvent MemoryLog Inbound.
From S2P Require Import Middleware Config Session Server Routing BrowserAuth Sql ApiKeys GoUrlParse PortalApi.
From S2P Require Import Aggregations AuditStream Replay.

(** What the long-running readers of a request see: why the live tail's select wakes up, and the log
    at the i-th query of an export. *)
Class Observed (L : Type) := { ob_wakeups : Env -> list (wakeup L); ob_log : Env -> L -> nat -> L }.

Section Portal.
Context `{UnicodeTables} `{JsonAny} `{Float64} `{UrlHost} `{SliceJSON} `{UUID} `{ErrorTexts} `{Postgres} `{Bcrypt}.
Context `{FloatEnv} `{MapRange} `{SortSlice} `{Nested}.
Context {L : Type} `{!Logger L} `{!PortalStore L} `{!Observed L}.
Abbreviation State := (ServerState L).
Abbreviation Hnd := (Handler State).

(** The live tail asks its writer for [http.Flusher]. *)
Definition streamHandler : Hnd := fun W RW env r sw =>
  (sw.1, exec (auditStream (rw_Flusher sw.2) (env_start env) (ob_wakeups env)) sw.2).
Definition exportHandler : Hnd := fun W RW env r sw =>
  (sw.1, exec (auditExportNDJSON (rw_Flusher sw.2) env r (ob_log env (sv_audit sw.1))) sw.2).

(** [Mount], for an API whose replay target is set. *)
Definition PortalAPI_Mount (b : BuildInfo) (p : PortalAPI State) (mw : Hnd -> Hnd) : list (string * Hnd) :=
  let wrap (h : Hnd) := mw (requireCSRFHeader h) in
  [("GET /api/v1/portal/me", mw (byRequest me));
   ("GET /api/v1/portal/server", mw (respond (server b p)));
   ("GET /api/v1/portal/wellknown", mw (respond (wellknown p)));
   ("GET /api/v1/portal/dashboard", mw (reads (fun env _ l => dashboard (env_start env) l)));
   ("GET /api/v1/portal/endpoints", mw (respond (endpoints p)));
   ("GET /api/v1/portal/endpoints/{name}", mw (byRequest (endpointDetail p)));
   ("GET /api/v1/portal/audit/meta", mw (respond (auditMeta p)));
   ("GET /api/v1/portal/audit/events", mw (reads (fun _ r l => auditEvents r l)));
   ("GET /api/v1/portal/audit/events/{id}", mw (reads (fun _ r l => auditEventDetail r l)));
   ("GET /api/v1/portal/audit/timeseries", mw (reads (fun env r l => auditTimeseries (env_start env) r l)));
   ("GET /api/v1/portal/audit/breakdown", mw (reads (fun env r l => auditBreakdown (env_start env) r l)));
   ("GET /api/v1/portal/audit/stats", mw (reads (fun env r l => auditStats (env_start env) r l)));
   ("GET /api/v1/portal/audit/stream", mw streamHandler);
   ("GET /api/v1/portal/audit/export.ndjson", mw exportHandler);
   ("POST /api/v1/portal/audit/replay/{id}", wrap (auditReplay p));
   ("POST /api/v1/portal/tryit/{group}/{route}", wrap (tryIt p));
   ("GET /api/v1/admin/keys", mw (reads (fun env _ l => listKeys p env l)));
   ("POST /api/v1/admin/keys", wrap (updates (createKey p)));
   ("DELETE /api/v1/admin/keys/{name}", wrap (updates (deleteKey p)))].

(** The parts of [PortalDeps] that do not depend on the mux. *)
Record PortalParts := mkPortalParts {
  pp_build : BuildInfo; pp_SPA : option SpaFS; pp_BrowserAuth : option BrowserAuth.BrowserAuth;
  pp_sessions : SessionStore; pp_chain : Chain; pp_keys : bool }.

Context `{Outside}.

(** The portal over a dispatch target. *)
Definition portalOver (cfg : Config) (pp : PortalParts) (target : Hnd) : PortalDeps (L := L) :=
  mkPortalDeps cfg (pp_SPA pp) (BrowserAuth_Mount <$> pp_BrowserAuth pp)
    (PortalAPI_Mount (pp_build pp) (WithReplayTarget (NewPortalAPI cfg (buildRegistry cfg) (pp_keys pp)) target)
       (PortalAuth_Middleware (Some (pp_sessions pp)) (Some (pp_chain pp)))).

(** The mux with the portal on it, dispatching into a target. *)
Definition muxOver (cfg : Config) (pp : PortalParts) (mw : EHandler -> Hnd) (oapi : option (string * string)) (target : Hnd) : Hnd :=
  ServeMux_ServeHTTP (muxRoutes (buildRegistry cfg) mw (Some (portalOver cfg pp target)) oapi).

(** The mux of the server, dispatching into itself. *)
Definition serverMux (cfg : Config) (pp : PortalParts) (mw : EHandler -> Hnd) (oapi : option (string * string)) : Hnd :=
  muxOver cfg pp mw oapi (muxOver cfg pp mw oapi (respond [])).

(** The handler [Build] installs when the portal is enabled. *)
Definition portalApplication (cfg : Config) (pp : PortalParts) (oapi : option (string * string)) : Hnd :=
  let mw := endpointMW (pp_chain pp) (buildRegistry cfg) (auditOptions cfg) in
  Application_mux cfg (pp_chain pp) (Some (portalOver cfg pp (muxOver cfg pp mw oapi (respond [])))) oapi.
End Portal.
