(* ===== verification/Dispatch.v ===== *)
(** * What the portal dispatches

    Replay and Try-It run a request of their own through the mux that serves them.  Whatever is
    captured or typed in, that request stays under [/v1/], so it never comes back to the portal: the
    self-referring mux is well defined and the nesting stops after one level. *)
From S2P Require Import Pagination DataEndpoints FailureEndpoints InspectEndpoints SecurityEndpoints.
From S2P Require Import StreamEndpoints ExportEndpoints.
From S2P Require Import Prelude GoStrings GoNum GoTime GoUrl Json JsonParse Http ServeMux Registry AuditEvent MemoryLog Inbound.
From S2P Require Import Middleware Config Session Server Routing BrowserAuth Sql ApiKeys GoUrlParse PortalApi.
From S2P Require Import Aggregations AuditStream Replay PortalServer Handlers EndToEnd.

(** ** URLs under [/v1/] *)

Definition underV1 (s : string) : Prop := exists t, s = "/v1/" ++ t.

Lemma underV1_HasPrefix s : HasPrefix s "/v1/" = true -> underV1 s.
Proof. intros Hs. apply HasPrefix_spec in Hs as [t ->]. by exists t. Qed.

(** What [url.Parse] makes of a rooted path: no scheme, no host, the same beginning. *)
Record v1URL (u : URL) : Prop := {
  v1_plain : u_Scheme u = "" /\ u_Opaque u = "" /\ u_User u = None /\ u_Host u = "";
  v1_path : underV1 (u_Path u);
  v1_raw : u_RawPath u = "" \/ underV1 (u_RawPath u) }.

Lemma unescape_v1 s p : underV1 s -> unescape s = Some p -> underV1 p.
Proof.
  intros [t ->]. cbn. destruct (unescape t) as [q|]; [|done]. intros [= <-]. by exists q.
Qed.
Lemma escape_v1 s : underV1 s -> underV1 (escape encodePath s).
Proof. intros [t ->]. by exists (escape encodePath t). Qed.
Lemma Cut_v1 s c : underV1 s -> ContainsByte "/v1/" c = false -> underV1 (Cut s c).1.1.
Proof. intros [t ->] Hc. rewrite Cut_app by done. by eexists. Qed.
Lemma splitQuery_v1 s : underV1 s -> underV1 (splitQuery s).1.2.
Proof. intros [t ->]. rewrite splitQuery_app by done. by eexists. Qed.

Section Urls.
Context `{UnicodeTables} `{UrlHost} `{ErrorTexts}.

Lemma setPath_v1 s p raw : underV1 s -> setPath s = Some (p, raw) -> underV1 p /\ (raw = "" \/ underV1 raw).
Proof.
  intros Hs. unfold setPath. destruct (unescape s) as [q|] eqn:E; [|done]. cbn. intros [= <- <-].
  split; [by eapply unescape_v1|]. destruct (String.eqb s _); auto.
Qed.

Lemma parseNoFragment_v1 s u : underV1 s -> parseNoFragment s = Some u -> v1URL u.
Proof.
  intros Hs. unfold parseNoFragment. destruct (noCTL s); [|done]. cbn [negb].
  assert (String.eqb s "*" = false) as -> by (by destruct Hs as [t ->]).
  assert (getScheme s = Some ("", s)) as -> by (by destruct Hs as [t ->]). cbn [mbind option_bind].
  pose proof (splitQuery_v1 s Hs) as Hr. destruct (splitQuery s) as [[force rest] query]. cbn [fst snd] in Hr.
  assert (HasPrefix rest "/" = true /\ HasPrefix rest "//" = false) as [-> ->] by (by destruct Hr as [t ->]).
  cbn [negb andb]. destruct (setPath rest) as [[path raw]|] eqn:E; [|done]. cbn. intros [= <-].
  apply setPath_v1 in E as [Hp Hraw]; [|done]. by constructor.
Qed.

Lemma Parse_v1 s u : underV1 s -> Parse s = Some u -> v1URL u.
Proof.
  intros Hs. unfold Parse. pose proof (Cut_v1 s "#" Hs eq_refl) as Hc. destruct (Cut s "#") as [[a frag] found].
  destruct (parseNoFragment a) as [v|] eqn:E; [|done]. apply parseNoFragment_v1 in E as [Hp1 Hp2 Hp3]; [|done]. cbn.
  destruct (String.eqb frag ""); [intros [= <-]; by constructor|].
  destruct (unescape frag) as [f|]; [|done]. intros [= <-]. by constructor.
Qed.

Lemma EscapedPath_v1 u : v1URL u -> underV1 (EscapedPath u).
Proof.
  intros [_ Hp Hr]. unfold EscapedPath. destruct (_ && _) eqn:E.
  - destruct Hr as [Hr|Hr]; [by rewrite Hr in E|done].
  - assert (String.eqb (u_Path u) "*" = false) as -> by (by destruct Hp as [t ->]). by apply escape_v1.
Qed.

Lemma URL_String_v1 u : v1URL u -> underV1 (URL_String u).
Proof.
  intros Hu. pose proof (EscapedPath_v1 u Hu) as [e He]. destruct Hu as [(H1' & H2' & H3' & H4') _ _].
  unfold URL_String. rewrite H1', H2', H3', H4', He. cbn -[append]. rewrite <- !sapp_assoc. by eexists.
Qed.

Lemma withRawQuery_v1 u q : v1URL u -> v1URL (withRawQuery u q).
Proof. intros [? ? ?]. by constructor. Qed.

Lemma NewRequest_v1 c m url body req : underV1 url -> NewRequestWithContext c m url body = Ok req -> underV1 (r_EscapedPath req).
Proof.
  intros Hu. unfold NewRequestWithContext. destruct (negb _); [done|].
  destruct (Parse url) as [u|] eqn:E; [|done]. intros [= <-]. by eapply EscapedPath_v1, Parse_v1.
Qed.
End Urls.

(** *** The dispatched requests *)

Section Requests.
Context `{UnicodeTables} `{UrlHost} `{ErrorTexts} `{MapRange}.

Lemma replayRequest_v1 c id ev p req : underV1 (ev_Path ev) -> replayRequest c id ev p = Ok req -> underV1 (r_EscapedPath req).
Proof.
  intros Hev. unfold replayRequest. destruct (Parse (ev_Path ev)) as [u|] eqn:E; [|done]. apply Parse_v1 in E; [|done].
  set (u' := if bool_decide _ then u else _). assert (Hu' : v1URL u') by (unfold u'; case_bool_decide; [done|by apply withRawQuery_v1]).
  destruct (NewRequestWithContext _ _ _ _) as [rq|e] eqn:En; [|done].
  destruct (existsb _ _); [done|]. intros [= <-]. exact (NewRequest_v1 _ _ _ _ _ (URL_String_v1 _ Hu') En).
Qed.

Lemma substitute_v1 template params path : underV1 template -> substitutePathParams template params = Ok path -> underV1 path.
Proof.
  intros [t ->]. unfold substitutePathParams. cbn [String.append String.length substitute_loop Ascii.eqb Bool.eqb].
  destruct (substitute_loop _ _ t) as [out missing]. destruct missing; [|done]. intros [= <-]. by exists out.
Qed.

Lemma tryItRequest_v1 c meta f m url req :
  underV1 (m_Path meta) -> tryItRequest c meta f = Ok (m, url, req) -> underV1 (r_EscapedPath req).
Proof.
  intros Hm. unfold tryItRequest. destruct (substitutePathParams _ _) as [path|e] eqn:Es; [|done]. apply substitute_v1 in Es; [|done].
  destruct (Parse path) as [u|] eqn:E; [|done]. apply Parse_v1 in E; [|done].
  set (u' := if bool_decide _ then u else _). assert (Hu' : v1URL u') by (unfold u'; case_bool_decide; [done|by apply withRawQuery_v1]).
  destruct (NewRequestWithContext _ _ _ _) as [rq|e] eqn:En; [|done].
  intros [= <- <- <-]. exact (NewRequest_v1 _ _ _ _ _ (URL_String_v1 _ Hu') En).
Qed.
End Requests.

(** ** Tables that differ only in what they dispatch into *)

Section Tables.
Context {A : Type} (R : pattern -> A -> A -> Prop).

(** Outcomes that differ at most in related handlers. *)
Definition routedRel (x y : routed A) : Prop :=
  match x, y with
  | Found p b h, Found p' b' h' => p = p' /\ b = b' /\ R p h h'
  | Redirect t, Redirect t' => t = t'
  | MethodNotAllowed ms, MethodNotAllowed ms' => ms = ms'
  | NotFound, NotFound => True
  | _, _ => False
  end.
Definition entryRel (x y : pattern * A) : Prop := x.1 = y.1 /\ R x.1 x.2 y.2.
Definition candRel (x y : pattern * list (string * string) * A) : Prop := x.1 = y.1 /\ R x.1.1 x.2 y.2.

Lemma candidates_rel m1 m2 method x : Forall2 entryRel m1 m2 -> Forall2 candRel (candidates m1 method x) (candidates m2 method x).
Proof.
  induction 1 as [|[p h] [q k] m1 m2 [Hp Hh] Hm IH]; [constructor|]. cbn in Hp, Hh. subst q. unfold candidates in *. cbn.
  destruct (methodOK _ _); [|done]. destruct (matchPath p x); [|done]. by constructor.
Qed.

Lemma best_rel l1 l2 : Forall2 candRel l1 l2 ->
  match best l1, best l2 with Some c, Some d => candRel c d | None, None => True | _, _ => False end.
Proof.
  intros Hl. unfold best.
  assert (Hf : forall p : pattern, forallb (fun d => pat_le p d.1.1) l1 = forallb (fun d => pat_le p d.1.1) l2).
  { intros p. induction Hl as [|c d l1 l2 [Hc _] Hl IH]; [done|]. cbn. by rewrite Hc, IH. }
  set (f1 := fun c => forallb _ l1). set (f2 := fun c => forallb _ l2).
  assert (Hff : forall c d, candRel c d -> f1 c = f2 d) by (intros c d [Hcd _]; unfold f1, f2; by rewrite Hcd, Hf).
  clearbody f1 f2. clear Hf. induction Hl as [|c d l1 l2 Hcd Hl IH]; [done|]. cbn. rewrite (Hff c d Hcd).
  by destruct (f2 d).
Qed.

Lemma foundExact_rel l1 l2 x : Forall2 candRel l1 l2 -> foundExact (best l1) x = foundExact (best l2) x.
Proof.
  intros Hl. pose proof (best_rel _ _ Hl) as Hb. destruct (best l1) as [[[p b] h]|], (best l2) as [[[p' b'] h']|]; try done.
  destruct Hb as [Hb _]. cbn in Hb. by injection Hb as -> _.
Qed.

Lemma matchingMethods_rel m1 m2 x : Forall2 entryRel m1 m2 -> matchingMethods m1 x = matchingMethods m2 x.
Proof.
  intros Hm. unfold matchingMethods.
  assert (map (fun e => pt_method e.1) (List.filter (fun e => bool_decide (matchPath e.1 x <> None) ||
            bool_decide (matchPath e.1 (mkPath (p_segs x) true) <> None)) m1) =
          map (fun e => pt_method e.1) (List.filter (fun e => bool_decide (matchPath e.1 x <> None) ||
            bool_decide (matchPath e.1 (mkPath (p_segs x) true) <> None)) m2)) as ->; [|done].
  induction Hm as [|[p h] [q k] m1 m2 [Hp _] Hm IH]; [done|]. cbn in Hp. subst q. cbn.
  destruct (_ || _); cbn; by rewrite IH.
Qed.

Lemma dispatch_rel m1 m2 method epath : Forall2 entryRel m1 m2 -> routedRel (dispatch m1 method epath) (dispatch m2 method epath).
Proof.
  intros Hm. unfold dispatch. set (x := parsePath _). set (sx := mkPath _ true).
  rewrite (foundExact_rel _ _ x (candidates_rel _ _ method x Hm)), (foundExact_rel _ _ sx (candidates_rel _ _ method sx Hm)).
  destruct (_ && _); [done|]. destruct (negb _); [done|].
  pose proof (best_rel _ _ (candidates_rel _ _ method x Hm)) as Hb. rewrite (matchingMethods_rel _ _ x Hm).
  destruct (best (candidates m1 _ _)) as [[[p b] h]|], (best (candidates m2 _ _)) as [[[p' b'] h']|]; try done.
  - destruct Hb as [Hb Hr]. cbn in Hb, Hr. injection Hb as <- <-. by cbn.
  - by destruct (matchingMethods m2 x).
Qed.
End Tables.

Section Reentry.
Context `{UnicodeTables} `{JsonAny} `{Float64} `{UrlHost} `{SliceJSON} `{UUID} `{ErrorTexts} `{Postgres} `{Bcrypt}.
Context `{FloatEnv} `{MapRange} `{SortSlice} `{Nested}.
Context {L : Type} `{!Logger L} `{!PortalStore L} `{!Observed L}.
Context `{Outside}.
Abbreviation State := (ServerState L).
Abbreviation Hnd := (Handler State).

(** Handlers that do the same on every request; on every request under [/v1/]. *)
Definition sameHandler (h k : Hnd) : Prop := forall W RW env r sw, h W RW env r sw = k W RW env r sw.
Definition sameUnderV1 (h k : Hnd) : Prop :=
  forall W RW env r sw, underV1 (r_EscapedPath r) -> h W RW env r sw = k W RW env r sw.

#[local] Instance sameHandler_equiv : Equivalence sameHandler.
Proof.
  split; [done|by intros h k Hhk W RW env r sw|]. intros h k l H1' H2' W RW env r sw. by rewrite H1', H2'.
Qed.

Lemma registry_v1 cfg : Forall (fun m => underV1 (m_Path m)) (All (buildRegistry cfg)).
Proof.
  assert (Hall : Forall (fun m => HasPrefix (m_Path m) "/v1/" = true) (mjoin (map g_Routes (allGroups (au_RedactKeys (cf_Audit cfg)))))).
  { apply (bool_decide_unpack _). by vm_compute. }
  rewrite Forall_forall in *. intros m Hm. apply underV1_HasPrefix, Hall. eapply elem_of_submseteq; [exact Hm|].
  apply sublist_submseteq, sublist_mjoin, buildRegistry_groups.
Qed.

Section Server.
Variables (cfg : Config) (pp : PortalParts) (mw : EHandler -> Hnd) (oapi : option (string * string)).
Let api (t : Hnd) : PortalAPI State := WithReplayTarget (NewPortalAPI cfg (buildRegistry cfg) (pp_keys pp)) t.
Let amw : Hnd -> Hnd := PortalAuth_Middleware (Some (pp_sessions pp)) (Some (pp_chain pp)).
Let over (t : Hnd) : Hnd := muxOver cfg pp mw oapi t.

Lemma auditReplay_same t u : sameUnderV1 t u -> sameHandler (auditReplay (api t)) (auditReplay (api u)).
Proof.
  intros Htu W RW env r [s w]. unfold auditReplay, api, WithReplayTarget. cbn [pa_replayTarget fst snd].
  destruct (uuid_Parse _) as [id|]; [|done]. destruct (lg_Query _ _) as [[|ev evs]|]; [done| |done].
  destruct (HasPrefix (ev_Path ev) "/v1/") eqn:Ev; [|done]. cbn [negb].
  destruct ps_payloads as [pl|]; [|done]. destruct (lg_GetPayload _ _) as [[payload|]|]; [|done..].
  destruct (replayRequest _ _ _ _) as [req|[code msg]] eqn:Er; [|done].
  unfold dispatchTo. rewrite Htu; [done|]. eapply replayRequest_v1, Er. by apply underV1_HasPrefix.
Qed.

Lemma tryIt_same t u : sameUnderV1 t u -> sameHandler (tryIt (api t)) (tryIt (api u)).
Proof.
  intros Htu W RW env r [s w]. unfold tryIt, api, WithReplayTarget. cbn [pa_replayTarget fst snd].
  change (findRoute _ ?g ?n) with (findRoute (NewPortalAPI (S := State) cfg (buildRegistry cfg) (pp_keys pp)) g n).
  destruct (findRoute _ _ _) as [meta|] eqn:Ef; [|done]. apply find_some in Ef as [Hin _]. cbn in Hin.
  destruct (readTryIt r) as [f|]; [|done]. destruct (tryItRequest _ _ _) as [[[m url] req]|[code msg]] eqn:Et; [|done].
  unfold dispatchTo. rewrite Htu; [done|]. eapply tryItRequest_v1, Et.
  pose proof (registry_v1 cfg) as Hall. rewrite Forall_forall in Hall. by apply Hall.
Qed.

Lemma amw_same h k : sameHandler h k -> sameHandler (amw h) (amw k).
Proof. intros Hhk W RW env r sw. unfold amw, PortalAuth_Middleware. destruct (portalIdentity _ _ _ _); [apply Hhk|done]. Qed.
Lemma csrf_same h k : sameHandler h k -> sameHandler (requireCSRFHeader h) (requireCSRFHeader k).
Proof. intros Hhk W RW env r sw. unfold requireCSRFHeader. destruct (_ && _); [done|apply Hhk]. Qed.

(** The mux entries of two targets are related when those of the portal API are. *)
Lemma muxRoutes_rel (R : pattern -> Hnd -> Hnd -> Prop) t u :
  (forall p h, R p h h) ->
  Forall2 (entryRel R) (map handleFunc (PortalAPI_Mount (pp_build pp) (api t) amw))
                       (map handleFunc (PortalAPI_Mount (pp_build pp) (api u) amw)) ->
  Forall2 (entryRel R) (muxRoutes (buildRegistry cfg) mw (Some (portalOver cfg pp t)) oapi)
                       (muxRoutes (buildRegistry cfg) mw (Some (portalOver cfg pp u)) oapi).
Proof.
  intros Hrefl Hapi. assert (Hr : forall l, Forall2 (entryRel R) l l).
  { intros l. apply Forall_Forall2_diag, Forall_forall. by intros. }
  unfold muxRoutes, portalRoutes. cbn [pd_PortalAPI portalOver pd_Cfg pd_SPA pd_BrowserAuth]. rewrite !map_app.
  repeat first [exact Hapi | apply Hr | apply Forall2_app].
Qed.

(** Every pattern of the portal API starts with [/api]. *)
Definition startsApi (p : pattern) : bool := match pt_segs p with Lit a :: _ => String.eqb a "api" | _ => false end.
Lemma mount_patterns_api b p : Forall (fun t => startsApi (parsePattern t) = true) (map fst (PortalAPI_Mount b p amw)).
Proof. apply forallb_Forall. by vm_compute. Qed.

Lemma handleFunc_rel (R : pattern -> Hnd -> Hnd -> Prop) l1 l2 :
  map fst l1 = map fst l2 -> Forall (fun t => startsApi (parsePattern t) = true) (map fst l1) ->
  (forall p h k, startsApi p = true -> R p h k) -> Forall2 (entryRel R) (map handleFunc l1) (map handleFunc l2).
Proof.
  intros Hl Ha HR. revert l2 Hl. induction l1 as [|[t h] l1 IH]; intros [|[u k] l2] Hl; try done.
  cbn in *. injection Hl as <- Hl. apply Forall_cons in Ha as [Ha1 Ha]. constructor; [split; [done|by apply HR]|by apply IH].
Qed.

(** Under [/v1/] the mux does not look at its dispatch target. *)
Lemma over_underV1 t u : sameUnderV1 (over t) (over u).
Proof.
  intros W RW env r sw [x Hx]. unfold over, muxOver, ServeMux_ServeHTTP.
  set (R := fun (p : pattern) (h k : Hnd) => startsApi p = true \/ h = k).
  assert (Hm : Forall2 (entryRel R) (muxRoutes (buildRegistry cfg) mw (Some (portalOver cfg pp t)) oapi)
                                    (muxRoutes (buildRegistry cfg) mw (Some (portalOver cfg pp u)) oapi)).
  { apply muxRoutes_rel; [by right|]. apply handleFunc_rel; [done|apply mount_patterns_api|by left]. }
  pose proof (dispatch_rel R _ _ (r_Method r) (r_EscapedPath r) Hm) as Hd.
  destruct (dispatch (muxRoutes _ _ (Some (portalOver cfg pp t)) _) _ _) as [p b h| | |] eqn:E1,
    (dispatch (muxRoutes _ _ (Some (portalOver cfg pp u)) _) _ _) as [p' b' k| | |]; try done; cbn in Hd; [|by subst..].
  destruct Hd as (<- & <- & [Hps|<-]); [|done]. exfalso.
  apply dispatch_found in E1 as (_ & _ & _ & bs & Hb & _). rewrite Hx in Hb. revert Hb. unfold matchPath, parsePath, startsApi in *.
  destruct (pt_segs p) as [|[a|] ps]; try done. by apply String.eqb_eq in Hps as ->.
Qed.

(** The mux depends on its dispatch target only under [/v1/]. *)
Lemma over_same t u : sameUnderV1 t u -> sameHandler (over t) (over u).
Proof.
  intros Htu W RW env r sw. unfold over, muxOver, ServeMux_ServeHTTP.
  set (R := fun (p : pattern) (h k : Hnd) => sameHandler h k).
  assert (Hapi : Forall2 (entryRel R) (map handleFunc (PortalAPI_Mount (pp_build pp) (api t) amw))
                                      (map handleFunc (PortalAPI_Mount (pp_build pp) (api u) amw))).
  { unfold PortalAPI_Mount. cbn [map]. repeat (constructor; [split; [done|]|]); try done; cbn -[amw]; unfold R.
    - by apply amw_same, csrf_same, auditReplay_same.
    - by apply amw_same, csrf_same, tryIt_same. }
  pose proof (dispatch_rel R _ _ (r_Method r) (r_EscapedPath r) (muxRoutes_rel R t u ltac:(done) Hapi)) as Hd.
  destruct (dispatch _ _ _) as [p b h| | |], (dispatch _ _ _) as [p' b' k| | |]; try done; cbn in Hd; [|by subst..].
  destruct Hd as (_ & <- & Hhk). apply Hhk.
Qed.

(** C10: the self-dispatching mux is well defined.  Replay and Try-It run requests through the mux that
    serves them.  The mux that does so exists, is unique, and unfolding the dispatch more than once
    changes nothing, whatever handler stands at the bottom: a dispatched request never comes back to a
    portal handler, so the nesting of requests stops after one level. *)
Theorem dispatch_never_reenters :
  sameHandler (serverMux cfg pp mw oapi) (muxOver cfg pp mw oapi (serverMux cfg pp mw oapi)) /\
  forall d, sameHandler (muxOver cfg pp mw oapi (muxOver cfg pp mw oapi d)) (serverMux cfg pp mw oapi).
Proof.
  split; [|intros d]; apply over_same, over_underV1.
Qed.

(** ** What stands in front of the portal API *)

Definition readOnly (h : Hnd) : Prop := forall W RW env r sw, (h W RW env r sw).1 = sw.1.

(** A route of the portal API: behind the authentication, and either unable to change the state or a
    POST or DELETE behind the CSRF guard. *)
Definition guardedRoute (e : string * Hnd) : Prop :=
  exists k, e.2 = amw k /\
  (readOnly k \/ existsb (String.eqb (pt_method (parsePattern e.1))) ["POST"; "DELETE"] = true /\ exists k', k = requireCSRFHeader k').

Lemma mount_guarded t : Forall guardedRoute (PortalAPI_Mount (pp_build pp) (api t) amw).
Proof.
  unfold PortalAPI_Mount.
  repeat (constructor; [eexists; split; [reflexivity|first [right; split; [done|by eexists] | by left]]|]).
  constructor.
Qed.

(** A chain as the server builds it updates no key for a request that it does not identify. *)
Lemma unidentified_untouched env r : builtChain (pp_chain pp) ->
  portalIdentity (Some (pp_sessions pp)) (Some (pp_chain pp)) env r = None ->
  portalTouches (Some (pp_sessions pp)) (Some (pp_chain pp)) env r = [].
Proof.
  intros (anon & ak & v & tokens & Hc & Hs). unfold portalIdentity, portalTouches. destruct (_ ≫= _); [done|]. destruct (hasCredential r); [|done].
  destruct (Chain_touches (pp_chain pp) r) as [|x l] eqn:E; [done|]. rewrite Hc in E |- *.
  destruct (serverChain_touches anon ak v tokens r Hs) as [name ->]; [by rewrite E|done].
Qed.

(** A pattern that could match below [/api/]. *)
Definition mayApi (p : pattern) : bool := match pt_segs p with Lit a :: _ => String.eqb a "api" | _ => true end.

Lemma match_mayApi p rest bs : matchPath p (parsePath ("/api/" ++ rest)) = Some bs -> mayApi p = true.
Proof.
  unfold matchPath, mayApi, parsePath. destruct (pt_segs p) as [|[a|] ps]; [done| |done].
  change (segments ("/api/" ++ rest)) with ("api" :: segments rest). cbn [p_segs matchSegs].
  change (unescapeSegment "api") with "api". by destruct (String.eqb a "api").
Qed.

Lemma not_mayApi (l : list (string * Hnd)) p h :
  (p, h) ∈ map handleFunc l -> mayApi p = true -> forallb (fun t => negb (mayApi (parsePattern t))) (map fst l) = true -> False.
Proof.
  intros Hin Hp Hl. apply list_elem_of_fmap in Hin as ([t k] & [= -> ->] & Hin). rewrite forallb_forall in Hl.
  specialize (Hl t). rewrite <- list_elem_of_In in Hl. rewrite Hp in Hl. discriminate Hl.
  apply list_elem_of_fmap. by exists (t, k).
Qed.

(** Where a request under [/api/] can go: to the portal API, or to the handler of the root. *)
Lemma api_entries t p h bs rest :
  (p, h) ∈ muxRoutes (buildRegistry cfg) mw (Some (portalOver cfg pp t)) oapi ->
  matchPath p (parsePath ("/api/" ++ rest)) = Some bs ->
  (exists e, e ∈ PortalAPI_Mount (pp_build pp) (api t) amw /\ (p, h) = handleFunc e) \/
  p = mkPattern "GET" [] true /\ h = byRequest (rootHandler (buildRegistry cfg) true).
Proof.
  intros Hin Hm%match_mayApi. unfold muxRoutes, portalRoutes in Hin.
  cbn [pd_PortalAPI portalOver pd_Cfg pd_SPA pd_BrowserAuth] in Hin. rewrite !map_app, !elem_of_app in Hin.
  destruct Hin as [Hi|[Hi|[Hi|[[Hi|[Hi|[Hi|Hi]]]|Hi]]]].
  - by destruct (not_mayApi _ _ _ Hi Hm).
  - destruct (mounted_pattern_ok cfg mw p h Hi) as (Hv & _). unfold startsV1, mayApi in *.
    destruct (pt_segs p) as [|[a|] ps]; try done. apply String.eqb_eq in Hv as ->. done.
  - exfalso. destruct oapi; [by destruct (not_mayApi _ _ _ Hi Hm)|by apply elem_of_nil in Hi].
  - by destruct (not_mayApi _ _ _ Hi Hm).
  - exfalso. destruct (pp_BrowserAuth pp); [by destruct (not_mayApi _ _ _ Hi Hm)|by apply elem_of_nil in Hi].
  - left. by apply list_elem_of_fmap in Hi as (e & He & Hi); exists e.
  - by destruct (not_mayApi _ _ _ Hi Hm).
  - right. apply list_elem_of_singleton in Hi. by injection Hi as -> ->.
Qed.

(** What the mux does with a request under [/api/]: run a guarded route that its method admits, or
    answer by itself without looking at the state. *)
Lemma api_dispatch t r :
  HasPrefix (r_EscapedPath r) "/api/" = true ->
  (exists (e : string * Hnd) b, e ∈ PortalAPI_Mount (pp_build pp) (api t) amw /\ methodOK (pt_method (parsePattern e.1)) (r_Method r) = true /\
     forall W RW env sw, over t W RW env r sw = (e.2 : Hnd) W RW env (WithPathValues r b) sw) \/
  (exists ops, forall W RW env sw, over t W RW env r sw = (sw.1, exec ops sw.2)).
Proof.
  intros [rest Hr]%HasPrefix_spec. unfold over, muxOver, ServeMux_ServeHTTP.
  destruct (dispatch _ _ _) as [p b h|to|ms|] eqn:E; [|right; by eexists..].
  apply dispatch_found in E as (Hin & Hmo & _ & bs & Hm & _). rewrite Hr in Hm.
  apply (api_entries _ _ _ _ _ Hin) in Hm as [(e & He & [= -> ->])|[_ Hroot]].
  - left. by exists e, b.
  - right. exists (rootHandler (buildRegistry cfg) true (WithPathValues r b)). intros W RW env sw. by rewrite Hroot.
Qed.

(** *** The mux finds every route of the portal API *)

Definition disjoint (p q : pattern) : bool :=
  negb (segsOverlap (pt_segs p) (pt_segs q) (pt_multi p) (pt_multi q))
  || (negb (String.eqb (pt_method p) (pt_method q)) && existsb (String.eqb (pt_method p)) ["GET"; "POST"; "DELETE"]
      && existsb (String.eqb (pt_method q)) ["GET"; "POST"; "DELETE"]).

Lemma mount_disjoint b p : let ps := map (fun e => parsePattern e.1) (PortalAPI_Mount b p amw) in
  NoDup ps /\ Forall (fun p => pt_multi p = false /\ pt_method p <> "" /\ Forall (fun q => p = q \/ disjoint p q = true) ps) ps.
Proof. split; [apply (bool_decide_unpack _)|apply (bool_decide_unpack _)]; by vm_compute. Qed.

Lemma disjoint_matches p q m x b1 b2 : disjoint p q = true ->
  methodOK (pt_method p) m = true -> methodOK (pt_method q) m = true -> matchPath p x = Some b1 -> matchPath q x = Some b2 -> False.
Proof.
  unfold disjoint, methodOK, matchPath. intros Hd Hp Hq H1' H2'. rewrite (matchSegs_overlap _ _ _ _ _ _ _ _ H1' H2') in Hd.
  cbn [negb orb existsb] in Hd. rewrite !andb_true_iff, !orb_true_iff, negb_true_iff, String.eqb_neq, !String.eqb_eq in *.
  destruct Hd as [[Hne Hp'] Hq']. rewrite andb_true_iff, !String.eqb_eq in Hp, Hq.
  assert (Hpm : pt_method p = m \/ pt_method p = "GET" /\ m = "HEAD") by (destruct Hp as [[?|?]|?]; intuition congruence).
  assert (Hqm : pt_method q = m \/ pt_method q = "GET" /\ m = "HEAD") by (destruct Hq as [[?|?]|?]; intuition congruence).
  intuition congruence.
Qed.

(** A request that matches a route of the portal API goes to its handler. *)
Lemma portal_route_found t e m epath bs : e ∈ PortalAPI_Mount (pp_build pp) (api t) amw -> HasPrefix epath "/api/" = true ->
  isClean epath = true -> methodOK (pt_method (parsePattern e.1)) m = true ->
  matchPath (parsePattern e.1) (parsePath epath) = Some bs ->
  dispatch (muxRoutes (buildRegistry cfg) mw (Some (portalOver cfg pp t)) oapi) m epath =
  Found (parsePattern e.1) (list_to_map bs) e.2.
Proof.
  intros He [rest Hr]%HasPrefix_spec Hclean Hmo Hm. destruct (mount_disjoint (pp_build pp) (api t)) as [Hnd Hall].
  assert (Hin : forall e, e ∈ PortalAPI_Mount (pp_build pp) (api t) amw ->
     parsePattern e.1 ∈ map (fun e => parsePattern e.1) (PortalAPI_Mount (pp_build pp) (api t) amw))
    by (intros x Hx; by apply (list_elem_of_fmap_2 (fun e => parsePattern e.1))).
  rewrite Forall_forall in Hall. destruct (Hall _ (Hin e He)) as (Hmu & Hne & Hq). rewrite Forall_forall in Hq.
  apply dispatch_best; [done|done|]. apply best_spec; [|done|done|].
  { unfold muxRoutes, portalRoutes. cbn [pd_PortalAPI portalOver]. rewrite !map_app, !elem_of_app. right; right; right; left; right; right; left.
    by apply (list_elem_of_fmap_2 handleFunc). }
  intros q hq bq Hqin Hqm Hqb. pose proof Hqb as Hqb'. rewrite Hr in Hqb'.
  pose proof (api_entries _ _ _ _ _ Hqin Hqb') as [(d & Hd & Hdq)|[Hq0 Hh0]].
  - injection Hdq as -> ->. destruct (Hq _ (Hin d Hd)) as [Heq|Hdis]; [|by destruct (disjoint_matches _ _ _ _ _ _ Hdis Hmo Hqm Hm Hqb)].
    rewrite <- Heq. split; [apply pat_le_refl|]. intros _. split; [done|].
    apply (NoDup_fst_unique (map handleFunc (PortalAPI_Mount (pp_build pp) (api t) amw)) (parsePattern e.1)).
    + by rewrite map_map.
    + rewrite Heq. by apply (list_elem_of_fmap_2 handleFunc).
    + by apply (list_elem_of_fmap_2 handleFunc).
  - assert (Hs : pt_segs (parsePattern e.1) <> []).
    { pose proof (mount_patterns_api (pp_build pp) (api t)) as Ha. rewrite Forall_forall in Ha.
      specialize (Ha e.1 (list_elem_of_fmap_2 fst _ _ He)). unfold startsApi in Ha. by destruct (pt_segs _). }
    subst q. unfold pat_le. cbn [pt_method pt_segs pt_multi]. rewrite (methodOK_le _ "GET" m) by done.
    destruct (pt_segs (parsePattern e.1)) as [|sg sgs]; [done|]. cbn [segs_le].
    split; [by destruct sg|]. rewrite andb_false_r. by destruct sg.
Qed.

(** C3: the portal API is closed.  Let the credential chain be one that [Build] composes.  A request
    under [/api/] that carries no portal identity gets a reply that is the same whatever the server has
    logged or stored (401, or what the mux says about an unknown path) and changes nothing.  Any
    request under [/api/] leaves the state as it is, or it is by an identified user and either changes
    nothing but the time of last use of the API key it authenticates with, or is a POST or DELETE with an
    [X-Requested-With] header. *)
Theorem portal_surface_guarded (env : Env) (r : Request) (Hr : HasPrefix (r_EscapedPath r) "/api/" = true)
  (Hchain : builtChain (pp_chain pp)) :
  let who b := portalIdentity (Some (pp_sessions pp)) (Some (pp_chain pp)) env (WithPathValues r b) in
  let used b := portalTouches (Some (pp_sessions pp)) (Some (pp_chain pp)) env (WithPathValues r b) in
  ((forall b, who b = None) ->
   exists ops, forall W RW s w, serverMux cfg pp mw oapi W RW env r (s, w) = (s, exec ops w)) /\
  (forall W RW s w, let s' := (serverMux cfg pp mw oapi W RW env r (s, w)).1 in
   s' = s \/ exists b id, who b = Some id /\
     (s' = touchKeys (used b) s \/ (r_Method r = "POST" \/ r_Method r = "DELETE") /\ h_Get r "X-Requested-With" <> "")).
Proof.
  cbv zeta. unfold serverMux.
  destruct (api_dispatch (over (respond [])) r Hr) as [(e & b & He & Hmo & Ho)|[ops Ho]].
  - pose proof (mount_guarded (over (respond []))) as Hg. rewrite Forall_forall in Hg.
    destruct (Hg e He) as (k & Hk & Hcase). split.
    + intros Hnone. exists portalUnauthorized. intros W RW s w. fold over. rewrite Ho, Hk. unfold amw, PortalAuth_Middleware.
      cbn [fst snd]. rewrite unidentified_untouched, touchKeys_nil by done. by rewrite Hnone.
    + intros W RW s w. fold over. rewrite Ho, Hk. unfold amw, PortalAuth_Middleware. cbn [fst snd].
      destruct (portalIdentity _ _ _ _) as [id|] eqn:Eid; [|left; cbn [fst]; by rewrite unidentified_untouched, touchKeys_nil].
      right. exists b, id. split; [done|]. destruct Hcase as [Hro|[Hpost [k' ->]]]; [left; by rewrite Hro|].
      unfold requireCSRFHeader. cbn [r_Method WithContext WithPathValues].
      assert (Hm : r_Method r = "POST" \/ r_Method r = "DELETE").
      { unfold methodOK in Hmo. cbn [existsb] in Hpost. rewrite orb_false_r, orb_true_iff, !String.eqb_eq in Hpost.
        destruct Hpost as [Hp|Hp]; rewrite Hp, !orb_true_iff, andb_true_iff, !String.eqb_eq in Hmo;
          destruct Hmo as [[?|?]|[? _]]; [done|by left|done|done|by right|done]. }
      assert (stateChanging (r_Method r) = true) as -> by (by destruct Hm as [-> | ->]). cbn [andb].
      change (h_Get (WithContext _ _) "X-Requested-With") with (h_Get r "X-Requested-With").
      destruct (String.eqb_spec (h_Get r "X-Requested-With") ""); [by left|by right].
  - split.
    + intros _. exists ops. intros W RW s w. by rewrite Ho.
    + intros W RW s w. left. by rewrite Ho.
Qed.
End Server.

(** ** Portal requests through the whole server *)

(** A portal route whose handler only replies, as the client sees it. *)
Lemma portal_reply cfg pp oapi env r bs (e : string * Hnd) ops ids (s : State) :
  let mw := endpointMW (pp_chain pp) (buildRegistry cfg) (auditOptions cfg) in
  let p := WithReplayTarget (NewPortalAPI cfg (buildRegistry cfg) (pp_keys pp)) (muxOver cfg pp mw oapi (respond [])) in
  e ∈ PortalAPI_Mount (pp_build pp) p (PortalAuth_Middleware (Some (pp_sessions pp)) (Some (pp_chain pp))) ->
  HasPrefix (r_EscapedPath r) "/api/" = true -> isClean (r_EscapedPath r) = true -> r_Path r <> "/" -> r_Method r <> "OPTIONS" ->
  ctx_Identity (r_Context r) = None -> plainOps ops = true ->
  methodOK (pt_method (parsePattern e.1)) (r_Method r) = true ->
  matchPath (parsePattern e.1) (parsePath (r_EscapedPath r)) = Some bs ->
  (forall w : statusRecorder conn, e.2 _ _ env (routedRequest env r (list_to_map bs)) (setHolder None s, w) = (setHolder None (touchKeys ids s), exec ops w)) ->
  let out := portalApplication cfg pp oapi conn _ env r (s, newConn) in
  out.2 = exec ops (exec (outerOps (requestID env r)) newConn) /\ sv_audit out.1 = sv_audit s.
Proof.
  intros mw p He Hpre Hclean Hpath Hopt Hctx Hplain Hmo Hm Hrun.
  pose proof (portal_route_found cfg pp mw oapi _ e (r_Method r) (r_EscapedPath r) bs He Hpre Hclean Hmo Hm) as Hd.
  assert (Hmo' : String.eqb (r_Method r) "OPTIONS" = false) by (by apply String.eqb_neq).
  assert (Hpa : String.eqb (r_Path r) "/" = false) by (by apply String.eqb_neq).
  destruct (application_outer cfg (pp_chain pp) (Some (portalOver cfg pp (muxOver cfg pp mw oapi (respond [])))) oapi env r s ids ops)
    as (Hc & Ha & _); [done|done| |done].
  intros w. unfold BuildMux, CORS, BrowserRedirect, isBrowserRoot, ServeMux_ServeHTTP.
  cbn [r_Method r_Path r_EscapedPath WithContext fst snd]. rewrite Hmo', Hpa, orb_true_r, exec_app. fold mw. rewrite Hd.
  apply (Hrun (exec corsHeaders w)).
Qed.

(** C36: the live tail never streams.  Through the server that [Build] assembles, [GET
    /api/v1/portal/audit/stream] is answered 401 without an identity and 500 with one: the access log
    wraps every response in a recorder without a [Flush] method, and the handler refuses writers that
    cannot flush. *)
Theorem live_tail_unavailable (cfg : Config) (pp : PortalParts) (oapi : option (string * string)) (env : Env) (r : Request) (s : State)
  (Hm : r_Method r = "GET") (Hp : r_Path r = "/api/v1/portal/audit/stream") (Hep : r_EscapedPath r = "/api/v1/portal/audit/stream")
  (Hctx : ctx_Identity (r_Context r) = None) :
  let out := portalApplication cfg pp oapi conn _ env r (s, newConn) in
  match portalIdentity (Some (pp_sessions pp)) (Some (pp_chain pp)) env (routedRequest env r ∅) with
  | None => finalStatus out.2 = 401
  | Some _ => finalStatus out.2 = 500 /\ c_body out.2 = Encode (errorBody "streaming not supported by this writer")
  end.
Proof.
  intros out. set (id := portalIdentity _ _ _ _).
  destruct (portal_reply cfg pp oapi env r [] ("GET /api/v1/portal/audit/stream",
      PortalAuth_Middleware (Some (pp_sessions pp)) (Some (pp_chain pp)) streamHandler)
      (match id with Some _ => writeError 500 "streaming not supported by this writer" | None => portalUnauthorized end)
      (portalTouches (Some (pp_sessions pp)) (Some (pp_chain pp)) env (routedRequest env r ∅)) s)
    as [Ho _].
  - apply list_elem_of_lookup. by exists 12%nat.
  - by rewrite Hep.
  - by rewrite Hep.
  - by rewrite Hp.
  - by rewrite Hm.
  - done.
  - by destruct id.
  - by rewrite Hm.
  - by rewrite Hep.
  - intros w. cbn [snd]. unfold PortalAuth_Middleware.
    change (portalIdentity _ _ _ _) with id. by destruct id.
  - unfold out. rewrite Ho. by destruct id.
Qed.
End Reentry.

(** ** Witnesses *)

#[local] Existing Instance ascii_tables.
#[local] Existing Instance merge_slice.
#[local] Existing Instance noJson.
#[local] Existing Instance scaledFloat.
#[local] Existing Instance plainHosts.
#[local] Existing Instance nullSlices.
#[local] Existing Instance plainUUID.
#[local] Existing Instance plainLocale.
#[local] Existing Instance plainPostgres.
#[local] Existing Instance plainBcrypt.
#[local] Existing Instance sorted_range.
#[local] Existing Instance sampleOutside.
#[local] Existing Instance memoryStore.
Definition plainTexts : ErrorTexts := {| decodeErrorText _ := "bad json"; timeErrorText _ := "bad time"; urlErrorText _ := "bad url" |}.
#[local] Existing Instance plainTexts.
Definition zeroFloats : FloatEnv := {| floatText _ := "0"; intOverflow _ := 0 |}.
#[local] Existing Instance zeroFloats.
Definition sameNested : Nested := {| nestedEnv env := env |}.
#[local] Existing Instance sameNested.
Definition stillLog : Observed MemoryLogger := {| ob_wakeups _ := []; ob_log _ l _ := l |}.
#[local] Existing Instance stillLog.

Definition sampleParts : PortalParts := mkPortalParts (mkBuildInfo "v1" "c" "d") None None sampleStore closedChain false.
Definition withKey (method path body : string) (hs : list (string * string)) : Request :=
  mkRequest method path path "" (foldr (fun kv h => Header_Set h kv.1 kv.2) {["X-Api-Key" := ["K2"]]} hs) "app.example" false "10.0.0.1:5"
    (Some body) ∅ [] Background.

Lemma closedChain_built : builtChain closedChain.
Proof. exists false, sampleAuth, None, []. split; [done|]. apply file_touches. Defined.

Lemma portal_surface_guarded_witness :
  exists ops, forall W (RW : ResponseWriter W) s w,
    serverMux traceCfg sampleParts (traceMW closedChain) None W RW (envAt 0) (portalRequest "/api/v1/portal/me" "" []) (s, w) = (s, exec ops w).
Proof.
  apply (portal_surface_guarded traceCfg sampleParts (traceMW closedChain) None (envAt 0)
           (portalRequest "/api/v1/portal/me" "" []) eq_refl closedChain_built). by vm_compute.
Defined.

Lemma live_tail_unavailable_witness :
  finalStatus (portalApplication traceCfg sampleParts None conn _ (envAt 0) (withKey "GET" "/api/v1/portal/audit/stream" "" [])
                 (sampleState, newConn)).2 = 500.
Proof.
  pose proof (live_tail_unavailable traceCfg sampleParts None (envAt 0) (withKey "GET" "/api/v1/portal/audit/stream" "" []) sampleState
                eq_refl eq_refl eq_refl eq_refl) as Hw.
  cbv zeta in Hw. destruct (portalIdentity _ _ _ _) as [id|] eqn:E; [apply Hw|]. exfalso. vm_compute in E. discriminate E.
Defined.
