(* ===== verification/TryIt.v ===== *)
(** * Requests an operator sends from the portal

    A Try-It form becomes a request to a registered route: its path parameters are escaped into the
    path, the URL is printed and parsed again, the mux unescapes them.  The chain of encodings is the
    identity on the values, so the route's own handler runs with exactly what was typed in, as the
    operator, and the operator gets back what that handler wrote, up to a size limit. *)
From S2P Require Import Pagination DataEndpoints FailureEndpoints InspectEndpoints SecurityEndpoints.
From S2P Require Import StreamEndpoints ExportEndpoints.
From S2P Require Import Prelude GoStrings GoNum GoTime GoUrl Json JsonParse Http ServeMux Registry AuditEvent MemoryLog Inbound.
From S2P Require Import Middleware Config Session Server Routing BrowserAuth Sql ApiKeys GoUrlParse PortalApi.
From S2P Require Import Aggregations AuditStream Replay PortalServer Handlers EndToEnd Dispatch.

(** ** Escaped segments *)

Lemma unescape_pct c t : unescape (pctByte c ++ t) = String c <$> unescape t.
Proof. by destruct c as [[] [] [] [] [] [] [] []]. Qed.

Lemma unescape_escape_app m s t : unescape (escape m s ++ t) = append s <$> unescape t.
Proof.
  induction s as [|c s IH]; cbn [escape]; [cbn; by destruct (unescape t)|]. destruct (shouldEscape m c) eqn:E.
  - rewrite <- sapp_assoc, unescape_pct, IH. by destruct (unescape t).
  - cbn [append unescape]. destruct (Ascii.eqb_spec c "%") as [->|_]; [by destruct m|].
    rewrite IH. by destruct (unescape t).
Qed.

(** Every byte of an escaped text is a percent sign or one that needs no escape. *)
Lemma escape_forall m (p : ascii -> bool) s :
  (forall c, shouldEscape m c = false -> p c = true) -> p "%"%char = true -> string_forallb p (escape m s) = true.
Proof.
  intros Hp Hpct. assert (Hhex : forall c, string_forallb p (pctByte c) = true).
  { intros c. unfold pctByte, str1. cbn [string_forallb]. rewrite Hpct, andb_true_r. cbn [andb].
    apply andb_true_iff. split; apply Hp; by destruct c as [[] [] [] [] [] [] [] []], m. }
  induction s as [|c s IH]; [done|]. cbn [escape]. destruct (shouldEscape m c) eqn:E.
  - by rewrite string_forallb_app, Hhex, IH.
  - cbn. by rewrite Hp, IH.
Qed.

Lemma escape_id m s : string_forallb (fun c => negb (shouldEscape m c)) s = true -> escape m s = s.
Proof. induction s as [|c s IH]; [done|]. cbn. intros [Hc Hs]%andb_true_iff. apply negb_true_iff in Hc. by rewrite Hc, IH. Qed.

(** Bytes of an escaped segment, and of a path made of such segments. *)
Definition segByte (c : ascii) : bool := negb (shouldEscape encodePathSegment c) || Ascii.eqb c "%".
Definition pathChar (c : ascii) : bool := segByte c || Ascii.eqb c "/".

Lemma PathEscape_bytes s : string_forallb segByte (PathEscape s) = true.
Proof. apply escape_forall; [|done]. intros c Hc. unfold segByte. by rewrite Hc. Qed.

Lemma join_bytes us : string_forallb pathChar (join_path (map PathEscape us)) = true.
Proof.
  induction us as [|u us IH]; [done|]. cbn [map join_path]. rewrite !string_forallb_app, IH. cbn [string_forallb].
  assert (string_forallb pathChar (PathEscape u) = true) as ->; [|done].
  eapply string_forallb_impl, PathEscape_bytes. intros c Hc. unfold pathChar. by rewrite Hc.
Qed.

Lemma join_unescape us : unescape (join_path (map PathEscape us)) = Some (join_path us).
Proof.
  induction us as [|u us IH]; [done|]. cbn [map join_path]. cbn [append unescape Ascii.eqb Bool.eqb]. unfold PathEscape.
  rewrite unescape_escape_app. unfold PathEscape in IH. by rewrite IH.
Qed.

Lemma join_valid us : validEncoded encodePath (join_path (map PathEscape us)) = true.
Proof.
  pose proof (join_bytes us) as Hb. induction (join_path _) as [|c s IH]; [done|]. cbn [string_forallb validEncoded] in *.
  apply andb_true_iff in Hb as [Hc Hs]. rewrite IH, andb_true_r by done.
  revert Hc. by destruct c as [[] [] [] [] [] [] [] []].
Qed.

(** [PathEscape] keeps segments apart from each other and from the dot segments. *)
Lemma PathEscape_clean v : v <> "" -> v <> "." -> v <> ".." -> cleanSeg (PathEscape v) = true.
Proof.
  intros H1 H2 H3. assert (Hi : forall d, escape encodePathSegment d = d -> v <> d -> PathEscape v <> d).
  { intros d Hd Hne E. pose proof (unescape_escape_app encodePathSegment v "") as Hv.
    pose proof (unescape_escape_app encodePathSegment d "") as Hdu. unfold PathEscape in E. rewrite E in Hv. rewrite Hd in Hdu.
    rewrite Hv in Hdu. cbn in Hdu. rewrite !sapp_nil_r in Hdu. by injection Hdu as ->. }
  unfold cleanSeg. rewrite !andb_true_iff, !negb_true_iff, !String.eqb_neq.
  split; [split; [split|]|]; [by apply Hi| |by apply Hi|by apply Hi].
  by apply (string_forallb_no_byte segByte); [|apply PathEscape_bytes].
Qed.

Lemma unescapeSegment_PathEscape v : unescapeSegment (PathEscape v) = v.
Proof.
  unfold unescapeSegment. change PathUnescape with unescape. rewrite <- (sapp_nil_r (PathEscape v)).
  unfold PathEscape. rewrite unescape_escape_app. cbn. by rewrite sapp_nil_r.
Qed.

(** ** Rooted URLs *)

Definition queryChar (c : ascii) : bool := negb (isCTL c) && negb (Ascii.eqb c "#") && negb (Ascii.eqb c "?").
Definition withQuery (path q : string) : string := path ++ (if String.eqb q "" then "" else "?" ++ q).

Lemma QueryEscape_bytes s : string_forallb queryChar (QueryEscape s) = true.
Proof.
  unfold QueryEscape. induction s as [|c s IH]; [done|]. cbn [list_ascii_of_string map sconcat foldr] in *.
  rewrite string_forallb_app. unfold sconcat in IH. rewrite IH, andb_true_r.
  by destruct c as [[] [] [] [] [] [] [] []].
Qed.
Lemma Join_bytes p l sep : string_forallb p sep = true -> Forall (fun s => string_forallb p s = true) l -> string_forallb p (Join l sep) = true.
Proof.
  intros Hsep. induction 1 as [|s l Hs Hl IH]; [done|]. destruct l as [|t l]; [done|].
  change (Join (s :: t :: l) sep) with (s ++ sep ++ Join (t :: l) sep). by rewrite !string_forallb_app, Hs, Hsep, IH.
Qed.
Lemma EncodeAll_bytes m : string_forallb queryChar (Values_EncodeAll m) = true.
Proof.
  unfold Values_EncodeAll. apply Join_bytes; [done|]. apply Forall_forall. intros s Hs.
  apply list_elem_of_join in Hs as (l & Hs & Hl). apply list_elem_of_fmap in Hl as (p & -> & _).
  apply list_elem_of_fmap in Hs as (v & -> & _). by rewrite !string_forallb_app, !QueryEscape_bytes.
Qed.

Section Urls.
Context `{UnicodeTables} `{UrlHost} `{ErrorTexts} `{MapRange}.
Variables (us : list string) (q : string).
Hypotheses (Hne : us <> []) (Hus : Forall (fun u => u <> "") us) (Hq : string_forallb queryChar q = true).
Let path : string := join_path (map PathEscape us).

(** The URL of a rooted path of escaped segments, with a query. *)
Definition rootedURL : URL :=
  mkURL "" "" None "" (join_path us) (if String.eqb path (escape encodePath (join_path us)) then "" else path) false false q "" "".

Lemma path_rooted : exists c t, path = String "/" (String c t) /\ c <> "/"%char.
Proof.
  unfold path. destruct us as [|u rest]; [done|]. inversion_clear Hus as [|? ? Hu _].
  pose proof (PathEscape_bytes u) as Hb. cbn [map join_path].
  destruct (PathEscape u) as [|c s] eqn:E.
  - exfalso. apply Hu. pose proof (unescapeSegment_PathEscape u) as Hi. by rewrite E in Hi.
  - exists c, (s ++ join_path (map PathEscape rest)). split; [done|]. intros ->. by cbn in Hb.
Qed.

Lemma path_absent c : pathChar c = false -> ContainsByte path c = false.
Proof. intros Hc. apply (string_forallb_no_byte pathChar); [done|apply join_bytes]. Qed.
Lemma query_absent c : queryChar c = false -> ContainsByte q c = false.
Proof. intros Hc. by apply (string_forallb_no_byte queryChar). Qed.

Lemma splitQuery_with : splitQuery (withQuery path q) = (false, path, q).
Proof.
  unfold withQuery. rewrite splitQuery_app by (by apply path_absent).
  destruct (String.eqb_spec q "") as [E|E]; [cbn; by rewrite E, sapp_nil_r|].
  unfold splitQuery. cbn [HasSuffixByte append].
  assert (HasSuffixByte q "?" = false) as Hs by (apply HasSuffixByte_absent, query_absent; done).
  destruct q as [|d q'] eqn:Eq; [done|]. rewrite Hs. cbn. by rewrite sapp_nil_r.
Qed.

Lemma noCTL_with : noCTL (withQuery path q) = true.
Proof.
  unfold noCTL, withQuery. rewrite string_forallb_app. apply andb_true_iff. split.
  - eapply string_forallb_impl; [|apply join_bytes]. intros c. by destruct c as [[] [] [] [] [] [] [] []].
  - destruct (String.eqb q ""); [done|]. rewrite string_forallb_app. cbn. eapply string_forallb_impl, Hq.
    unfold queryChar. intros c [[Hc _]%andb_true_iff _]%andb_true_iff. exact Hc.
Qed.

Lemma Parse_rooted : Parse (withQuery path q) = Some rootedURL.
Proof.
  destruct path_rooted as (c & t & Hp & Hc). unfold Parse.
  assert (Hh : ContainsByte (withQuery path q) "#" = false).
  { unfold withQuery. rewrite ContainsByte_app, path_absent by done. destruct (String.eqb q ""); [done|].
    rewrite ContainsByte_app, query_absent by done. done. }
  rewrite (Cut_absent _ _ Hh). unfold parseNoFragment. rewrite noCTL_with. cbn [negb].
  assert (exists r, withQuery path q = String "/" (String c r)) as [r Hr].
  { unfold withQuery. rewrite Hp. by eexists. }
  assert (String.eqb (withQuery path q) "*" = false) as -> by (by rewrite Hr).
  assert (getScheme (withQuery path q) = Some ("", withQuery path q)) as -> by (by rewrite Hr).
  cbn [mbind option_bind]. rewrite splitQuery_with.
  assert (HasPrefix path "/" = true /\ HasPrefix path "//" = false) as [-> ->].
  { rewrite Hp. split; [done|]. cbn [HasPrefix].
    destruct (Ascii.eqb_spec "/" c) as [E|E]; [by subst|done]. }
  cbn [negb andb]. unfold setPath.
  assert (unescape path = Some (join_path us)) as -> by apply join_unescape. done.
Qed.

Lemma EscapedPath_rooted : EscapedPath rootedURL = path.
Proof.
  destruct path_rooted as (c & t & Hp & _). unfold EscapedPath. cbn [u_RawPath u_Path rootedURL].
  destruct (String.eqb_spec path (escape encodePath (join_path us))) as [E|E]; cbn [String.eqb negb andb].
  - assert (String.eqb (join_path us) "*" = false) as -> by (by destruct us). done.
  - assert (Hne' : String.eqb path "" = false) by (by rewrite Hp). rewrite Hne'.
    unfold path. rewrite join_valid, join_unescape. by rewrite bool_decide_true.
Qed.

Lemma URL_String_rooted : URL_String rootedURL = withQuery path q.
Proof.
  pose proof EscapedPath_rooted as He. destruct path_rooted as (c & t & Hp & _).
  unfold URL_String. rewrite He. cbn [u_Scheme u_Opaque u_User u_Host u_Path u_OmitHost u_ForceQuery u_RawQuery u_Fragment rootedURL].
  cbn [String.eqb negb andb orb append]. assert ((Cut path "/").1.1 = "") as -> by (by rewrite Hp). cbn [ContainsByte append].
  rewrite andb_false_r. cbn [append]. rewrite sapp_nil_r. unfold withQuery. by destruct (String.eqb q "").
Qed.
End Urls.

(** ** Substitution in a route's path *)

Lemma substitute_plain params s rest fuel : ContainsByte s "{" = false -> (String.length (s ++ rest) <= fuel)%nat ->
  substitute_loop fuel params (s ++ rest) =
  (s ++ (substitute_loop (fuel - String.length s) params rest).1, (substitute_loop (fuel - String.length s) params rest).2).
Proof.
  revert fuel. induction s as [|c s IH]; intros fuel Hs Hf.
  - cbn [append String.length]. rewrite Nat.sub_0_r. by destruct (substitute_loop fuel params rest).
  - cbn [ContainsByte] in Hs. apply orb_false_iff in Hs as [Hc Hs]. cbn [append String.length] in *.
    destruct fuel as [|fuel]; [lia|]. cbn [substitute_loop]. rewrite Hc, IH by (done || lia).
    by rewrite Nat.sub_succ.
Qed.

Lemma matchParam_name n rest : n <> "" -> ContainsByte n "}" = false -> ContainsByte n "/" = false ->
  matchParam (n ++ "}" ++ rest) = Some (n, rest).
Proof.
  intros Hne H1 H2. unfold matchParam. assert (spanParam (n ++ "}" ++ rest) = Some (n, rest)) as ->.
  { clear Hne. induction n as [|c n IH]; [done|]. cbn in H1, H2. apply orb_false_iff in H1 as [Hc1 H1], H2 as [Hc2 H2].
    change (spanParam (String c n ++ "}" ++ rest)) with
      (if Ascii.eqb c "}" then Some ("", n ++ "}" ++ rest) else if Ascii.eqb c "/" then None
       else match spanParam (n ++ "}" ++ rest) with Some (n, rest) => Some (String c n, rest) | None => None end).
    by rewrite Hc1, Hc2, IH. }
  by rewrite (proj2 (String.eqb_neq _ _) Hne).
Qed.

(** A segment of a template: a placeholder, or text that needs no escape. *)
Definition templateSeg (p : string) : bool :=
  match parseSeg p with
  | Wild n => String.eqb p ("{" ++ n ++ "}") && negb (String.eqb n "") && negb (ContainsByte n "}") && negb (ContainsByte n "/")
  | Lit _ => string_forallb (fun c => negb (shouldEscape encodePathSegment c)) p
  end.

(** A value that can be typed in for a placeholder. *)
Definition typedValue (v : string) : bool := negb (String.eqb v "") && negb (ContainsByte v "/").

Lemma substitute_param params n v rest fuel : matchParam (n ++ "}" ++ rest) = Some (n, rest) ->
  params !! n = Some v -> typedValue v = true ->
  substitute_loop (S fuel) params ("{" ++ n ++ "}" ++ rest) =
  (PathEscape v ++ (substitute_loop fuel params rest).1, (substitute_loop fuel params rest).2).
Proof.
  intros Hm Hv [H1%negb_true_iff H2%negb_true_iff]%andb_true_iff.
  assert (Hs : Contains v "/" = false) by (change "/" with (str1 "/"); by rewrite Contains_str1).
  change (substitute_loop (S fuel) params ("{" ++ n ++ "}" ++ rest)) with
    (match matchParam (n ++ "}" ++ rest) with
     | Some (name, rest) =>
       let '(out, missing) := substitute_loop fuel params rest in
       let v := default "" (params !! name) in
       if String.eqb v "" then (("{" ++ name ++ "}" ++ out)%string, name :: missing)
       else if Contains v "/" then (("{" ++ name ++ "}" ++ out)%string, (name ++ " (contains '/')")%string :: missing)
       else ((PathEscape v ++ out)%string, missing)
     | None => let '(out, missing) := substitute_loop fuel params (n ++ "}" ++ rest) in (String "{" out, missing)
     end).
  rewrite Hm, Hv. destruct (substitute_loop fuel params rest). cbv zeta. change (default "" (Some v)) with v.
  by rewrite H1, Hs.
Qed.

Lemma substitute_template params ps vs us fuel :
  forallb segOK ps = true -> forallb templateSeg ps = true -> instance ps vs = Some us ->
  Forall2 (fun n v => params !! n = Some v /\ typedValue v = true) (wildNames ps) vs ->
  (String.length (join_path ps) <= fuel)%nat ->
  substitute_loop fuel params (join_path ps) = (join_path (map PathEscape us), []).
Proof.
  revert vs us fuel. induction ps as [|p ps IH]; intros vs us fuel Hok Ht Hi Hv Hf.
  - cbn in Hi. destruct vs; [|done]. injection Hi as <-. by destruct fuel.
  - cbn [forallb] in Hok, Ht. apply andb_true_iff in Hok as [Hp Hok], Ht as [Htp Ht]. cbn [join_path] in *.
    rewrite (substitute_plain params "/") by done. cbn [String.length] in *.
    unfold segOK in Hp. unfold templateSeg in Htp. cbn [instance wildNames omap list_omap] in *.
    destruct (parseSeg p) as [l|n] eqn:Ep.
    + apply andb_true_iff in Hp as [[Hw%negb_true_iff Hl]%andb_true_iff _]. rewrite Hw in Hi.
      destruct (instance ps vs) as [us'|] eqn:E; [|done]. injection Hi as <-.
      assert (Hb : ContainsByte p "{" = false) by (by apply (string_forallb_no_byte (fun c => negb (shouldEscape encodePathSegment c)))).
      rewrite sapp_length in Hf. cbn [String.length] in Hf. rewrite sapp_length in Hf.
      rewrite substitute_plain by (done || (rewrite sapp_length; lia)).
      rewrite (IH vs us' (fuel - 1 - String.length p)%nat Hok Ht E Hv) by lia. cbn [fst snd map join_path].
      unfold PathEscape at 2. by rewrite (escape_id _ _ Htp).
    + rewrite Hp in Hi. destruct vs as [|v vs]; [done|]. destruct (instance ps vs) as [us'|] eqn:E; [|done]. injection Hi as <-.
      apply andb_true_iff in Htp as [[[Hpe%String.eqb_eq Hn0]%andb_true_iff Hn1%negb_true_iff]%andb_true_iff Hn2%negb_true_iff].
      apply negb_true_iff, String.eqb_neq in Hn0. inversion Hv as [|? ? ? ? [Hpv Htv] Hv']; subst.
      rewrite <- !sapp_assoc in *. rewrite !sapp_length in Hf. cbn [String.length] in Hf.
      replace (fuel - 1)%nat with (S (fuel - 2)) by lia.
      rewrite (substitute_param params n v) by (done || by apply matchParam_name).
      by rewrite (IH vs us' (fuel - 2)%nat Hok Ht E Hv') by lia.
Qed.

(** ** What the buffering writer keeps *)

(** After a handler's calls: the first [maxBytes] bytes written, and a truncation flag that is set
    whenever there were more. *)
Definition capHolds (total : string) (c : capResponseWriter) : Prop :=
  cw_body c = stake (Z.to_nat (cw_maxBytes c)) total /\
  (cw_truncated c = false -> len total <= cw_maxBytes c) /\ (cw_truncated c = true -> cw_maxBytes c <= len total).

Lemma cap_write_holds b total c : 0 <= cw_maxBytes c -> capHolds total c ->
  capHolds (total ++ b) (cw_Write b c).2 /\ cw_maxBytes (cw_Write b c).2 = cw_maxBytes c.
Proof.
  intros Hm (Hb & Ht1 & Ht2). unfold capHolds, cw_Write, cw_WriteHeader.
  set (c1 := if cw_wroteHdr c then c else _).
  assert (cw_body c1 = cw_body c /\ cw_maxBytes c1 = cw_maxBytes c /\ cw_truncated c1 = cw_truncated c) as (E1 & E2 & E3)
    by (unfold c1; by destruct (cw_wroteHdr c) eqn:E; rewrite ?E).
  pose proof (len_nonneg b) as Hlb. rewrite E2, E1, Hb, len_app.
  destruct (Z.le_gt_cases (cw_maxBytes c) (len total)) as [Hle|Hgt].
  - assert (len (stake (Z.to_nat (cw_maxBytes c)) total) = cw_maxBytes c) as -> by (unfold len in *; rewrite stake_length; lia).
    rewrite Z.sub_diag. cbn. rewrite stake_app_le by (unfold len in Hle; lia). rewrite ?E1, ?E2, ?Hb. split; [|done].
    split; [done|]. split; [done|lia].
  - rewrite (stake_ge (Z.to_nat (cw_maxBytes c)) total) by (unfold len in Hgt; lia).
    assert ((cw_maxBytes c - len total <=? 0) = false) as -> by lia.
    assert (Z.to_nat (cw_maxBytes c - len total) = (Z.to_nat (cw_maxBytes c) - String.length total)%nat) as -> by (unfold len in *; lia).
    destruct (_ <? len b) eqn:E; bools; cbn; rewrite ?E1, ?E2, ?E3.
    + rewrite (stake_app_ge (Z.to_nat (cw_maxBytes c)) total) by (unfold len in Hgt; lia). repeat split; [done|lia].
    + rewrite stake_ge by (rewrite sapp_length; unfold len in *; lia). repeat split; [lia|].
      intros Htr. specialize (Ht2 Htr). lia.
Qed.

Lemma cap_exec_holds ops total c : 0 <= cw_maxBytes c -> capHolds total c -> capHolds (total ++ ops_bytes ops) (exec ops c).
Proof.
  revert total c. induction ops as [|o ops IH]; intros total c Hm Hc; [by rewrite sapp_nil_r|].
  change (exec (o :: ops) c) with (exec ops (exec1 o c)). change (ops_bytes (o :: ops)) with (wop_bytes o ++ ops_bytes ops).
  rewrite sapp_assoc.
  assert (Ho : capHolds (total ++ wop_bytes o) (exec1 o c) /\ cw_maxBytes (exec1 o c) = cw_maxBytes c).
  { destruct o as [k v|k v|code|b|]; cbn [wop_bytes]; rewrite ?sapp_nil_r; try done.
    - cbn. unfold cw_WriteHeader. by destruct (cw_wroteHdr c).
    - by apply cap_write_holds. }
  destruct Ho as [Ho1 Ho2]. apply IH; [lia|done].
Qed.

Lemma cap_keeps ops max : 0 <= max -> capHolds (ops_bytes ops) (exec ops (newCapResponseWriter max)).
Proof.
  intros Hm. apply (cap_exec_holds ops "" (newCapResponseWriter max) Hm). unfold capHolds. cbn.
  split; [by destruct (Z.to_nat max)|]. split; [done|done].
Qed.

(** The audit recorder hands every call on to the writer, and sees its status and every byte. *)
Definition arCap (total : Z) (a : auditRecorder capResponseWriter) : Prop :=
  ar_wroteHeader a = cw_wroteHdr (ar_inner a) /\ ar_status a = cw_status (ar_inner a) /\ ar_bytesTotal a = total.

Lemma cw_WriteHeader_set code c : cw_wroteHdr c = false -> cw_wroteHdr (cw_WriteHeader code c) = true /\ cw_status (cw_WriteHeader code c) = code.
Proof. intros Hc. unfold cw_WriteHeader. by rewrite Hc. Qed.
Lemma cw_Write_spec b c : (cw_Write b c).1 = len b /\ cw_wroteHdr (cw_Write b c).2 = true /\
  cw_status (cw_Write b c).2 = (if cw_wroteHdr c then cw_status c else 200) /\
  (cw_wroteHdr c = false -> cw_Write b (cw_WriteHeader 200 c) = cw_Write b c).
Proof.
  unfold cw_Write, cw_WriteHeader. destruct (cw_wroteHdr c) eqn:E; cbn.
  - destruct (_ <=? 0); [|destruct (_ <? len b)]; cbn; rewrite ?E; done.
  - destruct (_ <=? 0); [|destruct (_ <? len b)]; cbn; rewrite ?E; done.
Qed.

Lemma ar_cap_exec1 o a n : arCap n a -> arCap (n + len (wop_bytes o)) (exec1 o a) /\ ar_inner (exec1 o a) = exec1 o (ar_inner a).
Proof.
  intros (Hw & Hs & Hn). destruct o as [k v|k v|code|b|]; cbn [wop_bytes exec1]; change (len "") with 0; rewrite ?Z.add_0_r; try done.
  - cbn. unfold ar_WriteHeader. destruct (ar_wroteHeader a) eqn:E.
    + unfold arCap. rewrite E. split; [done|]. unfold cw_WriteHeader. by rewrite <- Hw.
    + cbn. destruct (cw_WriteHeader_set code (ar_inner a)) as [H1 H2]; [done|]. unfold arCap. cbn. by rewrite H1, H2.
  - cbn. unfold ar_Write, ar_WriteHeader. destruct (ar_wroteHeader a) eqn:E.
    + cbn. destruct (if ar_capture a then _ else _) as [bd cut]. destruct (cw_Write_spec b (ar_inner a)) as (H1 & H2 & H3 & _).
      destruct (cw_Write b (ar_inner a)) as [m c']. unfold arCap. cbn in *. rewrite H2, H3, <- Hw, H1. repeat split; congruence || lia.
    + cbn. destruct (if ar_capture a then _ else _) as [bd cut].
      destruct (cw_Write_spec b (ar_inner a)) as (H1 & H2 & H3 & H4). rewrite H4 by done.
      destruct (cw_Write b (ar_inner a)) as [m c']. unfold arCap. cbn in *. rewrite H2, H3, <- Hw, H1. repeat split; congruence || lia.
Qed.

Lemma ar_cap_exec ops a n : arCap n a -> arCap (n + len (ops_bytes ops)) (exec ops a) /\ ar_inner (exec ops a) = exec ops (ar_inner a).
Proof.
  revert a n. induction ops as [|o ops IH]; intros a n Ha; [cbn; by rewrite Z.add_0_r|].
  change (exec (o :: ops) a) with (exec ops (exec1 o a)). change (ops_bytes (o :: ops)) with (wop_bytes o ++ ops_bytes ops).
  rewrite len_app, Z.add_assoc. destruct (ar_cap_exec1 o a n Ha) as [H1 H2]. destruct (IH _ _ H1) as [H3 H4].
  split; [done|]. by rewrite H4, H2.
Qed.

Section Dispatched.
Context `{UnicodeTables} `{JsonAny} `{Float64} `{UrlHost} `{ErrorTexts} `{MapRange} `{Nested}.
Context {L : Type} `{!Logger L} `{!PortalStore L}.
Abbreviation State := (ServerState L).
Abbreviation Hnd := (Handler State).

(** An audited endpoint behind the buffering writer. *)
Lemma audit_cap (reg : Registry) (opts0 : AuditOptions) (h : EHandler) env r (s : State) max :
  let opts := withDefaults opts0 in
  let ops := (h env false r).1 in
  let rec := exec ops (newCapResponseWriter max) in
  exists rb ro pb pt,
    Audit (Some reg) opts0 (serve h) capResponseWriter _ env r (s, newCapResponseWriter max) =
    (logEvent env (auditEvent opts (Some reg) env r rb ro (cw_status rec) (cw_headers rec) pb pt (len (ops_bytes ops)))
       (setRead (h env false r).2 s), rec).
Proof.
  intros opts ops rec. unfold Audit. fold opts. cbn [fst snd].
  set (rec0 := newAuditRecorder (newCapResponseWriter max) (MaxPayloadBytes opts) (CapturePayloads opts)).
  unfold serve. cbn [fst snd rw_Flusher auditRecorder_RW]. subst rec ops. destruct (h env false r) as [ops read]. cbn [fst snd].
  destruct (ar_cap_exec ops rec0 0) as [(Hw & Hs & Hn) Hin]; [done|]. change (ar_inner rec0) with (newCapResponseWriter max) in Hin.
  destruct (if bool_decide (r_Body r <> None) && CapturePayloads opts then _ else _) as [rb ro].
  exists rb, ro, (ar_body (exec ops rec0)), (ar_truncated (exec ops rec0)).
  rewrite Hs, Hn, Hin. cbn [rw_Header auditRecorder_RW]. rewrite Hin. done.
Qed.

(** Facts about every route of the full registry. *)
Lemma fullFlat_template keys :
  Forall (fun e => m_Path (re_meta e) = join_path (re_segs e) /\ forallb templateSeg (re_segs e) = true /\
    m_Method (re_meta e) <> "" /\ string_forallb tokenByte (m_Method (re_meta e)) = true) (fullFlat keys).
Proof. apply (bool_decide_unpack _). by vm_compute. Qed.
Lemma flat_template cfg e : e ∈ rg_flat (buildRegistry cfg) ->
  m_Path (re_meta e) = join_path (re_segs e) /\ forallb templateSeg (re_segs e) = true /\
  m_Method (re_meta e) <> "" /\ string_forallb tokenByte (m_Method (re_meta e)) = true.
Proof.
  intros He. pose proof (fullFlat_template (au_RedactKeys (cf_Audit cfg))) as Hall. rewrite Forall_forall in Hall.
  apply Hall. eapply elem_of_submseteq; [exact He|]. rewrite buildRegistry_flat.
  apply sublist_submseteq, sublist_mjoin, buildRegistry_groups.
Qed.

(** The query text of a form, and the request it stands for. *)
Definition formQuery (f : TryItRequest) : string :=
  if bool_decide (ti_QueryParams f = ∅) then "" else Values_EncodeAll (addValues (range (ti_QueryParams f))).
Definition formHeader (f : TryItRequest) : Header :=
  Header_Set (addHeaders ∅ (List.filter (fun e => negb (disallowedTryItHeader e.1)) (range (ti_Headers f)))) tryItHeaderMarker "true".
Definition formRequest (c : Context) (method : string) (us : list string) (f : TryItRequest) : Request :=
  mkRequest method (join_path us) (join_path (map PathEscape us)) (formQuery f) (formHeader f) "" false ""
    (Some (limitBody tryItMaxBodyBytes (ti_Body f))) ∅ [] (dispatchContext c).

Lemma formQuery_bytes f : string_forallb queryChar (formQuery f) = true.
Proof. unfold formQuery. case_bool_decide; [done|]. apply EncodeAll_bytes. Qed.

Lemma instance_values ps vs us : instance ps vs = Some us -> forallb segOK ps = true -> forallb typedValue vs = true ->
  Forall (fun u => u <> "" /\ ContainsByte u "/" = false) us.
Proof.
  revert vs us. induction ps as [|p ps IH]; intros vs us; cbn [instance forallb].
  - destruct vs; [|done]. intros [= <-]. constructor.
  - intros Hi [Hp Hps]%andb_true_iff Hv. destruct (isWildcard p) eqn:Ew.
    + destruct vs as [|v vs]; [done|]. destruct (instance ps vs) eqn:E; [|done]. injection Hi as <-. cbn in Hv.
      apply andb_true_iff in Hv as [Hv1 Hv]. constructor; [|by eapply IH].
      apply andb_true_iff in Hv1 as [H1'%negb_true_iff%String.eqb_neq H2'%negb_true_iff]. done.
    + destruct (instance ps vs) eqn:E; [|done]. injection Hi as <-. constructor; [|by eapply IH].
      unfold segOK in Hp. destruct (parseSeg p); [|by rewrite Ew in Hp].
      apply andb_true_iff in Hp as [_ Hp]. by destruct (plainSeg_spec p Hp) as (? & ? & _).
Qed.

Lemma instance_escaped ps vs us : instance ps vs = Some us -> forallb segOK ps = true -> forallb templateSeg ps = true ->
  instance ps (map PathEscape vs) = Some (map PathEscape us).
Proof.
  revert vs us. induction ps as [|p ps IH]; intros vs us; cbn [instance forallb].
  - destruct vs; [|done]. by intros [= <-].
  - intros Hi [Hp Hps]%andb_true_iff [Ht Hts]%andb_true_iff. destruct (isWildcard p) eqn:Ew.
    + destruct vs as [|v vs]; [done|]. destruct (instance ps vs) eqn:E; [|done]. injection Hi as <-. cbn [map].
      by rewrite (IH _ _ E Hps Hts).
    + destruct (instance ps vs) eqn:E; [|done]. injection Hi as <-. rewrite (IH _ _ E Hps Hts). cbn.
      unfold segOK in Hp. unfold templateSeg in Ht. destruct (parseSeg p); [|by rewrite Ew in Hp].
      unfold PathEscape at 2. by rewrite (escape_id _ _ Ht).
Qed.

(** The request a form stands for, when every placeholder has a value. *)
Lemma tryItRequest_route cfg e c f vs us : e ∈ rg_flat (buildRegistry cfg) -> instance (re_segs e) vs = Some us ->
  Forall2 (fun n v => ti_PathParams f !! n = Some v /\ typedValue v = true) (wildNames (re_segs e)) vs ->
  forallb typedValue vs = true -> (ti_Method f = "" \/ ti_Method f = m_Method (re_meta e)) ->
  tryItRequest c (re_meta e) f =
  Ok (m_Method (re_meta e), withQuery (join_path (map PathEscape us)) (formQuery f), formRequest c (m_Method (re_meta e)) us f).
Proof.
  intros He Hi Hf Hv Hmeth. destruct (flat_entry_ok cfg e He) as (_ & Hok & Hne).
  destruct (flat_template cfg e He) as (Hpath & Htmpl & Hm0 & Htok).
  pose proof (instance_nonempty _ _ _ Hi Hne) as Hus0. pose proof (instance_values _ _ _ Hi Hok Hv) as Hus1.
  assert (Hus : Forall (fun u => u <> "") us) by (eapply Forall_impl; [exact Hus1|naive_solver]).
  assert (Hmm : (if String.eqb (ti_Method f) "" then m_Method (re_meta e) else ti_Method f) = m_Method (re_meta e)).
  { destruct Hmeth as [-> | ->]; [done|]. by destruct (String.eqb _ _). }
  unfold tryItRequest. rewrite Hmm. unfold substitutePathParams. rewrite Hpath.
  rewrite (substitute_template _ _ _ us) by (done || lia).
  pose proof (Parse_rooted us "" Hus0 Hus eq_refl) as Hp0. unfold withQuery in Hp0. cbn [String.eqb] in Hp0. rewrite sapp_nil_r in Hp0.
  rewrite Hp0. set (u := if bool_decide _ then _ else _).
  assert (Hu : u = rootedURL us (formQuery f)).
  { unfold u, formQuery. by case_bool_decide. }
  rewrite Hu, URL_String_rooted by done. unfold NewRequestWithContext.
  rewrite (proj2 (String.eqb_neq _ _) Hm0), Htok. cbn [negb].
  rewrite Parse_rooted by (done || apply formQuery_bytes). rewrite EscapedPath_rooted by done. done.
Qed.

(** A value that names one path segment: non-empty, without a slash, not a dot segment. *)
Definition typedSegment (v : string) : bool := typedValue v && negb (String.eqb v ".") && negb (String.eqb v "..").

Lemma typed_values vs : forallb typedSegment vs = true -> forallb typedValue vs = true /\ forallb cleanSeg (map PathEscape vs) = true.
Proof.
  induction vs as [|v vs IH]; [done|]. cbn. intros [[[Hv Hd%negb_true_iff]%andb_true_iff Hdd%negb_true_iff]%andb_true_iff Hvs]%andb_true_iff.
  destruct (IH Hvs) as [-> ->]. rewrite Hv. split; [done|]. rewrite andb_true_r. rewrite String.eqb_neq in Hd, Hdd.
  apply PathEscape_clean; [|done|done]. apply andb_true_iff in Hv as [Hv%negb_true_iff%String.eqb_neq _]. done.
Qed.
End Dispatched.

Section Operator.
Context `{UnicodeTables} `{JsonAny} `{Float64} `{UrlHost} `{SliceJSON} `{UUID} `{ErrorTexts} `{Postgres} `{Bcrypt}.
Context `{FloatEnv} `{MapRange} `{SortSlice} `{Nested}.
Context {L : Type} `{!Logger L} `{!PortalStore L} `{!Observed L}.
Context `{Outside}.
Abbreviation State := (ServerState L).
Abbreviation Hnd := (Handler State).

Lemma portalOver_elsewhere cfg pp (t : Hnd) : portalElsewhere (Some (portalOver cfg pp t)) = true.
Proof. unfold portalElsewhere, portalOver. cbn [pd_BrowserAuth pd_PortalAPI]. rewrite forallb_app. by destruct (pp_BrowserAuth pp). Qed.

(** A dispatched request for an instance of a route that carries no credential runs the audited
    handler of the route, as the operator. *)
Lemma sent_served cfg pp oapi (d : Hnd) c e sent vs us pid W (RW : ResponseWriter W) env (s : State) (w : W) :
  let reg := buildRegistry cfg in
  let mw := endpointMW (pp_chain pp) reg (auditOptions cfg) in
  let served := WithPathValues sent (list_to_map (zip (wildNames (re_segs e)) vs)) in
  e ∈ rg_flat reg -> instance (re_segs e) vs = Some us -> forallb typedSegment vs = true ->
  r_Method sent = m_Method (re_meta e) -> r_EscapedPath sent = join_path (map PathEscape us) -> r_Context sent = dispatchContext c ->
  GetIdentity c = Some pid -> hasInboundCredential sent = false ->
  exists g h, g ∈ rg_groups reg /\ g_Name g = re_group e /\ (patternText (re_meta e), h) ∈ g_Mount g /\
    muxOver cfg pp mw oapi d W RW env sent (s, w) =
    Audit (Some reg) (auditOptions cfg) (serve h) W RW env served (recordIdentity (dispatchContext c) (portalIdentityToInbound pid) s, w).
Proof.
  intros reg mw served He Hi Hv Hsm Hse Hsc Hid Hcred. destruct (typed_values vs Hv) as [_ Hclean].
  destruct (flat_entry_ok cfg e He) as (_ & Hok & _). destruct (flat_template cfg e He) as (_ & Htmpl & _).
  destruct (route_found_escaped cfg mw (Some (portalOver cfg pp d)) oapi e _ _ (portalOver_elsewhere _ _ _) He
              (instance_escaped _ _ _ Hi Hok Htmpl) Hclean) as (g & h & Hg & Hgn & Hgm & Hd).
  exists g, h. split; [done|]. split; [done|]. split; [done|].
  assert (Hu : map unescapeSegment (map PathEscape vs) = vs).
  { rewrite map_map. rewrite <- (map_id vs) at 2. apply map_ext. intros v. apply unescapeSegment_PathEscape. }
  rewrite Hu in Hd. unfold muxOver, ServeMux_ServeHTTP. rewrite Hsm, Hse. unfold mw, reg in Hd |- *. rewrite Hd.
  fold served. unfold endpointMW, IdentityMW.
  assert (hasInboundCredential served = false) as -> by exact Hcred.
  change (r_Context served) with (r_Context sent). rewrite Hsc. unfold dispatchContext. rewrite Hid. done.
Qed.

(** The fields of an audit event that come from the request. *)
Lemma auditEvent_route cfg e vs us opts env r rb ro st rh pb pt n :
  e ∈ rg_flat (buildRegistry cfg) -> instance (re_segs e) vs = Some us -> forallb typedSegment vs = true ->
  r_Method r = m_Method (re_meta e) -> r_Path r = join_path us ->
  let ev := auditEvent opts (Some (buildRegistry cfg)) env r rb ro st rh pb pt n in
  ev_Method ev = m_Method (re_meta e) /\ ev_Path ev = join_path us /\
  (ev_EndpointGroup ev, ev_RouteName ev) = (re_group e, m_Name (re_meta e)) /\ ev_Status ev = st /\ ev_BytesOut ev = n /\
  ev_UserSubject ev = match FromContext (r_Context r) with Some i => id_Subject i | None => "" end.
Proof.
  intros He Hi Hv Hm Hp. destruct (flat_entry_ok cfg e He) as (_ & Hok & _). destruct (typed_values vs Hv) as [Htv _].
  assert (Hres : RouteForRequest (buildRegistry cfg) (r_Method r) (r_Path r) = (re_group e, m_Name (re_meta e))).
  { apply RouteForRequest_unambiguous; [apply flat_unambiguous|done|done|].
    rewrite Hp, splitPathSegments_join; [by eapply instance_match|].
    eapply Forall_impl; [by eapply instance_values|]. naive_solver. }
  unfold auditEvent. rewrite Hres. by cbn.
Qed.

(** Such a request run against the buffering writer: what the writer holds and what is logged. *)
Lemma sent_run cfg pp oapi (d : Hnd) c e sent vs us pid env (s : State) max :
  let reg := buildRegistry cfg in
  let mw := endpointMW (pp_chain pp) reg (auditOptions cfg) in
  let served := WithPathValues sent (list_to_map (zip (wildNames (re_segs e)) vs)) in
  e ∈ rg_flat reg -> instance (re_segs e) vs = Some us -> forallb typedSegment vs = true ->
  r_Method sent = m_Method (re_meta e) -> r_Path sent = join_path us -> r_EscapedPath sent = join_path (map PathEscape us) ->
  r_Context sent = dispatchContext c -> GetIdentity c = Some pid -> hasInboundCredential sent = false -> 0 <= max ->
  exists g h ev, g ∈ rg_groups reg /\ g_Name g = re_group e /\ (patternText (re_meta e), h) ∈ g_Mount g /\
    let ops := (h env false served).1 in
    let rec := exec ops (newCapResponseWriter max) in
    exists s', muxOver cfg pp mw oapi d capResponseWriter _ env sent (s, newCapResponseWriter max) = (s', rec) /\
    capHolds (ops_bytes ops) rec /\
    sv_audit s' = match lg_Log (env_eventID env) ev (sv_audit s) with Ok l => l | Err _ => sv_audit s end /\
    ev_Method ev = m_Method (re_meta e) /\ ev_Path ev = join_path us /\
    (ev_EndpointGroup ev, ev_RouteName ev) = (re_group e, m_Name (re_meta e)) /\ ev_Status ev = cw_status rec /\
    ev_BytesOut ev = len (ops_bytes ops) /\ ev_UserSubject ev = pi_Subject pid /\
    (CapturePayloads (auditOptions cfg) = true -> ReplayedFrom <$> ev_Payload ev = Some (h_Get sent ReplayHeaderName)).
Proof.
  intros reg mw served He Hi Hv Hsm Hsp Hse Hsc Hid Hcred Hmax.
  destruct (sent_served cfg pp oapi d c e sent vs us pid capResponseWriter _ env s (newCapResponseWriter max) He Hi Hv Hsm Hse Hsc Hid Hcred)
    as (g & h & Hg & Hgn & Hgm & Hrun). fold reg mw served in Hrun.
  destruct (audit_cap reg (auditOptions cfg) h env served (recordIdentity (dispatchContext c) (portalIdentityToInbound pid) s) max)
    as (rb & ro & pb & pt & Ha).
  rewrite Ha in Hrun. set (ev := auditEvent _ _ _ _ _ _ _ _ _ _ _) in Hrun.
  exists g, h, ev. split; [done|]. split; [done|]. split; [done|]. cbv zeta. eexists. split; [exact Hrun|].
  split; [by apply cap_keeps|].
  destruct (logEvent_rest env ev (setRead (h env false served).2 (recordIdentity (dispatchContext c) (portalIdentityToInbound pid) s))) as (_ & _ & ->).
  split; [by cbn; unfold recordIdentity; destruct (ctx_Holder _)|].
  destruct (auditEvent_route cfg e vs us (withDefaults (auditOptions cfg)) env served rb ro (cw_status (exec (h env false served).1
    (newCapResponseWriter max))) (cw_headers (exec (h env false served).1 (newCapResponseWriter max)))
    pb pt (len (ops_bytes (h env false served).1)) He Hi Hv Hsm Hsp) as (H1' & H2' & H3' & H4' & H5' & H6').
  split; [exact H1'|]. split; [exact H2'|]. split; [exact H3'|]. split; [exact H4'|]. split; [exact H5'|].
  split; [etransitivity; [exact H6'|]; change (r_Context served) with (r_Context sent); rewrite Hsc; unfold dispatchContext; by rewrite Hid|].
  intros Hc. unfold ev, auditEvent. destruct (RouteForRequest _ _ _) as [gr nm]. cbn [ev_Payload].
  assert (CapturePayloads (withDefaults (auditOptions cfg)) = true) as -> by (unfold withDefaults; by case_if). done.
Qed.

(** C11: try-It runs the route it names.  For every registered route and every form of an identified
    operator that leaves the method as it is, carries no credential of its own (an API key or
    [Authorization] header, an [api_key] parameter) and has a value for each placeholder (any non-empty
    text without a slash that is not a dot segment, whatever needs escaping in it), the dispatched request meets the handler the route's own group mounted,
    with exactly the typed values as path parameters; the operator's reply carries the URL, the
    method, the status, headers and the first MiB of the body that handler wrote, marked as truncated
    when there was more; and one audit event is logged, under the route's group and name, the
    operator's subject, and the status and size of the response. *)
Theorem tryit_dispatches cfg pp oapi (d : Hnd) (e : routeEntry) (f : TryItRequest) (vs us : list string) (pid : PortalIdentity)
  W (RW : ResponseWriter W) (env : Env) (r : Request) (s : State) (w : W) :
  let reg := buildRegistry cfg in
  let mw := endpointMW (pp_chain pp) reg (auditOptions cfg) in
  let p := WithReplayTarget (NewPortalAPI cfg reg (pp_keys pp)) (muxOver cfg pp mw oapi d) in
  let m := m_Method (re_meta e) in
  let sent := formRequest (r_Context r) m us f in
  forall (He : e ∈ rg_flat reg) (Hroute : findRoute p (PathValue r "group") (PathValue r "route") = Some (re_meta e))
    (Hform : readTryIt r = Ok f) (Hmethod : ti_Method f = "" \/ ti_Method f = m)
    (Hi : instance (re_segs e) vs = Some us) (Hv : forallb typedSegment vs = true)
    (Hparams : Forall2 (fun n v => ti_PathParams f !! n = Some v) (wildNames (re_segs e)) vs)
    (Hid : GetIdentity (r_Context r) = Some pid) (Hcred : hasInboundCredential sent = false),
  exists g h ev, g ∈ rg_groups reg /\ g_Name g = re_group e /\ (patternText (re_meta e), h) ∈ g_Mount g /\
    let served := WithPathValues sent (list_to_map (zip (wildNames (re_segs e)) vs)) in
    let ops := (h (nestedEnv env) false served).1 in
    let rec := exec ops (newCapResponseWriter tryItMaxBodyBytes) in
    let out := tryIt p W RW env r (s, w) in
    out.2 = exec (writeJSON 200 (json_tryIt (withQuery (join_path (map PathEscape us)) (formQuery f)) m rec)) w /\
    capHolds (ops_bytes ops) rec /\
    sv_audit out.1 = match lg_Log (env_eventID (nestedEnv env)) ev (sv_audit s) with Ok l => l | Err _ => sv_audit s end /\
    ev_Method ev = m /\ ev_Path ev = join_path us /\ (ev_EndpointGroup ev, ev_RouteName ev) = (re_group e, m_Name (re_meta e)) /\
    ev_Status ev = cw_status rec /\ ev_BytesOut ev = len (ops_bytes ops) /\ ev_UserSubject ev = pi_Subject pid.
Proof.
  intros reg mw p m sent He Hroute Hform Hmethod Hi Hv Hparams Hid Hcred. destruct (typed_values vs Hv) as [Htv _].
  destruct (sent_run cfg pp oapi d (r_Context r) e sent vs us pid (nestedEnv env) s tryItMaxBodyBytes He Hi Hv eq_refl eq_refl eq_refl
              eq_refl Hid Hcred ltac:(done)) as (g & h & ev & Hg & Hgn & Hgm & s' & Hrun & Hrest).
  exists g, h, ev. split; [done|]. split; [done|]. split; [done|]. cbv zeta in *.
  assert (Hreq : tryItRequest (r_Context r) (re_meta e) f = Ok (m, withQuery (join_path (map PathEscape us)) (formQuery f), sent)).
  { apply (tryItRequest_route cfg e _ f vs us He Hi); [|done|done]. clear -Hparams Htv.
    induction Hparams as [|n v ns vs Hn Hns IH]; [done|]. cbn in Htv. apply andb_true_iff in Htv as [? ?]. auto. }
  unfold tryIt. change (pa_replayTarget p) with (Some (muxOver cfg pp mw oapi d)). cbn [fst snd].
  rewrite Hroute, Hform, Hreq. unfold dispatchTo. fold reg mw in Hrun. rewrite Hrun. cbn [fst snd].
  destruct Hrest as (Hc & Ha & H1' & H2' & H3' & H4' & H5' & H6' & _). by repeat (split; [done|]).
Qed.
End Operator.

(** ** Witnesses *)

#[local] Existing Instance ascii_tables.
#[local] Existing Instance merge_slice.
#[local] Existing Instance noJson.
#[local] Existing Instance scaledFloat.
#[local] Existing Instance plainHosts.
#[local] Existing Instance nullSlices.
#[local] Existing Instance plainUUID.
#[local] Existing Instance plainLocale.
#[local] Existing Instance plainPostgres.
#[local] Existing Instance plainBcrypt.
#[local] Existing Instance sorted_range.
#[local] Existing Instance sampleOutside.
#[local] Existing Instance memoryStore.
#[local] Existing Instance plainTexts.
#[local] Existing Instance zeroFloats.
#[local] Existing Instance sameNested.
#[local] Existing Instance stillLog.

Definition tryItForm : TryItRequest := mkTryIt "" {["key" := "50% off?"]} ∅ ∅ "".
Definition tryItPost : Request :=
  WithContext (WithPathValues (withKey "POST" "/api/v1/portal/tryit/data/fixed"
    (json_text (JObj [("path_params", JObj [("key", JStr "50% off?")])])) [("X-Requested-With", "spa")])
    {["group" := "data"; "route" := "fixed"]}) (WithPortalIdentity Background sampleUser).

Lemma tryit_dispatches_witness :
  exists g h rec, g_Name g = "data" /\ (patternText (re_meta traceEntry), h) ∈ g_Mount g /\
    (tryIt (WithReplayTarget (NewPortalAPI traceCfg (buildRegistry traceCfg) false)
       (muxOver traceCfg sampleParts (traceMW closedChain) None (respond []))) conn _ (envAt 0) tryItPost (sampleState, newConn)).2 =
    exec (writeJSON 200 (json_tryIt "/v1/fixed/50%25%20off%3F" "GET" rec)) newConn.
Proof.
  destruct (tryit_dispatches traceCfg sampleParts None (respond []) traceEntry tryItForm ["50% off?"] ["v1"; "fixed"; "50% off?"] sampleUser
    conn _ (envAt 0) tryItPost sampleState newConn) as (g & h & ev & Hg & Hgn & Hh & Hout & _).
  - exact traceEntry_in.
  - by vm_compute.
  - by vm_compute.
  - by left.
  - by vm_compute.
  - by vm_compute.
  - repeat constructor.
  - done.
  - by vm_compute.
  - exists g, h. eexists. split; [exact Hgn|]. split; [exact Hh|exact Hout].
Defined.
