(* ===== verification/Reissue.v ===== *)
(** * Replaying a captured request

    An audit event and its payload are turned back into a request: same method, path and query,
    same headers except the credentials, whose captured values are redaction markers, and the same
    body up to a limit.  The replay is marked, so that it is not replayed again. *)
From S2P Require Import Pagination DataEndpoints FailureEndpoints InspectEndpoints SecurityEndpoints.
From S2P Require Import StreamEndpoints ExportEndpoints.
From S2P Require Import Prelude GoStrings GoNum GoTime GoUrl Json JsonParse Http ServeMux Registry AuditEvent MemoryLog Inbound.
From S2P Require Import Middleware Config Session Server Routing BrowserAuth Sql ApiKeys GoUrlParse PortalApi.
From S2P Require Import Aggregations AuditStream Replay PortalServer Handlers EndToEnd Dispatch TryIt.

Lemma filter_all {A} (l : list A) : List.filter (fun _ => true) l = l.
Proof. induction l as [|x l IH]; [done|]. cbn. by rewrite IH. Qed.

(** ** Multi-maps added value by value *)

(** The key-value pairs of entries, in order, and the values of a key among them. *)
Definition pairsOf (es : list (string * list string)) : list (string * string) :=
  mjoin (map (fun e => map (pair e.1) e.2) es).
Definition valuesOf (k : string) (ps : list (string * string)) : list string :=
  map snd (List.filter (fun p => String.eqb p.1 k) ps).
Definition addPair (m : Values) (p : string * string) : Values := Values_add m p.1 p.2.

Lemma valuesOf_app k a b : valuesOf k (a ++ b)%list = (valuesOf k a ++ valuesOf k b)%list.
Proof. unfold valuesOf. by rewrite List.filter_app, map_app. Qed.

Lemma addPair_lookup ps m k :
  foldl addPair m ps !! k = match valuesOf k ps with [] => m !! k | vs => Some (default [] (m !! k) ++ vs)%list end.
Proof.
  revert m. induction ps as [|[a v] ps IH]; intros m; [done|]. cbn [foldl]. rewrite IH. unfold addPair, Values_add, valuesOf.
  cbn [fst snd List.filter]. destruct (String.eqb_spec a k) as [->|Hne].
  - cbn. rewrite lookup_insert_eq. cbn. destruct (map snd _); [done|]. by rewrite <- app_assoc.
  - by rewrite lookup_insert_ne.
Qed.

Lemma foldl_pairs {A} (f : A -> string -> string -> A) (a : A) es :
  foldl (fun a e => foldl (fun a v => f a e.1 v) a e.2) a es = foldl (fun a p => f a p.1 p.2) a (pairsOf es).
Proof.
  revert a. induction es as [|[k vs] es IH]; intros a; [done|]. 
  change (pairsOf ((k, vs) :: es)) with (map (pair k) vs ++ pairsOf es)%list. cbn [foldl]. rewrite foldl_app, <- IH. f_equal. cbn. revert a. induction vs as [|v vs IHv]; intros a; [done|]. cbn. apply IHv.
Qed.

Lemma valuesOf_key k a (vs : list string) : valuesOf k (map (pair a) vs) = if String.eqb a k then vs else [].
Proof.
  unfold valuesOf. induction vs as [|v vs IH]; cbn; [by destruct (String.eqb a k)|].
  destruct (String.eqb a k) eqn:E; cbn; by rewrite IH.
Qed.

Lemma valuesOf_pairs k es : NoDup es.*1 -> valuesOf k (pairsOf es) = default [] ((list_to_map es : Values) !! k).
Proof.
  induction es as [|[a vs] es IH]; [done|]. rewrite fmap_cons. intros [Hn Hnd]%NoDup_cons.
  change (pairsOf ((a, vs) :: es)) with (map (pair a) vs ++ pairsOf es)%list. rewrite valuesOf_app, valuesOf_key, IH by done.
  rewrite list_to_map_cons. destruct (String.eqb_spec a k) as [->|Hne].
  - rewrite lookup_insert_eq. assert ((list_to_map es : Values) !! k = None) as -> by (by apply not_elem_of_list_to_map_1). cbn.
    by rewrite app_nil_r.
  - by rewrite lookup_insert_ne.
Qed.

Lemma filter_keys_nodup (f : string -> bool) (es : list (string * list string)) :
  NoDup es.*1 -> NoDup (List.filter (fun e => f e.1) es).*1.
Proof.
  induction es as [|[a vs] es IH]; [done|]. rewrite fmap_cons. intros [Hn Hnd]%NoDup_cons. cbn. destruct (f a); [|by apply IH].
  apply NoDup_cons. split; [|by apply IH]. intros Hin. apply Hn. apply list_elem_of_fmap in Hin as ([b ws] & Hb & Hin). cbn in Hb. subst b.
  apply list_elem_of_fmap. exists (a, ws). split; [done|]. apply list_elem_of_In, List.filter_In in Hin as [Hin _]. by apply list_elem_of_In.
Qed.
Lemma filter_keys_lookup (f : string -> bool) (es : list (string * list string)) k :
  (list_to_map (List.filter (fun e => f e.1) es) : Values) !! k = if f k then (list_to_map es : Values) !! k else None.
Proof.
  induction es as [|[a vs] es IH]; [by destruct (f k)|]. cbn [List.filter fst]. destruct (f a) eqn:E.
  - rewrite !list_to_map_cons. destruct (String.eqb_spec a k) as [->|Hne]; [by rewrite !lookup_insert_eq, E|].
    by rewrite !lookup_insert_ne, IH.
  - rewrite IH, list_to_map_cons. destruct (f k) eqn:Ek; [|done]. by rewrite lookup_insert_ne by congruence.
Qed.

(** Adding the entries with the keys that [f] admits gives the map restricted to them. *)
Lemma add_filtered (f : string -> bool) (m : Values) es k : es ≡ₚ map_to_list m -> map_Forall (fun _ vs => vs <> []) m ->
  foldl addPair ∅ (pairsOf (List.filter (fun e => f e.1) es)) !! k = if f k then m !! k else None.
Proof.
  intros Hes Hne. assert (Hnd : NoDup es.*1) by (rewrite Hes; apply NoDup_fst_map_to_list).
  assert (Hm : list_to_map es = m).
  { rewrite (list_to_map_proper es (map_to_list m)) by done. apply list_to_map_to_list. }
  rewrite addPair_lookup, lookup_empty, valuesOf_pairs by (by apply filter_keys_nodup). rewrite filter_keys_lookup, Hm.
  destruct (f k); [|done]. destruct (m !! k) as [vs|] eqn:E; [|done]. cbn. specialize (Hne k vs E). by destruct vs.
Qed.

(** ** Encoded queries are read back *)

Definition pairText (p : string * string) : string := QueryEscape p.1 ++ "=" ++ QueryEscape p.2.

Lemma QueryUnescape_Escape s : QueryUnescape (QueryEscape s) = Some s.
Proof.
  unfold QueryEscape. induction s as [|c s IH]; [done|]. cbn [list_ascii_of_string map sconcat foldr] in *.
  set (rest := foldr _ _ _) in *. change (QueryUnescape rest = Some s) in IH.
  assert (Hc : QueryUnescape ((if queryByte c then str1 c else if Ascii.eqb c " " then "+" else String "%"
     (String (hexDigit (byte c / 16)) (str1 (hexDigit (byte c mod 16))))) ++ rest) = String c <$> QueryUnescape rest)
    by (by destruct c as [[] [] [] [] [] [] [] []]).
  rewrite Hc, IH. done.
Qed.

(** The bytes of an escaped key or value keep clear of the separators. *)
Lemma QueryEscape_absent s c : negb (queryByte c || Ascii.eqb c "+" || Ascii.eqb c "%") = true -> ContainsByte (QueryEscape s) c = false.
Proof.
  intros Hc. apply (string_forallb_no_byte (fun c => queryByte c || Ascii.eqb c "+" || Ascii.eqb c "%")); [by apply negb_true_iff|].
  clear. unfold QueryEscape. induction s as [|c s IH]; [done|]. cbn [list_ascii_of_string map sconcat foldr] in *.
  rewrite string_forallb_app. unfold sconcat in IH. rewrite IH, andb_true_r. by destruct c as [[] [] [] [] [] [] [] []].
Qed.

Lemma parse_pairText p : parse_piece (pairText p) = Some p.
Proof.
  unfold parse_piece, pairText. change ("=" ++ QueryEscape p.2) with (String "=" (QueryEscape p.2)).
  assert (ContainsByte (QueryEscape p.1 ++ String "=" (QueryEscape p.2)) ";" = false) as ->.
  { rewrite ContainsByte_app. cbn [ContainsByte]. by rewrite !QueryEscape_absent. }
  assert (String.eqb (QueryEscape p.1 ++ String "=" (QueryEscape p.2)) "" = false) as -> by (by destruct (QueryEscape p.1)).
  cbn [orb]. rewrite Cut_found by (by apply QueryEscape_absent). rewrite !QueryUnescape_Escape. by destruct p.
Qed.
Lemma pairText_amp p : ContainsByte (pairText p) "&" = false.
Proof. unfold pairText. rewrite !ContainsByte_app. by rewrite !QueryEscape_absent. Qed.

Lemma Split_pairs ps : ps <> [] -> Split (Join (map pairText ps) "&") "&" = map pairText ps.
Proof.
  intros Hne. induction ps as [|p ps IH]; [done|]. destruct ps as [|p' ps].
  - cbn. apply Split_absent, pairText_amp.
  - change (Join (map pairText (p :: p' :: ps)) "&") with (pairText p ++ String "&" (Join (map pairText (p' :: ps)) "&")).
    rewrite Split_app by apply pairText_amp. by rewrite IH.
Qed.

Lemma map_mjoin {A B C} (f : B -> C) (g : A -> list B) l : map f (mjoin (map g l)) = mjoin (map (fun x => map f (g x)) l).
Proof. induction l as [|x l IH]; [done|]. simpl. by rewrite map_app, IH. Qed.

Lemma EncodeAll_pairs m : Values_EncodeAll m = Join (map pairText (pairsOf (sorted_entries m))) "&".
Proof.
  unfold Values_EncodeAll, pairsOf. rewrite map_mjoin. do 2 f_equal. apply map_ext. intros [k vs]. cbn. by rewrite map_map.
Qed.

(** [url.ParseQuery] inverts [Values.Encode] on maps without empty lists. *)
Lemma ParseQuery_EncodeAll m : map_Forall (fun _ vs => vs <> []) m -> ParseQuery (Values_EncodeAll m) = m.
Proof.
  intros Hne. assert (Hadd : foldl addPair ∅ (pairsOf (sorted_entries m)) = m).
  { apply map_eq. intros k. pose proof (add_filtered (fun _ => true) m _ k (sorted_entries_perm m) Hne) as Ha.
    by rewrite filter_all in Ha. }
  rewrite EncodeAll_pairs.
  destruct (pairsOf (sorted_entries m)) as [|p ps] eqn:E; [by rewrite <- Hadd|]. rewrite <- E in *.
  unfold ParseQuery. rewrite Split_pairs by (by rewrite E). etransitivity; [|exact Hadd]. clear.
  generalize (∅ : Values). induction (pairsOf _) as [|p ps IH]; intros a; [done|]. cbn [map foldl]. rewrite IH. f_equal.
  unfold Values_step. rewrite parse_pairText. by destruct p.
Qed.

(** ** The replayed request *)

Section Replayed.
Context `{UnicodeTables} `{UrlHost} `{ErrorTexts} `{MapRange}.

Lemma EqualFold_refl s : EqualFold s s = true.
Proof. unfold EqualFold. induction (utf8_decode s) as [|c l IH]; [done|]. cbn. by rewrite Z.eqb_refl. Qed.

(** What the server's own parsers put into a payload. *)
Definition capturedMaps (p : Payload) : Prop :=
  map_Forall (fun k vs => CanonicalHeaderKey k = k /\ vs <> []) (RequestHeaders p) /\ map_Forall (fun _ vs => vs <> []) (RequestQuery p).
(** The request was not a replay itself, as far as the payload tells. *)
Definition unmarked (p : Payload) : Prop := map_Forall (fun k _ => EqualFold k replayHeaderMarker = false) (RequestHeaders p).

Definition replayQuery (p : Payload) : string :=
  if bool_decide (RequestQuery p = ∅) then ""
  else Values_EncodeAll (addValues (List.filter (fun e => negb (isRedactedCredentialQuery e.1)) (range (RequestQuery p)))).
Definition replayHeader (id : string) (p : Payload) : Header :=
  let h := addHeaders ∅ (List.filter (fun e => negb (isRedactedCredentialHeader e.1)) (range (RequestHeaders p))) in
  let h := Header_Set h replayHeaderMarker id in
  setHeaderIf (negb (String.eqb (RequestContentType p) "") && String.eqb (Header_Get h "Content-Type") "") h "Content-Type" (RequestContentType p).
Definition replayed (c : Context) (id : string) (ev : Event) (p : Payload) (us : list string) : Request :=
  mkRequest (ev_Method ev) (join_path us) (join_path (map PathEscape us)) (replayQuery p) (replayHeader id p) "" false ""
    (Some (limitBody replayMaxBodyBytes (RequestBody p))) ∅ [] (dispatchContext c).

Lemma replayQuery_values p : capturedMaps p ->
  forall k, ParseQuery (replayQuery p) !! k = if isRedactedCredentialQuery k then None else RequestQuery p !! k.
Proof.
  intros [_ Hq] k. unfold replayQuery. case_bool_decide as E.
  - rewrite E, lookup_empty. by destruct (isRedactedCredentialQuery k).
  - set (f := fun k => negb (isRedactedCredentialQuery k)).
    assert (Ha : forall k, addValues (List.filter (fun e => f e.1) (range (RequestQuery p))) !! k = if f k then RequestQuery p !! k else None).
    { intros k'. unfold addValues. rewrite (foldl_pairs Values_add). by apply (add_filtered f _ _ k' (range_perm _)). }
    rewrite ParseQuery_EncodeAll; [rewrite Ha; unfold f; by destruct (isRedactedCredentialQuery k)|].
    intros k' vs. rewrite Ha. destruct (f k'); [|done]. apply Hq.
Qed.

Lemma addHeaders_canonical es : Forall (fun e : string * list string => CanonicalHeaderKey e.1 = e.1) es ->
  addHeaders ∅ es = foldl addPair ∅ (pairsOf es).
Proof.
  intros Hes. unfold addHeaders. rewrite (foldl_pairs Header_Add). generalize (∅ : Header).
  assert (Hp : Forall (fun p => CanonicalHeaderKey p.1 = p.1) (pairsOf es)).
  { apply Forall_forall. intros p Hp. unfold pairsOf in Hp. apply list_elem_of_join in Hp as (l & Hp & Hl).
    apply list_elem_of_fmap in Hl as (e & -> & He). apply list_elem_of_fmap in Hp as (v & -> & _).
    rewrite Forall_forall in Hes. by apply Hes. }
  induction Hp as [|p ps Hp Hps IH]; intros h; [done|]. cbn [foldl]. rewrite IH. f_equal. unfold Header_Add, addPair. by rewrite Hp.
Qed.

Lemma replayHeader_values id p : capturedMaps p -> forall k, k <> replayHeaderMarker -> k <> "Content-Type" ->
  replayHeader id p !! k = if isRedactedCredentialHeader k then None else RequestHeaders p !! k.
Proof.
  intros [Hh _] k Hk1 Hk2. set (f := fun k => negb (isRedactedCredentialHeader k)). unfold replayHeader.
  rewrite addHeaders_canonical.
  - assert (Hset : forall b h v, setHeaderIf b h "Content-Type" v !! k = h !! k).
    { intros b h v. destruct b; [|done]. cbn. unfold Header_Set. by rewrite lookup_insert_ne. }
    rewrite Hset. unfold Header_Set. rewrite lookup_insert_ne by done.
    rewrite (add_filtered f (RequestHeaders p) _ k (range_perm _)); [unfold f; by destruct (isRedactedCredentialHeader k)|].
    intros k' vs Hk'. by apply (Hh k' vs).
  - apply Forall_forall. intros [k' vs] Hin. apply list_elem_of_In, List.filter_In in Hin as [Hin _]. apply list_elem_of_In in Hin.
    rewrite (range_perm (RequestHeaders p)) in Hin. apply elem_of_map_to_list in Hin. by apply (Hh k' vs).
Qed.

Lemma replayHeader_marker id p : Header_Get (replayHeader id p) replayHeaderMarker = id.
Proof.
  unfold replayHeader. destruct (_ && _); cbn [setHeaderIf]; [|apply Header_Get_Set].
  rewrite Header_Get_Set_ne by done. apply Header_Get_Set.
Qed.

(** No credential is replayed: the operator's identity is what counts. *)
Lemma replayed_no_credential c id ev p us : capturedMaps p -> hasInboundCredential (replayed c id ev p us) = false.
Proof.
  intros Hp. unfold hasInboundCredential.
  assert (Hh : forall k, CanonicalHeaderKey k <> replayHeaderMarker -> CanonicalHeaderKey k <> "Content-Type" ->
     isRedactedCredentialHeader (CanonicalHeaderKey k) = true -> h_Get (replayed c id ev p us) k = "").
  { intros k Hk1 Hk2 Hk3. unfold h_Get, Header_Get, Values_Get. cbn [r_Header replayed]. by rewrite replayHeader_values, Hk3. }
  rewrite !Hh by done. unfold q_Get, r_Query, Values_Get. cbn [r_RawQuery replayed]. rewrite replayQuery_values by done.
  unfold isRedactedCredentialQuery. by rewrite EqualFold_refl.
Qed.

Lemma unmarked_range p : unmarked p -> existsb (fun e => EqualFold e.1 replayHeaderMarker) (range (RequestHeaders p)) = false.
Proof.
  intros Hu. apply not_true_iff_false. intros Hex. apply existsb_exists in Hex as ([k vs] & Hin & Hk). apply list_elem_of_In in Hin.
  rewrite (range_perm (RequestHeaders p)) in Hin. apply elem_of_map_to_list in Hin. specialize (Hu k vs Hin). cbn [fst] in Hk.
  rewrite Hu in Hk. discriminate Hk.
Qed.

Lemma replayQuery_bytes p : string_forallb queryChar (replayQuery p) = true.
Proof. unfold replayQuery. case_bool_decide; [done|]. apply EncodeAll_bytes. Qed.

(** A captured path without bytes that need escaping is parsed back to itself. *)
Lemma replayRequest_plain c id ev p us : us <> [] -> Forall (fun u => u <> "") us ->
  Forall (fun u => string_forallb (fun b => negb (shouldEscape encodePathSegment b)) u = true) us ->
  ev_Path ev = join_path us -> ev_Method ev <> "" -> string_forallb tokenByte (ev_Method ev) = true -> unmarked p ->
  replayRequest c id ev p = Ok (replayed c id ev p us).
Proof.
  intros Hne Hus Hpl Hpath Hm Htok Hun.
  assert (Hesc : map PathEscape us = us).
  { clear -Hpl. induction Hpl as [|u us Hu Hus IH]; [done|]. cbn. rewrite IH. f_equal. by apply escape_id. }
  unfold replayRequest. rewrite Hpath.
  pose proof (Parse_rooted us "" Hne Hus eq_refl) as Hp0. unfold withQuery in Hp0. cbn [String.eqb] in Hp0.
  rewrite sapp_nil_r, Hesc in Hp0. rewrite Hp0. set (u := if bool_decide _ then _ else _).
  assert (Hu : u = rootedURL us (replayQuery p)) by (unfold u, replayQuery; by case_bool_decide).
  rewrite Hu, URL_String_rooted by done. unfold NewRequestWithContext.
  rewrite (proj2 (String.eqb_neq _ _) Hm), Htok. cbn [negb].
  rewrite Parse_rooted by (done || apply replayQuery_bytes). rewrite EscapedPath_rooted by done.
  by rewrite unmarked_range.
Qed.
End Replayed.

Section Reissue.
Context `{UnicodeTables} `{JsonAny} `{Float64} `{UrlHost} `{SliceJSON} `{UUID} `{ErrorTexts} `{Postgres} `{Bcrypt}.
Context `{FloatEnv} `{MapRange} `{SortSlice} `{Nested}.
Context {L : Type} `{!Logger L} `{!PortalStore L} `{!Observed L}.
Context `{Outside}.
Abbreviation State := (ServerState L).
Abbreviation Hnd := (Handler State).

(** Segments without a byte that needs escaping. *)
Definition unescaped (us : list string) : Prop :=
  Forall (fun u => string_forallb (fun b => negb (shouldEscape encodePathSegment b)) u = true) us.

Definition belowV1 (ps : list string) : bool := match ps with p :: _ :: _ => String.eqb p "v1" | _ => false end.
Lemma route_v1 cfg e vs us : e ∈ rg_flat (buildRegistry cfg) -> instance (re_segs e) vs = Some us -> HasPrefix (join_path us) "/v1/" = true.
Proof.
  intros He. assert (Hall : Forall (fun e => belowV1 (re_segs e) = true) (fullFlat (au_RedactKeys (cf_Audit cfg))))
    by (apply (bool_decide_unpack _); by vm_compute).
  rewrite Forall_forall in Hall. assert (Hv : belowV1 (re_segs e) = true).
  { apply Hall. eapply elem_of_submseteq; [exact He|]. rewrite buildRegistry_flat.
    apply sublist_submseteq, sublist_mjoin, buildRegistry_groups. }
  destruct (re_segs e) as [|p [|p' ps]]; [done..|]. apply String.eqb_eq in Hv as ->.
  change (instance ("v1" :: p' :: ps) vs) with (cons "v1" <$> instance (p' :: ps) vs).
  destruct (instance (p' :: ps) vs) as [us'|] eqn:E; [|done]. intros [= <-].
  pose proof (instance_nonempty _ _ _ E ltac:(done)) as Hne. by destruct us'.
Qed.

(** C12: a replay reproduces the captured request.  For an event whose path is an instance of a
    registered route without bytes that need escaping, and whose payload was captured from a request
    that was no replay, [POST /api/v1/portal/audit/replay/{id}] runs the handler of that same route
    with the same method, path and path parameters, the captured query parameters except the API
    key, the captured headers except the credential headers, and the captured body up to 1 MiB, as
    the operator; the operator gets that handler's response, and one audit event is logged for it
    whose payload, when payloads are captured, points back to the replayed event. *)
Theorem replay_reproduces cfg pp oapi (d : Hnd) (e : routeEntry) (vs us : list string) (pid : PortalIdentity) (id : string)
  (ev : Event) (evs : list Event) (pl : PayloadLogger L) (p : Payload) W (RW : ResponseWriter W) (env : Env) (r : Request) (s : State) (w : W) :
  let reg := buildRegistry cfg in
  let mw := endpointMW (pp_chain pp) reg (auditOptions cfg) in
  let api := WithReplayTarget (NewPortalAPI cfg reg (pp_keys pp)) (muxOver cfg pp mw oapi d) in
  forall (He : e ∈ rg_flat reg) (Hi : instance (re_segs e) vs = Some us) (Hv : forallb typedSegment vs = true) (Hus : unescaped us)
    (Huuid : uuid_Parse (PathValue r "id") = Some id) (Hev : lg_Query (byID id) (sv_audit s) = Ok (ev :: evs))
    (Hm : ev_Method ev = m_Method (re_meta e)) (Hpath : ev_Path ev = join_path us)
    (Hpl : ps_payloads = Some pl) (Hp : @lg_GetPayload L pl id (sv_audit s) = Ok (Some p))
    (Hcap : capturedMaps p) (Hun : unmarked p) (Hid : GetIdentity (r_Context r) = Some pid),
  exists g h sent ev', g ∈ rg_groups reg /\ g_Name g = re_group e /\ (patternText (re_meta e), h) ∈ g_Mount g /\
    r_Method sent = ev_Method ev /\ r_Path sent = ev_Path ev /\ r_Body sent = Some (limitBody replayMaxBodyBytes (RequestBody p)) /\
    (forall k, r_Query sent !! k = if isRedactedCredentialQuery k then None else RequestQuery p !! k) /\
    (forall k, k <> replayHeaderMarker -> k <> "Content-Type" ->
       r_Header sent !! k = if isRedactedCredentialHeader k then None else RequestHeaders p !! k) /\
    let served := WithPathValues sent (list_to_map (zip (wildNames (re_segs e)) vs)) in
    let ops := (h (nestedEnv env) false served).1 in
    let rec := exec ops (newCapResponseWriter replayMaxBodyBytes) in
    let out := auditReplay api W RW env r (s, w) in
    out.2 = exec (writeJSON 200 (json_replay id rec)) w /\ capHolds (ops_bytes ops) rec /\
    sv_audit out.1 = match lg_Log (env_eventID (nestedEnv env)) ev' (sv_audit s) with Ok l => l | Err _ => sv_audit s end /\
    (ev_EndpointGroup ev', ev_RouteName ev') = (re_group e, m_Name (re_meta e)) /\ ev_Status ev' = cw_status rec /\
    ev_UserSubject ev' = pi_Subject pid /\
    (CapturePayloads (auditOptions cfg) = true -> ReplayedFrom <$> ev_Payload ev' = Some id).
Proof.
  intros reg mw api He Hi Hv Hus Huuid Hev Hm Hpath Hpl Hp Hcap Hun Hid.
  destruct (flat_entry_ok cfg e He) as (_ & Hok & Hne). destruct (flat_template cfg e He) as (_ & _ & Hm0 & Htok).
  destruct (typed_values vs Hv) as [Htv _]. set (sent := replayed (r_Context r) id ev p us).
  destruct (sent_run cfg pp oapi d (r_Context r) e sent vs us pid (nestedEnv env) s replayMaxBodyBytes He Hi Hv Hm eq_refl eq_refl
              eq_refl Hid (replayed_no_credential _ _ _ _ _ Hcap) ltac:(done)) as (g & h & ev' & Hg & Hgn & Hgm & s' & Hrun & Hrest).
  exists g, h, sent, ev'. split; [done|]. split; [done|]. split; [done|]. split; [done|]. split; [done|]. split; [done|].
  split; [by apply replayQuery_values|]. split; [by apply replayHeader_values|]. cbv zeta in *.
  assert (Hreq : replayRequest (r_Context r) id ev p = Ok sent).
  { apply replayRequest_plain; [by eapply instance_nonempty| |done|done|by rewrite Hm|by rewrite Hm|done].
    eapply Forall_impl; [by eapply instance_values|]. by intros u []. }
  unfold auditReplay. change (pa_replayTarget api) with (Some (muxOver cfg pp mw oapi d)). cbn [fst snd].
  rewrite Huuid, Hev, Hpath, (route_v1 cfg e vs us He Hi), Hpl, Hp, Hreq. cbn [negb]. unfold dispatchTo. fold reg mw in Hrun. rewrite Hrun.
  cbn [fst snd]. destruct Hrest as (Hc & Ha & _ & _ & H3' & H4' & _ & H6' & H7'). split; [done|]. split; [done|].
  split; [done|]. split; [done|]. split; [done|]. split; [done|]. intros Hcp. rewrite (H7' Hcp). f_equal.
  apply replayHeader_marker.
Qed.

(** A replay is not replayed again, if its headers were captured.  Every payload the audit
    middleware records for a marked request with header capture on is refused by the replay handler;
    with header capture off the marker is not recorded, and the same payload is replayed like any
    other. *)
Theorem replay_loop_guard (opts : AuditOptions) (sent : Request) (rb : string) (ro : bool) (rh : Header) (pb : string) (pt : bool) (n : Z)
  (c : Context) (id : string) (ev : Event) (us : list string)
  (Hmark : r_Header sent !! replayHeaderMarker <> None) (Hne : us <> []) (Hseg : Forall (fun u => u <> "") us) (Hus : unescaped us)
  (Hpath : ev_Path ev = join_path us) (Hm : ev_Method ev <> "") (Htok : string_forallb tokenByte (ev_Method ev) = true) :
  let p := auditPayload opts sent rb ro rh pb pt n in
  if CaptureHeaders opts
  then replayRequest c id ev p = Err (400, "captured request already carries the replay marker — refusing to replay a replay")
  else replayRequest c id ev p = Ok (replayed c id ev p us).
Proof.
  intros p. destruct (CaptureHeaders opts) eqn:E.
  - assert (Hin : exists vs, RequestHeaders p !! replayHeaderMarker = Some vs).
    { unfold p, auditPayload. cbn [RequestHeaders]. rewrite E, Sanitize_lookup. destruct (r_Header sent !! replayHeaderMarker); [by eexists|done]. }
    destruct Hin as [vs Hin].
    assert (Hex : existsb (fun e => EqualFold e.1 replayHeaderMarker) (range (RequestHeaders p)) = true).
    { apply existsb_exists. exists (replayHeaderMarker, vs). split; [|apply EqualFold_refl].
      apply list_elem_of_In. rewrite (range_perm (RequestHeaders p)). by apply elem_of_map_to_list. }
    set (q := mkPayload ∅ (RequestQuery p) (RequestContentType p) (RequestBody p) (RequestSizeBytes p) (RequestTruncated p) (RequestRemoteAddr p)
      (ResponseHeaders p) (ResponseContentType p) (ResponseBody p) (ResponseSizeBytes p) (ResponseTruncated p) (ReplayedFrom p)).
    pose proof (replayRequest_plain c id ev q us Hne Hseg Hus Hpath Hm Htok (map_Forall_empty _)) as Hq.
    unfold replayRequest in *. change (RequestQuery q) with (RequestQuery p) in Hq. change (RequestBody q) with (RequestBody p) in Hq.
    destruct (Parse (ev_Path ev)) as [u|]; [|done]. destruct (NewRequestWithContext _ _ _ _); [|done]. by rewrite Hex.
  - apply replayRequest_plain; [done..|]. unfold unmarked, p, auditPayload. cbn [RequestHeaders]. rewrite E. apply map_Forall_empty.
Qed.
End Reissue.

(** ** Witnesses *)

#[local] Existing Instance ascii_tables.
#[local] Existing Instance merge_slice.
#[local] Existing Instance noJson.
#[local] Existing Instance scaledFloat.
#[local] Existing Instance plainHosts.
#[local] Existing Instance nullSlices.
#[local] Existing Instance plainUUID.
#[local] Existing Instance plainLocale.
#[local] Existing Instance plainPostgres.
#[local] Existing Instance plainBcrypt.
#[local] Existing Instance sorted_range.
#[local] Existing Instance sampleOutside.
#[local] Existing Instance memoryStore.
#[local] Existing Instance plainTexts.
#[local] Existing Instance zeroFloats.
#[local] Existing Instance sameNested.
#[local] Existing Instance stillLog.

(** [GET /v1/fixed/k1?x=1&api_key=...] as the audit log keeps it. *)
Definition keptPayload : Payload :=
  mkPayload {["Accept" := ["*/*"]; "X-Api-Key" := ["[redacted]"]]} {["x" := ["1"]; "api_key" := ["[redacted]"]]} "" "" 0 false "10.0.0.1:5"
    ∅ "" "" 0 false "".
Definition keptEvent : Event := mkEvent sampleUUID 5 1 "req-1" "" "" "" "apikey" "dev" "GET" "/v1/fixed/k1" "fixed" "data" 200 0 10 true "" ""
  "10.0.0.1:5" "" (Some keptPayload).
Definition keptState : ServerState MemoryLogger :=
  mkState (match Log sampleUUID keptEvent NewMemoryLogger with Ok l => l | Err _ => NewMemoryLogger end) None [] "" true ∅ [].
Definition replayPost : Request :=
  WithContext (WithPathValues (withKey "POST" ("/api/v1/portal/audit/replay/" ++ sampleUUID) "" [("X-Requested-With", "spa")])
    {["id" := sampleUUID]}) (WithPortalIdentity Background sampleUser).

Lemma replay_reproduces_witness :
  exists sent, r_Path sent = "/v1/fixed/k1" /\ r_Query sent !! "x" = Some ["1"] /\ r_Query sent !! "api_key" = None /\
    exists rec, (auditReplay (WithReplayTarget (NewPortalAPI traceCfg (buildRegistry traceCfg) false)
       (muxOver traceCfg sampleParts (traceMW closedChain) None (respond []))) conn _ (envAt 0) replayPost (keptState, newConn)).2 =
    exec (writeJSON 200 (json_replay sampleUUID rec)) newConn.
Proof.
  assert (Hev : exists ev evs, lg_Query (byID sampleUUID) (sv_audit keptState) = Ok (ev :: evs) /\ ev_Method ev = "GET" /\ ev_Path ev = "/v1/fixed/k1").
  { do 2 eexists. split; [by vm_compute|by vm_compute]. }
  destruct Hev as (ev & evs & Hev & Hm & Hpath).
  destruct (replay_reproduces traceCfg sampleParts None (respond []) traceEntry ["k1"] ["v1"; "fixed"; "k1"] sampleUser sampleUUID
    ev evs MemoryLogger_PayloadLogger keptPayload conn _ (envAt 0) replayPost keptState newConn)
    as (g & h & sent & ev' & _ & _ & _ & _ & Hp & _ & Hq & _ & Hout & _).
  - exact traceEntry_in.
  - by vm_compute.
  - by vm_compute.
  - repeat constructor.
  - by vm_compute.
  - exact Hev.
  - rewrite Hm. by vm_compute.
  - rewrite Hpath. by vm_compute.
  - done.
  - by vm_compute.
  - split; apply (bool_decide_unpack _); by vm_compute.
  - apply (bool_decide_unpack _). by vm_compute.
  - done.
  - exists sent. split; [by rewrite Hp|]. split; [rewrite Hq; by vm_compute|]. split; [rewrite Hq; by vm_compute|].
    eexists. exact Hout.
Defined.

Definition markedRequest : Request :=
  WithHeader (anonRequest "GET") (Header_Set ∅ replayHeaderMarker sampleUUID).
Lemma replay_loop_guard_witness :
  replayRequest Background sampleUUID keptEvent (auditPayload (mkAuditOptions true true 100 []) markedRequest "" false ∅ "" false 0) =
  Err (400, "captured request already carries the replay marker — refusing to replay a replay").
Proof.
  apply (replay_loop_guard (mkAuditOptions true true 100 []) markedRequest "" false ∅ "" false 0 Background sampleUUID keptEvent ["v1"; "fixed"; "k1"]);
    [by vm_compute|done|repeat constructor; done|repeat constructor|done|done|done].
Defined.
