(* ===== verification/AuthContext.v ===== *)
(** * Values of a portal request's context ([pkg/auth/context.go])

    Four typed keys in a [context.Context]; headers are stored as a redacted copy. *)
From S2P Require Import Prelude GoStrings GoNum GoTime GoUrl Json Http.

Module AuthContext.

Record ctx := mkCtx { keyIdentity : option PortalIdentity; keyHeaders : option Header; keyRequestID : option string; keyRemoteAddr : option string }.
Definition background : ctx := mkCtx None None None None.

Definition WithIdentity (c : ctx) (id : PortalIdentity) : ctx := mkCtx (Some id) (keyHeaders c) (keyRequestID c) (keyRemoteAddr c).
Definition GetIdentity (c : ctx) : option PortalIdentity := keyIdentity c.

Definition sensitiveHeaders : list string := ["Authorization"; "Proxy-Authorization"; "Cookie"; "Set-Cookie"; "X-Api-Key"].
Definition isSensitive (k : string) : bool := existsb (String.eqb (CanonicalHeaderKey k)) sensitiveHeaders.

(** [None]: a nil header map. *)
Definition RedactHeaders (h : option Header) : option Header :=
  match h with
  | Some m => Some (map_imap (fun k vs => Some (if isSensitive k then ["[redacted]"] else vs)) m)
  | None => None
  end.

Definition WithHeaders (c : ctx) (h : option Header) : ctx := mkCtx (keyIdentity c) (RedactHeaders h) (keyRequestID c) (keyRemoteAddr c).
Definition GetHeaders (c : ctx) : option Header := keyHeaders c.
Definition WithRequestID (c : ctx) (id : string) : ctx := mkCtx (keyIdentity c) (keyHeaders c) (Some id) (keyRemoteAddr c).
Definition GetRequestID (c : ctx) : string := default "" (keyRequestID c).
Definition WithRemoteAddr (c : ctx) (addr : string) : ctx := mkCtx (keyIdentity c) (keyHeaders c) (keyRequestID c) (Some addr).
Definition GetRemoteAddr (c : ctx) : string := default "" (keyRemoteAddr c).

(** [auth.Anonymous]. *)
Definition Anonymous : PortalIdentity := mkPortalIdentity "anonymous" "" "" "anonymous" ∅ "".

(** Headers read back from a context: every name is kept, every other value is, and a credential
    header, in whatever case its name was written, carries only the marker. *)
Theorem headers_redacted (c : ctx) (h : Header) (k : string) :
  (match GetHeaders (WithHeaders c (Some h)) with Some m => m !! k | None => None end) =
  (if existsb (String.eqb (CanonicalHeaderKey k)) ["Authorization"; "Proxy-Authorization"; "Cookie"; "Set-Cookie"; "X-Api-Key"]
   then match h !! k with Some _ => Some ["[redacted]"] | None => None end else h !! k).
Proof.
  unfold GetHeaders, WithHeaders, RedactHeaders. cbn [keyHeaders].
  rewrite map_lookup_imap. unfold isSensitive. change sensitiveHeaders with ["Authorization"; "Proxy-Authorization"; "Cookie"; "Set-Cookie"; "X-Api-Key"].
  destruct (existsb _ _), (h !! k); done.
Qed.
End AuthContext.
