(* ===== verification/Boot.v ===== *)
(** * Building the application ([internal/server/server.go], [cmd/api-test/main.go])

    [Build] opens the database, makes the credential chain, the registry, the portal and the OpenAPI
    document and composes the handler; each step can fail.  What it reaches outside the program is the
    class [Surroundings]: the migration library, the connection pool, the identity provider, the
    embedded files and the YAML encoder. *)
From S2P Require Import Pagination DataEndpoints FailureEndpoints InspectEndpoints SecurityEndpoints.
From S2P Require Import StreamEndpoints ExportEndpoints.
From S2P Require Import Prelude GoStrings GoNum Sha256 GoTime GoUrl Json JsonParse Http ServeMux Registry AuditEvent MemoryLog Inbound.
From S2P Require Import Middleware Config Oidc Session Server Routing OpenApi OpenApiJson BrowserAuth Sql ApiKeys GoUrlParse PortalApi.
From S2P Require Import Aggregations AuditStream Replay PortalServer EndToEnd Dispatch.

(** The two operations on a [*migrate.Migrate], and what they say. *)
Inductive migrateOp := MigrateUp | MigrateDown.
Inductive migrateResult := Applied | ErrNoChange | MigrateError (msg : string).

(** [pgxpool.Config], the fields the program sets. *)
Record PoolConfig := mkPoolConfig { pc_ConnString : string; pc_MaxConns : Z; pc_MinConns : Z; pc_MaxConnLifetime : Duration }.

Class Surroundings := {
  migrationSource : option string;                       (** error of [iofs.New] *)
  migrateInit : string -> option string;                 (** error of [migrate.NewWithSourceInstance] *)
  migrateApply : migrateOp -> string -> migrateResult;   (** [m.Up()], [m.Down()] *)
  poolParse : string -> res string PoolConfig;           (** [pgxpool.ParseConfig] *)
  poolConnect : PoolConfig -> option string;             (** error of [pgxpool.NewWithConfig] *)
  poolPing : PoolConfig -> option string;
  providerNet : Net; bootTime : Time;                    (** the identity provider at start-up *)
  dbKeyStore : APIKeyStore;                              (** the key table, through [AsInboundStore] *)
  distDir : option (list string);                        (** the names in the embedded dist/, if it reads *)
  distSub : res string SpaFS;                            (** [fs.Sub(distFS, "dist")] *)
  renderYAML : Document -> res string string
}.

(** ** [pkg/database] *)

Definition toMigrateURL (dsn : string) : string :=
  if HasPrefix dsn "postgres://" then "pgx5://" ++ TrimPrefix dsn "postgres://"
  else if HasPrefix dsn "postgresql://" then "pgx5://" ++ TrimPrefix dsn "postgresql://"
  else dsn.

Section Boot.
Context `{Surroundings}.

Definition runMigration (databaseURL : string) (op : migrateOp) : option string :=
  match migrationSource with
  | Some e => Some ("load migrations: " ++ e)
  | None =>
    match migrateInit (toMigrateURL databaseURL) with
    | Some e => Some ("init migrate: " ++ e)
    | None =>
      match migrateApply op (toMigrateURL databaseURL) with
      | Applied | ErrNoChange => None
      | MigrateError e => Some ("apply migrations: " ++ e)
      end
    end
  end.

Definition migrate_Up (databaseURL : string) : option string := runMigration databaseURL MigrateUp.
Definition migrate_Down (databaseURL : string) : option string := runMigration databaseURL MigrateDown.

Definition database_Open (cfg : DatabaseConfig) : res string PoolConfig :=
  match poolParse (dc_URL cfg) with
  | Err e => Err ("parse database url: " ++ e)
  | Ok p =>
    let p := mkPoolConfig (pc_ConnString p) (if 0 <? dc_MaxOpenConns cfg then dc_MaxOpenConns cfg else pc_MaxConns p)
               (if 0 <? dc_MaxIdleConns cfg then dc_MaxIdleConns cfg else pc_MinConns p)
               (if 0 <? dc_ConnMaxLifetime cfg then dc_ConnMaxLifetime cfg else pc_MaxConnLifetime p) in
    match poolConnect p with
    | Some e => Err ("connect: " ++ e)
    | None => match poolPing p with Some e => Err ("ping: " ++ e) | None => Ok p end
    end
  end.

(** ** [internal/ui] *)

Definition ui_Available : bool := match distDir with Some names => existsb (String.eqb "index.html") names | None => false end.
Definition ui_FS : res string SpaFS :=
  match distSub with
  | Err e => Err e
  | Ok sub => if ui_Available then Ok sub else Err "ui: dist/ has no index.html (run `make ui` to build the SPA)"
  end.

(** ** [internal/server] *)

Context `{UnicodeTables} `{JsonAny} `{Float64} `{UrlHost} `{SliceJSON} `{UUID} `{ErrorTexts} `{Postgres} `{Bcrypt}.
Context `{FloatEnv} `{MapRange} `{SortSlice} `{Nested} `{Outside}.

Record Application := mkApplication {
  ap_cfg : Config; ap_pool : option PoolConfig; ap_asyncAudit : bool; ap_dbKeys : bool;
  ap_registry : Registry; ap_chain : Chain; ap_portal : option PortalParts; ap_oapi : string * string }.

(** The error [e] of a step, under the name the code wraps it with. *)
Definition wrapErr {A} (what : string) (x : res string A) : res string A :=
  match x with Ok a => Ok a | Err e => Err (what ++ ": " ++ e) end.

Definition openDatabase (cfg : Config) : res string (option PoolConfig) :=
  if String.eqb (dc_URL (cf_Database cfg)) "" then Ok None
  else match migrate_Up (dc_URL (cf_Database cfg)) with
       | Some e => Err ("migrations: " ++ e)
       | None => p ← wrapErr "database" (database_Open (cf_Database cfg)); Ok (Some p)
       end.

Definition requirePool (enabled : bool) (pool : option PoolConfig) (msg : string) : res string unit :=
  if enabled && bool_decide (pool = None) then Err msg else Ok tt.

(** The validator is made, and its key set fetched, before anything is served. *)
Definition oidcValidator (cfg : Config) : res string (option OIDCAuthenticator) :=
  if oc_Enabled (cf_OIDC cfg) then v ← wrapErr "oidc validator" (NewOIDC providerNet bootTime (cf_OIDC cfg)); Ok (Some v)
  else Ok None.

Definition buildPortal (b : BuildInfo) (cfg : Config) (chain : Chain) (keys : bool) (hasValidator : bool) : res string (option PortalParts) :=
  if negb (po_Enabled (cf_Portal cfg)) then Ok None
  else
    let po := cf_Portal cfg in
    sessions ← wrapErr "session store" (NewSessionStore (po_CookieName po) (po_CookieSecret po) (po_CookieSecure po) 0);
    ba ← (if hasValidator then x ← wrapErr "browser auth" (NewBrowserAuth cfg sessions); Ok (Some x) else Ok None);
    spa ← (if ui_Available then x ← wrapErr "ui fs" ui_FS; Ok (Some x) else Ok None);
    Ok (Some (mkPortalParts b spa ba sessions chain keys)).

(** The two renderings [mountOpenAPI] keeps. *)
Definition renderDoc (doc : Document) : res string (string * string) :=
  j ← wrapErr "render openapi.json" (RenderJSON doc); y ← wrapErr "render openapi.yaml" (renderYAML doc); Ok (j, y).

Definition Build (b : BuildInfo) (cfg : Config) : res string Application :=
  pool ← openDatabase cfg;
  _ ← requirePool (au_Enabled (cf_Audit cfg)) pool "audit.enabled requires database.url";
  _ ← requirePool (kc_DBEnabled (cf_APIKeys cfg)) pool "api_keys.db.enabled requires database.url";
  v ← oidcValidator cfg;
  let hasV := bool_decide (v <> None) in
  let chain := Build_chain cfg (if kc_DBEnabled (cf_APIKeys cfg) then Some dbKeyStore else None) (if hasV then Some validator else None) in
  let registry := buildRegistry cfg in
  portal ← wrapErr "portal" (buildPortal b cfg chain (kc_DBEnabled (cf_APIKeys cfg)) hasV);
  let doc := buildOpenAPI (bi_Version b) cfg registry in
  match SelfCheck doc registry with
  | Some e => Err ("openapi self-check: " ++ e)
  | None =>
    oapi ← wrapErr "build mux" (renderDoc doc);
    Ok (mkApplication cfg pool (au_Enabled (cf_Audit cfg)) (kc_DBEnabled (cf_APIKeys cfg)) registry chain portal oapi)
  end.

(** [Application.Handler]. *)
Definition Application_Handler {L : Type} `{!Logger L} `{!PortalStore L} `{!Observed L} (a : Application) : Handler (ServerState L) :=
  match ap_portal a with
  | Some pp => portalApplication (ap_cfg a) pp (Some (ap_oapi a))
  | None => Application_mux (ap_cfg a) (ap_chain a) None (Some (ap_oapi a))
  end.

(** [BuildWithDeps]: no database and no portal; payloads are captured whether or not auditing is enabled. *)
Definition depsOptions (cfg : Config) : AuditOptions :=
  mkAuditOptions (CapturePayloadsEnabled (cf_Audit cfg)) (CaptureHeadersEnabled (cf_Audit cfg))
    (au_MaxPayloadBytes (cf_Audit cfg)) (au_RedactKeys (cf_Audit cfg)).
Definition BuildWithDeps {L : Type} `{!Logger L} (b : BuildInfo) (cfg : Config) (chain : option Chain) : res string (Handler (ServerState L)) :=
  let chain := default (NewChain true []) chain in
  let registry := buildRegistry cfg in
  oapi ← wrapErr "BuildWithDeps: build mux" (renderDoc (buildOpenAPI (bi_Version b) cfg registry));
  Ok (RequestID (AccessLog (BuildMux registry (endpointMW chain registry (depsOptions cfg)) None (Some oapi)))).

Definition Version (b : BuildInfo) : string := Join [bi_Version b; bi_Commit b; bi_Date b] " ".

(** *** [cmd/api-test] *)

(** The [-address] flag. *)
Definition withAddress (cfg : Config) (address : string) : Config :=
  if String.eqb address "" then cfg
  else let sc := cf_Server cfg in
       mkConfig (mkServerConfig (sc_Name sc) address (sc_BaseURL sc) (sc_Description sc) (sc_ReadHeaderTimeout sc) (sc_Shutdown sc) (sc_TLS sc))
         (cf_OIDC cfg) (cf_APIKeys cfg) (cf_BearerTokens cfg) (cf_Auth cfg) (cf_Database cfg) (cf_Audit cfg) (cf_Portal cfg) (cf_Endpoints cfg) (cf_Register cfg).

(** [LOG_LEVEL] to the level of the process's logger. *)
Inductive slogLevel := LevelDebug | LevelInfo | LevelWarn | LevelError.
Definition newLogger (env : gmap string string) : slogLevel :=
  let v := default "" (env !! "LOG_LEVEL") in
  if String.eqb v "debug" || String.eqb v "DEBUG" then LevelDebug
  else if String.eqb v "warn" || String.eqb v "WARN" then LevelWarn
  else if String.eqb v "error" || String.eqb v "ERROR" then LevelError
  else LevelInfo.

(** What the flags make the process do. *)
Inductive command := PrintVersion (text : string) | Probed (failure : option string) | Fatal (err : string) | Serve (a : Application).

(** The self-probe; [get] is the answer of an HTTP GET. *)
Definition runHealthcheck (env : gmap string string) (get : string -> res string Z) : option string :=
  let url := default "" (env !! "APITEST_HEALTHCHECK_URL") in
  let url := if String.eqb url "" then "http://127.0.0.1:8080/healthz" else url in
  match get url with
  | Err e => Some ("healthcheck: " ++ e)
  | Ok status => if status =? 200 then None else Some ("healthcheck: status " ++ Itoa status)
  end.

Definition run (b : BuildInfo) (showVersion healthcheck : bool) (address : string) (env : gmap string string)
    (get : string -> res string Z) (loaded : res string Config) : command :=
  if showVersion then PrintVersion (Version b)
  else if healthcheck then Probed (runHealthcheck env get)
  else match loaded with
       | Err e => Fatal e
       | Ok cfg => match Build b (withAddress cfg address) with Err e => Fatal e | Ok a => Serve a end
       end.

(** The error [run] returns, where [serve] is what [app.Run] does, and the end of the process: the text
    on standard error and the exit status. *)
Definition runError (serve : Application -> option string) (c : command) : option string :=
  match c with PrintVersion _ => None | Probed failure => failure | Fatal e => Some e | Serve a => serve a end.
Definition main (err : option string) : string * Z :=
  match err with Some e => ("fatal: " ++ e ++ newline, 1) | None => ("", 0) end.

(** ** What a loaded configuration needs to start *)

Lemma base64_encode_length alpha s : (String.length s <= String.length (base64_encode alpha "" s))%nat.
Proof.
  induction s as [s IH] using string_len_ind. destruct s as [|a [|b [|c s]]]; [done|cbn; lia|cbn; lia|].
  specialize (IH s ltac:(cbn; lia)). cbn [base64_encode String.length]. lia.
Qed.

Lemma derivePKCESecret_long s : len (derivePKCESecret s) <? 16 = false.
Proof.
  unfold derivePKCESecret, RawURLEncoding_EncodeToString, len.
  pose proof (base64_encode_length urlAlphabet (hmac_sha256 s "api-test/pkce/v1")) as Hl. rewrite hmac_sha256_length in Hl. lia.
Qed.

(** The fields of a JSON Web Key that the program reads are strings. *)
Definition jwkStrings (j : json) : Prop :=
  exists fs, j = JObj fs /\ forall name, name ∈ ["kty"; "use"; "alg"; "kid"; "n"; "e"] ->
    Forall (fun f => EqualFold f.1 name = true -> exists s, f.2 = JStr s) fs.

(** The world around the program that the configuration names: a database at a URL, which the driver the
    program links answers for under its scheme and for no other; an identity provider that serves its
    discovery document and its keys; the embedded files and the YAML encoder. *)
Record healthy (c : Config) : Prop := {
  h_embedded : migrationSource = None;
  h_driver url : HasPrefix url "pgx5:" = false -> exists e, migrateInit url = Some e;
  h_database rest : dc_URL (cf_Database c) = "postgres://" ++ rest \/ dc_URL (cf_Database c) = "postgresql://" ++ rest ->
    migrateInit ("pgx5://" ++ rest) = None /\
    (migrateApply MigrateUp ("pgx5://" ++ rest) = Applied \/ migrateApply MigrateUp ("pgx5://" ++ rest) = ErrNoChange) /\
    exists p, poolParse (dc_URL (cf_Database c)) = Ok p /\
      forall q, pc_ConnString q = pc_ConnString p -> poolConnect q = None /\ poolPing q = None;
  h_provider : oc_Enabled (cf_OIDC c) = true ->
    let url := TrimRightByte (oc_Issuer (cf_OIDC c)) "/" ++ "/.well-known/openid-configuration" in
    (exists text fs keysURL keysText kfs js, providerNet url = Some (200, text) /\ DecodeFirst text = Some (JObj fs) /\
       jstring "jwks_uri" fs = Some keysURL /\ keysURL <> "" /\ providerNet keysURL = Some (200, keysText) /\
       DecodeFirst keysText = Some (JObj kfs) /\ jentries "keys" kfs = [JArr js] /\ Forall jwkStrings js) /\
    (exists text fs auth token, discoveryDocument url = Some (200, text) /\ DecodeFirst text = Some (JObj fs) /\
       jstring "authorization_endpoint" fs = Some auth /\ jstring "token_endpoint" fs = Some token /\ auth <> "" /\ token <> "");
  h_ui names : distDir = Some names -> "index.html" ∈ names -> exists fs, distSub = Ok fs;
  h_render doc : exists y, renderYAML doc = Ok y }.

(** *** What follows from it for the steps of [Build] *)

Lemma jstringFrom_string name fs : Forall (fun f => EqualFold f.1 name = true -> exists s, f.2 = JStr s) fs ->
  forall v, exists s, jstringFrom v name fs = Some s.
Proof.
  unfold jstringFrom. induction 1 as [|f fs Hf _ IH]; intros v; [by eexists|]. cbn [foldl].
  destruct (EqualFold f.1 name) eqn:E; [|apply IH]. destruct (Hf eq_refl) as [s ->]. apply IH.
Qed.
Lemma jwk_decodes k j : jwkStrings j -> exists k', jwkFrom k j = Some k'.
Proof.
  intros (fs & -> & Hfs). assert (Hs : forall name, name ∈ ["kty"; "use"; "alg"; "kid"; "n"; "e"] -> forall v, exists s, jstringFrom v name fs = Some s)
    by (intros name Hn; by apply jstringFrom_string, Hfs). unfold jwkFrom.
  destruct (Hs "kty" ltac:(set_solver) (jwk_KTY k)) as [? ->], (Hs "use" ltac:(set_solver) (jwk_Use k)) as [? ->],
    (Hs "alg" ltac:(set_solver) (jwk_Alg k)) as [? ->], (Hs "kid" ltac:(set_solver) (jwk_Kid k)) as [? ->],
    (Hs "n" ltac:(set_solver) (jwk_N k)) as [? ->], (Hs "e" ltac:(set_solver) (jwk_E k)) as [? ->]. by eexists.
Qed.
Lemma jwks_decode js : Forall jwkStrings js -> forall old, exists ks, jwksFrom old js = Some ks.
Proof.
  induction 1 as [|j js Hj _ IH]; intros old; [by eexists|]. cbn [jwksFrom]. destruct (jwk_decodes (default zeroJwk (head old)) j Hj) as [k ->].
  destruct (IH (tail old)) as [ks ->]. by eexists.
Qed.

Lemma provider_validator c : healthy c -> oc_Enabled (cf_OIDC c) = true -> oc_Issuer (cf_OIDC c) <> "" ->
  exists v, NewOIDC providerNet bootTime (cf_OIDC c) = Ok v.
Proof.
  intros Hc He Hi. destruct (h_provider c Hc He) as [(text & fs & uri & ktext & kfs & js & Hd & Hj & Hu & Hne & Hk & Hkj & Hjs & Hks) _].
  unfold NewOIDC. rewrite (proj2 (String.eqb_neq _ _) Hi). unfold discover, trimRightSlash. cbn [oa_cfg]. rewrite Hd. cbn [Z.eqb Pos.eqb negb].
  unfold discoveryDoc. rewrite Hj, Hu, (proj2 (String.eqb_neq _ _) Hne). cbn [mbind res_bind].
  unfold refreshJWKS. cbn [oa_jwksURL]. rewrite (proj2 (String.eqb_neq _ _) Hne). cbn [oa_jwksURL]. unfold fetchKeys. rewrite Hk. cbn [Z.eqb Pos.eqb negb].
  unfold jwksDoc. rewrite Hkj, Hjs. cbn [foldl mbind option_bind]. destruct (jwks_decode js Hks []) as [ks ->]. by eexists.
Qed.
Lemma provider_endpoints c : healthy c -> oc_Enabled (cf_OIDC c) = true -> exists urls, discoverEndpoints (oc_Issuer (cf_OIDC c)) = Ok urls.
Proof.
  intros Hc He. destruct (h_provider c Hc He) as [_ (text & fs & auth & token & Hd & Hj & Ha & Ht & Hna & Hnt)].
  unfold discoverEndpoints. rewrite Hd. cbn [Z.eqb Pos.eqb negb]. rewrite Hj, Ha, Ht, (proj2 (String.eqb_neq _ _) Hna), (proj2 (String.eqb_neq _ _) Hnt). by eexists.
Qed.

(** A database URL in one of the two forms the migration step rewrites. *)
Definition postgresForm (url : string) : bool := HasPrefix url "postgres://" || HasPrefix url "postgresql://".
Lemma postgresForm_spec url : postgresForm url = true -> exists rest, (url = "postgres://" ++ rest \/ url = "postgresql://" ++ rest) /\ toMigrateURL url = "pgx5://" ++ rest.
Proof.
  unfold postgresForm, toMigrateURL. rewrite orb_true_iff. intros [[rest ->]%HasPrefix_spec|[rest ->]%HasPrefix_spec]; exists rest.
  - split; [by left|]. unfold TrimPrefix. by rewrite !HasPrefix_app.
  - split; [by right|]. unfold TrimPrefix. by rewrite !(HasPrefix_app "postgresql://").
Qed.

Lemma loaded_complaints env path raw unmarshal c : Load env path raw unmarshal = Ok c -> complaints env c = [].
Proof.
  unfold Load. destruct raw as [text|]; [|done]. destruct (unmarshal _) as [c0|]; [|done].
  destruct (Validate env (applyDefaults c0)) eqn:Hv; [|done]. intros [= <-]. unfold Validate in Hv. by destruct (complaints _ _).
Qed.

Lemma buildPortal_healthy b c chain keys : healthy c -> po_Enabled (cf_Portal c) = true ->
  16 <= len (po_CookieSecret (cf_Portal c)) ->
  exists pp, buildPortal b c chain keys (oc_Enabled (cf_OIDC c)) = Ok (Some pp) /\ pp_chain pp = chain /\
    (bool_decide (pp_BrowserAuth pp <> None) = oc_Enabled (cf_OIDC c)).
Proof.
  intros Hc He Hs. unfold buildPortal. rewrite He. cbn [negb]. unfold NewSessionStore at 1.
  assert (len (po_CookieSecret (cf_Portal c)) <? 16 = false) as -> by lia. cbn [mbind res_bind wrapErr].
  assert (Hspa : exists spa, (if ui_Available then x ← wrapErr "ui fs" ui_FS; Ok (Some x) else Ok None) = Ok spa).
  { unfold ui_FS. destruct ui_Available eqn:E; [|by eexists]. pose proof E as E'. unfold ui_Available in E'.
    destruct distDir as [names|] eqn:Ed; [|done]. apply existsb_exists in E' as (n & Hn & <-%String.eqb_eq).
    destruct (h_ui c Hc names Ed) as [fs ->]; [by apply list_elem_of_In|]. by eexists. }
  destruct (oc_Enabled (cf_OIDC c)) eqn:Eo.
  - destruct (provider_endpoints c Hc Eo) as [urls Hd]. unfold NewBrowserAuth. rewrite Eo. cbn [negb]. unfold NewSessionStore.
    rewrite derivePKCESecret_long. cbn. rewrite Hd. cbn. destruct Hspa as [spa ->]. cbn. by eexists.
  - destruct Hspa as [spa Hspa]. cbn in *. rewrite Hspa. by eexists.
Qed.

(** The steps before the portal. *)
Lemma openDatabase_healthy c : healthy c -> dc_URL (cf_Database c) = "" \/ postgresForm (dc_URL (cf_Database c)) = true ->
  exists pool, openDatabase c = Ok pool /\ (pool = None <-> dc_URL (cf_Database c) = "").
Proof.
  intros Hc Hform. unfold openDatabase. destruct (String.eqb_spec (dc_URL (cf_Database c)) "") as [E|E]; [by exists None|].
  destruct Hform as [?|(rest & Hrest & Hm)%postgresForm_spec]; [done|].
  destruct (h_database c Hc rest Hrest) as (Hi & Ha & p & Hp & Hq). unfold migrate_Up, runMigration. rewrite (h_embedded c Hc), Hm, Hi.
  replace (match migrateApply _ _ with Applied | ErrNoChange => None | MigrateError e => _ end) with (@None string) by (by destruct Ha as [-> | ->]).
  unfold database_Open. rewrite Hp. match goal with |- context [poolConnect ?q] => destruct (Hq q eq_refl) as [-> ->] end.
  cbn. by eexists (Some _).
Qed.
Lemma requirePool_ok enabled pool msg : (enabled = true -> pool <> None) -> requirePool enabled pool msg = Ok tt.
Proof. intros Hp. unfold requirePool. destruct enabled; [|done]. by rewrite bool_decide_false by (by apply Hp). Qed.
Lemma oidcValidator_healthy c : healthy c -> (oc_Enabled (cf_OIDC c) = true -> oc_Issuer (cf_OIDC c) <> "") -> exists v, oidcValidator c = Ok v /\ bool_decide (v <> None) = oc_Enabled (cf_OIDC c).
Proof.
  intros Hc Hi. unfold oidcValidator. destruct (oc_Enabled (cf_OIDC c)) eqn:E; [|by exists None].
  destruct (provider_validator c Hc E (Hi eq_refl)) as [v ->]. by exists (Some v).
Qed.

(** What [Build] makes of a configuration when nothing outside fails. *)
Definition builtAs (c : Config) (a : Application) : Prop :=
  ap_registry a = buildRegistry c /\ ap_asyncAudit a = au_Enabled (cf_Audit c) /\
  (ap_asyncAudit a = true \/ ap_dbKeys a = true -> ap_pool a <> None) /\
  match ap_portal a with
  | Some pp => po_Enabled (cf_Portal c) = true /\ pp_chain pp = ap_chain a /\
               bool_decide (pp_BrowserAuth pp <> None) = oc_Enabled (cf_OIDC c)
  | None => po_Enabled (cf_Portal c) = false
  end.

Lemma Build_outcome b c : healthy c -> dc_URL (cf_Database c) = "" \/ postgresForm (dc_URL (cf_Database c)) = true ->
  (oc_Enabled (cf_OIDC c) = true -> oc_Issuer (cf_OIDC c) <> "") ->
  (au_Enabled (cf_Audit c) = true \/ kc_DBEnabled (cf_APIKeys c) = true -> dc_URL (cf_Database c) <> "") ->
  if po_Enabled (cf_Portal c) && (len (po_CookieSecret (cf_Portal c)) <? 16)
  then Build b c = Err "portal: session store: session secret too short (need >= 16 bytes)"
  else exists a, Build b c = Ok a /\ builtAs c a.
Proof.
  intros Hc Hform Hiss Hurl. unfold builtAs.
  destruct (openDatabase_healthy c Hc Hform) as (pool & Hpool & Hnone). destruct (oidcValidator_healthy c Hc Hiss) as (v & Hv & Hvb).
  unfold Build. rewrite Hpool. cbn [mbind res_bind]. rewrite !requirePool_ok by naive_solver. cbn [mbind res_bind]. rewrite Hv. cbn [mbind res_bind].
  rewrite Hvb. destruct (po_Enabled (cf_Portal c)) eqn:Ep; cbn [andb].
  - destruct (len (po_CookieSecret (cf_Portal c)) <? 16) eqn:El.
    + unfold buildPortal, NewSessionStore at 1. rewrite Ep, El. done.
    + set (chain := Build_chain _ _ _).
      destruct (buildPortal_healthy b c chain (kc_DBEnabled (cf_APIKeys c)) Hc Ep ltac:(lia)) as (pp & -> & Hch & Hba). cbn [mbind res_bind wrapErr].
      rewrite selfcheck_all. unfold renderDoc. destruct (h_render c Hc (buildOpenAPI (bi_Version b) c (buildRegistry c))) as [y ->].
      eexists. split; [done|]. cbn. split; [done|]. split; [done|]. split; [naive_solver|]. done.
  - unfold buildPortal. rewrite Ep. cbn [negb mbind res_bind wrapErr]. rewrite selfcheck_all. unfold renderDoc.
    destruct (h_render c Hc (buildOpenAPI (bi_Version b) c (buildRegistry c))) as [y ->].
    eexists. split; [done|]. cbn. split; [done|]. split; [done|]. split; [naive_solver|]. done.
Qed.

(** C33: a configuration that loads starts.  Let [Load] accept a configuration in a world that has what it
    names: the database takes migrations and connections, the identity provider serves its discovery
    document and keys, the embedded files are there.  Then [Build] succeeds: auditing is asynchronous exactly
    when enabled and then has a database, the portal is there exactly when enabled, behind the same
    credential chain as the endpoints and with a login flow exactly when OIDC is on.  There are two
    exceptions that [Load] lets through.  A database URL that begins with neither [postgres://] nor
    [postgresql://] (nor with the scheme of the migration driver), such as the keyword form of a DSN, makes the
    migrations fail; and a cookie secret of fewer than 16 bytes makes the portal fail. *)
Theorem loaded_config_builds (env : gmap string string) (path : string) (raw : res string string)
  (unmarshal : string -> res string Config) (b : BuildInfo) (c : Config)
  (Hload : Load env path raw unmarshal = Ok c) (Hc : healthy c) :
  let url := dc_URL (cf_Database c) in
  if negb (String.eqb url "") && negb (HasPrefix url "postgres://") && negb (HasPrefix url "postgresql://") then
    HasPrefix url "pgx5:" = false -> exists e, Build b c = Err ("migrations: init migrate: " ++ e)
  else if po_Enabled (cf_Portal c) && (len (po_CookieSecret (cf_Portal c)) <? 16) then
    Build b c = Err "portal: session store: session secret too short (need >= 16 bytes)"
  else exists a, Build b c = Ok a /\ ap_registry a = buildRegistry c /\ ap_asyncAudit a = au_Enabled (cf_Audit c) /\
    (ap_asyncAudit a = true \/ ap_dbKeys a = true -> ap_pool a <> None) /\
    match ap_portal a with
    | Some pp => po_Enabled (cf_Portal c) = true /\ pp_chain pp = ap_chain a /\
                 bool_decide (pp_BrowserAuth pp <> None) = oc_Enabled (cf_OIDC c)
    | None => po_Enabled (cf_Portal c) = false
    end.
Proof.
  intros url. pose proof (loaded_complaints _ _ _ _ _ Hload) as Hcomp. unfold complaints in Hcomp.
  apply app_eq_nil in Hcomp as [Hdb [_ [Hoidc _]%app_eq_nil]%app_eq_nil]. fold url in Hdb.
  assert (Hurl : au_Enabled (cf_Audit c) = true \/ kc_DBEnabled (cf_APIKeys c) = true -> url <> "").
  { intros Hor Hu. rewrite Hu in Hdb. by destruct Hor as [E|E]; rewrite E, ?orb_true_r in Hdb. }
  assert (Hiss : oc_Enabled (cf_OIDC c) = true -> oc_Issuer (cf_OIDC c) <> "").
  { intros E Hu. by rewrite E, Hu in Hoidc. }
  destruct (negb (String.eqb url "") && _ && _) eqn:Eform.
  - intros Hpgx. rewrite !andb_true_iff, !negb_true_iff in Eform. destruct Eform as [[Hne Hp1] Hp2].
    destruct (h_driver c Hc url Hpgx) as [e He]. exists e. unfold Build, openDatabase. fold url. rewrite Hne.
    unfold migrate_Up, runMigration, toMigrateURL. by rewrite (h_embedded c Hc), Hp1, Hp2, He.
  - apply (Build_outcome b c Hc); try done. fold url. unfold postgresForm.
    destruct (String.eqb_spec url ""); [by left|right]. by destruct (HasPrefix url "postgres://"), (HasPrefix url "postgresql://").
Qed.
End Boot.

(** ** Witnesses *)

#[local] Existing Instance ascii_tables.
#[local] Existing Instance merge_slice.
#[local] Existing Instance noJson.
#[local] Existing Instance scaledFloat.
#[local] Existing Instance plainHosts.
#[local] Existing Instance nullSlices.
#[local] Existing Instance plainUUID.
#[local] Existing Instance plainLocale.
#[local] Existing Instance plainPostgres.
#[local] Existing Instance plainBcrypt.
#[local] Existing Instance sorted_range.
#[local] Existing Instance sampleOutside.
#[local] Existing Instance plainTexts.
#[local] Existing Instance zeroFloats.
#[local] Existing Instance sameNested.

(** A host with a database at one URL and the identity provider at [https://idp.example]. *)
Definition idpNet : Net := fun url =>
  if String.eqb url "https://idp.example/.well-known/openid-configuration"
  then Some (200, json_text (JObj [("jwks_uri", JStr "https://idp.example/keys")]))
  else if String.eqb url "https://idp.example/keys"
  then Some (200, json_text (JObj [("keys", JArr [JObj [("kty", JStr "RSA"); ("kid", JStr "k1"); ("n", JStr "AQAB"); ("e", JStr "AQAB")]])]))
  else None.
Definition sampleHost : Surroundings := {|
  migrationSource := None; migrateInit url := if HasPrefix url "pgx5:" then None else Some "unknown driver";
  migrateApply _ _ := Applied; poolParse dsn := Ok (mkPoolConfig dsn 4 0 0);
  poolConnect _ := None; poolPing _ := None; providerNet := idpNet; bootTime := 0;
  dbKeyStore := mkKeyStore (fun _ => Err ErrInvalidCredential) (fun _ => []);
  distDir := Some [".gitkeep"]; distSub := Err "empty"; renderYAML _ := Ok "" |}.
#[local] Existing Instance sampleHost.

(** Keys in the table, auditing, OIDC and a portal with the given cookie secret. *)
Definition fullFile (url secret : string) : Config :=
  mkConfig (cf_Server zeroConfig) (mkOIDCConfig true "https://idp.example/" "" "client-1" "" [] 0 0 false) (mkAPIKeysConfig [] true "" "") []
    (mkAuthConfig false false false) (mkDatabaseConfig url 0 0 0) (mkAuditConfig true 0 [] None None 0)
    (mkPortalConfig true "" secret false "") (cf_Endpoints zeroConfig) (cf_Register zeroConfig).

Lemma sampleHost_healthy url secret : healthy (applyDefaults (fullFile url secret)).
Proof.
  split; [done| | | | |by eexists].
  - intros s Hs. exists "unknown driver".
    change (migrateInit s) with (if HasPrefix s "pgx5:" then None else Some "unknown driver"). by rewrite Hs.
  - intros rest _. split; [done|]. split; [by left|]. by eexists.
  - intros _. split.
    + eexists _, _, "https://idp.example/keys", _, _, _. do 6 (split; [by vm_compute|]). split; [by vm_compute|].
      constructor; [|constructor]. eexists. split; [reflexivity|]. intros name _. repeat constructor; intros _; by eexists.
    + eexists _, _, "https://idp.example/authorize", "https://idp.example/token". do 4 (split; [vm_compute; reflexivity|]). by split.
  - intros names [= <-]. by intros [?|?%elem_of_nil]%elem_of_cons.
Defined.

Lemma loaded_config_builds_witness :
  (exists a, Build (mkBuildInfo "v1" "c" "d") (applyDefaults (fullFile "postgres://db/audit" "0123456789abcdef")) = Ok a /\ ap_portal a <> None) /\
  Build (mkBuildInfo "v1" "c" "d") (applyDefaults (fullFile "postgres://db/audit" "secret")) =
    Err "portal: session store: session secret too short (need >= 16 bytes)" /\
  exists e, Build (mkBuildInfo "v1" "c" "d") (applyDefaults (fullFile "host=db dbname=audit" "0123456789abcdef")) = Err ("migrations: init migrate: " ++ e).
Proof.
  split; [|split].
  - destruct (loaded_config_builds ∅ "f" (Ok "") (fun _ => Ok (fullFile "postgres://db/audit" "0123456789abcdef")) (mkBuildInfo "v1" "c" "d")
      _ ltac:(by vm_compute) (sampleHost_healthy _ _)) as (a & Ha & _ & _ & _ & Hp).
    exists a. split; [exact Ha|]. intros Hn. by rewrite Hn in Hp.
  - exact (loaded_config_builds ∅ "f" (Ok "") (fun _ => Ok (fullFile "postgres://db/audit" "secret")) (mkBuildInfo "v1" "c" "d")
      _ ltac:(by vm_compute) (sampleHost_healthy _ _)).
  - exact (loaded_config_builds ∅ "f" (Ok "") (fun _ => Ok (fullFile "host=db dbname=audit" "0123456789abcdef")) (mkBuildInfo "v1" "c" "d")
      _ ltac:(by vm_compute) (sampleHost_healthy _ _) eq_refl).
Defined.
