(* ===== verification/Lifecycle.v ===== *)
(** * Serving and shutting down ([Application.Run], [Application.Close])

    [Run] as a state machine: the goroutine that listens, the channel it reports on, the context that a
    signal cancels, the clock, and the places where [Run] waits.  A [select] takes a case that is ready
    and waits only when none is; so time passes only while [Run] has nothing to do.  The order of the
    steps of the listener, the signal, the connections and [Run] is arbitrary. *)
From S2P Require Import Prelude GoStrings GoNum GoTime GoUrl Json Http Inbound Config.

(** Where [Run] is. *)
Inductive phase :=
| Serving                          (** the first select *)
| Delaying (until : Time)          (** the select around [time.After(PreShutdownDelay)] *)
| Stopping (deadline : Time)       (** in [srv.Shutdown] *)
| Joining                          (** receiving from [errCh] after it *)
| Returned (err : option string).

Record RunState := mkRunState {
  rs_phase : phase;
  rs_now : Time;
  rs_done : bool;                  (** the context is cancelled *)
  rs_errs : list string;           (** buffered in [errCh] *)
  rs_closed : bool;                (** [errCh] is closed: the listener has returned *)
  rs_idle : bool;                  (** no connection is active *)
  rs_ready : bool;                 (** what [/readyz] reports *)
  rs_drainAt : option Time;        (** when [SetReady(false)] ran *)
  rs_stopAt : option Time          (** when [srv.Shutdown] was called *)
}.

Definition setPhase (p : phase) (s : RunState) : RunState :=
  mkRunState p (rs_now s) (rs_done s) (rs_errs s) (rs_closed s) (rs_idle s) (rs_ready s) (rs_drainAt s) (rs_stopAt s).

Definition startRun (now : Time) (idle : bool) : RunState := mkRunState Serving now false [] false idle true None None.

(** [errCh] has something to receive: a value, or that it is closed. *)
Definition canReceive (s : RunState) : bool := negb (Nat.eqb (length (rs_errs s)) 0) || rs_closed s.
Definition receive (s : RunState) : option string * RunState :=
  match rs_errs s with
  | e :: es => (Some e, mkRunState (rs_phase s) (rs_now s) (rs_done s) es (rs_closed s) (rs_idle s) (rs_ready s) (rs_drainAt s) (rs_stopAt s))
  | [] => (None, s)
  end.

Section Run.
Variable cfg : ShutdownConfig.

(** [srv.Shutdown] with the grace period as its deadline; it closes the listener first. *)
Definition callShutdown (s : RunState) : RunState :=
  mkRunState (Stopping (rs_now s + GracePeriod cfg)) (rs_now s) (rs_done s) (rs_errs s) (rs_closed s) (rs_idle s) (rs_ready s)
    (rs_drainAt s) (Some (rs_now s)).

(** What follows the cancellation: not ready any more, then the delay, then shutdown. *)
Definition drain (s : RunState) : RunState :=
  let s := mkRunState (rs_phase s) (rs_now s) (rs_done s) (rs_errs s) (rs_closed s) (rs_idle s) false (Some (rs_now s)) (rs_stopAt s) in
  if 0 <? PreShutdownDelay cfg then setPhase (Delaying (rs_now s + PreShutdownDelay cfg)) s else callShutdown s.

(** The cases [Run] can take now. *)
Inductive choice := TakeErr | TakeDone | TakeTimer | Finish | TimeOut.
Definition choose (c : choice) (s : RunState) : option RunState :=
  match rs_phase s, c with
  | Serving, TakeErr => if canReceive s then let '(e, s') := receive s in Some (setPhase (Returned e) s') else None
  | Serving, TakeDone => if rs_done s then Some (drain s) else None
  | Delaying _, TakeErr => if canReceive s then Some (callShutdown (receive s).2) else None
  | Delaying _, TakeDone => if rs_done s then Some (callShutdown s) else None
  | Delaying until, TakeTimer => if until <=? rs_now s then Some (callShutdown s) else None
  | Stopping _, Finish => if rs_idle s then Some (setPhase Joining s) else None
  | Stopping deadline, TimeOut =>
    if deadline <=? rs_now s then Some (setPhase (Returned (Some "shutdown: context deadline exceeded")) s) else None
  | Joining, TakeErr => if canReceive s then Some (setPhase (Returned None) (receive s).2) else None
  | _, _ => None
  end.
Definition choices : list choice := [TakeErr; TakeDone; TakeTimer; Finish; TimeOut].
Definition runnable (s : RunState) : bool := existsb (fun c => bool_decide (choose c s <> None)) choices.

(** [ListenAndServe] returns at once when the listener is closed. *)
Definition listenerDue (s : RunState) : bool :=
  match rs_phase s with Stopping _ | Joining => negb (rs_closed s) | _ => false end.
(** The next instant at which a timer makes something ready. *)
Definition horizon (s : RunState) : option Time :=
  match rs_phase s with Delaying t | Stopping t => Some t | _ => None end.

Inductive event :=
| Run_ (c : choice)
| Signal                           (** the context is cancelled *)
| ListenFails (e : string)         (** [ListenAndServe] returns an error *)
| ListenerStops                    (** it returns [http.ErrServerClosed] *)
| Connections (idle : bool)
| Tick (d : Duration).

Definition step (e : event) (s : RunState) : option RunState :=
  match e with
  | Run_ c => choose c s
  | Signal => Some (mkRunState (rs_phase s) (rs_now s) true (rs_errs s) (rs_closed s) (rs_idle s) (rs_ready s) (rs_drainAt s) (rs_stopAt s))
  | ListenFails err =>
    if rs_closed s then None
    else Some (mkRunState (rs_phase s) (rs_now s) (rs_done s) (rs_errs s ++ [err])%list true (rs_idle s) (rs_ready s) (rs_drainAt s) (rs_stopAt s))
  | ListenerStops =>
    if listenerDue s
    then Some (mkRunState (rs_phase s) (rs_now s) (rs_done s) (rs_errs s) true (rs_idle s) (rs_ready s) (rs_drainAt s) (rs_stopAt s))
    else None
  | Connections idle =>
    Some (mkRunState (rs_phase s) (rs_now s) (rs_done s) (rs_errs s) (rs_closed s) idle (rs_ready s) (rs_drainAt s) (rs_stopAt s))
  | Tick d =>
    if (0 <? d) && negb (runnable s) && negb (listenerDue s)
       && match horizon s with Some t => rs_now s + d <=? t | None => true end
    then Some (mkRunState (rs_phase s) (rs_now s + d) (rs_done s) (rs_errs s) (rs_closed s) (rs_idle s) (rs_ready s) (rs_drainAt s) (rs_stopAt s))
    else None
  end.

Inductive reachable : RunState -> Prop :=
| reach_start now idle : reachable (startRun now idle)
| reach_step e s s' : reachable s -> step e s = Some s' -> reachable s'.

(** ** Invariant *)

Definition maxGrace : Duration := Z.max 0 (GracePeriod cfg).

Record runInv (s : RunState) : Prop := {
  ri_serving : rs_phase s = Serving -> rs_drainAt s = None /\ rs_stopAt s = None /\ rs_ready s = true;
  ri_delaying : forall t, rs_phase s = Delaying t -> rs_done s = true /\ rs_drainAt s = Some (rs_now s) /\ rs_stopAt s = None /\ rs_ready s = false;
  ri_stop : forall t, rs_stopAt s = Some t -> rs_drainAt s = Some t /\ rs_ready s = false;
  ri_stopping : forall t, rs_phase s = Stopping t ->
    exists t0, rs_stopAt s = Some t0 /\ t = t0 + GracePeriod cfg /\ t0 <= rs_now s <= t0 + maxGrace;
  ri_joining : rs_phase s = Joining -> exists t0, rs_stopAt s = Some t0 /\ t0 <= rs_now s <= t0 + maxGrace }.

Lemma runnable_choice s c : choose c s <> None -> runnable s = true.
Proof.
  intros Hc. unfold runnable. apply existsb_exists. exists c. split; [by destruct c; cbn; auto 6|]. by apply bool_decide_eq_true_2.
Qed.

(** Time does not pass while [Run] waits with the context cancelled, nor while it waits for the listener. *)
Lemma tick_blocked d s s' : step (Tick d) s = Some s' ->
  (forall t, rs_phase s = Delaying t -> rs_done s = false) /\ rs_phase s <> Joining /\
  0 < d /\ (forall t, rs_phase s = Stopping t -> rs_now s + d <= t).
Proof.
  cbn. destruct (_ && _) eqn:E; [|done]. intros _. rewrite !andb_true_iff, !negb_true_iff in E. destruct E as [[[Hd Hr] Hl] Hh].
  apply not_true_iff_false in Hr. split; [|split; [|split; [lia|]]].
  - intros t Hp. apply not_true_iff_false. intros Hdone. apply Hr, (runnable_choice s TakeDone). unfold choose. by rewrite Hp, Hdone.
  - intros Hp. unfold listenerDue in Hl. rewrite Hp in Hl. apply negb_false_iff in Hl.
    apply Hr, (runnable_choice s TakeErr). unfold choose, canReceive. by rewrite Hp, Hl, orb_true_r.
  - intros t Hp. unfold horizon in Hh. rewrite Hp in Hh. lia.
Qed.

(** Calling [srv.Shutdown] from the delay, at the instant the drain began. *)
Lemma callShutdown_inv s : runInv s -> rs_drainAt s = Some (rs_now s) -> rs_ready s = false -> runInv (callShutdown s).
Proof.
  intros _ Hd Hr. constructor; cbn; [done|done| | |done].
  - by intros t [= <-].
  - intros t [= <-]. exists (rs_now s). unfold maxGrace. repeat split; lia.
Qed.

Lemma receive_fields s : let s' := (receive s).2 in
  rs_phase s' = rs_phase s /\ rs_now s' = rs_now s /\ rs_done s' = rs_done s /\ rs_drainAt s' = rs_drainAt s /\
  rs_stopAt s' = rs_stopAt s /\ rs_ready s' = rs_ready s.
Proof. unfold receive. by destruct (rs_errs s). Qed.

(** A change of anything but phase, clock, readiness and the two instants keeps the invariant. *)
Lemma runInv_same s s' : runInv s -> rs_phase s' = rs_phase s -> rs_now s' = rs_now s -> rs_drainAt s' = rs_drainAt s ->
  rs_stopAt s' = rs_stopAt s -> rs_ready s' = rs_ready s -> (rs_done s = true -> rs_done s' = true) -> runInv s'.
Proof.
  intros [H1 H2 H3 H4 H5] Ep En Ed Es Er Hd. constructor; rewrite ?Ep, ?En, ?Ed, ?Es, ?Er; try done.
  intros t Ht. destruct (H2 t Ht) as (? & ? & ? & ?). auto.
Qed.
Lemma runInv_returned s err : runInv s -> runInv (setPhase (Returned err) s).
Proof. intros [_ _ H3 _ _]. constructor; try done. Qed.

Lemma choose_inv c s s' : runInv s -> choose c s = Some s' -> runInv s'.
Proof.
  intros Hs. pose proof Hs as [H1 H2 H3 H4 H5]. pose proof (receive_fields s) as (Rp & Rn & Rd & Ra & Rs & Rr).
  assert (Hrec : runInv (receive s).2) by (apply (runInv_same s); congruence || done).
  unfold choose. destruct (rs_phase s) as [|until|deadline| |err] eqn:Ep, c; try done.
  - destruct (canReceive s); [|done]. destruct (receive s) as [e s1]. intros [= <-]. by apply runInv_returned.
  - destruct (rs_done s) eqn:Ed; [|done]. intros [= <-]. destruct (H1 eq_refl) as (Hd0 & Hs0 & _). unfold drain.
    destruct (0 <? PreShutdownDelay cfg).
    + constructor; cbn; try done. by rewrite Hs0.
    + constructor; cbn; [done|done|by intros t [= <-]| |done]. intros t [= <-]. eexists. unfold maxGrace. repeat split; lia.
  - destruct (H2 _ eq_refl) as (_ & Hd & _ & Hr). destruct (canReceive s); [|done]. intros [= <-].
    apply callShutdown_inv; [done|congruence|congruence].
  - destruct (H2 _ eq_refl) as (_ & Hd & _ & Hr). destruct (rs_done s); [|done]. intros [= <-]. by apply callShutdown_inv.
  - destruct (H2 _ eq_refl) as (_ & Hd & _ & Hr). destruct (until <=? rs_now s); [|done]. intros [= <-]. by apply callShutdown_inv.
  - destruct (rs_idle s); [|done]. intros [= <-]. destruct (H4 _ eq_refl) as (t0 & Ht & _ & Hn).
    constructor; cbn; try done. intros _. by exists t0.
  - destruct (deadline <=? rs_now s); [|done]. intros [= <-]. by apply runInv_returned.
  - destruct (canReceive s); [|done]. intros [= <-]. by apply runInv_returned.
Qed.

Lemma reachable_inv s : reachable s -> runInv s.
Proof.
  induction 1 as [now idle|e s s' Hr Hs Hstep]; [by constructor|]. destruct e as [c| |err| |idle|d].
  - by eapply choose_inv.
  - injection Hstep as <-. by apply (runInv_same s).
  - cbn in Hstep. destruct (rs_closed s); [done|]. injection Hstep as <-. by apply (runInv_same s).
  - cbn in Hstep. destruct (listenerDue s); [|done]. injection Hstep as <-. by apply (runInv_same s).
  - injection Hstep as <-. by apply (runInv_same s).
  - pose proof (tick_blocked d s s' Hstep) as (Hdel & Hj & Hd & Hst). cbn in Hstep. destruct (_ && _); [|done]. injection Hstep as <-.
    destruct Hs as [H1 H2 H3 H4 H5]. constructor; cbn; try done.
    + intros t Ht. destruct (H2 t Ht) as (Hdone & _). by rewrite (Hdel t Ht) in Hdone.
    + intros t Ht. destruct (H4 t Ht) as (t0 & Ht0 & -> & Hn). exists t0. specialize (Hst _ Ht). unfold maxGrace in *. repeat split; [done|lia..].
Qed.

(** C35: the pre-shutdown delay is never waited for.  Whatever the configured [PreShutdownDelay], in
    every run the listener is shut down at the very instant at which the server stops reporting
    itself ready, so no load balancer can see it draining while it still accepts connections: the
    select that should wait also has the cancelled context among its cases. *)
Theorem predelay_skipped (s : RunState) (t : Time) (Hr : reachable s) (Hstop : rs_stopAt s = Some t) :
  rs_drainAt s = Some t /\ rs_ready s = false.
Proof. by apply (reachable_inv s Hr). Qed.

(** C34: shutdown is bounded and cannot get stuck.  Once the server has begun to drain, [Run] returns no
    later than the grace period after it, whatever the connections do, and until it has returned
    some step of [Run], of the listener or of the clock is possible. *)
Theorem shutdown_bounded (s : RunState) (t : Time) (Hr : reachable s) (Hdrain : rs_drainAt s = Some t)
  (Hrunning : forall err, rs_phase s <> Returned err) :
  t <= rs_now s <= t + maxGrace /\ exists e s', step e s = Some s' /\ (forall i, e <> Connections i) /\ e <> Signal /\ (forall m, e <> ListenFails m).
Proof.
  pose proof (reachable_inv s Hr) as [H1 H2 H3 H4 H5]. destruct (rs_phase s) as [|until|deadline| |err] eqn:Ep.
  - destruct (H1 eq_refl) as [Hn _]. congruence.
  - destruct (H2 _ eq_refl) as (Hd & Hda & _). rewrite Hda in Hdrain. injection Hdrain as ->. unfold maxGrace. split; [lia|].
    exists (Run_ TakeDone), (callShutdown s). cbn. unfold choose. by rewrite Ep, Hd.
  - destruct (H4 _ eq_refl) as (t0 & Ht0 & -> & Hn). destruct (H3 _ Ht0) as [Hd _]. rewrite Hd in Hdrain. injection Hdrain as ->. split; [done|].
    destruct (rs_closed s) eqn:Ec.
    + destruct (rs_idle s) eqn:Ei.
      { eexists (Run_ Finish), _. cbn. unfold choose. by rewrite Ep, Ei. }
      destruct (t + GracePeriod cfg <=? rs_now s) eqn:Ed.
      { eexists (Run_ TimeOut), _. cbn. unfold choose. by rewrite Ep, Ed. }
      assert (Hrun : runnable s = false).
      { unfold runnable, choices. cbn [existsb]. unfold choose. rewrite Ep, Ei, Ed. done. }
      eexists (Tick (t + GracePeriod cfg - rs_now s)), _. unfold step, listenerDue, horizon. rewrite Ep, Ec, Hrun. cbn [negb andb].
      assert ((0 <? t + GracePeriod cfg - rs_now s) = true) as -> by lia.
      assert ((rs_now s + (t + GracePeriod cfg - rs_now s) <=? t + GracePeriod cfg) = true) as -> by lia. done.
    + eexists ListenerStops, _. cbn. unfold listenerDue. by rewrite Ep, Ec.
  - destruct (H5 eq_refl) as (t0 & Ht0 & Hn). destruct (H3 _ Ht0) as [Hd _]. rewrite Hd in Hdrain. injection Hdrain as ->. split; [done|].
    destruct (rs_closed s) eqn:Ec.
    + eexists (Run_ TakeErr), _. cbn. unfold choose, canReceive. by rewrite Ep, Ec, orb_true_r.
    + eexists ListenerStops, _. cbn. unfold listenerDue. by rewrite Ep, Ec.
  - by destruct (Hrunning err).
Qed.
End Run.

(** ** Closing

    [Close] runs after [Run] has returned: the audit queue is drained before the pool it writes to is
    closed. *)
Inductive resource := AuditQueue | Pool.
Definition Close (asyncAudit pool : bool) : list resource :=
  ((if asyncAudit then [AuditQueue] else []) ++ (if pool then [Pool] else []))%list.

(** ** Witnesses *)

Definition slowStop : ShutdownConfig := mkShutdown (10 * Second) (5 * Second).
(** Five seconds of serving, then a signal. *)
Fixpoint runAll (es : list event) (s : RunState) : option RunState :=
  match es with [] => Some s | e :: es' => s' ← step slowStop e s; runAll es' s' end.
Lemma runAll_reachable es : forall s s', reachable slowStop s -> runAll es s = Some s' -> reachable slowStop s'.
Proof.
  induction es as [|e es IH]; intros s s' Hs; cbn [runAll]; [by intros [= <-]|].
  destruct (step slowStop e s) as [s1|] eqn:E; [|done]. cbn [mbind option_bind]. apply IH. by eapply reach_step.
Defined.
Definition stopped : RunState := mkRunState (Stopping (15 * Second)) (5 * Second) true [] false false false (Some (5 * Second)) (Some (5 * Second)).
Lemma stopped_reachable : reachable slowStop stopped.
Proof.
  apply (runAll_reachable [Tick (5 * Second); Signal; Run_ TakeDone; Run_ TakeDone] (startRun 0 false)); [apply reach_start|by vm_compute].
Defined.

Lemma predelay_skipped_witness : PreShutdownDelay slowStop = 5 * Second /\ rs_drainAt stopped = rs_stopAt stopped.
Proof.
  split; [done|]. destruct (predelay_skipped slowStop stopped (5 * Second) stopped_reachable eq_refl) as [Hd _]. exact Hd.
Defined.
Lemma shutdown_bounded_witness : 5 * Second <= rs_now stopped <= 5 * Second + maxGrace slowStop.
Proof. apply (shutdown_bounded slowStop stopped (5 * Second) stopped_reachable eq_refl). done. Defined.
