(* ===== verification/Published.v ===== *)
(** * The published API description, end to end

    What a client that fetches [/openapi.json] from the running server and decodes it learns about
    the routes. *)
From S2P Require Import Pagination DataEndpoints FailureEndpoints InspectEndpoints SecurityEndpoints.
From S2P Require Import StreamEndpoints ExportEndpoints.
From S2P Require Import Prelude GoStrings GoNum Sha256 GoTime GoUrl Json JsonParse JsonIndent Http ServeMux Registry AuditEvent MemoryLog.
From S2P Require Import Inbound Middleware Config Oidc Session Server Routing OpenApi OpenApiJson BrowserAuth Sql ApiKeys GoUrlParse.
From S2P Require Import PortalApi Aggregations AuditStream Replay PortalServer EndToEnd Dispatch Boot.

Section Published.
Context `{Surroundings}.
Context `{UnicodeTables} `{JsonAny} `{Float64} `{UrlHost} `{SliceJSON} `{UUID} `{ErrorTexts} `{Postgres} `{Bcrypt}.
Context `{FloatEnv} `{MapRange} `{SortSlice} `{Nested} `{Outside}.
Context {L : Type} `{!Logger L} `{!PortalStore L} `{!Observed L}.
Abbreviation State := (ServerState L).
Abbreviation Hnd := (Handler State).

(** ** The mux finds the document *)

Definition missesDoc (p : pattern) : bool := bool_decide (matchPath p (parsePath "/openapi.json") = None).
Definition portalMissesDoc (portal : option (PortalDeps (L := L))) : bool :=
  match portal with
  | Some p => forallb (fun t => missesDoc (parsePattern t)) (map fst (portalRoutes p))
  | None => true
  end.

Lemma missesDoc_in (l : list (string * Hnd)) p h bs : (p, h) ∈ map handleFunc l ->
  forallb (fun t => missesDoc (parsePattern t)) (map fst l) = true -> matchPath p (parsePath "/openapi.json") = Some bs -> False.
Proof.
  intros Hin Hl Hm. apply list_elem_of_fmap in Hin as ([t k] & [= -> ->] & Hin). rewrite forallb_forall in Hl.
  specialize (Hl t). rewrite <- list_elem_of_In in Hl. unfold missesDoc in Hl. rewrite Hm in Hl. discriminate Hl.
  apply list_elem_of_fmap. by exists (t, k).
Qed.

Lemma openapi_found cfg (mw : EHandler -> Hnd) portal docs : portalMissesDoc portal = true ->
  dispatch (muxRoutes (buildRegistry cfg) mw portal (Some docs)) "GET" "/openapi.json" =
  Found (mkPattern "GET" [Lit "openapi.json"] false) ∅ (respond (serveBytes "application/json" docs.1)).
Proof.
  intros Hp. rewrite (dispatch_best _ _ _ (mkPattern "GET" [Lit "openapi.json"] false) (respond (serveBytes "application/json" docs.1)) []);
    [done|done|done|]. apply best_spec; [|done|done|].
  { unfold muxRoutes. rewrite !elem_of_app. right; right; left. apply list_elem_of_lookup. by exists 0%nat. }
  intros q hq bq Hin Hmo Hm. unfold muxRoutes in Hin. rewrite !elem_of_app in Hin. destruct Hin as [Hi|[Hi|[Hi|[Hi|Hi]]]].
  - by destruct (missesDoc_in _ _ _ _ Hi eq_refl Hm).
  - destruct (mounted_pattern_ok cfg mw q hq Hi) as (Hv & _). unfold startsV1, matchPath in *.
    destruct (pt_segs q) as [|[a|] ps]; try done. apply String.eqb_eq in Hv as ->. done.
  - apply elem_of_cons in Hi as [[= -> ->]|Hi]; [done|]. by destruct (missesDoc_in (drop 1 (mountOpenAPI docs)) _ _ _ Hi eq_refl Hm).
  - destruct portal as [p|]; [|by apply elem_of_nil in Hi]. by destruct (missesDoc_in _ _ _ _ Hi Hp Hm).
  - apply list_elem_of_singleton in Hi. injection Hi as -> ->. done.
Qed.

Lemma portalOver_misses cfg pp t : portalMissesDoc (Some (portalOver cfg pp t)) = true.
Proof.
  unfold portalMissesDoc, portalRoutes. cbn [pd_PortalAPI portalOver pd_Cfg pd_SPA pd_BrowserAuth].
  rewrite !map_app, !forallb_app. destruct (pp_BrowserAuth pp); by vm_compute.
Qed.

(** The reply to a request for the document, through all the layers. *)
Lemma openapi_reply cfg chain portal docs env r (s : State) : portalMissesDoc portal = true ->
  r_Method r = "GET" -> r_Path r = "/openapi.json" -> r_EscapedPath r = "/openapi.json" -> ctx_Identity (r_Context r) = None ->
  let out := Application_mux cfg chain portal (Some docs) conn _ env r (s, newConn) in
  finalStatus out.2 = 200 /\ c_body out.2 = docs.1 /\ sv_audit out.1 = sv_audit s.
Proof.
  intros Hmiss Hm Hp Hep Hctx.
  destruct (application_outer cfg chain portal (Some docs) env r s [] (serveBytes "application/json" docs.1)) as (Hc & Ha & _); [done|done| |].
  - intros w. rewrite touchKeys_nil. unfold BuildMux, CORS, BrowserRedirect, isBrowserRoot, ServeMux_ServeHTTP.
    pose proof (openapi_found cfg (endpointMW chain (buildRegistry cfg) (auditOptions cfg)) portal docs Hmiss) as Hf.
    destruct portal; cbn [r_Method r_Path r_EscapedPath WithContext fst snd]; rewrite Hm, ?Hp, Hep, exec_app, Hf; done.
  - cbv zeta. rewrite Hc, Ha. done.
Qed.

(** ** The theorem *)

Lemma methodField m : m ∈ httpMethods -> exists field, (m, field) ∈ methodFields.
Proof.
  intros Hm. assert (Hm' : m ∈ map fst methodFields) by done. apply list_elem_of_fmap in Hm' as ([m' field] & -> & Hin). by exists field.
Qed.

Lemma methodField_unique m f g : (m, f) ∈ methodFields -> (m, g) ∈ methodFields -> f = g.
Proof. apply NoDup_fst_unique. apply (bool_decide_unpack _). by vm_compute. Qed.

Lemma buildPortal_chain b c chain keys v pp : buildPortal b c chain keys v = Ok (Some pp) -> pp_chain pp = chain.
Proof.
  unfold buildPortal. destruct (negb _); [done|]. destruct (NewSessionStore _ _ _ _) as [sess|]; [|done]. cbn [wrapErr mbind res_bind].
  set (ba := if v then _ else _). destruct ba; [|done]. cbn [mbind res_bind]. set (spa := if ui_Available then _ else _).
  destruct spa; [|done]. cbn [mbind res_bind]. by intros [= <-].
Qed.

Lemma Ok_eq {E A} (x y : A) : Ok (E := E) x = Ok y -> x = y.
Proof. by intros [= ->]. Qed.

Lemma Build_Ok b c a : Build b c = Ok a ->
  ap_cfg a = c /\ ap_registry a = buildRegistry c /\
  RenderJSON (buildOpenAPI (bi_Version b) c (buildRegistry c)) = Ok (ap_oapi a).1 /\
  (forall pp, ap_portal a = Some pp -> pp_chain pp = ap_chain a).
Proof.
  unfold Build. destruct (openDatabase c) as [pool|]; [|done]. cbn [mbind res_bind].
  destruct (requirePool _ _ "audit.enabled requires database.url"); [|done]. cbn [mbind res_bind]. destruct (requirePool _ _ _); [|done]. cbn [mbind res_bind].
  destruct (oidcValidator c) as [v|]; [|done]. cbn [mbind res_bind]. set (chain := Build_chain _ _ _).
  destruct (buildPortal _ _ _ _ _) as [portal|] eqn:Ep; [|done]. cbn [mbind res_bind wrapErr].
  destruct (SelfCheck _ _); [done|]. unfold renderDoc. cbn [RenderJSON mbind res_bind wrapErr].
  destruct (renderYAML _) as [yaml|]; [|done]. intros E. apply Ok_eq in E. rewrite <- E. cbn [ap_cfg ap_registry ap_oapi ap_portal ap_chain fst].
  split; [reflexivity|]. split; [reflexivity|]. split; [reflexivity|]. intros pp ->. by apply buildPortal_chain in Ep.
Qed.

(** C4: the served description is the API.  Whatever configuration the server was built from, [GET
    /openapi.json] is answered 200 with a text that the decoder reads, and in the value it reads every
    route of the registry is found under [paths], its path and its method, as the JSON of the operation
    generated from that route's own metadata; nothing else is found there.  No credential is asked for
    and no audit event is written. *)
Theorem published_document (b : BuildInfo) (c : Config) (a : Application) (env : Env) (r : Request) (s : State)
  (Hbuild : Build b c = Ok a) (Htexts : docTexts (bi_Version b) c = true)
  (Hm : r_Method r = "GET") (Hp : r_Path r = "/openapi.json") (Hep : r_EscapedPath r = "/openapi.json")
  (Hctx : ctx_Identity (r_Context r) = None) :
  let out := Application_Handler a conn _ env r (s, newConn) in
  exists j, finalStatus out.2 = 200 /\ Unmarshal (c_body out.2) = Some j /\ sv_audit out.1 = sv_audit s /\
    (forall route, route ∈ All (ap_registry a) -> exists field opts, (m_Method route, field) ∈ methodFields /\
       at_path ["paths"; m_Path route; field] j = Some (json_operation (operationFor route opts))) /\
    (forall m field path op, (m, field) ∈ methodFields -> at_path ["paths"; path; field] j = Some op ->
       exists route, route ∈ All (ap_registry a) /\ m_Method route = m /\ m_Path route = path).
Proof.
  intros out. destruct (Build_Ok b c a Hbuild) as (Hcfg & Hreg & Hrender & Hchain).
  destruct (rendered_document (bi_Version b) c Htexts) as (text & j & Htext & Hj & Hops). rewrite Htext in Hrender. injection Hrender as ->.
  assert (Hout : finalStatus out.2 = 200 /\ c_body out.2 = (ap_oapi a).1 /\ sv_audit out.1 = sv_audit s).
  { unfold out, Application_Handler. rewrite Hcfg. destruct (ap_portal a) as [pp|].
    - apply openapi_reply; try done. apply portalOver_misses.
    - by apply openapi_reply. }
  destruct Hout as (Hst & Hbody & Haud). exists j. rewrite Hbody, Hreg. split_and!; try done.
  - intros route Hr. destruct (All_ok c route Hr) as (_ & Hhttp & _). destruct (methodField _ Hhttp) as [field Hf].
    destruct (route_op (bi_Version b) c route Hr) as [opts Hop]. exists field, opts. split; [done|]. by rewrite (Hops _ _ _ Hf), Hop.
  - intros m field path op Hf Hat. rewrite (Hops _ _ _ Hf) in Hat.
    assert (Hhttp : m ∈ httpMethods) by (change httpMethods with (map fst methodFields); apply list_elem_of_fmap; by exists (m, field)).
    unfold buildOpenAPI in Hat. rewrite Build_op in Hat by done. destruct (lastRoute m path _) as [route|] eqn:El; [|done].
    apply lastRoute_Some in El as [Hr Hs]. apply andb_true_iff in Hs as [E1%String.eqb_eq E2%String.eqb_eq].
    exists route. by rewrite (proj1 (All_ok c route Hr)) in E1.
Qed.
End Published.

(** ** Witness *)

#[local] Existing Instance ascii_tables.
#[local] Existing Instance merge_slice.
#[local] Existing Instance noJson.
#[local] Existing Instance scaledFloat.
#[local] Existing Instance plainHosts.
#[local] Existing Instance nullSlices.
#[local] Existing Instance plainUUID.
#[local] Existing Instance plainLocale.
#[local] Existing Instance plainPostgres.
#[local] Existing Instance plainBcrypt.
#[local] Existing Instance sorted_range.
#[local] Existing Instance sampleOutside.
#[local] Existing Instance plainTexts.
#[local] Existing Instance zeroFloats.
#[local] Existing Instance sameNested.
#[local] Existing Instance sampleHost.
#[local] Existing Instance memoryStore.
#[local] Existing Instance stillLog.

Definition docRequest : Request := mkRequest "GET" "/openapi.json" "/openapi.json" "" ∅ "h" false "10.0.0.1" None ∅ [] Background.

Definition docConfig : Config := applyDefaults (fullFile "postgres://db/audit" "0123456789abcdef").
Definition docBuild : BuildInfo := mkBuildInfo "v1" "c" "d".

Lemma docConfig_builds : exists a, Build docBuild docConfig = Ok a /\ builtAs docConfig a.
Proof.
  pose proof (Build_outcome docBuild docConfig (sampleHost_healthy _ _)) as Hb.
  assert (Hno : po_Enabled (cf_Portal docConfig) && (len (po_CookieSecret (cf_Portal docConfig)) <? 16) = false) by (by vm_compute).
  rewrite Hno in Hb. apply Hb; [right; by vm_compute|by vm_compute|by vm_compute].
Qed.

Lemma fixed_documented : re_meta fixedEntry ∈ All (buildRegistry docConfig).
Proof. apply list_elem_of_lookup. exists 2%nat. by vm_compute. Qed.

Lemma published_document_witness :
  exists a j, Build docBuild docConfig = Ok a /\
    Unmarshal (c_body (Application_Handler (L := MemoryLogger) a conn _ (envAt 0) docRequest (sampleState, newConn)).2) = Some j /\
    exists opts, at_path ["paths"; "/v1/fixed/{key}"; "get"] j = Some (json_operation (operationFor (re_meta fixedEntry) opts)).
Proof.
  destruct docConfig_builds as (a & Ha & Hreg & _).
  assert (Ht : docTexts (bi_Version docBuild) docConfig = true) by (by vm_compute).
  destruct (published_document (L := MemoryLogger) docBuild docConfig a (envAt 0) docRequest sampleState Ha Ht eq_refl eq_refl eq_refl eq_refl)
    as (j & _ & Hj & _ & Hall & _).
  exists a, j. split; [exact Ha|]. split; [exact Hj|]. rewrite Hreg in Hall.
  destruct (Hall (re_meta fixedEntry) fixed_documented) as (field & opts & Hf & Hat). exists opts.
  rewrite <- (methodField_unique "GET" field "get" Hf ltac:(by left)). exact Hat.
Defined.
