(* ===== verification/Pipeline.v ===== *)
(** * The audit pipeline: queue, worker, database, portal

    [AsyncLog], [PgStore] and [PortalApi] put together as [Build] does: requests log into the queue,
    the worker writes to Postgres over a connection that can fail at every round trip, and the portal
    reads the tables. *)
From S2P Require Import Pagination DataEndpoints FailureEndpoints InspectEndpoints SecurityEndpoints.
From S2P Require Import StreamEndpoints ExportEndpoints.
From S2P Require Import Prelude GoStrings GoNum GoTime GoUrl Json JsonParse AuditEvent MemoryLog AsyncLog Sql PgStore PgRows.
From S2P Require Import Http ServeMux Registry Inbound Middleware Config Session Server Routing BrowserAuth ApiKeys GoUrlParse PortalApi PgAudit.
From S2P Require Import Aggregations AuditStream.

(** ** The store as the worker sees it *)

Section Store.
Context `{Postgres}.

(** Each write is told apart by the ID [uuid.NewString] has ready for it: [fates] is what happens to its
    round trips and [clock] the server's time.  An error makes the worker log a warning and go on, so
    only the tables matter. *)
Definition workerStore (fates : string -> nat -> fate) (clock : string -> Time) (now : Time) : Logger database := {|
  lg_Log newID ev db := Ok (Store.Log (fates newID) (clock newID) newID ev db).1;
  lg_Query f db := Store.Query Through now f db;
  lg_Count f db := Store.Count Through now f db
|}.

(** The round trips of a write take effect: everything up to the commit arrives and the commit is not
    refused (its answer may be lost). *)
Definition passes (f : fate) : bool := match f with Through => true | _ => false end.
Definition lands (fates : nat -> fate) (ev : Event) : bool :=
  passes (fates 0%nat) && passes (fates 1%nat)
  && match ev_Payload ev with Some _ => passes (fates 2%nat) | None => true end
  && match fates 3%nat with Sql.Refused _ => false | _ => true end.

Lemma withNewID_payload newID ev : ev_Payload (withNewID newID ev) = ev_Payload ev.
Proof. unfold withNewID. by destruct (String.eqb _ _). Qed.

Lemma log_lands fates now newID ev db : newID <> "" ->
  (Store.Log fates now newID ev db).1 =
  if lands fates ev then (Store.Log healthy now "" (withNewID newID ev) db).1 else db.
Proof.
  intros Hne. unfold Store.Log, lands. fold (withNewID newID ev).
  assert (E : String.eqb (ev_ID (withNewID newID ev)) "" = false).
  { unfold withNewID. destruct (String.eqb_spec (ev_ID ev) ""); by apply String.eqb_neq. }
  rewrite E, <- (withNewID_payload newID ev). unfold healthy.
  destruct (fates 0%nat), (fates 1%nat); cbn [passes andb Store.send fst]; try done.
  destruct (pg_run now insertEventSQL _ db) as [[[tx rs] n]|e]; cbn [fst].
  - destruct (ev_Payload _) as [p|]; unfold Store.insertPayload; [|by destruct (fates 3%nat)].
    destruct (fates 2%nat); cbn [passes andb Store.send]; try done.
    destruct (pg_run now insertPayloadSQL _ tx) as [[[tx' rs'] n']|e]; cbn [Store.commit]; by destruct (fates 3%nat).
  - by destruct (_ && _).
Qed.

(** ** What the tables hold *)

Variables (fates : string -> nat -> fate) (clock : string -> Time) (now : Time).

(** The events of the writes that take effect, with their IDs. *)
Definition landed (ws : list (string * Event)) : list Event :=
  omap (fun w => if lands (fates w.1) w.2 then Some (withNewID w.1 w.2) else None) ws.

Lemma writes_hold ws : forall m db, holdsAll m db -> Forall (fun w => w.1 <> "") ws ->
  (forall pre ev post, landed ws = (pre ++ ev :: post)%list -> storable (m ++ pre)%list ev) ->
  holdsAll (m ++ landed ws)%list (foldl (@write1 database (workerStore fates clock now)) db ws).
Proof.
  induction ws as [|[id ev] ws IH]; intros m db Hm Hids Hst; [cbn; by rewrite app_nil_r|].
  apply Forall_cons in Hids as [Hid Hids]. cbn [foldl]. unfold write1 at 2. cbn [lg_Log workerStore fst snd].
  rewrite log_lands by done. unfold landed in *. cbn [omap list_omap fst snd] in *.
  destruct (lands (fates id) ev); [|by apply IH].
  set (ev' := withNewID id ev) in *. pose proof (Hst [] ev' _ eq_refl) as Hs. rewrite app_nil_r in Hs.
  assert (Hne : ev_ID ev' <> "") by (unfold ev', withNewID; by destruct (String.eqb_spec (ev_ID ev) "")).
  destruct (log_holds (clock id) ev' m db Hm Hne Hs) as (db' & -> & Hm'). cbn [fst].
  change (m ++ ev' :: ?l)%list with (m ++ [ev'] ++ l)%list. rewrite app_assoc. apply IH; [done|done|].
  intros pre x post E. rewrite <- app_assoc. apply (Hst (ev' :: pre) x post). cbn. by rewrite E.
Qed.
End Store.

(** ** What the portal shows *)

Section Pipeline.
Context `{Postgres} `{UnicodeTables} `{SortSlice}.

(** What the tables give back of an event: its timestamp in microseconds, without its payload. *)
Definition listed (ev : Event) : Event := ev_withPayload ev None.

(** An in-memory log that reads the bounds of a query in microseconds, as the tables do.  On bounds that
    are whole microseconds it is the in-memory log itself. *)
Definition microLog : Logger MemoryLogger := {|
  lg_Log := MemoryLog.Log;
  lg_Query f m := MemoryLog.Query (microFilter f) m;
  lg_Count f m := MemoryLog.Count (microFilter f) m
|}.
Lemma microFilter_whole f : qf_From f mod 1000 = 0 -> qf_To f mod 1000 = 0 -> microFilter f = f.
Proof. intros Hfrom Hto. unfold microFilter. rewrite !tz_micro by done. by destruct f. Qed.

Lemma matchAll_listed m f : NoDup (map ev_ID m) ->
  matchAll (mkMemoryLogger (map listed m)) f = map listed (matchAll (mkMemoryLogger m) f).
Proof.
  intros Hnd. unfold matchAll. cbn [ml_events].
  assert (Hf : filter (fun ev => matchesFilter ev f = true) (map listed m) = map listed (filter (fun ev => matchesFilter ev f = true) m)).
  { clear Hnd. induction m as [|x m IH]; [done|]. cbn [map]. destruct (decide (matchesFilter x f = true)) as [E|E].
    - rewrite !filter_cons_True by done. cbn [map]. by rewrite IH.
    - rewrite !filter_cons_False by done. exact IH. }
  apply ordered_unique.
  - assert (Hids : NoDup (map ev_ID (map listed m))) by (by rewrite map_map).
    intros x y Hx Hy. rewrite sort_slice_perm, list_elem_of_filter in Hx, Hy. apply (NoDup_map_inj ev_ID (map listed m)); [done|apply Hx|apply Hy].
  - apply sort_slice_sorted, _.
  - apply ordered_fmap, (sort_slice_sorted event_less).
  - rewrite !sort_slice_perm. by rewrite Hf.
Qed.

Lemma listed_query f m : NoDup (map ev_ID m) ->
  MemoryLog.Query f (mkMemoryLogger (map listed m)) = map listed <$> MemoryLog.Query f (mkMemoryLogger m) /\
  MemoryLog.Count f (mkMemoryLogger (map listed m)) = MemoryLog.Count f (mkMemoryLogger m).
Proof.
  intros Hnd. split; [|unfold MemoryLog.Count; by rewrite matchAll_listed, length_map].
  rewrite !query_eq, matchAll_listed by done. cbn [fmap res_fmap]. by rewrite skipn_map, firstn_map.
Qed.

(** The reading handlers ask the log one filter, so logs that answer it alike get the same reply. *)
Section Readers.
Context `{FloatEnv} `{MapRange} {L1 L2 : Type} (R1 : Logger L1) (R2 : Logger L2) (l1 : L1) (l2 : L2).
Definition answersAlike (f : QueryFilter) : Prop :=
  lg_Query (Logger := R1) f l1 = lg_Query (Logger := R2) f l2 /\ lg_Count (Logger := R1) f l1 = lg_Count (Logger := R2) f l2.

Lemma readers_alike r now : let f := (timeWindow now r).1.1 in
  (answersAlike (eventsFilter r) -> @auditEvents L1 R1 r l1 = @auditEvents L2 R2 r l2) /\
  (answersAlike f -> auditTimeseries (Logger0 := R1) now r l1 = auditTimeseries (Logger0 := R2) now r l2 /\
    auditBreakdown (Logger0 := R1) now r l1 = auditBreakdown (Logger0 := R2) now r l2 /\
    auditStats (Logger0 := R1) now r l1 = auditStats (Logger0 := R2) now r l2).
Proof.
  cbv zeta. split; [intros [Hq Hc]; unfold auditEvents; by rewrite Hq, Hc|]. intros [Hq _].
  unfold auditTimeseries, auditBreakdown, auditStats. destruct (timeWindow now r) as [[f from] to]. cbn [fst snd] in Hq. by rewrite Hq.
Qed.
End Readers.

(** After any run over fresh tables, the tables hold the events whose writes took effect. *)
Lemma run_holds fates clock now bufferSize tr s h :
  @arun database (workerStore fates clock now) tr (NewAsyncLogger ∅ bufferSize, noHistory) = Some (s, h) ->
  Forall (fun w => w.1 <> "") (h_written h) ->
  (forall pre ev post, landed fates (h_written h) = (pre ++ ev :: post)%list -> storable pre ev) ->
  holdsAll (landed fates (h_written h)) (al_inner s) /\
  forall ev p, ev ∈ landed fates (h_written h) -> ev_Payload ev = Some p -> payloadOK p.
Proof.
  intros Hrun Hids Hst. pose proof (AInv_run ∅ tr _ _ Hrun (AInv_init ∅ bufferSize)) as [_ _ _ Hinner _ _ _ _]. cbn [fst snd] in *. split.
  - rewrite Hinner. apply (writes_hold fates clock now (h_written h) [] ∅); [split; [done|constructor|constructor]|done|].
    intros pre ev post E. by apply (Hst pre ev post).
  - intros ev p (pre & post & E)%list_elem_of_split Hp. destruct (Hst pre ev post E) as [_ _ Hpay]. by apply Hpay.
Qed.

Lemma in_landed fates ws id ev : (id, ev) ∈ ws -> lands (fates id) ev = true -> withNewID id ev ∈ landed fates ws.
Proof. intros Hw E. apply list_elem_of_omap. exists (id, ev). cbn [fst snd]. by rewrite E. Qed.

(** The tables answer a plain query as the in-memory log of their events does. *)
Lemma tables_answer fates clock now m db f : holdsAll m db -> byteOrderTies m -> plainFilter f -> Forall (searchable f) m ->
  answersAlike (workerStore fates clock now) microLog db (mkMemoryLogger (map listed (map micro m))) f.
Proof.
  intros Hh Hties Hf Hs. destruct (holds_refines m db f now Hh) as [Hq Hc]; [by apply Forall_forall|done|done|].
  destruct (listed_query (microFilter f) (map micro m)) as [Hq' Hc']; [rewrite micro_ids; apply (ha_ids _ _ Hh)|].
  split; cbn [lg_Query lg_Count workerStore microLog]; [by rewrite Hq, Hq'|by rewrite Hc, Hc'].
Qed.

Context `{FloatEnv} `{MapRange}.

(** C7: what was accepted is what the portal shows.  Run the queue over the tables with any
    interleaving of requests, worker and shutdown and any failures of the connection, such that every
    event whose write takes effect can be stored (a fresh ID, texts and numbers the columns and
    indexes hold, a replay reference that exists).  Once [Close] has returned, every event accepted
    before it was called has been written or its write failed on the way.  The portal's event list,
    time series, breakdown and statistics are then what an in-memory log of exactly the events whose
    writes took effect would give, in microseconds, for every query with parameters the columns can
    hold, and a search text, if any, of ASCII without wildcards over paths and errors in ASCII; the collation orders
    the IDs of events of one microsecond by their bytes.  Each payload is read back as it was captured. *)
Theorem audit_pipeline (fates : string -> nat -> fate) (clock : string -> Time) (now : Time) (bufferSize : Z) (tr : list action)
  (s : AsyncLogger database) (h : history)
  (Hrun : @arun database (workerStore fates clock now) tr (NewAsyncLogger ∅ bufferSize, noHistory) = Some (s, h))
  (Hexit : al_phase s = Exited) (Hids : Forall (fun w => w.1 <> "") (h_written h))
  (Hst : forall pre ev post, landed fates (h_written h) = (pre ++ ev :: post)%list -> storable pre ev) :
  let shown := landed fates (h_written h) in
  let tables := workerStore fates clock now in
  let mem := mkMemoryLogger (map listed (map micro shown)) in
  (exists before, h_atClose h = Some before /\
     forall ev, ev ∈ before -> exists id, (id, ev) ∈ h_written h /\ (lands (fates id) ev = false \/ withNewID id ev ∈ shown)) /\
  (byteOrderTies shown -> forall r,
     (plainFilter (eventsFilter r) -> Forall (searchable (eventsFilter r)) shown ->
        @auditEvents database tables r (al_inner s) = @auditEvents MemoryLogger microLog r mem) /\
     forall t, plainFilter (timeWindow t r).1.1 -> Forall (searchable (timeWindow t r).1.1) shown ->
        auditTimeseries (Logger0 := tables) t r (al_inner s) = auditTimeseries (Logger0 := microLog) t r mem /\
        auditBreakdown (Logger0 := tables) t r (al_inner s) = auditBreakdown (Logger0 := microLog) t r mem /\
        auditStats (Logger0 := tables) t r (al_inner s) = auditStats (Logger0 := microLog) t r mem) /\
  (forall id, textOK id = true ->
     Store.GetPayload Through now id (al_inner s) = MemoryLog.GetPayload id (mkMemoryLogger shown)).
Proof.
  intros shown tables mem. pose proof (AInv_run ∅ tr _ _ Hrun (AInv_init ∅ bufferSize)) as [_ _ _ _ _ _ _ Hex]. cbn [fst snd] in *.
  destruct (run_holds fates clock now bufferSize tr s h Hrun Hids Hst) as [Hh Hpay]. fold shown in Hh, Hpay.
  split; [|split].
  - destruct (Hex Hexit) as (before & Hb & [rest Hpre]). exists before. split; [done|]. intros ev Hev.
    assert (Hw : ev ∈ map snd (h_written h)) by (rewrite Hpre; apply elem_of_app; by left).
    apply list_elem_of_fmap in Hw as ([id ev'] & -> & Hw). exists id. split; [done|]. destruct (lands (fates id) ev') eqn:E; [right|by left].
    by apply in_landed.
  - intros Hties r. split; [intros Hf Hs|intros t Hf Hs].
    + apply (readers_alike tables microLog (al_inner s) mem r 0). by apply tables_answer.
    + apply (readers_alike tables microLog (al_inner s) mem r t). by apply tables_answer.
  - intros id Hid. unfold MemoryLog.GetPayload. by apply getPayload_holds.
Qed.

(** ** The export from the tables *)

(** Rows are ordered by what distinguishes them, so a selection has one order. *)
Lemma rowOrder_strict x y : rowOrder y x = false -> ev_ID x <> ev_ID y ->
  tz_round (ev_Timestamp y) < tz_round (ev_Timestamp x) \/
  (tz_round (ev_Timestamp x) = tz_round (ev_Timestamp y) /\ collate (ev_ID x) (ev_ID y) = true).
Proof.
  unfold rowOrder, eventOrder. cbn [row_lt]. destruct (eventRow_cols x) as (A1 & A2 & _), (eventRow_cols y) as (B1 & B2 & _).
  rewrite A1, A2, B1, B2. cbn [val_lt]. set (tx := tz_round (ev_Timestamp x)). set (ty := tz_round (ev_Timestamp y)).
  destruct (Z.ltb_spec tx ty); [done|]. destruct (Z.ltb_spec ty tx); [by left|].
  destruct (collate (ev_ID y) (ev_ID x)) eqn:E1; [done|]. destruct (collate (ev_ID x) (ev_ID y)) eqn:E2; intros _ Hne; [right; split; [lia|done]|].
  exfalso. apply Hne. by apply collate_det.
Qed.
Lemma rowOrder_unique m l k : NoDup (map ev_ID m) -> (forall x, x ∈ l -> x ∈ m) -> ordered rowOrder l -> ordered rowOrder k -> l ≡ₚ k -> l = k.
Proof.
  intros Hnd Hm Hl Hk Hp. apply (StronglySorted_unique_strong (fun x y => rowOrder y x = false)); try done.
  intros x y Hx Hy Hxy Hyx. rewrite <- Hp in Hy. apply (NoDup_map_inj ev_ID m); [done|by apply Hm|by apply Hm|].
  destruct (decide (ev_ID x = ev_ID y)) as [|Hne]; [done|exfalso].
  destruct (rowOrder_strict x y Hxy Hne) as [?|[? E1]], (rowOrder_strict y x Hyx ltac:(by apply not_eq_sym)) as [?|[? E2]]; try lia.
  pose proof (sw_trans _ _ _ E1 E2) as E. by rewrite sw_irrefl in E.
Qed.

Lemma exportFilter_window start r :
  exportFilter start r = qf_page (qf_window (parseQueryFilter r) (queryTime r "from") (qf_To (exportFilter start r))) MaxQueryLimit 0.
Proof. unfold exportFilter. by destruct (_ || _). Qed.
Lemma exportFilter_to start r : qf_To (exportFilter start r) = if IsZero (queryTime r "to") then start else Z.min start (queryTime r "to").
Proof.
  unfold exportFilter. change (qf_To (qf_page (parseQueryFilter r) _ _)) with (queryTime r "to").
  destruct (IsZero (queryTime r "to")); [done|]. cbn [orb]. destruct (Z.ltb_spec start (queryTime r "to")); cbn [qf_To qf_window]; [lia|].
  change (qf_To (qf_page (parseQueryFilter r) _ _)) with (queryTime r "to"). lia.
Qed.

Lemma exportFilter_plain start r limit offset : tz_round start <> 0 -> plainFilter (parseQueryFilter r) -> offset <= maxInt ->
  plainFilter (qf_page (exportFilter start r) limit offset).
Proof.
  intros Hs [[Hfrom Hto] Hcl Hsearch _] Hoff. rewrite exportFilter_window. split; [split; [done|]| |done|done].
  - cbn [qf_To qf_page qf_window]. rewrite exportFilter_to. destruct (IsZero (queryTime r "to")); [done|].
    destruct (Z.min_spec start (queryTime r "to")) as [[_ ->]|[_ ->]]; [done|exact Hto].
  - unfold filterClauses in Hcl |- *. rewrite !forallb_app, !andb_true_iff in Hcl |- *.
    destruct Hcl as (H1' & _ & Hrest). split; [exact H1'|]. split; [|exact Hrest]. rewrite forallb_cond1. apply orb_true_r.
Qed.

(** What the export selects. *)
Lemma export_selects start r ev : tz_round start <> 0 -> plainFilter (parseQueryFilter r) -> searchable (parseQueryFilter r) ev ->
  forallb (clauseTest ev) (filterClauses (exportFilter start r)) = true <->
  asksFor r ev /\ (forall t, timeAsked r "from" t -> tz_round t <= tz_round (ev_Timestamp ev)) /\
  tz_round (ev_Timestamp ev) <= tz_round start /\ (forall t, timeAsked r "to" t -> tz_round (ev_Timestamp ev) <= tz_round t).
Proof.
  intros Hs Hf Hev. pose proof (exportFilter_plain start r MaxQueryLimit 0 Hs Hf ltac:(unfold maxInt; lia)) as Hplain.
  change (filterClauses (exportFilter start r)) with (filterClauses (qf_page (exportFilter start r) MaxQueryLimit 0)).
  assert (Hsrch : qf_Search (exportFilter start r) = qf_Search (parseQueryFilter r)) by (by rewrite exportFilter_window).
  rewrite <- matchesFilter_clauses; [|done|unfold searchable; cbn [qf_page qf_Search]; by rewrite Hsrch].
  pose proof Hplain as [[_ Hto0] _ _ _]. rewrite exportFilter_window.
  change (microFilter _) with (qf_page (qf_window (parseQueryFilter r) (tz_round (queryTime r "from")) (tz_round (qf_To (exportFilter start r)))) MaxQueryLimit 0).
  rewrite matches_asked. change (ev_Timestamp (micro ev)) with (tz_round (ev_Timestamp ev)).
  rewrite <- (queryTime_asked r "from" (fun t => tz_round t <= _)), <- (queryTime_asked r "to" (fun t => _ <= tz_round t)).
  destruct Hf as [[Hfrom Hto] _ _ _]. change (qf_From (parseQueryFilter r)) with (queryTime r "from") in Hfrom.
  change (qf_To (parseQueryFilter r)) with (queryTime r "to") in Hto. cbn [qf_To qf_page] in Hto0.
  assert (Easks : asksFor r (micro ev) <-> asksFor r ev) by (split; intros [? ? ? ? ? ? ? ?]; by split).
  rewrite Easks, exportFilter_to in *. unfold IsZero in *.
  assert (Efrom : (tz_round (queryTime r "from") <> 0 -> tz_round (queryTime r "from") <= tz_round (ev_Timestamp ev)) <->
    (queryTime r "from" <> 0 -> tz_round (queryTime r "from") <= tz_round (ev_Timestamp ev))).
  { destruct (decide (queryTime r "from" = 0)) as [E|E]; [|naive_solver]. rewrite E, tz_micro by done. naive_solver. }
  rewrite Efrom. clear Efrom Easks Hfrom Hplain Hsrch Hev.
  destruct (Z.eqb_spec (queryTime r "to") 0) as [E|E].
  - rewrite E. naive_solver.
  - destruct (Z.min_spec start (queryTime r "to")) as [[Hlt ->]|[Hle ->]].
    + pose proof (tz_mono start (queryTime r "to") ltac:(lia)). naive_solver lia.
    + pose proof (tz_mono (queryTime r "to") start Hle). naive_solver lia.
Qed.

(** C30: the export is complete and stable.  The tables hold the events [base] and, at the time of each
    page, further events that are later by the microsecond than the start of the export.  If the request
    is not cancelled, the body is exactly the events of [base] that the query string asks for (its parameters as in the
    event list, from [from], up to [to] and not beyond the start of the export, in microseconds), newest
    first and by the collation of the IDs within a microsecond, each once, one JSON object per
    line; after 100000 of them it stops with a line that says so.  The parameters are values the columns can
    hold, and the search text, if any, is ASCII without wildcards over paths and errors in ASCII. *)
Theorem export_complete (fates : string -> nat -> fate) (clock : string -> Time) (now : Time) (flusher : bool) (env : Env) (r : Request)
  (base : list Event) (extra : nat -> list Event) (db : nat -> database)
  (Hdb : forall i, holdsAll (base ++ extra i)%list (db i)) (Hstart : 1000 <= env_start env)
  (Hnc : forall i, env_cancelled env i = false) (Hparams : plainFilter (parseQueryFilter r))
  (Hsearch : Forall (searchable (parseQueryFilter r)) base)
  (Hlater : forall i, Forall (fun ev => tz_round (env_start env) < tz_round (ev_Timestamp ev)) (extra i)) :
  exists all keep,
    ops_bytes (auditExportNDJSON (Logger0 := workerStore fates clock now) flusher env r db) =
      ndjson (map (fun ev => listed (micro ev)) (take (Z.to_nat 100000) all)) ++
      (if 100000 <=? Z.of_nat (length all) then Encode (JObj [("_export_truncated", JBool true); ("_limit", JInt 100000)]) else "") /\
    all ≡ₚ filter (fun ev => keep ev = true) base /\
    StronglySorted (fun x y => tz_round (ev_Timestamp y) < tz_round (ev_Timestamp x) \/
      (tz_round (ev_Timestamp x) = tz_round (ev_Timestamp y) /\ collate (ev_ID x) (ev_ID y) = true)) all /\
    forall ev, ev ∈ base -> (keep ev = true <->
      asksFor r ev /\ (forall t, timeAsked r "from" t -> tz_round t <= tz_round (ev_Timestamp ev)) /\
      tz_round (ev_Timestamp ev) <= tz_round (env_start env) /\ (forall t, timeAsked r "to" t -> tz_round (ev_Timestamp ev) <= tz_round t)).
Proof.
  set (start := env_start env) in *. assert (Hs : tz_round start <> 0) by (pose proof (tz_near start); lia).
  set (f := exportFilter start r).
  assert (Hplain : forall n : nat, Z.of_nat n < 100000 -> plainFilter (qf_page f MaxQueryLimit (Z.of_nat n)))
    by (intros n Hn; apply exportFilter_plain; [done|done|unfold maxInt; lia]).
  assert (Hsel : forall i, selected f (base ++ extra i)%list = selected f base).
  { intros i. unfold selected. rewrite filter_app, (filter_none _ (extra i)), app_nil_r; [done|]. intros ev Hev Hc.
    specialize (Hlater i). rewrite Forall_forall in Hlater. specialize (Hlater ev Hev). unfold filterClauses in Hc.
    rewrite !forallb_app, !andb_true_iff in Hc. destruct Hc as (_ & Hto & _). rewrite forallb_cond1, orb_true_iff, negb_involutive in Hto. unfold f in Hto.
    rewrite exportFilter_to in Hto. unfold IsZero in Hto. cbn [clauseTest] in Hto.
    destruct (Z.eqb_spec (queryTime r "to") 0) as [E|E]; [destruct Hto as [Hto|Hto]; bools; lia|].
    destruct Hparams as [[_ Hto0] _ _ _]. change (qf_To (parseQueryFilter r)) with (queryTime r "to") in Hto0.
    pose proof (tz_mono (Z.min start (queryTime r "to")) start ltac:(lia)).
    destruct Hto as [Hto|Hto]; bools; [|lia].
    destruct (Z.min_spec start (queryTime r "to")) as [[_ Em]|[_ Em]]; [lia|congruence]. }
  assert (Hbase : NoDup (map ev_ID base)) by (pose proof (ha_ids _ _ (Hdb 0%nat)) as Hnd; rewrite map_app in Hnd; by apply NoDup_app in Hnd as [? _]).
  assert (Hpage : forall i n, Z.of_nat n < 100000 -> exists l, l ≡ₚ selected f base /\ ordered rowOrder l /\
    lg_Query (Logger := workerStore fates clock now) (qf_page f MaxQueryLimit (Z.of_nat n)) (db i) = Ok (map summary (take 1000 (drop n l)))).
  { intros i n Hn. destruct (Hplain n Hn) as [_ Hcl _ Hoff].
    destruct (query_selected now _ (db i) _ (ha_events _ _ (Hdb i)) Hcl Hoff) as [(l & Hl & Hord & Hq) _].
    exists l. split; [by rewrite Hl, <- (Hsel i)|]. split; [done|]. cbn [lg_Query workerStore]. rewrite Hq. unfold effLimit, effOffset. cbn [qf_Limit qf_Offset qf_page].
    destruct (Z.ltb_spec (Z.of_nat n) 0); [lia|]. by rewrite Nat2Z.id. }
  destruct (Hpage 0%nat 0%nat ltac:(lia)) as (all & Hall & Hord & _).
  assert (Hsub : forall x, x ∈ all -> x ∈ base) by (intros x; rewrite Hall; by intros [_ ?]%list_elem_of_filter).
  exists all, (fun ev => forallb (clauseTest ev) (filterClauses f)). split; [|split; [done|split]].
  - rewrite (export_body flusher env r db (map summary all)); [|done|].
    + rewrite firstn_map, length_map. done.
    + intros i n Hn. destruct (Hpage i n Hn) as (l & Hl & Hol & Hq). etransitivity; [exact Hq|].
      replace l with all; [by rewrite skipn_map, firstn_map|].
      apply (rowOrder_unique base); try done. by rewrite Hall, Hl.
  - assert (Hnd : NoDup (map ev_ID all)).
    { rewrite Hall. eapply sublist_NoDup; [exact Hbase|]. apply sublist_map, sublist_filter. }
    clear - Hord Hnd. induction Hord as [|x l Hl IH Hx]; [constructor|]. cbn [map] in Hnd. apply NoDup_cons in Hnd as [Hx' Hnd].
    constructor; [by apply IH|]. rewrite Forall_forall in Hx |- *. intros y Hy. apply rowOrder_strict; [by apply Hx|].
    intros E. apply Hx'. rewrite E. by apply list_elem_of_fmap_2.
  - intros ev Hev. apply export_selects; [done|done|]. rewrite Forall_forall in Hsearch. by apply Hsearch.
Qed.
End Pipeline.

(** ** Witness *)

#[local] Existing Instance ascii_tables.
#[local] Existing Instance merge_slice.
#[local] Existing Instance plainLocale.
#[local] Existing Instance plainPostgres.
#[local] Existing Instance sorted_range.
#[local] Instance zeroFloats : FloatEnv := {| floatText _ := "0"; intOverflow _ := 0 |}.

(** Two requests are logged, the server shuts down, and the commit of the second write is refused. *)
Definition pipeFates (id : string) (i : nat) : fate := if String.eqb id "w2" && (i =? 3)%nat then Sql.Refused "shutting down" else Through.
Definition pipeTrace : list action :=
  [ALog (sampleEvent "" 5123 "/v1/a"); WReceive; ALog (sampleEvent "" 6000 "/v1/b"); WWrite "w1"; AClose; WStop; WDrain; WWrite "w2"; WExit].
Definition pipeRun : option (AsyncLogger database * history) :=
  @arun database (workerStore pipeFates (fun _ => 7000) 9000) pipeTrace (NewAsyncLogger ∅ 8, noHistory).
Definition eventsRequest : Request := portalRequest "/api/v1/portal/audit/events" "" [].

Lemma option_map_inv {A B} (f : A -> B) o y : option_map f o = Some y -> exists x, o = Some x /\ f x = y.
Proof. destruct o as [x|]; [|done]. intros [= <-]. by exists x. Qed.

Lemma pipe_outcome : exists s h, pipeRun = Some (s, h) /\ al_phase s = Exited /\
  h_written h = [("w1", sampleEvent "" 5123 "/v1/a"); ("w2", sampleEvent "" 6000 "/v1/b")].
Proof.
  assert (Hp : option_map (fun c => (al_phase c.1, h_written c.2)) pipeRun =
    Some (Exited, [("w1", sampleEvent "" 5123 "/v1/a"); ("w2", sampleEvent "" 6000 "/v1/b")])) by (vm_compute; reflexivity).
  apply option_map_inv in Hp as ([s h] & E & Hp). injection Hp as Hphase Hwritten. exists s, h. by split.
Qed.

Lemma pipe_landed : landed pipeFates [("w1", sampleEvent "" 5123 "/v1/a"); ("w2", sampleEvent "" 6000 "/v1/b")] = [sampleEvent "w1" 5123 "/v1/a"].
Proof. vm_compute. reflexivity. Qed.

Lemma audit_pipeline_witness : exists s h, pipeRun = Some (s, h) /\
  @auditEvents database (workerStore pipeFates (fun _ => 7000) 9000) eventsRequest (al_inner s) =
  @auditEvents MemoryLogger microLog eventsRequest (mkMemoryLogger [sampleEvent "w1" 5000 "/v1/a"]).
Proof.
  destruct pipe_outcome as (s & h & E & Hphase & Hwritten). exists s, h. split; [exact E|].
  pose proof pipe_landed as Hl. rewrite <- Hwritten in Hl.
  destruct (audit_pipeline pipeFates (fun _ => 7000) 9000 8 pipeTrace s h E Hphase) as (_ & Hshow & _).
  - rewrite Hwritten. by repeat constructor.
  - rewrite Hl. intros pre ev post Ev. destruct pre as [|a [|b pre]]; cbn in Ev; try discriminate. injection Ev as <- <-.
    split; [set_solver|vm_compute; reflexivity|done].
  - rewrite Hl in Hshow. apply (Hshow ltac:(done) eventsRequest); [split; [done|vm_compute; reflexivity|done|done]|].
    constructor; [by left|constructor].
Defined.

(** The export of one path while another request is logged. *)
Definition exportBase : list Event := [sampleEvent "e1" 5123 "/v1/a"; sampleEvent "e2" 6789 "/v1/b"; sampleEvent "e3" 8456 "/v1/a"].
Definition exportTables (i : nat) : database := logAll (map (fun ev => (0, ev)) (exportBase ++ [sampleEvent "e4" 50000 "/v1/a"])) ∅.
Definition exportRequestA : Request := portalRequest "/api/v1/portal/audit/export.ndjson" "path=/v1/a" [].

Lemma exportTables_hold i : holdsAll (exportBase ++ [sampleEvent "e4" 50000 "/v1/a"])%list (exportTables i).
Proof.
  set (evs := map (fun ev => (0, ev)) (exportBase ++ [sampleEvent "e4" 50000 "/v1/a"])%list).
  assert (E : (exportBase ++ [sampleEvent "e4" 50000 "/v1/a"])%list = ([] ++ map snd evs)%list) by (unfold evs; by vm_compute).
  rewrite E. apply (logAll_holds evs [] ∅); [split; [done|constructor|constructor]|].
  intros pre e post Ev. assert (Hok : Forall (fun e => ev_ID e.2 <> "" /\ eventOK e.2 = true /\ ev_Payload e.2 = None) evs)
    by (unfold evs; repeat (constructor; [by vm_compute|]); constructor).
  assert (Hnd : NoDup (map ev_ID (map snd evs))) by (apply (bool_decide_unpack _); by vm_compute).
  rewrite Ev in Hok, Hnd. apply Forall_app in Hok as [_ [(H1 & H2 & H3) _]%Forall_cons]. split; [done|]. split; [|done|by rewrite H3].
  rewrite !map_app in Hnd. apply NoDup_app in Hnd as (_ & Hnd & _). cbn [app]. intros Hin. apply (Hnd _ Hin). cbn [map]. by left.
Qed.

Lemma export_complete_witness :
  exists all, ops_bytes (auditExportNDJSON (Logger0 := workerStore pipeFates (fun _ => 0) 9000) true (exportEnv 40000) exportRequestA exportTables) =
    ndjson (map (fun ev => listed (micro ev)) (take (Z.to_nat 100000) all)) ++
      (if 100000 <=? Z.of_nat (length all) then Encode (JObj [("_export_truncated", JBool true); ("_limit", JInt 100000)]) else "") /\
    all ≡ₚ [sampleEvent "e1" 5123 "/v1/a"; sampleEvent "e3" 8456 "/v1/a"].
Proof.
  destruct (export_complete pipeFates (fun _ => 0) 9000 true (exportEnv 40000) exportRequestA exportBase (fun _ => [sampleEvent "e4" 50000 "/v1/a"])
    exportTables exportTables_hold) as (all & keep & Hbody & Hall & _ & Hkeep).
  - done.
  - done.
  - split; [done|vm_compute; reflexivity|done|done].
  - repeat constructor; by left.
  - intros i. repeat constructor.
  - exists all. split; [exact Hbody|]. rewrite Hall.
    assert (Hasks : forall ev, ev_Path ev = "/v1/a" -> asksFor exportRequestA ev).
    { intros ev Hp. split; [left; vm_compute; reflexivity|right; rewrite Hp; vm_compute; reflexivity|left; vm_compute; reflexivity|left; vm_compute; reflexivity
        |left; vm_compute; reflexivity|intros n E; vm_compute in E; discriminate E|split; intros E; vm_compute in E; discriminate E|left; vm_compute; reflexivity]. }
    assert (Hno : forall k t, k ∈ ["from"; "to"] -> ~ timeAsked exportRequestA k t).
    { intros k t Hk [E _]. set_unfold in Hk. destruct Hk as [->|[->|[]]]; vm_compute in E; discriminate E. }
    assert (H1 : keep (sampleEvent "e1" 5123 "/v1/a") = true).
    { apply Hkeep; [by left|]. split; [by apply Hasks|]. split; [intros t Ht; by destruct (Hno "from" t ltac:(by left))|]. split; [by vm_compute|].
      intros t Ht. by destruct (Hno "to" t ltac:(right; by left)). }
    assert (H2 : keep (sampleEvent "e2" 6789 "/v1/b") <> true).
    { intros Hk. apply Hkeep in Hk as [[_ [E|E] _ _ _ _ _ _] _]; [vm_compute in E; discriminate E|vm_compute in E; discriminate E|right; by left]. }
    assert (H3 : keep (sampleEvent "e3" 8456 "/v1/a") = true).
    { apply Hkeep; [right; right; by left|]. split; [by apply Hasks|]. split; [intros t Ht; by destruct (Hno "from" t ltac:(by left))|]. split; [by vm_compute|].
      intros t Ht. by destruct (Hno "to" t ltac:(right; by left)). }
    unfold exportBase. by rewrite filter_cons_True, filter_cons_False, filter_cons_True by done.
Defined.
