(* ===== verification/Journey.v ===== *)
(** * From a request to the portal's page on it

    The server with the logger [Build] gives it when auditing is enabled: the handler stack of
    [EndToEnd] in front of the queue and the tables of [Pipeline]. *)
From S2P Require Import Pagination DataEndpoints FailureEndpoints InspectEndpoints SecurityEndpoints.
From S2P Require Import StreamEndpoints ExportEndpoints.
From S2P Require Import Prelude GoStrings GoNum GoTime GoUrl Json JsonParse AuditEvent MemoryLog AsyncLog Sql PgStore PgRows.
From S2P Require Import Http ServeMux Registry Inbound Middleware Config Session Server Routing EndToEnd BrowserAuth ApiKeys GoUrlParse.
From S2P Require Import PortalApi PgAudit Pipeline.

(** [*AsyncLogger] as an [audit.Logger]: [Log] only enqueues and reports no error, reads go to the
    inner logger. *)
Definition AsyncLogger_Logger {L} (inner : Logger L) : Logger (AsyncLogger L) := {|
  lg_Log _ ev s := Ok (AsyncLog.Log ev s);
  lg_Query f s := AsyncLog.Query f s;
  lg_Count f s := AsyncLog.Count f s
|}.
(** [*postgres.Store] and, through [GetPayload], the queue in front of it read payloads. *)
Definition pgPayloads `{Postgres} (now : Time) : PayloadLogger database := {| lg_GetPayload id db := Store.GetPayload Through now id db |}.
Definition asyncPayloads {L} (inner : Logger L) (pl : PayloadLogger L) : PayloadLogger (AsyncLogger L) :=
  {| lg_GetPayload id s := AsyncLog.GetPayload (Some pl) id s |}.

Section Lookup.
Context `{Postgres}.

(** The filter of the page has one clause, which one event of a list with distinct IDs meets. *)
Lemma clauses_byID id : id <> "" -> filterClauses (byID id) = [(CID, VText id)].
Proof. intros Hid. unfold filterClauses, byID. cbn. by destruct (String.eqb_spec id ""). Qed.

Lemma selected_byID m ev : NoDup (map ev_ID m) -> ev ∈ m -> ev_ID ev <> "" -> selected (byID (ev_ID ev)) m = [ev].
Proof.
  intros Hnd Hin Hne. unfold selected. rewrite clauses_byID by done.
  assert (Ht : forall e, forallb (clauseTest e) [(CID, VText (ev_ID ev))] = String.eqb (ev_ID e) (ev_ID ev)) by (intros e; cbn; by rewrite andb_true_r).
  induction m as [|x m IH]; [by apply elem_of_nil in Hin|]. cbn [map] in Hnd. apply NoDup_cons in Hnd as [Hx Hnd].
  destruct (decide (x = ev)) as [->|Hneq].
  - rewrite filter_cons_True by (by rewrite Ht, String.eqb_refl). f_equal. apply filter_none. intros y Hy.
    rewrite Ht. destruct (String.eqb_spec (ev_ID y) (ev_ID ev)) as [E|]; [|done]. exfalso. apply Hx. rewrite <- E.
    by apply list_elem_of_fmap_2.
  - apply elem_of_cons in Hin as [->|Hin]; [done|]. rewrite filter_cons_False; [by apply IH|]. rewrite Ht.
    destruct (String.eqb_spec (ev_ID x) (ev_ID ev)) as [E|]; [|done]. exfalso. apply Hx. rewrite E. by apply list_elem_of_fmap_2.
Qed.

Lemma query_byID now m db ev : holdsAll m db -> ev ∈ m -> ev_ID ev <> "" -> textOK (ev_ID ev) = true ->
  Store.Query Through now (byID (ev_ID ev)) db = Ok [summary ev].
Proof.
  intros Hh Hin Hne Ht. destruct (query_selected now (byID (ev_ID ev)) db m (ha_events _ _ Hh)) as [(l & Hl & _ & ->) _].
  - rewrite clauses_byID by done. cbn. by rewrite Ht.
  - done.
  - rewrite (selected_byID m ev (ha_ids _ _ Hh) Hin Hne) in Hl. by apply Permutation_singleton_r in Hl as ->.
Qed.

Lemma payload_byID m ev : NoDup (map ev_ID m) -> ev ∈ m -> getPayload_loop m (ev_ID ev) = ev_Payload ev.
Proof.
  intros Hnd Hin. induction m as [|x m IH]; [by apply elem_of_nil in Hin|]. cbn [map] in Hnd. apply NoDup_cons in Hnd as [Hx Hnd].
  cbn [getPayload_loop]. apply elem_of_cons in Hin as [->|Hin]; [by rewrite String.eqb_refl|].
  destruct (String.eqb_spec (ev_ID x) (ev_ID ev)) as [E|]; [|by apply IH]. exfalso. apply Hx. rewrite E. by apply list_elem_of_fmap_2.
Qed.
End Lookup.

(** ** One request *)

Section Journey.
Context `{UnicodeTables} `{SortSlice} `{JsonAny} `{Float64} `{Postgres} `{UrlHost} `{SliceJSON} `{UUID}.
Variables (fates : string -> nat -> fate) (clock : string -> Time) (now : Time).

(** The queue over the tables, as the handlers and the portal see it. *)
#[local] Instance storeLogger : Logger database := workerStore fates clock now.
#[local] Instance queueLogger : Logger (AsyncLogger database) := AsyncLogger_Logger storeLogger.
Context `{PS : !PortalStore (AsyncLogger database)}.

(** An event that was written by the time the worker has exited, and whose write took effect, is what
    the portal's page on its ID shows. *)
Lemma page_of_landed bufferSize tr s h newID ev :
  arun tr (NewAsyncLogger ∅ bufferSize, noHistory) = Some (s, h) ->
  ps_payloads = Some (asyncPayloads storeLogger (pgPayloads now)) ->
  Forall (fun w => w.1 <> "") (h_written h) ->
  (forall pre ev post, landed fates (h_written h) = (pre ++ ev :: post)%list -> storable pre ev) ->
  (newID, ev) ∈ h_written h -> lands (fates newID) ev = true ->
  forall pr, uuid_Parse (PathValue pr "id") = Some (ev_ID (withNewID newID ev)) ->
    auditEventDetail pr s = writeJSON_opt 200 (jsonEvent (micro (withNewID newID ev))).
Proof.
  intros Hrun Hps Hids Hst Hw Hl pr Hpr. destruct (run_holds fates clock now bufferSize tr s h Hrun Hids Hst) as [Hh Hpay].
  set (shown := landed fates (h_written h)) in *. set (ev' := withNewID newID ev) in *.
  assert (Hin : ev' ∈ shown) by (by apply in_landed).
  assert (Hne : ev_ID ev' <> "").
  { rewrite Forall_forall in Hids. specialize (Hids _ Hw). unfold ev', withNewID. by destruct (String.eqb_spec (ev_ID ev) ""). }
  assert (Htext : textOK (ev_ID ev') = true).
  { apply list_elem_of_split in Hin as (pre & post & E). destruct (Hst pre ev' post E) as [_ Hok _]. by apply eventOK_parts in Hok as [? _]. }
  unfold auditEventDetail. rewrite Hpr, Hps. cbn [lg_Query queueLogger AsyncLogger_Logger lg_GetPayload asyncPayloads].
  unfold AsyncLog.Query, AsyncLog.GetPayload. cbn [lg_Query storeLogger workerStore lg_GetPayload pgPayloads].
  rewrite (query_byID now shown _ ev' Hh Hin Hne Htext), (getPayload_holds now shown _ _ Hh Hpay Htext).
  rewrite (payload_byID shown ev' (ha_ids _ _ Hh) Hin). by destruct ev'.
Qed.

Lemma arun_app tr1 : forall tr2 c c1, arun (L := database) tr1 c = Some c1 -> arun (tr1 ++ tr2)%list c = arun tr2 c1.
Proof.
  induction tr1 as [|a tr1 IH]; intros tr2 c c1; [by intros [= ->]|]. cbn [arun app]. destruct (astep a c.1); [apply IH|done].
Qed.

Lemma atClose_kept tr : forall c c' ev, arun (L := database) tr c = Some c' -> ev ∈ h_accepted c.2 ->
  (forall l, h_atClose c.2 = Some l -> ev ∈ l) -> forall l, h_atClose c'.2 = Some l -> ev ∈ l.
Proof.
  induction tr as [|a tr IH]; intros c c' ev; [by intros [= <-]|]. cbn [arun]. destruct (astep a c.1) as [s1|]; [|done].
  intros Hr Hin Hc. apply (IH _ _ ev Hr); cbn [snd]; clear IH Hr; destruct a; cbn [observe h_accepted h_atClose]; try done.
  - destruct (_ <? _)%nat; [apply elem_of_app; by left|done].
  - by destruct (al_phase _).
  - intros l. destruct (h_atClose c.2) eqn:E; [|by intros [= <-]]. intros [= ->]. by apply Hc.
  - by destruct (al_phase _).
Qed.

(** An event accepted while the queue is open is written before [Close] returns. *)
Lemma accepted_written bufferSize tr1 s1 h1 ev tr2 s2 h2 :
  arun (L := database) tr1 (NewAsyncLogger ∅ bufferSize, noHistory) = Some (s1, h1) ->
  h_atClose h1 = None -> (length (al_ch s1) < al_cap s1)%nat ->
  arun tr2 (AsyncLog.Log ev s1, observe (ALog ev) s1 h1) = Some (s2, h2) -> al_phase s2 = Exited ->
  arun (tr1 ++ ALog ev :: tr2)%list (NewAsyncLogger ∅ bufferSize, noHistory) = Some (s2, h2) /\ exists newID, (newID, ev) ∈ h_written h2.
Proof.
  intros Hrun Hopen Hroom Hrun2 Hexit. assert (Hall : arun (tr1 ++ ALog ev :: tr2)%list (NewAsyncLogger ∅ bufferSize, noHistory) = Some (s2, h2))
    by (by rewrite (arun_app _ _ _ _ Hrun)).
  split; [done|]. pose proof (AInv_run ∅ _ _ _ Hall (AInv_init ∅ bufferSize)) as [_ _ _ _ _ _ _ Hex].
  destruct (Hex Hexit) as (before & Hb & [rest Hpre]). cbn [fst snd] in *.
  assert (Hin : ev ∈ before).
  { apply (atClose_kept _ _ _ ev Hrun2); [|cbn; by rewrite Hopen|done].
    cbn [snd observe h_accepted]. apply Nat.ltb_lt in Hroom. rewrite Hroom. apply elem_of_app. right. by apply list_elem_of_singleton. }
  assert (Hw : ev ∈ map snd (h_written h2)) by (rewrite Hpre; apply elem_of_app; by left).
  apply list_elem_of_fmap in Hw as ([newID ?] & -> & Hw). by exists newID.
Qed.

(** C2: a request ends up on the portal's page.  Take a request for an instance of an enabled route,
    its path values plain, that is not OPTIONS and asks for no informational status, that the
    credential chain accepts and that is served while the audit queue is open and has room.  Whatever the
    other requests, the worker and the shutdown do afterwards, and in whichever order, by the time
    [Close] has returned the worker has handed the request's event to the store; the event has the status, byte count,
    request id, subject and route the client was served with.  If the database can store the events
    (fresh IDs, texts and numbers the columns and indexes hold, replay references that exist) and that write
    takes effect, the portal's page on the event's ID shows exactly that event, payload
    included, with its timestamp in microseconds. *)
Theorem request_reaches_portal (cfg : Config) (chain : Chain) (portal : option (PortalDeps (L := AsyncLogger database)))
  (oapi : option (string * string)) (env : Env) (r : Request) (e : routeEntry) (vs segs : list string)
  (id : Identity) (sv : ServerState (AsyncLogger database)) (bufferSize : Z) (tr1 : list action) (h1 : history)
  (Hportal : portalElsewhere portal = true) (He : e ∈ rg_flat (buildRegistry cfg))
  (Hi : instance (re_segs e) vs = Some segs) (Hv : forallb plainSeg vs = true)
  (Hmethod : r_Method r = m_Method (re_meta e)) (Hopt : r_Method r <> "OPTIONS")
  (Hpath : r_Path r = join_path segs /\ r_EscapedPath r = join_path segs) (Hctx : ctx_Identity (r_Context r) = None)
  (binds := list_to_map (zip (wildNames (re_segs e)) vs) : gmap string string)
  (Hstatus : informational (Atoi (default "" (binds !! "code"))).1 = false)
  (Hauth : Chain_Authenticate chain (routedRequest env r binds) = Ok id)
  (Hchunks : forall b, sconcat (env_chunks env b) = b)
  (Hrun : arun tr1 (NewAsyncLogger ∅ bufferSize, noHistory) = Some (sv_audit sv, h1))
  (Hopen : h_atClose h1 = None) (Hroom : (length (al_ch (sv_audit sv)) < al_cap (sv_audit sv))%nat)
  (Hps : ps_payloads = Some (asyncPayloads storeLogger (pgPayloads now))) :
  let out := Application_mux cfg chain portal oapi conn _ env r (sv, newConn) in
  exists ev, sv_audit out.1 = AsyncLog.Log ev (sv_audit sv) /\
    ev_Status ev = finalStatus out.2 /\ ev_BytesOut ev = len (c_body out.2) /\ ev_RequestID ev = requestID env r /\
    (ev_AuthType ev, ev_UserSubject ev) = (id_AuthType id, id_Subject id) /\
    (ev_EndpointGroup ev, ev_RouteName ev) = (re_group e, m_Name (re_meta e)) /\
    forall tr2 s2 h2, arun tr2 (sv_audit out.1, observe (ALog ev) (sv_audit sv) h1) = Some (s2, h2) -> al_phase s2 = Exited ->
    exists newID, (newID, ev) ∈ h_written h2 /\
      (Forall (fun w => w.1 <> "") (h_written h2) ->
       (forall pre x post, landed fates (h_written h2) = (pre ++ x :: post)%list -> storable pre x) ->
       lands (fates newID) ev = true ->
       forall pr, uuid_Parse (PathValue pr "id") = Some (ev_ID (withNewID newID ev)) ->
         auditEventDetail pr s2 = writeJSON_opt 200 (jsonEvent (micro (withNewID newID ev)))).
Proof.
  destruct Hpath as [Hp Hep].
  destruct (route_found cfg (endpointMW chain (buildRegistry cfg) (auditOptions cfg)) portal oapi e vs segs
    Hportal He Hi Hv) as (Hroute & g & h & Hg & Hgn & Hgm & Hd).
  destruct (mounted_tame cfg (servedRequest env r binds id) g _ h Hg Hgm Hstatus env) as [Hplain Hkeep].
  rewrite <- Hmethod, <- Hp in Hroute. rewrite <- Hmethod, <- Hep in Hd.
  destruct (trace_consistent cfg chain portal oapi env r _ binds h id sv Hopt (route_not_root cfg e vs segs r He Hi Hv Hp)
    Hctx Hd Hauth Hplain Hkeep (Hchunks _)) as (_ & _ & line & ev & _ & Haud & _ & Hst & _ & Hby & _ & Hrid & _ & Hid & _ & Hrt).
  rewrite Hroute in Hrt. cbn [lg_Log queueLogger AsyncLogger_Logger] in Haud. exists ev. split_and!; try done.
  intros tr2 s2 h2 Hrun2 Hexit. rewrite Haud in Hrun2.
  destruct (accepted_written _ _ _ _ _ _ _ _ Hrun Hopen Hroom Hrun2 Hexit) as (Hall & newID & Hw). exists newID. split; [done|].
  intros Hids Hsto Hl. by apply (page_of_landed bufferSize (tr1 ++ ALog ev :: tr2)%list s2 h2 newID ev).
Qed.
End Journey.

(** ** Witness *)

#[local] Existing Instance ascii_tables.
#[local] Existing Instance scaledFloat.
#[local] Existing Instance merge_slice.
#[local] Existing Instance noJson.
#[local] Existing Instance plainHosts.
#[local] Existing Instance nullSlices.
#[local] Existing Instance plainUUID.
#[local] Existing Instance plainLocale.
#[local] Existing Instance plainPostgres.

Definition allThrough (_ : string) (_ : nat) : fate := Through.
Definition queueStore : PortalStore (AsyncLogger database) := {|
  ps_payloads := Some (asyncPayloads (storeLogger allThrough (fun _ => 7000) 9000) (pgPayloads 9000));
  ps_tables s := al_inner s;
  ps_setTables db s := mkAsync db (al_ch s) (al_cap s) (al_dropped s) (al_stopped s) (al_phase s);
  ps_create := ps_create (PortalStore := memoryStore);
  ps_fate _ := Through;
  ps_now _ := 9000
|}.
Definition queueState : ServerState (AsyncLogger database) := mkState (NewAsyncLogger ∅ 8) None [] "" true ∅ [].
(** The worker takes the event, the server shuts down. *)
Definition restOfRun : list action := [WReceive; WWrite sampleUUID; AClose; WStop; WExit].
Definition pageRequest : Request :=
  WithPathValues (portalRequest ("/api/v1/portal/audit/events/" ++ sampleUUID) "" []) {["id" := sampleUUID]}.
Definition journeyOut : ServerState (AsyncLogger database) * conn :=
  Application_mux (Logger0 := queueLogger allThrough (fun _ => 7000) 9000) traceCfg closedChain None None conn _ sampleEnv (fixedRequest "GET")
    (queueState, newConn).
Definition journeyEvent : Event := hd (sampleEvent "" 0 "") (al_ch (sv_audit journeyOut.1)).

#[local] Instance witnessLogger : Logger database := storeLogger allThrough (fun _ => 7000) 9000.

Lemma rest_run ev : exists s2, arun restOfRun (AsyncLog.Log ev (sv_audit queueState), observe (ALog ev) (sv_audit queueState) noHistory) =
  Some (s2, mkHistory [ev] [ev] [(sampleUUID, ev)] (Some [ev])) /\ al_phase s2 = Exited.
Proof. eexists. split; reflexivity. Qed.

Lemma single_split {A} (a x : A) pre post : [a] = (pre ++ x :: post)%list -> pre = [] /\ x = a.
Proof. destruct pre as [|b [|c pre]]; cbn; intros E; try discriminate. by injection E as <- <-. Qed.

Lemma journey_storable pre x post : landed allThrough [(sampleUUID, journeyEvent)] = (pre ++ x :: post)%list -> storable pre x.
Proof.
  assert (E : landed allThrough [(sampleUUID, journeyEvent)] = [ev_withID journeyEvent sampleUUID]) by (vm_compute; reflexivity). rewrite E.
  intros [-> ->]%single_split. split; [apply not_elem_of_nil|vm_compute; reflexivity|]. intros p Hp. exfalso.
  assert (Hn : ev_Payload (ev_withID journeyEvent sampleUUID) = None) by (vm_compute; reflexivity). by rewrite Hn in Hp.
Qed.

Lemma request_reaches_portal_witness : exists s2 h2,
  arun restOfRun (sv_audit journeyOut.1, observe (ALog journeyEvent) (sv_audit queueState) noHistory) = Some (s2, h2) /\
  auditEventDetail (Logger0 := queueLogger allThrough (fun _ => 7000) 9000) (PortalStore0 := queueStore) pageRequest s2 =
  writeJSON_opt 200 (jsonEvent (micro (ev_withID journeyEvent sampleUUID))).
Proof.
  destruct (request_reaches_portal allThrough (fun _ => 7000) 9000 (PS := queueStore) traceCfg closedChain None None sampleEnv (fixedRequest "GET")
    traceEntry ["k1"] ["v1"; "fixed"; "k1"] (apikeyIdentity "dev") queueState 8 [] noHistory) as (ev & Hlog & _ & _ & _ & _ & _ & Hpage);
    [done|exact traceEntry_in|done|done|done|done|done|done|by vm_compute|by vm_compute|exact sampleEnv_chunks|done|done|cbn; lia|done|].
  fold journeyOut in Hlog, Hpage. assert (Hev : journeyEvent = ev) by (unfold journeyEvent; by rewrite Hlog).
  destruct (rest_run ev) as (s2 & Hrun & Hexit). rewrite <- Hlog in Hrun.
  destruct (Hpage restOfRun s2 _ Hrun Hexit) as (newID & Hw & Hshow). apply list_elem_of_singleton in Hw. injection Hw as ->.
  rewrite <- Hev in Hrun, Hshow. exists s2. eexists. split; [exact Hrun|].
  assert (Hid : withNewID sampleUUID journeyEvent = ev_withID journeyEvent sampleUUID) by (vm_compute; reflexivity). rewrite <- Hid.
  apply Hshow; [by repeat constructor|apply journey_storable|vm_compute; reflexivity|vm_compute; reflexivity].
Defined.
